(* ===== verification/_CoqProject ===== *)
-Q . S2P
Prelude.v
Allocator.v
Kmalloc.v
PageArith.v
Vmm.v
VmmRules.v
VmmRanges.v
VmmFree.v
VmmTree.v
VmmSpace.v
Spaces.v
VmmProps.v
VmmClone.v
Mem.v
CString.v
Itoa.v
Multiboot.v
Pmm.v
Paging.v
Tty.v
Printk.v
PortIo.v
MemoryMap.v
Pic.v
Gdt.v
Ps2.v
Sched.v
Elf.v
Idt.v
Kernel.v
Syscall.v
PageFault.v
Handlers.v
Task.v
System.v
Mmu.v
Loader.v
Init.v
UserTask.v
Startup.v
KMain.v
Running.v
Boot.v
