(* ===== verification/Prelude.v ===== *)
(** * A verification of the gubos kernel

    gubos is a small 32-bit kernel for the PC.  Its parts, and how they use each
    other:

    - the boot loader leaves a description of the machine (kernel/include/multiboot2.h);
      the bootstrap code maps the kernel to the upper part of the address space and
      enters it;
    - memory: a page allocator (arch/i386/mm/pmm.c) hands out frames, paging.c builds
      the page tables, kmalloc.c is the kernel heap, and the virtual memory manager
      (vmm.c), which takes its nodes from the heap, keeps for every address space a
      list of free ranges and a tree of allocations; a page of an allocation enters
      the page tables when it is first touched (interrupts/page_fault.c);
    - interrupts: the descriptor tables (gdt.c, interrupts/idt.c), the interrupt
      controllers (drivers/pic.c), the handlers (interrupts/handlers.c) and the
      system calls (kernel/syscall);
    - tasks: task.c makes them, sched.c keeps them in a ring that the timer interrupt
      drives, task_switch.S changes from one to the other;
    - devices and output: the keyboard controller (drivers/ps2.c), the text console
      (tty.c, vga.c), the kernel log (printk.c, itoa.c) and the string functions;
    - programs: elf/elf.c checks the header of a program, elf/loader.c loads it, init.c
      makes the first user tasks, and kernel.c starts everything in order.

    ** Conventions

    Machine integers are [Z] with the wrap-around of their type written out ([u8],
    [u32], ...).  A C function is a computation in [M S]: it maps a state [S] to [Ok]
    of its result and the new state, or to an [error]: a PANIC or failed ASSERT
    ([EPanic], with the format string of the message), an access to no live object
    ([EFault]), undefined behaviour ([EUndef]), or a loop that never ends ([EFuel]).
    [wp m Q s] is total correctness: [m] returns from [s], with [Q]; so a theorem
    with [wp] also shows that the code neither panics, nor faults, nor loops.
    [has_type I m R] is the typing judgement: where [m] returns, [I] is kept.

    Loops that are not structural have fuel.  It is computed from the state and is
    one more than the number of nodes (or of bytes, or of addresses) the loop could
    visit without repeating one, so running out of it means that the C loop does not
    end.  Only the polling loops of the keyboard driver have a bound of their own,
    [patience], a parameter: the device decides how often they run.

    What is asked of frames (that there is memory behind them, that the modules are not among
    those handed out) is asked below a limit only ([Limit] of Pmm), which the allocator,
    taking the lowest free frame, does not come to; a theorem holds for every limit below
    which enough frames are free.

    Memory is a store per kind of object: bytes by address in [Mem] for the string
    functions and the boot information; 32-bit words by virtual address for page
    tables and stacks; list nodes, tree nodes, task nodes and control blocks by
    address, each with its own map, for what kmalloc returns.  That these do not
    overlap is what [Allocator] promises of the heap, and the theorems of [Kmalloc]
    show.

    ** Files

    - Prelude: integers, results, the monad, [wp] and its rules, counting loops, typing.
    - Allocator: the interface of the heap, as its clients use it (a class with its
      laws).  Kmalloc: kmalloc.c, the heap invariant and the instance of the class.
    - PageArith: page constants, kernel_meminfo_t, address arithmetic.
    - Vmm: vmm.c, every operation.  VmmRules, VmmRanges, VmmFree, VmmTree, VmmSpace:
      rules for the stores, the free list as a list of ranges, the allocations as a
      search tree, and the two together ([ctx_rep]: a context has these free ranges
      and these allocations; unmapping leaves allocations of no pages, which the tree
      keeps, at the edges of the free ranges, [stubs_ok]).  Spaces: several address spaces in one heap.  VmmProps: the theorems, and
      instances on the address space the kernel builds at boot.  VmmClone: the copy that
      vmm_clone_context makes.
    - Mem, CString, Itoa: byte memory, kernel/string, itoa.c.
    - Multiboot: the walks over the boot information.  Pmm: pmm.c.  MemoryMap: the
      entries of the memory map, what pmm_init makes of them, and the printing functions.
    - Paging: paging.c and paging_bootstrap.c, with the address translation of the
      processor ([walk]).
    - Tty, Printk: the console and printk.c, with a reference layout of text on a
      screen.
    - PortIo, Pic, Ps2, Gdt, Idt: port access as a trace, the drivers, the tables.
      What a port read returns is a parameter ([device]); a theorem that needs a
      device names what it asks of it, and its witness has a concrete one.
    - Sched: sched.c, task.h and the task switch.  Elf: elf.c.
    - Kernel: the state of the running kernel, composed of the states above.
      Syscall, PageFault, Handlers, Task: the parts that work on all of it.
    - Mmu: the machine, that is the kernel's state and the bytes of physical memory;
      an access of the kernel to a virtual address goes through the page tables, and
      a page that is absent is brought in by the page fault handler.  String functions
      and the header check are generic over the memory ([ByteMemory]), so that they run
      on it as on plain bytes.  Loader: elf/loader.c on this machine.  Init: init.c and
      init_user_mode.S.  UserTask: theorems on init.c as a whole, from the header of the
      program to its start in user mode.  Startup: every step of kernel_main's task
      creation, from a kernel that is up to one that is up, and what the later steps leave
      of the earlier ones.  KMain: kernel.c, the composition of all parts at boot.
      Running: the end of kernel_main, from init_sched on.  Boot: kernel_main as a whole,
      from the machine that the boot loader leaves to the state that System starts from.
    - System: the kernel after boot as a machine of events (interrupts and the steps of
      tasks), its invariant over all runs, and which events it survives.

    ** What the theorems show

    Heap: blocks handed out never overlap in any reachable state; kmalloc is first
    fit; a freed block is reused.  Address spaces: mapping, looking up, freeing and
    unmapping do what an abstract set of ranges and allocations does; vmm_init maps
    every section of the kernel.  Frames: allocation takes the lowest free page, and
    ranges are marked exactly.  Page tables: the processor translates what was mapped,
    at boot and afterwards, and what rights the other pages of the region are left with; a
    page fault makes the faulting page translated.  Tasks: a
    new task starts in its function and ends in sched_remove; a user task shares the
    mappings of the kernel; the timer runs the tasks of the ring in turn.
    Interrupts: every vector with a gate reaches its routine.  Output: the screen shows the
    last lines of the text written; printk writes the text its format describes, but for
    %llu and %llX of more than one digit.  Devices: the controllers end in the state
    that is wanted; the keyboard queue stays within bounds.  Programs: the call of
    init_create_user_task, all of it, from a state in which its memory is free makes a
    complete task (its segment, its user stack, its directory, its first frame), changes
    nothing else and leaves the kernel up for the next task ([user_task_created]); the
    task starts in user mode at the entry point of the program ([user_task_enters]), and a
    program or process id that is not accepted halts the machine ([init_task_outcome]); a
    copied address space is independent of the original.  Boot:
    with the memory managers up, the frames in use, the translation of the processor and
    the kernel's address space are those of the layout, and no frame of the kernel is
    handed out again; kernel_main returns in three cases and goes on to create the tasks
    otherwise ([kernel_main_branches]); with two modules it comes to its idle loop with the
    six tasks in the ring and the invariant of all later runs established
    ([kernel_main_runs]).  After boot: in every run the fields of the scheduler, the bitmap,
    memory and the keyboard queue stay well typed and the ring of tasks well formed, the processor is always on the page directory and interrupt stack
    of the running task, only the timer moves the next task, and the events that halt the
    machine are exactly those that [run_event_survives] excludes.

    Where the code does not do what it means to, a theorem says what it does instead
    (for instance [page_fault_aliases], [sys_exit_endless], [unmap_root_loses_allocation],
    [pmm_free_page_frees_nothing], [paging_unmap_drops_region]); the theorems of normal
    behaviour then name the condition under which the code is right.

    ** Not modelled

    - kernel_main and the calls in it are one run without interrupts.  In the code
      do_task_switch turns interrupts on (sti), which init_sched calls before the other
      tasks are made, so a tick or a key could come in between; System has them from the end
      of kernel_main on.  The registers that do_task_switch pushes are not written to the
      stack, only the stack pointer moves.
    - a task can write words of memory ([EvWrite]), but not the nodes of the ring, the
      control blocks, the nodes of the address spaces and the headers of the heap, which are
      stores of their own.  vmm_clone_paging_context writes the new directory at once
      ([copy_table]); in the code the first write to it is a page fault that maps it.
    - the memory that kmalloc hands out has some content, and vmm_clone_context leaves links
      of new nodes uninitialised: their content is a parameter ([junk]), and the theorems that
      copy an address space ask that it be zeros ([null_links]; [clone_keeps_old_links] is
      what happens otherwise).
    - the rights of a page: [walk] gives the table entry and the address, [walk_rights] what
      both entries grant, which [paging_map_translates] is about; accesses of the kernel
      itself (Mmu) are not checked against them, since the kernel runs without write protection.
    - the keyboard controller is a parameter; [ready_controller] says what boot asks of it.
    - the theorems on loading are for files and segments of one page: init.c maps one
      page of the file, and larger segments halt the machine ([segment_overrun_panics]);
      and for programs with one segment to load.
    - what the linker and the boot loader choose is a hypothesis of [kernel_main_runs] (the
      layout of the kernel, the two modules, the free ranges that the requests find); the
      witness has one choice of each.  The bytes of the heap and of the page tables are
      stores of their own, so a module must not lie in the frames of the kernel.
    - assembly that runs before C does, the entry code of the system call, the linker script, panic and halt, TLB invalidation: single instructions, or code whose effect is a parameter or an error of the model.
    - libc and programs: stubs. *)

From Stdlib Require Export ZArith Lia.
From stdpp Require Export base numbers strings gmap list.

#[global] Open Scope Z_scope.

(** ** Machine integers

    A [w]-bit unsigned C integer is a [Z] in [0, 2^w); every C operation that
    can leave that range is followed by the wrap-around of its type. *)

Module Width.

Definition u8 (z : Z) : Z := z mod 2 ^ 8.
Definition u16 (z : Z) : Z := z mod 2 ^ 16.
Definition u32 (z : Z) : Z := z mod 2 ^ 32.
Definition u64 (z : Z) : Z := z mod 2 ^ 64.

(** Conversion to a signed two's complement type of [w] bits. *)
Definition to_signed (w z : Z) : Z :=
  let r := z mod 2 ^ w in if r <? 2 ^ (w - 1) then r else r - 2 ^ w.

Definition is_u8 (z : Z) : Prop := 0 <= z < 2 ^ 8.
Definition is_u16 (z : Z) : Prop := 0 <= z < 2 ^ 16.
Definition is_u32 (z : Z) : Prop := 0 <= z < 2 ^ 32.
Definition is_u64 (z : Z) : Prop := 0 <= z < 2 ^ 64.

#[global] Instance is_u8_dec z : Decision (is_u8 z).
Proof. unfold is_u8. apply _. Defined.
#[global] Instance is_u32_dec z : Decision (is_u32 z).
Proof. unfold is_u32. apply _. Defined.

Lemma u8_range z : is_u8 (u8 z).
Proof. apply Z.mod_pos_bound. lia. Qed.
Lemma u16_range z : is_u16 (u16 z).
Proof. apply Z.mod_pos_bound. lia. Qed.
Lemma u32_range z : is_u32 (u32 z).
Proof. apply Z.mod_pos_bound. lia. Qed.
Lemma u64_range z : is_u64 (u64 z).
Proof. apply Z.mod_pos_bound. lia. Qed.

Lemma u8_small z : is_u8 z → u8 z = z.
Proof. intros. apply Z.mod_small. assumption. Qed.
Lemma u32_small z : is_u32 z → u32 z = z.
Proof. intros. apply Z.mod_small. assumption. Qed.
Lemma u64_small z : is_u64 z → u64 z = z.
Proof. intros. apply Z.mod_small. assumption. Qed.

End Width.
Export Width.

Create HintDb width discriminated.
#[export] Hint Resolve u8_range u16_range u32_range u64_range : width.

(** [ulia]: linear arithmetic with the ranges and the wrap-arounds of the
    machine types unfolded. *)
Ltac unfold_width :=
  unfold is_u8, is_u16, is_u32, is_u64, u8, u16, u32, u64 in *;
  change (2 ^ 8) with 256 in *; change (2 ^ 16) with 65536 in *;
  change (2 ^ 32) with 4294967296 in *;
  change (2 ^ 64) with 18446744073709551616 in *.

Ltac ulia := unfold_width; (lia || (Z.div_mod_to_equations; lia)).

(** ** Results and the state-and-error monad

    A C function that can stop the machine is a computation that returns
    either [Ok] or one of the errors below. *)

Inductive error : Type :=
  | EPanic (msg : string)  (** PANIC or a failed ASSERT: the machine halts *)
  | EFault (addr : Z)      (** an access through a pointer to no live object *)
  | EUndef (why : string)  (** an operation C leaves undefined *)
  | EFuel.                 (** the loop never ends *)

Inductive result (A : Type) : Type :=
  | Ok (a : A)
  | Err (e : error).
Arguments Ok {A} _.
Arguments Err {A} _.

(** The value a computation returned, if it returned. *)
Definition value {A S} (r : result (A * S)) : option A :=
  match r with Ok (a, _) => Some a | Err _ => None end.

Definition M (S A : Type) : Type := S → result (A * S).

#[global] Instance M_ret (S : Type) : MRet (M S) := λ A a s, Ok (a, s).
#[global] Instance M_bind (S : Type) : MBind (M S) := λ A B f m s,
  match m s with
  | Ok (a, s') => f a s'
  | Err e => Err e
  end.

Section MonadOps.
Context {S : Type}.

Definition throw {A} (e : error) : M S A := λ _, Err e.
Definition get : M S S := λ s, Ok (s, s).
Definition put (s : S) : M S unit := λ _, Ok (tt, s).
Definition modify (f : S → S) : M S unit := λ s, Ok (tt, f s).
Definition gets {A} (f : S → A) : M S A := λ s, Ok (f s, s).

(** PANIC(msg) and ASSERT(cond, msg). *)
Definition panic {A} (msg : string) : M S A := throw (EPanic msg).
Definition assert (c : bool) (msg : string) : M S unit :=
  if c then mret tt else panic msg.
End MonadOps.

(** Running a computation of a sub-component inside a larger state. *)
Definition zoom {S T A} (gt : T → S) (st : S → T → T) (m : M S A) : M T A :=
  λ t, match m (gt t) with
       | Ok (a, s') => Ok (a, st s' t)
       | Err e => Err e
       end.

(** ** Total correctness

    [wp m Q s]: started in [s], [m] returns, and its result and final state
    satisfy [Q]; it neither panics, nor faults, nor loops. *)

Definition wp {S A} (m : M S A) (Q : A → S → Prop) (s : S) : Prop :=
  match m s with
  | Ok (a, s') => Q a s'
  | Err _ => False
  end.

Section Wp.
Context {S : Type}.

Lemma wp_ret {A} (a : A) Q (s : S) : Q a s → wp (mret a) Q s.
Proof. auto. Qed.

Lemma wp_bind {A B} (m : M S A) (f : A → M S B) Q s :
  wp m (λ a s', wp (f a) Q s') s → wp (m ≫= f) Q s.
Proof.
  unfold wp, mbind, M_bind. destruct (m s) as [[a s']|e]; auto.
Qed.

Lemma wp_bind_inv {A B} (m : M S A) (f : A → M S B) Q s :
  wp (m ≫= f) Q s → wp m (λ a s', wp (f a) Q s') s.
Proof.
  unfold wp, mbind, M_bind. destruct (m s) as [[a s']|e]; auto.
Qed.

Lemma wp_mono {A} (m : M S A) (Q Q' : A → S → Prop) s :
  wp m Q s → (∀ a s', Q a s' → Q' a s') → wp m Q' s.
Proof. unfold wp. destruct (m s) as [[a s']|e]; auto. Qed.

Lemma wp_and {A} (m : M S A) (Q Q' : A → S → Prop) s :
  wp m Q s → wp m Q' s → wp m (λ a s', Q a s' ∧ Q' a s') s.
Proof. unfold wp. destruct (m s) as [[a s']|e]; auto. Qed.

Lemma wp_ok {A} (m : M S A) Q s :
  wp m Q s ↔ ∃ a s', m s = Ok (a, s') ∧ Q a s'.
Proof.
  unfold wp. split.
  - destruct (m s) as [[a s']|e]; [eauto|done].
  - intros (a & s' & -> & HQ). exact HQ.
Qed.

Lemma wp_of_ok {A} (m : M S A) Q s a s' : m s = Ok (a, s') → Q a s' → wp m Q s.
Proof. unfold wp. by intros ->. Qed.

Lemma bind_ok {A B} (m : M S A) (f : A → M S B) s a s' :
  m s = Ok (a, s') → (m ≫= f) s = f a s'.
Proof. unfold mbind, M_bind. by intros ->. Qed.

Lemma bind_err {A B} (m : M S A) (f : A → M S B) s e :
  m s = Err e → (m ≫= f) s = Err e.
Proof. unfold mbind, M_bind. by intros ->. Qed.

(** An error of the rest of a computation is one of the whole. *)
Lemma wp_fails {A B} (m : M S A) (f : A → M S B) Q s e :
  wp m Q s → (∀ a s', Q a s' → f a s' = Err e) → (m ≫= f) s = Err e.
Proof. unfold wp, mbind, M_bind. destruct (m s) as [[a s']|e']; [auto|done]. Qed.

Lemma wp_gets {A} (f : S → A) Q s : Q (f s) s → wp (gets f) Q s.
Proof. auto. Qed.
Lemma wp_get Q (s : S) : Q s s → wp get Q s.
Proof. auto. Qed.
Lemma wp_put Q (s s' : S) : Q tt s' → wp (put s') Q s.
Proof. auto. Qed.
Lemma wp_modify f Q (s : S) : Q tt (f s) → wp (modify f) Q s.
Proof. auto. Qed.
Lemma wp_assert c msg Q (s : S) : c = true → Q tt s → wp (assert c msg) Q s.
Proof. intros ->. auto. Qed.
End Wp.

Lemma wp_zoom {S T A} gt st (m : M S A) Q (t : T) :
  wp m (λ a s', Q a (st s' t)) (gt t) → wp (zoom gt st m) Q t.
Proof. unfold wp, zoom. destruct (m (gt t)) as [[a s']|e]; auto. Qed.

(** [wp_step] takes one step of a computation of which the rule is known. *)
Ltac wp_step :=
  match goal with
  | |- wp (_ ≫= _) _ _ => apply wp_bind
  | |- wp (mret _) _ _ => apply wp_ret
  | |- wp (gets _) _ _ => apply wp_gets
  | |- wp get _ _ => apply wp_get
  | |- wp (put _) _ _ => apply wp_put
  | |- wp (modify _) _ _ => apply wp_modify
  | |- wp (zoom _ _ _) _ _ => apply wp_zoom
  end.
Ltac wp_steps := repeat (wp_step; cbn beta iota zeta).

(** ** Counting loops

    [for_range n i body]: the C loop that runs [body] for the [n] values from [i]
    on. *)

Fixpoint for_range {S} (n : nat) (i : Z) (body : Z → M S unit) : M S unit :=
  match n with
  | O => mret tt
  | S n => _ ← body i; for_range n (i + 1) body
  end.

(** The invariant rule; [P k s] holds before the iteration for [k]. *)
Lemma wp_for_range {S} (n : nat) (i : Z) (body : Z → M S unit) (P : Z → S → Prop)
    (Q : unit → S → Prop) s :
  P i s →
  (∀ k s, i <= k < i + Z.of_nat n → P k s → wp (body k) (λ _ s', P (k + 1) s') s) →
  (∀ s, P (i + Z.of_nat n) s → Q tt s) →
  wp (for_range n i body) Q s.
Proof.
  revert i s. induction n as [|n IH]; intros i s H0 Hstep Hend; simpl.
  - apply Hend. by rewrite Z.add_0_r.
  - apply wp_bind. eapply wp_mono; [apply (Hstep i s); [lia|done]|]. cbn beta.
    intros _ s' Hs'. apply (IH (i + 1) s' Hs').
    + intros k s1 Hk. apply Hstep. lia.
    + intros s1. replace (i + 1 + Z.of_nat n) with (i + Z.of_nat (Datatypes.S n)) by lia. apply Hend.
Qed.

(** ** Typing

    [has_type I m R]: where [m] returns, the condition [I] on the state still holds and
    the result satisfies [R].  Unlike [wp] this says nothing of a computation that
    fails. *)

Definition has_type {S A} (I : S → Prop) (m : M S A) (R : A → Prop) : Prop :=
  ∀ s a s', I s → m s = Ok (a, s') → I s' ∧ R a.

Section Typing.
Context {S : Type} (I : S → Prop).

Lemma type_ret {A} (a : A) (R : A → Prop) : R a → has_type I (mret a) R.
Proof. by intros HR s b s' Hs [= <- <-]. Qed.

Lemma type_throw {A} e (R : A → Prop) : has_type I (throw e) R.
Proof. done. Qed.

Lemma type_get : has_type I get I.
Proof. by intros s a s' Hs [= <- <-]. Qed.

Lemma type_gets {A} (f : S → A) (R : A → Prop) : (∀ s, I s → R (f s)) → has_type I (gets f) R.
Proof. intros HR s a s' Hs [= <- <-]. auto. Qed.

Lemma type_modify f : (∀ s, I s → I (f s)) → has_type I (modify f) (λ _, True).
Proof. intros HI s a s' Hs [= <- <-]. auto. Qed.

Lemma type_bind {A B} (m : M S A) (f : A → M S B) R R' :
  has_type I m R → (∀ a, R a → has_type I (f a) R') → has_type I (m ≫= f) R'.
Proof.
  intros Hm Hf s b s2 Hs. unfold mbind, M_bind. destruct (m s) as [[a s1]|] eqn:E; [|done].
  intros E2. destruct (Hm _ _ _ Hs E) as [Hs1 Ha]. by eapply Hf.
Qed.

Lemma type_mono {A} (m : M S A) (R R' : A → Prop) :
  has_type I m R → (∀ a, R a → R' a) → has_type I m R'.
Proof. intros Hm HR s a s' Hs E. destruct (Hm _ _ _ Hs E). auto. Qed.

Lemma type_for_range n i (body : Z → M S unit) :
  (∀ k, has_type I (body k) (λ _, True)) → has_type I (for_range n i body) (λ _, True).
Proof.
  intros Hb. revert i. induction n as [|n IH]; intros i; [by apply type_ret|]. by eapply type_bind.
Qed.
End Typing.

(** A computation that succeeds and is well typed. *)
Lemma wp_typed {S A} (I : S → Prop) (m : M S A) (R : A → Prop) Q s :
  has_type I m R → I s → wp m Q s → wp m (λ a s', Q a s' ∧ I s' ∧ R a) s.
Proof.
  intros Hm Hs. unfold wp. destruct (m s) as [[a s']|] eqn:E; [|done]. intros HQ. by destruct (Hm _ _ _ Hs E).
Qed.

Lemma type_zoom {S T A} (I : T → Prop) (J : S → Prop) gt st (m : M S A) R :
  has_type J m R → (∀ t, I t → J (gt t)) → (∀ t s, I t → J s → I (st s t)) → has_type I (zoom gt st m) R.
Proof.
  intros Hm Hg Hs t a t' Ht. unfold zoom. destruct (m (gt t)) as [[b s']|] eqn:E; [|done]. intros [= <- <-].
  destruct (Hm _ _ _ (Hg _ Ht) E). auto.
Qed.

Create HintDb typing discriminated.
#[export] Hint Resolve type_throw type_get : typing.

(** [type_tac] goes through the binds and the cases of a computation. *)
Ltac type_tac :=
  repeat first
    [ solve [eauto with typing]
    | eapply type_bind; [|intros ? ?]
    | apply type_ret
    | match goal with |- has_type _ (match ?x with _ => _ end) _ => destruct x end
    | progress cbv beta iota ].
