(* ===== verification/Allocator.v ===== *)
(** * What the kernel promises its clients about dynamic memory

    The virtual memory manager, the task and the scheduler code allocate their
    nodes with kmalloc and release them with kfree.  [Allocator] is what they
    rely on; kernel/kmalloc.c is proved to provide it in [Kmalloc]. *)

From S2P Require Import Prelude.

(** Two blocks, given by address and size, do not overlap. *)
Definition disjoint_blocks (p n q m : Z) : Prop := p + n <= q ∨ q + m <= p.

(** The largest node the clients allocate, rounded up. *)
Definition small : Z := 64.

Class Allocator (H : Type) := {
  malloc : Z → M H Z;
  free : Z → M H unit;
  (** [owns s L]: the allocated blocks are [L], from address to size. *)
  owns : H → gmap Z Z → Prop;
  owns_addr s L p n : owns s L → L !! p = Some n → 0 < p < 2 ^ 32;
  malloc_spec s L n :
    owns s L → 0 <= n < 2 ^ 32 - 8 →
    wp (malloc n) (λ p s',
      (p = 0 ∧ s' = s) ∨
      (0 < p < 2 ^ 32 ∧ L !! p = None ∧ owns s' (<[p := n]> L) ∧
       ∀ q m, L !! q = Some m → disjoint_blocks p n q m)) s;
  free_spec s L p n :
    owns s L → L !! p = Some n →
    wp (free p) (λ _ s', owns s' (delete p L)) s;
  (** [room s k]: [k] more allocations of at most [small] bytes succeed, however
      they are interleaved with releases. *)
  room : H → nat → Prop;
  room_le s k k' : (k' <= k)%nat → room s k → room s k';
  room_malloc s k n :
    room s (S k) → 0 <= n <= small → wp (malloc n) (λ p s', p ≠ 0 ∧ room s' k) s;
  room_free s L p n k :
    owns s L → L !! p = Some n → room s k → wp (free p) (λ _ s', room s' k) s
}.

(** The next allocation of [n] bytes does not return NULL. *)
Definition can_malloc {H} `{Allocator H} (s : H) (n : Z) : Prop :=
  wp (malloc n) (λ p _, p ≠ 0) s.

Section Room.
Context {H : Type} `{Allocator H}.

Lemma room_can_malloc s k n : room s (S k) → 0 <= n <= small → can_malloc s n.
Proof. intros Hr Hn. eapply wp_mono; [by eapply room_malloc|]. by intros ? ? []. Qed.

(** At most one allocation was made between [s] and [s']. *)
Definition room_step (s s' : H) : Prop := ∀ k, room s (S k) → room s' k.

Lemma room_step_refl s : room_step s s.
Proof. intros k. apply room_le. lia. Qed.
End Room.
#[export] Hint Resolve room_step_refl : core.

(** ** Blocks that others own

    A client that shares the heap with others: the blocks [kept] belong to them, and stay
    allocated whatever the client does.  Its theorems hold with this instance as with any
    other. *)
Section Reserving.
Context {H : Type} `{Allocator H} (kept : gmap Z Z).

Definition reserves (s : H) (L : gmap Z Z) : Prop := L ##ₘ kept ∧ owns s (L ∪ kept).

Lemma reserves_addr s L p n : reserves s L → L !! p = Some n → 0 < p < 2 ^ 32.
Proof. intros [_ Ho] Hp. eapply owns_addr; [exact Ho|]. by apply lookup_union_Some_l. Qed.

Lemma reserves_malloc s L n :
  reserves s L → 0 <= n < 2 ^ 32 - 8 →
  wp (malloc n) (λ p s',
    (p = 0 ∧ s' = s) ∨
    (0 < p < 2 ^ 32 ∧ L !! p = None ∧ reserves s' (<[p := n]> L) ∧
     ∀ q m, L !! q = Some m → disjoint_blocks p n q m)) s.
Proof.
  intros [Hd Ho] Hn. eapply wp_mono; [by apply (malloc_spec s (L ∪ kept) n)|]. cbn beta.
  intros p s' [?|(Hp & [HL Hk]%lookup_union_None & Ho' & Hdis)]; [by left|right]. split_and!; [lia|lia|done| |].
  - split; [by apply map_disjoint_insert_l_2|]. by rewrite <- insert_union_l.
  - intros q m Hq. apply Hdis. by apply lookup_union_Some_l.
Qed.

Lemma reserves_free s L p n :
  reserves s L → L !! p = Some n → wp (free p) (λ _ s', reserves s' (delete p L)) s.
Proof.
  intros [Hd Ho] Hp. eapply wp_mono; [eapply (free_spec s (L ∪ kept)); [exact Ho|by apply lookup_union_Some_l]|].
  cbn beta. intros _ s' Ho'. split; [by apply map_disjoint_delete_l|].
  rewrite delete_union, (delete_id kept) in Ho'; [done|]. by apply (map_disjoint_Some_l L kept p n).
Qed.

Lemma reserves_room s L p n k :
  reserves s L → L !! p = Some n → room s k → wp (free p) (λ _ s', room s' k) s.
Proof. intros [_ Ho] Hp. eapply room_free; [exact Ho|by apply lookup_union_Some_l]. Qed.

Definition reserving : Allocator H := {|
  malloc := malloc; free := free; owns := reserves; owns_addr := reserves_addr; malloc_spec := reserves_malloc;
  free_spec := reserves_free; room := room; room_le := room_le; room_malloc := room_malloc;
  room_free := reserves_room |}.

End Reserving.
