(* ===== verification/Kmalloc.v ===== *)
(** * The kernel heap: kernel/kmalloc.c

    A first-fit allocator over a singly linked list of free regions.  Each
    region, free or allocated, starts with an 8-byte [kmalloc_header_t].  The
    headers are a typed store: [headers] maps the address of a header to its
    contents. *)

From S2P Require Import Prelude Allocator.

Definition KERNEL_HEAP_VIRT_START : Z := 0xE0000000.
Definition KERNEL_HEAP_PHYS_START : Z := 0x00800000.
Definition KERNEL_HEAP_SIZE : Z := 0x03000000.

Record kmalloc_header := Header { hdr_size : Z; hdr_next : Z }.

(** sizeof(kmalloc_header_t) on i386: two 32-bit fields. *)
Definition sizeof_header : Z := 8.

Record kheap := KHeap { KMALLOC_HEAD : Z; headers : gmap Z kmalloc_header }.

Section Operations.

Definition load_header (p : Z) : M kheap kmalloc_header := λ k,
  match headers k !! p with
  | Some h => Ok (h, k)
  | None => Err (EFault p)
  end.

Definition store_header (p : Z) (h : kmalloc_header) : M kheap unit :=
  modify (λ k, KHeap (KMALLOC_HEAD k) (<[p := h]> (headers k))).

Definition set_head (p : Z) : M kheap unit :=
  modify (λ k, KHeap p (headers k)).

Definition set_next (p n : Z) : M kheap unit :=
  h ← load_header p; store_header p (Header (hdr_size h) n).

Definition set_size (p n : Z) : M kheap unit :=
  h ← load_header p; store_header p (Header n (hdr_next h)).

Definition kmalloc_init : M kheap unit :=
  set_head KERNEL_HEAP_VIRT_START;;
  head ← gets KMALLOC_HEAD;
  store_header head (Header (u32 (KERNEL_HEAP_SIZE - sizeof_header)) 0).

(** The while loop of kmalloc, from region [free_region]. *)
Fixpoint kmalloc_loop (fuel : nat) (size free_region prev_region : Z) : M kheap Z :=
  match fuel with
  | O => throw EFuel
  | S fuel =>
      if free_region =? 0 then mret 0
      else
        h ← load_header free_region;
        if hdr_size h =? size then
          (if prev_region =? 0 then
             head ← gets KMALLOC_HEAD;
             hh ← load_header head;
             set_head (hdr_next hh)
           else set_next prev_region (hdr_next h));;
          mret (u32 (free_region + sizeof_header))
        else if u32 (size + sizeof_header) <? hdr_size h then
          let remaining := u32 (hdr_size h - size) in
          let new_region := u32 (free_region + sizeof_header + size) in
          store_header new_region
            (Header (u32 (remaining - sizeof_header)) (hdr_next h));;
          (if prev_region =? 0 then set_head new_region
           else set_next prev_region new_region);;
          set_size free_region size;;
          mret (u32 (free_region + sizeof_header))
        else kmalloc_loop fuel size (hdr_next h) free_region
  end.

(** A walk over more regions than there are headers has met one twice, and
    then never ends: one more step than there are headers is enough fuel. *)
Definition kmalloc (size : Z) : M kheap Z :=
  k ← get;
  kmalloc_loop (S (base.size (headers k))) size (KMALLOC_HEAD k) 0.

Definition kfree (addr : Z) : M kheap unit :=
  let region := u32 (addr - sizeof_header) in
  head ← gets KMALLOC_HEAD;
  set_next region head;;
  set_head region.

End Operations.

(** ** The heap invariant *)

(** [tiles lo bs hi]: the regions [bs], given by header address and payload
    size, cover [lo, hi) without gap or overlap. *)
Fixpoint tiles (lo : Z) (bs : list (Z * Z)) (hi : Z) : Prop :=
  match bs with
  | [] => lo = hi
  | (a, s) :: bs => a = lo ∧ 0 <= s ∧ tiles (a + sizeof_header + s) bs hi
  end.

(** [seg hs p l q]: following the next fields from [p] visits the headers [l]
    and ends at [q]. *)
Fixpoint seg (hs : gmap Z kmalloc_header) (p : Z) (l : list Z) (q : Z) : Prop :=
  match l with
  | [] => p = q
  | a :: l => p = a ∧ a ≠ 0 ∧ ∃ h, hs !! a = Some h ∧ seg hs (hdr_next h) l q
  end.

Record heap_inv (k : kheap) (bs : list (Z * Z)) (fl : list Z) : Prop := {
  inv_tiles : tiles KERNEL_HEAP_VIRT_START bs (KERNEL_HEAP_VIRT_START + KERNEL_HEAP_SIZE);
  inv_header : ∀ a s, (a, s) ∈ bs → hdr_size <$> headers k !! a = Some s;
  inv_chain : seg (headers k) (KMALLOC_HEAD k) fl 0;
  inv_nodup : NoDup fl;
  inv_free : ∀ a, a ∈ fl → ∃ s, (a, s) ∈ bs
}.

(** [lives bs fl L]: [L] is the set of regions that are not free. *)
Definition lives (bs : list (Z * Z)) (fl : list Z) (L : gmap Z Z) : Prop :=
  ∀ p n, L !! p = Some n ↔ (p - sizeof_header, n) ∈ bs ∧ p - sizeof_header ∉ fl.

(** [heap_rep k L]: in the heap [k] the allocated blocks are [L], a map from
    payload address to payload size. *)
Definition heap_rep (k : kheap) (L : gmap Z Z) : Prop :=
  ∃ bs fl, heap_inv k bs fl ∧ lives bs fl L.

Section TilesLemmas.

Lemma tiles_bounds lo bs hi :
  tiles lo bs hi →
  lo <= hi ∧ ∀ a s, (a, s) ∈ bs → lo <= a ∧ 0 <= s ∧ a + sizeof_header + s <= hi.
Proof.
  unfold sizeof_header. revert lo. induction bs as [|[a s] bs IH]; intros lo; simpl.
  - intros ->. split; [lia|]. intros a s Hin. by apply not_elem_of_nil in Hin.
  - intros (-> & Hs & Ht). destruct (IH _ Ht) as [Hle Hin]. unfold sizeof_header in *.
    split; [lia|]. intros b t [Hbt|Hbt]%elem_of_cons.
    + simplify_eq. lia.
    + specialize (Hin _ _ Hbt). lia.
Qed.

Lemma tiles_app lo b1 b2 hi :
  tiles lo (b1 ++ b2) hi ↔ ∃ mid, tiles lo b1 mid ∧ tiles mid b2 hi.
Proof.
  revert lo. induction b1 as [|[a s] b1 IH]; intros lo; simpl.
  - split; [by eauto | by intros (mid & -> & ?)].
  - rewrite IH. naive_solver.
Qed.

Lemma tiles_disjoint lo bs hi a s b t :
  tiles lo bs hi → (a, s) ∈ bs → (b, t) ∈ bs →
  (a = b ∧ s = t) ∨ a + sizeof_header + s <= b ∨ b + sizeof_header + t <= a.
Proof.
  revert lo. induction bs as [|[c u] bs IH]; intros lo; simpl.
  - intros _ H. by apply not_elem_of_nil in H.
  - intros (-> & Hu & Ht) Ha Hb.
    destruct (tiles_bounds _ _ _ Ht) as [_ Hbd].
    apply elem_of_cons in Ha as [Ha|Ha], Hb as [Hb|Hb]; simplify_eq.
    + auto.
    + specialize (Hbd _ _ Hb). lia.
    + specialize (Hbd _ _ Ha). lia.
    + eauto.
Qed.

Lemma tiles_split lo b1 a s b2 hi n :
  tiles lo (b1 ++ (a, s) :: b2) hi → 0 <= n → n + sizeof_header <= s →
  tiles lo (b1 ++ (a, n) :: (a + sizeof_header + n, s - n - sizeof_header) :: b2) hi.
Proof.
  rewrite !tiles_app. intros (mid & H1 & -> & Hs & H2) Hn Hle.
  exists mid. unfold sizeof_header in *. split; [done|]. simpl. unfold sizeof_header.
  repeat split; try lia.
  replace (mid + 8 + n + 8 + (s - n - 8)) with (mid + 8 + s) by lia. done.
Qed.

(** No two headers of a tiling have the same address. *)
Lemma tiles_fun lo bs hi a s t :
  tiles lo bs hi → (a, s) ∈ bs → (a, t) ∈ bs → s = t.
Proof.
  intros Ht Ha Hb. destruct (tiles_bounds _ _ _ Ht) as [_ Hbd].
  pose proof (Hbd _ _ Ha). pose proof (Hbd _ _ Hb).
  destruct (tiles_disjoint _ _ _ _ _ _ _ Ht Ha Hb) as [[_ ?]|[?|?]];
    unfold sizeof_header in *; lia.
Qed.

Lemma tiles_new_header lo b1 a s b2 hi n b t :
  tiles lo (b1 ++ (a, s) :: b2) hi → 0 <= n → n + sizeof_header <= s →
  (b, t) ∈ b1 ++ (a, s) :: b2 → b ≠ a + sizeof_header + n.
Proof.
  intros Ht Hn Hle Hb ->.
  destruct (tiles_bounds _ _ _ Ht) as [_ Hbd].
  assert (Ha : (a, s) ∈ b1 ++ (a, s) :: b2) by set_solver.
  pose proof (Hbd _ _ Ha). pose proof (Hbd _ _ Hb).
  destruct (tiles_disjoint _ _ _ _ _ _ _ Ht Ha Hb) as [[? _]|[?|?]];
    unfold sizeof_header in *; lia.
Qed.

End TilesLemmas.

Section SegLemmas.
Implicit Types hs : gmap Z kmalloc_header.

Lemma seg_app hs p l1 l2 q :
  seg hs p (l1 ++ l2) q ↔ ∃ r, seg hs p l1 r ∧ seg hs r l2 q.
Proof.
  revert p. induction l1 as [|a l1 IH]; intros p; simpl.
  - naive_solver.
  - setoid_rewrite IH. naive_solver.
Qed.

(** A chain depends only on the next fields of its own headers. *)
Lemma seg_frame hs hs' p l q :
  (∀ a, a ∈ l → hdr_next <$> hs' !! a = hdr_next <$> hs !! a) →
  seg hs p l q → seg hs' p l q.
Proof.
  revert p. induction l as [|a l IH]; intros p Hf; simpl; [done|].
  intros (-> & Ha & h & Hh & Hs). split_and!; [done..|].
  pose proof (Hf a ltac:(set_solver)) as E. rewrite Hh in E.
  destruct (hs' !! a) as [h'|]; simplify_eq/=.
  exists h'. split; [done|]. apply IH; [set_solver | congruence].
Qed.

Lemma seg_nonzero hs p l q a : seg hs p l q → a ∈ l → a ≠ 0.
Proof.
  revert p. induction l as [|b l IH]; intros p; simpl.
  - intros _ H. by apply not_elem_of_nil in H.
  - intros (-> & Hb & h & _ & Hs) [->|Ha]%elem_of_cons; eauto.
Qed.

Lemma seg_dom hs p l q : seg hs p l q → list_to_set l ⊆ dom hs.
Proof.
  revert p. induction l as [|b l IH]; intros p; simpl; [set_solver|].
  intros (-> & Hb & h & Hh & Hs). apply elem_of_dom_2 in Hh. set_solver.
Qed.

(** A chain without repetition is no longer than the number of headers. *)
Lemma seg_length hs p l q :
  NoDup l → seg hs p l q → (length l <= size hs)%nat.
Proof.
  intros Hnd Hs%seg_dom.
  rewrite <- (size_dom hs), <- (size_list_to_set (C := gset Z) l Hnd).
  by apply subseteq_size.
Qed.

(** Redirecting the last header of a chain. *)
Lemma seg_relink hs p l b q x h :
  NoDup (l ++ [b]) → hs !! b = Some h → seg hs p (l ++ [b]) q →
  seg (<[b := Header (hdr_size h) x]> hs) p (l ++ [b]) x.
Proof.
  intros Hnd Hb. rewrite !seg_app. intros (r & H1 & H2). exists r. split.
  - eapply seg_frame; [|done]. intros a Ha.
    rewrite lookup_insert_ne; [done|]. intros ->.
    apply NoDup_app in Hnd as (_ & Hd & _). by apply (Hd a Ha), list_elem_of_singleton.
  - simpl in *. destruct H2 as (-> & Hnz & _). split_and!; [done..|].
    eexists. rewrite lookup_insert_eq. by split.
Qed.

End SegLemmas.

(** ** Specification: first fit on the list of regions *)

(** A free region of [s] bytes can serve a request for [n] bytes when it has
    exactly that size, or leaves room for the header of the remainder. *)
Definition fits (n s : Z) : bool := (s =? n) || (n + sizeof_header <? s).

Definition no_fit (n : Z) (bs : list (Z * Z)) (fl : list Z) : Prop :=
  ∀ a s, a ∈ fl → (a, s) ∈ bs → fits n s = false.

(** One allocation on the regions [bs] with free list [fl]. *)
Inductive alloc_step (n : Z) (bs : list (Z * Z)) (fl : list Z) :
    list (Z * Z) → list Z → Z → Prop :=
  | alloc_exact l1 a l2 :
      fl = l1 ++ a :: l2 → no_fit n bs l1 → (a, n) ∈ bs →
      alloc_step n bs fl bs (l1 ++ l2) (a + sizeof_header)
  | alloc_split l1 a l2 b1 b2 s :
      fl = l1 ++ a :: l2 → no_fit n bs l1 →
      bs = b1 ++ (a, s) :: b2 → n + sizeof_header < s →
      alloc_step n bs fl
        (b1 ++ (a, n) :: (a + sizeof_header + n, s - n - sizeof_header) :: b2)
        (l1 ++ (a + sizeof_header + n) :: l2) (a + sizeof_header).

Section Rules.

Lemma wp_load_header p h Q k :
  headers k !! p = Some h → Q h k → wp (load_header p) Q k.
Proof. unfold wp, load_header. by intros ->. Qed.

Lemma wp_set_next p n h Q k :
  headers k !! p = Some h →
  Q tt (KHeap (KMALLOC_HEAD k) (<[p := Header (hdr_size h) n]> (headers k))) →
  wp (set_next p n) Q k.
Proof. intros. apply wp_bind. by eapply wp_load_header. Qed.

Lemma wp_set_size p n h Q k :
  headers k !! p = Some h →
  Q tt (KHeap (KMALLOC_HEAD k) (<[p := Header n (hdr_next h)]> (headers k))) →
  wp (set_size p n) Q k.
Proof. intros. apply wp_bind. by eapply wp_load_header. Qed.

(** The common tail of both successful branches: making the predecessor of the
    region found, or the head of the list, point to [x]. *)
Lemma wp_relink l1 a x prev k :
  seg (headers k) (KMALLOC_HEAD k) l1 a → NoDup l1 → prev = default 0 (last l1) →
  wp (if prev =? 0 then set_head x else set_next prev x)
     (λ _ k', seg (headers k') (KMALLOC_HEAD k') l1 x ∧
        (∀ b, hdr_size <$> headers k' !! b = hdr_size <$> headers k !! b) ∧
        (∀ b, b ∉ l1 → headers k' !! b = headers k !! b)) k.
Proof.
  intros Hs Hnd ->. destruct l1 as [|b l1 _] using rev_ind; [done|].
  rewrite last_snoc. simpl.
  assert (Hb : b ≠ 0) by (eapply seg_nonzero; [exact Hs | set_solver]).
  destruct (Z.eqb_spec b 0) as [?|_]; [done|].
  pose proof Hs as Hs'. apply seg_app in Hs' as (r & _ & -> & _ & h & Hh & _).
  eapply wp_set_next; [done|]. simpl. split_and!.
  - by eapply seg_relink.
  - intros c. rewrite lookup_insert. case_decide; by simplify_option_eq.
  - intros c Hc. rewrite lookup_insert_ne; [done|]. intros ->. set_solver.
Qed.

End Rules.

Section HeapInvariant.
Context (k : kheap) (bs : list (Z * Z)) (fl : list Z) (Hinv : heap_inv k bs fl).

Lemma inv_region a s :
  (a, s) ∈ bs → KERNEL_HEAP_VIRT_START <= a ∧ 0 <= s ∧
    a + sizeof_header + s <= KERNEL_HEAP_VIRT_START + KERNEL_HEAP_SIZE.
Proof. apply (tiles_bounds _ _ _ (inv_tiles _ _ _ Hinv)). Qed.

Lemma inv_free_header a :
  a ∈ fl → ∃ h, headers k !! a = Some h ∧ (a, hdr_size h) ∈ bs.
Proof.
  intros (s & Ha)%(inv_free _ _ _ Hinv).
  pose proof (inv_header _ _ _ Hinv _ _ Ha) as Hh.
  destruct (headers k !! a) as [h|]; simplify_eq/=. eauto.
Qed.

Lemma inv_length : (length fl <= size (headers k))%nat.
Proof.
  eapply seg_length; [apply (inv_nodup _ _ _ Hinv) | apply (inv_chain _ _ _ Hinv)].
Qed.

End HeapInvariant.

Section Steps.
Context (k k' : kheap) (bs : list (Z * Z)) (l1 l2 : list Z) (a : Z) (h : kmalloc_header).
Context (Hinv : heap_inv k bs (l1 ++ a :: l2)) (Hh : headers k !! a = Some h).

Lemma inv_chain_split :
  seg (headers k) (KMALLOC_HEAD k) l1 a ∧ seg (headers k) (hdr_next h) l2 0 ∧
  NoDup l1 ∧ a ∉ l1 ∧ a ∉ l2 ∧ (∀ b, b ∈ l2 → b ∉ l1) ∧ NoDup l2.
Proof.
  pose proof (inv_chain _ _ _ Hinv) as Hs.
  apply seg_app in Hs as (r & H1 & -> & Hnz & h' & Hh' & H2). simplify_eq.
  pose proof (inv_nodup _ _ _ Hinv) as Hnd.
  apply NoDup_app in Hnd as (? & Hd & [? ?]%NoDup_cons).
  split_and!; try done; [set_solver|]. intros b Hb Hb'. eapply Hd; set_solver.
Qed.

(** Removing the region [a] from the free list. *)
Lemma inv_exact :
  seg (headers k') (KMALLOC_HEAD k') l1 (hdr_next h) →
  (∀ b, hdr_size <$> headers k' !! b = hdr_size <$> headers k !! b) →
  (∀ b, b ∉ l1 → headers k' !! b = headers k !! b) →
  heap_inv k' bs (l1 ++ l2).
Proof.
  intros Hs Hsz Hout. destruct inv_chain_split as (H1 & H2 & Hnd1 & Ha1 & Ha2 & Hd & Hnd2).
  split.
  - apply (inv_tiles _ _ _ Hinv).
  - intros b s Hb. rewrite Hsz. by apply (inv_header _ _ _ Hinv).
  - rewrite seg_app. eexists. split; [done|]. eapply seg_frame; [|done].
    intros b Hb. by rewrite Hout by eauto.
  - apply NoDup_app. split_and!; [done| |done]. intros b Hb Hb'. by eapply Hd.
  - intros b Hb. apply (inv_free _ _ _ Hinv). set_solver.
Qed.

(** Replacing the region [a] of [s] bytes by its first [n] bytes, allocated,
    and the free remainder. *)
Lemma inv_split b1 b2 n new :
  bs = b1 ++ (a, hdr_size h) :: b2 → 0 <= n → n + sizeof_header < hdr_size h →
  new = a + sizeof_header + n →
  seg (headers k') (KMALLOC_HEAD k') l1 new →
  headers k' !! new =
    Some (Header (hdr_size h - n - sizeof_header) (hdr_next h)) →
  hdr_size <$> headers k' !! a = Some n →
  (∀ b, b ≠ a → b ≠ new → hdr_size <$> headers k' !! b = hdr_size <$> headers k !! b) →
  (∀ b, b ∉ l1 → b ≠ a → b ≠ new → headers k' !! b = headers k !! b) →
  heap_inv k' (b1 ++ (a, n) :: (new, hdr_size h - n - sizeof_header) :: b2)
    (l1 ++ new :: l2).
Proof.
  intros Hbs Hn Hlt Hnew Hs Hhn Hha Hsz Hout.
  destruct inv_chain_split as (H1 & H2 & Hnd1 & Ha1 & Ha2 & Hd & Hnd2).
  pose proof (inv_tiles _ _ _ Hinv) as Ht. rewrite Hbs in Ht.
  assert (Hold : ∀ b t, (b, t) ∈ bs → b ≠ new).
  { intros b t Hb. subst. eapply tiles_new_header; [done..| |done]. lia. }
  assert (Hfl : ∀ b, b ∈ l1 ++ a :: l2 → b ≠ new).
  { intros b (t & Hb)%(inv_free _ _ _ Hinv). eauto. }
  assert (Hne : new ≠ 0).
  { destruct (inv_region _ _ _ Hinv a (hdr_size h)); [subst; set_solver|].
    unfold KERNEL_HEAP_VIRT_START, sizeof_header in *. lia. }
  assert (Hdup : ∀ t, (a, t) ∈ b1 ++ b2 → False).
  { intros t Hat. apply tiles_app in Ht as (mid & T1 & -> & T2 & T3).
    destruct (tiles_bounds _ _ _ T1) as [_ B1], (tiles_bounds _ _ _ T3) as [_ B3].
    apply elem_of_app in Hat as [Hat|Hat]; [apply B1 in Hat|apply B3 in Hat];
      unfold sizeof_header in *; lia. }
  split.
  - subst new. apply tiles_split; [done..|lia].
  - intros b t Hb. rewrite elem_of_app, !elem_of_cons in Hb.
    destruct Hb as [Hb|[Hb|[Hb|Hb]]]; simplify_eq; [|by rewrite ?Hhn ..|].
    all: rewrite Hsz; [apply (inv_header _ _ _ Hinv); set_solver
      | intros ->; apply (Hdup t); set_solver | apply (Hold b t); set_solver].
  - rewrite seg_app. eexists. split; [done|]. simpl. split_and!; [done..|].
    eexists. split; [done|]. simpl. eapply seg_frame; [|done].
    intros b Hb. rewrite Hout; [done|by apply Hd|by intros ->|apply Hfl; set_solver].
  - apply NoDup_app. split_and!; [done| |apply NoDup_cons; split; [|done]].
    + intros b Hb [->|Hb']%elem_of_cons; [by eapply (Hfl new); set_solver|by eapply Hd].
    + intros Hb. by eapply (Hfl new); set_solver.
  - intros b Hb. destruct (decide (b = new)) as [->|Hbn].
    { exists (hdr_size h - n - sizeof_header). set_solver. }
    destruct (inv_free _ _ _ Hinv b) as [t Ht']; [set_solver|].
    destruct (decide (b = a)) as [->|Hba]; [exists n; set_solver|].
    exists t. rewrite Hbs in Ht'. set_solver.
Qed.

End Steps.

(** ** kmalloc implements first fit *)

Definition kmalloc_post (n : Z) (k : kheap) (bs : list (Z * Z)) (fl : list Z)
    (p : Z) (k' : kheap) : Prop :=
  (p = 0 ∧ k' = k ∧ no_fit n bs fl) ∨
  (∃ bs' fl', alloc_step n bs fl bs' fl' p ∧ heap_inv k' bs' fl').

Section KmallocLoop.
Context (n : Z) (Hn : 0 <= n < 2 ^ 32 - sizeof_header).
Context (k : kheap) (bs : list (Z * Z)).

Lemma no_fit_snoc l a h :
  (∀ t, (a, t) ∈ bs → t = hdr_size h) →
  no_fit n bs l → fits n (hdr_size h) = false → no_fit n bs (l ++ [a]).
Proof.
  intros Hu Hl Hf b t [Hb|Hb]%elem_of_app Hbt; [by eapply Hl|].
  apply list_elem_of_singleton in Hb as ->. by rewrite (Hu t Hbt).
Qed.

Lemma kmalloc_exact_ok l1 a l2 h prev :
  heap_inv k bs (l1 ++ a :: l2) → headers k !! a = Some h → (a, hdr_size h) ∈ bs →
  prev = default 0 (last l1) → no_fit n bs l1 → hdr_size h = n →
  wp ((if prev =? 0 then
         head ← gets KMALLOC_HEAD; hh ← load_header head; set_head (hdr_next hh)
       else set_next prev (hdr_next h));;
      mret (u32 (a + sizeof_header)))
     (kmalloc_post n k bs (l1 ++ a :: l2)) k.
Proof.
  intros Hinv Hh Ha Hprev Hno Hsz.
  destruct (inv_chain_split _ _ _ _ _ _ Hinv Hh) as (H1 & H2 & Hnd1 & Ha1 & _).
  apply wp_bind.
  eapply (wp_mono _ (λ _ k', seg (headers k') (KMALLOC_HEAD k') l1 (hdr_next h) ∧ _ ∧ _)).
  { pose proof (wp_relink l1 a (hdr_next h) prev k H1 Hnd1 Hprev) as HW.
    destruct (Z.eqb_spec prev 0) as [Hz|_]; [|exact HW].
    assert (l1 = []) as -> .
    { destruct l1 as [|b l1' _] using rev_ind; [done|].
      rewrite last_snoc in Hprev. simpl in Hprev. subst.
      by apply (seg_nonzero _ _ _ _ 0) in H1; [|set_solver]. }
    simpl in H1. wp_steps. eapply wp_load_header; [by rewrite H1|]. exact HW. }
  simpl. intros [] k' (Hs & Hsame & Hout). apply wp_ret. right.
  pose proof (inv_region _ _ _ Hinv _ _ Ha).
  rewrite u32_small by (unfold KERNEL_HEAP_VIRT_START, KERNEL_HEAP_SIZE, sizeof_header in *; ulia).
  do 2 eexists. split.
  - eapply (alloc_exact _ _ _ l1 a l2); [done..|]. by rewrite <- Hsz.
  - by eapply inv_exact.
Qed.

Lemma kmalloc_split_ok l1 a l2 h prev :
  let remaining := u32 (hdr_size h - n) in
  let new := u32 (a + sizeof_header + n) in
  heap_inv k bs (l1 ++ a :: l2) → headers k !! a = Some h → (a, hdr_size h) ∈ bs →
  prev = default 0 (last l1) → no_fit n bs l1 → n + sizeof_header < hdr_size h →
  wp (store_header new (Header (u32 (remaining - sizeof_header)) (hdr_next h));;
      (if prev =? 0 then set_head new else set_next prev new);;
      set_size a n;; mret (u32 (a + sizeof_header)))
     (kmalloc_post n k bs (l1 ++ a :: l2)) k.
Proof.
  intros remaining new Hinv Hh Ha Hprev Hno Hlt.
  destruct (inv_chain_split _ _ _ _ _ _ Hinv Hh) as (H1 & H2 & Hnd1 & Ha1 & _).
  pose proof (inv_region _ _ _ Hinv _ _ Ha) as Hreg.
  unfold KERNEL_HEAP_VIRT_START, KERNEL_HEAP_SIZE, sizeof_header in Hreg.
  assert (new = a + sizeof_header + n) as Hnew by (subst new; unfold sizeof_header in *; ulia).
  assert (u32 (remaining - sizeof_header) = hdr_size h - n - sizeof_header) as ->
    by (subst remaining; unfold sizeof_header in *; ulia).
  rewrite (u32_small (a + sizeof_header)) by (unfold sizeof_header in *; ulia).
  clearbody new. clear remaining.
  apply list_elem_of_split in Ha as (b1 & b2 & Hbs).
  assert (Hfl : new ∉ l1 ++ a :: l2).
  { intros (t & Hb)%(inv_free _ _ _ Hinv). pose proof (inv_tiles _ _ _ Hinv) as Ht.
    subst bs. eapply (tiles_new_header _ b1 a _ b2 _ n new t); [done|lia|lia|done|done]. }
  unfold store_header. wp_steps. set (k1 := KHeap _ _).
  eapply wp_mono; [apply (wp_relink l1 a new prev k1); [|done..]|].
  { simpl. eapply seg_frame; [|exact H1]. intros b Hb. rewrite lookup_insert_ne; set_solver. }
  simpl. intros [] k2 (Hs2 & Hsz2 & Hout2).
  assert (Hha : headers k2 !! a = Some h).
  { rewrite Hout2 by done. rewrite lookup_insert_ne; set_solver. }
  wp_steps. eapply wp_set_size; [done|]. wp_steps. right.
  do 2 eexists. split; [by eapply (alloc_split _ _ _ l1 a l2 b1 b2)|]. rewrite <- Hnew.
  eapply (inv_split k _ bs l1 l2 a h Hinv Hh b1 b2 n new); try done; try lia; simpl.
  - eapply seg_frame; [|exact Hs2]. intros b Hb. rewrite lookup_insert_ne; set_solver.
  - rewrite lookup_insert_ne by set_solver. rewrite Hout2 by set_solver.
    by rewrite lookup_insert_eq.
  - by rewrite lookup_insert_eq.
  - intros b Hba Hbn. rewrite lookup_insert_ne by done. rewrite Hsz2. by rewrite lookup_insert_ne.
  - intros b Hb Hba Hbn. rewrite lookup_insert_ne by done. rewrite Hout2 by done.
    by rewrite lookup_insert_ne.
Qed.

Lemma kmalloc_loop_ok fuel l1 rest fr prev :
  heap_inv k bs (l1 ++ rest) → seg (headers k) fr rest 0 →
  prev = default 0 (last l1) → no_fit n bs l1 → (length rest < fuel)%nat →
  wp (kmalloc_loop fuel n fr prev) (kmalloc_post n k bs (l1 ++ rest)) k.
Proof.
  revert l1 rest fr prev. induction fuel as [|fuel IH]; intros l1 rest fr prev; [lia|].
  intros Hinv Hs Hprev Hno Hlen. simpl.
  destruct rest as [|a l2]; simpl in Hs.
  { subst fr. apply wp_ret. left. by rewrite app_nil_r. }
  destruct Hs as (-> & Hnz & h & Hh & Hs).
  destruct (Z.eqb_spec a 0) as [?|_]; [done|].
  destruct (inv_free_header _ _ _ Hinv a) as (h' & Hh' & Ha); [set_solver|]. simplify_eq.
  apply wp_bind. eapply wp_load_header; [done|].
  destruct (Z.eqb_spec (hdr_size h) n) as [Hsz|Hsz]; [by eapply kmalloc_exact_ok|].
  rewrite (u32_small (n + sizeof_header)) by (unfold sizeof_header in *; ulia).
  destruct (Z.ltb_spec (n + sizeof_header) (hdr_size h)) as [Hlt|Hge];
    [by apply kmalloc_split_ok|].
  rewrite cons_middle, app_assoc in Hinv |- *. apply IH; try done.
  - by rewrite last_snoc.
  - eapply (no_fit_snoc _ _ h); [|done|].
    + intros t Ht. symmetry. by eapply tiles_fun; [apply (inv_tiles _ _ _ Hinv)|..].
    + unfold fits. apply orb_false_iff. rewrite Z.eqb_neq, Z.ltb_ge. done.
  - simpl in Hlen. lia.
Qed.

End KmallocLoop.

(** ** Allocated blocks *)

Section Live.
Context (k : kheap) (bs : list (Z * Z)) (fl : list Z) (L : gmap Z Z).
Context (Hinv : heap_inv k bs fl) (HL : lives bs fl L).

Lemma lives_disjoint p n q m :
  L !! p = Some n → (q - sizeof_header, m) ∈ bs → p ≠ q →
  disjoint_blocks (q - sizeof_header) (m + sizeof_header) (p - sizeof_header) (n + sizeof_header).
Proof.
  intros [Hp _]%HL Hq Hne. unfold disjoint_blocks.
  destruct (tiles_disjoint _ _ _ _ _ _ _ (inv_tiles _ _ _ Hinv) Hp Hq) as [[? _]|[?|?]]; lia.
Qed.

Lemma free_notin l1 a l2 : fl = l1 ++ a :: l2 → a ∉ l1 ++ l2.
Proof.
  intros ->. pose proof (inv_nodup _ _ _ Hinv) as Hnd.
  apply NoDup_app in Hnd as (_ & Hd & [Hd2 _]%NoDup_cons). set_solver.
Qed.

Lemma free_not_live a : a ∈ fl → L !! (a + sizeof_header) = None.
Proof.
  intros Ha. apply eq_None_not_Some. intros [m [_ Hm]%HL]. by rewrite Z.add_simpl_r in Hm.
Qed.

Lemma lives_exact n l1 a l2 :
  fl = l1 ++ a :: l2 → (a, n) ∈ bs → lives bs (l1 ++ l2) (<[a + sizeof_header := n]> L).
Proof.
  intros Hfl Ha q m. rewrite lookup_insert. case_decide as Hq.
  - subst q. rewrite Z.add_simpl_r. split.
    + intros [= <-]. eauto using free_notin.
    + intros [Hm _]. f_equal. by eapply tiles_fun; [apply (inv_tiles _ _ _ Hinv)|..].
  - rewrite (HL q m). assert (q - sizeof_header ≠ a) by lia. set_solver.
Qed.

Lemma lives_split n l1 a l2 b1 s b2 :
  0 <= n → n + sizeof_header < s →
  fl = l1 ++ a :: l2 → bs = b1 ++ (a, s) :: b2 →
  lives (b1 ++ (a, n) :: (a + sizeof_header + n, s - n - sizeof_header) :: b2)
    (l1 ++ (a + sizeof_header + n) :: l2) (<[a + sizeof_header := n]> L).
Proof.
  intros Hn Hlt Hfl Hbs q m. rewrite lookup_insert.
  pose proof (inv_tiles _ _ _ Hinv) as Ht. rewrite Hbs in Ht.
  pose proof (free_notin _ _ _ Hfl) as Hnin.
  case_decide as Hq.
  - subst q. rewrite Z.add_simpl_r. split.
    + intros [= <-]. split; [set_solver|].
      assert (a ≠ a + sizeof_header + n) by (unfold sizeof_header; lia). set_solver.
    + intros [Hm _]. f_equal. eapply tiles_fun; [|  |exact Hm]; [|set_solver].
      eapply tiles_split; [done..|lia].
  - rewrite (HL q m). assert (q - sizeof_header ≠ a) by lia. split; [|set_solver].
    intros [Hin Hnf]. split; [set_solver|].
    assert (q - sizeof_header ≠ a + sizeof_header + n); [|set_solver].
    eapply tiles_new_header; [exact Ht|done|lia|]. by rewrite <- Hbs.
Qed.

(** The block an allocation returns was not allocated, and does not overlap an
    allocated block. *)
Lemma alloc_step_live n bs' fl' p :
  0 <= n → alloc_step n bs fl bs' fl' p →
  0 < p < 2 ^ 32 ∧ L !! p = None ∧ lives bs' fl' (<[p := n]> L) ∧
  ∀ q m, L !! q = Some m → disjoint_blocks p n q m.
Proof.
  intros Hn Hstep.
  assert (∃ a s, p = a + sizeof_header ∧ a ∈ fl ∧ (a, s) ∈ bs ∧ n <= s)
    as (a & s & Hp & Ha & Hs & Hns).
  { destruct Hstep as [l1 a l2 -> _ Ha|l1 a l2 b1 b2 s -> _ Hbs Hlt].
    - exists a, n. split_and!; [done|set_solver|done|lia].
    - exists a, s. unfold sizeof_header in *. split_and!; [done|set_solver..|lia]. }
  pose proof (inv_region _ _ _ Hinv _ _ Hs) as Hreg.
  unfold KERNEL_HEAP_VIRT_START, KERNEL_HEAP_SIZE in Hreg.
  split_and!; try (unfold sizeof_header in *; lia).
  - subst p. by apply free_not_live.
  - destruct Hstep; [by apply lives_exact | by apply lives_split].
  - intros q m Hq. pose proof (lives_disjoint q m p s Hq) as Hd. subst p.
    rewrite Z.add_simpl_r in Hd. unfold disjoint_blocks in *.
    assert (q ≠ a + sizeof_header) by (intros ->; by rewrite free_not_live in Hq).
    destruct Hd; [done..| |]; unfold sizeof_header in *; lia.
Qed.

End Live.

(** ** Theorems *)

Section Theorems.

Lemma kmalloc_ok n k bs fl :
  heap_inv k bs fl → 0 <= n < 2 ^ 32 - sizeof_header →
  wp (kmalloc n) (kmalloc_post n k bs fl) k.
Proof.
  intros Hinv Hn. apply wp_bind, wp_get.
  apply (kmalloc_loop_ok n Hn k bs _ [] fl); try done.
  - apply (inv_chain _ _ _ Hinv).
  - intros a s Ha. by apply not_elem_of_nil in Ha.
  - pose proof (inv_length _ _ _ Hinv). lia.
Qed.

Lemma kmalloc_rep n k L :
  heap_rep k L → 0 <= n < 2 ^ 32 - sizeof_header →
  wp (kmalloc n) (λ p k',
    (p = 0 ∧ k' = k) ∨
    (0 < p < 2 ^ 32 ∧ L !! p = None ∧ heap_rep k' (<[p := n]> L) ∧
     ∀ q m, L !! q = Some m → disjoint_blocks p n q m)) k.
Proof.
  intros (bs & fl & Hinv & HL) Hn.
  eapply wp_mono; [by eapply kmalloc_ok|]. intros p k' [(-> & -> & _)|(bs' & fl' & Hstep & Hinv')].
  - by left.
  - right. destruct (alloc_step_live _ _ _ _ Hinv HL n bs' fl' p) as (? & ? & ? & ?); [lia|done|].
    split_and!; try done || lia. by exists bs', fl'.
Qed.

Lemma kfree_inv k bs fl p n L :
  heap_inv k bs fl → lives bs fl L → L !! p = Some n →
  wp (kfree p) (λ _ k', heap_inv k' bs ((p - sizeof_header) :: fl) ∧
    headers k' !! (p - sizeof_header) = Some (Header n (KMALLOC_HEAD k)) ∧
    KMALLOC_HEAD k' = p - sizeof_header) k.
Proof.
  intros Hinv HL [Hp Hnf]%HL. pose proof (inv_region _ _ _ Hinv _ _ Hp) as Hreg.
  unfold KERNEL_HEAP_VIRT_START, KERNEL_HEAP_SIZE, sizeof_header in Hreg.
  pose proof (inv_header _ _ _ Hinv _ _ Hp) as Hh.
  destruct (headers k !! (p - sizeof_header)) as [h|] eqn:E; simplify_eq/=.
  unfold kfree. rewrite u32_small by (unfold sizeof_header in *; ulia).
  wp_steps. eapply wp_set_next; [done|]. apply wp_modify; simpl.
  split_and!; [|by rewrite lookup_insert_eq|done].
  split; simpl.
  - apply (inv_tiles _ _ _ Hinv).
  - intros b s Hb. rewrite lookup_insert. case_decide as Hd; [|by apply (inv_header _ _ _ Hinv)].
    subst b. simpl. f_equal. by eapply tiles_fun; [apply (inv_tiles _ _ _ Hinv)|..].
  - split_and!; [done|unfold sizeof_header in *; lia|]. eexists. split; [by rewrite lookup_insert_eq|].
    simpl. eapply seg_frame; [|apply (inv_chain _ _ _ Hinv)].
    intros b Hb. rewrite lookup_insert_ne; [done|]. by intros <-.
  - apply NoDup_cons. split; [done|apply (inv_nodup _ _ _ Hinv)].
  - intros b [->|Hb]%elem_of_cons; [eauto|by apply (inv_free _ _ _ Hinv)].
Qed.

Lemma lives_free bs fl L p :
  lives bs fl L → lives bs ((p - sizeof_header) :: fl) (delete p L).
Proof.
  intros HL q m. rewrite lookup_delete. case_decide as Hd.
  - subst q. set_solver.
  - rewrite (HL q m). assert (q - sizeof_header ≠ p - sizeof_header) by lia. set_solver.
Qed.

Lemma kfree_rep k L p n :
  heap_rep k L → L !! p = Some n → wp (kfree p) (λ _ k', heap_rep k' (delete p L)) k.
Proof.
  intros (bs & fl & Hinv & HL) Hp.
  eapply wp_mono; [by eapply kfree_inv|]. intros [] k' [Hinv' _].
  do 2 eexists. split; [done|]. by apply lives_free.
Qed.

(** A free region large enough for [k] small blocks with their headers. *)
Definition heap_room (k : kheap) (n : nat) : Prop :=
  ∃ bs fl a s, heap_inv k bs fl ∧ a ∈ fl ∧ (a, s) ∈ bs ∧ Z.of_nat n * (small + sizeof_header) < s.

(** A small allocation leaves a region with room for one block less. *)
Lemma alloc_step_room m n bs fl bs' fl' p a s :
  alloc_step m bs fl bs' fl' p → 0 <= m <= small → (∀ t, (a, t) ∈ bs → t = s) →
  a ∈ fl → (a, s) ∈ bs → Z.of_nat (S n) * (small + sizeof_header) < s →
  ∃ b t, b ∈ fl' ∧ (b, t) ∈ bs' ∧ Z.of_nat n * (small + sizeof_header) < t.
Proof.
  unfold small, sizeof_header.
  intros [l1 c l2 -> _ Hc|l1 c l2 b1 b2 t -> _ -> Ht] Hm Hu Ha Has Hs.
  - exists a, s. split_and!; [|done|lia]. assert (a ≠ c); [|set_solver].
    intros ->. apply Hu in Hc. lia.
  - destruct (decide (a = c)) as [->|Hne].
    + assert (t = s) as -> by (apply Hu; set_solver).
      exists (c + sizeof_header + m), (s - m - sizeof_header).
      split_and!; [set_solver..|unfold sizeof_header; lia].
    + exists a, s. split_and!; [set_solver..|lia].
Qed.

Lemma kmalloc_room k n m :
  heap_room k (S n) → 0 <= m <= small → wp (kmalloc m) (λ p k', p ≠ 0 ∧ heap_room k' n) k.
Proof.
  intros (bs & fl & a & s & Hinv & Ha & Has & Hs) Hm.
  assert (Hu : ∀ t, (a, t) ∈ bs → t = s) by (intros; by eapply tiles_fun; [apply Hinv|..]).
  eapply wp_mono; [apply (kmalloc_ok m k bs fl Hinv); unfold small, sizeof_header in *; lia|].
  intros p k' [(_ & _ & Hno)|(bs' & fl' & Hstep & Hinv')].
  - specialize (Hno a s Ha Has). unfold fits, small, sizeof_header in *. lia.
  - destruct (alloc_step_room _ n _ _ _ _ _ _ _ Hstep Hm Hu Ha Has Hs) as (b & t & Hb & Hbt & Ht).
    split; [|by exists bs', fl', b, t].
    assert (∃ c r, p = c + sizeof_header ∧ (c, r) ∈ bs) as (c & r & -> & Hc).
    { destruct Hstep as [? c ? ? _ Hc|? c ? ? ? r ? _ ->]; exists c; eexists; (split; [done|]);
        [exact Hc|]. by apply elem_of_app; right; left. }
    pose proof (inv_region _ _ _ Hinv _ _ Hc).
    unfold KERNEL_HEAP_VIRT_START, KERNEL_HEAP_SIZE, sizeof_header in *. lia.
Qed.

(** The headers determine the regions and the free list. *)
Lemma tiles_determined lo bs bs' hi (hs : gmap Z kmalloc_header) :
  tiles lo bs hi → tiles lo bs' hi →
  (∀ a s, (a, s) ∈ bs → hdr_size <$> hs !! a = Some s) →
  (∀ a s, (a, s) ∈ bs' → hdr_size <$> hs !! a = Some s) → bs = bs'.
Proof.
  revert lo bs'. induction bs as [|[a s] bs IH]; intros lo bs' Ht Ht' Hh Hh'.
  - destruct bs' as [|[a s] bs']; [done|]. simpl in Ht, Ht'. destruct Ht' as (-> & ? & Ht').
    apply tiles_bounds in Ht' as [? _]. unfold sizeof_header in *. lia.
  - destruct bs' as [|[a' s'] bs']; simpl in Ht, Ht'; destruct Ht as (-> & Hs & Ht).
    { apply tiles_bounds in Ht as [? _]. unfold sizeof_header in *. lia. }
    destruct Ht' as (-> & Hs' & Ht').
    assert (s' = s) as ->.
    { pose proof (Hh lo s ltac:(set_solver)) as E. rewrite (Hh' lo s' ltac:(set_solver)) in E.
      congruence. }
    f_equal. eapply IH; [done..| |]; intros; [apply Hh|apply Hh']; set_solver.
Qed.

Lemma seg_determined hs p l l' : seg hs p l 0 → seg hs p l' 0 → l = l'.
Proof.
  revert p l'. induction l as [|a l IH]; intros p [|a' l']; simpl; [naive_solver..|].
  intros (-> & _ & h & Hh & Hs) (-> & _ & h' & Hh' & Hs'). simplify_eq. f_equal. by eapply IH.
Qed.

Lemma heap_inv_determined k bs fl bs' fl' :
  heap_inv k bs fl → heap_inv k bs' fl' → bs = bs' ∧ fl = fl'.
Proof.
  intros [] []. split; [by eapply tiles_determined|by eapply seg_determined].
Qed.

Lemma kfree_room k L p m n :
  heap_rep k L → L !! p = Some m → heap_room k n → wp (kfree p) (λ _ k', heap_room k' n) k.
Proof.
  intros (bs & fl & Hinv & HL) Hp (bs' & fl' & a & s & Hinv' & Ha & Has & Hs).
  destruct (heap_inv_determined _ _ _ _ _ Hinv Hinv') as [<- <-].
  eapply wp_mono; [by eapply kfree_inv|]. intros [] k' [Hk' _].
  exists bs, ((p - sizeof_header) :: fl), a, s. split_and!; [done|set_solver|done..].
Qed.

#[global] Program Instance kheap_allocator : Allocator kheap := {|
  malloc := kmalloc; free := kfree; owns := heap_rep; room := heap_room
|}.
Next Obligation.
  intros k L p n (bs & fl & Hinv & HL) [Hp _]%HL.
  pose proof (inv_region _ _ _ Hinv _ _ Hp).
  unfold KERNEL_HEAP_VIRT_START, KERNEL_HEAP_SIZE, sizeof_header in *. lia.
Qed.
Next Obligation. intros. by apply kmalloc_rep. Qed.
Next Obligation. intros. by eapply kfree_rep. Qed.
Next Obligation.
  intros k n n' Hle (bs & fl & a & s & ? & ? & ? & ?). exists bs, fl, a, s.
  split_and!; [done..|]. unfold small, sizeof_header in *. lia.
Qed.
Next Obligation. intros. by apply kmalloc_room. Qed.
Next Obligation. intros. by eapply kfree_room. Qed.

Lemma kmalloc_init_ok k :
  wp kmalloc_init (λ _ k',
    heap_inv k' [(KERNEL_HEAP_VIRT_START, KERNEL_HEAP_SIZE - sizeof_header)]
      [KERNEL_HEAP_VIRT_START] ∧ heap_rep k' ∅) k.
Proof.
  unfold kmalloc_init, set_head, store_header. wp_steps. simpl.
  match goal with |- heap_inv ?x ?b ?f ∧ _ => assert (heap_inv x b f) as Hinv end.
  { split; simpl; [done| | | |].
    - intros a s Ha%list_elem_of_singleton. simplify_eq. by rewrite lookup_insert_eq.
    - split_and!; try done. eexists. by rewrite lookup_insert_eq.
    - apply NoDup_singleton.
    - intros a ->%list_elem_of_singleton. eexists. by apply list_elem_of_singleton. }
  split; [done|]. do 2 eexists. split; [done|].
  intros p n. rewrite lookup_empty. split; [done|]. intros [Hp%list_elem_of_singleton Hn].
  simplify_eq/=. set_solver.
Qed.

End Theorems.

(** The heap as a state machine: initialisation, then any sequence of kmalloc
    calls, and of kfree calls on blocks that are allocated. *)
Inductive heap_reachable : kheap → gmap Z Z → Prop :=
  | reach_init k0 k :
      kmalloc_init k0 = Ok (tt, k) → heap_reachable k ∅
  | reach_null k L n k' :
      heap_reachable k L → 0 <= n < 2 ^ 32 - sizeof_header →
      kmalloc n k = Ok (0, k') → heap_reachable k' L
  | reach_kmalloc k L n p k' :
      heap_reachable k L → 0 <= n < 2 ^ 32 - sizeof_header → p ≠ 0 →
      kmalloc n k = Ok (p, k') → heap_reachable k' (<[p := n]> L)
  | reach_kfree k L p n k' :
      heap_reachable k L → L !! p = Some n →
      kfree p k = Ok (tt, k') → heap_reachable k' (delete p L).

Lemma heap_reachable_rep k L : heap_reachable k L → heap_rep k L.
Proof.
  induction 1 as [k0 k E|k L n k' _ IH Hn E|k L n p k' _ IH Hn Hp E|k L p n k' _ IH Hp E].
  - pose proof (kmalloc_init_ok k0) as W. unfold wp in W. rewrite E in W. by destruct W.
  - pose proof (kmalloc_rep n k L IH Hn) as W. unfold wp in W. rewrite E in W.
    destruct W as [[_ ->]|[? _]]; [done|lia].
  - pose proof (kmalloc_rep n k L IH Hn) as W. unfold wp in W. rewrite E in W.
    destruct W as [[? _]|(_ & _ & W & _)]; [done|exact W].
  - pose proof (kfree_rep k L p n IH Hp) as W. unfold wp in W. by rewrite E in W.
Qed.

(** C8: every heap reached from kmalloc_init by kmalloc calls and by kfree
    calls on allocated blocks keeps its allocated blocks apart: each lies,
    behind its header, inside the kernel heap, and no two of them overlap, the
    headers included. *)
Theorem kheap_blocks_disjoint k L p n q m :
  heap_reachable k L → L !! p = Some n → L !! q = Some m →
  KERNEL_HEAP_VIRT_START + sizeof_header <= p ∧
  p + n <= KERNEL_HEAP_VIRT_START + KERNEL_HEAP_SIZE ∧
  (p ≠ q → disjoint_blocks (p - sizeof_header) (n + sizeof_header)
             (q - sizeof_header) (m + sizeof_header)).
Proof.
  intros (bs & fl & Hinv & HL)%heap_reachable_rep Hp Hq.
  pose proof (proj1 (HL _ _) Hp) as [Hb _]. pose proof (proj1 (HL _ _) Hq) as [Hc _].
  pose proof (inv_region _ _ _ Hinv _ _ Hb). split_and!; [lia..|].
  intros Hne. eapply lives_disjoint; [done..|]. congruence.
Qed.

(** C28: kmalloc implements first fit.  It always returns; it gives NULL and
    changes nothing exactly when no free region has the requested size or room
    for the request and one more header, and otherwise takes the first such
    region of the free list, whole or split, leaving a well-formed heap. *)
Theorem kmalloc_first_fit n k bs fl :
  heap_inv k bs fl → 0 <= n < 2 ^ 32 - sizeof_header →
  wp (kmalloc n) (λ p k',
    (p = 0 ∧ k' = k ∧ no_fit n bs fl) ∨
    (p ≠ 0 ∧ ¬ no_fit n bs fl ∧
     ∃ bs' fl', alloc_step n bs fl bs' fl' p ∧ heap_inv k' bs' fl')) k.
Proof.
  intros Hinv Hn. eapply wp_mono; [by eapply kmalloc_ok|].
  intros p k' [H|(bs' & fl' & Hstep & Hinv')]; [by left|]. right.
  destruct (Hstep) as [l1 a l2 -> _ Ha|l1 a l2 b1 b2 s -> _ Hbs Hlt].
  - pose proof (inv_region _ _ _ Hinv _ _ Ha). split_and!; [|intros Hno|eauto].
    + unfold KERNEL_HEAP_VIRT_START, sizeof_header in *. lia.
    + specialize (Hno a n ltac:(set_solver) Ha). unfold fits in Hno.
      rewrite Z.eqb_refl in Hno. done.
  - assert (Ha : (a, s) ∈ bs) by set_solver.
    pose proof (inv_region _ _ _ Hinv _ _ Ha). split_and!; [|intros Hno|eauto].
    + unfold KERNEL_HEAP_VIRT_START, sizeof_header in *. lia.
    + specialize (Hno a s ltac:(set_solver) Ha). unfold fits in Hno.
      apply orb_false_iff in Hno as [_ Hno%Z.ltb_ge]. lia.
Qed.

(** Freeing an allocated block and asking again for its size returns the
    same block, and the set of allocated blocks is the one before. *)
Theorem kfree_kmalloc_reuse k L p n :
  heap_reachable k L → L !! p = Some n → n < 2 ^ 32 - sizeof_header →
  wp (kfree p;; kmalloc n) (λ q k', q = p ∧ heap_rep k' L) k.
Proof.
  intros (bs & fl & Hinv & HL)%heap_reachable_rep Hp Hn.
  pose proof (proj1 (HL _ _) Hp) as [Hb Hnf].
  pose proof (inv_region _ _ _ Hinv _ _ Hb).
  apply wp_bind. eapply wp_mono; [by eapply kfree_inv|].
  intros [] k' (Hinv' & Hh & Hhead). eapply wp_mono; [apply kmalloc_ok; [done|lia]|].
  assert (Hfit : ∀ l l2, (p - sizeof_header) :: fl = l ++ l2 → no_fit n bs l → l = []).
  { intros [|b l] l2 Hl Hno; [done|]. simplify_eq/=.
    specialize (Hno (p - sizeof_header) n ltac:(set_solver) Hb). unfold fits in Hno. by rewrite Z.eqb_refl in Hno. }
  intros q k'' [(_ & _ & Hno)|(bs' & fl' & Hstep & Hinv'')].
  { by specialize (Hfit _ [] ltac:(by rewrite app_nil_r) Hno). }
  destruct Hstep as [l1 a l2 Hl Hno Ha|l1 a l2 b1 b2 s Hl Hno Hbs Hlt].
  - pose proof (Hfit _ _ Hl Hno). simplify_eq/=. split; [lia|].
    do 2 eexists. split; [done|]. done.
  - pose proof (Hfit _ _ Hl Hno). simplify_eq/=.
    assert (s = n) as -> by (eapply (tiles_fun _ _ _ (p - sizeof_header)); [apply (inv_tiles _ _ _ Hinv)|set_solver|done]).
    unfold sizeof_header in *. lia.
Qed.

(** A request within 8 bytes of 2^32 overflows the size computation of
    kmalloc: on the freshly initialised heap it does not fail but returns the
    start of the heap, although no block of that size exists. *)
Theorem kmalloc_size_overflow k0 k n :
  kmalloc_init k0 = Ok (tt, k) → 2 ^ 32 - sizeof_header <= n < 2 ^ 32 →
  KERNEL_HEAP_SIZE < n ∧
  wp (kmalloc n) (λ p _, p = KERNEL_HEAP_VIRT_START + sizeof_header) k.
Proof.
  intros Hk Hn.
  assert (k = KHeap KERNEL_HEAP_VIRT_START
    (<[KERNEL_HEAP_VIRT_START := Header (u32 (KERNEL_HEAP_SIZE - sizeof_header)) 0]> (headers k0)))
    as -> by (by injection Hk).
  clear Hk. unfold KERNEL_HEAP_SIZE, sizeof_header in *. split; [lia|].
  apply wp_bind, wp_get. cbn [kmalloc_loop KMALLOC_HEAD headers].
  apply wp_bind. eapply wp_load_header; [apply lookup_insert_eq|].
  cbn [hdr_size hdr_next].
  rewrite (proj2 (Z.eqb_neq _ n)) by ulia.
  rewrite (proj2 (Z.ltb_lt (u32 (n + _)) _)) by (unfold sizeof_header; ulia).
  unfold store_header, set_head. wp_steps.
  apply wp_bind. cbn [headers KMALLOC_HEAD].
  match goal with |- wp _ _ ?st =>
    assert (∃ h, headers st !! KERNEL_HEAP_VIRT_START = Some h) as [h Hh] end.
  { cbn [headers]. rewrite lookup_insert. case_decide; [eauto|]. eexists. apply lookup_insert_eq. }
  by eapply wp_set_size; [exact Hh | apply wp_ret].
Qed.

(** ** Witnesses *)

Definition heap0 : kheap :=
  KHeap KERNEL_HEAP_VIRT_START
    {[ KERNEL_HEAP_VIRT_START := Header (KERNEL_HEAP_SIZE - sizeof_header) 0 ]}.

Lemma heap0_init : kmalloc_init (KHeap 0 ∅) = Ok (tt, heap0).
Proof. reflexivity. Qed.

(** kmalloc(12); kmalloc(28): two blocks. *)
Definition heap2 : kheap :=
  match (kmalloc 12;; kmalloc 28) heap0 with Ok (_, k) => k | Err _ => heap0 end.

Lemma heap2_reachable :
  heap_reachable heap2
    (<[KERNEL_HEAP_VIRT_START + 28 := 28]> (<[KERNEL_HEAP_VIRT_START + 8 := 12]> ∅)).
Proof.
  eapply (reach_kmalloc _ _ 28); [|vm_compute; intuition congruence|done|].
  - eapply (reach_kmalloc heap0 _ 12); [|vm_compute; intuition congruence|done|vm_compute; reflexivity].
    eapply reach_init, heap0_init.
  - vm_compute. reflexivity.
Qed.

Lemma kheap_blocks_disjoint_witness :
  disjoint_blocks (KERNEL_HEAP_VIRT_START + 28 - 8) 36 (KERNEL_HEAP_VIRT_START + 8 - 8) 20.
Proof.
  apply (kheap_blocks_disjoint heap2 _ (KERNEL_HEAP_VIRT_START + 28) 28
    (KERNEL_HEAP_VIRT_START + 8) 12 heap2_reachable); by vm_compute.
Defined.

Lemma heap0_inv :
  heap_inv heap0 [(KERNEL_HEAP_VIRT_START, KERNEL_HEAP_SIZE - sizeof_header)]
    [KERNEL_HEAP_VIRT_START].
Proof.
  pose proof (kmalloc_init_ok (KHeap 0 ∅)) as W. unfold wp in W.
  rewrite heap0_init in W. apply W.
Qed.

Lemma kmalloc_first_fit_witness :
  ∃ p k', kmalloc 12 heap0 = Ok (p, k') ∧ p ≠ 0.
Proof.
  pose proof (kmalloc_first_fit 12 heap0 _ _ heap0_inv ltac:(vm_compute; intuition congruence)) as W.
  apply wp_ok in W as (p & k' & E & [(_ & _ & Hno)|(Hp & _)]); [|by eauto].
  specialize (Hno KERNEL_HEAP_VIRT_START (KERNEL_HEAP_SIZE - sizeof_header)
    ltac:(set_solver) ltac:(set_solver)). by vm_compute in Hno.
Defined.

Lemma kfree_kmalloc_reuse_witness :
  wp (kfree (KERNEL_HEAP_VIRT_START + 8);; kmalloc 12)
    (λ q _, q = KERNEL_HEAP_VIRT_START + 8) heap2.
Proof.
  eapply wp_mono; [apply (kfree_kmalloc_reuse _ _ (KERNEL_HEAP_VIRT_START + 8) 12 heap2_reachable)|].
  - by vm_compute.
  - by vm_compute.
  - by intros q k' [-> _].
Defined.

Lemma kmalloc_size_overflow_witness :
  KERNEL_HEAP_SIZE < 2 ^ 32 - 1 ∧
  wp (kmalloc (2 ^ 32 - 1)) (λ p _, p = KERNEL_HEAP_VIRT_START + sizeof_header) heap0.
Proof.
  apply (kmalloc_size_overflow (KHeap 0 ∅) heap0 (2 ^ 32 - 1) heap0_init). by vm_compute.
Defined.
