(* ===== verification/PageArith.v ===== *)
(** * Pages, page-table flags and kernel addresses

    The constants of include/mm/paging.h, the layout record of
    include/mm/meminfo.h, the address arithmetic of mm/paging.c and the
    higher-half translation of mm/vmm.c. *)

From S2P Require Import Prelude.

Definition PAGE_SIZE : Z := Z.shiftl 1 12.
Definition PAGE_TABLE_SIZE : Z := 1024.
Definition PAGE_DIRECTORY_START : Z := 22.
Definition PAGE_TABLE_START : Z := 12.

Definition PAGE_FLAG_PRESENT : Z := 1.
Definition PAGE_FLAG_WRITE : Z := Z.shiftl 1 1.
Definition PAGE_FLAG_USER : Z := Z.shiftl 1 2.
Definition PAGE_FLAG_PAGE_SIZE : Z := Z.shiftl 1 7.

Definition PAGE_DIRECTORY_INDEX (vaddr : Z) : Z := Z.shiftr vaddr PAGE_DIRECTORY_START.
Definition PAGE_TABLE_INDEX (vaddr : Z) : Z :=
  Z.land (Z.shiftr vaddr PAGE_TABLE_START) (Z.shiftl 1 10 - 1).

Record kernel_meminfo := Meminfo {
  physical_start : Z;
  physical_end : Z;
  virtual_start : Z;
  virtual_end : Z;
  text_virtual_start : Z;
  text_physical_start : Z;
  text_virtual_end : Z;
  rodata_virtual_start : Z;
  rodata_physical_start : Z;
  rodata_virtual_end : Z;
  data_virtual_start : Z;
  data_physical_start : Z;
  data_virtual_end : Z;
  bss_virtual_start : Z;
  bss_physical_start : Z;
  bss_virtual_end : Z;
  higher_half_base : Z;
  stack_top : Z
}.

(** sizeof(kernel_meminfo_t): eighteen 32-bit fields. *)
Definition kernel_meminfo_size : Z := 18 * 4.

Definition paging_page_count (size : Z) : Z :=
  u32 (u32 (size + PAGE_SIZE) - 1) / PAGE_SIZE.

Definition paging_is_aligned (addr : Z) : bool :=
  Z.land addr (PAGE_SIZE - 1) =? 0.

Definition paging_align_addr (addr : Z) : Z := addr / PAGE_SIZE * PAGE_SIZE.

Definition vmm_virtual_to_physical (mi : kernel_meminfo) (addr : Z) : Z :=
  u32 (addr - higher_half_base mi).

Definition vmm_physical_to_virtual (mi : kernel_meminfo) (addr : Z) : Z :=
  u32 (addr + higher_half_base mi).

(** ** Arithmetic facts *)

Lemma PAGE_SIZE_val : PAGE_SIZE = 4096.
Proof. reflexivity. Qed.

Ltac page_unfold := rewrite ?PAGE_SIZE_val in *.

Lemma paging_is_aligned_spec addr : paging_is_aligned addr = true ↔ addr mod PAGE_SIZE = 0.
Proof.
  unfold paging_is_aligned. rewrite Z.eqb_eq.
  change (PAGE_SIZE - 1) with (Z.ones 12). rewrite Z.land_ones by lia. done.
Qed.

Lemma paging_is_aligned_mult addr :
  paging_is_aligned addr = true ↔ ∃ i, addr = i * PAGE_SIZE.
Proof.
  rewrite paging_is_aligned_spec. rewrite PAGE_SIZE_val. split.
  - intros H. exists (addr / 4096). Z.div_mod_to_equations; lia.
  - intros [i ->]. apply Z.mod_mul. lia.
Qed.

Lemma PAGE_DIRECTORY_INDEX_div v : PAGE_DIRECTORY_INDEX v = v / 2 ^ 22.
Proof. unfold PAGE_DIRECTORY_INDEX. by rewrite Z.shiftr_div_pow2. Qed.

Lemma PAGE_TABLE_INDEX_div v : PAGE_TABLE_INDEX v = v / 2 ^ 12 mod 2 ^ 10.
Proof.
  unfold PAGE_TABLE_INDEX. change (Z.shiftl 1 10 - 1) with (Z.ones 10).
  rewrite Z.land_ones by lia. by rewrite Z.shiftr_div_pow2.
Qed.

(** Paging_page_count gives the least number of pages that hold [size]
    bytes, for every size that can be rounded up within 32 bits; for the last
    4095 sizes the rounding overflows and it gives 0. *)
Theorem paging_page_count_spec size :
  is_u32 size →
  (size <= 2 ^ 32 - PAGE_SIZE →
     (paging_page_count size - 1) * PAGE_SIZE < size <= paging_page_count size * PAGE_SIZE) ∧
  (2 ^ 32 - PAGE_SIZE < size → paging_page_count size = 0).
Proof.
  unfold paging_page_count. rewrite PAGE_SIZE_val. intros Hs. split; intros H.
  - destruct (Z.eq_dec size (2 ^ 32 - 4096)) as [->|Hne]; [by vm_compute|ulia].
  - ulia.
Qed.

(** Paging_align_addr rounds down to the page of the address: the result
    is page aligned, not above the address and less than a page below it, and
    an aligned address is left alone. *)
Theorem paging_align_addr_spec addr :
  is_u32 addr →
  paging_is_aligned (paging_align_addr addr) = true ∧
  paging_align_addr addr <= addr < paging_align_addr addr + PAGE_SIZE ∧
  is_u32 (paging_align_addr addr) ∧
  (paging_is_aligned addr = true → paging_align_addr addr = addr).
Proof.
  intros Ha. rewrite !paging_is_aligned_spec. unfold paging_align_addr.
  rewrite PAGE_SIZE_val. rewrite Z.mod_mul by lia. split_and!; ulia.
Qed.

(** The physical and virtual address translations of the kernel mapping
    are inverse to each other on 32-bit addresses. *)
Theorem vmm_address_roundtrip mi addr :
  is_u32 addr →
  vmm_physical_to_virtual mi (vmm_virtual_to_physical mi addr) = addr ∧
  vmm_virtual_to_physical mi (vmm_physical_to_virtual mi addr) = addr.
Proof.
  intros Ha. unfold vmm_physical_to_virtual, vmm_virtual_to_physical. unfold u32.
  rewrite Zplus_mod_idemp_l, Zminus_mod_idemp_l, Z.sub_add, Z.add_simpl_r.
  split; by apply u32_small.
Qed.

(** The layout the linker script gives the kernel: the higher half at 3 GB, the
    kernel 1 MB above it.  linker.ld defines the "physical" start of a section as
    ADDR(section), which is its virtual address. *)
Definition meminfo0 : kernel_meminfo := {|
  physical_start := 0x00100000; physical_end := 0x00800000;
  virtual_start := 0xC0100000; virtual_end := 0xC0800000;
  text_virtual_start := 0xC0105000; text_physical_start := 0xC0105000;
  text_virtual_end := 0xC010D000;
  rodata_virtual_start := 0xC010D000; rodata_physical_start := 0xC010D000;
  rodata_virtual_end := 0xC010F000;
  data_virtual_start := 0xC010F000; data_physical_start := 0xC010F000;
  data_virtual_end := 0xC0110000;
  bss_virtual_start := 0xC0110000; bss_physical_start := 0xC0110000;
  bss_virtual_end := 0xC0800000;
  higher_half_base := 0xC0000000; stack_top := 0xC0114000
|}.

Lemma paging_page_count_spec_witness :
  is_u32 4097 ∧ (paging_page_count 4097 - 1) * PAGE_SIZE < 4097 <= paging_page_count 4097 * PAGE_SIZE.
Proof. split; [by vm_compute|]. apply (paging_page_count_spec 4097); by vm_compute. Defined.

Lemma paging_align_addr_spec_witness :
  paging_is_aligned (paging_align_addr 0xC0105123) = true.
Proof. apply (paging_align_addr_spec 0xC0105123). by vm_compute. Defined.

Lemma vmm_address_roundtrip_witness :
  vmm_physical_to_virtual meminfo0 (vmm_virtual_to_physical meminfo0 0xC0105000) = 0xC0105000.
Proof. apply (vmm_address_roundtrip meminfo0 0xC0105000). by vm_compute. Defined.
