(* ===== verification/Vmm.v ===== *)
(** * The virtual memory manager: arch/i386/mm/vmm.c, operations

    An address space ([vmm_context]) is a pair of pointers: a list of free page
    ranges and a search tree of allocations.  Both are linked structures whose
    nodes come from kmalloc.  The store [vmm_store] holds the nodes by address,
    one map per node type, and the state of the heap they are allocated in; a
    context passed by value shares its nodes with the original, as in the code.
    A function that takes a [vmm_context_t *] returns the updated context. *)

From S2P Require Import Prelude Allocator PageArith.

Record vmm_allocation := Allocation {
  virtual_addr : Z; physical_addr : Z; page_count : Z; flags : Z
}.

Record vmm_allocation_tree := AllocationTree {
  alloc : vmm_allocation; left : Z; right : Z; parent : Z
}.

Record vmm_free_blocks := FreeBlocks {
  fb_virtual_addr : Z; fb_page_count : Z; next : Z
}.

Record vmm_context := VmmContext { allocations : Z; free_blocks : Z }.

(** struct addr_space_entry of include/mm/addr_space.h *)
Record addr_space_entry := AddrSpaceEntry {
  ase_virtual_start : Z; ase_physical_start : Z; ase_page_count : Z; ase_flags : Z
}.

Definition sizeof_free_blocks : Z := 12.
Definition sizeof_allocation_tree : Z := 28.

Record vmm_store (H : Type) := VmmStore {
  vs_heap : H;
  vs_blocks : gmap Z vmm_free_blocks;
  vs_nodes : gmap Z vmm_allocation_tree
}.
Arguments VmmStore {H} _ _ _.
Arguments vs_heap {H} _.
Arguments vs_blocks {H} _.
Arguments vs_nodes {H} _.

Section Store.
Context {H : Type} `{Allocator H}.
Notation VM := (M (vmm_store H)).

Definition on_heap {A} (m : M H A) : VM A :=
  zoom vs_heap (λ h s, VmmStore h (vs_blocks s) (vs_nodes s)) m.

Definition load_block (p : Z) : VM vmm_free_blocks := λ s,
  match vs_blocks s !! p with Some b => Ok (b, s) | None => Err (EFault p) end.
Definition write_block (p : Z) (b : vmm_free_blocks) : VM unit :=
  modify (λ s, VmmStore (vs_heap s) (<[p := b]> (vs_blocks s)) (vs_nodes s)).
(** Assignment through a pointer to a live node. *)
Definition store_block (p : Z) (b : vmm_free_blocks) : VM unit :=
  load_block p;; write_block p b.
(** p = kmalloc(sizeof(vmm_free_blocks_t)); *p = b *)
Definition new_block (b : vmm_free_blocks) : VM Z :=
  p ← on_heap (malloc sizeof_free_blocks);
  (if p =? 0 then throw (EFault 0) else write_block p b);;
  mret p.
Definition free_block (p : Z) : VM unit :=
  on_heap (free p);;
  modify (λ s, VmmStore (vs_heap s) (delete p (vs_blocks s)) (vs_nodes s)).

Definition load_node (p : Z) : VM vmm_allocation_tree := λ s,
  match vs_nodes s !! p with Some t => Ok (t, s) | None => Err (EFault p) end.
Definition write_node (p : Z) (t : vmm_allocation_tree) : VM unit :=
  modify (λ s, VmmStore (vs_heap s) (vs_blocks s) (<[p := t]> (vs_nodes s))).
Definition store_node (p : Z) (t : vmm_allocation_tree) : VM unit :=
  load_node p;; write_node p t.
(** p = kmalloc(sizeof(vmm_allocation_tree_t)), before any assignment: the
    node holds whatever the memory holds, [junk]. *)
Definition kmalloc_node (junk : Z → vmm_allocation_tree) : VM Z :=
  p ← on_heap (malloc sizeof_allocation_tree);
  (if p =? 0 then mret tt else write_node p (junk p));;
  mret p.
Definition new_node (t : vmm_allocation_tree) : VM Z :=
  p ← on_heap (malloc sizeof_allocation_tree);
  (if p =? 0 then throw (EFault 0) else write_node p t);;
  mret p.
Definition free_node (p : Z) : VM unit :=
  on_heap (free p);;
  modify (λ s, VmmStore (vs_heap s) (vs_blocks s) (delete p (vs_nodes s))).

(** Loops over a list or tree of nodes visit each node at most once, unless the
    structure is cyclic, and then they never end: one more step than there are
    nodes is enough fuel. *)
Definition block_fuel (s : vmm_store H) : nat := S (size (vs_blocks s)).
Definition node_fuel (s : vmm_store H) : nat := S (size (vs_nodes s)).

Definition set_block_next (p n : Z) : VM unit :=
  b ← load_block p;
  write_block p (FreeBlocks (fb_virtual_addr b) (fb_page_count b) n).
Definition set_block_count (p n : Z) : VM unit :=
  b ← load_block p;
  write_block p (FreeBlocks (fb_virtual_addr b) n (next b)).

Definition set_left (p q : Z) : VM unit :=
  t ← load_node p; write_node p (AllocationTree (alloc t) q (right t) (parent t)).
Definition set_right (p q : Z) : VM unit :=
  t ← load_node p; write_node p (AllocationTree (alloc t) (left t) q (parent t)).
Definition set_parent (p q : Z) : VM unit :=
  t ← load_node p; write_node p (AllocationTree (alloc t) (left t) (right t) q).
Definition set_alloc (p : Z) (a : vmm_allocation) : VM unit :=
  t ← load_node p; write_node p (AllocationTree a (left t) (right t) (parent t)).

End Store.

Section Vmm.
Context {H : Type} `{Allocator H} (KERNEL_MEMINFO : kernel_meminfo).
Notation VM := (M (vmm_store H)).

Definition is_addr_in_range (va : Z) (b : vmm_free_blocks) : bool :=
  let range_end := u64 (fb_virtual_addr b + fb_page_count b * PAGE_SIZE) in
  (fb_virtual_addr b <=? va) && (va <? range_end).

Definition is_addr_in_user_range (va n : Z) : bool :=
  let range_end := u64 (va + n * PAGE_SIZE) in
  range_end <? higher_half_base KERNEL_MEMINFO.

Definition is_addr_ok_for_mode (va n : Z) (is_userspace : bool) : bool :=
  if is_userspace then is_addr_in_user_range va n
  else virtual_start KERNEL_MEMINFO <=? va.

Definition create_empty_ctx : VM vmm_context :=
  p ← new_node (AllocationTree (Allocation 0 0 0 0) 0 0 0);
  mret (VmmContext p 0).

Definition unlink_block (ctx : vmm_context) (fb prev : Z) : VM vmm_context :=
  b ← load_block fb;
  ctx' ← (if prev =? 0 then mret (VmmContext (allocations ctx) (next b))
          else set_block_next prev (next b);; mret ctx);
  free_block fb;;
  mret ctx'.

(** The search loop of remove_free_blocks: the block found (0 for none) and its
    predecessor. *)
Fixpoint find_free_blocks (fuel : nat) (va n : Z) (is_userspace : bool)
    (fb prev : Z) : VM (Z * Z) :=
  match fuel with
  | O => throw EFuel
  | S fuel =>
      if fb =? 0 then mret (0, prev)
      else
        b ← load_block fb;
        let select_current_addr :=
          (va =? 0) && is_addr_ok_for_mode (fb_virtual_addr b) n is_userspace in
        if (select_current_addr || is_addr_in_range va b) && (n <=? fb_page_count b)
        then mret (fb, prev)
        else find_free_blocks fuel va n is_userspace (next b) fb
  end.

Definition remove_free_blocks (ctx : vmm_context) (va n : Z) (is_userspace : bool) :
    VM (Z * vmm_context) :=
  assert (negb (free_blocks ctx =? 0)) "out of memory (no free blocks)";;
  s ← get;
  '(fb, prev) ← find_free_blocks (block_fuel s) va n is_userspace (free_blocks ctx) 0;
  (if fb =? 0 then panic "could not find %u consecutive free pages starting at %#x" else mret tt);;
  b ← load_block fb;
  if fb_page_count b =? n then
    ctx' ← unlink_block ctx fb prev;
    mret (va, ctx')
  else if n <? fb_page_count b then
    let page_offset :=
      if va =? 0 then 0 else u32 (va - fb_virtual_addr b) / PAGE_SIZE in
    (if u32 (fb_page_count b - page_offset) <? n then panic "out of memory"
     else mret tt);;
    if (va =? 0) || (va =? fb_virtual_addr b) then
      let allocated_addr := fb_virtual_addr b in
      write_block fb
        (FreeBlocks (u32 (fb_virtual_addr b + u32 (n * PAGE_SIZE)))
           (u32 (fb_page_count b - n)) (next b));;
      mret (allocated_addr, ctx)
    else
      let new_block_page_offset := u32 (page_offset + n) in
      (if new_block_page_offset <? fb_page_count b then
         nb ← new_block
           (FreeBlocks (u32 (fb_virtual_addr b + u32 (new_block_page_offset * PAGE_SIZE)))
              (u32 (fb_page_count b - new_block_page_offset)) (next b));
         set_block_next fb nb;;
         set_block_count fb page_offset
       else set_block_count fb (u32 (fb_page_count b - n)));;
      mret (va, ctx)
  else mret (va, ctx).

Definition merge_or_insert_free_blocks (fb va n : Z) : VM unit :=
  blocks_merged ←
    (if fb =? 0 then mret false
     else
       b ← load_block fb;
       let is_userspace_block :=
         is_addr_in_user_range (fb_virtual_addr b) (fb_page_count b) in
       let is_userspace_addr := is_addr_in_user_range va n in
       if negb (xorb is_userspace_block is_userspace_addr) then mret false
       else
         m1 ← (if u32 (fb_virtual_addr b + u32 (n * PAGE_SIZE)) =? va then
                 set_block_count fb (u32 (fb_page_count b + n));; mret true
               else mret false);
         b ← load_block fb;
         if next b =? 0 then mret m1
         else
           nb ← load_block (next b);
           if u32 (fb_virtual_addr b + u32 (n * PAGE_SIZE)) =? fb_virtual_addr nb then
             set_block_count fb (u32 (fb_page_count b + fb_page_count nb));;
             set_block_next fb (next nb);;
             free_block (next b);;
             mret true
           else mret m1);
  if (blocks_merged : bool) then mret tt
  else
    (* the code reads free_blocks->next, a live node, just after kmalloc *)
    nx ← (if fb =? 0 then mret 0 else b ← load_block fb; mret (next b));
    p ← new_block (FreeBlocks va n nx);
    (if fb =? 0 then mret tt else set_block_next fb p).

(** The search loop of add_free_blocks. *)
Fixpoint seek_free_blocks (fuel : nat) (va fb prev : Z) : VM (Z * Z) :=
  match fuel with
  | O => throw EFuel
  | S fuel =>
      if fb =? 0 then mret (0, prev)
      else
        b ← load_block fb;
        if fb_virtual_addr b <? va then seek_free_blocks fuel va (next b) fb
        else mret (fb, prev)
  end.

Definition add_free_blocks (ctx : vmm_context) (va n : Z) : VM vmm_context :=
  s ← get;
  '(fb, prev) ← seek_free_blocks (block_fuel s) va (free_blocks ctx) 0;
  if negb (fb =? 0) then
    if negb (prev =? 0) then
      merge_or_insert_free_blocks prev va n;; mret ctx
    else
      b ← load_block fb;
      if u32 (va + u32 (n * PAGE_SIZE)) =? fb_virtual_addr b then
        set_block_count fb (u32 (fb_page_count b + n));; mret ctx
      else
        p ← new_block (FreeBlocks va n fb);
        mret (VmmContext (allocations ctx) p)
  else
    if negb (prev =? 0) then
      merge_or_insert_free_blocks prev va n;; mret ctx
    else
      p ← new_block (FreeBlocks va n 0);
      mret (VmmContext (allocations ctx) p).

(** The search loop of add_allocation: the last node on the path. *)
Fixpoint find_insertion (fuel : nat) (va node prev : Z) : VM Z :=
  match fuel with
  | O => throw EFuel
  | S fuel =>
      if node =? 0 then mret prev
      else
        t ← load_node node;
        if va <? virtual_addr (alloc t) then find_insertion fuel va (left t) node
        else find_insertion fuel va (right t) node
  end.

Definition add_allocation (ctx : vmm_context) (va pa n fl : Z) : VM unit :=
  root ← load_node (allocations ctx);
  if page_count (alloc root) =? 0 then
    set_alloc (allocations ctx) (Allocation va pa n fl)
  else
    s ← get;
    prev ← find_insertion (node_fuel s) va (allocations ctx) 0;
    (if prev =? 0 then panic "out of memory" else mret tt);;
    p ← new_node (AllocationTree (Allocation va pa n fl) 0 0 0);
    set_parent p prev;;
    pt ← load_node prev;
    if va <? virtual_addr (alloc pt) then set_left prev p else set_right prev p.

Definition vmm_map_pages (ctx : vmm_context) (va pa n fl : Z) : VM (Z * vmm_context) :=
  let is_userspace := negb (Z.land fl PAGE_FLAG_USER =? 0) in
  assert (paging_is_aligned va) "cannot map unaligned address: %#x";;
  assert (paging_is_aligned pa) "cannot map to unaligned address: %#x";;
  (if free_blocks ctx =? 0 then panic "Out of memory" else mret tt);;
  '(addr, ctx') ← remove_free_blocks ctx va n is_userspace;
  add_allocation ctx' addr pa n fl;;
  mret (addr, ctx').

(** The loop of remove_allocation down the right spine. *)
Fixpoint rightmost (fuel : nat) (node : Z) : VM Z :=
  match fuel with
  | O => throw EFuel
  | S fuel =>
      t ← load_node node;
      if right t =? 0 then mret node else rightmost fuel (right t)
  end.

Definition remove_allocation (ctx : vmm_context) (node : Z) : VM vmm_context :=
  t ← load_node node;
  ctx' ← (if negb (parent t =? 0) then
            pt ← load_node (parent t);
            (if left pt =? node then set_left (parent t) (left t)
             else set_right (parent t) (left t));;
            mret ctx
          else mret (VmmContext (left t) (free_blocks ctx)));
  s ← get;
  last ← rightmost (node_fuel s) (left t);
  set_right last (right t);;
  free_node node;;
  mret ctx'.

(** The search loop of vmm_unmap_pages; each branch on a match returns. *)
Fixpoint unmap_allocation (fuel : nat) (ctx : vmm_context) (va n node : Z) :
    VM vmm_context :=
  match fuel with
  | O => throw EFuel
  | S fuel =>
      if node =? 0 then panic "allocation to unmap not found in allocation tree"
      else
        t ← load_node node;
        let a := alloc t in
        if va =? virtual_addr a then
          if n <? virtual_addr a then
            set_alloc node
              (Allocation (u32 (virtual_addr a + u32 (PAGE_SIZE * n)))
                 (physical_addr a) (u32 (page_count a - n)) (flags a));;
            mret ctx
          else if n =? virtual_addr a then remove_allocation ctx node
          else panic "cannot unamp more than has been mapped"
        else if va <? virtual_addr a then unmap_allocation fuel ctx va n (left t)
        else unmap_allocation fuel ctx va n (right t)
  end.

Definition vmm_unmap_pages (ctx : vmm_context) (va n : Z) : VM vmm_context :=
  assert (paging_is_aligned va) "cannot unmap unaligned address: %#x";;
  ctx' ← add_free_blocks ctx va n;
  s ← get;
  unmap_allocation (node_fuel s) ctx' va n (allocations ctx').

Fixpoint find_allocation_loop (fuel : nat) (va node : Z) : VM vmm_allocation :=
  match fuel with
  | O => throw EFuel
  | S fuel =>
      if node =? 0 then mret (Allocation 0 0 0 0)
      else
        t ← load_node node;
        let current_block := virtual_addr (alloc t) in
        let n := page_count (alloc t) in
        if (current_block <=? va) && (va <? u32 (current_block + u32 (n * PAGE_SIZE)))
        then mret (alloc t)
        else if va <? current_block then find_allocation_loop fuel va (left t)
        else find_allocation_loop fuel va (right t)
  end.

Definition vmm_find_allocation (ctx : vmm_context) (va : Z) : VM vmm_allocation :=
  s ← get;
  find_allocation_loop (node_fuel s) va (allocations ctx).

(** ADDR_SPACE as vmm_init fills it; [framebuffer_addr] is the 64-bit field of
    the multiboot framebuffer tag. *)
Definition vmm_init_addr_space (heap_virt heap_phys heap_size framebuffer_addr : Z) :
    list addr_space_entry :=
  let mi := KERNEL_MEMINFO in
  let ro := PAGE_FLAG_PRESENT in
  let rw := Z.lor PAGE_FLAG_PRESENT PAGE_FLAG_WRITE in
  [ AddrSpaceEntry (text_virtual_start mi) (text_physical_start mi)
      (paging_page_count (u32 (text_virtual_end mi - text_virtual_start mi))) ro;
    AddrSpaceEntry (rodata_virtual_start mi) (rodata_physical_start mi)
      (paging_page_count (u32 (rodata_virtual_end mi - rodata_virtual_start mi))) ro;
    AddrSpaceEntry (data_virtual_start mi) (data_physical_start mi)
      (paging_page_count (u32 (data_virtual_end mi - data_virtual_start mi))) rw;
    AddrSpaceEntry (bss_virtual_start mi) (bss_physical_start mi)
      (paging_page_count (u32 (bss_virtual_end mi - bss_virtual_start mi))) rw;
    AddrSpaceEntry heap_virt heap_phys (paging_page_count heap_size) rw;
    AddrSpaceEntry (higher_half_base mi) (u32 framebuffer_addr) 1 rw ].

Fixpoint map_addr_space (ctx : vmm_context) (l : list addr_space_entry) : VM vmm_context :=
  match l with
  | [] => mret ctx
  | e :: l =>
      '(_, ctx') ← vmm_map_pages ctx (ase_virtual_start e) (ase_physical_start e)
                     (ase_page_count e) (ase_flags e);
      map_addr_space ctx' l
  end.

Definition vmm_new_context (ADDR_SPACE : list addr_space_entry) : VM vmm_context :=
  ctx ← create_empty_ctx;
  let total_page_count := u64 (Z.shiftl 1 32) / PAGE_SIZE in
  let user_page_count := higher_half_base KERNEL_MEMINFO / PAGE_SIZE in
  let kernel_page_count := u64 (total_page_count - user_page_count) in
  ctx ← add_free_blocks ctx 0 (u32 user_page_count);
  ctx ← add_free_blocks ctx (higher_half_base KERNEL_MEMINFO) (u32 kernel_page_count);
  map_addr_space ctx ADDR_SPACE.

Definition vmm_init (heap_virt heap_phys heap_size framebuffer_addr : Z) :
    VM (list addr_space_entry * vmm_context) :=
  let ADDR_SPACE := vmm_init_addr_space heap_virt heap_phys heap_size framebuffer_addr in
  ctx ← vmm_new_context ADDR_SPACE;
  mret (ADDR_SPACE, ctx).

(** The loop of clone_free_blocks.  [current] is the node to fill next, already
    allocated (0 when kmalloc failed). *)
Fixpoint clone_free_blocks_loop (fuel : nat) (orig prev current : Z) : VM unit :=
  match fuel with
  | O => throw EFuel
  | S fuel =>
      if orig =? 0 then mret tt
      else
        (if prev =? 0 then mret tt else set_block_next prev current);;
        b ← load_block orig;
        (if current =? 0 then throw (EFault 0)
         else write_block current (FreeBlocks (fb_virtual_addr b) (fb_page_count b) 0));;
        current' ← on_heap (malloc sizeof_free_blocks);
        b ← load_block orig;
        clone_free_blocks_loop fuel (next b) current current'
  end.

Definition clone_free_blocks (orig : Z) : VM Z :=
  if orig =? 0 then mret 0
  else
    s ← get;
    fb ← on_heap (malloc sizeof_free_blocks);
    clone_free_blocks_loop (block_fuel s) orig 0 fb;;
    mret fb.

(** clone_allocation_tree copies into a node that kmalloc left uninitialised:
    its left, right and parent fields keep what the memory holds, [junk],
    unless a child is copied. *)
Fixpoint clone_allocation_tree (fuel : nat) (junk : Z → vmm_allocation_tree)
    (orig node : Z) : VM unit :=
  match fuel with
  | O => throw EFuel
  | S fuel =>
      if orig =? 0 then mret tt
      else
        o ← load_node orig;
        set_alloc node (alloc o);;
        (if left o =? 0 then mret tt
         else
           p ← kmalloc_node junk;
           set_left node p;;
           set_parent p node;;
           clone_allocation_tree fuel junk (left o) p);;
        (if right o =? 0 then mret tt
         else
           p ← kmalloc_node junk;
           set_right node p;;
           set_parent p node;;
           clone_allocation_tree fuel junk (right o) p)
  end.

Definition clone_allocations (junk : Z → vmm_allocation_tree) (orig : Z) : VM Z :=
  if orig =? 0 then mret 0
  else
    s ← get;
    p ← kmalloc_node junk;
    clone_allocation_tree (node_fuel s) junk orig p;;
    mret p.

Definition vmm_clone_context (junk : Z → vmm_allocation_tree) (ctx : vmm_context) :
    VM vmm_context :=
  fb ← clone_free_blocks (free_blocks ctx);
  al ← clone_allocations junk (allocations ctx);
  mret (VmmContext al fb).

End Vmm.
