(* ===== verification/VmmRules.v ===== *)
(** * Proof rules for the node store of the virtual memory manager

    The well-formedness of the store with respect to the heap, against the
    [Allocator] interface, and one rule for each access the code makes. *)

From S2P Require Import Prelude Allocator PageArith Vmm.

Section Rules.
Context {H : Type} `{Allocator H}.
Implicit Types s : vmm_store H.

(** Every node of the store is a block of its type's size that kmalloc handed
    out and that was not freed. *)
Definition store_ok (s : vmm_store H) : Prop :=
  ∃ L, owns (vs_heap s) L ∧
    (∀ p, is_Some (vs_blocks s !! p) → L !! p = Some sizeof_free_blocks) ∧
    (∀ p, is_Some (vs_nodes s !! p) → L !! p = Some sizeof_allocation_tree).

Lemma store_ok_block_addr s p b :
  store_ok s → vs_blocks s !! p = Some b → 0 < p < 2 ^ 32.
Proof. intros (L & Ho & Hb & _) Hp. eapply owns_addr; [done|]. apply Hb. eauto. Qed.

Lemma store_ok_node_addr s p t :
  store_ok s → vs_nodes s !! p = Some t → 0 < p < 2 ^ 32.
Proof. intros (L & Ho & _ & Hn) Hp. eapply owns_addr; [done|]. apply Hn. eauto. Qed.

Lemma store_ok_block s p b b' :
  store_ok s → vs_blocks s !! p = Some b →
  store_ok (VmmStore (vs_heap s) (<[p := b']> (vs_blocks s)) (vs_nodes s)).
Proof.
  intros (L & Ho & Hb & Hn) Hp. exists L. split_and!; [done| |done]. simpl.
  intros q. rewrite lookup_insert. case_decide; [|by apply Hb]. subst. intros _. apply Hb. eauto.
Qed.

Lemma store_ok_node s p t t' :
  store_ok s → vs_nodes s !! p = Some t →
  store_ok (VmmStore (vs_heap s) (vs_blocks s) (<[p := t']> (vs_nodes s))).
Proof.
  intros (L & Ho & Hb & Hn) Hp. exists L. split_and!; [done..|]. simpl.
  intros q. rewrite lookup_insert. case_decide; [|by apply Hn]. subst. intros _. apply Hn. eauto.
Qed.

Lemma wp_load_block p b Q s :
  vs_blocks s !! p = Some b → Q b s → wp (load_block p) Q s.
Proof. unfold wp, load_block. by intros ->. Qed.

Lemma wp_load_node p t Q s :
  vs_nodes s !! p = Some t → Q t s → wp (load_node p) Q s.
Proof. unfold wp, load_node. by intros ->. Qed.

Lemma wp_set_block_next p n b Q s :
  vs_blocks s !! p = Some b →
  Q tt (VmmStore (vs_heap s)
     (<[p := FreeBlocks (fb_virtual_addr b) (fb_page_count b) n]> (vs_blocks s)) (vs_nodes s)) →
  wp (set_block_next p n) Q s.
Proof. intros. apply wp_bind. by eapply wp_load_block. Qed.

Lemma wp_set_block_count p n b Q s :
  vs_blocks s !! p = Some b →
  Q tt (VmmStore (vs_heap s)
     (<[p := FreeBlocks (fb_virtual_addr b) n (next b)]> (vs_blocks s)) (vs_nodes s)) →
  wp (set_block_count p n) Q s.
Proof. intros. apply wp_bind. by eapply wp_load_block. Qed.

Lemma wp_set_node (f : vmm_allocation_tree → vmm_allocation_tree) p t Q s :
  vs_nodes s !! p = Some t →
  Q tt (VmmStore (vs_heap s) (vs_blocks s) (<[p := f t]> (vs_nodes s))) →
  wp (t ← load_node p; write_node p (f t)) Q s.
Proof. intros. apply wp_bind. by eapply wp_load_node. Qed.

(** A call to kmalloc: a fresh address, or NULL and nothing changed. *)
Lemma wp_malloc n Q s :
  store_ok s → 0 <= n < 2 ^ 32 - 8 →
  Q 0 s →
  (∀ p h L, 0 < p < 2 ^ 32 → owns h (<[p := n]> L) → L !! p = None →
     (n <= small → room_step (vs_heap s) h) →
     (∀ q, is_Some (vs_blocks s !! q) → L !! q = Some sizeof_free_blocks) →
     (∀ q, is_Some (vs_nodes s !! q) → L !! q = Some sizeof_allocation_tree) →
     Q p (VmmStore h (vs_blocks s) (vs_nodes s))) →
  wp (on_heap (malloc n)) Q s.
Proof.
  intros (L & Ho & Hb & Hn) Hsz Hnull Hp. apply wp_zoom.
  pose proof (malloc_spec _ _ _ Ho Hsz) as W. apply wp_ok in W as (p & h & E & Hpost).
  apply wp_ok. exists p, h. split; [done|]. destruct Hpost as [[-> ->]|(? & ? & ? & _)].
  - by destruct s.
  - eapply Hp; [done..| |done|done]. intros Hsm k Hr.
    pose proof (room_malloc _ _ n Hr ltac:(lia)) as W. unfold wp in W. rewrite E in W. apply W.
Qed.

Lemma fresh_none {A} (m : gmap Z A) (L : gmap Z Z) p n :
  (∀ q, is_Some (m !! q) → L !! q = Some n) → L !! p = None → m !! p = None.
Proof.
  intros Hm Hp. apply eq_None_not_Some. intros Hs%Hm. congruence.
Qed.

Lemma wp_new_block b Q s :
  store_ok s → can_malloc (vs_heap s) sizeof_free_blocks →
  (∀ p h, 0 < p < 2 ^ 32 → vs_blocks s !! p = None → vs_nodes s !! p = None →
     let s' := VmmStore h (<[p := b]> (vs_blocks s)) (vs_nodes s) in
     store_ok s' → room_step (vs_heap s) h → Q p s') →
  wp (new_block b) Q s.
Proof.
  intros Hok Hcan HQ. apply wp_bind.
  destruct (proj1 (wp_ok _ _ _) Hcan) as (p & h & E & Hnz).
  assert (wp (on_heap (malloc sizeof_free_blocks))
    (λ p' s', p' = p → wp ((if p' =? 0 then throw (EFault 0) else write_block p' b);; mret p') Q s') s)
    as W'.
  { apply wp_malloc; [done|by vm_compute|by intros <-|]. intros q h' L Hq Ho HL Hrm Hb Hn ->.
    rewrite (proj2 (Z.eqb_neq p 0)) by done. apply wp_bind, wp_modify, wp_ret. simpl.
    apply HQ; [done|by eapply fresh_none..| |by apply Hrm]. eexists. split_and!; [exact Ho| |]; simpl.
    - intros r. rewrite lookup_insert. case_decide; [subst; by rewrite lookup_insert_eq|].
      rewrite lookup_insert_ne by done. apply Hb.
    - intros r Hr. rewrite lookup_insert_ne; [by apply Hn|]. intros ->.
      by rewrite (Hn _ Hr) in HL. }
  unfold wp, on_heap, zoom in W' |- *. rewrite E in *. by apply W'.
Qed.

Lemma wp_new_node t Q s :
  store_ok s → can_malloc (vs_heap s) sizeof_allocation_tree →
  (∀ p h, 0 < p < 2 ^ 32 → vs_blocks s !! p = None → vs_nodes s !! p = None →
     let s' := VmmStore h (vs_blocks s) (<[p := t]> (vs_nodes s)) in
     store_ok s' → room_step (vs_heap s) h → Q p s') →
  wp (new_node t) Q s.
Proof.
  intros Hok Hcan HQ. apply wp_bind.
  destruct (proj1 (wp_ok _ _ _) Hcan) as (p & h & E & Hnz).
  assert (wp (on_heap (malloc sizeof_allocation_tree))
    (λ p' s', p' = p → wp ((if p' =? 0 then throw (EFault 0) else write_node p' t);; mret p') Q s') s)
    as W'.
  { apply wp_malloc; [done|by vm_compute|by intros <-|]. intros q h' L Hq Ho HL Hrm Hb Hn ->.
    rewrite (proj2 (Z.eqb_neq p 0)) by done. apply wp_bind, wp_modify, wp_ret. simpl.
    apply HQ; [done|by eapply fresh_none..| |by apply Hrm]. eexists. split_and!; [exact Ho| |]; simpl.
    - intros r Hr. rewrite lookup_insert_ne; [by apply Hb|]. intros ->.
      by rewrite (Hb _ Hr) in HL.
    - intros r. rewrite lookup_insert. case_decide; [subst; by rewrite lookup_insert_eq|].
      rewrite lookup_insert_ne by done. apply Hn. }
  unfold wp, on_heap, zoom in W' |- *. rewrite E in *. by apply W'.
Qed.

Lemma wp_free_block p b Q s :
  store_ok s → vs_blocks s !! p = Some b →
  (∀ h, let s' := VmmStore h (delete p (vs_blocks s)) (vs_nodes s) in
     store_ok s' → room_step (vs_heap s) h → Q tt s') →
  wp (free_block p) Q s.
Proof.
  intros (L & Ho & Hb & Hn) Hp HQ. apply wp_bind, wp_zoom.
  assert (Hpl : L !! p = Some sizeof_free_blocks) by (apply Hb; eauto).
  pose proof (free_spec _ _ _ _ Ho Hpl) as W. apply wp_ok in W as ([] & h & E & Ho').
  apply wp_ok. exists tt, h. split; [done|]. apply wp_modify, HQ.
  2:{ intros k Hr. apply (room_le _ _ k) in Hr; [|lia].
      pose proof (room_free _ _ _ _ _ Ho Hpl Hr) as W. unfold wp in W. by rewrite E in W. }
  simpl. exists (delete p L). split_and!; [done| |]; simpl.
  - intros r. rewrite !lookup_delete. case_decide; [by intros [? ?]|apply Hb].
  - intros r Hr. rewrite lookup_delete_ne; [by apply Hn|]. intros ->.
    pose proof (Hn _ Hr) as E1. rewrite Hb in E1 by eauto. by vm_compute in E1.
Qed.

End Rules.
