(* ===== verification/VmmRanges.v ===== *)
(** * Free page ranges as lists

    The specification of remove_free_blocks and add_free_blocks (mm/vmm.c) on a
    plain list of ranges (address of the first page, number of pages), and what
    these operations do to the set of free addresses. *)

From S2P Require Import Prelude Allocator PageArith Vmm.

(** ** Specification on lists of ranges *)

Section Spec.
Context (mi : kernel_meminfo).

(** The range [b] is selected for a request of [n] pages at [va], or anywhere
    when [va] is 0. *)
Definition pick (va n : Z) (user : bool) (b : Z * Z) : bool :=
  ((va =? 0) && is_addr_ok_for_mode mi b.1 n user
   || is_addr_in_range va (FreeBlocks b.1 b.2 0)) && (n <=? b.2).

(** What is left of the selected range [(v, c)], and the address returned. *)
Definition take_range (va n : Z) (b : Z * Z) : option (Z * list (Z * Z)) :=
  let '(v, c) := b in
  if c =? n then Some (va, [])
  else
    let off := if va =? 0 then 0 else (va - v) / PAGE_SIZE in
    if c - off <? n then None
    else if (va =? 0) || (va =? v) then Some (v, [(v + n * PAGE_SIZE, c - n)])
    else if off + n <? c then
      Some (va, [(v, off); (v + (off + n) * PAGE_SIZE, c - off - n)])
    else Some (va, [(v, c - n)]).

(** [None]: the kernel panics. *)
Fixpoint remove_ranges (va n : Z) (user : bool) (l : list (Z * Z)) :
    option (Z * list (Z * Z)) :=
  match l with
  | [] => None
  | b :: l =>
      if pick va n user b then
        match take_range va n b with Some (a, r) => Some (a, r ++ l) | None => None end
      else
        match remove_ranges va n user l with Some (a, r) => Some (a, b :: r) | None => None end
  end.

(** A range is page aligned, and inside the 32-bit address space. *)
Definition range_ok (b : Z * Z) : Prop :=
  0 <= b.1 ∧ 0 <= b.2 ∧ b.1 mod PAGE_SIZE = 0 ∧ b.1 + b.2 * PAGE_SIZE <= 2 ^ 32.

Lemma remove_ranges_app va n user l1 b l2 :
  Forall (λ b, pick va n user b = false) l1 → pick va n user b = true →
  remove_ranges va n user (l1 ++ b :: l2) =
    match take_range va n b with Some (a, r) => Some (a, l1 ++ r ++ l2) | None => None end.
Proof.
  induction 1 as [|c l1 Hc _ IH]; intros Hb; simpl.
  - by rewrite Hb.
  - rewrite Hc, IH by done. by destruct (take_range va n b) as [[a r]|].
Qed.

Lemma remove_ranges_none va n user l :
  Forall (λ b, pick va n user b = false) l → remove_ranges va n user l = None.
Proof. induction 1 as [|b l Hb _ IH]; simpl; [done|]. by rewrite Hb, IH. Qed.

(** merge_or_insert_free_blocks on the predecessor [(w, d)] and the rest [l]. *)
Definition merge_or_insert (w d va n : Z) (l : list (Z * Z)) : list (Z * Z) :=
  if negb (xorb (is_addr_in_user_range mi w d) (is_addr_in_user_range mi va n))
  then (w, d) :: (va, n) :: l
  else
    let merged := u32 (w + u32 (n * PAGE_SIZE)) =? va in
    let d1 := if merged then u32 (d + n) else d in
    match l with
    | (x, e) :: l' =>
        if u32 (w + u32 (n * PAGE_SIZE)) =? x then (w, u32 (d1 + e)) :: l'
        else if merged then (w, d1) :: l else (w, d) :: (va, n) :: l
    | [] => if merged then [(w, d1)] else [(w, d); (va, n)]
    end.

(** add_free_blocks behind the ranges [l1], the last of which is [(w, d)]. *)
Fixpoint add_ranges_after (w d va n : Z) (l : list (Z * Z)) : list (Z * Z) :=
  match l with
  | (x, e) :: l' =>
      if x <? va then (w, d) :: add_ranges_after x e va n l'
      else merge_or_insert w d va n l
  | [] => merge_or_insert w d va n []
  end.

Definition add_ranges (va n : Z) (l : list (Z * Z)) : list (Z * Z) :=
  match l with
  | [] => [(va, n)]
  | (v, c) :: l' =>
      if v <? va then add_ranges_after v c va n l'
      else if u32 (va + u32 (n * PAGE_SIZE)) =? v then (v, u32 (c + n)) :: l'
      else (va, n) :: l
  end.

End Spec.

Arguments take_range : simpl never.

(** Where add_free_blocks works: behind the last range below [va]. *)
Lemma add_ranges_app mi va n m1 w d l :
  Forall (λ b, b.1 < va) (m1 ++ [(w, d)]) → (∀ b l', l = b :: l' → va <= b.1) →
  add_ranges mi va n (m1 ++ (w, d) :: l) = m1 ++ merge_or_insert mi w d va n l.
Proof.
  intros Hm Hl.
  assert (Hstop : add_ranges_after mi w d va n l = merge_or_insert mi w d va n l).
  { destruct l as [|[x e] l]; simpl; [done|]. specialize (Hl _ _ eq_refl). simpl in Hl.
    by rewrite (proj2 (Z.ltb_ge x va)). }
  assert (Hgo : ∀ m1 v c, Forall (λ b, b.1 < va) (m1 ++ [(w, d)]) →
    add_ranges_after mi v c va n (m1 ++ (w, d) :: l) =
    (v, c) :: m1 ++ merge_or_insert mi w d va n l).
  { clear m1 Hm. intros m1. induction m1 as [|[x e] m1 IH]; intros v c Hm; inversion Hm; simplify_eq/=.
    - by rewrite (proj2 (Z.ltb_lt w va)), Hstop.
    - rewrite (proj2 (Z.ltb_lt x va)) by done. by rewrite IH. }
  destruct m1 as [|[v c] m1]; inversion Hm; simplify_eq/=.
  - by rewrite (proj2 (Z.ltb_lt w va)).
  - rewrite (proj2 (Z.ltb_lt v va)) by done. by rewrite Hgo.
Qed.

(** ** Sets of free addresses *)

Definition covers (b : Z * Z) (x : Z) : Prop := b.1 <= x < b.1 + b.2 * PAGE_SIZE.
Definition covered (l : list (Z * Z)) (x : Z) : Prop := ∃ b, b ∈ l ∧ covers b x.

(** One of the ranges holds all of [x, y). *)
Definition within (l : list (Z * Z)) (x y : Z) : Prop :=
  ∃ b, b ∈ l ∧ b.1 <= x ∧ y <= b.1 + b.2 * PAGE_SIZE.

(** Ranges at or above [lo] in increasing order, page aligned, not empty, not
    overlapping, and below 4 GB. *)
Fixpoint ranges_from (lo : Z) (l : list (Z * Z)) : Prop :=
  match l with
  | [] => lo <= 2 ^ 32
  | (v, c) :: l =>
      lo <= v ∧ 0 < c ∧ v mod PAGE_SIZE = 0 ∧ ranges_from (v + c * PAGE_SIZE) l
  end.

Section Covered.

Lemma covered_nil x : covered [] x ↔ False.
Proof. split; [intros (b & Hb & _); set_solver|done]. Qed.

Lemma covered_cons b l x : covered (b :: l) x ↔ covers b x ∨ covered l x.
Proof.
  unfold covered. split.
  - intros (c & [->|Hc]%elem_of_cons & Hx); eauto.
  - intros [Hx|(c & Hc & Hx)]; [exists b|exists c]; set_solver.
Qed.

Lemma covered_app l1 l2 x : covered (l1 ++ l2) x ↔ covered l1 x ∨ covered l2 x.
Proof.
  induction l1 as [|b l1 IH]; simpl; [by rewrite covered_nil; intuition|].
  rewrite !covered_cons, IH. tauto.
Qed.

Lemma ranges_from_bound lo l : ranges_from lo l → lo <= 2 ^ 32.
Proof.
  revert lo. induction l as [|[v c] l IH]; intros lo; simpl; [done|].
  intros (? & ? & _ & Hl%IH). page_unfold. lia.
Qed.

Lemma ranges_from_weaken lo lo' l : lo' <= lo → ranges_from lo l → ranges_from lo' l.
Proof. destruct l as [|[v c] l]; simpl; intuition lia. Qed.

Lemma ranges_from_covered lo l x : ranges_from lo l → covered l x → lo <= x < 2 ^ 32.
Proof.
  revert lo. induction l as [|[v c] l IH]; intros lo; simpl; [by rewrite covered_nil|].
  intros (Hlo & Hc & _ & Hl) [[? ?]|Hx]%covered_cons; simpl in *.
  - apply ranges_from_bound in Hl. page_unfold. lia.
  - apply (IH _ Hl) in Hx. page_unfold. lia.
Qed.

Lemma ranges_from_elem lo l v c :
  ranges_from lo l → (v, c) ∈ l →
  lo <= v ∧ 0 < c ∧ v mod PAGE_SIZE = 0 ∧ v + c * PAGE_SIZE <= 2 ^ 32.
Proof.
  revert lo. induction l as [|[w d] l IH]; intros lo; simpl; [set_solver|].
  intros (Hlo & Hd & Hw & Hl) [[= -> ->]|Hin]%elem_of_cons.
  - split_and!; [done..|]. by eapply ranges_from_bound.
  - destruct (IH _ Hl Hin) as (? & ? & ? & ?). split_and!; [|done..]. page_unfold. lia.
Qed.

Lemma ranges_from_ok lo l : 0 <= lo → ranges_from lo l → Forall range_ok l.
Proof.
  intros Hlo Hl. apply Forall_forall. intros [v c] Hin.
  destruct (ranges_from_elem _ _ _ _ Hl Hin) as (? & ? & ? & ?).
  unfold range_ok. simpl. split_and!; lia || done.
Qed.

End Covered.

(** ** Removing a range at a given address *)

Section RemoveAt.
Context (mi : kernel_meminfo) (va n : Z) (user : bool).
Context (Hva : va mod PAGE_SIZE = 0) (Hn : 0 < n).

(** The parts of the selected range that stay free. *)
Lemma take_range_at v c :
  0 <= v → 0 < va → v mod PAGE_SIZE = 0 → v <= va → va + n * PAGE_SIZE <= v + c * PAGE_SIZE →
  ∃ r, take_range va n (v, c) = Some (va, r) ∧
    (∀ lo l, lo <= v → ranges_from (v + c * PAGE_SIZE) l → ranges_from lo (r ++ l)) ∧
    (∀ x, covered r x ↔ covers (v, c) x ∧ ¬ va <= x < va + n * PAGE_SIZE).
Proof.
  unfold take_range, covers. rewrite !PAGE_SIZE_val in *. intros Hv Hvp Hva' Hle Hend.
  assert (∃ k, va = v + k * 4096 ∧ 0 <= k) as (k & -> & Hk).
  { exists ((va - v) / 4096). Z.div_mod_to_equations. lia. }
  rewrite (proj2 (Z.eqb_neq (v + k * 4096) 0)) by lia.
  replace ((v + k * 4096 - v) / 4096) with k by (rewrite Z.add_simpl_l, Z.div_mul; lia).
  rewrite (proj2 (Z.ltb_ge (c - k) n)) by lia. simpl.
  destruct (Z.eqb_spec c n) as [->|Hcn].
  { assert (k = 0) as -> by lia. rewrite Z.add_0_r. eexists. split; [done|]. simpl. split.
    - intros lo l Hlo Hl. eapply ranges_from_weaken; [|done]. lia.
    - intros x. rewrite covered_nil. lia. }
  destruct (Z.eqb_spec (v + k * 4096) v) as [Hkv|Hkv].
  { assert (k = 0) as -> by lia. rewrite Z.add_0_r. eexists. split; [done|]. simpl. split.
    - intros lo l Hlo Hl. page_unfold. split_and!; try lia.
      + rewrite Z.mod_add; lia.
      + replace (v + n * 4096 + (c - n) * 4096) with (v + c * 4096) by lia. done.
    - intros x. rewrite covered_cons, covered_nil. unfold covers. simpl. page_unfold. lia. }
  destruct (Z.ltb_spec (k + n) c); eexists; (split; [done|]); simpl; split.
  - intros lo l Hlo Hl. page_unfold. split_and!; try lia.
    + rewrite Z.mod_add; lia.
    + replace (v + (k + n) * 4096 + (c - k - n) * 4096) with (v + c * 4096) by lia. done.
  - intros x. rewrite !covered_cons, covered_nil. unfold covers. simpl. page_unfold. lia.
  - intros lo l Hlo Hl. page_unfold. split_and!; try lia.
    eapply ranges_from_weaken; [|done]. lia.
  - intros x. rewrite covered_cons, covered_nil. unfold covers. simpl. page_unfold. lia.
Qed.

Lemma remove_ranges_at lo l v c :
  0 <= lo → 0 < va → ranges_from lo l → (v, c) ∈ l → v <= va →
  va + n * PAGE_SIZE <= v + c * PAGE_SIZE →
  ∃ l', remove_ranges mi va n user l = Some (va, l') ∧ ranges_from lo l' ∧
    ∀ x, covered l' x ↔ covered l x ∧ ¬ va <= x < va + n * PAGE_SIZE.
Proof.
  revert lo. induction l as [|[w d] l IH]; intros lo Hlo Hpos; simpl; [set_solver|].
  intros (Hw & Hd & Hal & Hl) Hin Hle Hend.
  pose proof (ranges_from_bound _ _ Hl) as Hb.
  unfold pick, is_addr_in_range. simpl. rewrite (proj2 (Z.eqb_neq va 0)) by lia. simpl.
  rewrite u64_small by (page_unfold; ulia).
  apply elem_of_cons in Hin as [[= <- <-]|Hin].
  - rewrite (proj2 (Z.leb_le v va)), (proj2 (Z.ltb_lt va _)), (proj2 (Z.leb_le n c))
      by (page_unfold; lia). simpl.
    destruct (take_range_at v c) as (r & Hr & Hwf & Hcov); [lia..|done|done|].
    rewrite Hr. eexists. split; [done|]. split; [by apply Hwf|].
    intros x. rewrite covered_app, covered_cons, Hcov.
    assert (covered l x → ¬ va <= x < va + n * PAGE_SIZE); [|tauto].
    intros Hx%(ranges_from_covered _ _ _ Hl). page_unfold. lia.
  - destruct (ranges_from_elem _ _ _ _ Hl Hin) as (Hvw & _).
    rewrite (proj2 (Z.ltb_ge va _)) by lia. rewrite andb_false_r. simpl.
    destruct (IH (w + d * PAGE_SIZE)) as (l' & -> & Hwf & Hcov); [page_unfold; lia|done..|].
    eexists. split; [done|]. split; [done|].
    intros x. rewrite !covered_cons, Hcov.
    assert (covers (w, d) x → ¬ va <= x < va + n * PAGE_SIZE); [|tauto].
    unfold covers. simpl. page_unfold. lia.
Qed.

Lemma within_covered l x y z : within l x y → x <= z < y → covered l z.
Proof. intros (b & Hb & ? & ?) ?. exists b. split; [done|]. unfold covers. lia. Qed.

(** What does not meet the removed range stays in one piece. *)
Lemma take_range_within v c r x y :
  take_range va n (v, c) = Some (va, r) → v mod PAGE_SIZE = 0 → 0 < va → v <= va →
  va + n * PAGE_SIZE <= v + c * PAGE_SIZE →
  x < y → v <= x → y <= v + c * PAGE_SIZE → y <= va ∨ va + n * PAGE_SIZE <= x → within r x y.
Proof.
  unfold take_range, within. rewrite !PAGE_SIZE_val in *. intros Hr Hv Hpos Hle Hend.
  assert (∃ k, va = v + k * 4096 ∧ 0 <= k) as (k & Hk & Hk0).
  { exists ((va - v) / 4096). Z.div_mod_to_equations. lia. }
  rewrite (proj2 (Z.eqb_neq va 0)) in Hr by lia.
  replace ((va - v) / 4096) with k in Hr by (rewrite Hk, Z.add_simpl_l, Z.div_mul; lia).
  intros Hxy Hx Hy Hdis. destruct (Z.eqb_spec c n); [lia|].
  rewrite (proj2 (Z.ltb_ge (c - k) n)) in Hr by lia. simpl in Hr.
  destruct (Z.eqb_spec va v); [|destruct (Z.ltb_spec (k + n) c)]; simplify_eq.
  - eexists. split; [apply elem_of_cons; by left|]. simpl. lia.
  - destruct Hdis.
    + eexists. split; [apply elem_of_cons; by left|]. simpl. lia.
    + eexists. split; [apply elem_of_cons; right; apply elem_of_cons; by left|]. simpl. lia.
  - eexists. split; [apply elem_of_cons; by left|]. simpl. lia.
Qed.

Lemma remove_ranges_within lo l l' x y :
  0 <= lo → 0 < va → ranges_from lo l → within l va (va + n * PAGE_SIZE) →
  remove_ranges mi va n user l = Some (va, l') →
  x < y → within l x y → y <= va ∨ va + n * PAGE_SIZE <= x → within l' x y.
Proof.
  revert lo l'. induction l as [|[w d] l IH]; intros lo l' Hlo Hpos; simpl; [by intros _ _|].
  intros (Hw & Hd & Hal & Hl) ([v c] & Hin & Hle & Hend) Hrem Hxy ([v' c'] & Hin' & Hx & Hy) Hdis.
  pose proof (ranges_from_bound _ _ Hl) as Hb. simpl in Hle, Hend, Hx, Hy.
  unfold pick, is_addr_in_range in Hrem. simpl in Hrem.
  rewrite (proj2 (Z.eqb_neq va 0)) in Hrem by lia. simpl in Hrem.
  rewrite u64_small in Hrem by (page_unfold; ulia).
  apply elem_of_cons in Hin as [[= <- <-]|Hin].
  - rewrite (proj2 (Z.leb_le v va)), (proj2 (Z.ltb_lt va _)), (proj2 (Z.leb_le n c)) in Hrem
      by (page_unfold; lia). simpl in Hrem.
    destruct (take_range va n (v, c)) as [[a r]|] eqn:Hr; simplify_eq.
    apply elem_of_cons in Hin' as [[= -> ->]|Hin'].
    + destruct (take_range_within v c r x y) as (b & Hb' & ?); try done.
      exists b. split; [|done]. apply elem_of_app. by left.
    + exists (v', c'). split; [|done]. apply elem_of_app. by right.
  - destruct (ranges_from_elem _ _ _ _ Hl Hin) as (Hvw & _).
    rewrite (proj2 (Z.ltb_ge va _)), andb_false_r in Hrem by lia. simpl in Hrem.
    destruct (remove_ranges mi va n user l) as [[a r]|] eqn:Hr; simplify_eq.
    apply elem_of_cons in Hin' as [[= -> ->]|Hin'].
    + eexists. split; [apply elem_of_cons; by left|done].
    + destruct (IH (w + d * PAGE_SIZE) r) as (b & Hb' & ?); try done;
        [page_unfold; lia|by exists (v, c)|by exists (v', c')|].
      exists b. split; [|done]. apply elem_of_cons. by right.
Qed.

End RemoveAt.

(** ** The pieces of a list of ranges *)

(** The range [r] lies in [b]; it is cut by the address [s] when [s] is strictly inside. *)
Definition inside (r b : Z * Z) : Prop := b.1 <= r.1 ∧ r.1 + r.2 * PAGE_SIZE <= b.1 + b.2 * PAGE_SIZE.
Definition cuts (s : Z) (b : Z * Z) : Prop := b.1 < s < b.1 + b.2 * PAGE_SIZE.

Lemma cuts_inside s r b : inside r b → cuts s r → cuts s b.
Proof. unfold inside, cuts. lia. Qed.

Lemma take_range_inside va n user v c addr r mi :
  0 < n → 0 <= v → 0 <= c → pick mi va n user (v, c) = true → take_range va n (v, c) = Some (addr, r) →
  ∀ b, b ∈ r → inside b (v, c).
Proof.
  intros Hn Hv Hc Hp Hr b Hb.
  assert (Hoff : va ≠ 0 → v <= va).
  { intros Hva. unfold pick, is_addr_in_range in Hp. rewrite (proj2 (Z.eqb_neq va 0)) in Hp by done. simpl in Hp.
    apply andb_true_iff in Hp as [[?%Z.leb_le _]%andb_true_iff _]. done. }
  unfold take_range in Hr. destruct (c =? n); [injection Hr as _ <-; by apply elem_of_nil in Hb|].
  set (off := if va =? 0 then 0 else (va - v) / PAGE_SIZE) in *.
  assert (0 <= off).
  { unfold off. destruct (Z.eqb_spec va 0) as [|Hva]; [lia|]. specialize (Hoff Hva). apply Z.div_pos; page_unfold; lia. }
  destruct (Z.ltb_spec (c - off) n); [done|]. unfold inside.
  destruct ((va =? 0) || (va =? v)); [injection Hr as _ <-; apply list_elem_of_singleton in Hb as ->; simpl; page_unfold; lia|].
  destruct (Z.ltb_spec (off + n) c); injection Hr as _ <-.
  - apply elem_of_cons in Hb as [->| ->%list_elem_of_singleton]; simpl; page_unfold; lia.
  - apply list_elem_of_singleton in Hb as ->. simpl. page_unfold. lia.
Qed.

(** Removing changes one range only, into pieces of it. *)
Lemma remove_ranges_parts mi va n user lo l addr l' :
  0 < n → 0 <= lo → ranges_from lo l → remove_ranges mi va n user l = Some (addr, l') →
  ∃ l1 b l2 r, l = l1 ++ b :: l2 ∧ l' = l1 ++ r ++ l2 ∧ ∀ x, x ∈ r → inside x b.
Proof.
  intros Hn. revert lo l'. induction l as [|[v c] l IH]; intros lo l' Hlo; simpl; [done|].
  intros (Hv & Hc & _ & Hl). destruct (pick mi va n user (v, c)) eqn:Hp.
  - destruct (take_range va n (v, c)) as [[a r]|] eqn:Hr; [|done]. intros [= -> <-].
    exists [], (v, c), l, r. split_and!; [reflexivity..|]. 
    apply (take_range_inside va n user v c addr r mi); done || lia.
  - destruct (remove_ranges mi va n user l) as [[a l0]|] eqn:Er; [|done]. intros [= -> <-].
    destruct (IH (v + c * PAGE_SIZE) l0) as (l1 & b & l2 & r & -> & -> & Hr); [page_unfold; lia|done|done|].
    by exists ((v, c) :: l1), b, l2, r.
Qed.

(** What was removed came from one of the ranges, and what is left lies in them. *)
Lemma remove_ranges_inside mi va n user l addr l' :
  0 < n → ranges_from 0 l → remove_ranges mi va n user l = Some (addr, l') →
  (∀ x, addr <= x < addr + n * PAGE_SIZE → covered l x ∧ ¬ covered l' x) →
  (∃ b, b ∈ l ∧ inside (addr, n) b) ∧ ∀ r, r ∈ l' → ∃ b, b ∈ l ∧ inside r b.
Proof.
  intros Hn Hl Hrem Hgone. destruct (remove_ranges_parts _ _ _ _ 0 l addr l' Hn (Z.le_refl 0) Hl Hrem)
    as (l1 & b & l2 & r & -> & -> & Hr). split.
  - exists b. split; [set_solver|]. assert (Hb : ∀ x, addr <= x < addr + n * PAGE_SIZE → covers b x).
    { intros x Hx. destruct (Hgone x Hx) as [Hc Hno]. rewrite !covered_app in Hno.
      rewrite covered_app, covered_cons in Hc. tauto. }
    unfold inside. simpl. pose proof (Hb addr) as B1. pose proof (Hb (addr + n * PAGE_SIZE - 1)) as B2.
    unfold covers in *. page_unfold. lia.
  - intros x. rewrite !elem_of_app. intros [Hx|[Hx|Hx]]; [exists x|exists b|exists x];
      (split; [set_solver|]); [split; lia|by apply Hr|split; lia].
Qed.

(** ** Removing a range at any address *)

(** A request without an address takes the first pages of the first range that
    is selected, unless it asks for all of it. *)
Lemma remove_ranges_anon mi n user lo l1 v c l2 :
  Forall (λ b, pick mi 0 n user b = false) l1 → pick mi 0 n user (v, c) = true → 0 < n < c →
  ranges_from lo (l1 ++ (v, c) :: l2) →
  let l' := l1 ++ (v + n * PAGE_SIZE, c - n) :: l2 in
  remove_ranges mi 0 n user (l1 ++ (v, c) :: l2) = Some (v, l') ∧ ranges_from lo l' ∧
  ∀ x, covered l' x ↔ covered (l1 ++ (v, c) :: l2) x ∧ ¬ v <= x < v + n * PAGE_SIZE.
Proof.
  intros Hno Hp Hn Hl l'. split.
  { rewrite remove_ranges_app by done. unfold take_range.
    rewrite (proj2 (Z.eqb_neq c n)) by lia. simpl. rewrite (proj2 (Z.ltb_ge (c - 0) n)) by lia. done. }
  subst l'. clear Hno Hp. revert lo Hl. induction l1 as [|[w d] l1 IH]; intros lo; simpl.
  - intros (Hlo & Hc & Hv & Hl). split.
    + split_and!; [page_unfold; lia|lia|page_unfold; rewrite Z.mod_add; lia|].
      replace (v + n * PAGE_SIZE + (c - n) * PAGE_SIZE) with (v + c * PAGE_SIZE) by lia. done.
    + intros x. rewrite !covered_cons. unfold covers. simpl.
      assert (covered l2 x → v + c * PAGE_SIZE <= x) by (intros; by eapply ranges_from_covered).
      page_unfold. intuition lia.
  - intros (Hlo & Hd & Hw & Hl). destruct (IH _ Hl) as [Hrg Hcov]. split; [by split_and!|].
    intros x. rewrite !covered_cons, Hcov.
    destruct (ranges_from_elem _ _ v c Hl) as (? & _); [set_solver|].
    unfold covers. simpl. intuition lia.
Qed.

(** ** Adding a range *)

Section Add.
Context (mi : kernel_meminfo) (va n : Z).

(** The range is not cut off from its predecessor by the user/kernel boundary:
    both are in user space, or neither is. *)
Definition pred_same_mode (l : list (Z * Z)) : Prop :=
  ∀ w d, (w, d) ∈ l → w < va → (∀ b, b ∈ l → b.1 < va → b.1 <= w) →
    is_addr_in_user_range mi w d = is_addr_in_user_range mi va n.

(** The range does not end where the first range starts. *)
Definition head_not_adjacent (l : list (Z * Z)) : Prop :=
  ∀ v c l', l = (v, c) :: l' → va + n * PAGE_SIZE ≠ v.

Context (Hva : va mod PAGE_SIZE = 0) (Hn : 0 < n) (Hend : va + n * PAGE_SIZE <= 2 ^ 32).

Lemma covered_gap lo w d :
  0 < d → w < va → (∀ x, va <= x < va + n * PAGE_SIZE → ¬ covers (w, d) x) →
  lo <= w → w + d * PAGE_SIZE <= va.
Proof.
  intros Hd Hw Hdis Hlo. specialize (Hdis va). unfold covers in Hdis. simpl in Hdis.
  page_unfold. lia.
Qed.

Lemma merge_or_insert_same w d l :
  is_addr_in_user_range mi w d = is_addr_in_user_range mi va n →
  merge_or_insert mi w d va n l = (w, d) :: (va, n) :: l.
Proof. unfold merge_or_insert. intros ->. by rewrite xorb_nilpotent. Qed.

Lemma insert_before lo l :
  ranges_from lo l → lo <= va → (∀ v c l', l = (v, c) :: l' → va <= v) →
  (∀ x, va <= x < va + n * PAGE_SIZE → ¬ covered l x) →
  ranges_from lo ((va, n) :: l).
Proof.
  destruct l as [|[v c] l]; simpl; [by page_unfold|]. intros (Hlo & Hc & Hv & Hl) Hle Hge Hdis.
  split_and!; try done. specialize (Hge v c l eq_refl).
  specialize (Hdis v). rewrite covered_cons in Hdis. unfold covers in Hdis. simpl in Hdis.
  page_unfold. lia.
Qed.

Lemma add_ranges_after_ok lo w d l :
  ranges_from lo ((w, d) :: l) → w < va → pred_same_mode ((w, d) :: l) →
  (∀ x, va <= x < va + n * PAGE_SIZE → ¬ covered ((w, d) :: l) x) →
  ranges_from lo (add_ranges_after mi w d va n l) ∧
  (∀ x, covered (add_ranges_after mi w d va n l) x ↔
        covered ((w, d) :: l) x ∨ va <= x < va + n * PAGE_SIZE) ∧
  ∀ b, b ∈ add_ranges_after mi w d va n l → b = (va, n) ∨ b ∈ (w, d) :: l.
Proof.
  revert lo w d. induction l as [|[x e] l IH]; intros lo w d (Hlo & Hd & Hw & Hl) Hlt Hmode Hdis.
  - simpl. rewrite merge_or_insert_same.
    2:{ apply Hmode; [set_solver|done|]. intros b Hb%list_elem_of_singleton _. subst b. done. }
    split; [|split; [intros y; rewrite !covered_cons, covered_nil; unfold covers; simpl; tauto|set_solver]].
    assert (w + d * PAGE_SIZE <= va).
    { eapply covered_gap; [done..| |done]. intros y Hy Hc. apply (Hdis y Hy). apply covered_cons. by left. }
    simpl. split_and!; done || lia.
  - assert (Hgap : w + d * PAGE_SIZE <= va).
    { eapply covered_gap; [done..| |done]. intros y Hy Hc. apply (Hdis y Hy). apply covered_cons. by left. }
    assert (Hdis' : ∀ y, va <= y < va + n * PAGE_SIZE → ¬ covered ((x, e) :: l) y).
    { intros y Hy Hc. apply (Hdis y Hy). apply covered_cons. by right. }
    simpl. destruct (Z.ltb_spec x va) as [Hx|Hx].
    + destruct (IH (w + d * PAGE_SIZE) x e Hl Hx) as (Hwf & Hcov & Hel); [|done|].
      { intros w' d' Hin Hlt' Hmax. apply Hmode; [set_solver|done|].
        intros b [->|Hb]%elem_of_cons Hbv; [|by apply Hmax]. simpl.
        specialize (Hmax (x, e) ltac:(set_solver) Hx). destruct Hl as [Hl _].
        simpl in *. page_unfold. lia. }
      split; [done|]. split; [intros y; rewrite !covered_cons, Hcov, covered_cons; tauto|].
      intros b [->|Hb%Hel]%elem_of_cons; [right; by left|]. destruct Hb; [by left|right; by right].
    + rewrite merge_or_insert_same.
      2:{ apply Hmode; [set_solver|done|]. intros b [->|[->|Hb]%elem_of_cons]%elem_of_cons Hbv; simpl in *; [lia..|].
          destruct b as [y f]. destruct Hl as (_ & He & _ & Hl).
          destruct (ranges_from_elem _ _ _ _ Hl Hb) as [Hy _]. simpl in *. page_unfold. lia. }
      split; [|split; [intros y; rewrite !covered_cons; unfold covers; simpl; tauto|set_solver]].
      split_and!; [done..|]. apply insert_before; [done|lia| |done].
      intros v c l' [= <- <- <-]. done.
Qed.

Lemma add_ranges_ok l :
  ranges_from 0 l → 0 <= va → pred_same_mode l → head_not_adjacent l →
  (∀ x, va <= x < va + n * PAGE_SIZE → ¬ covered l x) →
  ranges_from 0 (add_ranges mi va n l) ∧
  (∀ x, covered (add_ranges mi va n l) x ↔ covered l x ∨ va <= x < va + n * PAGE_SIZE) ∧
  ∀ b, b ∈ add_ranges mi va n l → b = (va, n) ∨ b ∈ l.
Proof.
  intros Hl Hva0 Hmode Hadj Hdis. destruct l as [|[v c] l].
  { simpl. split; [by split_and!|]. split; [|set_solver]. intros x. rewrite covered_cons, covered_nil. unfold covers. simpl. tauto. }
  unfold add_ranges. destruct (Z.ltb_spec v va) as [Hv|Hv]; [by apply add_ranges_after_ok|].
  assert (u32 (va + u32 (n * PAGE_SIZE)) ≠ v) as Hne.
  { intros Heq. specialize (Hadj v c l eq_refl). destruct Hl as (? & ? & _).
    specialize (Hdis v). rewrite covered_cons in Hdis. unfold covers in Hdis. simpl in Hdis.
    page_unfold. ulia. }
  rewrite (proj2 (Z.eqb_neq _ _) Hne). split.
  - apply insert_before; [done..| |done]. intros v' c' l' [= <- <- <-]. done.
  - split; [|set_solver]. intros x. rewrite !covered_cons. unfold covers. simpl. tauto.
Qed.

End Add.
