(* ===== verification/VmmFree.v ===== *)
(** * The free page ranges of an address space

    The linked list of mm/vmm.c in memory, and the proof that the pointer code of
    remove_free_blocks and add_free_blocks implements the list operations of
    [VmmRanges]. *)

From S2P Require Import Prelude Allocator PageArith Vmm VmmRules VmmRanges.

(** ** The list in memory *)

(** [fb_seg m p l q]: from [p], the list of nodes [l] (address, first page
    address, page count) ends at [q]. *)
Fixpoint fb_seg (m : gmap Z vmm_free_blocks) (p : Z) (l : list (Z * (Z * Z))) (q : Z) : Prop :=
  match l with
  | [] => p = q
  | (a, (v, c)) :: l =>
      p = a ∧ a ≠ 0 ∧ ∃ nx, m !! a = Some (FreeBlocks v c nx) ∧ fb_seg m nx l q
  end.

Definition fb_rep (m : gmap Z vmm_free_blocks) (p : Z) (l : list (Z * (Z * Z))) : Prop :=
  fb_seg m p l 0 ∧ NoDup l.*1.

Section Seg.
Implicit Types m : gmap Z vmm_free_blocks.

Lemma fb_seg_app m p l1 l2 q :
  fb_seg m p (l1 ++ l2) q ↔ ∃ r, fb_seg m p l1 r ∧ fb_seg m r l2 q.
Proof.
  revert p. induction l1 as [|[a [v c]] l1 IH]; intros p; simpl.
  - naive_solver.
  - setoid_rewrite IH. naive_solver.
Qed.

Lemma fb_seg_frame m m' p l q :
  (∀ a, a ∈ l.*1 → m' !! a = m !! a) → fb_seg m p l q → fb_seg m' p l q.
Proof.
  revert p. induction l as [|[a [v c]] l IH]; intros p Hf; simpl; [done|].
  intros (-> & Ha & nx & Hm & Hs). split_and!; [done..|].
  exists nx. rewrite Hf by (simpl; set_solver). split; [done|]. apply IH; [set_solver|done].
Qed.

Lemma fb_seg_nonzero m p l q a : fb_seg m p l q → a ∈ l.*1 → a ≠ 0.
Proof.
  revert p. induction l as [|[b [v c]] l IH]; intros p; simpl; [set_solver|].
  intros (-> & Hb & nx & _ & Hs) [->|Ha]%elem_of_cons; eauto.
Qed.

Lemma fb_seg_some m p l q a : fb_seg m p l q → a ∈ l.*1 → is_Some (m !! a).
Proof.
  revert p. induction l as [|[b [v c]] l IH]; intros p; simpl; [set_solver|].
  intros (-> & Hb & nx & Hm & Hs) [->|Ha]%elem_of_cons; eauto.
Qed.

Lemma fb_seg_length m p l q :
  NoDup l.*1 → fb_seg m p l q → (length l <= size m)%nat.
Proof.
  intros Hnd Hs. rewrite <- (size_dom m), <- (length_fmap fst l).
  rewrite <- (size_list_to_set (C := gset Z) l.*1 Hnd).
  apply subseteq_size. intros a Ha%elem_of_list_to_set. apply elem_of_dom.
  by eapply fb_seg_some.
Qed.

Lemma fb_rep_split m p l1 a v c l2 :
  fb_rep m p (l1 ++ (a, (v, c)) :: l2) →
  ∃ nx, m !! a = Some (FreeBlocks v c nx) ∧ a ≠ 0 ∧
    fb_seg m p l1 a ∧ fb_seg m nx l2 0 ∧
    NoDup l1.*1 ∧ NoDup l2.*1 ∧ a ∉ l1.*1 ∧ a ∉ l2.*1 ∧ (∀ b, b ∈ l1.*1 → b ∉ l2.*1).
Proof.
  intros [Hs Hnd]. apply fb_seg_app in Hs as (r & H1 & -> & Hnz & nx & Hm & H2).
  rewrite fmap_app in Hnd. simpl in Hnd.
  apply NoDup_app in Hnd as (? & Hd & [? ?]%NoDup_cons).
  exists nx. split_and!; try done.
  - specialize (Hd a). set_solver.
  - intros b Hb. specialize (Hd b Hb). set_solver.
Qed.

(** The pointer into the list: the next field of the last node of [l1], or the
    head. *)
Definition fb_prev (l1 : list (Z * (Z * Z))) : Z := default 0 (last l1.*1).

Lemma fb_prev_snoc l1 a b : fb_prev (l1 ++ [(a, b)]) = a.
Proof. unfold fb_prev. rewrite fmap_app. change [(a, b)].*1 with [a]. by rewrite last_snoc. Qed.

(** Redirecting the last node of [l1]. *)
Lemma fb_seg_relink m p l1 a v c q nx x :
  NoDup (l1 ++ [(a, (v, c))]).*1 → m !! a = Some (FreeBlocks v c nx) →
  fb_seg m p (l1 ++ [(a, (v, c))]) q →
  fb_seg (<[a := FreeBlocks v c x]> m) p (l1 ++ [(a, (v, c))]) x.
Proof.
  intros Hnd Hm. rewrite !fb_seg_app. intros (r & H1 & -> & Hnz & _).
  exists a. split; [|simpl; split_and!; try done; eexists; by rewrite lookup_insert_eq].
  eapply fb_seg_frame; [|done]. intros b Hb. rewrite lookup_insert_ne; [done|]. intros ->.
  rewrite fmap_app in Hnd. apply NoDup_app in Hnd as (_ & Hd & _).
  specialize (Hd b Hb). simpl in Hd. set_solver.
Qed.

(** Overwriting the range of one node. *)
Lemma fb_rep_update m p l1 a v c l2 nx v' c' :
  fb_rep m p (l1 ++ (a, (v, c)) :: l2) → m !! a = Some (FreeBlocks v c nx) →
  fb_rep (<[a := FreeBlocks v' c' nx]> m) p (l1 ++ (a, (v', c')) :: l2).
Proof.
  intros Hr Hm. destruct (fb_rep_split _ _ _ _ _ _ _ Hr)
    as (nx' & Hm' & Hnz & H1 & H2 & _ & _ & Ha1 & Ha2 & _). simplify_eq.
  split; [|destruct Hr as [_ Hnd]; by rewrite fmap_app in *].
  rewrite fb_seg_app. exists a. split.
  - eapply fb_seg_frame; [|done]. intros b Hb. rewrite lookup_insert_ne; [done|]. by intros ->.
  - simpl. split_and!; [done..|]. exists nx. rewrite lookup_insert_eq. split; [done|].
    eapply fb_seg_frame; [|done]. intros b Hb. rewrite lookup_insert_ne; [done|]. by intros ->.
Qed.

(** Linking a new node behind an existing one. *)
Lemma fb_rep_insert m p l1 a v c l2 nx x v' c' :
  fb_rep m p (l1 ++ (a, (v, c)) :: l2) → m !! a = Some (FreeBlocks v c nx) →
  m !! x = None → x ≠ 0 →
  fb_rep (<[a := FreeBlocks v c x]> (<[x := FreeBlocks v' c' nx]> m)) p
    (l1 ++ (a, (v, c)) :: (x, (v', c')) :: l2).
Proof.
  intros Hr Hm Hx Hxz. destruct (fb_rep_split _ _ _ _ _ _ _ Hr)
    as (nx' & Hm' & Hnz & H1 & H2 & Hn1 & Hn2 & Ha1 & Ha2 & Hd). simplify_eq.
  assert (Hx1 : x ∉ l1.*1) by (intros Hin; by destruct (fb_seg_some _ _ _ _ _ H1 Hin); simplify_eq).
  assert (Hx2 : x ∉ l2.*1) by (intros Hin; by destruct (fb_seg_some _ _ _ _ _ H2 Hin); simplify_eq).
  assert (x ≠ a) by (intros ->; simplify_eq).
  split.
  - rewrite fb_seg_app. exists a. split; [|simpl; split_and!; try done].
    + eapply fb_seg_frame; [|done]. intros b Hb. rewrite !lookup_insert_ne; set_solver.
    + exists x. rewrite lookup_insert_eq. split_and!; try done.
      exists nx. rewrite lookup_insert_ne, lookup_insert_eq by done. split; [done|].
      eapply fb_seg_frame; [|done]. intros b Hb. rewrite !lookup_insert_ne; set_solver.
  - rewrite fmap_app. simpl. apply NoDup_app. split_and!; [done| |].
    + intros b Hb. specialize (Hd b Hb). set_solver.
    + rewrite !NoDup_cons. set_solver.
Qed.

End Seg.

(** ** The pointer code implements the specification: remove_free_blocks *)

Section Remove.
Context {H : Type} `{Allocator H} (mi : kernel_meminfo).
Implicit Types s : vmm_store H.

(** The free list of a context. *)
Definition ctx_free (s : vmm_store H) (ctx : vmm_context) (l : list (Z * (Z * Z))) : Prop :=
  fb_rep (vs_blocks s) (free_blocks ctx) l.

(** The nodes of the other lists are untouched, and at most one was allocated. *)
Definition blocks_frame (s s' : vmm_store H) (l : list (Z * (Z * Z))) : Prop :=
  room_step (vs_heap s) (vs_heap s') ∧
  ∀ p b, p ∉ l.*1 → vs_blocks s !! p = Some b → vs_blocks s' !! p = Some b.

(** The nodes of the list [l'] are those of [l] and new ones. *)
Definition grown (s : vmm_store H) (l l' : list (Z * (Z * Z))) : Prop :=
  ∀ p, p ∈ l'.*1 → p ∈ l.*1 ∨ vs_blocks s !! p = None.

Lemma find_free_blocks_ok fuel va n user l1 rest fb s :
  fb_seg (vs_blocks s) fb rest 0 → (length rest < fuel)%nat →
  Forall (λ b, pick mi va n user b = false) l1.*2 →
  wp (find_free_blocks mi fuel va n user fb (fb_prev l1))
     (λ r s', s' = s ∧
       ((r.1 = 0 ∧ Forall (λ b, pick mi va n user b = false) (l1 ++ rest).*2) ∨
        (∃ m1 a b m2, l1 ++ rest = m1 ++ (a, b) :: m2 ∧ r = (a, fb_prev m1) ∧
           Forall (λ b, pick mi va n user b = false) m1.*2 ∧ pick mi va n user b = true))) s.
Proof.
  revert l1 rest fb. induction fuel as [|fuel IH]; intros l1 rest fb Hs Hlen Hno; [lia|].
  simpl. destruct rest as [|[a [v c]] rest]; simpl in Hs.
  { subst fb. apply wp_ret. split; [done|]. left. by rewrite app_nil_r. }
  destruct Hs as (-> & Hnz & nx & Hm & Hs).
  rewrite (proj2 (Z.eqb_neq a 0)) by done.
  apply wp_bind. eapply wp_load_block; [done|]. cbn [fb_virtual_addr fb_page_count next].
  destruct (pick mi va n user (v, c)) eqn:Hp.
  - unfold pick, is_addr_in_range in Hp |- *. simpl in Hp |- *. rewrite Hp.
    apply wp_ret. split; [done|]. right. exists l1, a, (v, c), rest. done.
  - pose proof Hp as Hp'. unfold pick, is_addr_in_range in Hp' |- *. simpl in Hp' |- *.
    rewrite Hp'. specialize (IH (l1 ++ [(a, (v, c))]) rest nx).
    rewrite fb_prev_snoc, <- app_assoc in IH. apply IH; [done|simpl in Hlen; lia|].
    rewrite fmap_app, Forall_app. split; [done|]. by constructor.
Qed.

(** Unlinking a node. *)
Lemma unlink_block_ok ctx l1 a v c l2 s :
  store_ok s → ctx_free s ctx (l1 ++ (a, (v, c)) :: l2) →
  wp (unlink_block ctx a (fb_prev l1)) (λ ctx' s',
    store_ok s' ∧ ctx_free s' ctx' (l1 ++ l2) ∧ vs_nodes s' = vs_nodes s ∧
    allocations ctx' = allocations ctx ∧ (l1 = [] ∨ free_blocks ctx' = free_blocks ctx) ∧
    blocks_frame s s' (l1 ++ (a, (v, c)) :: l2)) s.
Proof.
  intros Hok Hr. destruct (fb_rep_split _ _ _ _ _ _ _ Hr)
    as (nx & Hm & Hnz & H1 & H2 & Hn1 & Hn2 & Ha1 & Ha2 & Hd).
  assert (Hnd : NoDup (l1 ++ l2).*1).
  { rewrite fmap_app. apply NoDup_app. eauto. }
  unfold unlink_block. apply wp_bind. eapply wp_load_block; [done|]. cbn [next].
  apply wp_bind. destruct l1 as [|[b [w d]] l1 _] using rev_ind.
  - apply wp_ret. apply wp_bind. eapply wp_free_block; [done..|]. intros h s' Hok' Hrm.
    apply wp_ret. split_and!; try done; [|by left|].
    + split; [|done]. eapply fb_seg_frame; [|exact H2]. intros x Hx. simpl.
      rewrite lookup_delete_ne; [done|]. by intros ->.
    + split; [done|]. intros p b Hp Hb. simpl. rewrite lookup_delete_ne; [done|]. set_solver.
  - rewrite fb_prev_snoc.
    assert (Hbz : b ≠ 0) by (eapply fb_seg_nonzero; [exact H1|rewrite fmap_app; set_solver]).
    rewrite (proj2 (Z.eqb_neq b 0)) by done.
    pose proof H1 as H1'. apply fb_seg_app in H1' as (r & _ & -> & _ & nb & Hb & _).
    assert (Hab : a ≠ b) by (intros ->; apply Ha1; rewrite fmap_app; set_solver).
    apply wp_bind. eapply wp_set_block_next; [done|]. apply wp_ret. cbn [fb_virtual_addr fb_page_count].
    set (s1 := VmmStore _ _ _).
    assert (Hok1 : store_ok s1) by (by eapply store_ok_block).
    apply wp_bind. eapply (wp_free_block a); [done|simpl; by rewrite lookup_insert_ne|].
    intros h s' Hok' Hrm. apply wp_ret. split_and!; try done; [|by right|].
    + split; [|done]. rewrite fb_seg_app. exists nx. split.
      * eapply fb_seg_frame; [|by eapply (fb_seg_relink _ _ l1 b w d a nb nx)].
        intros x Hx. simpl. rewrite lookup_delete_ne; [done|]. by intros ->.
      * eapply fb_seg_frame; [|exact H2]. intros x Hx. simpl.
        rewrite lookup_delete_ne by (by intros ->). rewrite lookup_insert_ne; [done|].
        intros ->. by eapply Hd; [|exact Hx]; rewrite fmap_app; set_solver.
    + split; [done|]. intros p x Hp Hx. rewrite !fmap_app in Hp. simpl in Hp |- *.
      rewrite lookup_delete_ne by set_solver. rewrite lookup_insert_ne; set_solver.
Qed.

(** What is needed of the machine arithmetic on the selected range. *)
Lemma pick_bounds va n user v c :
  range_ok (v, c) → is_u32 va → pick mi va n user (v, c) = true →
  n <= c ∧ c <= 2 ^ 20 ∧
  (va ≠ 0 → v <= va < v + c * PAGE_SIZE ∧ 0 <= (va - v) / PAGE_SIZE < c ∧
     u32 (va - v) = va - v).
Proof.
  unfold range_ok, pick, is_addr_in_range. simpl. rewrite PAGE_SIZE_val.
  intros (Hv & Hc & Ha & Hend) Hva [Hp Hn%Z.leb_le]%andb_true_iff.
  split_and!; [lia..|]. intros Hz. rewrite (proj2 (Z.eqb_neq va 0)) in Hp by done. simpl in Hp.
  apply andb_true_iff in Hp as [Hle%Z.leb_le Hlt%Z.ltb_lt].
  assert (va < v + c * 4096) by ulia. split_and!; [lia..| | |].
  - apply Z.div_pos; lia.
  - apply Z.div_lt_upper_bound; lia.
  - apply u32_small. ulia.
Qed.

(** The context's head of the list [l] is still the head, unless the first range is gone. *)
Definition head_kept (ctx : vmm_context) (l : list (Z * (Z * Z))) (bl : list (Z * Z)) (ctx' : vmm_context) : Prop :=
  bl = tl l.*2 ∨ free_blocks ctx' = free_blocks ctx.

Definition remove_post (s : vmm_store H) (ctx : vmm_context) (l : list (Z * (Z * Z)))
    (addr : Z) (bl : list (Z * Z)) (r : Z * vmm_context) (s' : vmm_store H) : Prop :=
  r.1 = addr ∧ store_ok s' ∧
  (∃ l', ctx_free s' r.2 l' ∧ l'.*2 = bl ∧ grown s l l') ∧
  vs_nodes s' = vs_nodes s ∧ allocations r.2 = allocations ctx ∧ blocks_frame s s' l ∧ head_kept ctx l bl r.2.

(** Rewriting the range of the selected node in place. *)
Lemma update_post s ctx l1 a v c l2 nx v' c' addr :
  store_ok s → ctx_free s ctx (l1 ++ (a, (v, c)) :: l2) →
  vs_blocks s !! a = Some (FreeBlocks v c nx) →
  remove_post s ctx (l1 ++ (a, (v, c)) :: l2) addr (l1.*2 ++ [(v', c')] ++ l2.*2) (addr, ctx)
    (VmmStore (vs_heap s) (<[a := FreeBlocks v' c' nx]> (vs_blocks s)) (vs_nodes s)).
Proof.
  intros Hok Hr Hm. split_and!; try done; [| | |by right].
  - by eapply store_ok_block.
  - exists (l1 ++ (a, (v', c')) :: l2). split_and!; [by eapply fb_rep_update|by rewrite fmap_app|].
    intros p. rewrite !fmap_app. by left.
  - split; [done|]. intros p b Hp Hb. simpl. rewrite lookup_insert_ne; [done|]. intros ->.
    apply Hp. rewrite fmap_app. set_solver.
Qed.

Lemma grown_insert s l1 a b b' x y l2 :
  vs_blocks s !! x = None → grown s (l1 ++ (a, b) :: l2) (l1 ++ (a, b') :: (x, y) :: l2).
Proof.
  intros Hx p. rewrite !fmap_app. simpl. rewrite !elem_of_app, !elem_of_cons.
  intros [?|[->|[->|?]]]; auto.
Qed.

(** Splitting the selected node in two. *)
Lemma split_post s ctx l1 a v c l2 nx v' c' off addr :
  store_ok s → ctx_free s ctx (l1 ++ (a, (v, c)) :: l2) →
  vs_blocks s !! a = Some (FreeBlocks v c nx) →
  can_malloc (vs_heap s) sizeof_free_blocks →
  wp (nb ← new_block (FreeBlocks v' c' nx); set_block_next a nb;; set_block_count a off)
     (λ _, remove_post s ctx (l1 ++ (a, (v, c)) :: l2) addr
        (l1.*2 ++ [(v, off); (v', c')] ++ l2.*2) (addr, ctx)) s.
Proof.
  intros Hok Hr Hm Hcan. apply wp_bind. apply wp_new_block; [done..|].
  intros x h Hx Hfresh Hfresh' s1 Hok1 Hrm.
  assert (Hxa : x ≠ a) by (intros ->; congruence).
  apply wp_bind. eapply wp_set_block_next; [simpl; by rewrite lookup_insert_ne|].
  eapply wp_set_block_count; [simpl; by rewrite lookup_insert_eq|]. simpl.
  rewrite insert_insert_eq. simpl.
  pose proof (fb_rep_insert _ _ _ _ _ _ _ _ x v' c' Hr Hm Hfresh ltac:(lia)) as Hr'.
  eapply (fb_rep_update _ _ _ _ _ _ _ _ v off) in Hr'; [|by rewrite lookup_insert_eq].
  rewrite insert_insert_eq in Hr'.
  split_and!; try done; [| | |by right].
  - eapply (store_ok_block s1); [done|]. simpl. by rewrite lookup_insert_ne.
  - eexists. split_and!; [exact Hr'|by rewrite fmap_app|by apply grown_insert].
  - split; [done|]. intros p b Hp Hb. simpl. rewrite fmap_app in Hp. simpl in Hp.
    rewrite !lookup_insert_ne; [done|congruence|set_solver].
Qed.

Lemma remove_free_blocks_ok ctx va n user l s :
  store_ok s → ctx_free s ctx l → Forall range_ok l.*2 → is_u32 va → 0 <= n →
  can_malloc (vs_heap s) sizeof_free_blocks →
  match remove_ranges mi va n user l.*2 with
  | Some (addr, bl) => wp (remove_free_blocks mi ctx va n user) (remove_post s ctx l addr bl) s
  | None => ∃ msg, remove_free_blocks mi ctx va n user s = Err (EPanic msg)
  end.
Proof.
  intros Hok Hr Hwf Hva Hn Hcan. unfold remove_free_blocks.
  destruct (Z.eqb_spec (free_blocks ctx) 0) as [Hz|Hz].
  { destruct l as [|[a [v c]] l]; [simpl; by eexists|].
    destruct Hr as [(Hr & Ha & _) _]. congruence. }
  pose proof Hr as [Hs Hnd].
  pose proof (find_free_blocks_ok (block_fuel s) va n user [] l (free_blocks ctx) s Hs) as Hf.
  apply wp_ok in Hf as (r & s' & E & -> & Hf); [|unfold block_fuel; pose proof (fb_seg_length _ _ _ _ Hnd Hs); lia|done].
  change (fb_prev []) with 0 in E. destruct r as [fb prev]. simpl in Hf.
  destruct Hf as [[-> Hno]|(l1 & a & [v c] & l2 & -> & [= -> ->] & Hno & Hp)].
  { rewrite remove_ranges_none by done. eexists.
    rewrite (bind_ok _ _ s tt s), (bind_ok _ _ s s s), (bind_ok _ _ _ _ _ E) by done.
    by apply bind_err. }
  rewrite fmap_app, fmap_cons. change ((a, (v, c)).2) with (v, c).
  rewrite remove_ranges_app by done.
  destruct (fb_rep_split _ _ _ _ _ _ _ Hr) as (nx & Hm & Hnz & _).
  assert (Hrok : range_ok (v, c)).
  { rewrite fmap_app, Forall_app in Hwf. destruct Hwf as [_ Hwf]. by inversion Hwf. }
  destruct (pick_bounds va n user v c Hrok Hva Hp) as (Hnc & Hc & Hoff).
  destruct Hrok as (Hv0 & Hc0 & Hal & Hend). simpl in Hv0, Hc0, Hal, Hend.
  assert (Hoffc : (if va =? 0 then 0 else u32 (va - v) / PAGE_SIZE) =
                  (if va =? 0 then 0 else (va - v) / PAGE_SIZE) ∧
                  0 <= (if va =? 0 then 0 else (va - v) / PAGE_SIZE) <= c).
  { destruct (Z.eqb_spec va 0) as [|Hne]; [lia|]. destruct (Hoff Hne) as (? & ? & ->). lia. }
  destruct Hoffc as [Hoffe Hoffb].
  set (off := if va =? 0 then 0 else (va - v) / PAGE_SIZE) in *.
  rewrite PAGE_SIZE_val in Hend.
  assert (Hsub : u32 (c - off) = c - off) by (apply u32_small; ulia).
  destruct (take_range va n (v, c)) as [[addr r]|] eqn:Ht; unfold take_range in Ht; fold off in Ht.
  - apply wp_bind, wp_assert; [done|].
    apply wp_bind, wp_get, wp_bind. eapply wp_of_ok; [exact E|]. cbn beta iota.
    rewrite (proj2 (Z.eqb_neq a 0)) by done. apply wp_bind, wp_ret, wp_bind.
    eapply wp_load_block; [done|]. cbn [fb_virtual_addr fb_page_count next].
    destruct (Z.eqb_spec c n) as [->|Hcn].
    { simplify_eq. apply wp_bind. eapply wp_mono; [by eapply unlink_block_ok|].
      intros ctx' s' (? & ? & ? & ? & Hhd & ?). apply wp_ret. split_and!; try done.
      - eexists. split_and!; [done|by rewrite fmap_app|]. intros p. rewrite !fmap_app. set_solver.
      - destruct Hhd as [->|?]; [by left|by right]. }
    rewrite (proj2 (Z.ltb_lt n c)) by lia. cbn zeta. rewrite Hoffe, Hsub.
    destruct (Z.ltb_spec (c - off) n) as [|Hge]; [done|]. apply wp_bind, wp_ret.
    destruct ((va =? 0) || (va =? v)) eqn:Hfirst.
    { simplify_eq. apply wp_bind, wp_modify, wp_ret.
      rewrite !u32_small by (rewrite ?u32_small; page_unfold; ulia). by apply update_post. }
    apply orb_false_iff in Hfirst as [Hva0%Z.eqb_neq _].
    destruct (Hoff Hva0) as (Hin & Hofr & _).
    rewrite (u32_small (off + n)) by ulia.
    assert (Hidx : va =? 0 = false) by (by apply Z.eqb_neq).
    apply wp_bind. destruct (Z.ltb_spec (off + n) c) as [Hlt|Hlast]; simplify_eq.
    + rewrite !u32_small by (rewrite ?u32_small; page_unfold; ulia).
      rewrite Z.sub_add_distr.
      eapply wp_mono; [by eapply split_post|]. intros [] s' Hpost. by apply wp_ret.
    + eapply wp_set_block_count; [done|]. apply wp_ret. simpl.
      rewrite u32_small by ulia. by apply update_post.
  - eexists. rewrite (bind_ok _ _ s tt s), (bind_ok _ _ s s s), (bind_ok _ _ _ _ _ E) by done.
    rewrite (proj2 (Z.eqb_neq a 0)) by done.
    rewrite (bind_ok _ _ s tt s), (bind_ok _ _ s (FreeBlocks v c nx) s)
      by (try done; unfold load_block; by rewrite Hm).
    cbn [fb_virtual_addr fb_page_count next].
    destruct (Z.eqb_spec c n); [done|]. rewrite (proj2 (Z.ltb_lt n c)) by lia.
    cbn zeta. rewrite Hoffe, Hsub.
    destruct (c - off <? n); [by apply bind_err|].
    destruct ((va =? 0) || (va =? v)); [done|]. by destruct (off + n <? c).
Qed.

End Remove.

(** ** The pointer code implements the specification: add_free_blocks *)

Section AddFree.
Context {H : Type} `{Allocator H} (mi : kernel_meminfo).
Implicit Types s : vmm_store H.

Lemma seek_free_blocks_ok fuel va l1 rest fb s :
  fb_seg (vs_blocks s) fb rest 0 → (length rest < fuel)%nat →
  Forall (λ b, b.1 < va) l1.*2 →
  wp (seek_free_blocks fuel va fb (fb_prev l1))
     (λ r s', s' = s ∧ ∃ m1 m2, l1 ++ rest = m1 ++ m2 ∧
        Forall (λ b, b.1 < va) m1.*2 ∧ (∀ b l', m2.*2 = b :: l' → va <= b.1) ∧
        r = (default 0 (head m2.*1), fb_prev m1)) s.
Proof.
  revert l1 rest fb. induction fuel as [|fuel IH]; intros l1 rest fb Hs Hlen Hlt; [lia|].
  simpl. destruct rest as [|[a [v c]] rest]; simpl in Hs.
  { subst fb. apply wp_ret. split; [done|]. exists l1, []. split_and!; done || by intros. }
  destruct Hs as (-> & Hnz & nx & Hm & Hs). rewrite (proj2 (Z.eqb_neq a 0)) by done.
  apply wp_bind. eapply wp_load_block; [done|]. cbn [fb_virtual_addr next].
  destruct (Z.ltb_spec v va) as [Hv|Hv].
  - specialize (IH (l1 ++ [(a, (v, c))]) rest nx).
    rewrite fb_prev_snoc, <- app_assoc in IH. apply IH; [done|simpl in Hlen; lia|].
    rewrite fmap_app, Forall_app. split; [done|]. by constructor.
  - apply wp_ret. split; [done|]. exists l1, ((a, (v, c)) :: rest). split_and!; try done.
    by intros b l' [= <- <-].
Qed.

Definition add_post (s : vmm_store H) (l : list (Z * (Z * Z))) (bl : list (Z * Z))
    (ctx : vmm_context) (s' : vmm_store H) : Prop :=
  store_ok s' ∧ (∃ l', ctx_free s' ctx l' ∧ l'.*2 = bl ∧ grown s l l') ∧ vs_nodes s' = vs_nodes s ∧
  blocks_frame s s' l.

(** The insertion at the end of merge_or_insert_free_blocks. *)
Lemma insert_block_ok ctx va n l1 a w d l2 s :
  store_ok s → ctx_free s ctx (l1 ++ (a, (w, d)) :: l2) →
  can_malloc (vs_heap s) sizeof_free_blocks →
  wp (nx ← (if a =? 0 then mret 0 else b ← load_block a; mret (next b));
      p ← new_block (FreeBlocks va n nx);
      (if a =? 0 then mret tt else set_block_next a p))
     (λ _, add_post s (l1 ++ (a, (w, d)) :: l2)
             (l1.*2 ++ (w, d) :: (va, n) :: l2.*2) ctx) s.
Proof.
  intros Hok Hr Hcan. destruct (fb_rep_split _ _ _ _ _ _ _ Hr) as (nx & Hm & Hnz & _).
  rewrite (proj2 (Z.eqb_neq a 0)) by done.
  apply wp_bind, wp_bind. eapply wp_load_block; [done|]. apply wp_ret, wp_bind.
  apply wp_new_block; [done..|]. intros x h Hx Hfresh Hfresh' s1 Hok1 Hrm.
  assert (Hxa : x ≠ a) by (intros ->; congruence).
  eapply wp_set_block_next; [simpl; by rewrite lookup_insert_ne|].
  pose proof (fb_rep_insert _ _ _ _ _ _ _ _ x va n Hr Hm Hfresh ltac:(lia)) as Hr'.
  split_and!; try done.
  - eapply (store_ok_block s1); [done|]. simpl. by rewrite lookup_insert_ne.
  - eexists. split_and!; [exact Hr'|by rewrite fmap_app|by apply grown_insert].
  - split; [done|]. intros p b Hp Hb. simpl. rewrite fmap_app in Hp. simpl in Hp.
    rewrite !lookup_insert_ne; [done|congruence|set_solver].
Qed.

(** Absorbing the next node. *)
Lemma absorb_next_ok ctx l1 a w d b x e nb l3 s k :
  store_ok s → ctx_free s ctx (l1 ++ (a, (w, d)) :: (b, (x, e)) :: l3) →
  vs_blocks s !! b = Some (FreeBlocks x e nb) →
  wp (set_block_count a k;; set_block_next a nb;; free_block b;; mret true)
     (λ m s', m = true ∧ add_post s (l1 ++ (a, (w, d)) :: (b, (x, e)) :: l3)
             (l1.*2 ++ (w, k) :: l3.*2) ctx s') s.
Proof.
  intros Hok Hr Hnb. destruct (fb_rep_split _ _ _ _ _ _ _ Hr)
    as (nx & Hm & Hnz & H1 & (-> & Hbz & nb' & Hb & H2) & Hn1 & Hn2 & Ha1 & Ha2 & Hd).
  simplify_eq.
  assert (Hab : b ≠ a) by (simpl in Ha2; set_solver).
  apply wp_bind. eapply wp_set_block_count; [done|]. simpl.
  apply wp_bind. eapply wp_set_block_next; [simpl; by rewrite lookup_insert_eq|]. simpl.
  rewrite insert_insert_eq. set (s1 := VmmStore _ _ _).
  assert (Hok1 : store_ok s1) by (by eapply store_ok_block).
  apply wp_bind. eapply (wp_free_block b); [done|simpl; by rewrite lookup_insert_ne|].
  intros h s2 Hok2 Hrm. apply wp_ret. split; [done|]. simpl in Hn2. apply NoDup_cons in Hn2 as [Hb3 Hn3].
  assert (Hb1 : b ∉ l1.*1) by (intros Hin; by apply (Hd _ Hin); simpl; set_solver).
  split_and!; try done.
  - exists (l1 ++ (a, (w, k)) :: l3). split_and!; [|by rewrite fmap_app|].
    2:{ intros p. rewrite !fmap_app. simpl. set_solver. }
    split; simpl.
    + rewrite fb_seg_app. exists a. split.
      * eapply fb_seg_frame; [|exact H1]. intros y Hy. simpl.
        rewrite lookup_delete_ne, lookup_insert_ne; [done|set_solver..].
      * simpl. split_and!; try done. exists nb.
        rewrite lookup_delete_ne, lookup_insert_eq by done. split; [done|].
        eapply fb_seg_frame; [|exact H2]. intros y Hy. simpl in Ha2.
        rewrite lookup_delete_ne, lookup_insert_ne; [done|set_solver..].
    + destruct Hr as [_ Hnd]. rewrite fmap_app in Hnd |- *. simpl in Hnd |- *.
      eapply sublist_NoDup; [exact Hnd|]. by apply sublist_app, sublist_skip, sublist_cons.
  - split; [done|]. intros y z Hy Hz. simpl. rewrite fmap_app in Hy. simpl in Hy.
    rewrite lookup_delete_ne, lookup_insert_ne; set_solver.
Qed.

Lemma blocks_frame_trans s1 s2 s3 l l' :
  vs_heap s2 = vs_heap s1 → blocks_frame s1 s2 l → blocks_frame s2 s3 l' → (∀ p, p ∈ l'.*1 → p ∈ l.*1) →
  blocks_frame s1 s3 l.
Proof.
  intros E F1 F2 Hl. split; [rewrite <- E; apply F2|]. intros p b Hp Hb.
  apply F2; [by intros ?%Hl|]. by apply F1.
Qed.

Lemma merge_or_insert_ok ctx va n l1 a w d l2 s :
  store_ok s → ctx_free s ctx (l1 ++ (a, (w, d)) :: l2) →
  can_malloc (vs_heap s) sizeof_free_blocks →
  wp (merge_or_insert_free_blocks mi a va n)
     (λ _, add_post s (l1 ++ (a, (w, d)) :: l2)
             (l1.*2 ++ merge_or_insert mi w d va n l2.*2) ctx) s.
Proof.
  intros Hok Hr Hcan. destruct (fb_rep_split _ _ _ _ _ _ _ Hr) as (nx & Hm & Hnz & _ & H2 & _).
  unfold merge_or_insert_free_blocks, merge_or_insert. apply wp_bind.
  rewrite (proj2 (Z.eqb_neq a 0)) at 1 by done. apply wp_bind. eapply wp_load_block; [done|].
  cbn [fb_virtual_addr fb_page_count next].
  destruct (negb (xorb _ _)); [apply wp_ret; by eapply insert_block_ok|].
  apply wp_bind. set (merged := u32 (w + u32 (n * PAGE_SIZE)) =? va).
  set (d1 := if merged then u32 (d + n) else d).
  (* the state after the first test *)
  eapply (wp_mono _ (λ m s1, m = merged ∧ store_ok s1 ∧
    ctx_free s1 ctx (l1 ++ (a, (w, d1)) :: l2) ∧ vs_blocks s1 !! a = Some (FreeBlocks w d1 nx) ∧
    vs_nodes s1 = vs_nodes s ∧ vs_heap s1 = vs_heap s ∧ blocks_frame s s1 (l1 ++ (a, (w, d)) :: l2) ∧
    (merged = false → s1 = s))).
  { subst d1. destruct merged.
    - apply wp_bind. eapply wp_set_block_count; [done|]. apply wp_ret.
      destruct (update_post s ctx l1 a w d l2 nx w (u32 (d + n)) va Hok Hr Hm)
        as (_ & Hok1 & _ & Hn1 & _ & Hf1 & _).
      split_and!; try done; [by eapply fb_rep_update|]. simpl. by rewrite lookup_insert_eq.
    - apply wp_ret. split_and!; try done. }
  intros m s1 (-> & Hok1 & Hr1 & Hm1 & Hn1 & Hh1 & Hf1 & Hsame).
  apply wp_bind. eapply wp_load_block; [done|]. cbn [fb_virtual_addr fb_page_count next].
  (* with or without the merge, when there is no next node to absorb *)
  assert (Hnomerge : wp (if merged then mret tt else
      nx ← (if a =? 0 then mret 0 else b ← load_block a; mret (next b));
      p ← new_block (FreeBlocks va n nx); (if a =? 0 then mret tt else set_block_next a p))
      (λ _, add_post s (l1 ++ (a, (w, d)) :: l2)
        (l1.*2 ++ (if merged then (w, d1) :: l2.*2 else (w, d) :: (va, n) :: l2.*2)) ctx) s1).
  { subst d1. destruct merged.
    - apply wp_ret. split_and!; try done. eexists. split_and!; [exact Hr1|by rewrite fmap_app|].
      intros p. rewrite !fmap_app. by left.
    - rewrite Hsame in * by done. by eapply insert_block_ok. }
  destruct (fb_rep_split _ _ _ _ _ _ _ Hr1) as (nx' & Hmx & _ & _ & H2' & _). simplify_eq.
  destruct l2 as [|[b [x e]] l3].
  - simpl in H2. subst nx. apply wp_ret. by destruct merged.
  - destruct H2' as (-> & Hbz & nb & Hb & _). rewrite (proj2 (Z.eqb_neq b 0)) by done.
    apply wp_bind. eapply wp_load_block; [done|]. cbn [fb_virtual_addr fb_page_count next].
    change (((b, (x, e)) :: l3).*2) with ((x, e) :: l3.*2) in *. cbn beta iota.
    destruct (u32 (w + u32 (n * PAGE_SIZE)) =? x); [|apply wp_ret; by destruct merged].
    eapply wp_mono; [by apply (absorb_next_ok ctx l1 a w d1 b x e nb l3)|].
    intros m s2 (-> & Hok2 & (l' & Hr2 & El' & Hg) & Hn2 & Hf2). apply wp_ret. split_and!; try done; [|congruence|].
    + exists l'. split_and!; [done..|]. intros p Hp. destruct (decide (p ∈ (l1 ++ (a, (w, d)) :: (b, (x, e)) :: l3).*1))
        as [Hin|Hin]; [by left|right]. destruct (Hg p Hp) as [Hp1|Hp1]; [by rewrite !fmap_app in *|].
      apply eq_None_not_Some. intros [z Hz]. apply Hf1 in Hz; [congruence|done].
    + eapply blocks_frame_trans; [done..|]. intros p. by rewrite !fmap_app.
Qed.

Lemma push_block_ok ctx va n l s :
  store_ok s → ctx_free s ctx l → can_malloc (vs_heap s) sizeof_free_blocks →
  wp (p ← new_block (FreeBlocks va n (free_blocks ctx)); mret (VmmContext (allocations ctx) p))
     (λ ctx' s', add_post s l ((va, n) :: l.*2) ctx' s' ∧ allocations ctx' = allocations ctx) s.
Proof.
  intros Hok [Hs Hnd] Hcan. apply wp_bind, wp_new_block; [done..|].
  intros p h Hp Hf Hf' s1 Hok1 Hrm. apply wp_ret. split; [|done].
  assert (Hpl : p ∉ l.*1).
  { intros Hin. destruct (fb_seg_some _ _ _ _ _ Hs Hin). congruence. }
  split_and!; try done.
  - exists ((p, (va, n)) :: l). split_and!; [|done|by intros q [->|?]%elem_of_cons; auto].
    split; [|by apply NoDup_cons].
    cbn [fb_seg free_blocks]. split_and!; [done|lia|]. exists (free_blocks ctx).
    split; [by apply lookup_insert_eq|]. eapply fb_seg_frame; [|exact Hs].
    intros q Hq. apply lookup_insert_ne. by intros ->.
  - split; [done|]. intros q b _ Hq. simpl. rewrite lookup_insert_ne; [done|congruence].
Qed.

(** The list starts below [va]. *)
Definition head_below (va : Z) (bl : list (Z * Z)) : Prop := match bl with [] => False | b :: _ => b.1 < va end.

Lemma add_free_blocks_ok ctx va n l s :
  store_ok s → ctx_free s ctx l → can_malloc (vs_heap s) sizeof_free_blocks →
  wp (add_free_blocks mi ctx va n)
     (λ ctx' s', (add_post s l (add_ranges mi va n l.*2) ctx' s' ∧
                 allocations ctx' = allocations ctx) ∧ (head_below va l.*2 → ctx' = ctx)) s.
Proof.
  intros Hok Hr Hcan. pose proof Hr as [Hs Hnd]. apply wp_bind, wp_get, wp_bind.
  assert (Hlen : (length l < block_fuel s)%nat).
  { pose proof (fb_seg_length _ _ _ _ Hnd Hs). unfold block_fuel. lia. }
  pose proof (seek_free_blocks_ok (block_fuel s) va [] l (free_blocks ctx) s Hs Hlen
    (Forall_nil_2 _)) as W.
  change (fb_prev []) with 0 in W. change ([] ++ l) with l in W. apply (wp_mono _ _ _ _ W).
  intros [fb prev] s' (-> & m1 & m2 & -> & Hlt & Hge & [= -> ->]). cbn beta iota.
  destruct m1 as [|[a [w d]] m1 _] using rev_ind.
  - destruct m2 as [|[a [v c]] l2].
    + simpl in Hs. cbn. rewrite <- Hs. eapply wp_mono; [by apply (push_block_ok ctx va n [])|].
      intros ctx' s1 Hp. by split; [|intros []].
    + destruct Hs as (Hs & Hnz & nx & Hm & Hs2).
      specialize (Hge _ _ eq_refl). simpl in Hge. cbn [app] in *.
      change (default 0 (head (((a, (v, c)) :: l2).*1))) with a. change (fb_prev []) with 0.
      rewrite (proj2 (Z.eqb_neq a 0)) by done. cbn [negb Z.eqb].
      change (((a, (v, c)) :: l2).*2) with ((v, c) :: l2.*2). unfold add_ranges.
      rewrite (proj2 (Z.ltb_ge v va)) by done.
      apply wp_bind. eapply wp_load_block; [done|]. cbn [fb_virtual_addr fb_page_count next].
      destruct (u32 (va + u32 (n * PAGE_SIZE)) =? v).
      * apply wp_bind. eapply wp_set_block_count; [done|]. apply wp_ret. split; [|done]. split; [|done]. simpl.
        destruct (update_post s ctx [] a v c l2 nx v (u32 (c + n)) va Hok Hr Hm)
          as (_ & ? & ? & ? & _ & ? & _). by split_and!.
      * rewrite <- Hs in *. eapply wp_mono; [by apply (push_block_ok ctx va n ((free_blocks ctx, (v, c)) :: l2))|].
        intros ctx' s1 Hp. split; [done|]. simpl. lia.
  - rewrite fmap_app in Hlt. rewrite fb_prev_snoc, <- app_assoc in *. cbn [app] in *.
    destruct (fb_rep_split _ _ _ _ _ _ _ Hr) as (nx & Hm & Hnz & _).
    rewrite (proj2 (Z.eqb_neq a 0)) by done. cbn [negb].
    rewrite fmap_app, fmap_cons. change ((a, (w, d)).2) with (w, d).
    rewrite add_ranges_app by done.
    destruct (negb _); apply wp_bind; (eapply wp_mono; [by eapply merge_or_insert_ok|]);
      intros [] s' Hpost; by apply wp_ret.
Qed.

End AddFree.
