(* ===== verification/VmmTree.v ===== *)
(** * The allocation tree of an address space

    The binary search tree of mm/vmm.c in memory: vmm_find_allocation and
    add_allocation implement lookup and insertion on trees, and on trees whose
    ranges are in order lookup finds exactly the range that contains an address. *)

From S2P Require Import Prelude Allocator PageArith Vmm VmmRules.

(** ** Trees *)

Inductive tree : Type :=
  | Leaf
  | Node (p : Z) (a : vmm_allocation) (l r : tree).

Fixpoint addrs (t : tree) : list Z :=
  match t with Leaf => [] | Node p _ l r => p :: addrs l ++ addrs r end.

Fixpoint elems (t : tree) : list vmm_allocation :=
  match t with Leaf => [] | Node _ a l r => elems l ++ a :: elems r end.

Definition alloc_end (a : vmm_allocation) : Z := virtual_addr a + page_count a * PAGE_SIZE.
Definition contains (a : vmm_allocation) (x : Z) : Prop := virtual_addr a <= x < alloc_end a.

Lemma contains_count a x : contains a x → page_count a ≠ 0.
Proof. unfold contains, alloc_end. intros Hc E. rewrite E in Hc. lia. Qed.

Fixpoint tree_find (x : Z) (t : tree) : option vmm_allocation :=
  match t with
  | Leaf => None
  | Node _ a l r =>
      if (virtual_addr a <=? x) && (x <? alloc_end a) then Some a
      else if x <? virtual_addr a then tree_find x l else tree_find x r
  end.

Fixpoint tree_insert (p : Z) (a : vmm_allocation) (t : tree) : tree :=
  match t with
  | Leaf => Node p a Leaf Leaf
  | Node q b l r =>
      if virtual_addr a <? virtual_addr b then Node q b (tree_insert p a l) r
      else Node q b l (tree_insert p a r)
  end.

(** The ranges of the tree are in order and inside [lo, hi).  A range may be empty: that
    is what vmm_unmap_pages leaves of an allocation. *)
Fixpoint bst (lo hi : Z) (t : tree) : Prop :=
  match t with
  | Leaf => lo <= hi
  | Node _ a l r => 0 <= page_count a ∧ bst lo (virtual_addr a) l ∧ bst (alloc_end a) hi r
  end.

Section Trees.

Lemma elems_insert p a t : elems (tree_insert p a t) ≡ₚ a :: elems t.
Proof.
  induction t as [|q b l IHl r IHr]; simpl; [done|].
  case_match; simpl; [by rewrite IHl|]. rewrite IHr.
  rewrite (Permutation_swap a b). by rewrite <- (Permutation_middle _ _ a).
Qed.

Lemma addrs_insert p a t : addrs (tree_insert p a t) ≡ₚ p :: addrs t.
Proof.
  induction t as [|q b l IHl r IHr]; simpl; [done|].
  case_match; simpl; [rewrite IHl|rewrite IHr, <- (Permutation_middle _ _ p)]; apply Permutation_swap.
Qed.

Lemma alloc_end_ge a : 0 < page_count a → virtual_addr a + PAGE_SIZE <= alloc_end a.
Proof. unfold alloc_end. page_unfold. lia. Qed.

Lemma alloc_end_le a : 0 <= page_count a → virtual_addr a <= alloc_end a.
Proof. unfold alloc_end. page_unfold. lia. Qed.

Lemma bst_bound lo hi t : bst lo hi t → lo <= hi.
Proof.
  revert lo hi. induction t as [|p a l IHl r IHr]; intros lo hi; simpl; [done|].
  intros (Ha & Hl%IHl & Hr%IHr). apply alloc_end_le in Ha. page_unfold. lia.
Qed.

Lemma bst_elem lo hi t a :
  bst lo hi t → a ∈ elems t → lo <= virtual_addr a ∧ alloc_end a <= hi ∧ 0 <= page_count a.
Proof.
  revert lo hi. induction t as [|p b l IHl r IHr]; intros lo hi; simpl; [set_solver|].
  intros (Hb & Hl & Hr). pose proof (alloc_end_le _ Hb).
  pose proof (bst_bound _ _ _ Hl). pose proof (bst_bound _ _ _ Hr). page_unfold.
  intros [Hin|[->|Hin]%elem_of_cons]%elem_of_app.
  - destruct (IHl _ _ Hl Hin) as (? & ? & ?). split_and!; lia.
  - split_and!; lia.
  - destruct (IHr _ _ Hr Hin) as (? & ? & ?). split_and!; lia.
Qed.

(** The allocations of an ordered tree that are not empty are distinct and do not overlap. *)
Lemma bst_disjoint lo hi t :
  bst lo hi t → NoDup (filter (λ a, page_count a ≠ 0) (elems t)) ∧
  ∀ a b x, a ∈ elems t → b ∈ elems t → contains a x → contains b x → a = b.
Proof.
  revert lo hi. induction t as [|p c l IHl r IHr]; intros lo hi; simpl.
  { split; [constructor|]. set_solver. }
  intros (Hc & Hl & Hr). pose proof (alloc_end_le _ Hc). page_unfold.
  destruct (IHl _ _ Hl) as [Hndl Hdl], (IHr _ _ Hr) as [Hndr Hdr].
  assert (Hle : ∀ a, a ∈ elems l → alloc_end a <= virtual_addr c ∧ (page_count a ≠ 0 → virtual_addr a < virtual_addr c)).
  { intros a Ha. destruct (bst_elem _ _ _ _ Hl Ha) as (_ & ? & Hp). split; [done|]. intros Hpc.
    pose proof (alloc_end_ge a ltac:(lia)). page_unfold. lia. }
  assert (Hri : ∀ a, a ∈ elems r → alloc_end c <= virtual_addr a)
    by (intros a Ha; by destruct (bst_elem _ _ _ _ Hr Ha)).
  split.
  - rewrite filter_app. apply NoDup_app. split_and!; [done| |].
    + intros a [Hpa [Ha1 Ha2]%Hle]%list_elem_of_filter [_ [->|Hb%Hri]%elem_of_cons]%list_elem_of_filter; [lia|].
      specialize (Ha2 Hpa). lia.
    + rewrite filter_cons. case_decide as Hpc; [|done]. apply NoDup_cons. split; [|done].
      intros [_ Hb%Hri]%list_elem_of_filter. pose proof (alloc_end_ge c ltac:(lia)). page_unfold. lia.
  - intros a b x Ha Hb. rewrite elem_of_app, elem_of_cons in Ha, Hb. unfold contains.
    destruct Ha as [Ha|[->|Ha]], Hb as [Hb|[->|Hb]]; intros Hax Hbx; try done;
      try (by eapply Hdl); try (by eapply Hdr); exfalso;
      repeat match goal with
      | Hx : _ ∈ elems l |- _ => apply Hle in Hx
      | Hx : _ ∈ elems r |- _ => apply Hri in Hx
      end; lia.
Qed.

(** In an ordered tree, lookup finds the range that contains the address. *)
Lemma tree_find_spec lo hi t x :
  bst lo hi t → match tree_find x t with
                | Some a => a ∈ elems t ∧ contains a x
                | None => ∀ a, a ∈ elems t → ¬ contains a x
                end.
Proof.
  revert lo hi. induction t as [|p b l IHl r IHr]; intros lo hi; simpl; [set_solver|].
  intros (Hb & Hl & Hr). pose proof (alloc_end_le _ Hb). page_unfold.
  destruct (_ && _) eqn:E; [split; [set_solver|unfold contains; lia]|].
  assert (Hnb : ¬ contains b x) by (unfold contains; lia).
  destruct (Z.ltb_spec x (virtual_addr b)) as [Hx|Hx].
  - specialize (IHl _ _ Hl). destruct (tree_find x l) as [a|]; [set_solver|].
    intros a [Ha|[->|Ha]%elem_of_cons]%elem_of_app; [by apply IHl|done|].
    destruct (bst_elem _ _ _ _ Hr Ha) as (? & ? & ?). unfold contains. lia.
  - specialize (IHr _ _ Hr). destruct (tree_find x r) as [a|]; [set_solver|].
    intros a [Ha|[->|Ha]%elem_of_cons]%elem_of_app; [|done|by apply IHr].
    destruct (bst_elem _ _ _ _ Hl Ha) as (? & ? & ?). unfold contains. lia.
Qed.

(** Inserting a range that overlaps none, and in which no empty one lies, keeps the order. *)
Lemma bst_insert lo hi p a t :
  bst lo hi t → 0 < page_count a → lo <= virtual_addr a → alloc_end a <= hi →
  (∀ b x, b ∈ elems t → contains a x → ¬ contains b x) →
  (∀ b, b ∈ elems t → page_count b = 0 → ¬ virtual_addr a < virtual_addr b < alloc_end a) →
  bst lo hi (tree_insert p a t).
Proof.
  intros Ht Ha. pose proof (alloc_end_ge _ Ha). page_unfold.
  revert lo hi Ht. induction t as [|q b l IHl r IHr]; intros lo hi; simpl.
  { intros. split_and!; lia. }
  intros (Hb & Hl & Hr) Hlo Hhi Hdis Hnone. pose proof (alloc_end_le _ Hb). page_unfold.
  assert (Hab : ∀ x, contains a x → ¬ contains b x) by (intros; apply Hdis; set_solver).
  assert (Hnb : page_count b = 0 → ¬ virtual_addr a < virtual_addr b < alloc_end a) by (apply Hnone; set_solver).
  assert (Hbe : page_count b ≠ 0 → virtual_addr b < alloc_end b).
  { intros ?. pose proof (alloc_end_ge b ltac:(lia)). page_unfold. lia. }
  unfold contains in Hab.
  destruct (Z.ltb_spec (virtual_addr a) (virtual_addr b)) as [Hx|Hx]; simpl; split_and!; try done.
  - apply IHl; [done..| |set_solver|set_solver]. specialize (Hab (virtual_addr b)).
    destruct (decide (page_count b = 0)); lia.
  - apply IHr; [done| |done|set_solver|set_solver]. specialize (Hab (virtual_addr a)). lia.
Qed.

(** ** Shrinking the allocation that starts at an address *)

(** What vmm_unmap_pages leaves of an allocation; the physical address is kept. *)
Definition shrink (n : Z) (a : vmm_allocation) : vmm_allocation :=
  Allocation (u32 (virtual_addr a + u32 (PAGE_SIZE * n))) (physical_addr a)
    (u32 (page_count a - n)) (flags a).

(** The allocation that the search of vmm_unmap_pages finds. *)
Fixpoint tree_start (va : Z) (t : tree) : option vmm_allocation :=
  match t with
  | Leaf => None
  | Node _ a l r =>
      if va =? virtual_addr a then Some a
      else if va <? virtual_addr a then tree_start va l else tree_start va r
  end.

Fixpoint tree_shrink (va n : Z) (t : tree) : tree :=
  match t with
  | Leaf => Leaf
  | Node q a l r =>
      if va =? virtual_addr a then Node q (shrink n a) l r
      else if va <? virtual_addr a then Node q a (tree_shrink va n l) r
      else Node q a l (tree_shrink va n r)
  end.

Lemma tree_start_spec lo hi t va a :
  bst lo hi t → a ∈ elems t → page_count a ≠ 0 → virtual_addr a = va →
  (∀ b, b ∈ elems t → page_count b = 0 → virtual_addr b ≠ va) → tree_start va t = Some a.
Proof.
  revert lo hi. induction t as [|q b l IHl r IHr]; intros lo hi; simpl; [set_solver|].
  intros (Hb & Hl & Hr) Hin Hpa Hva Hnone. pose proof (alloc_end_le _ Hb).
  apply elem_of_app in Hin as [Hin|[->|Hin]%elem_of_cons].
  - destruct (bst_elem _ _ _ _ Hl Hin) as (_ & ? & Ha). pose proof (alloc_end_ge a ltac:(lia)). page_unfold.
    rewrite (proj2 (Z.eqb_neq _ _)), (proj2 (Z.ltb_lt _ _)) by lia. eapply IHl; [done..|set_solver].
  - by rewrite <- Hva, Z.eqb_refl.
  - destruct (bst_elem _ _ _ _ Hr Hin) as (? & _).
    assert (virtual_addr b ≠ va).
    { destruct (decide (page_count b = 0)) as [E|E]; [apply Hnone; [set_solver|done]|].
      pose proof (alloc_end_ge b ltac:(lia)). page_unfold. lia. }
    rewrite (proj2 (Z.eqb_neq _ _)), (proj2 (Z.ltb_ge _ _)) by lia. eapply IHr; [done..|set_solver].
Qed.

Lemma addrs_shrink va n t : addrs (tree_shrink va n t) = addrs t.
Proof.
  induction t as [|q a l IHl r IHr]; simpl; [done|].
  repeat case_match; simpl; by rewrite ?IHl, ?IHr.
Qed.

Lemma elems_shrink va n t a :
  tree_start va t = Some a →
  ∃ rest, elems t ≡ₚ a :: rest ∧ elems (tree_shrink va n t) ≡ₚ shrink n a :: rest.
Proof.
  induction t as [|q b l IHl r IHr]; simpl; [done|]. repeat case_match; intros Hs; simplify_eq/=.
  - exists (elems l ++ elems r). by rewrite <- !Permutation_middle.
  - destruct (IHl Hs) as (rest & E1 & E2). exists (rest ++ b :: elems r). by rewrite E1, E2.
  - destruct (IHr Hs) as (rest & E1 & E2). exists (elems l ++ b :: rest). rewrite E1, E2.
    split; rewrite !(cons_middle b), !app_assoc; by rewrite <- Permutation_middle.
Qed.

Lemma bst_weaken lo hi hi' t : hi <= hi' → bst lo hi t → bst lo hi' t.
Proof.
  revert lo. induction t as [|q a l _ r IHr]; intros lo Hle; simpl; [lia|].
  intros (? & ? & ?). split_and!; auto.
Qed.

(** What is left, even nothing, is in order. *)
Lemma bst_shrink lo hi va n t a :
  bst lo hi t → 0 <= lo → hi < 2 ^ 32 → tree_start va t = Some a → 0 <= n <= page_count a →
  bst lo hi (tree_shrink va n t).
Proof.
  revert lo hi. induction t as [|q b l IHl r IHr]; intros lo hi; simpl; [done|].
  intros (Hb & Hl & Hr) Hlo Hhi Hs Hn.
  pose proof (bst_bound _ _ _ Hl). pose proof (bst_bound _ _ _ Hr). pose proof (alloc_end_le _ Hb).
  destruct (va =? virtual_addr b); [|destruct (va <? virtual_addr b)]; simplify_eq/=.
  - unfold alloc_end in *. cbn [shrink virtual_addr page_count]. rewrite PAGE_SIZE_val in *.
    assert (u32 (virtual_addr a + u32 (4096 * n)) = virtual_addr a + 4096 * n) as -> by ulia.
    assert (u32 (page_count a - n) = page_count a - n) as -> by ulia.
    split_and!; [lia|eapply bst_weaken; [|done]; lia|].
    replace (_ + _ + _) with (virtual_addr a + page_count a * 4096) by lia. done.
  - split_and!; [done| |done]. apply IHl; try done. page_unfold. lia.
  - split_and!; [done|done|]. apply IHr; try done. page_unfold. lia.
Qed.

End Trees.

(** ** Trees in memory *)

Fixpoint tree_rep (m : gmap Z vmm_allocation_tree) (p par : Z) (t : tree) : Prop :=
  match t with
  | Leaf => p = 0
  | Node q a l r =>
      p = q ∧ q ≠ 0 ∧ ∃ lp rp, m !! q = Some (AllocationTree a lp rp par) ∧
        tree_rep m lp q l ∧ tree_rep m rp q r
  end.

Fixpoint height (t : tree) : nat :=
  match t with Leaf => 0 | Node _ _ l r => S (Nat.max (height l) (height r)) end.

Section Rep.
Implicit Types m : gmap Z vmm_allocation_tree.

Lemma tree_rep_frame m m' p par t :
  (∀ q, q ∈ addrs t → m' !! q = m !! q) → tree_rep m p par t → tree_rep m' p par t.
Proof.
  revert p par. induction t as [|q a l IHl r IHr]; intros p par Hf; simpl; [done|].
  intros (-> & Hq & lp & rp & Hm & Hl & Hr). split_and!; [done..|]. exists lp, rp. simpl in Hf.
  rewrite Hf by set_solver. split_and!; [done|apply IHl|apply IHr]; set_solver.
Qed.

Lemma tree_rep_some m p par t q : tree_rep m p par t → q ∈ addrs t → is_Some (m !! q).
Proof.
  revert p par. induction t as [|r a l IHl rt IHr]; intros p par; simpl; [set_solver|].
  intros (-> & _ & lp & rp & Hm & Hl & Hr) [->|[Hq|Hq]%elem_of_app]%elem_of_cons; eauto.
Qed.

Lemma height_addrs t : (height t <= length (addrs t))%nat.
Proof. induction t; simpl; [done|]. rewrite length_app. lia. Qed.

Lemma tree_rep_height m p par t :
  NoDup (addrs t) → tree_rep m p par t → (height t <= size m)%nat.
Proof.
  intros Hnd Hr. etrans; [apply height_addrs|].
  rewrite <- (size_dom m), <- (size_list_to_set (C := gset Z) _ Hnd).
  apply subseteq_size. intros q Hq%elem_of_list_to_set. apply elem_of_dom.
  by eapply tree_rep_some.
Qed.

End Rep.

(** ** Lookup and insertion *)

Section TreeOps.
Context {H : Type} `{Allocator H}.
Implicit Types s : vmm_store H.

Definition no_allocation : vmm_allocation := Allocation 0 0 0 0.

Lemma find_allocation_loop_ok fuel x t p par lo hi s :
  tree_rep (vs_nodes s) p par t → (height t < fuel)%nat →
  0 <= lo → hi < 2 ^ 32 → bst lo hi t →
  wp (find_allocation_loop fuel x p)
     (λ a s', s' = s ∧ a = default no_allocation (tree_find x t)) s.
Proof.
  revert t p par lo hi. induction fuel as [|fuel IH]; intros t p par lo hi Hr Hf Hlo Hhi Ht; [lia|].
  destruct t as [|q a l r]; simpl in Hr |- *; [by subst p; apply wp_ret|].
  destruct Hr as (-> & Hq & lp & rp & Hm & Hl & Hr), Ht as (Ha & Htl & Htr). simpl in Hf.
  rewrite (proj2 (Z.eqb_neq q 0)) by done.
  apply wp_bind. eapply wp_load_node; [done|]. cbn [alloc left right].
  pose proof (bst_bound _ _ _ Htl). pose proof (bst_bound _ _ _ Htr).
  assert (u32 (virtual_addr a + u32 (page_count a * PAGE_SIZE)) = alloc_end a) as ->.
  { unfold alloc_end in *. rewrite PAGE_SIZE_val in *. ulia. }
  destruct (_ && _); [by apply wp_ret|].
  pose proof (alloc_end_le _ Ha). page_unfold.
  destruct (x <? virtual_addr a).
  - by eapply (IH l lp q lo (virtual_addr a)); try done; lia.
  - by eapply (IH r rp q (alloc_end a) hi); try done; lia.
Qed.

(** A new leaf hung under the node [q]. *)
Definition hang (q x : Z) (a : vmm_allocation) (nd : vmm_allocation_tree)
    (m : gmap Z vmm_allocation_tree) : gmap Z vmm_allocation_tree :=
  <[q := if virtual_addr a <? virtual_addr (alloc nd)
         then AllocationTree (alloc nd) x (right nd) (parent nd)
         else AllocationTree (alloc nd) (left nd) x (parent nd)]>
    (<[x := AllocationTree a 0 0 q]> m).

Lemma hang_other q x a nd m y : y ≠ q → y ≠ x → hang q x a nd m !! y = m !! y.
Proof. intros. unfold hang. by rewrite !lookup_insert_ne. Qed.

(** The search for the insertion point ends at the node under which hanging the
    new leaf gives the insertion. *)
Lemma find_insertion_ok fuel va t p par prev s :
  tree_rep (vs_nodes s) p par t → NoDup (addrs t) → t ≠ Leaf → (height t < fuel)%nat →
  wp (find_insertion fuel va p prev)
     (λ q s', s' = s ∧ q ∈ addrs t ∧ ∃ nd, vs_nodes s !! q = Some nd ∧
        ∀ x a, x ≠ 0 → x ∉ addrs t → virtual_addr a = va →
          tree_rep (hang q x a nd (vs_nodes s)) p par (tree_insert x a t)) s.
Proof.
  revert t p par prev.
  induction fuel as [|fuel IH]; intros t p par prev Hr Hnd Hne Hf; [lia|].
  destruct t as [|q b l r]; [done|]. destruct Hr as (-> & Hq & lp & rp & Hm & Hl & Hr).
  simpl in Hnd, Hf |- *. apply NoDup_cons in Hnd as [Hql Hnd].
  apply NoDup_app in Hnd as (Hndl & Hd & Hndr).
  rewrite (proj2 (Z.eqb_neq q 0)) by done.
  apply wp_bind. eapply wp_load_node; [done|]. cbn [alloc left right].
  destruct (va <? virtual_addr b) eqn:Hva.
  - destruct l as [|lq lb ll lr].
    + simpl in Hl. subst lp. destruct fuel; [lia|]. simpl. apply wp_ret. split_and!; [done|set_solver|].
      eexists. split; [done|]. intros x a Hx Hxn Ha. subst va. unfold hang. cbn [alloc left right parent].
      rewrite Hva. simpl. split_and!; [done..|]. exists x, rp. rewrite lookup_insert_eq.
      split_and!; [done|done|done| |].
      * exists 0, 0. rewrite lookup_insert_ne by set_solver. by rewrite lookup_insert_eq.
      * eapply tree_rep_frame; [|exact Hr]. intros y Hy. rewrite !lookup_insert_ne; set_solver.
    + eapply wp_mono; [by apply (IH (Node lq lb ll lr) lp q q); [..|lia]|].
      intros q' s' (-> & Hq' & nd & Hnd' & Hins). split_and!; [done|set_solver|].
      exists nd. split; [done|]. intros x a Hx Hxn Ha. subst va. rewrite Hva.
      split_and!; [done..|]. exists lp, rp. rewrite hang_other by set_solver.
      split_and!; [done| |].
      * apply Hins; [done|set_solver|done].
      * eapply tree_rep_frame; [|exact Hr]. intros y Hy. apply hang_other; set_solver.
  - destruct r as [|rq rb rl rr].
    + simpl in Hr. subst rp. destruct fuel; [lia|]. simpl. apply wp_ret. split_and!; [done|set_solver|].
      eexists. split; [done|]. intros x a Hx Hxn Ha. subst va. unfold hang. cbn [alloc left right parent].
      rewrite Hva. simpl. split_and!; [done..|]. exists lp, x. rewrite lookup_insert_eq.
      split_and!; [done| |done|done|].
      * eapply tree_rep_frame; [|exact Hl]. intros y Hy. rewrite !lookup_insert_ne; set_solver.
      * exists 0, 0. rewrite lookup_insert_ne by set_solver. by rewrite lookup_insert_eq.
    + eapply wp_mono; [by apply (IH (Node rq rb rl rr) rp q q); [..|lia]|].
      intros q' s' (-> & Hq' & nd & Hnd' & Hins). split_and!; [done|set_solver|].
      exists nd. split; [done|]. intros x a Hx Hxn Ha. subst va. rewrite Hva.
      split_and!; [done..|]. exists lp, rp. rewrite hang_other by set_solver.
      split_and!; [done| |].
      * eapply tree_rep_frame; [|exact Hl]. intros y Hy. apply hang_other; set_solver.
      * apply Hins; [done|set_solver|done].
Qed.

(** The nodes that are not in [ps] are untouched. *)
Definition nodes_frame (s s' : vmm_store H) (ps : list Z) : Prop :=
  ∀ q nd, q ∉ ps → vs_nodes s !! q = Some nd → vs_nodes s' !! q = Some nd.

(** add_allocation on a tree that is in use. *)
Lemma add_allocation_insert ctx va pa n fl t s :
  store_ok s → tree_rep (vs_nodes s) (allocations ctx) 0 t → NoDup (addrs t) →
  (∀ p a l r, t = Node p a l r → page_count a ≠ 0) → t ≠ Leaf →
  can_malloc (vs_heap s) sizeof_allocation_tree →
  wp (add_allocation ctx va pa n fl)
     (λ _ s', store_ok s' ∧ vs_blocks s' = vs_blocks s ∧ room_step (vs_heap s) (vs_heap s') ∧
        nodes_frame s s' (addrs t) ∧ ∃ x, x ∉ addrs t ∧ vs_nodes s !! x = None ∧
          tree_rep (vs_nodes s') (allocations ctx) 0 (tree_insert x (Allocation va pa n fl) t)) s.
Proof.
  intros Hok Hr Hnd Hroot Hne Hcan. unfold add_allocation.
  assert (∃ p a l r, t = Node p a l r) as (p & a & l & r & Et)
    by (destruct t; [done|by do 4 eexists]).
  pose proof Hr as Hr'. rewrite Et in Hr'.
  destruct Hr' as (Hp & Hpz & lp & rp & Hm & _). rewrite Hp in *.
  apply wp_bind. eapply wp_load_node; [done|]. cbn [alloc].
  rewrite (proj2 (Z.eqb_neq _ 0)) by (by eapply Hroot).
  apply wp_bind, wp_get, wp_bind.
  eapply wp_mono; [apply (find_insertion_ok _ va t p 0 0); try done|].
  { pose proof (tree_rep_height _ _ _ _ Hnd Hr). unfold node_fuel. lia. }
  intros q s' (-> & Hq & nd & Hnd' & Hins).
  pose proof (store_ok_node_addr _ _ _ Hok Hnd') as Hqz.
  rewrite (proj2 (Z.eqb_neq q 0)) by lia. apply wp_bind, wp_ret, wp_bind.
  apply wp_new_node; [done..|]. intros x h Hx Hfb Hfn s1 Hok1 Hrm.
  assert (Hxq : x ≠ q) by (intros ->; congruence).
  apply wp_bind. eapply wp_set_node; [simpl; by rewrite lookup_insert_eq|]. simpl.
  rewrite insert_insert_eq.
  apply wp_bind. eapply wp_load_node; [simpl; by rewrite lookup_insert_ne|].
  assert (Hxt : x ∉ addrs t).
  { intros Hin. destruct (tree_rep_some _ _ _ _ _ Hr Hin). congruence. }
  specialize (Hins x (Allocation va pa n fl) ltac:(lia) Hxt eq_refl). unfold hang in Hins.
  cbn [virtual_addr] in Hins.
  assert (Hok2 : store_ok (VmmStore h (vs_blocks s)
    (<[x := AllocationTree (Allocation va pa n fl) 0 0 q]> (vs_nodes s)))).
  { eapply (store_ok_node s1 x) in Hok1; [|simpl; by rewrite lookup_insert_eq].
    simpl in Hok1. by rewrite insert_insert_eq in Hok1. }
  destruct (va <? virtual_addr (alloc nd)); (eapply wp_set_node; [simpl; by rewrite lookup_insert_ne|]);
    (split_and!; [by eapply (store_ok_node _ q) in Hok2; [exact Hok2|simpl; rewrite lookup_insert_ne]
                 |done|done| |by exists x]);
    intros y z Hy Hz; simpl; rewrite !lookup_insert_ne; congruence || set_solver.
Qed.

(** add_allocation on the root of an empty context fills the root. *)
Lemma add_allocation_root ctx va pa n fl p a s :
  store_ok s → tree_rep (vs_nodes s) (allocations ctx) 0 (Node p a Leaf Leaf) → page_count a = 0 →
  wp (add_allocation ctx va pa n fl)
     (λ _ s', store_ok s' ∧ vs_blocks s' = vs_blocks s ∧ room_step (vs_heap s) (vs_heap s') ∧
        nodes_frame s s' [p] ∧
        tree_rep (vs_nodes s') (allocations ctx) 0 (Node p (Allocation va pa n fl) Leaf Leaf)) s.
Proof.
  intros Hok (Hp & Hpz & lp & rp & Hm & -> & ->) Ha. unfold add_allocation. rewrite Hp in *.
  apply wp_bind. eapply wp_load_node; [exact Hm|]. cbn [alloc]. rewrite Ha. simpl.
  eapply wp_set_node; [done|]. split; [by eapply store_ok_node|]. split_and!; try done.
  { intros q nd Hq Hnd. simpl. rewrite lookup_insert_ne; [done|set_solver]. }
  exists 0, 0. simpl. by rewrite lookup_insert_eq.
Qed.

(** The search of vmm_unmap_pages, for fewer pages than the address. *)
Lemma unmap_allocation_ok fuel ctx va n t p par s :
  tree_rep (vs_nodes s) p par t → NoDup (addrs t) → (height t < fuel)%nat → n < va →
  match tree_start va t with
  | Some _ => wp (unmap_allocation fuel ctx va n p)
      (λ ctx' s', ctx' = ctx ∧ ∃ q nd, q ∈ addrs t ∧ vs_nodes s !! q = Some nd ∧
         s' = VmmStore (vs_heap s) (vs_blocks s) (<[q := AllocationTree (shrink n (alloc nd))
                (left nd) (right nd) (parent nd)]> (vs_nodes s)) ∧
         tree_rep (vs_nodes s') p par (tree_shrink va n t)) s
  | None => unmap_allocation fuel ctx va n p s =
      Err (EPanic "allocation to unmap not found in allocation tree")
  end.
Proof.
  revert t p par. induction fuel as [|fuel IH]; intros t p par Hr Hnd Hf Hn; [lia|].
  destruct t as [|q a l r]; simpl in Hr; [by subst p|].
  destruct Hr as (-> & Hq & lp & rp & Hm & Hl & Hr). simpl in Hnd, Hf.
  apply NoDup_cons in Hnd as [Hql (Hndl & Hd & Hndr)%NoDup_app].
  cbn [unmap_allocation tree_start tree_shrink]. rewrite (proj2 (Z.eqb_neq q 0)) by done.
  destruct (Z.eqb_spec va (virtual_addr a)) as [Hva|Hva]; [|destruct (va <? virtual_addr a) eqn:Hlt].
  - apply wp_bind. eapply wp_load_node; [done|]. cbn [alloc].
    rewrite (proj2 (Z.eqb_eq va _)), (proj2 (Z.ltb_lt n _)) by lia.
    apply wp_bind. eapply wp_set_node; [done|]. apply wp_ret. split; [done|].
    exists q. eexists. split_and!; [set_solver|done|done|]. cbn [alloc left right parent vs_nodes].
    split_and!; [done..|]. exists lp, rp. rewrite lookup_insert_eq. split_and!; [done| |];
      (eapply tree_rep_frame; [|done]); intros y Hy; rewrite lookup_insert_ne; set_solver.
  - specialize (IH l lp q Hl Hndl ltac:(lia) Hn). destruct (tree_start va l).
    + apply wp_bind. eapply wp_load_node; [done|]. cbn [alloc left].
      rewrite (proj2 (Z.eqb_neq va _)), Hlt by done. eapply wp_mono; [exact IH|].
      intros ctx' s' (-> & q' & nd & Hq' & Hnd' & -> & Hrep). split; [done|].
      exists q', nd. split_and!; [set_solver|done..|]. split; [done|]. split; [done|]. exists lp, rp.
      cbn [vs_nodes] in *.
      rewrite lookup_insert_ne by set_solver. split_and!; [done..|].
      eapply tree_rep_frame; [|done]. intros y Hy. rewrite lookup_insert_ne; set_solver.
    + rewrite (bind_ok _ _ s (AllocationTree a lp rp par) s) by (unfold load_node; by rewrite Hm).
      cbn [alloc left]. rewrite (proj2 (Z.eqb_neq va _)) by done. by rewrite Hlt.
  - specialize (IH r rp q Hr Hndr ltac:(lia) Hn). destruct (tree_start va r).
    + apply wp_bind. eapply wp_load_node; [done|]. cbn [alloc right].
      rewrite (proj2 (Z.eqb_neq va _)), Hlt by done. eapply wp_mono; [exact IH|].
      intros ctx' s' (-> & q' & nd & Hq' & Hnd' & -> & Hrep). split; [done|].
      exists q', nd. split_and!; [set_solver|done..|]. split; [done|]. split; [done|]. exists lp, rp.
      cbn [vs_nodes] in *.
      rewrite lookup_insert_ne by set_solver. split_and!; [done| |done].
      eapply tree_rep_frame; [|done]. intros y Hy. rewrite lookup_insert_ne; set_solver.
    + rewrite (bind_ok _ _ s (AllocationTree a lp rp par) s) by (unfold load_node; by rewrite Hm).
      cbn [alloc right]. rewrite (proj2 (Z.eqb_neq va _)) by done. by rewrite Hlt.
Qed.

End TreeOps.
