(* ===== verification/VmmSpace.v ===== *)
(** * Address spaces: mapping and finding pages

    The invariant of a [vmm_context] (mm/vmm.c), the abstract view of it that
    vmm_map_pages and vmm_find_allocation promise, and the theorems that the
    linked structures implement this view. *)

From S2P Require Import Prelude Allocator Kmalloc PageArith Vmm VmmRules VmmRanges VmmFree VmmTree.

Section Space.
Context {H : Type} `{Allocator H} (mi : kernel_meminfo).
Implicit Types s : vmm_store H.

(** The root of a new context is a node of no pages, and no allocation.  In a tree in use
    the other nodes may have no pages: stubs, which vmm_unmap_pages leaves behind. *)
Definition in_use (t : tree) : Prop := match t with Leaf => False | Node _ a _ _ => page_count a ≠ 0 end.

Definition allocs (t : tree) : list vmm_allocation :=
  match t with
  | Leaf => []
  | Node _ a _ _ => if decide (page_count a = 0) then [] else elems t
  end.

(** The root is the oldest allocation. *)
Definition oldest (t : tree) : option vmm_allocation :=
  match t with
  | Leaf => None
  | Node _ a _ _ => if decide (page_count a = 0) then None else Some a
  end.

Definition lists (t : tree) (A : list vmm_allocation) : Prop := allocs t ≡ₚ A ∧ last A = oldest t.

Definition sorted (t : tree) : Prop :=
  in_use t ∧ bst 0 (2 ^ 32 - 1) t ∧ ∀ a, a ∈ elems t → virtual_addr a mod PAGE_SIZE = 0.

(** Where the stubs are: at the edges of the free ranges and of the allocations, never
    inside one of them.  An allocation is always put in the pages of one free range, so it
    is never put around a stub, and the order of the tree holds. *)
Definition pages (a : vmm_allocation) : Z * Z := (virtual_addr a, page_count a).
Definition stubs_ok (bl : list (Z * Z)) (A : list vmm_allocation) : Prop :=
  ∀ a, a ∈ A → page_count a = 0 → ∀ b, b ∈ bl ++ (pages <$> A) → ¬ cuts (virtual_addr a) b.

Record as_inv (s : vmm_store H) (ctx : vmm_context) (l : list (Z * (Z * Z))) (t : tree) : Prop := {
  as_store : store_ok s;
  as_free : ctx_free s ctx l;
  as_ranges : ranges_from 0 l.*2;
  as_tree : tree_rep (vs_nodes s) (allocations ctx) 0 t;
  as_nodup : NoDup (addrs t);
  as_order : (∃ p, t = Node p no_allocation Leaf Leaf) ∨ sorted t;
  as_apart : ∀ a x, a ∈ allocs t → contains a x → ¬ covered l.*2 x;
  as_stubs : stubs_ok l.*2 (allocs t)
}.

(** The context [ctx] has the free ranges [bl] and the allocations [A], the oldest last. *)
Definition ctx_rep (s : vmm_store H) (ctx : vmm_context) (bl : list (Z * Z))
    (A : list vmm_allocation) : Prop :=
  ∃ l t, as_inv s ctx l t ∧ l.*2 = bl ∧ lists t A.

Lemma allocs_in_use t : in_use t → allocs t = elems t.
Proof. destruct t as [|p a l r]; simpl; [done|]. intros Ha. by rewrite decide_False. Qed.

Lemma lists_elem t A a : lists t A → a ∈ A ↔ a ∈ allocs t.
Proof. intros [HA _]. by rewrite HA. Qed.

Lemma last_cons_some (a b : vmm_allocation) A : last A = Some b → last (a :: A) = Some b.
Proof. destruct A; [done|]. by intros. Qed.

Lemma lists_exists t : ∃ A, lists t A.
Proof.
  destruct t as [|p a l r]; [by exists []|]. unfold lists. simpl. case_decide; [by exists []|].
  exists (elems l ++ elems r ++ [a]). rewrite app_assoc, last_snoc. split; [|done].
  rewrite <- app_assoc. apply Permutation_app_head. apply Permutation_cons_append.
Qed.

Lemma in_use_insert x a t : in_use t → in_use (tree_insert x a t).
Proof. destruct t; simpl; [done|]. by case_match. Qed.

Lemma lists_insert x a t A : in_use t → lists t A → lists (tree_insert x a t) (a :: A).
Proof.
  intros Hu [HA Hl]. split.
  - rewrite allocs_in_use by (by apply in_use_insert). rewrite elems_insert. by rewrite (allocs_in_use _ Hu) in HA; rewrite HA.
  - destruct t as [|p b l r]; [done|]. simpl in Hu, Hl. rewrite decide_False in Hl by done.
    rewrite (last_cons_some a b A Hl). simpl. case_match; simpl; by rewrite decide_False.
Qed.

(** No stub of [A] lies inside the [n] pages at [va]. *)
Definition stubs_apart (A : list vmm_allocation) (va n : Z) : Prop :=
  ∀ a, a ∈ A → page_count a = 0 → ¬ cuts (virtual_addr a) (va, n).

Lemma stubs_ok_apart bl A va n b : stubs_ok bl A → b ∈ bl → inside (va, n) b → stubs_apart A va n.
Proof.
  intros Hst Hb Hin a Ha Hpa Hc. apply (Hst a Ha Hpa b); [apply elem_of_app; by left|]. by eapply cuts_inside.
Qed.

Lemma stubs_ok_in bl A A' : (∀ a, a ∈ A' ↔ a ∈ A) → stubs_ok bl A → stubs_ok bl A'.
Proof.
  intros HA Hst a Ha Hpa b Hb. apply (Hst a); [by apply HA|done|]. rewrite !elem_of_app, !list_elem_of_fmap in *.
  destruct Hb as [?|(c & -> & Hc)]; [by left|right; exists c]. split; [done|by apply HA].
Qed.

(** A new allocation in the pages of a free range. *)
Lemma stubs_ok_map bl bl' A va pa n fl :
  stubs_ok bl A → 0 < n → (∃ b, b ∈ bl ∧ inside (va, n) b) → (∀ r, r ∈ bl' → ∃ b, b ∈ bl ∧ inside r b) →
  stubs_ok bl' (Allocation va pa n fl :: A).
Proof.
  intros Hst Hn (b0 & Hb0 & Hin0) Hfine a [->|Ha]%elem_of_cons Hpa b Hb; [simpl in Hpa; lia|].
  rewrite fmap_cons in Hb. apply elem_of_app in Hb as [Hb|[->|Hb]%elem_of_cons].
  - destruct (Hfine b Hb) as (c & Hc & Hi). intros Hcut. apply (Hst a Ha Hpa c); [apply elem_of_app; by left|].
    by eapply cuts_inside.
  - exact (stubs_ok_apart bl A va n b0 Hst Hb0 Hin0 a Ha Hpa).
  - apply (Hst a Ha Hpa b). apply elem_of_app. by right.
Qed.

(** Adding an allocation that overlaps no other. *)
Lemma add_allocation_ok ctx va pa n fl t s :
  store_ok s → tree_rep (vs_nodes s) (allocations ctx) 0 t → NoDup (addrs t) →
  (∃ p, t = Node p no_allocation Leaf Leaf) ∨ sorted t →
  0 <= va → va mod PAGE_SIZE = 0 → 0 < n → va + n * PAGE_SIZE < 2 ^ 32 →
  (∀ a x, a ∈ allocs t → contains a x → ¬ va <= x < va + n * PAGE_SIZE) → stubs_apart (allocs t) va n →
  can_malloc (vs_heap s) sizeof_allocation_tree →
  wp (add_allocation ctx va pa n fl)
     (λ _ s', store_ok s' ∧ vs_blocks s' = vs_blocks s ∧ room_step (vs_heap s) (vs_heap s') ∧
        nodes_frame s s' (addrs t) ∧
        ∃ t', (∀ q, q ∈ addrs t' → q ∈ addrs t ∨ vs_nodes s !! q = None) ∧ tree_rep (vs_nodes s') (allocations ctx) 0 t' ∧ NoDup (addrs t') ∧
          sorted t' ∧ ∀ A, lists t A → lists t' (Allocation va pa n fl :: A)) s.
Proof.
  intros Hok Hr Hnd Hord Hva Hal Hn Hend Hdis Hstubs Hcan. set (a := Allocation va pa n fl).
  assert (Hnew : virtual_addr a = va ∧ alloc_end a = va + n * PAGE_SIZE ∧ page_count a = n) by done.
  destruct Hord as [[p ->]|(Hne & Ht & Htal)].
  - eapply wp_mono; [by apply (add_allocation_root _ va pa n fl p no_allocation)|].
    intros [] s' (Hok' & Hb & Hrm & Hfr & Hr'). split_and!; [done..|].
    exists (Node p a Leaf Leaf). split; [by left|]. split; [exact Hr'|].
    split; [apply NoDup_singleton|]. split.
    + unfold sorted. simpl. split_and!; [lia|lia|done|unfold alloc_end; simpl; lia|].
      by intros b ->%list_elem_of_singleton.
    + intros A [HA _]. simpl in HA. apply Permutation_nil in HA as ->. unfold lists, allocs, oldest.
      by rewrite !decide_False by (destruct Hnew as (_ & _ & ->); lia).
  - eapply wp_mono.
    { apply (add_allocation_insert _ va pa n fl t); try done; [intros p b l r ->; exact Hne|intros ->; exact Hne]. }
    intros [] s' (Hok' & Hb & Hrm & Hfr & x & Hx & Hxs & Hr'). split_and!; [done..|].
    eexists. split; [|split; [exact Hr'|]].
    { intros q. rewrite addrs_insert. intros [->|?]%elem_of_cons; auto. }
    fold a.
    assert (Hbst : bst 0 (2 ^ 32 - 1) (tree_insert x a t)).
    { rewrite (allocs_in_use _ Hne) in Hdis, Hstubs. destruct Hnew as (E1 & E2 & E3).
      apply bst_insert; rewrite ?E1, ?E2, ?E3; try lia; [done| |].
      - intros b y Hb' Hy Hby. apply (Hdis b y Hb' Hby). unfold contains in Hy. lia.
      - intros b Hb' Hpb. by apply (Hstubs b Hb'). }
    split_and!; [rewrite addrs_insert; by apply NoDup_cons| |intros A; by apply lists_insert].
    split_and!; [by apply in_use_insert|done|].
    intros b. rewrite elems_insert. intros [->|Hb']%elem_of_cons; [done|by apply Htal].
Qed.

(** The range [addr, addr + n pages) was free and is not any more. *)
Definition took (bl : list (Z * Z)) (addr n : Z) (bl' : list (Z * Z)) : Prop :=
  ranges_from 0 bl' ∧
  (∀ x, addr <= x < addr + n * PAGE_SIZE → covered bl x) ∧
  (∀ x, covered bl' x ↔ covered bl x ∧ ¬ addr <= x < addr + n * PAGE_SIZE).

Definition room_steps (k : nat) (h h' : H) : Prop := ∀ j, room h (k + j) → room h' j.

(** From [s] to [s'] only nodes of [l] and [t] have changed, and those of [l'] and [t']
    are among them or new. *)
Definition touched s s' (l : list (Z * (Z * Z))) (t : tree) (l' : list (Z * (Z * Z))) (t' : tree) : Prop :=
  (∀ p b, p ∉ l.*1 → vs_blocks s !! p = Some b → vs_blocks s' !! p = Some b) ∧
  nodes_frame s s' (addrs t) ∧ grown s l l' ∧
  ∀ q, q ∈ addrs t' → q ∈ addrs t ∨ vs_nodes s !! q = None.

(** vmm_map_pages, for whatever range the search selects. *)
Lemma vmm_map_pages_inv ctx va pa n fl l t addr bl' s :
  as_inv s ctx l t → is_u32 va → paging_is_aligned va = true → paging_is_aligned pa = true →
  0 < n → 0 <= addr → addr mod PAGE_SIZE = 0 → addr + n * PAGE_SIZE < 2 ^ 32 → room (vs_heap s) 2 →
  remove_ranges mi va n (negb (Z.land fl PAGE_FLAG_USER =? 0)) l.*2 = Some (addr, bl') →
  took l.*2 addr n bl' →
  wp (vmm_map_pages mi ctx va pa n fl)
     (λ r s', r.1 = addr ∧ allocations r.2 = allocations ctx ∧
        (∃ l' t', as_inv s' r.2 l' t' ∧ l'.*2 = bl' ∧ (∀ A, lists t A → lists t' (Allocation addr pa n fl :: A)) ∧
           touched s s' l t l' t') ∧
        room_steps 2 (vs_heap s) (vs_heap s') ∧ head_kept ctx l bl' r.2) s.
Proof.
  intros [Hok Hf Hrg Htr Hnd Hord Hap Hst] Hva Hal Hpa Hn Ha0 Haa Hend Hroom Hrem (Hrg' & Hwas & Hcov).
  destruct (remove_ranges_inside _ _ _ _ _ _ _ Hn Hrg Hrem) as [Hone Hfine].
  { intros x Hx. split; [by apply Hwas|]. intros [_ Hno]%Hcov. done. }
  unfold vmm_map_pages. rewrite Hal, Hpa. simpl. apply wp_bind, wp_ret, wp_bind, wp_ret.
  assert (Hz : free_blocks ctx ≠ 0).
  { destruct l as [|[q [v c]] l]; [discriminate Hrem|]. by destruct Hf as [(-> & ? & _) _]. }
  rewrite (proj2 (Z.eqb_neq (free_blocks ctx) 0)) by done. apply wp_bind, wp_ret, wp_bind.
  pose proof (remove_free_blocks_ok mi ctx va n (negb (Z.land fl PAGE_FLAG_USER =? 0)) l s Hok Hf
    (ranges_from_ok _ _ (Z.le_refl 0) Hrg) Hva ltac:(lia)) as W.
  rewrite Hrem in W. eapply wp_mono; [apply W; by eapply room_can_malloc|].
  intros [a ctx'] s1 (Ha & Hok1 & (l' & Hf1 & Hl' & Hgr) & Hn1 & Hctx & (Hrm1 & Hbf) & Hhead). simpl in *. subst a.
  apply wp_bind. rewrite <- Hctx, <- Hn1 in Htr. eapply wp_mono.
  { apply (add_allocation_ok ctx' addr pa n fl t); try done.
    - intros a x Hin Hax Hx. by eapply Hap; [..|apply Hwas].
    - destruct Hone as (b & Hb & Hi). by eapply stubs_ok_apart.
    - eapply (room_can_malloc _ 0); [by apply Hrm1|done]. }
  intros [] s2 (Hok2 & Hb2 & Hrm2 & Hfr2 & t' & Hadd2 & Htr2 & Hnd2 & Hord2 & Hlists). apply wp_ret. simpl.
  split; [done|]. split; [done|]. split; [|split; [intros j Hj; by apply Hrm2, Hrm1|done]].
  exists l', t'. split_and!; [|done|done|].
  2:{ unfold touched, nodes_frame in *. rewrite <- Hn1, Hb2. split_and!; [exact Hbf|done|done|done]. }
  split; try done.
  - unfold ctx_free. by rewrite Hb2.
  - by rewrite Hl'.
  - by right.
  - intros a x Hin Hax. rewrite Hl', Hcov. intros [Hc Hx].
    destruct (lists_exists t) as [A HA]. apply (lists_elem _ _ _ (Hlists A HA)) in Hin.
    apply elem_of_cons in Hin as [->|Hin]; [by apply Hx|]. apply (lists_elem _ _ _ HA) in Hin. by eapply Hap.
  - rewrite Hl'. destruct (lists_exists t) as [A HA].
    eapply stubs_ok_in; [intros a; symmetry; apply (lists_elem _ _ _ (Hlists A HA))|].
    eapply stubs_ok_map; [|done..]. eapply stubs_ok_in; [|exact Hst]. intros a. by apply lists_elem.
Qed.

Lemma vmm_map_pages_took ctx va pa n fl bl A addr bl' s :
  ctx_rep s ctx bl A → is_u32 va → paging_is_aligned va = true → paging_is_aligned pa = true →
  0 < n → 0 <= addr → addr mod PAGE_SIZE = 0 → addr + n * PAGE_SIZE < 2 ^ 32 → room (vs_heap s) 2 →
  remove_ranges mi va n (negb (Z.land fl PAGE_FLAG_USER =? 0)) bl = Some (addr, bl') →
  took bl addr n bl' →
  wp (vmm_map_pages mi ctx va pa n fl)
     (λ r s', r.1 = addr ∧ ctx_rep s' r.2 bl' (Allocation addr pa n fl :: A) ∧
              room_steps 2 (vs_heap s) (vs_heap s') ∧ allocations r.2 = allocations ctx ∧
              (bl' = tl bl ∨ free_blocks r.2 = free_blocks ctx)) s.
Proof.
  intros (l & t & Hinv & <- & HA) **. eapply wp_mono.
  { by eapply vmm_map_pages_inv. }
  intros r s' (? & ? & (l' & t' & Hinv' & El' & Hlists & _) & ? & ?). split_and!; [done| |done..].
  exists l', t'. split_and!; [done..|by apply Hlists].
Qed.

Lemma took_at va n user bl :
  ranges_from 0 bl → va mod PAGE_SIZE = 0 → 0 < va → 0 < n → within bl va (va + n * PAGE_SIZE) →
  ∃ bl', remove_ranges mi va n user bl = Some (va, bl') ∧ took bl va n bl' ∧
    ∀ x y, x < y → within bl x y → y <= va ∨ va + n * PAGE_SIZE <= x → within bl' x y.
Proof.
  intros Hbl Hva Hpos Hn Hw. pose proof Hw as ([v c] & Hin & Hle & Hend).
  destruct (remove_ranges_at mi va n user Hva Hn 0 bl v c) as (bl' & Hrem & Hrg & Hcov); try done.
  exists bl'. unfold took. split_and!; try done.
  - intros x. by apply (within_covered _ _ _ _ Hw).
  - intros x y. by eapply remove_ranges_within.
Qed.

(** vmm_map_pages at a given address. *)
Lemma vmm_map_pages_ok ctx va pa n fl bl A s :
  ctx_rep s ctx bl A → paging_is_aligned va = true → paging_is_aligned pa = true →
  0 < va → 0 < n → va + n * PAGE_SIZE < 2 ^ 32 → within bl va (va + n * PAGE_SIZE) →
  room (vs_heap s) 2 →
  wp (vmm_map_pages mi ctx va pa n fl)
     (λ r s', r.1 = va ∧ ∃ bl', ctx_rep s' r.2 bl' (Allocation va pa n fl :: A) ∧
        took bl va n bl' ∧
        (∀ x y, x < y → within bl x y → y <= va ∨ va + n * PAGE_SIZE <= x → within bl' x y) ∧
        room_steps 2 (vs_heap s) (vs_heap s') ∧
        remove_ranges mi va n (negb (Z.land fl PAGE_FLAG_USER =? 0)) bl = Some (va, bl')) s.
Proof.
  intros Hrep Hal Hpa Hva Hn Hend Hw Hroom.
  assert (Hrg : ranges_from 0 bl) by (destruct Hrep as (l & t & Hinv & <- & _); apply Hinv).
  destruct (took_at va n (negb (Z.land fl PAGE_FLAG_USER =? 0)) bl Hrg) as (bl' & Hrem & Htook & Hkeep);
    [by apply paging_is_aligned_spec|done..|].
  eapply wp_mono.
  { apply (vmm_map_pages_took ctx va pa n fl bl A va bl'); try done; [by page_unfold; ulia|lia|by apply paging_is_aligned_spec]. }
  intros [a ctx'] s' (Ha & Hrep' & Hrm & _). split; [done|]. by exists bl'.
Qed.

(** vmm_find_allocation returns the allocation that contains the address. *)
Definition found (A : list vmm_allocation) (x : Z) (a : vmm_allocation) : Prop :=
  (a ∈ A ∧ contains a x) ∨ (a = no_allocation ∧ ∀ b, b ∈ A → ¬ contains b x).

Lemma found_in (A A' : list vmm_allocation) x a : (∀ b, b ∈ A ↔ b ∈ A') → found A x a → found A' x a.
Proof. intros HA [[Ha Hc]|[-> Hno]]; [left; by rewrite <- HA|right]. split; [done|]. intros b. rewrite <- HA. apply Hno. Qed.

Lemma vmm_find_allocation_ok ctx bl A x s :
  ctx_rep s ctx bl A → 0 <= x →
  wp (vmm_find_allocation ctx x) (λ a s', s' = s ∧ found A x a) s.
Proof.
  intros (l & t & [Hok Hf Hrg Htr Hnd Hord Hap _] & <- & HA) Hx. apply wp_bind, wp_get.
  assert (Hfuel : (height t < node_fuel s)%nat).
  { pose proof (tree_rep_height _ _ _ _ Hnd Htr). unfold node_fuel. lia. }
  destruct Hord as [[p ->]|(Hne & Ht & _)].
  - destruct Htr as (-> & Hp & lp & rp & Hm & -> & ->). unfold node_fuel in *. simpl.
    rewrite (proj2 (Z.eqb_neq p 0)) by done. apply wp_bind. eapply wp_load_node; [done|].
    cbn [alloc left right virtual_addr page_count no_allocation].
    change (u32 (0 + u32 (0 * PAGE_SIZE))) with 0.
    rewrite (proj2 (Z.ltb_ge x 0)), andb_false_r by done.
    simpl in Hfuel. destruct (size (vs_nodes s)); [lia|]. simpl. apply wp_ret. split; [done|].
    right. split; [done|]. intros b. rewrite (lists_elem _ _ _ HA). by intros ?%elem_of_nil.
  - eapply wp_mono; [by apply (find_allocation_loop_ok _ x t (allocations ctx) 0 0 (2 ^ 32 - 1))|].
    intros a s' [-> ->]. split; [done|]. pose proof (tree_find_spec _ _ _ x Ht) as Hspec.
    assert (HE : ∀ a, a ∈ A ↔ a ∈ elems t) by (intros a; by rewrite (lists_elem _ _ _ HA), (allocs_in_use _ Hne)).
    destruct (tree_find x t) as [a|]; [left|right]; simpl; [by rewrite HE|].
    split; [done|]. intros b. rewrite HE. apply Hspec.
Qed.

(** ** Unmapping the first pages of an allocation *)

Lemma contains_shrink n a x :
  0 <= virtual_addr a → alloc_end a < 2 ^ 32 → 0 <= n <= page_count a →
  contains (shrink n a) x ↔ contains a x ∧ virtual_addr a + n * PAGE_SIZE <= x.
Proof.
  unfold contains, alloc_end, shrink. cbn [virtual_addr page_count]. rewrite PAGE_SIZE_val.
  intros Ha He Hn.
  assert (u32 (virtual_addr a + u32 (4096 * n)) = virtual_addr a + 4096 * n) as -> by ulia.
  assert (u32 (page_count a - n) = page_count a - n) as -> by ulia. lia.
Qed.

(** What shrinking an allocation does to the tree. *)
Lemma sorted_shrink t a n A :
  sorted t → lists t (a :: A) → page_count a ≠ 0 → 0 < n <= page_count a → (n = page_count a → A ≠ []) →
  (∀ b, b ∈ A → page_count b = 0 → virtual_addr b ≠ virtual_addr a) →
  tree_start (virtual_addr a) t = Some a ∧ sorted (tree_shrink (virtual_addr a) n t) ∧
  lists (tree_shrink (virtual_addr a) n t) (shrink n a :: A) ∧ a ∉ A.
Proof.
  intros (Hu & Ht & Hal) [HA Hlast] Hpa Hn Hall Hstubs. rewrite (allocs_in_use _ Hu) in HA.
  assert (Hin : a ∈ elems t) by (rewrite HA; by left).
  destruct (bst_elem _ _ _ _ Ht Hin) as (Hlo & Hhi & _).
  assert (Hst : tree_start (virtual_addr a) t = Some a).
  { eapply (tree_start_spec _ _ t _ a); try done. intros b Hb Hpb. rewrite HA in Hb.
    apply elem_of_cons in Hb as [->|Hb]; [done|by apply Hstubs]. }
  assert (Hna : a ∉ A).
  { destruct (bst_disjoint _ _ _ Ht) as [Hnd _]. rewrite HA, filter_cons_True in Hnd by done.
    apply NoDup_cons in Hnd as [Hnd _]. intros Hin'. apply Hnd, list_elem_of_filter. done. }
  destruct (elems_shrink _ n _ _ Hst) as (rest & E1 & E2).
  assert (Er : rest ≡ₚ A) by (rewrite HA in E1; by apply Permutation_cons_inv in E1).
  assert (Hroot : in_use (tree_shrink (virtual_addr a) n t) ∧ last (shrink n a :: A) = oldest (tree_shrink (virtual_addr a) n t)).
  { destruct t as [|p r tl tr]; [done|]. simpl in Hu, Hlast, Hst |- *. rewrite decide_False in Hlast by done.
    destruct (Z.eqb_spec (virtual_addr a) (virtual_addr r)) as [Hv|Hv]; simpl.
    - injection Hst as ->. destruct A as [|b A]; [|by destruct Hna; apply last_Some_elem_of].
      assert (Hlt : n < page_count a) by (destruct (decide (n = page_count a)) as [E|]; [by destruct (Hall E)|lia]).
      assert (Hc : u32 (page_count a - n) ≠ 0).
      { unfold alloc_end in *. rewrite PAGE_SIZE_val in *. rewrite u32_small by (unfold is_u32; lia). lia. }
      by rewrite decide_False.
    - assert (Hne : A ≠ []) by (intros ->; simpl in Hlast; congruence).
      destruct (virtual_addr a <? virtual_addr r); simpl; (split; [done|]); rewrite decide_False by done;
        rewrite <- Hlast; by destruct A. }
  destruct Hroot as [Hu' Hold]. split_and!; [done| | |done].
  - split; [done|]. split; [apply (bst_shrink 0 (2 ^ 32 - 1) _ n t a); [done..|lia]|]. intros b. rewrite E2, Er.
    intros [->|Hb]%elem_of_cons; [|apply Hal; rewrite HA; by right]. specialize (Hal a Hin).
    unfold alloc_end in *. cbn [shrink virtual_addr]. rewrite PAGE_SIZE_val in *.
    rewrite !u32_small by (unfold is_u32; rewrite ?u32_small by (unfold is_u32; lia); lia).
    Z.div_mod_to_equations. lia.
  - split; [|done]. by rewrite (allocs_in_use _ Hu'), E2, Er.
Qed.

(** The pages given back are a range of their own, so what is left of the allocation, if it
    is a stub, is at the end of this range. *)
Lemma stubs_ok_unmap bl bl' a n A :
  stubs_ok bl (a :: A) → 0 <= virtual_addr a → alloc_end a < 2 ^ 32 → 0 < n <= page_count a → page_count a ≠ 0 →
  (∀ x, contains a x → ¬ covered bl x) → (∀ b x, b ∈ A → contains a x → ¬ contains b x) →
  (∀ b, b ∈ bl' → b = (virtual_addr a, n) ∨ b ∈ bl) → stubs_ok bl' (shrink n a :: A).
Proof.
  intros Hst Ha0 Hend Hn Hpc Hfree Hdis Hel.
  set (e := virtual_addr a + n * PAGE_SIZE).
  assert (Ev : virtual_addr (shrink n a) = e).
  { unfold alloc_end in Hend. unfold shrink, e. cbn [virtual_addr]. rewrite PAGE_SIZE_val in *. ulia. }
  assert (Ec : page_count (shrink n a) = page_count a - n).
  { unfold alloc_end in Hend. unfold shrink. cbn [page_count]. rewrite PAGE_SIZE_val in *. ulia. }
  assert (Hin1 : inside (virtual_addr a, n) (pages a)) by (unfold inside; simpl; page_unfold; lia).
  assert (Hin2 : inside (pages (shrink n a)) (pages a)) by (unfold inside, pages; cbn [fst snd]; rewrite Ev, Ec; unfold e; page_unfold; lia).
  intros c [->|Hc]%elem_of_cons Hpc0 b Hb; rewrite fmap_cons in Hb.
  - assert (En : n = page_count a) by lia. rewrite Ev.
    assert (Hlast : contains a (e - 1)) by (unfold contains, alloc_end, e; page_unfold; lia).
    apply elem_of_app in Hb as [[->|Hb]%Hel|[->|(x & -> & Hx)%list_elem_of_fmap]%elem_of_cons]; unfold cuts.
    + simpl. unfold e. lia.
    + intros Hcut. apply (Hfree _ Hlast). exists b. split; [done|]. unfold covers. lia.
    + unfold pages. cbn [fst]. rewrite Ev. lia.
    + intros Hcut. apply (Hdis x _ Hx Hlast). unfold contains, alloc_end. unfold pages in Hcut. simpl in Hcut. lia.
  - assert (Hold : ∀ b, b ∈ bl ++ (pages <$> a :: A) → ¬ cuts (virtual_addr c) b) by (apply Hst; [by right|done]).
    assert (Hpa : ¬ cuts (virtual_addr c) (pages a)) by (apply Hold; apply elem_of_app; right; by left).
    apply elem_of_app in Hb as [[->|Hb]%Hel|[->|Hb]%elem_of_cons].
    + intros Hcut. apply Hpa. exact (cuts_inside _ _ _ Hin1 Hcut).
    + apply Hold, elem_of_app. by left.
    + intros Hcut. apply Hpa. exact (cuts_inside _ _ _ Hin2 Hcut).
    + apply Hold, elem_of_app. right. by right.
Qed.

(** vmm_unmap_pages, for some or all pages of an allocation that is not the only one. *)
Lemma vmm_unmap_pages_inv ctx a n l t A s :
  as_inv s ctx l t → lists t (a :: A) → page_count a ≠ 0 →
  0 < n <= page_count a → (n = page_count a → A ≠ []) → n < virtual_addr a → room (vs_heap s) 1 →
  (∀ b, b ∈ A → page_count b = 0 → virtual_addr b ≠ virtual_addr a) →
  pred_same_mode mi (virtual_addr a) n l.*2 → head_not_adjacent (virtual_addr a) n l.*2 →
  wp (vmm_unmap_pages mi ctx (virtual_addr a) n)
     (λ ctx' s', (∃ l' t', as_inv s' ctx' l' t' ∧ l'.*2 = add_ranges mi (virtual_addr a) n l.*2 ∧
          lists t' (shrink n a :: A) ∧ touched s s' l t l' t') ∧
        (∀ x, covered (add_ranges mi (virtual_addr a) n l.*2) x ↔
          covered l.*2 x ∨ virtual_addr a <= x < virtual_addr a + n * PAGE_SIZE) ∧
        room_steps 1 (vs_heap s) (vs_heap s') ∧ allocations ctx' = allocations ctx ∧
        (head_below (virtual_addr a) l.*2 → ctx' = ctx)) s.
Proof.
  intros [Hok Hf Hrg Htr Hnd Hord Hap Hst0] HA Hpc Hn Hall Hnv Hroom Hstubs Hmode Hadj.
  assert (Hin : a ∈ allocs t) by (apply (lists_elem _ _ _ HA); by left).
  destruct Hord as [[p ->]|Hord]; [by apply elem_of_nil in Hin|]. pose proof Hord as (Hu & Ht & Hal).
  rewrite (allocs_in_use _ Hu) in *. destruct (bst_elem _ _ _ _ Ht Hin) as (Hlo & Hhi & _).
  assert (Hend : virtual_addr a + n * PAGE_SIZE <= alloc_end a) by (unfold alloc_end; page_unfold; lia).
  destruct (sorted_shrink t a n A Hord HA Hpc Hn Hall Hstubs) as (Hst & Hord2 & HA2 & Hna).
  destruct (add_ranges_ok mi (virtual_addr a) n) with (l := l.*2) as (Hrg' & Hcov & Hel); try done.
  { by apply Hal. } { lia. } { lia. }
  { intros x Hx. apply (Hap a); [done|]. unfold contains. lia. }
  unfold vmm_unmap_pages. rewrite (proj2 (paging_is_aligned_spec _)) by (by apply Hal). apply wp_bind, wp_ret, wp_bind.
  eapply wp_mono; [apply (add_free_blocks_ok mi ctx (virtual_addr a) n l); try done|].
  { by eapply room_can_malloc. }
  intros ctx1 s1 [[(Hok1 & (l1 & Hf1 & Hl1 & Hgr1) & Hn1 & Hrm1 & Hbf) Hal1] Hhead]. rewrite <- Hn1, <- Hal1 in Htr.
  apply wp_bind, wp_get. pose proof (tree_rep_height _ _ _ _ Hnd Htr) as Hh.
  pose proof (unmap_allocation_ok (node_fuel s1) ctx1 (virtual_addr a) n t _ 0 s1 Htr Hnd
    ltac:(unfold node_fuel; lia) Hnv) as W.
  rewrite Hst in W. eapply wp_mono; [exact W|].
  intros ctx2 s2 (-> & q & nd & Hq & Hm & -> & Htr2). split_and!; [|done|intros j Hj; by apply Hrm1|done..].
  exists l1, (tree_shrink (virtual_addr a) n t). split_and!; [|done|done|].
  - split; try done; [by eapply store_ok_node|by rewrite Hl1|by rewrite addrs_shrink|by right| |].
    2:{ eapply stubs_ok_in; [intros b; symmetry; by apply lists_elem|]. rewrite Hl1.
        apply (stubs_ok_unmap l.*2); [|lia|lia|done|done| | |exact Hel].
        - eapply stubs_ok_in; [intros b; by apply lists_elem|]. by rewrite (allocs_in_use _ Hu).
        - intros x Hx. by apply (Hap a).
        - intros b x Hb Hax Hbx. apply Hna. destruct (bst_disjoint _ _ _ Ht) as [_ Hdis].
          rewrite (Hdis a b x); try done. rewrite <- (allocs_in_use _ Hu). apply (lists_elem _ _ _ HA). by right. }
    intros b x Hb Hbx. apply (lists_elem _ _ _ HA2) in Hb. rewrite Hl1, Hcov.
    apply elem_of_cons in Hb as [->|Hb].
    + apply contains_shrink in Hbx as [Hax Hx]; [|lia..]. intros [Hc|?]; [|lia]. by eapply Hap.
    + assert (Hbt : b ∈ elems t) by (rewrite <- (allocs_in_use _ Hu); apply (lists_elem _ _ _ HA); by right).
      intros [Hc|Hx]; [by eapply Hap|]. destruct (bst_disjoint _ _ _ Ht) as [_ Hdis]. apply Hna.
      rewrite (Hdis a b x); try done. unfold contains. lia.
  - split_and!; [exact Hbf| |exact Hgr1|intros y; rewrite addrs_shrink; by left].
    intros r nr Hr Hnr. simpl. rewrite <- Hn1 in Hnr. rewrite lookup_insert_ne; [done|]. by intros ->.
Qed.

Lemma vmm_unmap_pages_ok ctx a n bl A s :
  ctx_rep s ctx bl (a :: A) → page_count a ≠ 0 →
  0 < n <= page_count a → (n = page_count a → A ≠ []) → n < virtual_addr a → room (vs_heap s) 1 →
  (∀ b, b ∈ A → page_count b = 0 → virtual_addr b ≠ virtual_addr a) →
  pred_same_mode mi (virtual_addr a) n bl → head_not_adjacent (virtual_addr a) n bl →
  wp (vmm_unmap_pages mi ctx (virtual_addr a) n)
     (λ ctx' s', ctx_rep s' ctx' (add_ranges mi (virtual_addr a) n bl) (shrink n a :: A) ∧
        ∀ x, covered (add_ranges mi (virtual_addr a) n bl) x ↔
          covered bl x ∨ virtual_addr a <= x < virtual_addr a + n * PAGE_SIZE) s.
Proof.
  intros (l & t & Hinv & <- & HA) **. eapply wp_mono; [by apply (vmm_unmap_pages_inv ctx a n l t A s Hinv HA)|].
  intros ctx' s' ((l' & t' & Hinv' & El' & HA' & _) & Hcov & _). split; [|done]. by exists l', t'.
Qed.

(** ** The kernel's address space *)

Definition entry_alloc (e : addr_space_entry) : vmm_allocation :=
  Allocation (ase_virtual_start e) (ase_physical_start e) (ase_page_count e) (ase_flags e).

(** An entry that can be mapped: aligned, not empty, in the upper part of the
    address space, and not up to its very end. *)
Definition entry_ok (e : addr_space_entry) : Prop :=
  paging_is_aligned (ase_virtual_start e) = true ∧
  paging_is_aligned (ase_physical_start e) = true ∧
  0 < ase_page_count e ∧ higher_half_base mi <= ase_virtual_start e ∧
  alloc_end (entry_alloc e) < 2 ^ 32.

Definition entries_apart (e e' : addr_space_entry) : Prop :=
  alloc_end (entry_alloc e) <= ase_virtual_start e' ∨
  alloc_end (entry_alloc e') <= ase_virtual_start e.

(** The free ranges when the entries have been mapped one after the other. *)
Fixpoint entries_taken bl (E : list addr_space_entry) : option (list (Z * Z)) :=
  match E with
  | [] => Some bl
  | e :: E =>
      match remove_ranges mi (ase_virtual_start e) (ase_page_count e) (negb (Z.land (ase_flags e) PAGE_FLAG_USER =? 0)) bl with
      | Some (_, bl') => entries_taken bl' E
      | None => None
      end
  end.

(** The free ranges of a new context with the entries [E]. *)
Definition new_context_ranges (E : list addr_space_entry) : option (list (Z * Z)) :=
  let n := higher_half_base mi / PAGE_SIZE in entries_taken [(0, n); (higher_half_base mi, 2 ^ 20 - n)] E.

Lemma map_addr_space_ok (E : list addr_space_entry) ctx bl A s :
  ctx_rep s ctx bl A → 0 < higher_half_base mi → Forall entry_ok E →
  ForallOrdPairs entries_apart E →
  Forall (λ e, within bl (ase_virtual_start e) (alloc_end (entry_alloc e))) E →
  room (vs_heap s) (2 * length E) →
  wp (map_addr_space mi ctx E)
     (λ ctx' s', ∃ bl', ctx_rep s' ctx' bl' (reverse (entry_alloc <$> E) ++ A) ∧
        (∀ x, covered bl' x ↔ covered bl x ∧ ∀ e, e ∈ E → ¬ contains (entry_alloc e) x) ∧
        entries_taken bl E = Some bl' ∧ room_steps (2 * length E) (vs_heap s) (vs_heap s')) s.
Proof.
  intros Hrep Hhh. revert ctx bl A s Hrep.
  induction E as [|e E IH]; intros ctx bl A s Hrep Hok Hap Hw Hroom; simpl.
  { apply wp_ret. exists bl. split_and!; [done|set_solver|done|by intros j]. }
  apply Forall_cons in Hok as [(H1 & H2 & H3 & H4 & H5) Hok], Hw as [Hwe Hw].
  inversion_clear Hap as [|? ? Hae Hap'].
  apply wp_bind. eapply wp_mono.
  { apply (vmm_map_pages_ok ctx _ _ _ (ase_flags e) bl A); try done; [lia|].
    eapply room_le; [|done]. simpl. lia. }
  intros [a ctx'] s' (_ & bl' & Hrep' & (_ & _ & Hcov) & Hkeep & Hrm & Hrem). eapply wp_mono.
  { apply (IH ctx' bl' (entry_alloc e :: A)); try done.
    - rewrite Forall_forall in *. intros e' He'. apply Hkeep; [|by apply Hw|].
      + destruct (Hok e' He') as (_ & _ & ?%(alloc_end_ge (entry_alloc e')) & _). page_unfold. simpl in *. lia.
      + destruct (Hae e' He'); [by right|by left].
    - apply Hrm. eapply room_le; [|done]. simpl. lia. }
  intros ctx2 s2 (bl2 & Hrep2 & Hcov2 & Etaken & Hrm2). exists bl2. split_and!.
  - by rewrite reverse_cons, <- app_assoc.
  - intros x. rewrite Hcov2, Hcov. split.
    + intros [[Hc Hx] Hall]. split; [done|]. intros e' [->|He']%elem_of_cons; [done|by apply Hall].
    + intros [Hc Hall]. split; [split; [done|]|]; [apply (Hall e); by left|].
      intros e' He'. apply Hall. by right.
  - by rewrite Hrem.
  - intros j Hj. apply Hrm2, Hrm. eapply room_le; [|exact Hj]. simpl. lia.
Qed.

(** A new context without allocations: two free ranges, one for each half. *)
Lemma new_context_free s :
  store_ok s → 0 < higher_half_base mi < 2 ^ 32 → paging_is_aligned (higher_half_base mi) = true →
  room (vs_heap s) 3 →
  wp (ctx ← create_empty_ctx;
      ctx ← add_free_blocks mi ctx 0 (higher_half_base mi / PAGE_SIZE);
      add_free_blocks mi ctx (higher_half_base mi) (2 ^ 20 - higher_half_base mi / PAGE_SIZE))
     (λ ctx s', ctx_rep s' ctx [(0, higher_half_base mi / PAGE_SIZE);
        (higher_half_base mi, 2 ^ 20 - higher_half_base mi / PAGE_SIZE)] [] ∧
        room_steps 3 (vs_heap s) (vs_heap s')) s.
Proof.
  intros Hok Hhh [k Hk]%paging_is_aligned_mult Hroom. rewrite Hk. rewrite Z.div_mul by done.
  rewrite Hk, PAGE_SIZE_val in Hhh.
  apply wp_bind, wp_bind, wp_new_node; [done|by eapply room_can_malloc|].
  intros p h Hp _ Hfn s1 Hok1 Hrm1. apply wp_ret, wp_bind.
  eapply wp_mono; [apply (add_free_blocks_ok mi _ 0 k []); [done|by split; [|constructor]|]|].
  { by eapply room_can_malloc; [apply Hrm1|]. }
  intros ctx1 s2 [[(Hok2 & (l1 & Hf1 & Hl1 & Hgr1) & Hn2 & Hrm2 & _) Hal1] _].
  eapply wp_mono; [apply (add_free_blocks_ok mi ctx1 (k * PAGE_SIZE) (2 ^ 20 - k) l1); [done..|]|].
  { by eapply room_can_malloc; [apply Hrm2, Hrm1|]. }
  intros ctx2 s3 [[(Hok3 & (l2 & Hf2 & Hl2 & _) & Hn3 & Hrm3 & _) Hal2] _].
  split; [|intros j Hj; by apply Hrm3, Hrm2, Hrm1].
  assert (Hl2' : l2.*2 = [(0, k); (k * PAGE_SIZE, 2 ^ 20 - k)]).
  { rewrite Hl2, Hl1. cbn [add_ranges fmap list_fmap]. rewrite (proj2 (Z.ltb_lt 0 _)) by (page_unfold; lia).
    cbn [add_ranges_after]. rewrite merge_or_insert_same; [done|].
    unfold is_addr_in_user_range. rewrite Hk. page_unfold.
    rewrite (proj2 (Z.ltb_ge _ _)), (proj2 (Z.ltb_ge _ _)) by ulia. done. }
  exists l2, (Node p no_allocation Leaf Leaf). split_and!; [|done|done]. split; try done.
  - rewrite Hl2'. simpl. page_unfold. split_and!; try lia; [done|by apply Z.mod_mul].
  - rewrite Hal2, Hal1, Hn3, Hn2. simpl. split_and!; [done|lia|]. exists 0, 0. by rewrite lookup_insert_eq.
  - apply NoDup_singleton.
  - left. by exists p.
  - intros a x Ha. by apply elem_of_nil in Ha.
  - intros a Ha. by apply elem_of_nil in Ha.
Qed.

Lemma vmm_new_context_ok (E : list addr_space_entry) s :
  store_ok s → 0 < higher_half_base mi < 2 ^ 32 → paging_is_aligned (higher_half_base mi) = true →
  Forall entry_ok E → ForallOrdPairs entries_apart E → room (vs_heap s) (3 + 2 * length E) →
  wp (vmm_new_context mi E)
     (λ ctx s', ∃ bl, ctx_rep s' ctx bl (reverse (entry_alloc <$> E)) ∧
        (∀ x, covered bl x ↔ 0 <= x < 2 ^ 32 ∧ ∀ e, e ∈ E → ¬ contains (entry_alloc e) x) ∧
        new_context_ranges E = Some bl ∧ room_steps (3 + 2 * length E) (vs_heap s) (vs_heap s')) s.
Proof.
  intros Hok Hhh Hal HE Hap Hroom.
  pose proof (new_context_free s Hok Hhh Hal ltac:(eapply room_le; [|done]; lia)) as W.
  pose proof Hal as [k Hk]%paging_is_aligned_mult.
  assert (Hn1 : u32 (higher_half_base mi / PAGE_SIZE) = higher_half_base mi / PAGE_SIZE)
    by (page_unfold; ulia).
  assert (Hn2 : u32 (u64 (u64 (Z.shiftl 1 32) / PAGE_SIZE - higher_half_base mi / PAGE_SIZE)) =
    2 ^ 20 - higher_half_base mi / PAGE_SIZE).
  { change (u64 (Z.shiftl 1 32) / PAGE_SIZE) with (2 ^ 20). page_unfold. ulia. }
  unfold vmm_new_context. rewrite Hn1, Hn2. clear Hn1 Hn2.
  apply wp_bind. eapply wp_mono; [exact (wp_bind_inv _ _ _ _ W)|].
  clear W. intros ctx0 s0 W. apply wp_bind. eapply wp_mono; [exact (wp_bind_inv _ _ _ _ W)|].
  clear W. intros ctx1 s1 W. apply wp_bind. eapply wp_mono; [exact W|].
  clear W. intros ctx s' [Hrep Hrm]. eapply wp_mono.
  { apply (map_addr_space_ok E ctx _ [] s' Hrep); try done; [lia| |by apply Hrm].
    eapply Forall_impl; [exact HE|]. intros e (_ & _ & _ & Hlo & Hend).
    eexists. split; [right; left|]. simpl. rewrite Hk in *. rewrite PAGE_SIZE_val in *.
    rewrite Z.div_mul by done. lia. }
  intros ctx' s2 (bl & Hrep2 & Hcov & Etaken & Hrm2). exists bl. rewrite app_nil_r in Hrep2.
  split_and!; [done| |exact Etaken|intros j Hj; apply Hrm2, Hrm; eapply room_le; [|exact Hj]; lia].
  intros x. rewrite Hcov, !covered_cons, covered_nil. unfold covers. simpl.
  rewrite Hk in *. rewrite PAGE_SIZE_val in *. rewrite Z.div_mul by done.
  assert (0 <= x < 0 + k * 4096 ∨ k * 4096 <= x < k * 4096 + (2 ^ 20 - k) * 4096 ∨ False ↔
    0 <= x < 2 ^ 32) as -> by lia. done.
Qed.

End Space.

(** ** Address spaces in a shared heap *)

Section Reserved.
Context {H : Type} `{Allocator H}.
Implicit Types s : vmm_store H.

Lemma ctx_rep_store (I1 I2 : Allocator H) s ctx bl A :
  (@store_ok H I1 s → @store_ok H I2 s) → @ctx_rep H I1 s ctx bl A → @ctx_rep H I2 s ctx bl A.
Proof.
  intros Hs (l & t & [Hok Hf Hrg Htr Hnd Hord Hap Hst] & Hl & HA). exists l, t. split; [|done].
  split; [by apply Hs|done..].
Qed.

(** Blocks that others own do not matter to the address space. *)
Lemma ctx_rep_unreserved kept s ctx bl A : @ctx_rep H (reserving kept) s ctx bl A → ctx_rep s ctx bl A.
Proof.
  apply ctx_rep_store. intros (L & [Hd Ho] & Hb & Hn). exists (L ∪ kept). split_and!; [exact Ho|..];
    intros p Hp; apply lookup_union_Some_l; auto.
Qed.

Lemma ctx_rep_reserve_none s ctx bl A : ctx_rep s ctx bl A → @ctx_rep H (reserving ∅) s ctx bl A.
Proof.
  apply ctx_rep_store. intros (L & Ho & Hb & Hn). exists L. split_and!; [|done..]. split; [apply map_disjoint_empty_r|].
  by rewrite map_union_empty.
Qed.

(** The blocks that others own are in the heap. *)
Lemma ctx_rep_owns kept s ctx bl A :
  @ctx_rep H (reserving kept) s ctx bl A → ∃ L, owns (vs_heap s) L ∧ kept ⊆ L.
Proof.
  intros (l & t & [(L & [Hd Ho] & _) _ _ _ _ _ _ _] & _). exists (L ∪ kept). split; [exact Ho|].
  by apply map_union_subseteq_r.
Qed.

End Reserved.
