(* ===== verification/Spaces.v ===== *)
(** * Several address spaces in one heap

    The contexts of the kernel and of the user tasks have their free lists and trees in
    the same heap.  [spaces s S] says that the contexts of the list [S] are all well formed
    and share no node; an operation on one of them leaves the others as they were. *)

From S2P Require Import Prelude Allocator Kmalloc PageArith Vmm VmmRules VmmRanges VmmFree VmmTree VmmSpace.

(** A context, its free ranges and its allocations, the oldest last. *)
Record space : Type := Space {
  sc_ctx : vmm_context;
  sc_free : list (Z * Z);
  sc_allocs : list vmm_allocation
}.

(** The nodes of a context: those of its free list, and its tree. *)
Notation footprint := (list (Z * (Z * Z)) * tree)%type.

Section Spaces.
Context {H : Type} `{Allocator H}.
Implicit Types (s : vmm_store H) (sp : space) (S : list space) (r : footprint) (R : list footprint).

Definition holds s sp r : Prop :=
  as_inv s (sc_ctx sp) r.1 r.2 ∧ r.1.*2 = sc_free sp ∧ lists r.2 (sc_allocs sp).

(** Without common nodes. *)
Definition apart r1 r2 : Prop :=
  (∀ p, p ∈ r1.1.*1 → p ∉ r2.1.*1) ∧ (∀ q, q ∈ addrs r1.2 → q ∉ addrs r2.2).

Definition spaces s S : Prop := ∃ R, Forall2 (holds s) S R ∧ ForallOrdPairs apart R.

Lemma apart_sym r1 r2 : apart r1 r2 → apart r2 r1.
Proof. intros [Hl Ht]. split; [intros p H1 H2; by apply (Hl p)|intros q H1 H2; by apply (Ht q)]. Qed.

Lemma spaces_one s ctx bl A : spaces s [Space ctx bl A] ↔ ctx_rep s ctx bl A.
Proof.
  split.
  - intros (R & HR & _). inversion HR as [|? [l t] ? ? (Hi & Hl & Ht) _]; subst. by exists l, t.
  - intros (l & t & Hi & Hl & Ht). exists [(l, t)]. split; [|repeat constructor]. by constructor.
Qed.

(** The first context with its nodes, and the others. *)
Lemma spaces_cons s sp S :
  spaces s (sp :: S) ↔ ∃ r R, holds s sp r ∧ Forall2 (holds s) S R ∧ Forall (apart r) R ∧ ForallOrdPairs apart R.
Proof.
  split.
  - intros (R & HR & Hap). inversion HR; subst. inversion Hap; subst. eauto 6.
  - intros (r & R & Hr & HR & Hap & HapR). exists (r :: R). by split; constructor.
Qed.

Lemma spaces_head s ctx bl A S : spaces s (Space ctx bl A :: S) → ctx_rep s ctx bl A.
Proof. intros (r & R & Hr & _)%spaces_cons. destruct r as [l t]. by exists l, t. Qed.

Lemma apart_perm R R' : R ≡ₚ R' → ForallOrdPairs apart R → ForallOrdPairs apart R'.
Proof.
  induction 1 as [|r R R' Hp IH|r1 r2 R|R1 R2 R3 _ IH1 _ IH2]; intros Hap; [done| | |by apply IH2, IH1].
  - inversion Hap; subst. constructor; [by rewrite <- Hp|by apply IH].
  - inversion Hap as [|? ? H1 Hap']; subst. inversion Hap'; subst. apply Forall_cons in H1 as [H1 ?].
    constructor; [constructor; [by apply apart_sym|done]|by constructor].
Qed.

Lemma spaces_perm s S S' : S ≡ₚ S' → spaces s S → spaces s S'.
Proof.
  intros Hp (R & HR & Hap). destruct (Permutation_Forall2 Hp HR) as (R' & Hp' & HR').
  exists R'. split; [done|]. by eapply apart_perm.
Qed.

#[global] Instance spaces_proper s : Proper ((≡ₚ) ==> iff) (spaces s).
Proof. intros S S' Hp. split; apply spaces_perm; [done|by symmetry]. Qed.

(** What a change of the nodes of [r] leaves of another context. *)
Lemma holds_kept s s' r r' sp2 r2 :
  holds s sp2 r2 → store_ok s' → touched s s' r.1 r.2 r'.1 r'.2 → apart r r2 → holds s' sp2 r2 ∧ apart r' r2.
Proof.
  intros ([Hok [Hs Hnd] Hrg Htr Hndt Hord Hap Hst] & Hl & Ht2) Hok' (Hb & Hn & Hg & Ht) [Hdl Hdt].
  split; [split; [split; try done|done]|split].
  - split; [|done]. eapply fb_seg_frame; [|exact Hs]. intros a Ha.
    destruct (fb_seg_some _ _ _ _ _ Hs Ha) as [b Hab]. rewrite Hab. apply Hb; [|done].
    intros Hin. by apply (Hdl a).
  - eapply tree_rep_frame; [|exact Htr]. intros q Hq.
    destruct (tree_rep_some _ _ _ _ _ Htr Hq) as [nd Hnd']. rewrite Hnd'. apply Hn; [|done].
    intros Hin. by apply (Hdt q).
  - intros p Hp Hp2. destruct (Hg p Hp) as [?|Hnone]; [by apply (Hdl p)|].
    destruct (fb_seg_some _ _ _ _ _ Hs Hp2). congruence.
  - intros q Hq Hq2. destruct (Ht q Hq) as [?|Hnone]; [by apply (Hdt q)|].
    destruct (tree_rep_some _ _ _ _ _ Htr Hq2). congruence.
Qed.

Lemma others_kept_holds s s' r r' S R :
  Forall2 (holds s) S R → Forall (apart r) R → store_ok s' → touched s s' r.1 r.2 r'.1 r'.2 →
  Forall2 (holds s') S R ∧ Forall (apart r') R.
Proof.
  intros HR. induction HR as [|sp r2 S R Hsp _ IH]; intros Hap Hok' Ht; [by split; constructor|].
  apply Forall_cons in Hap as [Hap1 Hap]. destruct (IH Hap Hok' Ht) as [H1 H2].
  destruct (holds_kept s s' r r' sp r2 Hsp Hok' Ht Hap1). by split; constructor.
Qed.

(** An operation on the first context. *)
Lemma spaces_step s s' sp' S r r' R :
  Forall2 (holds s) S R → Forall (apart r) R → ForallOrdPairs apart R →
  holds s' sp' r' → touched s s' r.1 r.2 r'.1 r'.2 → spaces s' (sp' :: S).
Proof.
  intros HR Hap HapR Hr' Ht. destruct (others_kept_holds s s' r r' S R HR Hap) as [HR' Hap']; [apply Hr'|done|].
  apply spaces_cons. by exists r', R.
Qed.

(** A new context next to the others. *)
Lemma spaces_new s s' sp' S r' :
  spaces s S → holds s' sp' r' → touched s s' [] Leaf r'.1 r'.2 → spaces s' (sp' :: S).
Proof.
  intros (R & HR & HapR) Hr' Ht. apply (spaces_step s s' sp' S ([], Leaf) r' R); try done.
  apply Forall_forall. intros r _. by split; intros ? ?%elem_of_nil.
Qed.

End Spaces.

(** ** Operations on one of the contexts *)

Section Operations.
Context {H : Type} `{Allocator H} (mi : kernel_meminfo).
Implicit Types (s : vmm_store H) (S : list space).

(** Mapping pages in the first context. *)
Lemma spaces_map ctx va pa n fl bl A addr bl' S s :
  spaces s (Space ctx bl A :: S) → is_u32 va → paging_is_aligned va = true → paging_is_aligned pa = true →
  0 < n → 0 <= addr → addr mod PAGE_SIZE = 0 → addr + n * PAGE_SIZE < 2 ^ 32 → room (vs_heap s) 2 →
  remove_ranges mi va n (negb (Z.land fl PAGE_FLAG_USER =? 0)) bl = Some (addr, bl') →
  took bl addr n bl' →
  wp (vmm_map_pages mi ctx va pa n fl)
     (λ r s', r.1 = addr ∧ spaces s' (Space r.2 bl' (Allocation addr pa n fl :: A) :: S) ∧
        room_steps 2 (vs_heap s) (vs_heap s') ∧ allocations r.2 = allocations ctx ∧
        (bl' = tl bl ∨ free_blocks r.2 = free_blocks ctx)) s.
Proof.
  intros ([l t] & R & (Hinv & Hl & HA) & HR & Hap & HapR)%spaces_cons Hva Hal Hpa Hn Ha Haa Hend Hroom Hrem Htook.
  simpl in *. subst bl. eapply wp_mono.
  { by eapply (vmm_map_pages_inv mi ctx va pa n fl l t addr bl'). }
  intros r s' (? & ? & (l' & t' & Hinv' & El' & Hlists & Htou) & ? & ?). split_and!; [done| |done..].
  apply (spaces_step s s' _ S (l, t) (l', t') R); try done. split_and!; [done..|by apply Hlists].
Qed.

(** Mapping pages at a free address of the first context. *)
Lemma spaces_map_at ctx va pa n fl bl A S s :
  spaces s (Space ctx bl A :: S) → paging_is_aligned va = true → paging_is_aligned pa = true →
  0 < va → 0 < n → va + n * PAGE_SIZE < 2 ^ 32 → within bl va (va + n * PAGE_SIZE) →
  room (vs_heap s) 2 →
  wp (vmm_map_pages mi ctx va pa n fl)
     (λ r s', r.1 = va ∧ allocations r.2 = allocations ctx ∧
        (∃ bl', spaces s' (Space r.2 bl' (Allocation va pa n fl :: A) :: S) ∧
           remove_ranges mi va n (negb (Z.land fl PAGE_FLAG_USER =? 0)) bl = Some (va, bl') ∧ took bl va n bl' ∧
           (bl' = tl bl ∨ free_blocks r.2 = free_blocks ctx) ∧
           ∀ x y, x < y → within bl x y → y <= va ∨ va + n * PAGE_SIZE <= x → within bl' x y) ∧
        room_steps 2 (vs_heap s) (vs_heap s')) s.
Proof.
  intros Hsp Hal Hpa Hva Hn Hend Hw Hroom.
  assert (Hrg : ranges_from 0 bl) by (destruct (spaces_head _ _ _ _ _ Hsp) as (l & t & Hinv & <- & _); apply Hinv).
  destruct (took_at mi va n (negb (Z.land fl PAGE_FLAG_USER =? 0)) bl Hrg)
    as (bl' & Hrem & Htook & Hkeep); [by apply paging_is_aligned_spec|done..|].
  eapply wp_mono.
  { apply (spaces_map ctx va pa n fl bl A va bl' S s); try done; [by page_unfold; ulia|lia|by apply paging_is_aligned_spec]. }
  intros r s' (? & ? & ? & ? & ?). split_and!; [done..| |done]. by exists bl'.
Qed.

(** Unmapping pages of an allocation of the first context, even all of them. *)
Lemma spaces_unmap ctx a n bl A S s :
  spaces s (Space ctx bl (a :: A) :: S) → page_count a ≠ 0 →
  0 < n <= page_count a → (n = page_count a → A ≠ []) → n < virtual_addr a → room (vs_heap s) 1 →
  (∀ b, b ∈ A → page_count b = 0 → virtual_addr b ≠ virtual_addr a) →
  pred_same_mode mi (virtual_addr a) n bl → head_not_adjacent (virtual_addr a) n bl →
  wp (vmm_unmap_pages mi ctx (virtual_addr a) n)
     (λ ctx' s', spaces s' (Space ctx' (add_ranges mi (virtual_addr a) n bl) (shrink n a :: A) :: S) ∧
        room_steps 1 (vs_heap s) (vs_heap s') ∧ allocations ctx' = allocations ctx ∧
        (head_below (virtual_addr a) bl → ctx' = ctx)) s.
Proof.
  intros ([l t] & R & (Hinv & Hl & HA) & HR & Hap & HapR)%spaces_cons **. simpl in *. subst bl.
  eapply wp_mono; [by apply (vmm_unmap_pages_inv mi ctx a n l t A s Hinv HA)|].
  intros ctx' s' ((l' & t' & Hinv' & El' & HA' & Htou) & _ & Hrm & Hroot & Hhead). split_and!; [|done..].
  by apply (spaces_step s s' _ S (l, t) (l', t') R).
Qed.

End Operations.

(** ** Pages that are taken and given back *)

Section Lending.
Context (mi : kernel_meminfo) (Hhr : is_u32 (higher_half_base mi)).
Context (va n : Z) (Hn : 0 < n) (Huser : va + n * PAGE_SIZE < higher_half_base mi).
Implicit Types bl : list (Z * Z).

(** The same pages are free, in at most one more piece. *)
Definition same_free bl bl2 : Prop :=
  (∀ x, covered bl2 x ↔ covered bl x) ∧ within bl2 va (va + n * PAGE_SIZE) ∧
  (∀ x y, x < y → within bl x y → y <= va ∨ va + n * PAGE_SIZE <= x → within bl2 x y) ∧
  ∀ z, head_below z bl → head_below z bl2.

(** The free ranges after the pages were taken and given back. *)
Definition reload bl : list (Z * Z) :=
  match remove_ranges mi va n true bl with Some (_, bl') => add_ranges mi va n bl' | None => bl end.

(** The pages at [va] were taken from [bl] and can be given back. *)
Record lent bl bl' : Prop := {
  ln_reload : add_ranges mi va n bl' = reload bl;
  ln_below : head_below va bl';
  ln_head : bl' ≠ tl bl;
  ln_mode : pred_same_mode mi va n bl';
  ln_apart : head_not_adjacent va n bl';
  ln_back : same_free bl (reload bl)
}.

(** The last range that starts below [va]. *)
Lemma split_below lo bl :
  ranges_from lo bl → head_below va bl →
  ∃ m w d l, bl = m ++ (w, d) :: l ∧ Forall (λ b, b.1 < va) (m ++ [(w, d)]) ∧ ∀ b l', l = b :: l' → va <= b.1.
Proof.
  revert lo. induction bl as [|[v c] bl IH]; intros lo Hrg Hb; [done|]. simpl in Hb. destruct Hrg as (_ & _ & _ & Hrg).
  destruct bl as [|[x e] bl]; [exists [], v, c, []; split_and!; [done|by apply Forall_singleton|done]|].
  destruct (decide (x < va)) as [Hx|Hx].
  - destruct (IH _ Hrg Hx) as (m & w & d & l & -> & Hm & Hl). exists ((v, c) :: m), w, d, l.
    split_and!; [done|by constructor|done].
  - exists [], v, c, ((x, e) :: bl). split_and!; [done|by apply Forall_singleton|]. intros b l' [= <- <-]. simpl. lia.
Qed.

(** A range that starts below [va] keeps its start when pages from [va] on are taken. *)
Lemma took_head bl bl' :
  ranges_from 0 bl → took bl va n bl' → head_below va bl → ∃ v c c' l l', bl = (v, c) :: l ∧ 0 < c ∧ bl' = (v, c') :: l'.
Proof.
  intros Hrg (Hrg' & _ & Hcov) Hb. destruct bl as [|[v c] l]; [done|]. simpl in Hb. pose proof Hrg as (_ & Hc & _).
  assert (Hv : covered bl' v).
  { apply Hcov. split; [|lia]. apply covered_cons. left. unfold covers. simpl. page_unfold. lia. }
  destruct bl' as [|[v' c'] l']; [by apply covered_nil in Hv|]. pose proof Hrg' as (_ & Hc' & Hal' & Hl').
  assert (v' <= v) by (eapply (ranges_from_covered v' ((v', c') :: l')); [by split_and!|exact Hv]).
  assert (Hv' : covered ((v', c') :: l') v') by (apply covered_cons; left; unfold covers; simpl; page_unfold; lia).
  apply Hcov in Hv' as [Hv' _]. destruct Hrg as (_ & _ & Hal & Hl).
  assert (v <= v') by (eapply (ranges_from_covered v ((v, c) :: l)); [by split_and!|exact Hv']).
  assert (v' = v) as -> by lia. by exists v, c, c', l, l'.
Qed.

(** What lies below the pages is in user space too. *)
Lemma user_below bl w d :
  ranges_from 0 bl → (∀ x, va <= x < va + n * PAGE_SIZE → ¬ covered bl x) → (w, d) ∈ bl → w < va →
  is_addr_in_user_range mi w d = is_addr_in_user_range mi va n.
Proof.
  intros Hrg Hdis Hin Hw. destruct (ranges_from_elem _ _ _ _ Hrg Hin) as (Hw0 & Hd & _).
  assert (Hend : w + d * PAGE_SIZE <= va).
  { apply Z.nlt_ge. intros Hlt. apply (Hdis va); [page_unfold; lia|]. exists (w, d). split; [done|].
    unfold covers. simpl. lia. }
  unfold is_addr_in_user_range, is_u32 in *. rewrite !u64_small by (page_unfold; ulia).
  rewrite (proj2 (Z.ltb_lt (va + _) _)) by lia. apply Z.ltb_lt. page_unfold. lia.
Qed.

Lemma add_ranges_below bl :
  ranges_from 0 bl → (∀ x, va <= x < va + n * PAGE_SIZE → ¬ covered bl x) → head_below va bl →
  add_ranges mi va n bl ≡ₚ (va, n) :: bl ∧ ∀ z, head_below z bl → head_below z (add_ranges mi va n bl).
Proof.
  intros Hrg Hdis Hb. destruct (split_below 0 bl Hrg Hb) as (m & w & d & l & -> & Hm & Hl).
  assert (Hw : w < va) by (apply Forall_app, proj2, Forall_inv in Hm; exact Hm).
  rewrite add_ranges_app by done.
  rewrite merge_or_insert_same by (eapply user_below; [exact Hrg|exact Hdis|apply elem_of_app; right; by left|exact Hw]).
  split; [|by destruct m]. rewrite (Permutation_middle m ((w, d) :: l)), <- !Permutation_middle. apply perm_swap.
Qed.

Lemma took_lent bl bl' :
  ranges_from 0 bl → remove_ranges mi va n true bl = Some (va, bl') → took bl va n bl' → head_below va bl →
  (∀ x y, x < y → within bl x y → y <= va ∨ va + n * PAGE_SIZE <= x → within bl' x y) → lent bl bl'.
Proof.
  intros Hrg Hrem Htook Hb Hkeep. assert (Erel : add_ranges mi va n bl' = reload bl) by (unfold reload; by rewrite Hrem).
  destruct (took_head bl bl' Hrg Htook Hb) as (v & c & c' & l & l' & -> & Hc & ->).
  destruct Htook as (Hrg' & Hwas & Hcov). simpl in Hb.
  assert (Hdis : ∀ x, va <= x < va + n * PAGE_SIZE → ¬ covered ((v, c') :: l') x) by (intros x Hx [_ Hno]%Hcov; done).
  destruct (add_ranges_below _ Hrg' Hdis Hb) as [Hperm Hhead].
  split; [done|done| | |intros v' c2 l2 [= <- <- <-]; page_unfold; lia|].
  - simpl. intros <-. destruct Hrg as (_ & _ & _ & Hl). simpl in Hl. page_unfold. lia.
  - intros w d Hin Hw _. exact (user_below _ w d Hrg' Hdis Hin Hw).
  - rewrite <- Erel. assert (Hin : ∀ b, b ∈ add_ranges mi va n ((v, c') :: l') ↔ b = (va, n) ∨ b ∈ (v, c') :: l')
      by (intros b; by rewrite Hperm, elem_of_cons).
    split_and!.
    + intros x. split.
      * intros (b & [->|Hb']%Hin & Hx); [by apply Hwas|]. apply (Hcov x). by exists b.
      * intros Hx. destruct (decide (va <= x < va + n * PAGE_SIZE)) as [Hr|Hr].
        -- exists (va, n). split; [apply Hin; by left|done].
        -- destruct (proj2 (Hcov x) (conj Hx Hr)) as (b & Hb' & ?). exists b. split; [apply Hin; by right|done].
    + exists (va, n). split; [apply Hin; by left|done].
    + intros x y Hxy Hw Hd. destruct (Hkeep x y Hxy Hw Hd) as (b & Hb' & ?). exists b. split; [apply Hin; by right|done].
    + intros z Hz. by apply Hhead.
Qed.

End Lending.

(** Blocks of the heap that others own do not matter. *)
Section Reserved.
Context {H : Type} `{Allocator H}.
Implicit Types s : vmm_store H.

(** The heap may be another one, if the lists and trees are the same. *)
Lemma spaces_store (I1 I2 : Allocator H) s s' S :
  vs_blocks s' = vs_blocks s → vs_nodes s' = vs_nodes s → (@store_ok H I1 s → @store_ok H I2 s') →
  @spaces H I1 s S → @spaces H I2 s' S.
Proof.
  intros Hb Hn Hs (R & HR & Hap). exists R. split; [|done]. eapply Forall2_impl; [exact HR|].
  intros sp r ([Hok [Hf Hfd] Hrg Htr Hnd Hord Hdis Hst] & Hl & HA). split; [|done]. split; [by apply Hs| |done| |done..].
  - split; [|done]. eapply fb_seg_frame; [|exact Hf]. by rewrite Hb.
  - eapply tree_rep_frame; [|exact Htr]. by rewrite Hn.
Qed.

Lemma spaces_unreserved kept s S : @spaces H (reserving kept) s S → spaces s S.
Proof.
  apply spaces_store; [done..|]. intros (L & [Hd Ho] & Hb & Hn). exists (L ∪ kept). split_and!; [exact Ho|..];
    intros p Hp; apply lookup_union_Some_l; auto.
Qed.

Lemma spaces_reserve_none s S : spaces s S → @spaces H (reserving ∅) s S.
Proof.
  apply spaces_store; [done..|]. intros (L & Ho & Hb & Hn). exists L. split_and!; [|done..]. split; [apply map_disjoint_empty_r|].
  by rewrite map_union_empty.
Qed.

Lemma spaces_owns kept s sp S :
  @spaces H (reserving kept) s (sp :: S) → ∃ L, owns (vs_heap s) L ∧ kept ⊆ L.
Proof.
  intros (R & HR & _). inversion HR as [|? r ? ? [[(L & [Hd Ho] & _) _ _ _ _ _ _ _] _] _]; subst.
  exists (L ∪ kept). split; [exact Ho|by apply map_union_subseteq_r].
Qed.

(** A new block for others. *)
Lemma spaces_reserve kept n j s sp S :
  @spaces H (reserving kept) s (sp :: S) → room (vs_heap s) (1 + j) → 0 <= n <= small →
  wp (malloc n)
     (λ p h, p ≠ 0 ∧ kept !! p = None ∧ room h j ∧
        @spaces H (reserving (<[p := n]> kept)) (VmmStore h (vs_blocks s) (vs_nodes s)) (sp :: S)) (vs_heap s).
Proof.
  intros Hsp Hroom Hn. destruct (spaces_owns _ _ _ _ Hsp) as (L0 & Ho0 & Hk0).
  assert (Hn' : 0 <= n < 2 ^ 32 - 8) by (unfold small in Hn; lia).
  destruct (proj1 (wp_ok _ _ _) (room_malloc _ _ _ Hroom Hn)) as (p & h & E & Hp & Hrm). eapply wp_of_ok; [exact E|].
  assert (Hnew : ∀ L, owns (vs_heap s) L → L !! p = None ∧ owns h (<[p := n]> L)).
  { intros L Ho. pose proof (malloc_spec _ _ n Ho Hn') as W. unfold wp in W. rewrite E in W.
    by destruct W as [[? _]|(_ & ? & ? & _)]. }
  assert (Hkp : kept !! p = None).
  { destruct (kept !! p) as [m|] eqn:Ek; [|done]. apply (lookup_weaken _ L0) in Ek; [|done]. by rewrite (proj1 (Hnew _ Ho0)) in Ek. }
  split_and!; [done..|]. revert Hsp. apply spaces_store; [done..|].
  intros (L & [Hd Ho] & Hb & Hnd). destruct (Hnew _ Ho) as [Hno Ho']. apply lookup_union_None in Hno as [HLp _].
  exists L. split_and!; [|exact Hb|exact Hnd]. split; [by apply map_disjoint_insert_r|].
  rewrite <- insert_union_r by done. exact Ho'.
Qed.

End Reserved.
