(* ===== verification/VmmProps.v ===== *)
(** * What the virtual memory manager guarantees, and where it does not

    The theorems about mm/vmm.c that a client of an address space relies on, each
    with an instance on the address space the kernel builds at boot, and the
    cases in which the code departs from them. *)

From S2P Require Import Prelude Allocator Kmalloc PageArith Vmm VmmRules VmmRanges VmmFree VmmTree VmmSpace.

Section Props.
Context {H : Type} `{Allocator H} (mi : kernel_meminfo).
Implicit Types s : vmm_store H.

(** C19: vmm_init succeeds when the sections of the kernel, the heap and the
    frame buffer page are aligned, not empty and do not overlap: it neither
    panics nor runs out of memory, and afterwards vmm_find_allocation returns,
    for every address, the entry of the address space that contains it, or the
    empty allocation when there is none; all the rest of the 4 GB is free. *)
Theorem vmm_init_maps_kernel heap_virt heap_phys heap_size framebuffer s :
  let E := vmm_init_addr_space mi heap_virt heap_phys heap_size framebuffer in
  store_ok s → 0 < higher_half_base mi < 2 ^ 32 →
  paging_is_aligned (higher_half_base mi) = true →
  Forall (entry_ok mi) E → ForallOrdPairs entries_apart E → room (vs_heap s) 15 →
  wp (vmm_init mi heap_virt heap_phys heap_size framebuffer)
     (λ r s', r.1 = E ∧
        (∀ x, 0 <= x → wp (vmm_find_allocation r.2 x)
           (λ a s'', s'' = s' ∧ found (entry_alloc <$> E) x a) s') ∧
        ∃ bl, ctx_rep s' r.2 bl (reverse (entry_alloc <$> E)) ∧
          ∀ x, covered bl x ↔ 0 <= x < 2 ^ 32 ∧ ∀ e, e ∈ E → ¬ contains (entry_alloc e) x) s.
Proof.
  intros E Hok Hhh Hal HE Hap Hroom. apply wp_bind.
  eapply wp_mono; [by apply (vmm_new_context_ok mi E)|].
  intros ctx s' (bl & Hrep & Hcov & _). apply wp_ret. split; [done|]. split; [|by exists bl].
  intros x Hx. eapply wp_mono; [by eapply vmm_find_allocation_ok|]. intros a s'' [-> Ha]. split; [done|].
  eapply found_in; [|exact Ha]. intros b. by rewrite elem_of_reverse.
Qed.

(** C10: mapping pages at an address other than 0 in one free range records exactly this
    allocation, takes exactly this range from the free pages, returns the address, and
    keeps the address space well formed; no other allocation changes.  This holds after
    unmapping too: the empty allocations that it leaves behind are part of the invariant,
    at the edges of the free ranges ([stubs_ok]). *)
Theorem vmm_map_pages_at ctx va pa n fl bl A s :
  ctx_rep s ctx bl A → paging_is_aligned va = true → paging_is_aligned pa = true →
  0 < va → 0 < n → va + n * PAGE_SIZE < 2 ^ 32 → within bl va (va + n * PAGE_SIZE) →
  room (vs_heap s) 2 →
  wp (vmm_map_pages mi ctx va pa n fl)
     (λ r s', r.1 = va ∧ ∃ bl', ctx_rep s' r.2 bl' (Allocation va pa n fl :: A) ∧
        took bl va n bl') s.
Proof.
  intros Hrep Hal Hpa Hva Hn Hend Hw Hroom. eapply wp_mono; [by eapply vmm_map_pages_ok|].
  intros r s' (? & bl' & ? & ? & _). split; [done|]. by exists bl'.
Qed.

(** C2: vmm_map_pages at an address other than 0, for pages that lie in one free range,
    does not fail, and vmm_find_allocation returns the new allocation for every address of
    the range, in every address space that mapping and unmapping produce. *)
Theorem vmm_map_then_find ctx va pa n fl bl A x s :
  ctx_rep s ctx bl A → paging_is_aligned va = true → paging_is_aligned pa = true →
  0 < va → 0 < n → va + n * PAGE_SIZE < 2 ^ 32 → within bl va (va + n * PAGE_SIZE) →
  room (vs_heap s) 2 → va <= x < va + n * PAGE_SIZE →
  wp ('(_, ctx') ← vmm_map_pages mi ctx va pa n fl; vmm_find_allocation ctx' x)
     (λ a _, a = Allocation va pa n fl) s.
Proof.
  intros Hrep Hal Hpa Hva Hn Hend Hw Hroom Hx.
  assert (Hfree : ∀ a, a ∈ A → ¬ contains a x).
  { destruct Hrep as (l & t & Hinv & <- & HA). intros a. rewrite (lists_elem _ _ _ HA). intros Ha Hax.
    by eapply (as_apart _ _ _ _ Hinv), within_covered. }
  apply wp_bind. eapply wp_mono; [by eapply vmm_map_pages_ok|].
  intros [addr ctx'] s' (_ & bl' & Hrep' & _). eapply wp_mono; [eapply vmm_find_allocation_ok; [done|lia]|].
  intros a s'' [-> [[[->|Ha]%elem_of_cons Hax]|[_ Hno]]]; [done|by eapply Hfree in Hax|].
  by destruct (Hno (Allocation va pa n fl)); [left|].
Qed.

(** Vmm_find_allocation returns the allocation that contains the address,
    or the empty allocation when none does, and changes nothing. *)
Theorem vmm_find_allocation_spec ctx bl A x s :
  ctx_rep s ctx bl A → 0 <= x →
  wp (vmm_find_allocation ctx x) (λ a s', s' = s ∧ found A x a) s.
Proof. apply vmm_find_allocation_ok. Qed.

(** A request without an address (0) gets the first pages of the first free
    range the search selects, when this range is larger than the request. *)
Theorem vmm_map_pages_anon ctx pa n fl l1 v c l2 A s :
  let user := negb (Z.land fl PAGE_FLAG_USER =? 0) in
  ctx_rep s ctx (l1 ++ (v, c) :: l2) A → paging_is_aligned pa = true →
  Forall (λ b, pick mi 0 n user b = false) l1 → pick mi 0 n user (v, c) = true → 0 < n < c →
  room (vs_heap s) 2 →
  wp (vmm_map_pages mi ctx 0 pa n fl)
     (λ r s', r.1 = v ∧
        ctx_rep s' r.2 (l1 ++ (v + n * PAGE_SIZE, c - n) :: l2) (Allocation v pa n fl :: A)) s.
Proof.
  intros user Hrep Hpa Hno Hp Hn Hroom.
  assert (Hrg : ranges_from 0 (l1 ++ (v, c) :: l2)).
  { destruct Hrep as (l & t & Hinv & <- & _). apply Hinv. }
  destruct (remove_ranges_anon mi n user 0 l1 v c l2 Hno Hp Hn Hrg) as (Hrem & Hrg' & Hcov).
  destruct (ranges_from_elem _ _ v c Hrg) as (? & ? & ? & ?); [set_solver|].
  eapply wp_mono.
  { eapply (vmm_map_pages_took mi ctx 0 pa n fl _ A v); try done; [lia|page_unfold; lia|].
    split_and!; [done| |done]. intros x Hx. apply covered_app. right. apply covered_cons. left.
    unfold covers. simpl. page_unfold. lia. }
  by intros r s' (? & ? & _).
Qed.

(** C12: remove_free_blocks implements the removal of a range from the list of
    free ranges: the range selected, the address returned and what stays free
    are those of [remove_ranges], and it panics exactly when [remove_ranges] has
    no result. *)
Theorem remove_free_blocks_refines ctx va n user l s :
  store_ok s → ctx_free s ctx l → Forall range_ok l.*2 → is_u32 va → 0 <= n →
  can_malloc (vs_heap s) sizeof_free_blocks →
  match remove_ranges mi va n user l.*2 with
  | Some (addr, bl) =>
      wp (remove_free_blocks mi ctx va n user)
         (λ r s', r.1 = addr ∧ store_ok s' ∧ vs_nodes s' = vs_nodes s ∧
            ∃ l', ctx_free s' r.2 l' ∧ l'.*2 = bl) s
  | None => ∃ msg, remove_free_blocks mi ctx va n user s = Err (EPanic msg)
  end.
Proof.
  intros Hok Hf Hwf Hva Hn Hcan.
  pose proof (remove_free_blocks_ok mi ctx va n user l s Hok Hf Hwf Hva Hn Hcan) as W.
  destruct (remove_ranges _ _ _ _ _) as [[addr bl]|]; [|done]. eapply wp_mono; [exact W|].
  intros r s' (? & ? & (l' & ? & ? & _) & ? & _). split_and!; [done..|]. by exists l'.
Qed.

(** C29: add_free_blocks makes the range free and nothing else, and keeps the
    free ranges in order and apart, provided that the range is not free yet,
    does not end where the first free range starts, and is on the same side of
    the user/kernel boundary as the free range before it. *)
Theorem add_free_blocks_frees ctx va n l s :
  store_ok s → ctx_free s ctx l → ranges_from 0 l.*2 → can_malloc (vs_heap s) sizeof_free_blocks →
  va mod PAGE_SIZE = 0 → 0 <= va → 0 < n → va + n * PAGE_SIZE <= 2 ^ 32 →
  (∀ x, va <= x < va + n * PAGE_SIZE → ¬ covered l.*2 x) →
  pred_same_mode mi va n l.*2 → head_not_adjacent va n l.*2 →
  wp (add_free_blocks mi ctx va n)
     (λ ctx' s', store_ok s' ∧ vs_nodes s' = vs_nodes s ∧ allocations ctx' = allocations ctx ∧
        ∃ l', ctx_free s' ctx' l' ∧ ranges_from 0 l'.*2 ∧
          ∀ x, covered l'.*2 x ↔ covered l.*2 x ∨ va <= x < va + n * PAGE_SIZE) s.
Proof.
  intros Hok Hf Hrg Hcan Hva Hva0 Hn Hend Hdis Hmode Hadj.
  destruct (add_ranges_ok mi va n Hva Hn Hend l.*2) as (Hrg' & Hcov & _); try done.
  eapply wp_mono; [by apply (add_free_blocks_ok mi ctx va n l)|].
  intros ctx' s' [[(Hok' & (l' & Hf' & El' & _) & Hn' & _) Hal] _]. split_and!; [done..|].
  exists l'. by rewrite El'.
Qed.


(** An anonymous request that takes the whole of the selected free range
    returns address 0, the request's, and not the address of the range: the
    range is lost and the caller gets a null address. *)
Theorem remove_free_blocks_anon_exact ctx n user l1 v l2 s :
  store_ok s → ctx_free s ctx (l1 ++ l2) → Forall range_ok (l1 ++ l2).*2 → 0 <= n →
  can_malloc (vs_heap s) sizeof_free_blocks → 
  Forall (λ b, pick mi 0 n user b = false) l1.*2 → head l2.*2 = Some (v, n) →
  pick mi 0 n user (v, n) = true →
  wp (remove_free_blocks mi ctx 0 n user)
     (λ r s', r.1 = 0 ∧ ∃ l', ctx_free s' r.2 l' ∧ l'.*2 = l1.*2 ++ tail l2.*2) s.
Proof.
  intros Hok Hf Hwf Hn Hcan Hno Hhd Hp. destruct l2 as [|[a b] l2]; simplify_eq/=.
  pose proof (remove_free_blocks_ok mi ctx 0 n user _ s Hok Hf Hwf ltac:(by vm_compute) Hn Hcan) as W.
  rewrite fmap_app, fmap_cons in W. simpl in W. rewrite remove_ranges_app in W by done.
  unfold take_range in W. rewrite Z.eqb_refl in W.
  eapply wp_mono; [exact W|]. intros r s' (? & ? & (l' & ? & ? & _) & _). split; [done|]. by exists l'.
Qed.

End Props.

(** ** The address space at boot *)

Definition store0 : vmm_store kheap := VmmStore heap0 ∅ ∅.

Lemma store0_ok : store_ok store0.
Proof.
  exists ∅. split_and!; [by apply (heap_reachable_rep heap0 ∅), (reach_init _ _ heap0_init)| |];
    intros p; simpl; rewrite lookup_empty; by intros [].
Qed.

Lemma heap0_room k : Z.of_nat k * 72 < KERNEL_HEAP_SIZE - 8 → room heap0 k.
Proof.
  intros Hk. pose proof (kmalloc_init_ok (KHeap 0 ∅)) as W. unfold wp in W.
  rewrite heap0_init in W. destruct W as [Hinv _].
  do 4 eexists. split_and!; [exact Hinv|by left|by left|]. unfold small, sizeof_header in *. lia.
Qed.

Definition boot_space : list addr_space_entry :=
  vmm_init_addr_space meminfo0 KERNEL_HEAP_VIRT_START KERNEL_HEAP_PHYS_START KERNEL_HEAP_SIZE 0xB8000.

Lemma boot_space_ok : Forall (entry_ok meminfo0) boot_space ∧ ForallOrdPairs entries_apart boot_space.
Proof.
  split.
  - repeat constructor; by vm_compute.
  - unfold boot_space, vmm_init_addr_space.
    repeat (apply FOP_nil || apply Forall_nil_2 || apply FOP_cons || apply Forall_cons_2);
      (left; by vm_compute) || (right; by vm_compute).
Qed.

(** An address space without allocations. *)
Definition space0 : vmm_context * vmm_store kheap :=
  match vmm_new_context meminfo0 [] store0 with
  | Ok r => r
  | Err _ => (VmmContext 0 0, store0)
  end.

Lemma space0_rep :
  ctx_rep space0.2 space0.1 [(0, 0xC0000); (0xC0000000, 0x40000)] [] ∧ room (vs_heap space0.2) 9.
Proof.
  pose proof (new_context_free meminfo0 store0 store0_ok ltac:(by vm_compute) ltac:(by vm_compute)
    (heap0_room 3 ltac:(done))) as W.
  unfold wp in W. match type of W with match ?r with _ => _ end => assert (E : r = Ok space0) end.
  { vm_compute. reflexivity. }
  rewrite E in W. destruct space0 as [ctx s]. destruct W as [W1 W2].
  split; [exact W1|]. by apply W2, heap0_room.
Qed.

(** The address space after a call to vmm_map_pages. *)
Definition after_map (sp : vmm_context * vmm_store kheap) (va pa n fl : Z) :
    vmm_context * vmm_store kheap :=
  match vmm_map_pages meminfo0 sp.1 va pa n fl sp.2 with
  | Ok (_, ctx, s) => (ctx, s)
  | Err _ => sp
  end.

Definition no_stub (A : list vmm_allocation) : bool := forallb (λ a, negb (page_count a =? 0)) A.

Lemma no_stub_at A va : no_stub A = true → ∀ a, a ∈ A → page_count a = 0 → virtual_addr a ≠ va.
Proof. unfold no_stub. rewrite forallb_forall. intros Hn a Ha%list_elem_of_In E. apply Hn in Ha. by rewrite E in Ha. Qed.

Lemma after_map_rep sp bl A va pa n fl addr bl' k :
  ctx_rep sp.2 sp.1 bl A ∧ room (vs_heap sp.2) (2 + k) →
  is_u32 va → paging_is_aligned va = true → paging_is_aligned pa = true →
  0 < n → 0 <= addr → addr mod PAGE_SIZE = 0 → addr + n * PAGE_SIZE < 2 ^ 32 →
  remove_ranges meminfo0 va n (negb (Z.land fl PAGE_FLAG_USER =? 0)) bl = Some (addr, bl') →
  took bl addr n bl' →
  ctx_rep (after_map sp va pa n fl).2 (after_map sp va pa n fl).1 bl' (Allocation addr pa n fl :: A) ∧
  room (vs_heap (after_map sp va pa n fl).2) k.
Proof.
  intros [Hrep Hroom] Hva Hal Hpa Hn Ha Haa Hend Hrem Htook.
  pose proof (vmm_map_pages_took meminfo0 sp.1 va pa n fl bl A addr bl' sp.2 Hrep Hva Hal Hpa Hn Ha
    Haa Hend (room_le _ (2 + k) 2 ltac:(lia) Hroom) Hrem Htook) as W.
  apply wp_ok in W as ([a ctx] & s & E & _ & W1 & W2 & _). unfold after_map. rewrite E. simpl in *.
  split; [done|]. by apply W2.
Qed.

(** After mapping four user pages at 64 KB. *)
Definition space1 : vmm_context * vmm_store kheap := after_map space0 0x10000 0x400000 4 7.

Lemma space1_rep :
  ctx_rep space1.2 space1.1 [(0, 16); (0x14000, 0xBFFEC); (0xC0000000, 0x40000)]
    [Allocation 0x10000 0x400000 4 7] ∧ room (vs_heap space1.2) 7.
Proof.
  apply (after_map_rep space0 [(0, 0xC0000); (0xC0000000, 0x40000)] [] _ _ 4 7);
    [apply space0_rep|by vm_compute..|].
  destruct (took_at meminfo0 0x10000 4 true [(0, 0xC0000); (0xC0000000, 0x40000)])
    as (bl' & Hrem & Htook & _); [by vm_compute..| |by vm_compute in Hrem; injection Hrem as <-].
  exists (0, 0xC0000). split; [left|by vm_compute].
Qed.

(** After an anonymous user page and one at 0x3000: two free pages between them. *)
Definition space2 : vmm_context * vmm_store kheap :=
  after_map (after_map space0 0 0x400000 1 7) 0x3000 0x500000 1 7.

Lemma space2_rep :
  ctx_rep space2.2 space2.1 [(0x1000, 2); (0x4000, 0xBFFFC); (0xC0000000, 0x40000)]
    [Allocation 0x3000 0x500000 1 7; Allocation 0 0x400000 1 7] ∧ room (vs_heap space2.2) 5.
Proof.
  apply (after_map_rep _ [(0x1000, 0xBFFFF); (0xC0000000, 0x40000)] _ _ _ 1 7); [|by vm_compute..|].
  - apply (after_map_rep space0 [(0, 0xC0000); (0xC0000000, 0x40000)] [] _ _ 1 7);
      [apply space0_rep|by vm_compute..|].
    destruct (remove_ranges_anon meminfo0 1 true 0 [] 0 0xC0000 [(0xC0000000, 0x40000)])
      as (_ & ? & ?); [by apply Forall_nil|by vm_compute..|].
    split_and!; [done| |done]. intros x Hx. exists (0, 0xC0000). split; [left|].
    unfold covers. simpl. page_unfold. lia.
  - destruct (took_at meminfo0 0x3000 1 true [(0x1000, 0xBFFFF); (0xC0000000, 0x40000)])
      as (bl' & Hrem & Htook & _); [by vm_compute..| |by vm_compute in Hrem; injection Hrem as <-].
    exists (0x1000, 0xBFFFF). split; [left|by vm_compute].
Qed.

(** The instances of the theorems on these address spaces. *)

Lemma vmm_init_maps_kernel_witness :
  wp (vmm_init meminfo0 KERNEL_HEAP_VIRT_START KERNEL_HEAP_PHYS_START KERNEL_HEAP_SIZE 0xB8000)
     (λ r _, r.1 = boot_space) store0.
Proof.
  eapply wp_mono.
  - apply (vmm_init_maps_kernel meminfo0 KERNEL_HEAP_VIRT_START KERNEL_HEAP_PHYS_START
      KERNEL_HEAP_SIZE 0xB8000 store0); [apply store0_ok|by vm_compute..|apply boot_space_ok
      |apply boot_space_ok|by apply heap0_room].
  - by intros r s' [? _].
Defined.

Lemma within0 : within [(0, 0xC0000); (0xC0000000, 0x40000)] 0x10000 (0x10000 + 4 * PAGE_SIZE).
Proof. exists (0, 0xC0000). split; [left|by vm_compute]. Qed.

Lemma vmm_map_pages_at_witness :
  wp (vmm_map_pages meminfo0 space0.1 0x10000 0x400000 4 7) (λ r _, r.1 = 0x10000) space0.2.
Proof.
  eapply wp_mono.
  - apply (vmm_map_pages_at meminfo0 space0.1 0x10000 0x400000 4 7 _ [] space0.2 (proj1 space0_rep));
      [done..|by vm_compute|apply within0|].
    eapply room_le, (proj2 space0_rep). lia.
  - by intros r s' [? _].
Defined.

Lemma vmm_map_then_find_witness :
  wp ('(_, ctx') ← vmm_map_pages meminfo0 space0.1 0x10000 0x400000 4 7;
      vmm_find_allocation ctx' 0x13abc) (λ a _, a = Allocation 0x10000 0x400000 4 7) space0.2.
Proof.
  apply (vmm_map_then_find meminfo0 space0.1 0x10000 0x400000 4 7 _ [] 0x13abc space0.2
    (proj1 space0_rep)); [done..|by vm_compute|apply within0| |by vm_compute].
  eapply room_le, (proj2 space0_rep). lia.
Defined.

Lemma vmm_find_allocation_spec_witness :
  wp (vmm_find_allocation space1.1 0x12345)
     (λ a s', s' = space1.2 ∧ found [Allocation 0x10000 0x400000 4 7] 0x12345 a) space1.2.
Proof. apply (vmm_find_allocation_spec _ _ _ 0x12345 _ (proj1 space1_rep)). done. Defined.

Lemma vmm_map_pages_anon_witness :
  wp (vmm_map_pages meminfo0 space0.1 0 0x400000 3 7)
     (λ r s', r.1 = 0 ∧ ctx_rep s' r.2 [(0x3000, 0xBFFFD); (0xC0000000, 0x40000)]
                          [Allocation 0 0x400000 3 7]) space0.2.
Proof.
  apply (vmm_map_pages_anon meminfo0 space0.1 0x400000 3 7 [] 0 0xC0000 [(0xC0000000, 0x40000)] []
    space0.2 (proj1 space0_rep)); [done|by apply Forall_nil|by vm_compute..|].
  eapply room_le, (proj2 space0_rep). lia.
Defined.

Lemma space0_free :
  ∃ l, ctx_free space0.2 space0.1 l ∧ l.*2 = [(0, 0xC0000); (0xC0000000, 0x40000)] ∧
    store_ok space0.2 ∧ can_malloc (vs_heap space0.2) sizeof_free_blocks.
Proof.
  destruct space0_rep as [(l & t & Hinv & Hl & _) Hroom]. exists l.
  split_and!; [apply Hinv|done|apply Hinv|by eapply room_can_malloc].
Qed.

(** All but one page of the upper part, from its second page but one, are too
    much. *)
Lemma remove_free_blocks_refines_witness :
  ∃ msg, remove_free_blocks meminfo0 space0.1 0xC0002000 0x3ffff false space0.2 = Err (EPanic msg).
Proof.
  assert (E : remove_ranges meminfo0 0xC0002000 0x3ffff false
    [(0, 0xC0000); (0xC0000000, 0x40000)] = None) by (vm_compute; reflexivity).
  assert (Hwf : Forall range_ok [(0, 0xC0000); (0xC0000000, 0x40000)])
    by (repeat constructor; by vm_compute).
  assert (Hva : is_u32 0xC0002000) by (by vm_compute).
  destruct space0_free as (l & Hf & Hl & Hok & Hcan). rewrite <- Hl in E, Hwf.
  pose proof (remove_free_blocks_refines meminfo0 space0.1 0xC0002000 0x3ffff false l space0.2
    Hok Hf Hwf Hva ltac:(lia) Hcan) as W.
  rewrite E in W. exact W.
Defined.

Lemma remove_free_blocks_anon_exact_witness :
  wp (remove_free_blocks meminfo0 space2.1 0 2 true)
     (λ r s', r.1 = 0 ∧ ∃ l, ctx_free s' r.2 l ∧ l.*2 = [(0x4000, 0xBFFFC); (0xC0000000, 0x40000)])
     space2.2.
Proof.
  assert (Hp : pick meminfo0 0 2 true (0x1000, 2) = true) by (vm_compute; reflexivity).
  assert (Hwf : Forall range_ok [(0x1000, 2); (0x4000, 0xBFFFC); (0xC0000000, 0x40000)])
    by (repeat constructor; by vm_compute).
  assert (Hsz : 0 <= sizeof_free_blocks <= small) by (by vm_compute).
  destruct space2_rep as [(l & t & Hinv & Hl & _) Hroom]. rewrite <- Hl in Hwf.
  pose proof (remove_free_blocks_anon_exact meminfo0 space2.1 2 true [] 0x1000 l space2.2
    (as_store _ _ _ _ Hinv) (as_free _ _ _ _ Hinv) Hwf ltac:(lia)
    (room_can_malloc _ _ _ Hroom Hsz) (Forall_nil_2 _)) as W.
  rewrite Hl in W. exact (W eq_refl Hp).
Defined.

Lemma add_free_blocks_frees_witness :
  wp (add_free_blocks meminfo0 space1.1 0x11000 1)
     (λ ctx' _, allocations ctx' = allocations space1.1) space1.2.
Proof.
  destruct space1_rep as [(l & t & Hinv & Hl & _) Hroom]. eapply wp_mono.
  - apply (add_free_blocks_frees meminfo0 space1.1 0x11000 1 l space1.2 (as_store _ _ _ _ Hinv)
      (as_free _ _ _ _ Hinv) (as_ranges _ _ _ _ Hinv)); [by eapply room_can_malloc|done..| | |].
    + intros x Hx Hc. rewrite Hl, !covered_cons, covered_nil in Hc. unfold covers in Hc.
      simpl in Hc. page_unfold. lia.
    + intros w d Hin Hw _. rewrite Hl in Hin. repeat apply elem_of_cons in Hin as [[= -> ->]|Hin];
        [by vm_compute|by vm_compute in Hw|by vm_compute in Hw|by apply elem_of_nil in Hin].
    + intros v c l' E. rewrite Hl in E. injection E as <- _ _. by vm_compute.
  - by intros ctx' s' (_ & _ & ? & _).
Defined.


(** ** Where the code departs from its intent *)

(** On the address space the kernel builds at boot, a kernel request without
    an address gets address 0, in user space: the free range at 0 contains the
    address 0 that the request names, so the test for a kernel address is never
    made. *)
Theorem kernel_anonymous_map_null :
  wp ('(_, ctx) ← vmm_init meminfo0 KERNEL_HEAP_VIRT_START KERNEL_HEAP_PHYS_START
                    KERNEL_HEAP_SIZE 0xB8000;
      '(addr, _) ← vmm_map_pages meminfo0 ctx 0 0x1000000 1
                     (Z.lor PAGE_FLAG_PRESENT PAGE_FLAG_WRITE);
      mret addr) (λ addr _, addr = 0) store0.
Proof. vm_compute. reflexivity. Qed.

(** An allocation can be lost.  When the first allocation of a context, at
    the root of the tree, is unmapped its node stays with no pages; the next
    allocation takes this node whatever its address is, and the allocations
    below the root are no longer found. *)
Theorem unmap_root_loses_allocation :
  wp ('(_, ctx) ← vmm_map_pages meminfo0 space0.1 0x10000 0x400000 1 7;
      '(_, ctx) ← vmm_map_pages meminfo0 ctx 0x20000 0x500000 1 7;
      ctx ← vmm_unmap_pages meminfo0 ctx 0x10000 1;
      '(_, ctx) ← vmm_map_pages meminfo0 ctx 0x30000 0x600000 1 7;
      vmm_find_allocation ctx 0x20000) (λ a _, a = no_allocation) space0.2.
Proof. vm_compute. reflexivity. Qed.

(** Pages that were given back stay a range of their own: a request that goes beyond it
    panics, although all its pages are free. *)
Theorem freed_pages_not_merged :
  ('(_, ctx) ← vmm_map_pages meminfo0 space0.1 0x10000 0x400000 1 7;
   '(_, ctx) ← vmm_map_pages meminfo0 ctx 0x20000 0x500000 1 7;
   ctx ← vmm_unmap_pages meminfo0 ctx 0x20000 1;
   vmm_map_pages meminfo0 ctx 0x20000 0x600000 4 7) space0.2 =
  Err (EPanic "could not find %u consecutive free pages starting at %#x").
Proof. vm_compute. reflexivity. Qed.

(** An allocation that starts where an unmapped one ended cannot be unmapped: the empty
    allocation that was left there is found first, and shrunk below 0 pages.  The
    allocation keeps its two pages, and its first one, now free, is hidden. *)
Theorem unmap_hits_stub :
  wp ('(_, ctx) ← vmm_map_pages meminfo0 space0.1 0x10000 0x400000 1 7;
      '(_, ctx) ← vmm_map_pages meminfo0 ctx 0x20000 0x500000 1 7;
      '(_, ctx) ← vmm_map_pages meminfo0 ctx 0x21000 0x600000 2 7;
      ctx ← vmm_unmap_pages meminfo0 ctx 0x20000 1;
      ctx ← vmm_unmap_pages meminfo0 ctx 0x21000 1;
      a ← vmm_find_allocation ctx 0x21000;
      b ← vmm_find_allocation ctx 0x22000;
      mret (a, b))
     (λ ab _, ab = (no_allocation, Allocation 0x21000 0x600000 2 7)) space0.2.
Proof. vm_compute. reflexivity. Qed.

(** A range of exactly the requested size is handed out for any address inside
    it: here 2^18 pages from the second page of the upper part, the last of which
    lies beyond 4 GB. *)
Theorem exact_size_misplaced :
  wp ('(addr, _) ← vmm_map_pages meminfo0 space0.1 0xC0001000 0x400000 0x40000 3; mret addr)
     (λ addr _, addr + 0x40000 * PAGE_SIZE = 2 ^ 32 + PAGE_SIZE) space0.2.
Proof. vm_compute. reflexivity. Qed.

(** Unmapping a page of an allocation other than its first panics. *)
Theorem unmap_middle_panics :
  vmm_unmap_pages meminfo0 space1.1 0x11000 1 space1.2 =
  Err (EPanic "allocation to unmap not found in allocation tree").
Proof. vm_compute. reflexivity. Qed.

(** Unmapping as many pages as the address is large reaches remove_allocation,
    which reads the left child of a node without children. *)
Theorem unmap_leaf_faults :
  ('(_, ctx) ← vmm_map_pages meminfo0 space0.1 0x1000 0x400000 0x1000 7;
   vmm_unmap_pages meminfo0 ctx 0x1000 0x1000) space0.2 = Err (EFault 0).
Proof. vm_compute. reflexivity. Qed.

(** Freeing pages that end where the first free range starts adds to the count of
    that range but does not move its start: the pages stay taken, and the range
    overlaps the next one. *)
Theorem free_before_head_overlaps :
  wp ('(_, ctx) ← vmm_map_pages meminfo0 space0.1 0 0x400000 2 7;
      '(addr, ctx) ← vmm_map_pages meminfo0 ctx 0 0x500000 2 7;
      ctx ← vmm_unmap_pages meminfo0 ctx addr 2;
      b ← load_block (free_blocks ctx);
      mret (addr, fb_virtual_addr b, fb_virtual_addr b + fb_page_count b * PAGE_SIZE))
     (λ r _, r = (0x2000, 0x4000, 0xC0002000)) space0.2.
Proof. vm_compute. reflexivity. Qed.
