(* ===== verification/VmmClone.v ===== *)
(** * Copies of an address space: vmm_clone_context of mm/vmm.c

    A user task starts with a copy of the kernel's address space.  The copy has nodes
    of its own: it is one more context next to the others, in the sense of [spaces].  clone_allocation_tree does not initialise the
    links of the nodes it allocates; [null_links] says that the memory they are in
    holds zeros there. *)

From S2P Require Import Prelude Allocator Kmalloc PageArith Vmm VmmRules VmmRanges VmmFree VmmTree VmmSpace.
From S2P Require Import Spaces VmmProps.

(** ** The copy of the free list *)

Section CloneFree.
Context {H : Type} `{Allocator H}.
Implicit Types s : vmm_store H.

(** kmalloc has handed out [p] for a free-list node that is not filled yet. *)
Definition pending s (p : Z) : Prop :=
  0 < p < 2 ^ 32 ∧ vs_blocks s !! p = None ∧
  ∃ L, owns (vs_heap s) L ∧ L !! p = Some sizeof_free_blocks ∧
    (∀ q, is_Some (vs_blocks s !! q) → L !! q = Some sizeof_free_blocks) ∧
    (∀ q, is_Some (vs_nodes s !! q) → L !! q = Some sizeof_allocation_tree).

Lemma pending_ok s p : pending s p → store_ok s.
Proof. intros (_ & _ & L & ? & _ & ? & ?). by exists L. Qed.

Lemma wp_malloc_pending k Q s :
  store_ok s → room (vs_heap s) (S k) →
  (∀ p h, let s' := VmmStore h (vs_blocks s) (vs_nodes s) in pending s' p → room h k → Q p s') →
  wp (on_heap (malloc sizeof_free_blocks)) Q s.
Proof.
  intros Hok Hroom HQ.
  pose proof (room_malloc _ _ sizeof_free_blocks Hroom ltac:(by vm_compute)) as W.
  apply wp_ok in W as (p & h & E & Hnz & Hroom').
  assert (W : wp (on_heap (malloc sizeof_free_blocks)) (λ p' s', p' = p → vs_heap s' = h → Q p' s') s).
  { apply wp_malloc; [done|by vm_compute|by intros <-|]. intros q h' L Hq Ho HL _ Hb Hn -> Eh. cbn [vs_heap] in Eh. subst h'.
    apply HQ; [|done]. split; [done|]. split; [by eapply fresh_none|].
    eexists. split; [exact Ho|].
    rewrite lookup_insert_eq. split_and!; [done| |]; simpl; intros r Hr; rewrite lookup_insert_ne; auto;
      intros ->; [rewrite (Hb _ Hr) in HL|rewrite (Hn _ Hr) in HL]; done. }
  unfold wp, on_heap, zoom in W |- *. rewrite E in *. by apply W.
Qed.

(** Filling the pending node. *)
Lemma pending_write s p b : pending s p → store_ok (VmmStore (vs_heap s) (<[p := b]> (vs_blocks s)) (vs_nodes s)).
Proof.
  intros (_ & _ & L & Ho & HL & Hb & Hn). exists L. split_and!; [done| |done]. simpl.
  intros q. rewrite lookup_insert. case_decide; [by subst|apply Hb].
Qed.

Lemma pending_block s p q b b' :
  pending s p → vs_blocks s !! q = Some b →
  pending (VmmStore (vs_heap s) (<[q := b']> (vs_blocks s)) (vs_nodes s)) p.
Proof.
  intros (Hp & Hnone & L & Ho & HL & Hb & Hn) Hq. split; [done|]. split.
  - simpl. rewrite lookup_insert_ne; [done|congruence].
  - exists L. split_and!; [done|done| |done]. simpl. intros r. rewrite lookup_insert.
    case_decide; [subst|]; intros ?; apply Hb; eauto.
Qed.

(** The copies [c] of the first nodes of the list are linked from [first] to [q]; [s0] was
    the store before, and its nodes are as they were. *)
Definition linked s0 s (first : Z) (c : list (Z * (Z * Z))) (q : Z) : Prop :=
  fb_seg (vs_blocks s) first c q ∧ NoDup c.*1 ∧ (∀ p, p ∈ c.*1 → vs_blocks s0 !! p = None) ∧
  (∀ p b, vs_blocks s0 !! p = Some b → vs_blocks s !! p = Some b) ∧ vs_nodes s = vs_nodes s0.

(** The last copy is made to point to the pending node. *)
Lemma link_pending s0 s first c current :
  pending s current → linked s0 s (if decide (c = []) then 0 else first) c 0 → (c = [] → first = current) →
  wp (if fb_prev c =? 0 then mret tt else set_block_next (fb_prev c) current)
     (λ _ s', pending s' current ∧ vs_heap s' = vs_heap s ∧ linked s0 s' first c current) s.
Proof.
  intros Hp (Hs & Hnd & Hfresh & Hold & Hn) Hfirst.
  destruct c as [|[a [w d]] c _] using rev_ind.
  - apply wp_ret. split_and!; [done|done|]. split; [by apply Hfirst|]. by split_and!.
  - rewrite fb_prev_snoc. rewrite decide_False in Hs by (by destruct c).
    assert (Haz : a ≠ 0) by (eapply fb_seg_nonzero; [exact Hs|rewrite fmap_app; set_solver]).
    rewrite (proj2 (Z.eqb_neq a 0)) by done.
    pose proof Hs as Hs'. apply fb_seg_app in Hs' as (r & _ & -> & _ & na & Ha & _).
    eapply wp_set_block_next; [exact Ha|]. split; [by eapply pending_block|]. split; [done|].
    split_and!; [exact (fb_seg_relink _ _ c a w d 0 na current Hnd Ha Hs)|done|done| |done].
    intros p b Hb. simpl. rewrite lookup_insert_ne; [by apply Hold|].
    intros ->. rewrite Hfresh in Hb; [done|]. rewrite fmap_app. set_solver.
Qed.

(** The pending node is filled and becomes the last copy. *)
Lemma fill_pending s0 s first c current v n :
  pending s current → linked s0 s first c current → vs_blocks s0 !! current = None →
  wp (write_block current (FreeBlocks v n 0))
     (λ _ s', store_ok s' ∧ vs_heap s' = vs_heap s ∧ linked s0 s' first (c ++ [(current, (v, n))]) 0) s.
Proof.
  intros Hp (Hs & Hnd & Hfresh & Hold & Hn) Hnone. pose proof Hp as (Hpr & Hnone' & _).
  assert (Hcur : current ∉ c.*1) by (intros Hin; destruct (fb_seg_some _ _ _ _ _ Hs Hin); congruence).
  apply wp_modify. split; [by apply pending_write|]. split; [done|]. split_and!; [| | | |done].
  - rewrite fb_seg_app. exists current. split.
    + eapply fb_seg_frame; [|exact Hs]. intros x Hx. apply lookup_insert_ne. by intros ->.
    + cbn [fb_seg]. split_and!; [done|lia|]. exists 0. split; [apply lookup_insert_eq|done].
  - rewrite fmap_app. apply NoDup_app. split_and!; [done| |apply NoDup_singleton].
    intros x Hx ->%list_elem_of_singleton. done.
  - intros p. rewrite fmap_app. intros [?| ->%list_elem_of_singleton]%elem_of_app; [by apply Hfresh|done].
  - intros p b Hb. simpl. rewrite lookup_insert_ne; [by apply Hold|congruence].
Qed.

Lemma clone_free_blocks_loop_ok fuel s0 rest c orig first current k s :
  fb_seg (vs_blocks s0) orig rest 0 → (length rest < fuel)%nat → pending s current →
  vs_blocks s0 !! current = None → linked s0 s (if decide (c = []) then 0 else first) c 0 →
  (c = [] → first = current) → room (vs_heap s) (length rest + k) → c ≠ [] ∨ rest ≠ [] →
  wp (clone_free_blocks_loop fuel orig (fb_prev c) current)
     (λ _ s', store_ok s' ∧ room (vs_heap s') k ∧
        ∃ c', linked s0 s' first (c ++ c') 0 ∧ c'.*2 = rest.*2) s.
Proof.
  revert rest c orig current s. induction fuel as [|fuel IH]; intros rest c orig current s Hs Hf Hp Hnone Hl Hfirst Hr Hne; [lia|].
  destruct rest as [|[a [v n]] rest]; cbn [clone_free_blocks_loop].
  { simpl in Hs. subst orig. rewrite Z.eqb_refl. destruct Hne as [Hne|]; [|done]. apply wp_ret.
    split_and!; [by eapply pending_ok|done|]. exists []. rewrite app_nil_r, decide_False in * by done. done. }
  destruct Hs as (-> & Haz & nx & Ha & Hs). rewrite (proj2 (Z.eqb_neq a 0)) by done.
  apply wp_bind. eapply wp_mono; [by apply (link_pending s0 s first c current)|]. cbn beta.
  intros _ s1 (Hp1 & Eh1 & Hl1). pose proof Hl1 as (_ & _ & _ & Hold1 & _).
  apply wp_bind. eapply wp_load_block; [by apply Hold1|]. cbn [fb_virtual_addr fb_page_count].
  pose proof Hp1 as (Hpr & _ & _). rewrite (proj2 (Z.eqb_neq current 0)) by lia.
  apply wp_bind. eapply wp_mono; [by apply (fill_pending s0 s1 first c current v n)|]. cbn beta.
  intros _ s2 (Hok2 & Eh2 & Hl2). rewrite <- Eh1, <- Eh2 in Hr. cbn [length] in Hr.
  apply wp_bind. eapply wp_malloc_pending; [done|exact Hr|]. intros p h s3 Hp3 Hr3.
  pose proof Hl2 as (Hs2 & _ & _ & Hold2 & _).
  assert (Hl3 : linked s0 s3 first (c ++ [(current, (v, n))]) 0) by exact Hl2.
  apply wp_bind. eapply wp_load_block; [by apply Hold2|]. cbn [next].
  eapply wp_mono.
  { pose proof (IH rest (c ++ [(current, (v, n))]) nx p s3 Hs) as W. rewrite fb_prev_snoc in W. apply W.
    - simpl in Hf. lia.
    - done.
    - destruct Hp3 as (_ & Hnone3 & _). apply eq_None_not_Some. intros [b Hb].
      apply Hold2 in Hb. cbn [vs_blocks s3] in Hnone3. congruence.
    - rewrite decide_False by (by destruct c). done.
    - by destruct c.
    - done.
    - left. by destruct c. }
  cbn beta. intros _ s4 (Hok4 & Hr4 & c' & Hl4 & Ec'). split_and!; [done..|].
  exists ((current, (v, n)) :: c'). rewrite <- app_assoc in Hl4. split; [done|]. rewrite !fmap_cons. by rewrite Ec'.
Qed.

(** The copy of a free list. *)
Lemma clone_free_blocks_ok orig l k s :
  store_ok s → fb_rep (vs_blocks s) orig l → room (vs_heap s) (S (length l) + k) →
  wp (clone_free_blocks orig)
     (λ fb s', store_ok s' ∧ room (vs_heap s') k ∧ vs_nodes s' = vs_nodes s ∧
        ∃ c, fb_rep (vs_blocks s') fb c ∧ c.*2 = l.*2 ∧ (∀ p, p ∈ c.*1 → vs_blocks s !! p = None) ∧
          ∀ p b, vs_blocks s !! p = Some b → vs_blocks s' !! p = Some b) s.
Proof.
  intros Hok [Hs Hnd] Hroom. unfold clone_free_blocks. destruct l as [|[a [v n]] l].
  { simpl in Hs. subst orig. apply wp_ret. split_and!; [done|by eapply room_le; [|exact Hroom]; simpl; lia|done|].
    exists []. split_and!; [split; [done|constructor]|done|by intros p ?%elem_of_nil|done]. }
  assert (Haz : orig ≠ 0) by (destruct Hs as (-> & ? & _); done). rewrite (proj2 (Z.eqb_neq orig 0)) by done.
  apply wp_bind, wp_get, wp_bind. eapply wp_malloc_pending; [done|exact Hroom|]. intros p h s1 Hp Hr1.
  apply wp_bind. eapply wp_mono.
  { apply (clone_free_blocks_loop_ok (block_fuel s) s ((a, (v, n)) :: l) [] orig p p k s1); try done.
    - pose proof (fb_seg_length _ _ _ _ Hnd Hs). unfold block_fuel. lia.
    - by destruct Hp as (_ & ? & _).
    - split_and!; [done|constructor|by intros q ?%elem_of_nil|done|done].
    - by right. }
  cbn beta. intros _ s2 (Hok2 & Hr2 & c & (Hs2 & Hnd2 & Hfresh & Hold & Hn) & Ec). apply wp_ret.
  split_and!; [done..|]. exists c. by split_and!.
Qed.

End CloneFree.

(** ** The copy of the allocation tree *)

Section CloneTree.
Context {H : Type} `{Allocator H} (junk : Z → vmm_allocation_tree).
Implicit Types s : vmm_store H.

Definition null_links : Prop := ∀ p, left (junk p) = 0 ∧ right (junk p) = 0 ∧ parent (junk p) = 0.

(** The same allocations in the same places, in other nodes. *)
Fixpoint same_tree (t t' : tree) : Prop :=
  match t, t' with
  | Leaf, Leaf => True
  | Node _ a l r, Node _ a' l' r' => a' = a ∧ same_tree l l' ∧ same_tree r r'
  | _, _ => False
  end.

Lemma same_tree_elems t t' : same_tree t t' → elems t' = elems t.
Proof.
  revert t'. induction t as [|q a l IHl r IHr]; intros [|q' a' l' r']; simpl; try done.
  intros (-> & ?%IHl & ?%IHr). congruence.
Qed.

Lemma same_tree_bst t t' lo hi : same_tree t t' → bst lo hi t → bst lo hi t'.
Proof.
  revert t' lo hi. induction t as [|q a l IHl r IHr]; intros [|q' a' l' r'] lo hi; simpl; try done.
  intros (-> & ? & ?) (? & ? & ?). auto.
Qed.

Lemma wp_kmalloc_node Q s :
  store_ok s → can_malloc (vs_heap s) sizeof_allocation_tree →
  (∀ p h, 0 < p < 2 ^ 32 → vs_nodes s !! p = None →
     let s' := VmmStore h (vs_blocks s) (<[p := junk p]> (vs_nodes s)) in
     store_ok s' → room_step (vs_heap s) h → Q p s') →
  wp (kmalloc_node junk) Q s.
Proof.
  intros Hok Hcan HQ.
  destruct (proj1 (wp_ok _ _ _) Hcan) as (p & h & E & Hnz).
  assert (W : wp (new_node (junk p)) (λ p' s', p' = p → Q p' s') s).
  { apply wp_new_node; [done..|]. intros q h' Hq _ Hn s' Hok' Hrm ->. by apply HQ. }
  unfold wp, kmalloc_node, new_node, on_heap, zoom, mbind, M_bind in *. rewrite E in *.
  rewrite (proj2 (Z.eqb_neq p 0)) in * by done. by apply W.
Qed.

(** What the copy of the tree [t] into the node [node] does. *)
Definition clone_spec (fuel : nat) (t : tree) : Prop :=
  ∀ orig par node nd k s,
    tree_rep (vs_nodes s) orig par t → NoDup (addrs t) → node ∉ addrs t →
    vs_nodes s !! node = Some nd → left nd = 0 → right nd = 0 → store_ok s → node ≠ 0 →
    room (vs_heap s) (Nat.pred (length (addrs t)) + k) →
    wp (clone_allocation_tree fuel junk orig node)
       (λ _ s', store_ok s' ∧ room (vs_heap s') k ∧ vs_blocks s' = vs_blocks s ∧
          nodes_frame s s' [node] ∧
          ∃ t', tree_rep (vs_nodes s') node (parent nd) t' ∧ NoDup (addrs t') ∧ same_tree t t' ∧
            ∀ q, q ∈ addrs t' → q = node ∨ vs_nodes s !! q = None) s.

(** One of the two recursive calls; [upd] sets the link to the child. *)
Lemma clone_child_ok fuel tc lo par node nd (upd : Z → vmm_allocation_tree → vmm_allocation_tree) k s :
  null_links → (tc ≠ Leaf → clone_spec fuel tc) →
  tree_rep (vs_nodes s) lo par tc → NoDup (addrs tc) → node ∉ addrs tc →
  vs_nodes s !! node = Some nd → upd 0 nd = nd → store_ok s →
  room (vs_heap s) (length (addrs tc) + k) →
  wp (if lo =? 0 then mret tt
      else p ← kmalloc_node junk;
           (nd ← load_node node; write_node node (upd p nd));;
           set_parent p node;;
           clone_allocation_tree fuel junk lo p)
     (λ _ s', store_ok s' ∧ room (vs_heap s') k ∧ vs_blocks s' = vs_blocks s ∧
        nodes_frame s s' [node] ∧
        ∃ cp t', vs_nodes s' !! node = Some (upd cp nd) ∧ tree_rep (vs_nodes s') cp node t' ∧
          NoDup (addrs t') ∧ same_tree tc t' ∧ ∀ q, q ∈ addrs t' → vs_nodes s !! q = None) s.
Proof.
  intros Hj Hspec Hrep Hnd Hnode Hm Hupd Hok Hroom. destruct tc as [|q a l r].
  { simpl in Hrep. subst lo. apply wp_ret. split_and!; [done|done|done|by intros ???|].
    exists 0, Leaf. rewrite Hupd. split_and!; [done|done|constructor|done|by intros q ?%elem_of_nil]. }
  pose proof Hrep as (-> & Hqz & _). rewrite (proj2 (Z.eqb_neq q 0)) by done.
  apply wp_bind, wp_kmalloc_node; [done|eapply (room_can_malloc _ (length (addrs l ++ addrs r) + k)); [exact Hroom|by vm_compute]|].
  intros p h Hp Hpn s1 Hok1 Hrm.
  assert (Hpnode : p ≠ node) by congruence.
  apply wp_bind. eapply wp_set_node; [simpl; by rewrite lookup_insert_ne|]. cbn [vs_heap vs_blocks vs_nodes s1].
  apply wp_bind. eapply wp_set_node; [simpl; by rewrite lookup_insert_ne, lookup_insert_eq|].
  cbn [vs_heap vs_blocks vs_nodes]. set (s2 := VmmStore _ _ _).
  assert (Hs2 : ∀ x, x ≠ p → x ≠ node → vs_nodes s2 !! x = vs_nodes s !! x)
    by (intros x ? ?; simpl; by rewrite !lookup_insert_ne).
  assert (Hok2 : store_ok s2).
  { pose proof (store_ok_node s1 node nd (upd p nd) Hok1) as Hok1'. cbn [vs_heap vs_blocks vs_nodes s1] in Hok1'.
    specialize (Hok1' ltac:(by rewrite lookup_insert_ne)).
    eapply (store_ok_node _ p (junk p)) in Hok1'; [exact Hok1'|simpl; by rewrite lookup_insert_ne, lookup_insert_eq]. }
  assert (Hpt : p ∉ addrs (Node q a l r)).
  { intros Hin. destruct (tree_rep_some _ _ _ _ _ Hrep Hin). congruence. }
  eapply wp_mono.
  { apply (Hspec ltac:(done) q par p (AllocationTree (alloc (junk p)) (left (junk p)) (right (junk p)) node)
      k s2); try done; [|simpl; apply lookup_insert_eq|apply Hj|apply Hj|lia|].
    - eapply tree_rep_frame; [|exact Hrep]. intros x Hx. apply Hs2; congruence || by intros ->.
    - apply Hrm. exact Hroom. }
  cbn beta. intros _ s3 (Hok3 & Hr3 & Hb3 & Hf3 & t' & Ht' & Hnd' & Hsame & Hnew). split; [done|].
  split; [done|]. split; [done|]. split.
  - intros x nx Hx Hnx. apply Hf3; [|rewrite Hs2; [done|congruence|set_solver]]. set_solver.
  - exists p, t'. split_and!; [|exact Ht'|done|done|].
    + apply Hf3; [set_solver|]. simpl. by rewrite lookup_insert_ne, lookup_insert_eq.
    + intros x Hx. destruct (Hnew x Hx) as [->|Hn2]; [done|].
      destruct (decide (x = p)) as [->|]; [done|]. destruct (decide (x = node)) as [->|].
      * simpl in Hn2. by rewrite lookup_insert_ne, lookup_insert_eq in Hn2.
      * by rewrite Hs2 in Hn2.
Qed.

Lemma clone_tree_ok t fuel : null_links → t ≠ Leaf → (height t <= fuel)%nat → clone_spec fuel t.
Proof.
  intros Hj. revert fuel. induction t as [|q a l IHl r IHr]; intros fuel Hne Hf; [done|].
  intros orig par node nd k s Hrep Hnd Hnode Hm Hl0 Hr0 Hok Hnz Hroom.
  destruct Hrep as (-> & Hqz & lp & rp & Hq & Hrl & Hrr). cbn [addrs] in Hnd, Hnode.
  apply NoDup_cons in Hnd as [_ (Hndl & Hdis & Hndr)%NoDup_app].
  apply not_elem_of_cons in Hnode as [Hnq [Hnl Hnr]%not_elem_of_app].
  cbn [height] in Hf. destruct fuel as [|fuel]; [lia|]. cbn [clone_allocation_tree].
  cbn [addrs length Nat.pred] in Hroom. rewrite length_app, <- Nat.add_assoc in Hroom.
  rewrite (proj2 (Z.eqb_neq q 0)) by done. apply wp_bind. eapply wp_load_node; [done|]. cbn [alloc left right].
  apply wp_bind. eapply wp_set_node; [done|]. rewrite Hl0, Hr0.
  set (s1 := VmmStore _ _ _). set (nd1 := AllocationTree a 0 0 (parent nd)) in *.
  assert (Hok1 : store_ok s1) by exact (store_ok_node s node nd nd1 Hok Hm).
  assert (Hs1 : ∀ x, x ≠ node → vs_nodes s1 !! x = vs_nodes s !! x)
    by (intros x ?; simpl; by rewrite lookup_insert_ne).
  apply wp_bind. eapply wp_mono.
  { apply (clone_child_ok fuel l lp q node nd1 (λ p t, AllocationTree (alloc t) p (right t) (parent t))
      (length (addrs r) + k) s1 Hj); try done.
    - intros Hl. apply IHl; [done|lia].
    - eapply tree_rep_frame; [|exact Hrl]. intros x Hx. apply Hs1. by intros ->.
    - apply lookup_insert_eq. }
  cbn beta. intros _ s2 (Hok2 & Hrm2 & Hb2 & Hf2 & lc & tl & Hn2 & Htl & Hndtl & Hsl & Hnewl). cbn [alloc left right parent nd1] in Hn2.
  assert (Hold2 : ∀ x y, x ≠ node → vs_nodes s !! x = Some y → vs_nodes s2 !! x = Some y)
    by (intros x y ? ?; apply Hf2; [set_solver|by rewrite Hs1]).
  eapply wp_mono.
  { apply (clone_child_ok fuel r rp q node (AllocationTree a lc 0 (parent nd))
      (λ p t, AllocationTree (alloc t) (left t) p (parent t)) k s2 Hj);
      try done.
    - intros Hr. apply IHr; [done|lia].
    - eapply tree_rep_frame; [|exact Hrr]. intros x Hx. destruct (tree_rep_some _ _ _ _ _ Hrr Hx) as [y Hy].
      rewrite Hy. apply Hold2; [by intros ->|done]. }
  cbn beta. intros _ s3 (Hok3 & Hrm3 & Hb3 & Hf3 & rc & tr & Hn3 & Htr & Hndtr & Hsr & Hnewr).
  cbn [alloc left right parent] in Hn3.
  assert (Htln : ∀ x, x ∈ addrs tl → x ≠ node ∧ vs_nodes s !! x = None).
  { intros x Hx. pose proof (Hnewl x Hx) as Hnone. destruct (decide (x = node)) as [->|Hxn].
    - cbn [vs_nodes s1] in Hnone. by rewrite lookup_insert_eq in Hnone.
    - by rewrite <- Hs1. }
  assert (Htrn : ∀ x, x ∈ addrs tr → x ≠ node ∧ x ∉ addrs tl ∧ vs_nodes s !! x = None).
  { intros x Hx. pose proof (Hnewr x Hx) as Hnone. split_and!; [congruence| |].
    - intros Hxl. destruct (tree_rep_some _ _ _ _ _ Htl Hxl). congruence.
    - apply eq_None_not_Some. intros [y Hy]. rewrite (Hold2 x y) in Hnone; [done|congruence|done]. }
  split_and!; [done|done|by rewrite Hb3, Hb2| |].
  { intros x y Hx Hy. apply Hf3; [done|]. apply Hold2; [set_solver|done]. }
  exists (Node node a tl tr). split; [|split_and!].
  - cbn [tree_rep]. split_and!; [done|done|]. exists lc, rc. split_and!; [done| |done]. eapply tree_rep_frame; [|exact Htl]. intros x Hx.
    destruct (tree_rep_some _ _ _ _ _ Htl Hx) as [y Hy]. rewrite Hy. apply Hf3; [|done].
    destruct (Htln x Hx). set_solver.
  - cbn [addrs]. apply NoDup_cons. split; [|apply NoDup_app; split_and!; try done].
    + intros [Hx%Htln|Hx%Htrn]%elem_of_app; by destruct Hx.
    + intros x Hx Hx'. by destruct (Htrn x Hx') as (_ & ? & _).
  - done.
  - cbn [addrs]. intros x [->|[Hx%Htln|Hx%Htrn]%elem_of_app]%elem_of_cons; [by left|right..]; apply Hx.
Qed.

(** The copy of a whole tree. *)
Lemma clone_allocations_ok orig t k s :
  null_links → store_ok s → tree_rep (vs_nodes s) orig 0 t → NoDup (addrs t) → t ≠ Leaf →
  room (vs_heap s) (length (addrs t) + k) →
  wp (clone_allocations junk orig)
     (λ p s', store_ok s' ∧ room (vs_heap s') k ∧ vs_blocks s' = vs_blocks s ∧
        nodes_frame s s' [] ∧
        ∃ t', tree_rep (vs_nodes s') p 0 t' ∧ NoDup (addrs t') ∧ same_tree t t' ∧
          ∀ q, q ∈ addrs t' → vs_nodes s !! q = None) s.
Proof.
  intros Hj Hok Hrep Hnd Hne Hroom. destruct t as [|q a l r]; [done|].
  pose proof Hrep as (-> & Hqz & _). unfold clone_allocations. rewrite (proj2 (Z.eqb_neq q 0)) by done.
  apply wp_bind, wp_get, wp_bind, wp_kmalloc_node; [done|eapply (room_can_malloc _ (length (addrs l ++ addrs r) + k)); [exact Hroom|by vm_compute]|].
  intros p h Hp Hpn s1 Hok1 Hrm.
  assert (Hpt : ∀ x, x ∈ addrs (Node q a l r) → x ≠ p).
  { intros x Hx ->. destruct (tree_rep_some _ _ _ _ _ Hrep Hx). congruence. }
  apply wp_bind. eapply wp_mono.
  { apply (clone_tree_ok (Node q a l r) (node_fuel s) Hj ltac:(done)) with (par := 0) (nd := junk p) (k := k); try done.
    - pose proof (tree_rep_height _ _ _ _ Hnd Hrep). unfold node_fuel. lia.
    - eapply tree_rep_frame; [|exact Hrep]. intros x Hx%Hpt. by apply lookup_insert_ne.
    - intros Hx. by apply (Hpt p).
    - apply lookup_insert_eq.
    - apply Hj.
    - apply Hj.
    - lia.
    - apply Hrm. exact Hroom. }
  cbn beta. intros _ s2 (Hok2 & Hr2 & Hb2 & Hf2 & t' & Ht' & Hnd' & Hsame & Hnew). apply wp_ret.
  split_and!; [done..| |].
  - intros x y _ Hy. apply Hf2; [apply not_elem_of_cons; split; [congruence|apply not_elem_of_nil]|].
    simpl. rewrite lookup_insert_ne; [done|congruence].
  - exists t'. destruct (Hj p) as (_ & _ & Ep). rewrite Ep in Ht'. split_and!; [done..|].
    intros x Hx. destruct (Hnew x Hx) as [->|Hn]; [done|]. cbn [vs_nodes s1] in Hn.
    by apply lookup_insert_None in Hn as [? _].
Qed.

End CloneTree.

(** ** The copy of a context *)

Section Clone.
Context {H : Type} `{Allocator H} (junk : Z → vmm_allocation_tree) (Hjunk : null_links junk).
Implicit Types s : vmm_store H.

Lemma allocs_same t t' : same_tree t t' → allocs t' = allocs t ∧ oldest t' = oldest t.
Proof.
  intros Hs. pose proof (same_tree_elems _ _ Hs) as E. destruct t as [|p a l r], t' as [|p' a' l' r']; try done.
  destruct Hs as (-> & _). unfold allocs, oldest. by rewrite E.
Qed.

Lemma in_use_same t t' : same_tree t t' → in_use t → in_use t'.
Proof. destruct t, t'; try done. by intros (-> & _). Qed.

Lemma length_addrs t : length (addrs t) = length (elems t).
Proof. induction t as [|q a l IHl r IHr]; simpl; [done|]. rewrite !length_app. simpl. lia. Qed.

(** The nodes of the tree are no more than its allocations, but for the root of an
    empty one. *)
Lemma length_allocs s ctx l t A : as_inv s ctx l t → lists t A → (length (addrs t) <= S (length A))%nat.
Proof.
  intros [_ _ _ _ _ Hord _] [HA _]. rewrite <- HA, length_addrs. destruct Hord as [[p ->]|(Hu & _)]; [simpl; lia|].
  rewrite (allocs_in_use _ Hu). lia.
Qed.

Lemma vmm_clone_context_ok ctx bl A S k s :
  spaces s (Space ctx bl A :: S) → room (vs_heap s) (1 + length bl + (1 + length A + k)) →
  wp (vmm_clone_context junk ctx)
     (λ ctx2 s', spaces s' (Space ctx2 bl A :: Space ctx bl A :: S) ∧ room (vs_heap s') k) s.
Proof.
  intros Hsp Hroom. destruct (spaces_head _ _ _ _ _ Hsp) as (l & t & Hinv & <- & HA).
  pose proof Hinv as [Hok Hf Hrg Htr Hnd Hord Hap Hst].
  pose proof (length_allocs _ _ _ _ _ Hinv HA) as Hlen.
  unfold vmm_clone_context. apply wp_bind. eapply wp_mono.
  { apply (clone_free_blocks_ok (free_blocks ctx) l (1 + length A + k) s Hok Hf). by rewrite length_fmap in Hroom. }
  cbn beta. intros fb s1 (Hok1 & Hr1 & Hn1 & c & Hc & Ec & Hfresh & Hold).
  assert (Hne : t ≠ Leaf) by (destruct Hord as [[p ->]|(Hu & _)]; [done|by intros ->]).
  apply wp_bind. eapply wp_mono.
  { apply (clone_allocations_ok junk (allocations ctx) t k s1 Hjunk Hok1); [by rewrite Hn1|done..|].
    eapply room_le; [|exact Hr1]. lia. }
  cbn beta. intros al s2 (Hok2 & Hr2 & Hb2 & Hf2 & t' & Ht' & Hnd' & Hsame & Hnew). apply wp_ret.
  split; [|done]. destruct (allocs_same _ _ Hsame) as [Ea Eo].
  apply (spaces_new s s2 _ _ (c, t') Hsp).
  - split_and!; [split; cbn [fst snd sc_ctx allocations free_blocks]; rewrite ?Ec, ?Ea; try done|done|by unfold lists; cbn [snd sc_allocs]; rewrite Ea, Eo].
    + unfold ctx_free. by rewrite Hb2.
    + destruct Hord as [[p ->]|(Hu & Ht & Hal)].
      * left. destruct t' as [|q a' tl tr]; [done|]. destruct Hsame as (-> & Hl & Hr). destruct tl, tr; try done. by exists q.
      * right. split_and!; [by eapply in_use_same|by eapply same_tree_bst|].
        by rewrite (same_tree_elems _ _ Hsame).
  - split_and!; [intros p b _ Hb; rewrite Hb2; by apply Hold| | |].
    + intros q nd _ Hq. apply Hf2; [apply not_elem_of_nil|by rewrite Hn1].
    + intros p Hp. right. by apply Hfresh.
    + intros q Hq. right. rewrite <- Hn1. by apply Hnew.
Qed.

End Clone.

Section Props.
Context {H : Type} `{Allocator H} (mi : kernel_meminfo).
Implicit Types s : vmm_store H.

(** C9: when the memory that kmalloc hands out holds zeros where the code leaves the links
    of the new nodes uninitialised ([null_links]; [clone_keeps_old_links] is what happens
    otherwise), vmm_clone_context makes an address space with the same allocations, and from
    then on the two are independent: pages mapped in the copy are found in the copy,
    and the original finds what it found before. *)
Theorem vmm_clone_independent junk ctx va pa n fl bl A x s :
  null_links junk → ctx_rep s ctx bl A → room (vs_heap s) (length bl + length A + 4) →
  paging_is_aligned va = true → paging_is_aligned pa = true →
  0 < va → 0 < n → va + n * PAGE_SIZE < 2 ^ 32 → within bl va (va + n * PAGE_SIZE) → 0 <= x →
  wp (ctx2 ← vmm_clone_context junk ctx;
      r ← vmm_map_pages mi ctx2 va pa n fl;
      a ← vmm_find_allocation ctx x;
      b ← vmm_find_allocation r.2 x;
      mret (a, b))
     (λ ab _, found A x ab.1 ∧ found (Allocation va pa n fl :: A) x ab.2) s.
Proof.
  intros Hj Hrep Hroom Hal Hpa Hva Hn Hend Hw Hx. apply wp_bind. eapply wp_mono.
  { apply (vmm_clone_context_ok junk Hj ctx bl A [] 2 s); [by apply spaces_one|]. eapply room_le; [|exact Hroom]. lia. }
  cbn beta. intros ctx2 s1 [Htwo Hr1]. apply wp_bind. eapply wp_mono.
  { by apply (spaces_map_at mi ctx2 va pa n fl bl A [Space ctx bl A] s1). }
  cbn beta. intros r s2 (_ & _ & (bl' & Htwo2 & _) & _). apply wp_bind. eapply wp_mono.
  { eapply vmm_find_allocation_ok; [|done]. eapply spaces_head, spaces_perm; [|exact Htwo2]. apply Permutation_swap. }
  cbn beta. intros a s3 [-> Ha]. apply wp_bind. eapply wp_mono.
  { eapply vmm_find_allocation_ok; [by eapply spaces_head|done]. }
  cbn beta. intros b s4 [_ Hb]. by apply wp_ret.
Qed.

End Props.

(** ** Witnesses *)

(** Memory that was zero before kmalloc handed it out. *)
Definition zero_node (p : Z) : vmm_allocation_tree := AllocationTree no_allocation 0 0 0.

Lemma zero_node_null : null_links zero_node.
Proof. done. Qed.

Lemma space0_room k : Z.of_nat (3 + k) * 72 < KERNEL_HEAP_SIZE - 8 → room (vs_heap space0.2) k.
Proof.
  intros Hk. pose proof (new_context_free meminfo0 store0 store0_ok ltac:(by vm_compute) ltac:(by vm_compute)
    (heap0_room 3 ltac:(done))) as W.
  unfold wp in W. match type of W with match ?r with _ => _ end => assert (E : r = Ok space0) end.
  { vm_compute. reflexivity. }
  rewrite E in W. destruct space0 as [ctx s]. destruct W as [_ W]. by apply W, heap0_room.
Qed.

Lemma vmm_clone_independent_witness :
  wp (ctx2 ← vmm_clone_context zero_node space1.1;
      r ← vmm_map_pages meminfo0 ctx2 0x20000 0x600000 2 7;
      a ← vmm_find_allocation space1.1 0x21000;
      b ← vmm_find_allocation r.2 0x21000;
      mret (a, b))
     (λ ab _, ab = (no_allocation, Allocation 0x20000 0x600000 2 7)) space1.2.
Proof.
  eapply wp_mono.
  - apply (vmm_clone_independent meminfo0 zero_node space1.1 0x20000 0x600000 2 7 _ _ 0x21000 space1.2
      zero_node_null (proj1 space1_rep)); [|done..|by vm_compute| |done].
    + eapply (after_map_rep space0 _ [] 0x10000 0x400000 4 7 0x10000
        [(0, 16); (0x14000, 0xBFFEC); (0xC0000000, 0x40000)] 8
        (conj (proj1 space0_rep) (space0_room 10 ltac:(done)))); [by vm_compute..|].
      destruct (took_at meminfo0 0x10000 4 true [(0, 0xC0000); (0xC0000000, 0x40000)])
        as (bl' & Hrem & Htook & _); [by vm_compute..| |by vm_compute in Hrem; injection Hrem as <-].
      exists (0, 0xC0000). split; [left|by vm_compute].
    + exists (0x14000, 0xBFFEC). split; [right; left|by vm_compute].
  - cbn beta. intros [a b] _ [Ha Hb]. cbn [fst snd] in Ha, Hb. f_equal.
    + destruct Ha as [[->%list_elem_of_singleton [_ Hc]]|[-> _]]; [by vm_compute in Hc|done].
    + destruct Hb as [[[->| ->%list_elem_of_singleton]%elem_of_cons Hc]|[_ Hno]]; [done| |].
      * by destruct Hc as [_ Hc]; vm_compute in Hc.
      * by destruct (Hno (Allocation 0x20000 0x600000 2 7)); [left|].
Defined.

(** ** Departures *)

(** The links of a copied node without children are what kmalloc's memory held: when that
    was not 0, looking up an address in the copy follows them. *)
Theorem clone_keeps_old_links :
  (ctx ← vmm_clone_context (λ _, AllocationTree no_allocation 0x40 0x40 0x40) space1.1;
   vmm_find_allocation ctx 0x30000) space1.2 = Err (EFault 0x40).
Proof. vm_compute. reflexivity. Qed.
