(* ===== verification/Mem.v ===== *)
(** * Byte-addressed memory

    The memory that the string functions, the ELF loader and the multiboot code
    read and write: bytes by address; an access to an address that is not mapped
    is a fault.  Pointers are 32 bits wide and wrap around. *)

From S2P Require Import Prelude.

Notation mem := (gmap Z Z).

(** What code that reads and writes bytes uses of the machine it runs on: a flat memory
    here, and memory behind the page tables of the running task in [Loader]. *)
Class ByteMemory (S : Type) := {
  load8 : Z → M S Z;
  store8 : Z → Z → M S unit
}.
Arguments load8 : simpl never.
Arguments store8 : simpl never.

Definition mem_load8 (p : Z) : M mem Z := λ m,
  match m !! u32 p with Some b => Ok (b, m) | None => Err (EFault (u32 p)) end.

Definition mem_store8 (p v : Z) : M mem unit := λ m,
  match m !! u32 p with
  | Some _ => Ok (tt, <[u32 p := u8 v]> m)
  | None => Err (EFault (u32 p))
  end.

#[export] Instance mem_bytes : ByteMemory mem := {| load8 := mem_load8; store8 := mem_store8 |}.

(** Little-endian loads. *)
Section Loads.
Context {S : Type} `{ByteMemory S}.

Definition load16 (p : Z) : M S Z :=
  lo ← load8 p; hi ← load8 (p + 1); mret (lo + 2 ^ 8 * hi).
Definition load32 (p : Z) : M S Z :=
  lo ← load16 p; hi ← load16 (p + 2); mret (lo + 2 ^ 16 * hi).
Definition load64 (p : Z) : M S Z :=
  lo ← load32 p; hi ← load32 (p + 4); mret (lo + 2 ^ 32 * hi).

End Loads.

(** The bytes [l] are at [p]. *)
Definition bytes_at (m : mem) (p : Z) (l : list Z) : Prop :=
  ∀ i b, l !! i = Some b → m !! (p + Z.of_nat i) = Some b ∧ is_u8 b.

(** [l] fits in the address space at [p]. *)
Definition fits_at (p : Z) (l : list Z) : Prop := 0 <= p ∧ p + Z.of_nat (length l) <= 2 ^ 32.

(** Only [lo, hi) may differ. *)
Definition same_outside (m m' : mem) (lo hi : Z) : Prop :=
  ∀ x, ¬ lo <= x < hi → m' !! x = m !! x.

Section Lemmas.
Implicit Types m : mem.

Lemma same_outside_refl m lo hi : same_outside m m lo hi.
Proof. done. Qed.

Lemma same_outside_trans m1 m2 m3 lo hi :
  same_outside m1 m2 lo hi → same_outside m2 m3 lo hi → same_outside m1 m3 lo hi.
Proof. intros H1 H2 x Hx. by rewrite H2, H1. Qed.

Lemma same_outside_mono m m' lo hi lo' hi' :
  same_outside m m' lo hi → lo' <= lo → hi <= hi' → same_outside m m' lo' hi'.
Proof. intros Hs ? ? x Hx. apply Hs. lia. Qed.

Lemma same_outside_join m1 m2 m3 a b c d lo hi :
  same_outside m1 m2 a b → same_outside m2 m3 c d → lo <= a → b <= hi → lo <= c → d <= hi →
  same_outside m1 m3 lo hi.
Proof. intros H1 H2 ? ? ? ? x Hx. rewrite H2, H1 by lia. done. Qed.

Lemma same_outside_insert m p v lo hi : lo <= p < hi → same_outside m (<[p := v]> m) lo hi.
Proof. intros Hp x Hx. rewrite lookup_insert_ne; [done|lia]. Qed.

Lemma bytes_at_nil m p : bytes_at m p [].
Proof. intros i b. by rewrite lookup_nil. Qed.

Lemma bytes_at_cons m p b l :
  bytes_at m p (b :: l) ↔ m !! p = Some b ∧ is_u8 b ∧ bytes_at m (p + 1) l.
Proof.
  split.
  - intros Hb. destruct (Hb 0%nat b eq_refl) as [H0 Hu]. rewrite Z.add_0_r in H0.
    split_and!; [done..|]. intros i c Hc. destruct (Hb (S i) c Hc) as [H1 ?]. split; [|done].
    rewrite <- H1. f_equal. lia.
  - intros (H0 & Hu & Hl) [|i] c Hc; simplify_eq/=.
    + by rewrite Z.add_0_r.
    + destruct (Hl i c Hc) as [H1 ?]. split; [|done]. rewrite <- H1. f_equal. lia.
Qed.

Lemma bytes_at_app m p l1 l2 :
  bytes_at m p (l1 ++ l2) ↔ bytes_at m p l1 ∧ bytes_at m (p + Z.of_nat (length l1)) l2.
Proof.
  revert p. induction l1 as [|b l1 IH]; intros p; simpl.
  - rewrite Z.add_0_r. split; [|tauto]. intros; split; [apply bytes_at_nil|done].
  - rewrite !bytes_at_cons, IH. replace (p + Z.of_nat (S (length l1))) with
      (p + 1 + Z.of_nat (length l1)) by lia. tauto.
Qed.

Lemma bytes_at_frame m m' p l lo hi :
  bytes_at m p l → same_outside m m' lo hi → p + Z.of_nat (length l) <= lo ∨ hi <= p →
  bytes_at m' p l.
Proof.
  intros Hb Hs Hd i b Hi. apply lookup_lt_Some in Hi as Hlt. rewrite Hs by lia. by apply Hb.
Qed.

Lemma bytes_at_u8 m p l : bytes_at m p l → Forall is_u8 l.
Proof. intros Hb. apply Forall_lookup. intros i b Hi. by apply (Hb i b). Qed.

(** A mapped range is not longer than the memory. *)
Lemma bytes_at_size m p l : bytes_at m p l → (length l <= size m)%nat.
Proof.
  intros Hb. rewrite <- (size_dom m).
  rewrite <- (Nat2Z.id (length l)), <- (length_seqZ p (Z.of_nat (length l))).
  rewrite <- (size_list_to_set (C := gset Z) _ (NoDup_seqZ _ _)).
  apply subseteq_size. intros x [Hlo Hhi]%elem_of_list_to_set%elem_of_seqZ. apply elem_of_dom.
  destruct (lookup_lt_is_Some_2 l (Z.to_nat (x - p))) as [b Hi]; [lia|].
  destruct (Hb _ _ Hi) as [E _]. replace (p + _) with x in E by lia. eauto.
Qed.

Lemma wp_load8 p b Q m : m !! p = Some b → is_u32 p → Q b m → wp (load8 p) Q m.
Proof. unfold wp, load8, mem_bytes, mem_load8. intros Hm Hp. by rewrite (u32_small p Hp), Hm. Qed.

Lemma wp_store8 p b v Q m :
  m !! p = Some b → is_u32 p → Q tt (<[p := u8 v]> m) → wp (store8 p v) Q m.
Proof. unfold wp, store8, mem_bytes, mem_store8. intros Hm Hp. by rewrite (u32_small p Hp), Hm. Qed.

End Lemmas.

(** ** Mapped ranges

    The operations on memory change the values of bytes, never which addresses are
    mapped. *)

Definition mapped (m : mem) (p n : Z) : Prop :=
  ∀ x, p <= x < p + n → ∃ b, m !! x = Some b ∧ is_u8 b.

Definition keeps {A} (c : M mem A) : Prop :=
  ∀ m a m', c m = Ok (a, m') → ∀ p n, mapped m p n → mapped m' p n.

Section Keeps.

Lemma keeps_ret {A} (a : A) : keeps (mret a).
Proof. by intros m a' m' [= _ <-]. Qed.

Lemma keeps_throw {A} e : keeps (throw (A := A) e).
Proof. done. Qed.

Lemma keeps_get : keeps (get (S := mem)).
Proof. by intros m a' m' [= _ <-]. Qed.

Lemma keeps_bind {A B} (c : M mem A) (f : A → M mem B) :
  keeps c → (∀ a, keeps (f a)) → keeps (c ≫= f).
Proof.
  intros Hc Hf m b m2. unfold mbind, M_bind. destruct (c m) as [[a m1]|] eqn:E; [|done].
  intros E2 p n Hp. eapply Hf; [exact E2|]. by eapply Hc.
Qed.

Lemma keeps_load8 p : keeps (load8 p).
Proof. intros m a m'. unfold load8, mem_bytes, mem_load8. case_match; [|done]. by intros [= _ <-]. Qed.

Lemma keeps_store8 p v : keeps (store8 p v).
Proof.
  intros m a m'. unfold store8, mem_bytes, mem_store8. destruct (m !! u32 p) eqn:E; [|done]. intros [= _ <-] q n Hq x Hx.
  destruct (decide (x = u32 p)) as [->|Hne].
  - exists (u8 v). split; [apply lookup_insert_eq|apply u8_range].
  - rewrite lookup_insert_ne by done. by apply Hq.
Qed.

Lemma wp_keeps {A} (c : M mem A) Q m p n :
  keeps c → mapped m p n → wp c Q m → wp c (λ a m', Q a m' ∧ mapped m' p n) m.
Proof.
  intros Hc Hp Hw. apply wp_ok in Hw as (a & m' & E & HQ). eapply wp_of_ok; [exact E|].
  split; [done|]. by eapply Hc.
Qed.

(** A mapped range holds some bytes. *)
Lemma mapped_bytes m p n :
  0 <= n → mapped m p n → ∃ l, bytes_at m p l ∧ Z.of_nat (length l) = n.
Proof.
  intros Hn Hp. exists ((λ x, default 0 (m !! x)) <$> seqZ p n). split.
  - intros i b Hb. rewrite list_lookup_fmap in Hb. apply fmap_Some in Hb as (x & Hx & ->).
    apply lookup_seqZ in Hx as [-> Hi]. destruct (Hp (p + Z.of_nat i)) as (c & Hc & Hu); [lia|].
    by rewrite Hc.
  - rewrite length_fmap, length_seqZ. lia.
Qed.

(** What was mapped is still mapped. *)
Definition still_mapped (m m' : mem) : Prop := ∀ p n, mapped m p n → mapped m' p n.

Lemma still_mapped_refl m : still_mapped m m.
Proof. by intros p n. Qed.

Lemma still_mapped_trans m1 m2 m3 : still_mapped m1 m2 → still_mapped m2 m3 → still_mapped m1 m3.
Proof. intros H1 H2 p n Hm. by apply H2, H1. Qed.

(** Writing bytes into a mapped range leaves it mapped. *)
Lemma mapped_patch (m m' : mem) p n q l :
  bytes_at m' q l → same_outside m m' q (q + Z.of_nat (length l)) → mapped m p n → mapped m' p n.
Proof.
  intros Hb Hso Hm x Hx. destruct (decide (q <= x < q + Z.of_nat (length l))) as [Hin|Hout].
  - destruct (lookup_lt_is_Some_2 l (Z.to_nat (x - q))) as [b Hl]; [lia|].
    destruct (Hb _ _ Hl) as [Hx' ?]. exists b. split; [|done]. rewrite <- Hx'. f_equal. lia.
  - rewrite Hso by done. by apply Hm.
Qed.

End Keeps.

Create HintDb keeps discriminated.
#[export] Hint Resolve keeps_ret keeps_throw keeps_get keeps_load8 keeps_store8 : keeps.

(** [keeps_tac] goes through the binds and the cases of a computation. *)
Ltac keeps_tac :=
  repeat first
    [ solve [eauto with keeps]
    | apply keeps_bind; [|intros ?]
    | progress cbv beta iota
    | match goal with |- keeps (match ?x with _ => _ end) => destruct x end ].
