(* ===== verification/CString.v ===== *)
(** * The freestanding string library: kernel/string/*.c

    Byte loops over memory.  [size_t] counters run to the bound given; a loop over
    a string stops at the first zero byte, and the fuel of these loops is the
    number of mapped bytes, beyond which no string can extend. *)

From S2P Require Import Prelude Mem.

Section Copying.
Context {St : Type} `{ByteMemory St}.

Fixpoint memcpy_loop (n : nat) (to from i : Z) : M St unit :=
  match n with
  | O => mret tt
  | S n =>
      b ← load8 (from + i);
      store8 (to + i) b;;
      memcpy_loop n to from (i + 1)
  end.

Definition memcpy (destination source num : Z) : M St Z :=
  memcpy_loop (Z.to_nat num) destination source 0;; mret destination.

(** memmove is a stub in the source: it copies nothing. *)
Definition memmove (destination source num : Z) : M St Z := mret destination.

Fixpoint memset_loop (n : nat) (buf value i : Z) : M St unit :=
  match n with
  | O => mret tt
  | S n => store8 (buf + i) (u8 value);; memset_loop n buf value (i + 1)
  end.

Definition memset (ptr value num : Z) : M St Z :=
  memset_loop (Z.to_nat num) ptr value 0;; mret ptr.

End Copying.

Section Operations.

(** The difference is stored in a [char], which is signed on i386. *)
Fixpoint memcmp_loop (n : nat) (p1 p2 i : Z) : M mem Z :=
  match n with
  | O => mret 0
  | S n =>
      b1 ← load8 (p1 + i);
      b2 ← load8 (p2 + i);
      let v := to_signed 8 (b1 - b2) in
      if v =? 0 then memcmp_loop n p1 p2 (i + 1) else mret v
  end.

Definition memcmp (ptr1 ptr2 num : Z) : M mem Z := memcmp_loop (Z.to_nat num) ptr1 ptr2 0.

Fixpoint strlen_loop (fuel : nat) (s len : Z) : M mem Z :=
  match fuel with
  | O => throw EFuel
  | S fuel =>
      c ← load8 (s + len);
      if c =? 0 then mret len else strlen_loop fuel s (len + 1)
  end.

Definition str_fuel (m : mem) : nat := S (size m).

Definition strlen (s : Z) : M mem Z :=
  m ← get; strlen_loop (str_fuel m) s 0.

(** The three assignments in the body of strrev's loop. *)
Definition xor_swap (s i j : Z) : M mem unit :=
  x ← load8 (s + i); y ← load8 (s + j); store8 (s + i) (Z.lxor x y);;
  x ← load8 (s + i); y ← load8 (s + j); store8 (s + j) (Z.lxor x y);;
  x ← load8 (s + i); y ← load8 (s + j); store8 (s + i) (Z.lxor x y).

(** The loop of strrev; [i] and [j] are the source's [int] indices. *)
Fixpoint strrev_loop (fuel : nat) (s i j : Z) : M mem unit :=
  match fuel with
  | O => throw EFuel
  | S fuel =>
      if i <=? j then mret tt
      else
        xor_swap s i j;;
        strrev_loop fuel s (i - 1) (j + 1)
  end.

Definition strrev (s : Z) : M mem Z :=
  m ← get;
  len ← strlen s;
  strrev_loop (str_fuel m) s (to_signed 32 (len - 1)) 0;;
  mret s.

Definition islower (c : Z) : bool := (97 <=? c) && (c <=? 122).

Definition toupper (c : Z) : Z := if islower c then to_signed 8 (c + (65 - 97)) else c.

(** strupper recomputes strlen before each character, as the source does. *)
Fixpoint strupper_loop (fuel : nat) (s i : Z) : M mem unit :=
  match fuel with
  | O => throw EFuel
  | S fuel =>
      len ← strlen s;
      if len <=? i then mret tt
      else
        c ← load8 (s + i);
        let c := to_signed 8 c in
        (if islower c then store8 (s + i) (toupper c) else mret tt);;
        strupper_loop fuel s (i + 1)
  end.

Definition strupper (s : Z) : M mem Z :=
  m ← get; strupper_loop (str_fuel m) s 0;; mret s.

End Operations.

(** ** Copying and filling *)

Section Copy.

(** A copy in two parts. *)
Lemma memcpy_loop_app {St : Type} `{ByteMemory St} (n m : nat) to from i (s : St) :
  memcpy_loop (n + m) to from i s =
  (_ ← memcpy_loop n to from i; memcpy_loop m to from (i + Z.of_nat n)) s.
Proof.
  revert i s. induction n as [|n IH]; intros i s; [by rewrite Z.add_0_r|].
  cbn [Nat.add memcpy_loop]. replace (i + Z.of_nat (S n)) with (i + 1 + Z.of_nat n) by lia.
  unfold mbind, M_bind in *. destruct (load8 (from + i) s) as [[b s1]|]; [|done].
  destruct (store8 (to + i) b s1) as [[[] s2]|]; [|done]. apply IH.
Qed.

Lemma memcpy_loop_ok to from i l m old :
  bytes_at m (from + i) l → bytes_at m (to + i) old → length old = length l →
  fits_at (from + i) l → fits_at (to + i) l →
  to <= from ∨ from + i + Z.of_nat (length l) <= to + i →
  wp (memcpy_loop (length l) to from i)
     (λ _ m', bytes_at m' (to + i) l ∧
              same_outside m m' (to + i) (to + i + Z.of_nat (length l))) m.
Proof.
  revert i m old. induction l as [|b l IH]; intros i m [|o old] Hl Ho Hlen Hf Ht Hd; simplify_eq/=.
  { by apply wp_ret. }
  apply bytes_at_cons in Hl as (Hb & Hu & Hl), Ho as (Hm & _ & Ho).
  unfold fits_at in *. simpl in *.
  apply wp_bind. eapply wp_load8; [done|unfold is_u32; lia|].
  apply wp_bind. eapply wp_store8; [done|unfold is_u32; lia|]. rewrite u8_small by done.
  rewrite !Zplus_assoc_reverse in *.
  assert (Hso : same_outside m (<[to + i := b]> m) (to + i) (to + i + 1))
    by (apply same_outside_insert; lia).
  eapply wp_mono.
  { eapply (IH (i + 1) _ old); try lia.
    - eapply bytes_at_frame; [exact Hl|exact Hso|]. lia.
    - eapply bytes_at_frame; [exact Ho|exact Hso|]. lia. }
  intros [] m' [Hb' Hs']. split.
  - apply bytes_at_cons. rewrite Zplus_assoc_reverse. split_and!; [|done..].
    rewrite Hs' by lia. by rewrite lookup_insert_eq.
  - eapply same_outside_join; [exact Hso|exact Hs'|lia..].
Qed.

Lemma memset_loop_ok buf value i old m :
  bytes_at m (buf + i) old → fits_at (buf + i) old →
  wp (memset_loop (length old) buf value i)
     (λ _ m', bytes_at m' (buf + i) (replicate (length old) (u8 value)) ∧
              same_outside m m' (buf + i) (buf + i + Z.of_nat (length old))) m.
Proof.
  revert i m. induction old as [|o old IH]; intros i m Ho Hf; simpl in *.
  { apply wp_ret. split; [apply bytes_at_nil|done]. }
  apply bytes_at_cons in Ho as (Hm & _ & Ho). unfold fits_at in *. simpl in *.
  apply wp_bind. eapply wp_store8; [done|unfold is_u32; lia|].
  rewrite (u8_small (u8 value)) by apply u8_range. rewrite !Zplus_assoc_reverse in *.
  assert (Hso : same_outside m (<[buf + i := u8 value]> m) (buf + i) (buf + i + 1))
    by (apply same_outside_insert; lia).
  eapply wp_mono.
  { apply (IH (i + 1)); [|lia]. eapply bytes_at_frame; [exact Ho|exact Hso|]. lia. }
  intros [] m' [Hb' Hs']. split.
  - apply bytes_at_cons. rewrite Zplus_assoc_reverse. split_and!; [|apply u8_range|done].
    rewrite Hs' by lia. by rewrite lookup_insert_eq.
  - eapply same_outside_join; [exact Hso|exact Hs'|lia..].
Qed.

(** The value of memcmp on two byte lists. *)
Fixpoint bytes_cmp (l1 l2 : list Z) : Z :=
  match l1, l2 with
  | b1 :: l1, b2 :: l2 => if b1 =? b2 then bytes_cmp l1 l2 else to_signed 8 (b1 - b2)
  | _, _ => 0
  end.

Lemma to_signed8_zero b1 b2 : is_u8 b1 → is_u8 b2 → to_signed 8 (b1 - b2) = 0 ↔ b1 = b2.
Proof.
  unfold to_signed. change (2 ^ (8 - 1)) with 128. intros. split; [|by intros ->; rewrite Z.sub_diag].
  case_match eqn:E; ulia.
Qed.

Lemma memcmp_loop_ok p1 p2 i l1 l2 m :
  bytes_at m (p1 + i) l1 → bytes_at m (p2 + i) l2 → length l1 = length l2 →
  fits_at (p1 + i) l1 → fits_at (p2 + i) l2 →
  wp (memcmp_loop (length l1) p1 p2 i) (λ v m', m' = m ∧ v = bytes_cmp l1 l2) m.
Proof.
  revert i l2. induction l1 as [|b1 l1 IH]; intros i [|b2 l2] H1 H2 Hlen F1 F2; simplify_eq/=.
  { by apply wp_ret. }
  apply bytes_at_cons in H1 as (Hm1 & Hu1 & H1), H2 as (Hm2 & Hu2 & H2).
  unfold fits_at in *. simpl in *.
  apply wp_bind. eapply wp_load8; [done|unfold is_u32; lia|].
  apply wp_bind. eapply wp_load8; [done|unfold is_u32; lia|].
  rewrite !Zplus_assoc_reverse in *.
  destruct (Z.eqb_spec b1 b2) as [->|Hne].
  - rewrite Z.sub_diag. simpl. apply IH; try done; lia.
  - assert (to_signed 8 (b1 - b2) ≠ 0) by (by rewrite to_signed8_zero).
    rewrite (proj2 (Z.eqb_neq _ 0)) by done. by apply wp_ret.
Qed.

Lemma bytes_cmp_zero l1 l2 :
  Forall is_u8 l1 → Forall is_u8 l2 → length l1 = length l2 → bytes_cmp l1 l2 = 0 ↔ l1 = l2.
Proof.
  revert l2. induction l1 as [|b1 l1 IH]; intros [|b2 l2]; simpl; try done.
  intros [Hu1 H1]%Forall_cons [Hu2 H2]%Forall_cons [= Hlen].
  destruct (Z.eqb_spec b1 b2) as [->|Hne].
  - rewrite (IH l2) by done. naive_solver.
  - rewrite to_signed8_zero by done. naive_solver.
Qed.

End Copy.

(** ** Strings *)

(** The C string [l] at [s]: no zero byte in [l], and one behind it. *)
Definition cstring (m : mem) (s : Z) (l : list Z) : Prop :=
  bytes_at m s (l ++ [0]) ∧ Forall (λ b, b ≠ 0) l ∧ fits_at s (l ++ [0]).

Section Strings.

Lemma strlen_loop_ok fuel s len l m :
  bytes_at m (s + len) (l ++ [0]) → Forall (λ b, b ≠ 0) l → fits_at (s + len) (l ++ [0]) →
  (length l < fuel)%nat →
  wp (strlen_loop fuel s len) (λ r m', m' = m ∧ r = len + Z.of_nat (length l)) m.
Proof.
  revert len l. induction fuel as [|fuel IH]; intros len l Hb Hnz Hf Hfuel; [lia|].
  destruct l as [|b l]; simpl in *; apply bytes_at_cons in Hb as (Hm & _ & Hb); unfold fits_at in *;
    simpl in *; apply wp_bind; (eapply wp_load8; [done|unfold is_u32; lia|]).
  - apply wp_ret. split; [done|lia].
  - apply Forall_cons in Hnz as [Hb0 Hnz]. rewrite (proj2 (Z.eqb_neq b 0)) by done.
    rewrite Zplus_assoc_reverse in Hb.
    eapply wp_mono; [apply (IH (len + 1) l); try done; lia|]. intros r m' [-> ->]. split; [done|lia].
Qed.

Lemma strlen_ok s l m :
  cstring m s l → wp (strlen s) (λ r m', m' = m ∧ r = Z.of_nat (length l)) m.
Proof.
  intros (Hb & Hnz & Hf). apply wp_bind, wp_get.
  apply (strlen_loop_ok _ s 0 l m); [by rewrite Z.add_0_r|done|by rewrite Z.add_0_r|].
  pose proof (bytes_at_size _ _ _ Hb) as Hs. rewrite length_app in Hs. unfold str_fuel. simpl in Hs. lia.
Qed.

(** The exchange of two bytes by three exclusive-ors. *)
Lemma lxor_u8 a b : is_u8 a → is_u8 b → u8 (Z.lxor a b) = Z.lxor a b.
Proof.
  intros Ha Hb. rewrite <- (u8_small a Ha) at 2. rewrite <- (u8_small b Hb) at 2.
  unfold u8. rewrite <- !Z.land_ones by lia. apply Z.bits_inj'. intros k Hk.
  rewrite !Z.land_spec, !Z.lxor_spec, !Z.land_spec. by destruct (Z.testbit a k), (Z.testbit b k), (Z.testbit _ k).
Qed.

Lemma xor_swap_ok s i j x y m Q :
  m !! (s + i) = Some x → m !! (s + j) = Some y → is_u8 x → is_u8 y → i ≠ j →
  is_u32 (s + i) → is_u32 (s + j) →
  Q tt (<[s + i := y]> (<[s + j := x]> m)) →
  wp (xor_swap s i j) Q m.
Proof.
  intros Hx Hy Hux Huy Hne Hi Hj HQ.
  assert (Hij : s + i ≠ s + j) by lia.
  apply wp_bind. eapply wp_load8; [exact Hx|done|]. apply wp_bind. eapply wp_load8; [exact Hy|done|].
  apply wp_bind. eapply wp_store8; [exact Hx|done|]. rewrite lxor_u8 by done.
  apply wp_bind. eapply wp_load8; [apply lookup_insert_eq|done|].
  apply wp_bind. eapply wp_load8; [rewrite lookup_insert_ne by done; exact Hy|done|].
  apply wp_bind. eapply wp_store8; [rewrite lookup_insert_ne by done; exact Hy|done|].
  rewrite Z.lxor_assoc, Z.lxor_nilpotent, Z.lxor_0_r, u8_small by done.
  apply wp_bind. eapply wp_load8; [rewrite lookup_insert_ne by done; apply lookup_insert_eq|done|].
  apply wp_bind. eapply wp_load8; [apply lookup_insert_eq|done|].
  eapply wp_store8; [rewrite lookup_insert_ne by done; apply lookup_insert_eq|done|].
  rewrite (Z.lxor_comm x y), Z.lxor_assoc, Z.lxor_nilpotent, Z.lxor_0_r, u8_small by done.
  by rewrite (insert_insert_ne _ (s + j)), insert_insert_eq in * by done.
Qed.

(** The loop reverses the segment between [j] and [i]. *)
Lemma strrev_loop_ok fuel s l i j m :
  bytes_at m (s + j) l → fits_at (s + j) l → i = j + Z.of_nat (length l) - 1 →
  (length l < fuel)%nat →
  wp (strrev_loop fuel s i j)
     (λ _ m', bytes_at m' (s + j) (reverse l) ∧
              same_outside m m' (s + j) (s + j + Z.of_nat (length l))) m.
Proof.
  revert l i j m. induction fuel as [|fuel IH]; intros l i j m Hb Hf Hi Hfuel; [lia|]. simpl.
  destruct (Z.leb_spec i j) as [Hle|Hgt].
  { apply wp_ret. split; [|done]. by destruct l as [|b [|c l]]; simpl in *; [done|done|lia]. }
  destruct l as [|x l]; [simpl in *; lia|].
  destruct l as [|y mid _] using rev_ind; [simpl in *; lia|].
  simpl in Hi, Hf, Hfuel. rewrite length_app in Hi, Hfuel. simpl in Hi, Hfuel.
  pose proof (bytes_at_u8 _ _ _ Hb) as Hu.
  apply bytes_at_cons in Hb as (Hx & Hux & [Hmid (Hy & Huy & _)%bytes_at_cons]%bytes_at_app).
  unfold fits_at in Hf. simpl in Hf. rewrite length_app in Hf. simpl in Hf.
  replace (s + j + 1 + Z.of_nat (length mid)) with (s + i) in Hy by lia.
  apply wp_bind. eapply xor_swap_ok; [exact Hy|exact Hx|done|done|lia|unfold is_u32; lia..|].
  set (m1 := <[s + i := x]> (<[s + j := y]> m)).
  assert (Hs1 : same_outside m m1 (s + j) (s + i + 1)).
  { intros z Hz. unfold m1. rewrite !lookup_insert_ne; [done|lia..]. }
  assert (Hmid1 : bytes_at m1 (s + (j + 1)) mid).
  { rewrite Z.add_assoc. intros k b Hk. apply lookup_lt_Some in Hk as Hlt. unfold m1.
    rewrite !lookup_insert_ne by lia. by apply Hmid. }
  eapply wp_mono.
  { apply (IH mid (i - 1) (j + 1)); [done|unfold fits_at; lia|lia|lia]. }
  intros [] m' [Hrev Hs']. rewrite reverse_cons, reverse_snoc. cbn [length]. rewrite length_app. split.
  - simpl. apply bytes_at_cons. split_and!; [|done|].
    + rewrite Hs' by lia. unfold m1. by rewrite lookup_insert_ne, lookup_insert_eq by lia.
    + apply bytes_at_app. rewrite <- Z.add_assoc. split; [done|]. rewrite length_reverse.
      apply bytes_at_cons. split_and!; [|done|apply bytes_at_nil].
      replace (s + (j + 1) + Z.of_nat (length mid)) with (s + i) by lia. rewrite Hs' by lia.
      by apply lookup_insert_eq.
  - eapply same_outside_join; [exact Hs1|exact Hs'|simpl; lia..].
Qed.

Lemma strrev_ok s l m :
  cstring m s l → Z.of_nat (length l) < 2 ^ 31 →
  wp (strrev s) (λ r m', r = s ∧ cstring m' s (reverse l) ∧
    same_outside m m' s (s + Z.of_nat (length l))) m.
Proof.
  intros Hc Hlen. apply wp_bind, wp_get, wp_bind.
  eapply wp_mono; [by apply strlen_ok|]. intros len m0 [-> ->]. destruct Hc as (Hb & Hnz & Hf).
  pose proof (bytes_at_size _ _ _ Hb) as Hsz. rewrite length_app in Hsz. simpl in Hsz.
  assert (to_signed 32 (Z.of_nat (length l) - 1) = Z.of_nat (length l) - 1) as ->.
  { unfold to_signed. change (2 ^ (32 - 1)) with 2147483648. unfold_width.
    destruct l; [done|]. simpl length in *. rewrite Z.mod_small by lia.
    by rewrite (proj2 (Z.ltb_lt _ _)) by lia. }
  apply bytes_at_app in Hb as [Hl (H0 & _ & _)%bytes_at_cons].
  unfold fits_at in Hf. rewrite length_app in Hf. simpl in Hf.
  apply wp_bind. eapply wp_mono.
  { apply (strrev_loop_ok _ s l _ 0); [by rewrite Z.add_0_r|unfold fits_at; lia|lia|unfold str_fuel; lia]. }
  intros [] m' [Hrev Hs]. rewrite Z.add_0_r in Hrev, Hs. apply wp_ret. split; [done|]. split; [|done].
  split_and!.
  - apply bytes_at_app. split; [done|]. rewrite length_reverse. apply bytes_at_cons.
    split_and!; [|by vm_compute|apply bytes_at_nil]. by rewrite Hs by lia.
  - by apply Forall_reverse.
  - unfold fits_at. rewrite length_app, length_reverse. simpl. lia.
Qed.

Definition upper (b : Z) : Z := if (97 <=? b) && (b <=? 122) then b - 32 else b.

Lemma islower_byte b : is_u8 b → islower (to_signed 8 b) = (97 <=? b) && (b <=? 122).
Proof.
  intros Hb. unfold islower, to_signed. change (2 ^ (8 - 1)) with 128. unfold_width.
  rewrite Z.mod_small by lia. case_match; [done|]. lia.
Qed.

Lemma toupper_byte b : is_u8 b → islower (to_signed 8 b) = true → u8 (toupper (to_signed 8 b)) = upper b.
Proof.
  intros Hb Hl. unfold toupper, upper. rewrite Hl. rewrite islower_byte in Hl by done. rewrite Hl.
  unfold to_signed. change (2 ^ (8 - 1)) with 128. unfold_width. rewrite !(Z.mod_small b) by lia.
  rewrite (proj2 (Z.ltb_lt b 128)) by lia. rewrite (Z.mod_small (b + (65 - 97))) by lia.
  rewrite (proj2 (Z.ltb_lt _ 128)) by lia. rewrite Z.mod_small by lia. lia.
Qed.

Lemma upper_ok b : is_u8 b → b ≠ 0 → is_u8 (upper b) ∧ upper b ≠ 0.
Proof. unfold upper. intros. case_match; unfold is_u8 in *; lia. Qed.

Lemma strupper_loop_ok fuel s l1 l2 m :
  cstring m s (l1 ++ l2) → (length l2 < fuel)%nat →
  wp (strupper_loop fuel s (Z.of_nat (length l1)))
     (λ _ m', cstring m' s (l1 ++ (upper <$> l2)) ∧
              same_outside m m' s (s + Z.of_nat (length (l1 ++ l2)))) m.
Proof.
  revert l1 l2 m. induction fuel as [|fuel IH]; intros l1 l2 m Hc Hfuel; [lia|]. simpl.
  apply wp_bind. eapply wp_mono; [by apply strlen_ok|]. intros len m0 [-> ->].
  rewrite length_app. destruct l2 as [|b l2].
  { rewrite (proj2 (Z.leb_le _ _)) by (simpl; lia). apply wp_ret. split; [|done]. done. }
  rewrite (proj2 (Z.leb_gt _ _)) by (simpl; lia).
  pose proof Hc as (Hb & Hnz & Hf). rewrite <- app_assoc in Hb. simpl in Hb.
  pose proof (bytes_at_u8 _ _ _ Hb) as Hu.
  apply bytes_at_app in Hb as [Hb1 (Hm & Hub & Hb2)%bytes_at_cons].
  unfold fits_at in Hf. rewrite !length_app in Hf. simpl in Hf.
  assert (Hb0 : b ≠ 0) by (apply Forall_app in Hnz as [_ [? _]%Forall_cons]; done).
  apply wp_bind. eapply wp_load8; [exact Hm|unfold is_u32; lia|].
  set (m1 := <[s + Z.of_nat (length l1) := upper b]> m).
  assert (Hs1 : same_outside m m1 s (s + Z.of_nat (length l1 + S (length l2))))
    by (apply same_outside_insert; lia).
  assert (Hs0 : same_outside m m1 (s + Z.of_nat (length l1)) (s + Z.of_nat (length l1) + 1))
    by (apply same_outside_insert; lia).
  assert (Hc1 : cstring m1 s ((l1 ++ [upper b]) ++ l2)).
  { rewrite <- app_assoc. simpl. split_and!.
    - rewrite <- app_assoc. simpl. apply bytes_at_app. split.
      + eapply bytes_at_frame; [exact Hb1|exact Hs0|lia].
      + apply bytes_at_cons. split_and!; [by apply lookup_insert_eq|by apply upper_ok|].
        eapply bytes_at_frame; [exact Hb2|exact Hs0|lia].
    - apply Forall_app in Hnz as [? [_ ?]%Forall_cons]. apply Forall_app. split; [done|].
      apply Forall_cons. split; [by apply upper_ok|done].
    - unfold fits_at. rewrite !length_app in *. simpl in *. lia. }
  apply wp_bind. eapply (wp_mono _ (λ _ m', m' = m1)).
  { destruct (islower (to_signed 8 b)) eqn:El.
    - eapply wp_store8; [exact Hm|unfold is_u32; lia|]. by rewrite toupper_byte.
    - apply wp_ret. unfold m1, upper. rewrite islower_byte in El by done. rewrite El.
      by rewrite insert_id. }
  intros [] m' ->. specialize (IH (l1 ++ [upper b]) l2 m1 Hc1 ltac:(simpl in Hfuel; lia)).
  rewrite length_app in IH. simpl in IH. replace (Z.of_nat (length l1) + 1)
    with (Z.of_nat (length l1 + 1)) by lia.
  eapply wp_mono; [exact IH|]. intros [] m' [Hc' Hs']. rewrite <- app_assoc in Hc'. split; [done|].
  eapply same_outside_join; [exact Hs1|exact Hs'|rewrite ?length_app; simpl; lia..].
Qed.

Lemma strupper_ok s l m :
  cstring m s l →
  wp (strupper s) (λ r m', r = s ∧ cstring m' s (upper <$> l) ∧
    same_outside m m' s (s + Z.of_nat (length l))) m.
Proof.
  intros Hc. apply wp_bind, wp_get, wp_bind. pose proof Hc as (Hb & _).
  pose proof (bytes_at_size _ _ _ Hb) as Hsz. rewrite length_app in Hsz. simpl in Hsz.
  eapply wp_mono; [apply (strupper_loop_ok _ s [] l m Hc); unfold str_fuel; lia|].
  intros [] m' [? ?]. by apply wp_ret.
Qed.

End Strings.

(** ** The library's contracts *)

(** Memcpy copies [num] bytes when the regions do not overlap, or the
    destination starts below the source, and changes nothing else. *)
Theorem memcpy_copies to from l old m :
  bytes_at m from l → bytes_at m to old → length old = length l →
  fits_at from l → fits_at to l → to <= from ∨ from + Z.of_nat (length l) <= to →
  wp (memcpy to from (Z.of_nat (length l)))
     (λ r m', r = to ∧ bytes_at m' to l ∧ same_outside m m' to (to + Z.of_nat (length l))) m.
Proof.
  intros Hl Ho Hlen Hf Ht Hd. apply wp_bind. rewrite Nat2Z.id.
  pose proof (memcpy_loop_ok to from 0 l m old) as W. rewrite !Z.add_0_r in W.
  eapply wp_mono; [by apply W|]. intros [] m' [? ?]. by apply wp_ret.
Qed.

(** Memset stores the low byte of [value] in the [num] bytes of the buffer
    and changes nothing else. *)
Theorem memset_fills ptr value old m :
  bytes_at m ptr old → fits_at ptr old →
  wp (memset ptr value (Z.of_nat (length old)))
     (λ r m', r = ptr ∧ bytes_at m' ptr (replicate (length old) (u8 value)) ∧
              same_outside m m' ptr (ptr + Z.of_nat (length old))) m.
Proof.
  intros Ho Hf. apply wp_bind. rewrite Nat2Z.id.
  pose proof (memset_loop_ok ptr value 0 old m) as W. rewrite !Z.add_0_r in W.
  eapply wp_mono; [by apply W|]. intros [] m' [? ?]. by apply wp_ret.
Qed.

(** Memcmp returns 0 exactly when the two regions hold the same bytes. *)
Theorem memcmp_equal p1 p2 l1 l2 m :
  bytes_at m p1 l1 → bytes_at m p2 l2 → length l1 = length l2 → fits_at p1 l1 → fits_at p2 l2 →
  wp (memcmp p1 p2 (Z.of_nat (length l1))) (λ v m', m' = m ∧ (v = 0 ↔ l1 = l2)) m.
Proof.
  intros H1 H2 Hlen F1 F2. unfold memcmp. rewrite Nat2Z.id.
  pose proof (memcmp_loop_ok p1 p2 0 l1 l2 m) as W. rewrite !Z.add_0_r in W.
  eapply wp_mono; [by apply W|]. intros v m' [-> ->]. split; [done|].
  apply bytes_cmp_zero; eauto using bytes_at_u8.
Qed.

(** Strrev reverses the string in place, by exclusive-or exchanges, and
    changes no byte outside it. *)
Theorem strrev_reverses s l m :
  cstring m s l → Z.of_nat (length l) < 2 ^ 31 →
  wp (strrev s) (λ r m', r = s ∧ cstring m' s (reverse l) ∧
    same_outside m m' s (s + Z.of_nat (length l))) m.
Proof. apply strrev_ok. Qed.

(** Strupper replaces every lower-case ASCII letter of the string by the
    upper-case letter and keeps every other byte. *)
Theorem strupper_upper s l m :
  cstring m s l →
  wp (strupper s) (λ r m', r = s ∧ cstring m' s (upper <$> l) ∧
    same_outside m m' s (s + Z.of_nat (length l))) m.
Proof. apply strupper_ok. Qed.

(** ** Witnesses *)

(** A memory of consecutive bytes. *)
Fixpoint mem_of (p : Z) (l : list Z) : mem :=
  match l with [] => ∅ | b :: l => <[p := b]> (mem_of (p + 1) l) end.

Definition bytes_atb (m : mem) (p : Z) (l : list Z) : bool :=
  forallb (λ ib, bool_decide (m !! (p + Z.of_nat ib.1) = Some ib.2) && bool_decide (is_u8 ib.2))
    (imap pair l).

Lemma bytes_atb_ok m p l : bytes_atb m p l = true → bytes_at m p l.
Proof.
  unfold bytes_atb. rewrite forallb_forall. intros Hall i b Hi.
  assert (In (i, b) (imap pair l)) as Hin.
  { apply list_elem_of_In, elem_of_lookup_imap. eauto. }
  specialize (Hall _ Hin). simpl in Hall.
  by apply andb_true_iff in Hall as [?%bool_decide_eq_true ?%bool_decide_eq_true].
Qed.

(** "memo", zero, four more bytes. *)
Definition mem0 : mem := mem_of 0x1000 [109; 101; 109; 111; 0; 1; 2; 3; 4].

Lemma mem0_cstring : cstring mem0 0x1000 [109; 101; 109; 111].
Proof. split_and!; [by apply bytes_atb_ok|by repeat constructor|by vm_compute]. Qed.

Lemma memcpy_copies_witness :
  wp (memcpy 0x1005 0x1000 4) (λ _ m', bytes_at m' 0x1005 [109; 101; 109; 111]) mem0.
Proof.
  eapply wp_mono.
  - apply (memcpy_copies 0x1005 0x1000 [109; 101; 109; 111] [1; 2; 3; 4] mem0);
      [by apply bytes_atb_ok|by apply bytes_atb_ok|done|by vm_compute|by vm_compute|by right].
  - by intros r m' (_ & ? & _).
Defined.

Lemma memset_fills_witness :
  wp (memset 0x1000 0x1FF 3) (λ _ m', bytes_at m' 0x1000 [255; 255; 255]) mem0.
Proof.
  eapply wp_mono.
  - apply (memset_fills 0x1000 0x1FF [109; 101; 109] mem0); [by apply bytes_atb_ok|by vm_compute].
  - by intros r m' (_ & ? & _).
Defined.

Lemma memcmp_equal_witness :
  wp (memcmp 0x1000 0x1002 2) (λ v m', m' = mem0 ∧ (v = 0 ↔ [109; 101] = [109; 111])) mem0.
Proof.
  apply (memcmp_equal 0x1000 0x1002 [109; 101] [109; 111] mem0);
    [by apply bytes_atb_ok|by apply bytes_atb_ok|done|by vm_compute..].
Defined.

Lemma strrev_reverses_witness :
  wp (strrev 0x1000) (λ _ m', cstring m' 0x1000 [111; 109; 101; 109]) mem0.
Proof.
  eapply wp_mono; [by apply (strrev_reverses _ _ _ mem0_cstring)|]. by intros r m' (_ & ? & _).
Defined.

Lemma strupper_upper_witness :
  wp (strupper 0x1000) (λ _ m', cstring m' 0x1000 [77; 69; 77; 79]) mem0.
Proof.
  eapply wp_mono; [by apply (strupper_upper _ _ _ mem0_cstring)|]. by intros r m' (_ & ? & _).
Defined.

(** The sign of memcmp is wrong when bytes differ by 128 or more: 200 compares
    below 1, because the difference is truncated to a signed [char]. *)
Theorem memcmp_sign_wrong :
  wp (memcmp 0x1000 0x1001 1) (λ v _, v < 0) (mem_of 0x1000 [200; 1]).
Proof. vm_compute. reflexivity. Qed.

(** memmove moves nothing. *)
Theorem memmove_moves_nothing destination source num (m : mem) :
  memmove destination source num m = Ok (destination, m).
Proof. reflexivity. Qed.
