(* ===== verification/Itoa.v ===== *)
(** * Integers to text: kernel/itoa.c

    itoa, uitoa and uitoa_hex write the digits of a number, the lowest first, and
    then reverse them, except uitoa. *)

From S2P Require Import Prelude Mem CString.

Section Operations.

(** The loop [while (value)] of the three functions; [digit] is the character of
    a digit.  A 64-bit value has at most 64 digits. *)
Fixpoint digits_loop (fuel : nat) (base : Z) (digit : Z → Z) (value str i : Z) : M mem Z :=
  match fuel with
  | O => throw EFuel
  | S fuel =>
      if value =? 0 then mret i
      else
        store8 (str + i) (digit (value mod base));;
        digits_loop fuel base digit (value / base) str (i + 1)
  end.

Definition dec_digit (d : Z) : Z := d + 48.
Definition hex_digit (d : Z) : Z := if d <? 10 then d + 48 else d - 10 + 97.

Definition itoa (value str : Z) : M mem Z :=
  let negative := value <? 0 in
  i ← (if value =? 0 then store8 (str + 0) 48;; mret 1
       else
         '(i, value) ← (if negative then
                          store8 (str + 0) 45;;
                          (if value =? - 2 ^ 63 then throw (EUndef "overflow in -value")
                           else mret (1, - value))
                        else mret (0, value));
         digits_loop 65 10 dec_digit value str i);
  store8 (str + i) 0;;
  (if negative then strrev (str + 1) else strrev str);;
  mret str.

Definition uitoa (value str : Z) : M mem Z :=
  i ← (if value =? 0 then store8 (str + 0) 48;; mret 1
       else digits_loop 65 10 dec_digit value str 0);
  store8 (str + i) 0;;
  mret str.

Definition uitoa_hex (value str : Z) : M mem Z :=
  i ← (if value =? 0 then store8 (str + 0) 48;; mret 1
       else digits_loop 65 16 hex_digit value str 0);
  store8 (str + i) 0;;
  strrev str;;
  mret str.

End Operations.

(** ** Digits *)

(** The digits of [v], the lowest first. *)
Fixpoint digits (fuel : nat) (base v : Z) : list Z :=
  match fuel with
  | O => []
  | S fuel => if v =? 0 then [] else v mod base :: digits fuel base (v / base)
  end.

(** The value of digits, the highest first. *)
Definition digits_value (base : Z) (l : list Z) : Z := foldl (λ acc d, acc * base + d) 0 l.

Section Digits.
Context (base : Z) (Hbase : 2 <= base).

Lemma digits_value_snoc l d : digits_value base (l ++ [d]) = digits_value base l * base + d.
Proof. unfold digits_value. by rewrite foldl_app. Qed.

Lemma digits_roundtrip fuel v :
  0 <= v < base ^ Z.of_nat fuel → digits_value base (reverse (digits fuel base v)) = v.
Proof.
  revert v. induction fuel as [|fuel IH]; intros v Hv; simpl.
  - rewrite Z.pow_0_r in Hv. unfold digits_value. simpl. lia.
  - rewrite Nat2Z.inj_succ, Z.pow_succ_r in Hv by lia.
    destruct (Z.eqb_spec v 0) as [->|Hnz]; [done|]. rewrite reverse_cons, digits_value_snoc, IH.
    + rewrite (Z.div_mod v base) at 3 by lia. lia.
    + split; [apply Z.div_pos; lia|]. apply Z.div_lt_upper_bound; lia.
Qed.

Lemma digits_length fuel n v :
  0 <= v < base ^ Z.of_nat n → (length (digits fuel base v) <= n)%nat.
Proof.
  revert n v. induction fuel as [|fuel IH]; intros n v Hv; simpl; [lia|].
  destruct (Z.eqb_spec v 0) as [->|Hnz]; simpl; [lia|].
  destruct n as [|n]; [rewrite Z.pow_0_r in Hv; lia|]. apply le_n_S, IH.
  rewrite Nat2Z.inj_succ, Z.pow_succ_r in Hv by lia.
  split; [apply Z.div_pos; lia|]. apply Z.div_lt_upper_bound; lia.
Qed.

Lemma digits_range fuel v : 0 <= v → Forall (λ d, 0 <= d < base) (digits fuel base v).
Proof.
  revert v. induction fuel as [|fuel IH]; intros v Hv; simpl; [constructor|].
  case_match; constructor; [apply Z.mod_pos_bound; lia|]. apply IH, Z.div_pos; lia.
Qed.

(** No leading zero. *)
Lemma digits_last fuel v d :
  0 <= v < base ^ Z.of_nat fuel → last (digits fuel base v) = Some d → d ≠ 0.
Proof.
  revert v. induction fuel as [|fuel IH]; intros v Hv; simpl; [done|].
  rewrite Nat2Z.inj_succ, Z.pow_succ_r in Hv by lia.
  destruct (Z.eqb_spec v 0) as [->|Hnz]; [done|].
  rewrite last_cons. destruct (last (digits fuel base (v / base))) as [e|] eqn:E.
  - intros [= ->]. eapply IH; [|done]. split; [apply Z.div_pos; lia|]. apply Z.div_lt_upper_bound; lia.
  - intros [= <-] Hz. apply last_None in E. destruct fuel; simpl in E.
    + rewrite Z.pow_0_r in Hv. rewrite Z.mod_small in Hz; lia.
    + destruct (Z.eqb_spec (v / base) 0) as [Hd|]; [|done].
      apply Hnz. rewrite (Z.div_mod v base) by lia. rewrite Hd, Hz. lia.
Qed.

End Digits.

(** ** The loop in memory *)

Section Loop.
Context (base : Z) (digit : Z → Z) (Hbase : 2 <= base).
Context (Hdigit : ∀ d, 0 <= d < base → is_u8 (digit d)).

Lemma digits_loop_ok fuel v str i old m :
  0 <= v < base ^ Z.of_nat fuel → bytes_at m (str + i) old → fits_at (str + i) old →
  (length (digits fuel base v) <= length old)%nat →
  wp (digits_loop (S fuel) base digit v str i)
     (λ i' m', i' = i + Z.of_nat (length (digits fuel base v)) ∧
        bytes_at m' (str + i) ((digit <$> digits fuel base v) ++
                               drop (length (digits fuel base v)) old) ∧
        same_outside m m' (str + i) (str + i + Z.of_nat (length old))) m.
Proof.
  revert v i old m. induction fuel as [|fuel IH]; intros v i old m Hv Ho Hf Hlen.
  { rewrite Z.pow_0_r in Hv. assert (v = 0) as -> by lia. simpl. apply wp_ret. split; [simpl; lia|].
    rewrite drop_0. by split. }
  cbn [digits_loop digits] in *. destruct (Z.eqb_spec v 0) as [->|Hnz].
  { apply wp_ret. split; [simpl; lia|]. rewrite drop_0. by split. }
  destruct old as [|o old]; simpl in Hlen; [lia|].
  apply bytes_at_cons in Ho as (Hm & _ & Ho). unfold fits_at in *. simpl in Hf.
  rewrite Nat2Z.inj_succ, Z.pow_succ_r in Hv by lia.
  apply wp_bind. eapply wp_store8; [done|unfold is_u32; lia|].
  rewrite u8_small by (apply Hdigit, Z.mod_pos_bound; lia).
  set (m1 := <[str + i := digit (v mod base)]> m).
  assert (Hs1 : same_outside m m1 (str + i) (str + i + 1)) by (apply same_outside_insert; lia).
  eapply wp_mono.
  { apply (IH (v / base) (i + 1) old m1).
    - split; [apply Z.div_pos; lia|]. apply Z.div_lt_upper_bound; lia.
    - rewrite Z.add_assoc. eapply bytes_at_frame; [exact Ho|exact Hs1|lia].
    - lia.
    - lia. }
  intros i' m' (-> & Hb & Hs). simpl. rewrite Z.add_assoc in Hb, Hs. split_and!; [lia| |].
  - apply bytes_at_cons. split_and!; [|apply Hdigit, Z.mod_pos_bound; lia|done].
    rewrite Hs by lia. by apply lookup_insert_eq.
  - eapply same_outside_join; [exact Hs1|exact Hs|lia..].
Qed.

End Loop.

(** ** The text of a number *)

Definition uint_text (base : Z) (digit : Z → Z) (v : Z) : list Z :=
  if v =? 0 then [48] else digit <$> reverse (digits 64 base v).

Definition itoa_text (v : Z) : list Z :=
  if v <? 0 then 45 :: uint_text 10 dec_digit (- v) else uint_text 10 dec_digit v.

(** Reading a number back: the value of a text of digits, and of a signed decimal. *)
Definition digit_value (c : Z) : Z := if c <? 58 then c - 48 else c - 97 + 10.
Definition parse_uint (base : Z) (s : list Z) : Z := digits_value base (digit_value <$> s).
Definition parse_int (s : list Z) : Z :=
  match s with
  | 45 :: s => - parse_uint 10 s
  | _ => parse_uint 10 s
  end.

Lemma dec_digit_ok d : 0 <= d < 10 → is_u8 (dec_digit d) ∧ dec_digit d ≠ 0 ∧ digit_value (dec_digit d) = d.
Proof. unfold dec_digit, digit_value, is_u8. intros. rewrite (proj2 (Z.ltb_lt _ _)) by lia. lia. Qed.

Lemma hex_digit_ok d : 0 <= d < 16 → is_u8 (hex_digit d) ∧ hex_digit d ≠ 0 ∧ digit_value (hex_digit d) = d.
Proof. unfold hex_digit, digit_value, is_u8. intros. repeat case_match; lia. Qed.

Section Text.
Context (base : Z) (digit : Z → Z) (Hbase : 2 <= base).
Context (Hdigit : ∀ d, 0 <= d < base →
  is_u8 (digit d) ∧ digit d ≠ 0 ∧ digit_value (digit d) = d).

Lemma parse_digits l :
  Forall (λ d, 0 <= d < base) l → parse_uint base (digit <$> l) = digits_value base l.
Proof.
  intros Hl. unfold parse_uint. f_equal.
  induction Hl as [|d l Hd _ IH]; [done|]. rewrite !fmap_cons, IH. f_equal. by apply Hdigit.
Qed.

Lemma pow64 v : 0 <= v < 2 ^ 64 → 0 <= v < base ^ Z.of_nat 64.
Proof.
  intros Hv. split; [lia|]. eapply Z.lt_le_trans; [apply Hv|]. apply Z.pow_le_mono_l. lia.
Qed.

Lemma parse_uint_text v : 0 <= v < 2 ^ 64 → parse_uint base (uint_text base digit v) = v.
Proof.
  intros Hv. unfold uint_text. destruct (Z.eqb_spec v 0) as [->|Hnz]; [done|].
  rewrite parse_digits; [by apply digits_roundtrip, pow64|]. apply Forall_reverse, digits_range; lia.
Qed.

Lemma digits_chars v : 0 <= v → Forall (λ b, b ≠ 0) (digit <$> digits 64 base v).
Proof.
  intros Hv. apply Forall_fmap. eapply Forall_impl; [by apply digits_range|].
  intros d Hd. by apply Hdigit.
Qed.

(** Closing the string behind the digits. *)
Lemma terminate_ok str i l o rest m :
  bytes_at m (str + i) (l ++ o :: rest) → fits_at (str + i) (l ++ o :: rest) →
  Forall (λ b, b ≠ 0) l →
  wp (store8 (str + (i + Z.of_nat (length l))) 0)
     (λ _ m', cstring m' (str + i) l ∧
        same_outside m m' (str + i) (str + i + Z.of_nat (length (l ++ o :: rest)))) m.
Proof.
  intros Hb Hf Hnz. apply bytes_at_app in Hb as [Hl (Ho & _ & _)%bytes_at_cons].
  unfold fits_at in Hf. rewrite length_app in *. simpl in *. rewrite Z.add_assoc.
  eapply wp_store8; [done|unfold is_u32; lia|]. change (u8 0) with 0.
  set (p := str + i + Z.of_nat (length l)).
  assert (Hs : same_outside m (<[p := 0]> m) p (p + 1)) by (apply same_outside_insert; lia).
  split; [split_and!|].
  - apply bytes_at_app. split; [eapply bytes_at_frame; [exact Hl|exact Hs|unfold p; lia]|].
    apply bytes_at_cons. split_and!; [by apply lookup_insert_eq|by vm_compute|apply bytes_at_nil].
  - done.
  - unfold fits_at. rewrite length_app. simpl. lia.
  - eapply same_outside_mono; [exact Hs|unfold p; lia..].
Qed.

(** The digits of a non-zero value, lowest first, as a string at [str + i]. *)
Lemma write_digits_ok v str i old m :
  0 < v < 2 ^ 64 → bytes_at m (str + i) old → fits_at (str + i) old →
  (length (digits 64 base v) < length old)%nat →
  wp (i' ← digits_loop 65 base digit v str i; store8 (str + i') 0)
     (λ _ m', cstring m' (str + i) (digit <$> digits 64 base v) ∧
        same_outside m m' (str + i) (str + i + Z.of_nat (length old))) m.
Proof.
  intros Hv Ho Hf Hlen. apply wp_bind. eapply wp_mono.
  { apply (digits_loop_ok base digit Hbase (λ d Hd, proj1 (Hdigit d Hd)) 64 v str i old m
      (pow64 v ltac:(lia)) Ho Hf). lia. }
  intros i' m1 (-> & Hb & Hs1).
  destruct (drop (length (digits 64 base v)) old) as [|o rest] eqn:E.
  { apply (f_equal length) in E. rewrite length_drop in E. cbn [length] in E. lia. }
  assert (Hl : length ((digit <$> digits 64 base v) ++ o :: rest) = length old).
  { rewrite <- E, length_app, length_fmap, length_drop. lia. }
  eapply wp_mono.
  { pose proof (terminate_ok str i (digit <$> digits 64 base v) o rest m1) as W.
    rewrite length_fmap in W. apply W; [done| |apply digits_chars; lia].
    unfold fits_at in *. by rewrite Hl. }
  intros [] m2 [Hc Hs2]. split; [done|]. rewrite Hl in Hs2. by eapply same_outside_trans.
Qed.

End Text.

Arguments digits : simpl never.
Arguments digits_loop : simpl never.

(** A number and its reversal at [str + i], from the digits on. *)
Lemma write_number_ok base digit v str old m (n : nat) :
  2 <= base → (∀ d, 0 <= d < base → is_u8 (digit d) ∧ digit d ≠ 0 ∧ digit_value (digit d) = d) →
  0 < v < 2 ^ 64 → v < base ^ Z.of_nat n →
  bytes_at m str old → fits_at str old → (n < length old)%nat → (n < 100)%nat →
  wp (i' ← digits_loop 65 base digit v str 0; store8 (str + i') 0;; strrev str;; mret str)
     (λ r m', r = str ∧ cstring m' str (uint_text base digit v) ∧
        same_outside m m' str (str + Z.of_nat (length old))) m.
Proof.
  intros Hbase Hdigit Hv Hvn Ho Hf Hlen Hn.
  assert (Hd : (length (digits 64 base v) <= n)%nat) by (apply digits_length; lia).
  pose proof (write_digits_ok base digit Hbase Hdigit v str 0 old m Hv) as W.
  rewrite Z.add_0_r in W. specialize (W Ho Hf ltac:(lia)). apply wp_bind_inv in W.
  apply wp_bind. eapply wp_mono; [exact W|]. clear W. intros i' m1 W.
  apply wp_bind. eapply wp_mono; [exact W|]. clear W. intros [] m2 [Hc Hs]. apply wp_bind.
  pose proof (strrev_ok _ _ _ Hc ltac:(rewrite length_fmap; lia)) as W. rewrite length_fmap in W.
  eapply wp_mono; [exact W|]. intros r m3 (-> & Hc' & Hs'). apply wp_ret. split_and!; [done| |].
  - unfold uint_text. rewrite (proj2 (Z.eqb_neq v 0)) by lia. by rewrite fmap_reverse.
  - eapply same_outside_join; [exact Hs|exact Hs'|lia..].
Qed.

(** The text "0". *)
Lemma write_zero_ok str old m :
  bytes_at m str old → fits_at str old → (2 <= length old)%nat →
  wp (i ← (store8 (str + 0) 48;; mret 1); store8 (str + i) 0)
     (λ _ m', cstring m' str [48] ∧ same_outside m m' str (str + Z.of_nat (length old))) m.
Proof.
  destruct old as [|o [|o' old]]; simpl; [lia|lia|]. intros Ho Hf _. unfold fits_at in Hf. simpl in Hf.
  pose proof Ho as (H0 & _ & H1)%bytes_at_cons.
  apply wp_bind, wp_bind. rewrite Z.add_0_r. eapply wp_store8; [done|unfold is_u32; lia|].
  apply wp_ret. change (u8 48) with 48. set (m1 := <[str := 48]> m).
  assert (Hs : same_outside m m1 str (str + 1)) by (apply same_outside_insert; lia).
  pose proof (terminate_ok str 0 [48] o' old m1) as W. rewrite !Z.add_0_r in W.
  eapply wp_mono; [apply W|].
  - simpl. apply bytes_at_cons. split_and!; [by apply lookup_insert_eq|by vm_compute|].
    eapply bytes_at_frame; [exact H1|exact Hs|lia].
  - unfold fits_at. simpl. lia.
  - by repeat constructor.
  - intros [] m' [Hc Hs']. split; [done|]. eapply same_outside_join; [exact Hs|exact Hs'|simpl; lia..].
Qed.

Lemma strrev_single s c m : cstring m s [c] →
  wp (strrev s) (λ r m', r = s ∧ cstring m' s [c] ∧ same_outside m m' s (s + 1)) m.
Proof.
  intros Hc. eapply wp_mono; [by apply (strrev_ok s [c] m Hc)|]. by intros r m' (-> & ? & ?).
Qed.

Section Contracts.
Context (str : Z) (old : list Z) (m : mem).
Context (Ho : bytes_at m str old) (Hf : fits_at str old) (Hlen : (22 <= length old)%nat).

Lemma uitoa_hex_ok v : is_u64 v →
  wp (uitoa_hex v str) (λ r m', r = str ∧ cstring m' str (uint_text 16 hex_digit v) ∧
     same_outside m m' str (str + Z.of_nat (length old))) m.
Proof.
  intros Hv. unfold uitoa_hex. destruct (Z.eqb_spec v 0) as [->|Hnz].
  - pose proof (write_zero_ok str old m Ho Hf ltac:(lia)) as W. apply wp_bind_inv in W.
    apply wp_bind. eapply wp_mono; [exact W|]. clear W. intros i' m1 W. apply wp_bind.
    eapply wp_mono; [exact W|]. clear W. intros [] m2 [Hc Hs].
    apply wp_bind. eapply wp_mono; [by apply strrev_single|]. intros r m3 (-> & Hc' & Hs').
    apply wp_ret. split_and!; [done..|]. eapply same_outside_join; [exact Hs|exact Hs'|lia..].
  - apply (write_number_ok 16 hex_digit v str old m 16); try done; try lia.
    + apply hex_digit_ok.
    + unfold is_u64 in Hv. lia.
    + change (16 ^ Z.of_nat 16) with (2 ^ 64). unfold is_u64 in Hv. lia.
Qed.

(** uitoa leaves the digits reversed. *)
Lemma uitoa_ok v : is_u64 v →
  wp (uitoa v str) (λ r m', r = str ∧ cstring m' str (reverse (uint_text 10 dec_digit v)) ∧
     same_outside m m' str (str + Z.of_nat (length old))) m.
Proof.
  intros Hv. unfold uitoa, uint_text. destruct (Z.eqb_spec v 0) as [->|Hnz].
  - pose proof (write_zero_ok str old m Ho Hf ltac:(lia)) as W. apply wp_bind_inv in W.
    apply wp_bind. eapply wp_mono; [exact W|]. clear W. intros i' m1 W. apply wp_bind.
    eapply wp_mono; [exact W|]. clear W. intros [] m2 [Hc Hs]. by apply wp_ret.
  - unfold is_u64 in Hv. rewrite <- fmap_reverse, reverse_involutive.
    assert (Hd : (length (digits 64 10 v) <= 20)%nat).
    { apply digits_length; [done|]. change (10 ^ Z.of_nat 20) with 100000000000000000000. lia. }
    pose proof (write_digits_ok 10 dec_digit ltac:(done) dec_digit_ok v str 0 old m) as W.
    rewrite Z.add_0_r in W. specialize (W ltac:(lia) Ho Hf ltac:(lia)).
    apply wp_bind_inv in W. apply wp_bind. eapply wp_mono; [exact W|]. clear W. intros i' m1 W.
    apply wp_bind. eapply wp_mono; [exact W|]. clear W. intros [] m2 [Hc Hs]. by apply wp_ret.
Qed.

Lemma itoa_nonneg_ok v : 0 <= v < 2 ^ 63 →
  wp (itoa v str) (λ r m', r = str ∧ cstring m' str (itoa_text v) ∧
     same_outside m m' str (str + Z.of_nat (length old))) m.
Proof.
  intros Hv. unfold itoa, itoa_text. rewrite (proj2 (Z.ltb_ge v 0)) by lia.
  destruct (Z.eqb_spec v 0) as [->|Hnz].
  - pose proof (write_zero_ok str old m Ho Hf ltac:(lia)) as W. apply wp_bind_inv in W.
    apply wp_bind. eapply wp_mono; [exact W|]. clear W. intros i' m1 W. apply wp_bind.
    eapply wp_mono; [exact W|]. clear W. intros [] m2 [Hc Hs].
    apply wp_bind. eapply wp_mono; [by apply strrev_single|]. intros r m3 (-> & Hc' & Hs').
    apply wp_ret. split_and!; [done..|]. eapply same_outside_join; [exact Hs|exact Hs'|lia..].
  - apply (write_number_ok 10 dec_digit v str old m 20); try done; try lia.
    + apply dec_digit_ok.
Qed.

Lemma itoa_neg_ok v : - 2 ^ 63 < v < 0 →
  wp (itoa v str) (λ r m', r = str ∧ cstring m' str (itoa_text v) ∧
     same_outside m m' str (str + Z.of_nat (length old))) m.
Proof.
  intros Hv. unfold itoa, itoa_text. rewrite (proj2 (Z.ltb_lt v 0)) by lia.
  rewrite (proj2 (Z.eqb_neq v 0)), (proj2 (Z.eqb_neq v _)) by lia.
  destruct old as [|o old']; [simpl in Hlen; lia|]. pose proof Ho as (H0 & _ & H1)%bytes_at_cons.
  pose proof Hf as Hf'. unfold fits_at in Hf'. cbn [length] in Hf', Hlen.
  apply wp_bind, wp_bind, wp_bind. rewrite Z.add_0_r. eapply wp_store8; [done|unfold is_u32; lia|].
  apply wp_ret. change (u8 45) with 45. set (m1 := <[str := 45]> m).
  assert (Hs1 : same_outside m m1 str (str + 1)) by (apply same_outside_insert; lia).
  assert (Hb1 : bytes_at m1 (str + 1) old')
    by (eapply bytes_at_frame; [exact H1|exact Hs1|lia]).
  assert (Hd : (length (digits 64 10 (- v)) <= 20)%nat).
  { apply digits_length; [done|]. change (10 ^ Z.of_nat 20) with 100000000000000000000. lia. }
  pose proof (write_digits_ok 10 dec_digit ltac:(done) dec_digit_ok (- v) str 1 old' m1
    ltac:(lia) Hb1 ltac:(unfold fits_at; lia) ltac:(lia)) as W.
  apply wp_bind_inv in W. eapply wp_mono; [exact W|]. clear W. intros i' m2 W.
  apply wp_bind. eapply wp_mono; [exact W|]. clear W. intros [] m3 [Hc Hs3]. apply wp_bind.
  pose proof (strrev_ok _ _ _ Hc ltac:(rewrite length_fmap; lia)) as W. rewrite length_fmap in W.
  eapply wp_mono; [exact W|]. intros r m4 (-> & (Hc4 & Hnz & Hfc) & Hs4). apply wp_ret. split_and!; [done| |].
  - unfold uint_text. rewrite (proj2 (Z.eqb_neq _ 0)), fmap_reverse by lia. split_and!.
    + apply bytes_at_cons. split_and!; [|by vm_compute|done].
      rewrite Hs4, Hs3 by lia. by apply lookup_insert_eq.
    + by constructor.
    + unfold fits_at in *. rewrite !length_app in *. simpl in *. lia.
  - pose proof (same_outside_join _ _ _ _ _ _ _ str (str + Z.of_nat (S (length old'))) Hs1 Hs3
      ltac:(lia) ltac:(lia) ltac:(lia) ltac:(lia)) as Hs.
    eapply same_outside_join; [exact Hs|exact Hs4|simpl; lia..].
Qed.

Lemma itoa_ok v : - 2 ^ 63 < v < 2 ^ 63 →
  wp (itoa v str) (λ r m', r = str ∧ cstring m' str (itoa_text v) ∧
     same_outside m m' str (str + Z.of_nat (length old))) m.
Proof.
  intros Hv. destruct (Z.ltb_spec v 0); [apply itoa_neg_ok; lia|apply itoa_nonneg_ok; lia].
Qed.

(** C40: itoa writes the decimal representation of every 64-bit value but the most negative
    one, -2^63 ([itoa_min_undefined]), with a sign when it is negative, as a string at
    [str]; reading the text gives the value back. *)
Theorem itoa_decimal v :
  - 2 ^ 63 < v < 2 ^ 63 →
  wp (itoa v str) (λ r m', r = str ∧ cstring m' str (itoa_text v) ∧ parse_int (itoa_text v) = v ∧
     same_outside m m' str (str + Z.of_nat (length old))) m.
Proof.
  intros Hv. assert (Hp : parse_int (itoa_text v) = v).
  { unfold itoa_text. destruct (Z.ltb_spec v 0).
    - simpl. rewrite parse_uint_text; [lia|done|apply dec_digit_ok|lia].
    - rewrite <- (parse_uint_text 10 dec_digit ltac:(done) dec_digit_ok v) at 2 by lia.
      unfold uint_text. destruct (Z.eqb_spec v 0); [done|].
      destruct (reverse (digits 64 10 v)) as [|d l] eqn:E; [done|].
      assert (0 <= d < 10) as Hd.
      { pose proof (digits_range 10 ltac:(done) 64 v ltac:(lia)) as Hr.
        apply Forall_reverse in Hr. rewrite E in Hr. by apply Forall_cons in Hr as [? _]. }
      assert (48 <= dec_digit d < 58) by (unfold dec_digit; lia).
      rewrite fmap_cons. unfold parse_int. repeat case_match; try done; lia. }
  eapply wp_mono; [by apply itoa_ok|]. by intros r m' (? & ? & ?).
Qed.

(** Uitoa_hex writes the lower-case hexadecimal representation of the value;
    reading the text in base 16 gives the value back. *)
Theorem uitoa_hex_hexadecimal v :
  is_u64 v →
  wp (uitoa_hex v str) (λ r m', r = str ∧ cstring m' str (uint_text 16 hex_digit v) ∧
     parse_uint 16 (uint_text 16 hex_digit v) = v ∧
     same_outside m m' str (str + Z.of_nat (length old))) m.
Proof.
  intros Hv. eapply wp_mono; [by apply uitoa_hex_ok|]. intros r m' (? & ? & ?). split_and!; try done.
  apply parse_uint_text; [done|apply hex_digit_ok|done].
Qed.

End Contracts.

(** ** Witnesses *)

Definition buf0 : list Z := replicate 22 0.
Definition bufmem : mem := mem_of 0x1000 buf0.

Lemma bufmem_ok : bytes_at bufmem 0x1000 buf0 ∧ fits_at 0x1000 buf0.
Proof. split; [by apply bytes_atb_ok|by vm_compute]. Qed.

Lemma itoa_decimal_witness :
  wp (itoa (-1203) 0x1000) (λ _ m', cstring m' 0x1000 [45; 49; 50; 48; 51]) bufmem.
Proof.
  eapply wp_mono.
  - apply (itoa_decimal 0x1000 buf0 bufmem (proj1 bufmem_ok) (proj2 bufmem_ok)); [by vm_compute|lia].
  - intros r m' (_ & Hc & _). exact Hc.
Defined.

Lemma uitoa_hex_hexadecimal_witness :
  wp (uitoa_hex 0xC0DE 0x1000) (λ _ m', cstring m' 0x1000 [99; 48; 100; 101]) bufmem.
Proof.
  eapply wp_mono.
  - apply (uitoa_hex_hexadecimal 0x1000 buf0 bufmem (proj1 bufmem_ok) (proj2 bufmem_ok));
      by vm_compute.
  - intros r m' (_ & Hc & _). exact Hc.
Defined.

(** ** Departures *)

(** uitoa does not reverse the digits: 12 becomes "21". *)
Theorem uitoa_reversed :
  wp (uitoa 12 0x1000;; a ← load8 0x1000; b ← load8 0x1001; c ← load8 0x1002; mret [a; b; c])
     (λ r _, r = [50; 49; 0]) bufmem.
Proof. vm_compute. reflexivity. Qed.

(** The most negative value has no negation in 64 bits. *)
Theorem itoa_min_undefined :
  itoa (- 2 ^ 63) 0x1000 bufmem = Err (EUndef "overflow in -value").
Proof. vm_compute. reflexivity. Qed.
