(* ===== verification/Multiboot.v ===== *)
(** * The boot information: arch/i386/multiboot2.c

    The boot loader leaves a sequence of tags in memory, each aligned to eight
    bytes.  The walks over the tags are loops whose step is the size field of the
    current tag; a tag of size 0 would stop the walk from advancing, so the number
    of mapped bytes bounds the steps of every walk that ends. *)

From S2P Require Import Prelude Mem.

Definition MULTIBOOT_TAG_TYPE_END : Z := 0.
Definition MULTIBOOT_TAG_TYPE_MODULE : Z := 3.
Definition MULTIBOOT_TAG_TYPE_MMAP : Z := 6.
Definition MULTIBOOT_TAG_TYPE_FRAMEBUFFER : Z := 8.

Definition MULTIBOOT_MEMORY_AVAILABLE : Z := 1.
Definition MULTIBOOT_MEMORY_RESERVED : Z := 2.
Definition MULTIBOOT_MEMORY_ACPI_RECLAIMABLE : Z := 3.
Definition MULTIBOOT_MEMORY_NVS : Z := 4.
Definition MULTIBOOT_MEMORY_BADRAM : Z := 5.

(** Fields of struct multiboot_tag. *)
Definition tag_type (tag : Z) : M mem Z := load32 tag.
Definition tag_size (tag : Z) : M mem Z := load32 (tag + 4).

(** Fields of struct multiboot_tag_framebuffer_common. *)
Definition framebuffer_addr (tag : Z) : M mem Z := load64 (tag + 8).
Definition framebuffer_width (tag : Z) : M mem Z := load32 (tag + 20).
Definition framebuffer_height (tag : Z) : M mem Z := load32 (tag + 24).

(** Fields of struct multiboot_tag_module. *)
Definition mod_start (tag : Z) : M mem Z := load32 (tag + 8).
Definition mod_end (tag : Z) : M mem Z := load32 (tag + 12).

(** Fields of struct multiboot_tag_mmap and of its entries. *)
Definition mmap_entry_size (tag : Z) : M mem Z := load32 (tag + 8).
Definition mmap_entries (tag : Z) : Z := u32 (tag + 16).
Definition mmap_addr (e : Z) : M mem Z := load64 e.
Definition mmap_len (e : Z) : M mem Z := load64 (e + 8).
Definition mmap_type (e : Z) : M mem Z := load32 (e + 16).

(** (size + 7) & ~7, in 32 bits *)
Definition tag_step (size : Z) : Z := Z.land (u32 (size + 7)) (2 ^ 32 - 8).

Definition walk_fuel (m : mem) : nat := S (size m).

Definition advance_tag (tag : Z) : M mem Z :=
  size ← tag_size tag; mret (u32 (tag + tag_step size)).

(** The loop of multiboot_framebuffer_info. *)
Fixpoint framebuffer_loop (fuel : nat) (tag : Z) : M mem Z :=
  match fuel with
  | O => throw EFuel
  | S fuel =>
      ty ← tag_type tag;
      if ty =? MULTIBOOT_TAG_TYPE_END then mret 0
      else if ty =? MULTIBOOT_TAG_TYPE_FRAMEBUFFER then mret tag
      else tag ← advance_tag tag; framebuffer_loop fuel tag
  end.

Definition multiboot_framebuffer_info (multiboot_info : Z) : M mem Z :=
  m ← get; framebuffer_loop (walk_fuel m) (u32 (multiboot_info + 8)).

(** multiboot_get_next_module: the module found (0 for none) and the tag to go on
    from, which the source writes back through its pointer argument. *)
Fixpoint next_module_loop (fuel : nat) (tag : Z) : M mem (Z * Z) :=
  match fuel with
  | O => throw EFuel
  | S fuel =>
      ty ← tag_type tag;
      if ty =? MULTIBOOT_TAG_TYPE_END then mret (0, tag)
      else if ty =? MULTIBOOT_TAG_TYPE_MODULE then
        tag' ← advance_tag tag; mret (tag, tag')
      else tag' ← advance_tag tag; next_module_loop fuel tag'
  end.

Definition multiboot_get_next_module (tag : Z) : M mem (Z * Z) :=
  m ← get; next_module_loop (walk_fuel m) tag.

(** ** Tags in memory *)

(** [tags_at m p l]: from [p] there are the tags [l] (type and size, the size not
    less than that of the tag header) below 4 GB, and behind them the end tag. *)
Fixpoint tags_at (m : mem) (p : Z) (l : list (Z * Z)) : Prop :=
  match l with
  | [] => tag_type p m = Ok (MULTIBOOT_TAG_TYPE_END, m)
  | (ty, sz) :: l =>
      tag_type p m = Ok (ty, m) ∧ ty ≠ MULTIBOOT_TAG_TYPE_END ∧
      tag_size p m = Ok (sz, m) ∧ 8 <= sz < 2 ^ 32 - 8 ∧ 0 <= p ∧ p + sz + 8 <= 2 ^ 32 ∧
      tags_at m (u32 (p + tag_step sz)) l
  end.

(** The addresses of the tags, each with its type. *)
Fixpoint tag_list (p : Z) (l : list (Z * Z)) : list (Z * Z) :=
  match l with
  | [] => []
  | (ty, sz) :: l => (p, ty) :: tag_list (u32 (p + tag_step sz)) l
  end.

Fixpoint tags_end (p : Z) (l : list (Z * Z)) : Z :=
  match l with
  | [] => p
  | (_, sz) :: l => tags_end (u32 (p + tag_step sz)) l
  end.

Definition modules (p : Z) (l : list (Z * Z)) : list Z :=
  fst <$> filter (λ t, t.2 = MULTIBOOT_TAG_TYPE_MODULE) (tag_list p l).

Section Walks.

Lemma tag_step_spec sz :
  0 <= sz < 2 ^ 32 - 8 → sz <= tag_step sz < sz + 8 ∧ tag_step sz mod 8 = 0.
Proof.
  intros Hsz. assert (tag_step sz = (sz + 7) / 8 * 8) as ->.
  { unfold tag_step. rewrite u32_small by (unfold is_u32; lia).
    change (2 ^ 32 - 8) with (Z.shiftl (Z.ones 29) 3).
    apply Z.bits_inj'. intros k Hk.
    rewrite Z.land_spec, <- Z.shiftl_mul_pow2 with (n := 3), !Z.shiftl_spec by lia.
    destruct (Z.ltb_spec k 3) as [H3|H3].
    - rewrite !(Z.testbit_neg_r _ (k - 3)) by lia. apply andb_false_r.
    - change 8 with (2 ^ 3) at 1. rewrite <- Z.shiftr_div_pow2, Z.shiftr_spec, Z.sub_add by lia.
      destruct (Z.ltb_spec k 32) as [H32|H32].
      + rewrite Z.ones_spec_low by lia. apply andb_true_r.
      + rewrite Z.ones_spec_high by lia. rewrite andb_false_r. symmetry.
        apply Z.bits_above_log2; [lia|]. apply Z.log2_lt_pow2; [lia|].
        eapply Z.lt_le_trans; [|apply (Z.pow_le_mono_r 2 32); lia]. lia. }
  split; [Z.div_mod_to_equations; lia|]. apply Z.mod_mul. lia.
Qed.

Lemma load8_mapped p m b : load8 p m = Ok (b, m) → is_Some (m !! u32 p).
Proof. unfold load8, mem_bytes, mem_load8. destruct (m !! u32 p); [eauto|done]. Qed.

Lemma load32_mapped p v m : load32 p m = Ok (v, m) → is_Some (m !! u32 p).
Proof.
  unfold load32, load16, load8, mem_bytes, mem_load8, mbind, M_bind. destruct (m !! u32 p); [eauto|done].
Qed.

(** There are not more tags than mapped bytes. *)
Lemma tags_at_length m p l lo :
  tags_at m p l → lo <= p → (length l <= size (filter (λ kv, (lo <= kv.1)%Z) m))%nat.
Proof.
  revert p lo. induction l as [|[ty sz] l IH]; intros p lo; simpl; [lia|].
  intros (Hty & _ & _ & Hsz & Hp & Hend & Hl) Hlo.
  destruct (tag_step_spec sz) as [Hst _]; [lia|].
  rewrite u32_small in Hl by (unfold is_u32; lia).
  specialize (IH _ (p + 1) Hl ltac:(lia)).
  destruct (load32_mapped _ _ _ Hty) as [b Hb]. rewrite u32_small in Hb by (unfold is_u32; lia).
  assert (Hsub : filter (λ kv : Z * Z, p + 1 <= kv.1) m ⊆ delete p (filter (λ kv : Z * Z, lo <= kv.1) m)).
  { apply map_subseteq_spec. intros k v [Hk Hle]%map_lookup_filter_Some. simpl in Hle.
    rewrite lookup_delete_ne by lia. apply map_lookup_filter_Some. split; [done|]. simpl. lia. }
  apply map_subseteq_size in Hsub. rewrite map_size_delete_Some in Hsub.
  2:{ exists b. apply map_lookup_filter_Some. done. }
  assert (size (filter (λ kv : Z * Z, lo <= kv.1) m) ≠ 0%nat); [|lia].
  apply map_size_ne_0_lookup. exists p, b. by apply map_lookup_filter_Some.
Qed.

Lemma tags_at_fuel m p l : tags_at m p l → 0 <= p → (length l < walk_fuel m)%nat.
Proof.
  intros Hl Hp. pose proof (tags_at_length _ _ _ 0 Hl Hp) as Hlen. unfold walk_fuel.
  pose proof (map_subseteq_size _ _ (map_filter_subseteq (λ kv : Z * Z, 0 <= kv.1) m)). lia.
Qed.

Lemma framebuffer_loop_ok fuel m p l :
  tags_at m p l → (length l < fuel)%nat →
  framebuffer_loop fuel p m =
  Ok (default 0 (head (fst <$> filter (λ t, t.2 = MULTIBOOT_TAG_TYPE_FRAMEBUFFER) (tag_list p l))), m).
Proof.
  revert p l. induction fuel as [|fuel IH]; intros p l Hl Hf; [lia|]. cbn [framebuffer_loop].
  destruct l as [|[ty sz] l]; cbn [tags_at] in Hl.
  { by rewrite (bind_ok _ _ _ _ _ Hl). }
  destruct Hl as (Hty & Hne & Hsz & _ & _ & _ & Hl). rewrite (bind_ok _ _ _ _ _ Hty).
  rewrite (proj2 (Z.eqb_neq ty _)) by done. cbn [tag_list].
  destruct (Z.eqb_spec ty MULTIBOOT_TAG_TYPE_FRAMEBUFFER) as [->|Hfb].
  - by rewrite filter_cons_True.
  - rewrite filter_cons_False by done.
    rewrite (bind_ok _ _ _ (u32 (p + tag_step sz)) m).
    + apply IH; [done|]. simpl in Hf. lia.
    + unfold advance_tag. by rewrite (bind_ok _ _ _ _ _ Hsz).
Qed.

Lemma next_module_loop_ok fuel m p l :
  tags_at m p l → (length l < fuel)%nat →
  ∃ q l', tags_at m q l' ∧ (length l' <= length l)%nat ∧ p <= q ∧
    ((modules p l = [] ∧ next_module_loop fuel p m = Ok ((0, q), m) ∧ l' = []) ∨
     (∃ t, modules p l = t :: modules q l' ∧ next_module_loop fuel p m = Ok ((t, q), m) ∧
           (length l' < length l)%nat)).
Proof.
  revert p l. induction fuel as [|fuel IH]; intros p l Hl Hf; [lia|].
  destruct l as [|[ty sz] l].
  { exists p, []. split_and!; [done|done|done|]. left. split_and!; [done| |done].
    cbn [tags_at next_module_loop] in *. by rewrite (bind_ok _ _ _ _ _ Hl). }
  destruct Hl as (Hty & Hne & Hsz & Hr & Hp & Hend & Hl). simpl in Hf.
  assert (Hlt : p < u32 (p + tag_step sz)).
  { destruct (tag_step_spec sz) as [? _]; [lia|]. rewrite u32_small by (unfold is_u32; lia). lia. }
  assert (Ha : advance_tag p m = Ok (u32 (p + tag_step sz), m))
    by (unfold advance_tag; by rewrite (bind_ok _ _ _ _ _ Hsz)).
  unfold modules. cbn [tag_list next_module_loop]. rewrite (bind_ok _ _ _ _ _ Hty).
  rewrite (proj2 (Z.eqb_neq ty _)) by done.
  destruct (Z.eqb_spec ty MULTIBOOT_TAG_TYPE_MODULE) as [->|Hmod]; rewrite (bind_ok _ _ _ _ _ Ha).
  - exists (u32 (p + tag_step sz)), l. split_and!; [done|simpl; lia|lia|]. right. exists p.
    rewrite filter_cons_True by done. split_and!; [done..|simpl; lia].
  - rewrite filter_cons_False by done.
    destruct (IH _ l Hl ltac:(lia)) as (q & l' & Hq & Hlen & Hpq & Hres).
    exists q, l'. split_and!; [done|simpl; lia|lia|].
    destruct Hres as [?|(t & ? & ? & ?)]; [by left|]. right. exists t. split_and!; [done..|simpl; lia].
Qed.

End Walks.

(** Calling multiboot_get_next_module until it returns 0, each time from the tag
    that the call before left. *)
Fixpoint all_modules (fuel : nat) (tag : Z) : M mem (list Z) :=
  match fuel with
  | O => throw EFuel
  | S fuel =>
      '(module, tag') ← multiboot_get_next_module tag;
      if module =? 0 then mret [] else r ← all_modules fuel tag'; mret (module :: r)
  end.

Lemma tags_at_pos m p l : tags_at m p l → 0 <= p → ∀ t, t ∈ modules p l → 0 < t ∨ t = p.
Proof.
  revert p. induction l as [|[ty sz] l IH]; intros p; unfold modules; simpl; [set_solver|].
  intros (_ & _ & _ & Hsz & Hp & Hend & Hl) _ t.
  destruct (tag_step_spec sz) as [Hst _]; [lia|].
  rewrite u32_small in * by (unfold is_u32; lia).
  assert (t ∈ modules (p + tag_step sz) l → 0 < t ∨ t = p).
  { intros Ht. destruct (IH _ Hl ltac:(lia) t Ht) as [?| ->]; lia. }
  rewrite filter_cons. case_decide; simpl; [|done]. intros [->|?]%elem_of_cons; auto.
Qed.

(** Multiboot_framebuffer_info returns the address of the first frame buffer
    tag of the boot information, and 0 when there is none. *)
Theorem framebuffer_info_first m info l :
  tags_at m (u32 (info + 8)) l →
  multiboot_framebuffer_info info m =
  Ok (default 0 (head (fst <$> filter (λ t, t.2 = MULTIBOOT_TAG_TYPE_FRAMEBUFFER)
                                      (tag_list (u32 (info + 8)) l))), m).
Proof.
  intros Hl. apply framebuffer_loop_ok; [done|]. eapply tags_at_fuel; [done|].
  apply u32_range.
Qed.

Lemma all_modules_ok fuel m p l :
  tags_at m p l → 0 < p → (length l < fuel)%nat → all_modules fuel p m = Ok (modules p l, m).
Proof.
  revert p l. induction fuel as [|fuel IH]; intros p l Hl Hp Hf; [lia|]. simpl.
  pose proof (tags_at_fuel _ _ _ Hl ltac:(lia)) as Hfuel.
  destruct (next_module_loop_ok (walk_fuel m) m p l Hl Hfuel)
    as (q & l' & Hq & Hlen & Hpq & [(E & Hrun & ->)|(t & E & Hrun & Hlt)]);
    (match type of Hrun with _ = ?r => change (multiboot_get_next_module p m = r) in Hrun end);
    rewrite (bind_ok _ _ m _ m Hrun); cbn beta iota.
  - simpl. by rewrite E.
  - assert (Ht : 0 < t).
    { destruct (tags_at_pos _ _ _ Hl ltac:(lia) t) as [?| ->]; [rewrite E; by left|done|done]. }
    rewrite (proj2 (Z.eqb_neq t 0)) by lia.
    rewrite (bind_ok _ _ m (modules q l') m); [by rewrite E|].
    apply IH; [done|lia|lia].
Qed.

(** Calling multiboot_get_next_module repeatedly, from the first tag, returns
    the modules the boot loader loaded, all of them and in order, and then 0. *)
Theorem get_next_module_enumerates m info l :
  0 <= info < 2 ^ 32 - 8 → tags_at m (info + 8) l →
  all_modules (S (length l)) (info + 8) m = Ok (modules (info + 8) l, m).
Proof. intros Hi Hl. apply all_modules_ok; [done|lia|lia]. Qed.

(** ** Witnesses *)

Definition le32 (v : Z) : list Z :=
  [v mod 256; v / 256 mod 256; v / 65536 mod 256; v / 16777216 mod 256].

(** A boot information with a frame buffer of 80 by 25 at 0xB8000 and two modules. *)
Definition boot_info : list Z :=
  le32 96 ++ le32 0 ++
  le32 MULTIBOOT_TAG_TYPE_MODULE ++ le32 17 ++ le32 0x400000 ++ le32 0x401000 ++ replicate 8 0 ++
  le32 MULTIBOOT_TAG_TYPE_FRAMEBUFFER ++ le32 32 ++ le32 0xB8000 ++ le32 0 ++ le32 160 ++ le32 80 ++
    le32 25 ++ le32 0 ++
  le32 MULTIBOOT_TAG_TYPE_MODULE ++ le32 16 ++ le32 0x500000 ++ le32 0x501000 ++
  le32 MULTIBOOT_TAG_TYPE_END ++ le32 8.

Fixpoint boot_mem_from (p : Z) (l : list Z) : mem :=
  match l with [] => ∅ | b :: l => <[p := b]> (boot_mem_from (p + 1) l) end.

Definition boot_mem : mem := boot_mem_from 0x10000 boot_info.

Definition boot_tags : list (Z * Z) := [(3, 17); (8, 32); (3, 16)].

Lemma load32_value p m v : value (load32 p m) = Some v → load32 p m = Ok (v, m).
Proof.
  unfold load32, load16, load8, mem_bytes, mem_load8, mbind, M_bind, mret, M_ret.
  destruct (m !! u32 p); [|discriminate 1]. destruct (m !! u32 (p + 1)); [|discriminate 1].
  destruct (m !! u32 (p + 2)); [|discriminate 1]. destruct (m !! u32 (p + 2 + 1)); [|discriminate 1].
  simpl. congruence.
Qed.

Lemma boot_tags_ok : tags_at boot_mem (0x10000 + 8) boot_tags.
Proof.
  cbn [tags_at boot_tags]. unfold tag_type, tag_size.
  split_and!; first [done | apply load32_value; vm_compute; reflexivity | vm_compute; congruence].
Qed.

Lemma framebuffer_info_first_witness :
  multiboot_framebuffer_info 0x10000 boot_mem = Ok (0x10020, boot_mem).
Proof. by rewrite (framebuffer_info_first boot_mem 0x10000 boot_tags boot_tags_ok). Defined.

Lemma get_next_module_enumerates_witness :
  all_modules 4 (0x10000 + 8) boot_mem = Ok ([0x10008; 0x10040], boot_mem).
Proof.
  apply (get_next_module_enumerates boot_mem 0x10000 boot_tags); [lia|apply boot_tags_ok].
Defined.
