(* ===== verification/Pmm.v ===== *)
(** * The physical page allocator: arch/i386/mm/pmm.c

    One bit per 4 KB page, set when the page is used.  MEM_BITMAP is a static
    array: a byte that was never written is 0. *)

From S2P Require Import Prelude PageArith Kmalloc Mem Multiboot.

Notation bitmap := (gmap Z Z).

Definition MEM_BITMAP_SIZE : Z := Z.shiftl 1 20.
Definition BITMAP_ENTRY_MASK : Z := 255.

Section Operations.

Definition bitmap_byte (b : bitmap) (i : Z) : Z := default 0 (b !! i).

Definition pmm_mark_addr_used (addr : Z) : M bitmap unit :=
  let bitmap_bit := addr / PAGE_SIZE in
  let bitmap_index := bitmap_bit / 8 in
  modify (λ b, <[bitmap_index := u8 (Z.lor (bitmap_byte b bitmap_index)
                                       (Z.shiftl 1 (bitmap_bit mod 8)))]> b).

(** The loop of pmm_mark_range_used.  [i] steps through at most 2^20 addresses; if
    none of them ends the loop, it never ends. *)
Fixpoint mark_range_loop (fuel : nat) (i end_addr : Z) : M bitmap unit :=
  match fuel with
  | O => throw EFuel
  | S fuel =>
      if i <? end_addr then
        pmm_mark_addr_used i;; mark_range_loop fuel (u32 (i + PAGE_SIZE)) end_addr
      else mret tt
  end.

Definition range_fuel : nat := Z.to_nat (2 ^ 20 + 1).

Definition pmm_mark_range_used (start_addr end_addr : Z) : M bitmap unit :=
  mark_range_loop range_fuel start_addr end_addr.

(** The mask is 1 << bitmap_bit, not reduced modulo 8: the shift is undefined from
    bit 32 on. *)
Definition pmm_mark_addr_free (addr : Z) : M bitmap unit :=
  let bitmap_bit := addr / PAGE_SIZE in
  let bitmap_index := bitmap_bit / 8 in
  if 32 <=? bitmap_bit then throw (EUndef "shift by at least the width")
  else modify (λ b, <[bitmap_index := u8 (Z.land (bitmap_byte b bitmap_index)
                                            (Z.lnot (Z.shiftl 1 bitmap_bit)))]> b).

(** The inner loop of pmm_alloc_page: the number of trailing ones. *)
Fixpoint trailing_ones (fuel : nat) (entry : Z) : Z :=
  match fuel with
  | O => 0
  | S fuel => if Z.odd entry then 1 + trailing_ones fuel (Z.shiftr entry 1) else 0
  end.

Fixpoint alloc_page_loop (n : nat) (i : Z) : M bitmap Z :=
  match n with
  | O => panic "out of memory"
  | S n =>
      entry ← gets (λ b, bitmap_byte b i);
      if entry =? BITMAP_ENTRY_MASK then alloc_page_loop n (i + 1)
      else
        let alloc_bit := trailing_ones 8 entry in
        modify (λ b, <[i := u8 (Z.lor entry (Z.shiftl 1 alloc_bit))]> b);;
        mret (u32 ((i * 8 + alloc_bit) * PAGE_SIZE))
  end.

Definition pmm_alloc_page : M bitmap Z := alloc_page_loop (Z.to_nat MEM_BITMAP_SIZE) 0.

Definition pmm_free_page (addr : Z) : M bitmap unit := pmm_mark_addr_free addr.

(** pmm_init reads the boot information and marks what is not available. *)
Definition boot_state : Type := mem * bitmap.
Definition on_mem {A} (c : M mem A) : M boot_state A := zoom fst (λ m s, (m, s.2)) c.
Definition on_bitmap {A} (c : M bitmap A) : M boot_state A := zoom snd (λ b s, (s.1, b)) c.

(** The search for the memory map. *)
Fixpoint find_mmap (fuel : nat) (tag : Z) : M mem Z :=
  match fuel with
  | O => throw EFuel
  | S fuel =>
      ty ← tag_type tag;
      if negb (ty =? MULTIBOOT_TAG_TYPE_END) && negb (ty =? MULTIBOOT_TAG_TYPE_MMAP)
      then tag ← advance_tag tag; find_mmap fuel tag
      else mret tag
  end.

(** The loop over the entries of the memory map. *)
Fixpoint mark_mmap (fuel : nat) (tag mmap : Z) : M boot_state unit :=
  match fuel with
  | O => throw EFuel
  | S fuel =>
      size ← on_mem (tag_size tag);
      if mmap <? u32 (tag + size) then
        ty ← on_mem (mmap_type mmap);
        (if (ty =? MULTIBOOT_MEMORY_RESERVED) || (ty =? MULTIBOOT_MEMORY_ACPI_RECLAIMABLE)
            || (ty =? MULTIBOOT_MEMORY_NVS) || (ty =? MULTIBOOT_MEMORY_BADRAM) then
           addr ← on_mem (mmap_addr mmap);
           len ← on_mem (mmap_len mmap);
           on_bitmap (pmm_mark_range_used (u32 addr) (u32 (u64 (addr + len))))
         else mret tt);;
        entry_size ← on_mem (mmap_entry_size tag);
        mark_mmap fuel tag (u32 (mmap + entry_size))
      else mret tt
  end.

Definition pmm_init (KERNEL_MEMINFO : kernel_meminfo) (info_addr : Z) : M boot_state unit :=
  on_bitmap (pmm_mark_range_used (physical_start KERNEL_MEMINFO) (physical_end KERNEL_MEMINFO));;
  let heap_start := KERNEL_HEAP_PHYS_START in
  let heap_end := u32 (heap_start + KERNEL_HEAP_SIZE - 1) in
  on_bitmap (pmm_mark_range_used heap_start heap_end);;
  s ← get;
  tag ← on_mem (find_mmap (walk_fuel s.1) (u32 (info_addr + 8)));
  ty ← on_mem (tag_type tag);
  assert (negb (ty =? MULTIBOOT_TAG_TYPE_END)) "failed to read memory map";;
  mark_mmap (walk_fuel s.1) tag (mmap_entries tag);;
  fb ← on_mem (multiboot_framebuffer_info info_addr);
  w ← on_mem (framebuffer_width fb);
  h ← on_mem (framebuffer_height fb);
  let framebuffer_size := u32 (u32 (w * h) * 2) in
  a ← on_mem (framebuffer_addr fb);
  on_bitmap (pmm_mark_range_used (u32 a) (u32 (u64 (a + framebuffer_size - 1)))).

End Operations.

(** ** The set of used pages *)

Definition page_used (b : bitmap) (k : Z) : bool := Z.testbit (bitmap_byte b (k / 8)) (k mod 8).

(** The bytes of the array are bytes. *)
Definition bitmap_ok (b : bitmap) : Prop := ∀ i, is_u8 (bitmap_byte b i).

Section Pages.

Lemma bitmap_byte_insert b i v j :
  bitmap_byte (<[i := v]> b) j = if decide (i = j) then v else bitmap_byte b j.
Proof. unfold bitmap_byte. rewrite lookup_insert. by case_decide. Qed.

Lemma testbit_u8 z k : 0 <= k < 8 → Z.testbit (u8 z) k = Z.testbit z k.
Proof. intros. unfold u8. apply Z.mod_pow2_bits_low. lia. Qed.

Lemma div_mod_inj k j : k / 8 = j / 8 → k mod 8 = j mod 8 → k = j.
Proof. intros. Z.div_mod_to_equations. lia. Qed.

(** Setting the bit [k]. *)
Definition mark (k : Z) (b : bitmap) : bitmap :=
  <[k / 8 := u8 (Z.lor (bitmap_byte b (k / 8)) (Z.shiftl 1 (k mod 8)))]> b.

Lemma page_used_mark b k j : page_used (mark k b) j = bool_decide (j = k) || page_used b j.
Proof.
  unfold page_used, mark. rewrite bitmap_byte_insert.
  pose proof (Z.mod_pos_bound j 8 ltac:(done)). pose proof (Z.mod_pos_bound k 8 ltac:(done)).
  case_decide as Hi.
  - rewrite testbit_u8, Z.lor_spec, Z.shiftl_spec by lia. rewrite Hi.
    case_bool_decide as Hjk; simpl.
    + subst j. rewrite Z.sub_diag. apply orb_true_r.
    + assert (j mod 8 ≠ k mod 8) by (intros ?; apply Hjk, div_mod_inj; congruence).
      replace (Z.testbit 1 (j mod 8 - k mod 8)) with false; [apply orb_false_r|].
      symmetry. destruct (Z.ltb_spec (j mod 8) (k mod 8)).
      * apply Z.testbit_neg_r. lia.
      * apply (Z.pow2_bits_false 0). lia.
  - by rewrite bool_decide_eq_false_2 by congruence.
Qed.

Lemma bitmap_ok_insert b i v : bitmap_ok b → bitmap_ok (<[i := u8 v]> b).
Proof. intros Hb j. rewrite bitmap_byte_insert. case_decide; [apply u8_range|apply Hb]. Qed.

Lemma mark_addr_used_eq addr b :
  pmm_mark_addr_used addr b = Ok (tt, mark (addr / PAGE_SIZE) b).
Proof. reflexivity. Qed.

(** The first zero bit of a byte that is not full. *)
Lemma trailing_ones_spec entry :
  is_u8 entry → entry ≠ 255 →
  0 <= trailing_ones 8 entry < 8 ∧ Z.testbit entry (trailing_ones 8 entry) = false ∧
  ∀ i, 0 <= i < trailing_ones 8 entry → Z.testbit entry i = true.
Proof.
  assert (Hg : ∀ n e, 0 <= e < 2 ^ Z.of_nat n → e ≠ 2 ^ Z.of_nat n - 1 →
    0 <= trailing_ones n e < Z.of_nat n ∧ Z.testbit e (trailing_ones n e) = false ∧
    ∀ i, 0 <= i < trailing_ones n e → Z.testbit e i = true).
  { induction n as [|n IH]; intros e He Hne; [simpl in *; lia|].
    rewrite Nat2Z.inj_succ, Z.pow_succ_r in He, Hne by lia. cbn [trailing_ones].
    rewrite <- Z.bit0_odd. destruct (Z.testbit e 0) eqn:E0.
    - assert (Hodd : e = 2 * Z.shiftr e 1 + 1).
      { rewrite Z.shiftr_div_pow2 by lia. rewrite Z.bit0_odd in E0.
        rewrite (Z.div_mod e 2) at 1 by lia. rewrite Zmod_odd, E0. change (2 ^ 1) with 2. lia. }
      destruct (IH (Z.shiftr e 1)) as (Hr & Hb & Hlow); [lia..|].
      rewrite Z.shiftr_spec in Hb by lia. replace (1 + _) with (trailing_ones n (Z.shiftr e 1) + 1) by lia.
      split_and!; [lia..|done|]. intros i Hi. destruct (Z.eq_dec i 0) as [->|]; [done|].
      specialize (Hlow (i - 1) ltac:(lia)). rewrite Z.shiftr_spec in Hlow by lia.
      by rewrite Z.sub_add in Hlow.
    - split_and!; [lia..|done|]. intros i Hi. lia. }
  intros He Hne. apply (Hg 8%nat); [done|]. exact Hne.
Qed.

Lemma full_byte b i j : bitmap_byte b i = 255 → 0 <= j < 8 → page_used b (i * 8 + j) = true.
Proof.
  intros Hb Hj. unfold page_used. rewrite Z.div_add_l, (Z.div_small j) by lia.
  rewrite Z.add_0_r, Hb, Z.add_comm, Z.mod_add, Z.mod_small by lia.
  change 255 with (Z.ones 8). apply Z.ones_spec_low. lia.
Qed.

End Pages.

Section Contracts.

Lemma alloc_page_loop_ok n i b k :
  bitmap_ok b → 0 <= i → i * 8 <= k < (i + Z.of_nat n) * 8 →
  page_used b k = false → (∀ j, i * 8 <= j < k → page_used b j = true) →
  alloc_page_loop n i b = Ok (u32 (k * PAGE_SIZE), mark k b).
Proof.
  intros Hok Hi. revert i Hi. induction n as [|n IH]; intros i Hi Hk Hfree Hused; [lia|].
  cbn [alloc_page_loop]. unfold mbind, M_bind, gets. cbn beta iota.
  destruct (Z.eqb_spec (bitmap_byte b i) BITMAP_ENTRY_MASK) as [Hfull|Hnot].
  - assert (Hge : (i + 1) * 8 <= k).
    { destruct (Z.lt_ge_cases k ((i + 1) * 8)); [|lia].
      pose proof (full_byte b i (k - i * 8) Hfull ltac:(lia)) as E.
      replace (i * 8 + (k - i * 8)) with k in E by lia. congruence. }
    apply IH; [lia|lia|done|]. intros j Hj. apply Hused. lia.
  - destruct (trailing_ones_spec (bitmap_byte b i) (Hok i) Hnot) as (Hr & Hzero & Hones).
    set (t := trailing_ones 8 (bitmap_byte b i)) in *.
    assert (Hdiv : ∀ j, 0 <= j < 8 → (i * 8 + j) / 8 = i ∧ (i * 8 + j) mod 8 = j).
    { intros j Hj. Z.div_mod_to_equations. lia. }
    assert (Hkt : k = i * 8 + t).
    { destruct (Z.lt_trichotomy k (i * 8 + t)) as [Hlt|[?|Hgt]]; [|done|].
      - specialize (Hones (k - i * 8) ltac:(lia)). unfold page_used in Hfree.
        destruct (Hdiv (k - i * 8) ltac:(lia)) as [E1 E2].
        replace (i * 8 + (k - i * 8)) with k in E1, E2 by lia. rewrite E1, E2 in Hfree. congruence.
      - specialize (Hused (i * 8 + t) ltac:(lia)). unfold page_used in Hused.
        destruct (Hdiv t Hr) as [E1 E2]. rewrite E1, E2 in Hused. congruence. }
    subst k. destruct (Hdiv t Hr) as [E1 E2]. unfold mark. by rewrite E1, E2.
Qed.

Lemma alloc_page_loop_panic n i b :
  0 <= i → (∀ j, i * 8 <= j < (i + Z.of_nat n) * 8 → page_used b j = true) → bitmap_ok b →
  alloc_page_loop n i b = Err (EPanic "out of memory").
Proof.
  intros Hi Hall Hok. revert i Hi Hall. induction n as [|n IH]; intros i Hi Hall; [done|].
  cbn [alloc_page_loop]. unfold mbind, M_bind, gets. cbn beta iota.
  destruct (Z.eqb_spec (bitmap_byte b i) BITMAP_ENTRY_MASK) as [Hfull|Hnot].
  - apply IH; [lia|]. intros j Hj. apply Hall. lia.
  - destruct (trailing_ones_spec (bitmap_byte b i) (Hok i) Hnot) as (Hr & Hzero & _).
    specialize (Hall (i * 8 + trailing_ones 8 (bitmap_byte b i)) ltac:(lia)).
    set (t := trailing_ones 8 (bitmap_byte b i)) in *. unfold page_used in Hall.
    replace ((i * 8 + t) / 8) with i in Hall by (Z.div_mod_to_equations; lia).
    replace ((i * 8 + t) mod 8) with t in Hall by (Z.div_mod_to_equations; lia). congruence.
Qed.

Lemma bitmap_fuel k :
  0 <= k < 2 ^ 23 → 0 * 8 <= k < (0 + Z.of_nat (Z.to_nat MEM_BITMAP_SIZE)) * 8.
Proof. intros Hk. rewrite Z2Nat.id by done. change MEM_BITMAP_SIZE with (2 ^ 20). lia. Qed.

Lemma pmm_alloc_page_eq b k :
  bitmap_ok b → 0 <= k < 2 ^ 23 → page_used b k = false →
  (∀ j, 0 <= j < k → page_used b j = true) →
  pmm_alloc_page b = Ok (u32 (k * PAGE_SIZE), mark k b).
Proof.
  intros Hok Hk Hfree Hused. unfold pmm_alloc_page.
  exact (alloc_page_loop_ok _ 0 b k Hok (Z.le_refl 0) (bitmap_fuel k Hk) Hfree Hused).
Qed.

(** The page handed out was free. *)
Lemma alloc_page_loop_finds n i b pa b' :
  0 <= i → bitmap_ok b → alloc_page_loop n i b = Ok (pa, b') →
  ∃ p, i * 8 <= p < (i + Z.of_nat n) * 8 ∧ page_used b p = false.
Proof.
  intros Hi Hok. revert i Hi. induction n as [|n IH]; intros i Hi; [done|].
  cbn [alloc_page_loop]. unfold mbind, M_bind, gets. cbn beta iota.
  destruct (Z.eqb_spec (bitmap_byte b i) BITMAP_ENTRY_MASK) as [Hfull|Hnot].
  - intros E. destruct (IH (i + 1) ltac:(lia) E) as (p & Hp & Hf). exists p. split; [lia|done].
  - intros _. destruct (trailing_ones_spec (bitmap_byte b i) (Hok i) Hnot) as (Hr & Hzero & _).
    set (t := trailing_ones 8 (bitmap_byte b i)) in *. exists (i * 8 + t). split; [lia|]. unfold page_used.
    replace ((i * 8 + t) / 8) with i by (Z.div_mod_to_equations; lia).
    by replace ((i * 8 + t) mod 8) with t by (Z.div_mod_to_equations; lia).
Qed.

Lemma pmm_alloc_page_finds b pa b' :
  bitmap_ok b → pmm_alloc_page b = Ok (pa, b') → ∃ p, 0 <= p < 2 ^ 23 ∧ page_used b p = false.
Proof.
  unfold pmm_alloc_page. intros Hok E.
  destruct (alloc_page_loop_finds _ 0 b pa b' (Z.le_refl 0) Hok E) as (p & Hp & Hf). exists p. split; [|exact Hf].
  rewrite Z2Nat.id in Hp by done. change MEM_BITMAP_SIZE with (2 ^ 20) in Hp. lia.
Qed.

(** The page that the next allocation returns. *)
Definition lowest_free (b : bitmap) (k : Z) : Prop :=
  bitmap_ok b ∧ 0 <= k < 2 ^ 20 ∧ page_used b k = false ∧ ∀ j, 0 <= j < k → page_used b j = true.

Lemma wp_pmm_alloc_page k Q b :
  lowest_free b k → Q (k * PAGE_SIZE) (mark k b) → wp pmm_alloc_page Q b.
Proof.
  intros (Hok & Hk & Hfree & Hused) HQ. eapply wp_of_ok; [apply (pmm_alloc_page_eq b k); [done|lia|done..]|].
  rewrite u32_small; [done|]. rewrite PAGE_SIZE_val. unfold is_u32. lia.
Qed.

(** A limit on the frames that are handed out: the theorems on the code above hold for any
    limit below which there are enough free frames, and ask nothing of the frames from the
    limit on, which the allocator, taking the lowest, does not come to.  A frame is [taken]
    when it is in use or beyond the limit. *)
Class Limit : Type := frame_limit : Z.

Definition taken `{Limit} (b : bitmap) (k : Z) : bool := page_used b k || (frame_limit <=? k).

(** At least [n] pages below the limit are free. *)
Definition has_pages `{Limit} (b : bitmap) (n : nat) : Prop :=
  bitmap_ok b ∧ ∃ l, NoDup l ∧ (n <= length l)%nat ∧ ∀ k, k ∈ l → 0 <= k < 2 ^ 20 ∧ taken b k = false.

(** The frame that pmm_alloc_page returns next, below the limit. *)
Definition next_frame `{Limit} (b : bitmap) (k : Z) : Prop :=
  bitmap_ok b ∧ 0 <= k < 2 ^ 20 ∧ taken b k = false ∧ ∀ j, 0 <= j < k → page_used b j = true.

Lemma taken_used `{Limit} b k : page_used b k = true → taken b k = true.
Proof. unfold taken. by intros ->. Qed.

Lemma taken_mark `{Limit} b k j : taken (mark k b) j = bool_decide (j = k) || taken b j.
Proof. unfold taken. by rewrite page_used_mark, orb_assoc. Qed.

(** After that the frame 0 is in use. *)
Lemma next_frame_zero `{Limit} b k : next_frame b k → taken (mark k b) 0 = true.
Proof.
  intros (_ & Hk & _ & Hlow). rewrite taken_mark. case_bool_decide as E; [done|]. apply taken_used, Hlow. lia.
Qed.

Lemma next_frame_lowest `{Limit} b k : next_frame b k → lowest_free b k.
Proof. intros (Hok & Hk & Hf & Hlow). apply orb_false_iff in Hf as [Hf _]. done. Qed.

Lemma least_free b (m : nat) :
  page_used b (Z.of_nat m) = false →
  ∃ k, 0 <= k <= Z.of_nat m ∧ page_used b k = false ∧ ∀ j, 0 <= j < k → page_used b j = true.
Proof.
  induction m as [m IH] using lt_wf_ind. intros Hm.
  destruct (decide (Exists (λ i, page_used b (Z.of_nat i) = false) (seq 0 m))) as [Hex|Hno].
  - apply Exists_exists in Hex as (i & Hi%elem_of_seq & Hf). destruct (IH i ltac:(lia) Hf) as (k & Hk & ? & ?). exists k. split_and!; [lia|lia|done|done].
  - exists (Z.of_nat m). split_and!; [lia|lia|done|]. intros j Hj. apply not_false_iff_true. intros Hf.
    apply Hno, Exists_exists. exists (Z.to_nat j). rewrite Z2Nat.id by lia. split; [|done].
    apply elem_of_seq. lia.
Qed.

Lemma has_pages_take `{Limit} b n :
  has_pages b (S n) → ∃ k, next_frame b k ∧ has_pages (mark k b) n.
Proof.
  intros (Hok & l & Hnd & Hlen & Hl). destruct l as [|x l0] eqn:El; [simpl in Hlen; lia|]. rewrite <- El in *.
  destruct (Hl x) as [Hx Hf]; [rewrite El; by left|].
  pose proof Hf as [Hxf Hxl]%orb_false_iff. apply Z.leb_gt in Hxl.
  destruct (least_free b (Z.to_nat x)) as (k & Hk & Hkf & Hlow); [by rewrite Z2Nat.id by lia|].
  rewrite Z2Nat.id in Hk by lia.
  exists k. split.
  { split_and!; [done|lia|lia| |done]. unfold taken. rewrite Hkf. apply Z.leb_gt. lia. }
  split; [by apply bitmap_ok_insert|].
  exists (filter (λ y, y ≠ k) l). split_and!.
  - by apply NoDup_filter.
  - apply (Nat.le_trans _ (length l - 1)); [lia|]. clear -Hnd.
    induction Hnd as [|y l Hy Hnd IH]; [simpl; lia|].
    rewrite filter_cons. case_decide as Hyk; [simpl; lia|]. subst y.
    assert (filter (λ y, y ≠ k) l = l) as ->.
    { clear -Hy. induction l as [|z l IH]; [done|]. rewrite filter_cons_True by set_solver. f_equal. apply IH. set_solver. }
    simpl. lia.
  - intros y [Hy Hyl]%list_elem_of_filter. destruct (Hl y Hyl) as [? Hyf]. split; [done|].
    rewrite taken_mark, bool_decide_eq_false_2 by done. exact Hyf.
Qed.

(** C31: pmm_alloc_page returns the address of the lowest page that is not used,
    and marks this page, and no other, as used. *)
Theorem pmm_alloc_page_lowest b k :
  bitmap_ok b → 0 <= k < 2 ^ 20 → page_used b k = false →
  (∀ j, 0 <= j < k → page_used b j = true) →
  ∃ b', pmm_alloc_page b = Ok (k * PAGE_SIZE, b') ∧ bitmap_ok b' ∧
    ∀ j, page_used b' j = bool_decide (j = k) || page_used b j.
Proof.
  intros Hok Hk Hfree Hused. exists (mark k b). split_and!.
  - rewrite (pmm_alloc_page_eq b k Hok ltac:(lia) Hfree Hused).
    rewrite u32_small; [done|]. rewrite PAGE_SIZE_val. unfold is_u32. lia.
  - by apply bitmap_ok_insert.
  - intros j. apply page_used_mark.
Qed.

(** The bitmap has eight bits per byte but one byte per page: when all pages
    below 4 GB are used, pmm_alloc_page does not panic, it hands out the page at
    address 0 again. *)
Theorem pmm_alloc_page_wraps b :
  bitmap_ok b → (∀ j, 0 <= j < 2 ^ 20 → page_used b j = true) → page_used b (2 ^ 20) = false →
  ∃ b', pmm_alloc_page b = Ok (0, b').
Proof.
  intros Hok Hused Hfree. exists (mark (2 ^ 20) b).
  by rewrite (pmm_alloc_page_eq b (2 ^ 20) Hok ltac:(lia) Hfree Hused).
Qed.

Lemma mark_range_loop_ok fuel i end_addr b :
  0 <= i → i <= end_addr + PAGE_SIZE → end_addr <= 2 ^ 32 - PAGE_SIZE → bitmap_ok b →
  end_addr <= i + (Z.of_nat fuel - 1) * PAGE_SIZE → (0 < fuel)%nat →
  wp (mark_range_loop fuel i end_addr)
     (λ _ b', bitmap_ok b' ∧ ∀ j, page_used b' j =
        bool_decide (i / PAGE_SIZE <= j ∧ i + (j - i / PAGE_SIZE) * PAGE_SIZE < end_addr)
        || page_used b j) b.
Proof.
  rewrite PAGE_SIZE_val.
  revert i b. induction fuel as [|fuel IH]; intros i b Hi Hle Hend Hok Hf Hpos; [lia|].
  cbn [mark_range_loop]. rewrite PAGE_SIZE_val. destruct (Z.ltb_spec i end_addr) as [Hlt|Hge].
  - apply wp_bind. eapply wp_of_ok; [apply mark_addr_used_eq|]. rewrite PAGE_SIZE_val.
    rewrite u32_small by (unfold is_u32; lia).
    destruct fuel as [|fuel]; [lia|]. eapply wp_mono.
    { apply (IH (i + 4096)); try lia. by apply bitmap_ok_insert. }
    intros [] b' [Hok' Hj]. split; [done|]. intros j. rewrite Hj, page_used_mark.
    replace ((i + 4096) / 4096) with (i / 4096 + 1) by (Z.div_mod_to_equations; lia).
    destruct (page_used b j); [by rewrite !orb_true_r|]. rewrite !orb_false_r.
    rewrite <- bool_decide_or. apply bool_decide_ext. lia.
  - apply wp_ret. split; [done|]. intros j. rewrite bool_decide_eq_false_2 by lia. done.
Qed.

(** Pmm_mark_range_used marks exactly the pages that meet [start, end) when
    the start is page aligned and the end is at least a page below 4 GB. *)
Theorem pmm_mark_range_used_exact start_addr end_addr b :
  paging_is_aligned start_addr = true → 0 <= start_addr <= end_addr →
  end_addr <= 2 ^ 32 - PAGE_SIZE → bitmap_ok b →
  wp (pmm_mark_range_used start_addr end_addr)
     (λ _ b', bitmap_ok b' ∧ ∀ j, page_used b' j =
        bool_decide (start_addr < (j + 1) * PAGE_SIZE ∧ j * PAGE_SIZE < end_addr)
        || page_used b j) b.
Proof.
  intros [k Hk]%paging_is_aligned_mult Hs He Hok. eapply wp_mono.
  { apply (mark_range_loop_ok range_fuel); [lia|page_unfold; lia|done|done|..];
      unfold range_fuel; page_unfold; [rewrite Z2Nat.id|]; lia. }
  intros [] b' [Hok' Hj]. split; [done|]. intros j. rewrite Hj. f_equal. apply bool_decide_ext.
  rewrite Hk, Z.div_mul by done. page_unfold. lia.
Qed.

(** pmm_mark_range_used never ends when the end of the range is in the last page:
    the loop variable wraps around below it. *)
Theorem pmm_mark_range_used_loops start_addr end_addr b :
  is_u32 start_addr → start_addr mod PAGE_SIZE = 0 → 2 ^ 32 - PAGE_SIZE < end_addr →
  pmm_mark_range_used start_addr end_addr b = Err EFuel.
Proof.
  unfold pmm_mark_range_used. generalize range_fuel as fuel. rewrite PAGE_SIZE_val. intros fuel.
  revert start_addr b. induction fuel as [|fuel IH]; intros i b Hi Hal Hend; [done|].
  cbn [mark_range_loop]. rewrite (proj2 (Z.ltb_lt i end_addr)) by ulia.
  rewrite (bind_ok _ _ _ _ _ (mark_addr_used_eq i b)).
  apply IH; [apply u32_range| |done]. rewrite PAGE_SIZE_val. ulia.
Qed.

(** Pmm_free_page does not free: for the pages 8 to 31 it changes no bit, and
    from page 32 on its shift is undefined. *)
Theorem pmm_free_page_frees_nothing k b :
  bitmap_ok b → 8 <= k →
  (k < 32 → ∃ b', pmm_free_page (k * PAGE_SIZE) b = Ok (tt, b') ∧
              ∀ j, page_used b' j = page_used b j) ∧
  (32 <= k → ∃ why, pmm_free_page (k * PAGE_SIZE) b = Err (EUndef why)).
Proof.
  intros Hok Hk. unfold pmm_free_page, pmm_mark_addr_free. rewrite Z.div_mul by done. split; intros Hlt.
  - rewrite (proj2 (Z.leb_gt 32 k)) by lia. eexists. split; [done|]. intros j.
    unfold page_used. rewrite bitmap_byte_insert. case_decide as Hi; [|done].
    pose proof (Z.mod_pos_bound j 8 ltac:(done)).
    rewrite testbit_u8, Z.land_spec, Z.lnot_spec, Z.shiftl_spec, (Z.testbit_neg_r 1) by lia.
    rewrite Hi. apply andb_true_r.
  - rewrite (proj2 (Z.leb_le 32 k)) by lia. by eexists.
Qed.

End Contracts.

(** ** Witnesses *)

(** The first nine pages used. *)
Definition bitmap0 : bitmap := {[ 0 := 255; 1 := 1 ]}.

Lemma bitmap0_ok : bitmap_ok bitmap0.
Proof.
  intros i. unfold bitmap0, bitmap_byte. destruct (decide (i = 0)) as [->|]; [by vm_compute|].
  destruct (decide (i = 1)) as [->|]; [by vm_compute|].
  rewrite lookup_insert_ne, lookup_singleton_ne by done. by vm_compute.
Qed.

Lemma pmm_alloc_page_lowest_witness : ∃ b', pmm_alloc_page bitmap0 = Ok (9 * PAGE_SIZE, b').
Proof.
  destruct (pmm_alloc_page_lowest bitmap0 9 bitmap0_ok) as (b' & E & _); [lia|done| |by exists b'].
  intros j Hj. assert (j ∈ seqZ 0 9) as Hin by (apply elem_of_seqZ; lia).
  assert (Hall : Forall (λ j, page_used bitmap0 j = true) (seqZ 0 9)) by (by repeat constructor).
  rewrite Forall_forall in Hall. by apply Hall.
Defined.

Lemma pmm_mark_range_used_exact_witness :
  wp (pmm_mark_range_used 0x100000 0x102800)
     (λ _ b', page_used b' 0x101 = true ∧ page_used b' 0x103 = page_used bitmap0 0x103) bitmap0.
Proof.
  eapply wp_mono.
  - apply (pmm_mark_range_used_exact 0x100000 0x102800 bitmap0); [done|lia|by vm_compute|apply bitmap0_ok].
  - intros [] b' [_ Hj]. by rewrite !Hj.
Defined.

Lemma pmm_free_page_frees_nothing_witness :
  (∃ b', pmm_free_page (8 * PAGE_SIZE) bitmap0 = Ok (tt, b') ∧ page_used b' 8 = true) ∧
  ∃ why, pmm_free_page (40 * PAGE_SIZE) bitmap0 = Err (EUndef why).
Proof.
  split.
  - destruct (proj1 (pmm_free_page_frees_nothing 8 bitmap0 bitmap0_ok ltac:(lia)) ltac:(lia))
      as (b' & E & Hj). exists b'. split; [done|]. by rewrite Hj.
  - apply (pmm_free_page_frees_nothing 40 bitmap0 bitmap0_ok); lia.
Defined.

(** All pages below 4 GB used. *)
Definition full_bitmap : bitmap := list_to_map ((λ i, (i, 255)) <$> seqZ 0 (2 ^ 17)).

Lemma full_bitmap_byte i :
  bitmap_byte full_bitmap i = if decide (0 <= i < 2 ^ 17) then 255 else 0.
Proof.
  unfold bitmap_byte, full_bitmap.
  assert (Hfst : ∀ l : list Z, ((λ i, (i, 255)) <$> l).*1 = l).
  { intros l. induction l as [|x l IH]; [done|]. by rewrite !fmap_cons, IH. }
  generalize (eq_refl (seqZ 0 (2 ^ 17))). generalize (seqZ 0 (2 ^ 17)) at 1 3. intros l Hl.
  case_decide as Hi.
  - rewrite (elem_of_list_to_map_1 _ i 255); [done|rewrite Hfst, Hl; apply NoDup_seqZ|].
    apply list_elem_of_fmap. exists i. split; [done|]. rewrite Hl. apply elem_of_seqZ. lia.
  - rewrite not_elem_of_list_to_map_1; [done|]. rewrite Hfst, Hl, elem_of_seqZ. lia.
Qed.

Lemma pmm_alloc_page_wraps_witness : ∃ b', pmm_alloc_page full_bitmap = Ok (0, b').
Proof.
  apply (pmm_alloc_page_wraps full_bitmap).
  - intros i. rewrite full_bitmap_byte. case_decide; by vm_compute.
  - intros j Hj. unfold page_used. rewrite full_bitmap_byte.
    rewrite decide_True by (Z.div_mod_to_equations; lia).
    apply (Z.ones_spec_low 8). Z.div_mod_to_equations. lia.
  - unfold page_used. rewrite full_bitmap_byte. by rewrite decide_False by (by vm_compute; intros []).
Defined.
