(* ===== verification/Paging.v ===== *)
(** * Page tables: arch/i386/mm/paging.c and arch/i386/paging_bootstrap.c

    The page directory and the page tables are arrays of 32-bit entries, at
    kernel virtual addresses.  [words] holds the 32-bit words of memory by virtual
    address; a word never written is 0.  [walk] is the address translation of the
    i386 MMU, which reads physical memory: in the kernel mapping the word at a
    physical address is the one at the virtual address vmm_physical_to_virtual
    gives. *)

From S2P Require Import Prelude PageArith Kmalloc.

Notation words := (gmap Z Z).

Record paging_context := PagingContext { page_directory : Z; page_tables : Z }.

Definition word (w : words) (a : Z) : Z := default 0 (w !! a).
Definition set_word (a v : Z) (w : words) : words := <[a := u32 v]> w.

(** entries[i] of the page_table_t at [t]; sizeof(page_table_t) is 4096. *)
Definition entry_addr (t i : Z) : Z := u32 (t + 4 * i).
Definition page_table_at (ctx : paging_context) (i : Z) : Z := u32 (page_tables ctx + 4096 * i).

Section Operations.
Context (KERNEL_MEMINFO : kernel_meminfo).

Definition paging_map_virtual_to_physical (ctx : paging_context) (va pa flags : Z) : M words unit :=
  let page_table := page_table_at ctx (PAGE_DIRECTORY_INDEX va) in
  let page_table_addr := vmm_virtual_to_physical KERNEL_MEMINFO page_table in
  let page_start_addr := Z.shiftl (Z.shiftr pa 12) 12 in
  modify (set_word (entry_addr (page_directory ctx) (PAGE_DIRECTORY_INDEX va))
            (Z.lor page_table_addr flags));;
  modify (set_word (entry_addr page_table (PAGE_TABLE_INDEX va)) (Z.lor page_start_addr flags)).

Definition paging_unmap_addr (ctx : paging_context) (va : Z) : M words unit :=
  let page_table := page_table_at ctx (PAGE_DIRECTORY_INDEX va) in
  let page_table_addr := vmm_virtual_to_physical KERNEL_MEMINFO page_table in
  modify (set_word (entry_addr (page_directory ctx) (PAGE_DIRECTORY_INDEX va)) page_table_addr);;
  modify (set_word (entry_addr page_table (PAGE_TABLE_INDEX va)) 0).

(** memset(table->entries, 0, sizeof(table->entries)): the 1024 words from [t] are
    0, which is what an absent word is. *)
Definition clear_table (t : Z) : M words unit :=
  modify (λ w, filter (λ kv, ¬ (t <= kv.1 < t + 4 * PAGE_TABLE_SIZE)) w).

Fixpoint clear_tables (n : nat) (ctx : paging_context) (i : Z) : M words unit :=
  match n with
  | O => mret tt
  | S n => clear_table (page_table_at ctx i);; clear_tables n ctx (i + 1)
  end.

(** One loop of paging_create_page_directory: [n] pages from [va] to [pa]. *)
Fixpoint map_pages_loop (n : nat) (ctx : paging_context) (va pa : Z) (i : Z) : M words unit :=
  match n with
  | O => mret tt
  | S n =>
      paging_map_virtual_to_physical ctx (u32 (va + i * PAGE_SIZE)) (u32 (pa + i * PAGE_SIZE))
        (Z.lor PAGE_FLAG_PRESENT PAGE_FLAG_WRITE);;
      map_pages_loop n ctx va pa (i + 1)
  end.

(** The number of 64-bit [i] from 0 with base + i * step < limit. *)
Definition loop_count (base step limit : Z) : nat := Z.to_nat ((limit - base + step - 1) / step).

(** [param] is the address of the function's own parameter [page_directory], which
    is what the source takes the address of. *)
Definition paging_create_page_directory (page_directory page_tables param : Z) :
    M words paging_context :=
  assert (negb (page_directory =? 0)) "page_directory should not be NULL";;
  assert (negb (page_tables =? 0)) "page_tables should not be NULL";;
  let ctx := PagingContext page_directory page_tables in
  clear_table page_directory;;
  clear_tables (Z.to_nat PAGE_TABLE_SIZE) ctx 0;;
  map_pages_loop (loop_count (higher_half_base KERNEL_MEMINFO) PAGE_SIZE (virtual_end KERNEL_MEMINFO))
    ctx (higher_half_base KERNEL_MEMINFO) 0 0;;
  map_pages_loop (loop_count 0 PAGE_SIZE KERNEL_HEAP_SIZE)
    ctx KERNEL_HEAP_VIRT_START KERNEL_HEAP_PHYS_START 0;;
  let cr3 := vmm_virtual_to_physical KERNEL_MEMINFO param in
  modify (set_word (entry_addr page_directory (PAGE_TABLE_SIZE - 1))
            (Z.lor (Z.lor cr3 PAGE_FLAG_PRESENT) PAGE_FLAG_WRITE));;
  mret ctx.

(** init_paging: the paging context and the value loaded into CR3. *)
Definition init_paging (INIT_ACTIVE_PAGE_DIRECTORY INIT_KERNEL_PAGE_TABLES param : Z) :
    M words (paging_context * Z) :=
  ctx ← paging_create_page_directory INIT_ACTIVE_PAGE_DIRECTORY INIT_KERNEL_PAGE_TABLES param;
  mret (ctx, vmm_virtual_to_physical KERNEL_MEMINFO (page_directory ctx)).

(** paging_bootstrap: 4 MB pages; KERNEL_PAGE_DIRECTORY is at [pd]. *)
Definition KERNEL_PAGE_SIZE : Z := Z.shiftl 1 22.

Fixpoint bootstrap_loop (n : nat) (pd i : Z) : M words unit :=
  match n with
  | O => mret tt
  | S n =>
      let virtual_address := u32 (virtual_start KERNEL_MEMINFO + i * KERNEL_PAGE_SIZE) in
      let physical_address := u32 (physical_start KERNEL_MEMINFO + i * KERNEL_PAGE_SIZE) in
      let entry := Z.shiftl (PAGE_DIRECTORY_INDEX physical_address) 22 in
      modify (set_word (entry_addr pd (PAGE_DIRECTORY_INDEX virtual_address))
        (Z.lor (Z.lor (Z.lor entry PAGE_FLAG_PRESENT) PAGE_FLAG_PAGE_SIZE) PAGE_FLAG_WRITE));;
      bootstrap_loop n pd (i + 1)
  end.

Definition paging_bootstrap (pd : Z) : M words Z :=
  clear_table pd;;
  bootstrap_loop (loop_count (virtual_start KERNEL_MEMINFO) KERNEL_PAGE_SIZE
                    (virtual_end KERNEL_MEMINFO)) pd 0;;
  mret pd.

(** ** Address translation *)

Definition present (e : Z) : bool := Z.testbit e 0.
Definition large (e : Z) : bool := Z.testbit e 7.
Definition frame (e : Z) : Z := Z.land e (2 ^ 32 - 2 ^ 12).

Definition phys_word (w : words) (p : Z) : Z :=
  word w (vmm_physical_to_virtual KERNEL_MEMINFO p).

(** The entry that maps [va] under the directory at physical address [cr3], and the
    physical address; [rd] reads a word of physical memory. *)
Definition walk (rd : Z → Z) (cr3 va : Z) : option (Z * Z) :=
  let pde := rd (cr3 + 4 * PAGE_DIRECTORY_INDEX va) in
  if present pde then
    if large pde then Some (pde, Z.land pde (2 ^ 32 - 2 ^ 22) + va mod 2 ^ 22)
    else
      let pte := rd (frame pde + 4 * PAGE_TABLE_INDEX va) in
      if present pte then Some (pte, frame pte + va mod 2 ^ 12) else None
  else None.

(** The flags R/W and U/S of an entry.  The processor grants an access that both the
    directory entry and the table entry grant. *)
Record rights : Type := Rights { r_write : bool; r_user : bool }.
Definition entry_rights (e : Z) : rights := Rights (Z.testbit e 1) (Z.testbit e 2).
Definition both (r1 r2 : rights) : rights := Rights (r_write r1 && r_write r2) (r_user r1 && r_user r2).

Definition walk_rights (rd : Z → Z) (cr3 va : Z) : option rights :=
  match walk rd cr3 va with
  | Some (e, _) => Some (both (entry_rights (rd (cr3 + 4 * PAGE_DIRECTORY_INDEX va))) (entry_rights e))
  | None => None
  end.

(** The translation of the context [ctx], and what it grants. *)
Definition translate (w : words) (ctx : paging_context) (va : Z) : option (Z * Z) :=
  walk (phys_word w) (vmm_virtual_to_physical KERNEL_MEMINFO (page_directory ctx)) va.
Definition access (w : words) (ctx : paging_context) (va : Z) : option rights :=
  walk_rights (phys_word w) (vmm_virtual_to_physical KERNEL_MEMINFO (page_directory ctx)) va.

End Operations.

(** A context whose tables are aligned, apart, and in the address space. *)
Record paging_ok (ctx : paging_context) : Prop := {
  pd_aligned : page_directory ctx mod 4096 = 0;
  pt_aligned : page_tables ctx mod 4096 = 0;
  pd_range : 0 <= page_directory ctx ∧ page_directory ctx + 4096 <= 2 ^ 32;
  pt_range : 0 <= page_tables ctx ∧ page_tables ctx + 4096 * 1024 <= 2 ^ 32;
  pd_apart : page_directory ctx + 4096 <= page_tables ctx ∨
             page_tables ctx + 4096 * 1024 <= page_directory ctx
}.

(** ** Entries *)

Section Entries.

Lemma lor_add a f : a mod 4096 = 0 → 0 <= a → 0 <= f < 4096 → Z.lor a f = a + f.
Proof.
  intros Ha Ha0 Hf. rewrite <- (Z.add_lor_land a f). replace (Z.land a f) with 0; [lia|]. symmetry.
  apply Z.bits_inj'. intros k Hk. rewrite Z.land_spec, Z.bits_0.
  destruct (Z.lt_ge_cases k 12) as [Hlt|Hge].
  - rewrite <- (Z.mod_pow2_bits_low a 12 k) by lia. change (2 ^ 12) with 4096. by rewrite Ha, Z.bits_0.
  - apply andb_false_iff. right. destruct (Z.eq_dec f 0) as [->|]; [apply Z.bits_0|].
    apply Z.bits_above_log2; [lia|]. eapply Z.lt_le_trans; [|exact Hge].
    apply Z.log2_lt_pow2; lia.
Qed.

Lemma frame_div e : is_u32 e → frame e = e / 4096 * 4096.
Proof.
  intros He. unfold frame. change 4096 with (2 ^ 12).
  rewrite <- Z.shiftl_mul_pow2, <- Z.shiftr_div_pow2 by lia.
  apply Z.bits_inj'. intros k Hk. rewrite Z.land_spec.
  change (2 ^ 32 - 2 ^ 12) with (Z.shiftl (Z.ones 20) 12).
  destruct (Z.lt_ge_cases k 12) as [Hlt|Hge].
  - rewrite !Z.shiftl_spec_low by lia. apply andb_false_r.
  - rewrite !Z.shiftl_spec, Z.shiftr_spec, Z.sub_add by lia.
    destruct (Z.lt_ge_cases k 32) as [H32|H32].
    + rewrite Z.ones_spec_low by lia. apply andb_true_r.
    + rewrite Z.ones_spec_high by lia. rewrite andb_false_r. symmetry.
      destruct (Z.eq_dec e 0) as [->|]; [apply Z.bits_0|].
      apply Z.bits_above_log2; [unfold is_u32 in He; lia|]. eapply Z.lt_le_trans; [|exact H32].
      apply Z.log2_lt_pow2; unfold is_u32 in He; lia.
Qed.

Lemma page_start pa : Z.shiftl (Z.shiftr pa 12) 12 = pa / 4096 * 4096.
Proof. by rewrite Z.shiftl_mul_pow2, Z.shiftr_div_pow2. Qed.

Context (a f : Z) (Ha : a mod 4096 = 0) (Har : 0 <= a < 2 ^ 32) (Hf : 0 <= f < 4096).

Lemma entry_u32 : u32 (Z.lor a f) = a + f.
Proof. rewrite lor_add by lia. apply u32_small. unfold is_u32. Z.div_mod_to_equations. lia. Qed.

Lemma entry_frame : frame (a + f) = a.
Proof.
  rewrite frame_div by (unfold is_u32; Z.div_mod_to_equations; lia).
  Z.div_mod_to_equations. lia.
Qed.

Lemma entry_bit k : 0 <= k < 12 → Z.testbit (a + f) k = Z.testbit f k.
Proof.
  intros Hk. rewrite <- (Z.mod_pow2_bits_low (a + f) 12 k), <- (Z.mod_pow2_bits_low f 12 k) by lia.
  f_equal. change (2 ^ 12) with 4096. Z.div_mod_to_equations. lia.
Qed.

End Entries.

(** ** Mapping and unmapping *)

Section Mapping.
Context (mi : kernel_meminfo) (ctx : paging_context) (Hctx : paging_ok ctx).
Context (Hhh : higher_half_base mi mod 4096 = 0) (Hhr : is_u32 (higher_half_base mi)).

Definition pde_addr (va : Z) : Z := page_directory ctx + 4 * PAGE_DIRECTORY_INDEX va.
Definition pte_addr (va : Z) : Z :=
  page_tables ctx + 4096 * PAGE_DIRECTORY_INDEX va + 4 * PAGE_TABLE_INDEX va.

Definition table_phys (va : Z) : Z :=
  vmm_virtual_to_physical mi (page_tables ctx + 4096 * PAGE_DIRECTORY_INDEX va).

(** The directory entry of [va], if present, points to the context's own table. *)
Definition region_ok (w : words) (va : Z) : Prop :=
  present (word w (pde_addr va)) = true →
  large (word w (pde_addr va)) = false ∧ frame (word w (pde_addr va)) = table_phys va.

Lemma indices va :
  is_u32 va → 0 <= PAGE_DIRECTORY_INDEX va < 1024 ∧ 0 <= PAGE_TABLE_INDEX va < 1024 ∧
    va = PAGE_DIRECTORY_INDEX va * 2 ^ 22 + PAGE_TABLE_INDEX va * 2 ^ 12 + va mod 2 ^ 12.
Proof.
  intros Hva. rewrite PAGE_DIRECTORY_INDEX_div, PAGE_TABLE_INDEX_div.
  change (2 ^ 22) with 4194304. change (2 ^ 12) with 4096. change (2 ^ 10) with 1024.
  unfold_width. split_and!; Z.div_mod_to_equations; lia.
Qed.

Lemma entry_addrs va :
  is_u32 va →
  entry_addr (page_directory ctx) (PAGE_DIRECTORY_INDEX va) = pde_addr va ∧
  page_table_at ctx (PAGE_DIRECTORY_INDEX va) = page_tables ctx + 4096 * PAGE_DIRECTORY_INDEX va ∧
  entry_addr (page_tables ctx + 4096 * PAGE_DIRECTORY_INDEX va) (PAGE_TABLE_INDEX va) = pte_addr va.
Proof.
  intros (Hd & Ht & _)%indices. destruct Hctx as [? ? Hpd Hpt _].
  unfold entry_addr, page_table_at, pde_addr, pte_addr. rewrite !u32_small by (unfold is_u32; lia).
  done.
Qed.

Lemma table_phys_ok va : is_u32 va → table_phys va mod 4096 = 0 ∧ is_u32 (table_phys va).
Proof.
  intros (Hd & _)%indices. destruct Hctx as [_ Hal _ Hpt _].
  unfold table_phys, vmm_virtual_to_physical. split; [|apply u32_range].
  unfold_width. Z.div_mod_to_equations. lia.
Qed.

(** Entries of different pages are at different addresses. *)
Lemma pde_pte_apart va va' : is_u32 va → is_u32 va' → pde_addr va ≠ pte_addr va'.
Proof.
  intros (Hd & _)%indices (Hd' & Ht' & _)%indices. destruct Hctx as [? ? Hpd Hpt Hap].
  unfold pde_addr, pte_addr. lia.
Qed.

Lemma pde_addr_inj va va' :
  pde_addr va = pde_addr va' ↔ PAGE_DIRECTORY_INDEX va = PAGE_DIRECTORY_INDEX va'.
Proof. unfold pde_addr. lia. Qed.

Lemma pte_addr_inj va va' :
  is_u32 va → is_u32 va' →
  pte_addr va = pte_addr va' ↔ va / PAGE_SIZE = va' / PAGE_SIZE.
Proof.
  intros Hva Hva'. destruct (indices va Hva) as (Hd & Ht & E), (indices va' Hva') as (Hd' & Ht' & E').
  unfold pte_addr. rewrite PAGE_SIZE_val. change (2 ^ 22) with 4194304 in *. change (2 ^ 12) with 4096 in *.
  split; intros Heq.
  - assert (PAGE_DIRECTORY_INDEX va = PAGE_DIRECTORY_INDEX va' ∧
            PAGE_TABLE_INDEX va = PAGE_TABLE_INDEX va') as [E1 E2] by lia.
    rewrite E, E', E1, E2. Z.div_mod_to_equations. lia.
  - assert (PAGE_DIRECTORY_INDEX va = PAGE_DIRECTORY_INDEX va' ∧
            PAGE_TABLE_INDEX va = PAGE_TABLE_INDEX va') as [E1 E2]; [|lia].
    Z.div_mod_to_equations. lia.
Qed.

Lemma same_page_region va va' :
  va / PAGE_SIZE = va' / PAGE_SIZE → PAGE_DIRECTORY_INDEX va = PAGE_DIRECTORY_INDEX va'.
Proof.
  rewrite !PAGE_DIRECTORY_INDEX_div, PAGE_SIZE_val. change (2 ^ 22) with (4096 * 1024).
  intros E. rewrite <- !Z.div_div by lia. by rewrite E.
Qed.

(** The kernel mapping shows the table entry of [va] at its address in the context. *)
Lemma table_entry_virtual va :
  is_u32 va → vmm_physical_to_virtual mi (table_phys va + 4 * PAGE_TABLE_INDEX va) = pte_addr va.
Proof.
  intros Hva. destruct (entry_addrs va Hva) as (_ & _ & <-).
  unfold table_phys, vmm_physical_to_virtual, vmm_virtual_to_physical, entry_addr. unfold u32.
  rewrite <- Z.add_assoc, Zplus_mod_idemp_l. f_equal. lia.
Qed.

Lemma directory_entry_virtual va :
  is_u32 va →
  vmm_physical_to_virtual mi (vmm_virtual_to_physical mi (page_directory ctx) + 4 * PAGE_DIRECTORY_INDEX va) = pde_addr va.
Proof.
  intros Hva. rewrite <- (proj1 (entry_addrs va Hva)).
  unfold vmm_physical_to_virtual, vmm_virtual_to_physical, entry_addr. unfold u32.
  rewrite <- Z.add_assoc, Zplus_mod_idemp_l. f_equal. lia.
Qed.

(** The translation, from the two entries. *)
Lemma translate_entries w va :
  is_u32 va → region_ok w va →
  translate mi w ctx va =
    if present (word w (pde_addr va)) && present (word w (pte_addr va))
    then Some (word w (pte_addr va), frame (word w (pte_addr va)) + va mod PAGE_SIZE) else None.
Proof.
  intros Hva Hok. unfold translate, walk, phys_word.
  rewrite (directory_entry_virtual va Hva). destruct (present (word w (pde_addr va))) eqn:Ep; [|done].
  destruct (Hok Ep) as [-> ->]. rewrite table_entry_virtual by done. by destruct (present (word w (pte_addr va))).
Qed.

Lemma access_entries w va :
  access mi w ctx va = (λ r, both (entry_rights (phys_word mi w (vmm_virtual_to_physical mi (page_directory ctx) +
    4 * PAGE_DIRECTORY_INDEX va))) (entry_rights r.1)) <$> translate mi w ctx va.
Proof. unfold access, walk_rights, translate. by destruct (walk _ _ va) as [[]|]. Qed.

Lemma word_set a v w b : word (set_word a v w) b = if decide (a = b) then u32 v else word w b.
Proof. unfold word, set_word. rewrite lookup_insert. by case_decide. Qed.

(** The words of memory are 32 bits wide. *)
Definition words_ok w : Prop := ∀ a, is_u32 (word w a).

Lemma words_ok_set a v w : words_ok w → words_ok (set_word a v w).
Proof. intros Hw b. rewrite word_set. case_decide; [apply u32_range|apply Hw]. Qed.

Lemma map_eq va pa fl w :
  is_u32 va →
  paging_map_virtual_to_physical mi ctx va pa fl w =
  Ok (tt, set_word (pte_addr va) (Z.lor (pa / 4096 * 4096) fl)
            (set_word (pde_addr va) (Z.lor (table_phys va) fl) w)).
Proof.
  intros Hva. unfold paging_map_virtual_to_physical, table_phys.
  destruct (entry_addrs va Hva) as (-> & -> & ->). by rewrite page_start.
Qed.

Lemma unmap_eq va w :
  is_u32 va →
  paging_unmap_addr mi ctx va w =
  Ok (tt, set_word (pte_addr va) 0 (set_word (pde_addr va) (table_phys va) w)).
Proof.
  intros Hva. unfold paging_unmap_addr, table_phys. by destruct (entry_addrs va Hva) as (-> & -> & ->).
Qed.

(** Flags that make a present 4 KB entry. *)
Definition flags_ok (fl : Z) : Prop :=
  0 <= fl < 4096 ∧ Z.testbit fl 0 = true ∧ Z.testbit fl 7 = false.

Lemma map_words va pa fl w va' :
  is_u32 va → is_u32 va' → is_u32 pa → 0 <= fl < 4096 →
  let w' := set_word (pte_addr va) (Z.lor (pa / 4096 * 4096) fl)
              (set_word (pde_addr va) (Z.lor (table_phys va) fl) w) in
  word w' (pde_addr va') =
    (if decide (PAGE_DIRECTORY_INDEX va = PAGE_DIRECTORY_INDEX va') then table_phys va + fl
     else word w (pde_addr va')) ∧
  word w' (pte_addr va') =
    (if decide (va / PAGE_SIZE = va' / PAGE_SIZE) then pa / 4096 * 4096 + fl
     else word w (pte_addr va')).
Proof.
  intros Hva Hva' Hpa Hfl w'. unfold w'. rewrite !word_set.
  destruct (table_phys_ok va Hva) as [Ht1 Ht2].
  assert (Hp : 0 <= pa / 4096 * 4096 < 2 ^ 32 ∧ (pa / 4096 * 4096) mod 4096 = 0)
    by (split; [unfold is_u32 in Hpa; Z.div_mod_to_equations; lia|apply Z.mod_mul; lia]).
  rewrite !entry_u32 by (lia || apply Hp || apply Ht1 || apply Ht2). split.
  - rewrite decide_False by (intros E; by apply (pde_pte_apart va' va)).
    destruct (decide (pde_addr va = pde_addr va')) as [E|E]; rewrite pde_addr_inj in E.
    + by rewrite decide_True.
    + by rewrite decide_False.
  - destruct (decide (pte_addr va = pte_addr va')) as [E|E]; rewrite pte_addr_inj in E by done.
    + by rewrite decide_True.
    + rewrite decide_False by (by apply pde_pte_apart). by rewrite decide_False.
Qed.

Lemma same_region_table va va' :
  PAGE_DIRECTORY_INDEX va = PAGE_DIRECTORY_INDEX va' → table_phys va = table_phys va'.
Proof. unfold table_phys. by intros ->. Qed.

(** The translation as the two entries give it. *)
Definition entries_translation (w : words) (va : Z) : option (Z * Z) :=
  if present (word w (pde_addr va)) && present (word w (pte_addr va))
  then Some (word w (pte_addr va), frame (word w (pte_addr va)) + va mod PAGE_SIZE) else None.

Lemma paging_map_entries va pa fl w :
  is_u32 va → is_u32 pa → flags_ok fl →
  wp (paging_map_virtual_to_physical mi ctx va pa fl)
     (λ _ w', ∀ va', is_u32 va' →
        (va' / PAGE_SIZE = va / PAGE_SIZE →
           region_ok w' va' ∧ entries_translation w' va' =
           Some (pa / PAGE_SIZE * PAGE_SIZE + fl, pa / PAGE_SIZE * PAGE_SIZE + va' mod PAGE_SIZE)) ∧
        (va' / PAGE_SIZE ≠ va / PAGE_SIZE → region_ok w va' →
         PAGE_DIRECTORY_INDEX va' ≠ PAGE_DIRECTORY_INDEX va ∨ present (word w (pde_addr va')) = true →
           region_ok w' va' ∧ entries_translation w' va' = entries_translation w va')) w.
Proof.
  intros Hva Hpa (Hfl & Hp & Hl). eapply wp_of_ok; [by apply map_eq|]. intros va' Hva'.
  destruct (table_phys_ok va Hva) as [Ht1 Ht2].
  destruct (map_words va pa fl w va' Hva Hva' Hpa Hfl) as [E1 E2].
  set (w' := set_word _ _ _) in *.
  assert (Hpf : 0 <= pa / 4096 * 4096 < 2 ^ 32 ∧ (pa / 4096 * 4096) mod 4096 = 0)
    by (split; [unfold is_u32 in Hpa; Z.div_mod_to_equations; lia|apply Z.mod_mul; lia]).
  assert (Hreg : PAGE_DIRECTORY_INDEX va = PAGE_DIRECTORY_INDEX va' →
    region_ok w' va' ∧ present (word w' (pde_addr va')) = true).
  { intros Hsame. unfold region_ok, present, large. rewrite E1, decide_True by done.
    rewrite !entry_bit by (lia || done). split; [|done]. intros _. split; [done|].
    rewrite entry_frame by (lia || done || apply Ht2). by apply same_region_table. }
  unfold entries_translation. split.
  - intros Hpage. rewrite decide_True in E2 by done.
    destruct (Hreg (same_page_region va va' (eq_sym Hpage))) as [Hok Hpr]. split; [done|].
    rewrite Hpr, E2. unfold present.
    rewrite entry_bit, Hp by (lia || apply Hpf). rewrite entry_frame by (lia || apply Hpf). done.
  - intros Hpage Hok Hcase. rewrite decide_False in E2 by congruence.
    destruct (decide (PAGE_DIRECTORY_INDEX va = PAGE_DIRECTORY_INDEX va')) as [Hd|Hd].
    + destruct (Hreg Hd) as [Hok' Hpr']. destruct Hcase as [?|Hpr]; [congruence|].
      by rewrite Hpr, Hpr', E2.
    + unfold region_ok. by rewrite E1, E2.
Qed.

(** What the context's own table says of [va]. *)
Definition table_translation (w : words) (va : Z) : option (Z * Z) :=
  if present (word w (pte_addr va))
  then Some (word w (pte_addr va), frame (word w (pte_addr va)) + va mod PAGE_SIZE) else None.

Lemma translate_table w va :
  is_u32 va → region_ok w va → present (word w (pde_addr va)) = true → translate mi w ctx va = table_translation w va.
Proof. intros Hva Hok Hp. by rewrite translate_entries, Hp by done. Qed.

Lemma access_table w va :
  is_u32 va → region_ok w va → present (word w (pde_addr va)) = true →
  access mi w ctx va = (λ r, both (entry_rights (word w (pde_addr va))) (entry_rights r.1)) <$> table_translation w va.
Proof.
  intros Hva Hok Hp. rewrite access_entries, translate_table by done.
  unfold phys_word. by rewrite directory_entry_virtual.
Qed.

Lemma entry_rights_add a f :
  a mod 4096 = 0 → 0 <= a < 2 ^ 32 → 0 <= f < 4096 → entry_rights (a + f) = entry_rights f.
Proof. intros. unfold entry_rights. by rewrite !entry_bit by lia. Qed.

Lemma both_self r : both r r = r.
Proof. destruct r as [[] []]; done. Qed.

(** The region of the page, after the page was mapped: the directory entry points to the
    context's table and has the new flags; the other entries of the table are as before. *)
Lemma map_region va pa fl w va' :
  is_u32 va → is_u32 pa → flags_ok fl → is_u32 va' → PAGE_DIRECTORY_INDEX va' = PAGE_DIRECTORY_INDEX va →
  let w' := set_word (pte_addr va) (Z.lor (pa / 4096 * 4096) fl) (set_word (pde_addr va) (Z.lor (table_phys va) fl) w) in
  translate mi w' ctx va' = table_translation w' va' ∧
  access mi w' ctx va' = (λ r, both (entry_rights fl) (entry_rights r.1)) <$> table_translation w' va'.
Proof.
  intros Hva Hpa (Hfl & Hp & Hl) Hva' Hd w'. destruct (table_phys_ok va Hva) as [Ht1 Ht2].
  destruct (map_words va pa fl w va' Hva Hva' Hpa Hfl) as [E1 _]. change (set_word (pte_addr va) _ _) with w' in E1. rewrite decide_True in E1 by done.
  assert (Hok : region_ok w' va').
  { intros _. unfold large. rewrite E1, entry_bit by (lia || done). split; [done|].
    rewrite entry_frame by (lia || done || apply Ht2). by apply same_region_table. }
  assert (Hpr : present (word w' (pde_addr va')) = true) by (unfold present; by rewrite E1, entry_bit by (lia || done)).
  rewrite translate_table, access_table by done. split; [done|]. by rewrite E1, entry_rights_add by (lia || done).
Qed.

(** C20: after paging_map_virtual_to_physical
    - the MMU translates every address of the page to the given frame, with the given flags,
      and grants what they say;
    - the other pages of the same 4 MB region are translated as the table says, so those
      that were mapped keep their frame and their entry; but what is granted for them is cut
      down to the flags of the new page, which the directory entry now has
      ([paging_map_takes_access]);
    - in the other regions nothing changes. *)
Theorem paging_map_translates va pa fl w :
  is_u32 va → is_u32 pa → flags_ok fl →
  wp (paging_map_virtual_to_physical mi ctx va pa fl)
     (λ _ w', ∀ va', is_u32 va' →
        (va' / PAGE_SIZE = va / PAGE_SIZE →
           translate mi w' ctx va' =
           Some (pa / PAGE_SIZE * PAGE_SIZE + fl, pa / PAGE_SIZE * PAGE_SIZE + va' mod PAGE_SIZE) ∧
           access mi w' ctx va' = Some (entry_rights fl)) ∧
        (va' / PAGE_SIZE ≠ va / PAGE_SIZE → PAGE_DIRECTORY_INDEX va' = PAGE_DIRECTORY_INDEX va →
           translate mi w' ctx va' = table_translation w va' ∧
           access mi w' ctx va' = (λ r, both (entry_rights fl) (entry_rights r.1)) <$> table_translation w va' ∧
           (region_ok w va' → present (word w (pde_addr va')) = true →
              translate mi w' ctx va' = translate mi w ctx va')) ∧
        (PAGE_DIRECTORY_INDEX va' ≠ PAGE_DIRECTORY_INDEX va → region_ok w va' →
           translate mi w' ctx va' = translate mi w ctx va' ∧ access mi w' ctx va' = access mi w ctx va')) w.
Proof.
  intros Hva Hpa Hfl. pose proof Hfl as (Hflr & Hp & Hl). eapply wp_of_ok; [by apply map_eq|]. intros va' Hva'.
  pose proof (map_region va pa fl w va' Hva Hpa Hfl Hva') as Hreg.
  destruct (map_words va pa fl w va' Hva Hva' Hpa Hflr) as [E1 E2]. set (w' := set_word _ _ _) in *.
  assert (Hpf : 0 <= pa / 4096 * 4096 < 2 ^ 32 ∧ (pa / 4096 * 4096) mod 4096 = 0)
    by (split; [unfold is_u32 in Hpa; Z.div_mod_to_equations; lia|apply Z.mod_mul; lia]).
  split_and!.
  - intros Hpage. destruct (Hreg (same_page_region _ _ Hpage)) as [-> ->]. rewrite decide_True in E2 by done.
    unfold table_translation, present. rewrite E2, entry_bit, Hp by (lia || apply Hpf).
    rewrite entry_frame by (lia || apply Hpf). split; [done|]. cbn [fmap option_fmap option_map fst].
    by rewrite entry_rights_add, both_self by (lia || apply Hpf).
  - intros Hpage Hd. destruct (Hreg Hd) as [-> ->]. rewrite decide_False in E2 by congruence.
    assert (table_translation w' va' = table_translation w va') as -> by (unfold table_translation; by rewrite E2).
    split_and!; [done..|]. intros Hok Hpr. by rewrite translate_table.
  - intros Hd Hok. rewrite decide_False in E1 by congruence.
    rewrite decide_False in E2 by (intros E; apply Hd, same_page_region; congruence).
    assert (Hok' : region_ok w' va') by (unfold region_ok; by rewrite E1).
    assert (Et : translate mi w' ctx va' = translate mi w ctx va') by (rewrite !translate_entries by done; by rewrite E1, E2).
    split; [exact Et|]. rewrite !access_entries, Et. unfold phys_word. by rewrite directory_entry_virtual, E1.
Qed.

(** A directory that the kernel mapping does not show: the frame [cr3] holds it, and
    the kernel reads and writes it at the virtual address page_directory. *)
Definition dir_word (w : words) (cr3 p : Z) : Z :=
  if (cr3 <=? p) && (p <? cr3 + 4096) then word w (page_directory ctx + (p - cr3))
  else phys_word mi w p.
Definition dir_translate (w : words) (cr3 va : Z) : option (Z * Z) := walk (dir_word w cr3) cr3 va.

(** The frame is none of those that hold the page tables. *)
Definition dir_apart (cr3 : Z) : Prop :=
  ∀ va, is_u32 va → table_phys va + 4096 <= cr3 ∨ cr3 + 4096 <= table_phys va.

Lemma dir_translate_entries w cr3 va :
  is_u32 va → dir_apart cr3 → region_ok w va → dir_translate w cr3 va = entries_translation w va.
Proof.
  intros Hva Hap Hok. unfold dir_translate, walk, dir_word, entries_translation.
  pose proof (indices va Hva) as (Hd & Ht & _). specialize (Hap va Hva).
  rewrite (proj2 (Z.leb_le _ _)), (proj2 (Z.ltb_lt _ _)) by lia. cbn [andb].
  replace (page_directory ctx + (cr3 + 4 * PAGE_DIRECTORY_INDEX va - cr3)) with (pde_addr va)
    by (unfold pde_addr; lia).
  destruct (present (word w (pde_addr va))) eqn:Ep; [|done]. destruct (Hok Ep) as [-> ->].
  replace ((cr3 <=? table_phys va + 4 * PAGE_TABLE_INDEX va) &&
           (table_phys va + 4 * PAGE_TABLE_INDEX va <? cr3 + 4096)) with false.
  2: { symmetry. apply andb_false_iff. rewrite Z.leb_gt, Z.ltb_ge. lia. }
  unfold phys_word. rewrite table_entry_virtual by done.
  by destruct (present (word w (pte_addr va))).
Qed.

(** After paging_unmap_addr the address is not translated.  Nor is any other
    address of the same 4 MB region: the directory entry of the region loses its
    present flag with the page. *)
Theorem paging_unmap_drops_region va w :
  is_u32 va →
  wp (paging_unmap_addr mi ctx va)
     (λ _ w', ∀ va', is_u32 va' → PAGE_DIRECTORY_INDEX va' = PAGE_DIRECTORY_INDEX va →
        translate mi w' ctx va' = None) w.
Proof.
  intros Hva. eapply wp_of_ok; [by apply unmap_eq|]. intros va' Hva' Hd.
  destruct (table_phys_ok va Hva) as [Ht1 Ht2].
  assert (E : word (set_word (pte_addr va) 0 (set_word (pde_addr va) (table_phys va) w)) (pde_addr va')
    = table_phys va).
  { rewrite !word_set, decide_False by (intros E; by apply (pde_pte_apart va' va)).
    rewrite decide_True by (by apply pde_addr_inj). by apply u32_small. }
  assert (Hp : present (table_phys va) = false).
  { unfold present. rewrite <- (Z.add_0_r (table_phys va)).
    by rewrite (entry_bit (table_phys va) 0 Ht1 Ht2 ltac:(lia)) by lia. }
  rewrite translate_entries; [by rewrite E, Hp|done|]. unfold region_ok. rewrite E, Hp. done.
Qed.

(** ** The kernel's page tables *)

(** The loops [for (i = 0; base + i * step < limit; ++i)] run [loop_count] times. *)
Lemma loop_count_spec base step limit i :
  0 < step → 0 <= i → i < Z.of_nat (loop_count base step limit) ↔ base + i * step < limit.
Proof.
  intros Hs Hi. unfold loop_count. destruct (Z.lt_ge_cases base limit) as [Hlt|Hge].
  - rewrite Z2Nat.id by (apply Z.div_pos; lia). set (q := (limit - base + step - 1) / step).
    assert (Hq : q * step <= limit - base + step - 1 < (q + 1) * step).
    { unfold q. pose proof (Z.div_mod (limit - base + step - 1) step ltac:(lia)).
      pose proof (Z.mod_pos_bound (limit - base + step - 1) step Hs). lia. }
    split; intros H; nia.
  - assert ((limit - base + step - 1) / step <= 0).
    { apply Z.lt_succ_r. apply Z.div_lt_upper_bound; lia. }
    rewrite Z2Nat.nonpos by done. nia.
Qed.

(** The page of [va] is mapped to [pa], writable; or it is not mapped. *)
Definition page_at (w : words) (va pa : Z) : Prop :=
  word w (pde_addr va) = table_phys va + 3 ∧ word w (pte_addr va) = pa / 4096 * 4096 + 3.
Definition no_page (w : words) (va : Z) : Prop :=
  word w (pte_addr va) = 0 ∧ (word w (pde_addr va) = 0 ∨ word w (pde_addr va) = table_phys va + 3).

Lemma entry3_region w va :
  is_u32 va → word w (pde_addr va) = table_phys va + 3 →
  region_ok w va ∧ present (word w (pde_addr va)) = true.
Proof.
  intros Hva E. destruct (table_phys_ok va Hva) as [Ht1 Ht2]. unfold region_ok, present, large. rewrite E.
  rewrite !(entry_bit (table_phys va) 3 Ht1 Ht2) by lia. split; [|done]. intros _. split; [done|].
  by apply entry_frame.
Qed.

Lemma page_at_translate w va pa :
  is_u32 va → is_u32 pa → page_at w va pa →
  translate mi w ctx va = Some (pa / 4096 * 4096 + 3, pa / 4096 * 4096 + va mod PAGE_SIZE).
Proof.
  intros Hva Hpa [E1 E2]. destruct (entry3_region w va Hva E1) as [Hok Hp].
  assert (Hpf : 0 <= pa / 4096 * 4096 < 2 ^ 32 ∧ (pa / 4096 * 4096) mod 4096 = 0)
    by (split; [unfold is_u32 in Hpa; Z.div_mod_to_equations; lia|apply Z.mod_mul; lia]).
  rewrite translate_entries, Hp, E2 by done. unfold present.
  rewrite (entry_bit (pa / 4096 * 4096) 3) by (lia || apply Hpf).
  by rewrite (entry_frame (pa / 4096 * 4096) 3) by (lia || apply Hpf).
Qed.

Lemma no_page_translate w va : is_u32 va → no_page w va → translate mi w ctx va = None.
Proof.
  intros Hva [E1 E2]. rewrite translate_entries; [by rewrite E1, andb_false_r|done|].
  destruct E2 as [E2|E2]; [unfold region_ok; by rewrite E2|by apply entry3_region].
Qed.

(** The entries of both. *)
Lemma page_at_entries w va pa :
  is_u32 va → is_u32 pa → page_at w va pa →
  region_ok w va ∧ present (word w (pde_addr va)) = true ∧ present (word w (pte_addr va)) = true ∧
  frame (word w (pte_addr va)) = pa / 4096 * 4096.
Proof.
  intros Hva Hpa [E1 E2]. destruct (entry3_region w va Hva E1) as [Hok Hp].
  assert (Hpf : 0 <= pa / 4096 * 4096 < 2 ^ 32 ∧ (pa / 4096 * 4096) mod 4096 = 0)
    by (split; [unfold is_u32 in Hpa; Z.div_mod_to_equations; lia|apply Z.mod_mul; lia]).
  split_and!; [done|done| |]; rewrite E2.
  - unfold present. by rewrite (entry_bit (pa / 4096 * 4096) 3) by (lia || apply Hpf).
  - by apply entry_frame; [apply Hpf|apply Hpf|lia].
Qed.

Lemma no_page_entries w va : is_u32 va → no_page w va → region_ok w va ∧ present (word w (pte_addr va)) = false.
Proof.
  intros Hva [E1 E2]. rewrite E1. split; [|done].
  destruct E2 as [E2|E2]; [unfold region_ok; by rewrite E2|by apply entry3_region].
Qed.

(** Mapping another page keeps both. *)
Lemma map_keeps va pa w va' :
  is_u32 va → is_u32 va' → is_u32 pa → va / PAGE_SIZE ≠ va' / PAGE_SIZE →
  let w' := set_word (pte_addr va) (Z.lor (pa / 4096 * 4096) 3)
              (set_word (pde_addr va) (Z.lor (table_phys va) 3) w) in
  (∀ pa', page_at w va' pa' → page_at w' va' pa') ∧ (no_page w va' → no_page w' va').
Proof.
  intros Hva Hva' Hpa Hne w'. destruct (map_words va pa 3 w va' Hva Hva' Hpa ltac:(lia)) as [E1 E2].
  fold w' in E1, E2. rewrite decide_False in E2 by done.
  unfold page_at, no_page. rewrite E1, E2.
  destruct (decide (PAGE_DIRECTORY_INDEX va = PAGE_DIRECTORY_INDEX va')) as [Hd|Hd]; [|naive_solver].
  rewrite (same_region_table _ _ Hd). naive_solver.
Qed.

(** The pages [i .. i + n) of a range. *)
Definition in_pages (va0 i : Z) (n : nat) (va : Z) : Prop :=
  va0 / PAGE_SIZE + i <= va / PAGE_SIZE < va0 / PAGE_SIZE + i + Z.of_nat n.

Lemma map_pages_loop_ok n va0 pa0 i w :
  va0 mod 4096 = 0 → pa0 mod 4096 = 0 → 0 <= va0 → 0 <= pa0 → 0 <= i →
  va0 + (i + Z.of_nat n) * PAGE_SIZE <= 2 ^ 32 → pa0 + (i + Z.of_nat n) * PAGE_SIZE <= 2 ^ 32 →
  wp (map_pages_loop mi n ctx va0 pa0 i)
     (λ _ w', (∀ va, is_u32 va → in_pages va0 i n va → page_at w' va (pa0 + (va - va0))) ∧
        ∀ va, is_u32 va → ¬ in_pages va0 i n va →
          (∀ pa, page_at w va pa → page_at w' va pa) ∧ (no_page w va → no_page w' va)) w.
Proof.
  intros Hva0 Hpa0 Hv Hp. unfold in_pages. rewrite PAGE_SIZE_val. revert i w.
  induction n as [|n IH]; intros i w Hi Hve Hpe; cbn [map_pages_loop].
  { apply wp_ret. split; [|naive_solver]. intros va _ ?. lia. }
  rewrite PAGE_SIZE_val, !u32_small by (unfold is_u32; lia).
  change (Z.lor PAGE_FLAG_PRESENT PAGE_FLAG_WRITE) with 3.
  set (va1 := va0 + i * 4096). set (pa1 := pa0 + i * 4096).
  assert (Hva1 : is_u32 va1) by (unfold is_u32, va1; lia).
  assert (Hpa1 : is_u32 pa1) by (unfold is_u32, pa1; lia).
  apply wp_bind. eapply wp_of_ok; [by apply map_eq|].
  eapply wp_mono; [apply (IH (i + 1)); lia|]. clear IH.
  intros [] w' [Hin Hout].
  assert (Hpg : va1 / 4096 = va0 / 4096 + i)
    by (unfold va1; rewrite Z.div_add by lia; lia).
  pose proof (λ va Hva, map_keeps va1 pa1 w va Hva1 Hva Hpa1) as Hkeep. rewrite PAGE_SIZE_val in Hkeep.
  split.
  - intros va Hva Hr. destruct (decide (va0 / 4096 + i = va / 4096)) as [Heq|Hne].
    + apply (Hout va Hva ltac:(lia)).
      destruct (map_words va1 pa1 3 w va Hva1 Hva Hpa1 ltac:(lia)) as [E1 E2].
      rewrite decide_True in E1 by (apply same_page_region; rewrite PAGE_SIZE_val; lia).
      rewrite decide_True in E2 by (rewrite PAGE_SIZE_val; lia).
      split; [rewrite E1|rewrite E2].
      * f_equal. apply same_region_table, same_page_region. rewrite PAGE_SIZE_val. lia.
      * do 2 f_equal. unfold pa1. Z.div_mod_to_equations. lia.
    + apply Hin; [done|]. lia.
  - intros va Hva Hr. destruct (Hkeep va Hva ltac:(lia)) as [K1 K2].
    destruct (Hout va Hva ltac:(lia)) as [O1 O2]. split; [intros pa Hpg'; by apply O1, K1|intros ?; by apply O2, K2].
Qed.

Lemma word_clear t (w : words) a :
  word (filter (λ kv, ¬ (t <= kv.1 < t + 4 * PAGE_TABLE_SIZE)) w) a =
  if decide (t <= a < t + 4096) then 0 else word w a.
Proof.
  unfold word. change (4 * PAGE_TABLE_SIZE) with 4096. case_decide as Ha.
  - rewrite map_lookup_filter_None_2; [done|]. right. intros v _ Hn. by apply Hn.
  - destruct (w !! a) as [v|] eqn:E.
    + by rewrite (map_lookup_filter_Some_2 _ _ _ _ E).
    + rewrite map_lookup_filter_None_2; [done|by left].
Qed.

Lemma clear_tables_ok n i w :
  0 <= i → i + Z.of_nat n <= 1024 →
  wp (clear_tables n ctx i)
     (λ _ w', (∀ a, page_tables ctx + 4096 * i <= a < page_tables ctx + 4096 * (i + Z.of_nat n) →
                 word w' a = 0) ∧
              ∀ a, word w a = 0 → word w' a = 0) w.
Proof.
  destruct Hctx as [_ _ _ Hpt _]. revert i w.
  induction n as [|n IH]; intros i w Hi Hn; cbn [clear_tables].
  { apply wp_ret. split; [|done]. intros a ?. lia. }
  apply wp_bind, wp_modify. unfold page_table_at. rewrite u32_small by (unfold is_u32; lia).
  eapply wp_mono; [apply (IH (i + 1)); lia|]. intros [] w' [Hz Hk]. split.
  - intros a Ha. destruct (Z.lt_ge_cases a (page_tables ctx + 4096 * (i + 1))).
    + apply Hk. rewrite word_clear, decide_True by lia. done.
    + apply Hz. lia.
  - intros a Ha. apply Hk. rewrite word_clear. by case_decide.
Qed.

(** Before the first page is mapped, none is. *)
Lemma clear_all_ok w :
  wp (clear_table (page_directory ctx);; clear_tables (Z.to_nat PAGE_TABLE_SIZE) ctx 0)
     (λ _ w', ∀ va, is_u32 va → no_page w' va) w.
Proof.
  apply wp_bind, wp_modify. eapply wp_mono; [apply clear_tables_ok; done|].
  intros [] w' [Hz Hk] va Hva. destruct (indices va Hva) as (Hd & Ht & _). split.
  - apply Hz. unfold pte_addr. change (Z.of_nat (Z.to_nat PAGE_TABLE_SIZE)) with 1024. lia.
  - left. apply Hk. rewrite word_clear, decide_True; [done|]. unfold pde_addr. lia.
Qed.

(** What the kernel's page tables map: the kernel image from physical 0, up to the
    end of its last page, and the heap. *)
Definition kernel_translation (va : Z) : option Z :=
  if decide (higher_half_base mi / PAGE_SIZE <= va / PAGE_SIZE ∧
             va / PAGE_SIZE * PAGE_SIZE < virtual_end mi)
  then Some (va - higher_half_base mi)
  else if decide (KERNEL_HEAP_VIRT_START <= va < KERNEL_HEAP_VIRT_START + KERNEL_HEAP_SIZE)
  then Some (KERNEL_HEAP_PHYS_START + (va - KERNEL_HEAP_VIRT_START))
  else None.

Context (Hkernel : higher_half_base mi <= virtual_end mi <= KERNEL_HEAP_VIRT_START).

Lemma in_kernel_pages va :
  is_u32 va →
  in_pages (higher_half_base mi) 0 (loop_count (higher_half_base mi) PAGE_SIZE (virtual_end mi)) va ↔
  higher_half_base mi / PAGE_SIZE <= va / PAGE_SIZE ∧ va / PAGE_SIZE * PAGE_SIZE < virtual_end mi.
Proof.
  intros Hva. unfold in_pages. rewrite Z.add_0_r.
  pose proof (loop_count_spec (higher_half_base mi) PAGE_SIZE (virtual_end mi)
    (va / PAGE_SIZE - higher_half_base mi / PAGE_SIZE) ltac:(done)) as Hc.
  assert (E : higher_half_base mi + (va / PAGE_SIZE - higher_half_base mi / PAGE_SIZE) * PAGE_SIZE =
    va / PAGE_SIZE * PAGE_SIZE) by (rewrite PAGE_SIZE_val in *; Z.div_mod_to_equations; lia).
  rewrite E in Hc. split; intros [H1 H2]; (split; [done|]); apply Hc || apply Hc in H2; lia.
Qed.

Lemma in_heap_pages va :
  in_pages KERNEL_HEAP_VIRT_START 0 (loop_count 0 PAGE_SIZE KERNEL_HEAP_SIZE) va ↔
  KERNEL_HEAP_VIRT_START <= va < KERNEL_HEAP_VIRT_START + KERNEL_HEAP_SIZE.
Proof.
  unfold in_pages. change (Z.of_nat (loop_count 0 PAGE_SIZE KERNEL_HEAP_SIZE)) with 12288.
  rewrite PAGE_SIZE_val. unfold KERNEL_HEAP_VIRT_START, KERNEL_HEAP_SIZE. Z.div_mod_to_equations. lia.
Qed.

Lemma set_last_keeps v w va :
  is_u32 va → PAGE_DIRECTORY_INDEX va ≠ 1023 →
  let w' := set_word (entry_addr (page_directory ctx) 1023) v w in
  (∀ pa, page_at w va pa → page_at w' va pa) ∧ (no_page w va → no_page w' va).
Proof.
  intros Hva Hne w'. destruct (indices va Hva) as (Hd & Ht & _), Hctx as [? ? Hpd Hpt Hap].
  assert (E : entry_addr (page_directory ctx) 1023 = page_directory ctx + 4 * 1023)
    by (unfold entry_addr; apply u32_small; unfold is_u32; lia).
  unfold page_at, no_page, w'. rewrite !word_set, E.
  rewrite !decide_False; [done|unfold pte_addr, pde_addr; lia..].
Qed.

Lemma kernel_pages_ok n1 n2 w :
  n1 = loop_count (higher_half_base mi) PAGE_SIZE (virtual_end mi) →
  n2 = loop_count 0 PAGE_SIZE KERNEL_HEAP_SIZE →
  (∀ va, is_u32 va → no_page w va) →
  wp (map_pages_loop mi n1 ctx (higher_half_base mi) 0 0;;
      map_pages_loop mi n2 ctx KERNEL_HEAP_VIRT_START KERNEL_HEAP_PHYS_START 0)
     (λ _ w', ∀ va, is_u32 va →
        match kernel_translation va with
        | Some pa => page_at w' va pa
        | None => no_page w' va
        end) w.
Proof.
  intros Hn1 Hn2 Hno. apply wp_bind. eapply wp_mono.
  { apply (map_pages_loop_ok n1 (higher_half_base mi) 0 0 w); try done; [unfold is_u32 in Hhr; lia| |].
    - subst n1. pose proof (loop_count_spec (higher_half_base mi) PAGE_SIZE (virtual_end mi)) as Hc.
      destruct (loop_count (higher_half_base mi) PAGE_SIZE (virtual_end mi)) as [|k] eqn:Ek; [unfold is_u32 in Hhr; page_unfold; lia|].
      specialize (Hc (Z.of_nat k) ltac:(done) ltac:(lia)). rewrite Nat2Z.inj_succ in *.
      unfold KERNEL_HEAP_VIRT_START in Hkernel. page_unfold. lia.
    - subst n1. pose proof (loop_count_spec (higher_half_base mi) PAGE_SIZE (virtual_end mi)) as Hc.
      destruct (loop_count (higher_half_base mi) PAGE_SIZE (virtual_end mi)) as [|k] eqn:Ek; [by vm_compute|].
      specialize (Hc (Z.of_nat k) ltac:(done) ltac:(lia)). rewrite Nat2Z.inj_succ in *.
      unfold KERNEL_HEAP_VIRT_START, is_u32 in *. page_unfold. lia. }
  intros [] w1 [Hin1 Hout1]. eapply wp_mono.
  { apply (map_pages_loop_ok n2 KERNEL_HEAP_VIRT_START KERNEL_HEAP_PHYS_START 0 w1); try done;
      subst n2; by vm_compute. }
  intros [] w2 [Hin2 Hout2] va Hva. subst n1 n2.
  pose proof (in_kernel_pages va Hva) as Hk. pose proof (in_heap_pages va) as Hh.
  unfold kernel_translation. case_decide as D1; [|case_decide as D2].
  - assert (¬ in_pages KERNEL_HEAP_VIRT_START 0 (loop_count 0 PAGE_SIZE KERNEL_HEAP_SIZE) va).
    { rewrite Hh. unfold KERNEL_HEAP_VIRT_START, KERNEL_HEAP_SIZE in *. rewrite PAGE_SIZE_val in *.
      Z.div_mod_to_equations. lia. }
    apply (Hout2 va Hva ltac:(done)).
    specialize (Hin1 va Hva (proj2 Hk D1)). by rewrite Z.add_0_l in Hin1.
  - apply Hin2; [done|]. by apply Hh.
  - rewrite <- Hk in D1. rewrite <- Hh in D2.
    by apply (Hout2 va Hva D2), (Hout1 va Hva D1), Hno.
Qed.

End Mapping.

(** What the page tables of init_paging say of the page of [va]. *)
Definition kernel_page_at mi (ctx : paging_context) (w : words) (va : Z) : Prop :=
  match kernel_translation mi va with
  | Some pa => page_at mi ctx w va pa
  | None => no_page mi ctx w va
  end.

Lemma kernel_translation_range mi va pa :
  is_u32 va → higher_half_base mi mod 4096 = 0 → is_u32 (higher_half_base mi) →
  kernel_translation mi va = Some pa → is_u32 pa ∧ pa mod 4096 = va mod 4096.
Proof.
  intros Hva Hhh Hhr E.
  unfold kernel_translation, KERNEL_HEAP_VIRT_START, KERNEL_HEAP_PHYS_START, KERNEL_HEAP_SIZE in E.
  rewrite PAGE_SIZE_val in E. repeat case_decide; simplify_eq; unfold_width;
    split; Z.div_mod_to_equations; lia.
Qed.

Lemma init_paging_pages mi pd pt param w :
  let ctx := PagingContext pd pt in
  paging_ok ctx → pd ≠ 0 → pt ≠ 0 →
  higher_half_base mi mod 4096 = 0 → is_u32 (higher_half_base mi) →
  higher_half_base mi <= virtual_end mi <= KERNEL_HEAP_VIRT_START →
  wp (init_paging mi pd pt param)
     (λ r w', r = (ctx, vmm_virtual_to_physical mi pd) ∧
        ∀ va, is_u32 va → PAGE_DIRECTORY_INDEX va ≠ 1023 → kernel_page_at mi ctx w' va) w.
Proof.
  intros ctx Hctx Hpd Hpt Hhh Hhr Hk. unfold init_paging, paging_create_page_directory.
  rewrite (proj2 (Z.eqb_neq pd 0)), (proj2 (Z.eqb_neq pt 0)) by done.
  apply wp_bind, wp_bind, wp_ret, wp_bind, wp_ret.
  pose proof (clear_all_ok mi ctx Hctx Hhr w) as W. apply wp_bind_inv in W.
  apply wp_bind. eapply wp_mono; [exact W|]. clear W. intros [] w1 W.
  apply wp_bind. eapply wp_mono; [exact W|]. clear W. intros [] w2 Hno.
  pose proof (kernel_pages_ok mi ctx Hctx Hhh Hhr Hk _ _ w2 eq_refl eq_refl Hno) as W.
  apply wp_bind_inv in W.
  apply wp_bind. eapply wp_mono; [exact W|]. clear W. intros [] w3 W.
  apply wp_bind. eapply wp_mono; [exact W|]. clear W. intros [] w4 Hmap.
  apply wp_bind, wp_modify, wp_ret, wp_ret. split; [done|]. intros va Hva Hd.
  destruct (set_last_keeps mi ctx Hctx Hhr
    (Z.lor (Z.lor (vmm_virtual_to_physical mi param) PAGE_FLAG_PRESENT) PAGE_FLAG_WRITE) w4 va Hva Hd)
    as [K1 K2].
  change (PAGE_TABLE_SIZE - 1) with 1023. specialize (Hmap va Hva). unfold kernel_page_at.
  destruct (kernel_translation mi va); [by apply K1|by apply K2].
Qed.

Lemma kernel_page_translate mi ctx w va :
  paging_ok ctx → higher_half_base mi mod 4096 = 0 → is_u32 (higher_half_base mi) → is_u32 va →
  kernel_page_at mi ctx w va → snd <$> translate mi w ctx va = kernel_translation mi va.
Proof.
  intros Hctx Hhh Hhr Hva. unfold kernel_page_at. destruct (kernel_translation mi va) as [pa|] eqn:E; intros Hp.
  - destruct (kernel_translation_range mi va pa Hva Hhh Hhr E) as [Hpa Hm].
    rewrite (page_at_translate mi ctx Hctx Hhh Hhr _ va pa) by done.
    simpl. f_equal. rewrite PAGE_SIZE_val, <- Hm. Z.div_mod_to_equations. lia.
  - by rewrite (no_page_translate mi ctx Hctx Hhh Hhr).
Qed.

(** Paging keeps words words. *)
Lemma type_set_word a v : has_type words_ok (modify (set_word a v)) (λ _, True).
Proof. apply type_modify. intros w. apply words_ok_set. Qed.

Lemma type_paging_map mi ctx va pa fl :
  has_type words_ok (paging_map_virtual_to_physical mi ctx va pa fl) (λ _, True).
Proof. eapply type_bind; [|intros]; apply type_set_word. Qed.

Lemma type_clear_table t : has_type words_ok (clear_table t) (λ _, True).
Proof.
  apply type_modify. intros w Hw a. unfold word. destruct (filter _ w !! a) as [v|] eqn:E; [|done].
  apply map_lookup_filter_Some in E as [E _]. specialize (Hw a). unfold word in Hw. by rewrite E in Hw.
Qed.

Lemma type_clear_tables n ctx i : has_type words_ok (clear_tables n ctx i) (λ _, True).
Proof.
  revert i. induction n as [|n IH]; intros i; [by apply type_ret|]. eapply type_bind; [apply type_clear_table|intros; apply IH].
Qed.

Lemma type_map_pages_loop mi n ctx va pa i : has_type words_ok (map_pages_loop mi n ctx va pa i) (λ _, True).
Proof.
  revert i. induction n as [|n IH]; intros i; [by apply type_ret|]. eapply type_bind; [apply type_paging_map|intros; apply IH].
Qed.

Lemma type_init_paging mi pd pt param : has_type words_ok (init_paging mi pd pt param) (λ _, True).
Proof.
  assert (Ha : ∀ b msg, has_type words_ok (assert b msg) (λ _, True)) by (intros [] msg; [by apply type_ret|apply type_throw]).
  eapply (type_bind _ _ _ (λ _, True)); [|intros; by apply type_ret]. unfold paging_create_page_directory.
  eapply type_bind; [apply Ha|intros _ _]. eapply type_bind; [apply Ha|intros _ _].
  eapply type_bind; [apply type_clear_table|intros _ _]. eapply type_bind; [apply type_clear_tables|intros _ _].
  eapply type_bind; [apply type_map_pages_loop|intros _ _]. eapply type_bind; [apply type_map_pages_loop|intros _ _].
  eapply type_bind; [apply type_set_word|intros; by apply type_ret].
Qed.

(** The page tables that init_paging builds translate the kernel image to
    physical memory from address 0 and the heap to its physical range, all
    writable, and, outside the last 4 MB, no other address; CR3 gets the physical
    address of the page directory. *)
Theorem init_paging_translates mi pd pt param w :
  let ctx := PagingContext pd pt in
  paging_ok ctx → pd ≠ 0 → pt ≠ 0 →
  higher_half_base mi mod 4096 = 0 → is_u32 (higher_half_base mi) →
  higher_half_base mi <= virtual_end mi <= KERNEL_HEAP_VIRT_START →
  wp (init_paging mi pd pt param)
     (λ r w', r.1 = ctx ∧ ∀ va, is_u32 va → PAGE_DIRECTORY_INDEX va ≠ 1023 →
        snd <$> walk (phys_word mi w') r.2 va = kernel_translation mi va) w.
Proof.
  intros ctx Hctx Hpd Hpt Hhh Hhr Hk. eapply wp_mono; [by apply init_paging_pages|]. cbn beta.
  intros r w' [-> Hp]. split; [done|]. intros va Hva Hd. by apply (kernel_page_translate mi ctx), Hp.
Qed.

(** ** The bootstrap page directory *)

Section Bootstrap.
Context (mi : kernel_meminfo) (pd : Z).
Context (Hpd : 0 <= pd ∧ pd + 4096 <= 2 ^ 32).
Context (Hps : 0 <= physical_start mi).
Context (Hvs : virtual_start mi = physical_start mi + higher_half_base mi).
Context (Hhh : higher_half_base mi mod 2 ^ 22 = 0) (Hhr : 0 <= higher_half_base mi).
Context (Hve : virtual_end mi <= 2 ^ 32).

Definition large_page (w : words) (va : Z) : Prop :=
  word w (pd + 4 * PAGE_DIRECTORY_INDEX va) =
  (va - higher_half_base mi) / 2 ^ 22 * 2 ^ 22 + 131.

(** The four flags on an entry for a 4 MB page. *)
Lemma large_entry e :
  0 <= e < 1024 →
  Z.lor (Z.lor (Z.lor (Z.shiftl e 22) PAGE_FLAG_PRESENT) PAGE_FLAG_PAGE_SIZE) PAGE_FLAG_WRITE =
  e * 2 ^ 22 + 131.
Proof.
  intros He. rewrite <- !Z.lor_assoc.
  change (Z.lor PAGE_FLAG_PRESENT (Z.lor PAGE_FLAG_PAGE_SIZE PAGE_FLAG_WRITE)) with 131.
  rewrite Z.shiftl_mul_pow2 by lia. apply lor_add; [|lia|lia].
  change (2 ^ 22) with (1024 * 4096). rewrite Z.mul_assoc. apply Z.mod_mul. lia.
Qed.

Lemma bootstrap_loop_ok n i w :
  0 <= i → virtual_start mi + (i + Z.of_nat n - 1) * 2 ^ 22 < virtual_end mi ∨ n = 0%nat →
  wp (bootstrap_loop mi n pd i)
     (λ _ w', ∀ va, is_u32 va →
        (virtual_start mi / 2 ^ 22 + i <= va / 2 ^ 22 < virtual_start mi / 2 ^ 22 + i + Z.of_nat n →
           large_page w' va) ∧
        (va / 2 ^ 22 < virtual_start mi / 2 ^ 22 + i → large_page w va → large_page w' va)) w.
Proof.
  change (2 ^ 22) with 4194304 in *.
  revert i w. induction n as [|n IH]; intros i w Hi Hn; cbn [bootstrap_loop].
  { apply wp_ret. intros va _. split; [lia|done]. }
  change KERNEL_PAGE_SIZE with 4194304. destruct Hn as [Hn|]; [|done].
  rewrite Nat2Z.inj_succ in Hn.
  rewrite !u32_small by (unfold is_u32; lia).
  apply wp_bind, wp_modify. eapply wp_mono; [apply (IH (i + 1)); [lia|]|].
  { destruct n; [by right|left]. lia. }
  intros [] w' H va Hva. destruct (H va Hva) as [Hin Hbelow].
  set (va1 := virtual_start mi + i * 4194304) in *.
  assert (Hd1 : PAGE_DIRECTORY_INDEX va1 = virtual_start mi / 4194304 + i).
  { rewrite PAGE_DIRECTORY_INDEX_div. change (2 ^ 22) with 4194304. unfold va1. by rewrite Z.div_add. }
  assert (Hdv : PAGE_DIRECTORY_INDEX va = va / 4194304) by apply PAGE_DIRECTORY_INDEX_div.
  assert (Hr1 : 0 <= PAGE_DIRECTORY_INDEX va1 < 1024).
  { rewrite PAGE_DIRECTORY_INDEX_div. change (2 ^ 22) with 4194304. unfold va1.
    Z.div_mod_to_equations. lia. }
  assert (Ea : entry_addr pd (PAGE_DIRECTORY_INDEX va1) = pd + 4 * PAGE_DIRECTORY_INDEX va1)
    by (unfold entry_addr; apply u32_small; unfold is_u32; lia).
  assert (Ep : PAGE_DIRECTORY_INDEX (physical_start mi + i * 4194304) =
    (va1 - higher_half_base mi) / 4194304).
  { rewrite PAGE_DIRECTORY_INDEX_div. change (2 ^ 22) with 4194304. unfold va1. f_equal. lia. }
  assert (Hpr : 0 <= (va1 - higher_half_base mi) / 4194304 < 1024).
  { unfold va1. Z.div_mod_to_equations. lia. }
  rewrite Ea, Ep, large_entry in Hbelow by done.
  split.
  - intros Hr. destruct (decide (va / 4194304 = virtual_start mi / 4194304 + i)) as [Heq|Hne].
    + apply Hbelow; [lia|]. unfold large_page. change (2 ^ 22) with 4194304. rewrite word_set.
      rewrite decide_True by lia.
      replace ((va - higher_half_base mi) / 4194304) with ((va1 - higher_half_base mi) / 4194304)
        by (unfold va1 in *; Z.div_mod_to_equations; lia).
      apply u32_small. unfold is_u32. lia.
    + apply Hin. lia.
  - intros Hlt Hlp. apply Hbelow; [lia|]. unfold large_page in *. rewrite word_set.
    rewrite decide_False by lia. done.
Qed.

(** The page directory for the first instructions of the kernel translates
    each 4 MB region it is asked to map, by one 4 MB page, to the address minus the
    higher half base. *)
Theorem paging_bootstrap_translates w :
  wp (paging_bootstrap mi pd)
     (λ r w', r = pd ∧ ∀ i va, 0 <= i → virtual_start mi + i * 2 ^ 22 < virtual_end mi → is_u32 va →
        va / 2 ^ 22 = (virtual_start mi + i * 2 ^ 22) / 2 ^ 22 →
        snd <$> walk (word w') r va = Some (va - higher_half_base mi)) w.
Proof.
  apply wp_bind, wp_modify, wp_bind. eapply wp_mono.
  { apply bootstrap_loop_ok; [lia|]. destruct (loop_count _ _ _) as [|k] eqn:E; [by right|left].
    pose proof (loop_count_spec (virtual_start mi) KERNEL_PAGE_SIZE (virtual_end mi) (Z.of_nat k)
      ltac:(done) ltac:(lia)) as Hc. rewrite E in Hc. change KERNEL_PAGE_SIZE with (2 ^ 22) in Hc. lia. }
  intros [] w' Hloop. apply wp_ret. split; [done|]. intros i va Hi Hlt Hva Hreg.
  change (2 ^ 22) with 4194304 in *. rewrite Z.div_add in Hreg by lia.
  pose proof (loop_count_spec (virtual_start mi) KERNEL_PAGE_SIZE (virtual_end mi) i
    ltac:(done) Hi) as Hc. change KERNEL_PAGE_SIZE with 4194304 in *.
  destruct (Hloop va Hva) as [Hin _]. specialize (Hin ltac:(lia)). unfold large_page in Hin.
  change (2 ^ 22) with 4194304 in Hin.
  set (f := (va - higher_half_base mi) / 4194304) in *.
  assert (Hf : 0 <= f < 1024) by (unfold f, is_u32 in *; Z.div_mod_to_equations; lia).
  assert (Ha : (f * 4194304) mod 4096 = 0).
  { change 4194304 with (1024 * 4096). rewrite Z.mul_assoc. apply Z.mod_mul. lia. }
  assert (Hbit : ∀ k, 0 <= k < 12 → Z.testbit (f * 4194304 + 131) k = Z.testbit 131 k)
    by (intros k Hk; apply entry_bit; lia || done).
  unfold walk, present, large. rewrite Hin, !Hbit by lia. cbn [Z.testbit Z.odd Pos.testbit].
  simpl. f_equal.
  assert (Z.land (f * 4194304 + 131) (2 ^ 32 - 2 ^ 22) = f * 4194304) as E.
  { rewrite <- (lor_add (f * 4194304) 131) by (lia || done). rewrite Z.land_lor_distr_l.
    replace (Z.land 131 (2 ^ 32 - 2 ^ 22)) with 0 by reflexivity. rewrite Z.lor_0_r.
    change 4194304 with (2 ^ 22) at 1 2. rewrite <- Z.shiftl_mul_pow2 by lia.
    change (2 ^ 32 - 2 ^ 22) with (Z.shiftl (Z.ones 10) 22). rewrite <- Z.shiftl_land, Z.land_ones by lia.
    by rewrite Z.mod_small. }
  simpl in E. rewrite E. change (Z.pow_pos 2 22) with 4194304. unfold f. Z.div_mod_to_equations. lia.
Qed.

End Bootstrap.

(** ** Witnesses *)

Definition ctx0 : paging_context := PagingContext 0xC0110000 0xC0200000.

Lemma ctx0_ok : paging_ok ctx0.
Proof. split; [done|done|by vm_compute|by vm_compute|left; by vm_compute]. Qed.

Lemma meminfo0_base : higher_half_base meminfo0 mod 4096 = 0 ∧ is_u32 (higher_half_base meminfo0).
Proof. split; by vm_compute. Qed.

Lemma paging_map_translates_witness :
  wp (paging_map_virtual_to_physical meminfo0 ctx0 0x8000000 0x123456 7)
     (λ _ w', translate meminfo0 w' ctx0 0x8000abc = Some (0x123007, 0x123abc) ∧
        access meminfo0 w' ctx0 0x8000abc = Some (Rights true true)) ∅.
Proof.
  eapply wp_mono.
  - apply (paging_map_translates meminfo0 ctx0 ctx0_ok (proj1 meminfo0_base) (proj2 meminfo0_base)
      0x8000000 0x123456 7 ∅); [by vm_compute..|]. split; [lia|by vm_compute].
  - intros [] w' Hw. by apply (proj1 (Hw 0x8000abc ltac:(by vm_compute))).
Defined.

Lemma paging_unmap_drops_region_witness :
  wp (paging_unmap_addr meminfo0 ctx0 0x8000000)
     (λ _ w', translate meminfo0 w' ctx0 0x8001000 = None) ∅.
Proof.
  eapply wp_mono.
  - apply (paging_unmap_drops_region meminfo0 ctx0 ctx0_ok (proj1 meminfo0_base) (proj2 meminfo0_base)
      0x8000000 ∅). by vm_compute.
  - intros [] w' Hw. apply Hw; by vm_compute.
Defined.

Lemma init_paging_translates_witness :
  wp (init_paging meminfo0 0xC0110000 0xC0200000 0xC0113ff0)
     (λ r w', snd <$> walk (phys_word meminfo0 w') r.2 0xE0001234 = Some 0x801234) ∅.
Proof.
  eapply wp_mono.
  - apply (init_paging_translates meminfo0 0xC0110000 0xC0200000 0xC0113ff0 ∅ ctx0_ok); by vm_compute.
  - intros r w' [_ Hw]. rewrite Hw; by vm_compute.
Defined.

Lemma paging_bootstrap_translates_witness :
  wp (paging_bootstrap meminfo0 0x101000)
     (λ r w', snd <$> walk (word w') r 0xC0712345 = Some 0x712345) ∅.
Proof.
  eapply wp_mono.
  - apply (paging_bootstrap_translates meminfo0 0x101000); by vm_compute.
  - intros r w' [_ Hw]. by apply (Hw 1); vm_compute.
Defined.

(** ** Departures *)

(** A kernel that starts 1 MB into a 4 MB region and ends in the first 1 MB of
    another is not mapped to its end: the loop steps from the start, not from the
    region of the start. *)
Theorem bootstrap_misses_end :
  let mi := Meminfo 0x100000 0x480000 0xC0100000 0xC0480000 0 0 0 0 0 0 0 0 0 0 0 0 0xC0000000 0 in
  wp (paging_bootstrap mi 0x101000) (λ r w', walk (word w') r 0xC0450000 = None) ∅.
Proof. vm_compute. reflexivity. Qed.

(** Mapping a page of the kernel takes the user's access away from a page of the same 4 MB
    region: the directory entry gets the flags of the page that was mapped last. *)
Theorem paging_map_takes_access :
  wp (paging_map_virtual_to_physical meminfo0 ctx0 0x8000000 0x123000 7;;
      w ← get;
      paging_map_virtual_to_physical meminfo0 ctx0 0x8001000 0x456000 3;;
      w' ← get; mret (w, w'))
     (λ r _, access meminfo0 r.1 ctx0 0x8000000 = Some (Rights true true) ∧
        access meminfo0 r.2 ctx0 0x8000000 = Some (Rights true false) ∧
        translate meminfo0 r.1 ctx0 0x8000000 = translate meminfo0 r.2 ctx0 0x8000000) ∅.
Proof. vm_compute. done. Qed.

(** The entry for the recursive mapping holds the address of the function's
    parameter, not that of the page directory. *)
Theorem recursive_entry_is_parameter :
  wp (init_paging meminfo0 0xC0110000 0xC0200000 0xC0113ff0)
     (λ r w', frame (word w' (0xC0110000 + 4 * 1023)) = 0x113000 ∧ r.2 = 0x110000) ∅.
Proof. vm_compute. split; reflexivity. Qed.
