(* ===== verification/Tty.v ===== *)
(** * The text console: arch/i386/tty.c and vga.c

    The console writes 16-bit character cells into the frame buffer of the boot
    loader.  The cells are a list, the frame buffer from [vga_memory] on; an access
    behind its end is a fault.  [doc] below is what the console promises: an
    unbounded text, of which the screen shows the last rows. *)

From S2P Require Import Prelude Mem Multiboot.

Definition VGA_COLOR_BLACK : Z := 0.
Definition VGA_COLOR_RED : Z := 4.
Definition VGA_COLOR_BROWN : Z := 6.
Definition VGA_COLOR_LIGHT_GREY : Z := 7.
Definition VGA_COLOR_LIGHT_BLUE : Z := 9.

Definition vga_entry_color (fg bg : Z) : Z := u8 (Z.lor fg (Z.shiftl bg 4)).
Definition vga_entry (c color : Z) : Z := u16 (Z.lor c (Z.shiftl color 8)).

Record tty : Type := mk_tty {
  tty_row : Z;
  tty_column : Z;
  default_tty_color : Z;
  vga_memory : Z;
  framebuf_height : Z;
  framebuf_width : Z;
  cells : list Z          (** the frame buffer at [vga_memory] *)
}.

Definition set_row (r : Z) (t : tty) : tty :=
  mk_tty r (tty_column t) (default_tty_color t) (vga_memory t) (framebuf_height t) (framebuf_width t)
         (cells t).
Definition set_column (c : Z) (t : tty) : tty :=
  mk_tty (tty_row t) c (default_tty_color t) (vga_memory t) (framebuf_height t) (framebuf_width t)
         (cells t).
Definition set_cells (l : list Z) (t : tty) : tty :=
  mk_tty (tty_row t) (tty_column t) (default_tty_color t) (vga_memory t) (framebuf_height t)
         (framebuf_width t) l.

(** vga_memory[index] *)
Definition vga_read (index : Z) : M tty Z := λ t,
  match cells t !! Z.to_nat (u32 index) with
  | Some v => Ok (v, t)
  | None => Err (EFault (vga_memory t + 2 * u32 index))
  end.
Definition vga_write (index v : Z) : M tty unit := λ t,
  if (Z.to_nat (u32 index) <? length (cells t))%nat then
    Ok (tt, set_cells (<[Z.to_nat (u32 index) := v]> (cells t)) t)
  else Err (EFault (vga_memory t + 2 * u32 index)).

(** One row of the copy, of the scroll: for (x = 0; x < framebuf_width; x++). *)
Definition scroll_row (w y : Z) : M tty unit :=
  for_range (Z.to_nat w) 0 (λ x, v ← vga_read ((y + 1) * w + x); vga_write (y * w + x) v).

(** Filling a row with blanks of a colour. *)
Definition clear_row (w y color : Z) : M tty unit :=
  for_range (Z.to_nat w) 0 (λ x, vga_write (y * w + x) (vga_entry 32 color)).

Definition tty_adjust_row : M tty unit :=
  _ ← modify (λ t, set_row (u32 (tty_row t + 1)) t);
  t ← get;
  let h := framebuf_height t in
  let w := framebuf_width t in
  if tty_row t =? h then
    _ ← for_range (Z.to_nat (u32 (h - 1))) 0 (scroll_row w);
    _ ← clear_row w (u32 (h - 1)) (default_tty_color t);
    modify (set_row (u32 (h - 1)))
  else mret tt.

Definition tty_adjust_indices : M tty unit :=
  _ ← modify (λ t, set_column (u32 (tty_column t + 1)) t);
  t ← get;
  if tty_column t =? framebuf_width t then
    _ ← modify (set_column 0); tty_adjust_row
  else mret tt.

Definition tty_putchar (c tty_color : Z) : M tty unit :=
  t ← get;
  _ ← vga_write (tty_row t * framebuf_width t + tty_column t) (vga_entry (u8 c) tty_color);
  tty_adjust_indices.

(** tty_puts(str, size, tty_color), the [size] bytes of [str] given as a list. *)
Fixpoint tty_puts (str : list Z) (tty_color : Z) : M tty unit :=
  match str with
  | [] => mret tt
  | c :: str =>
      _ ← (if c =? 10 then _ ← tty_adjust_row; modify (set_column 0)
           else tty_putchar c tty_color);
      tty_puts str tty_color
  end.

(** The console together with the memory the boot loader left. *)
Record console : Type := mk_console { ram : mem; term : tty }.
Definition on_ram {A} : M mem A → M console A := zoom ram (λ m c, mk_console m (term c)).
Definition on_term {A} : M tty A → M console A := zoom term (λ t c, mk_console (ram c) t).

Definition tty_init (multiboot_addr higher_half_base : Z) : M console unit :=
  info ← on_ram (multiboot_framebuffer_info multiboot_addr);
  h ← on_ram (framebuffer_height info);
  w ← on_ram (framebuffer_width info);
  addr ← on_ram (framebuffer_addr info);
  let color := vga_entry_color VGA_COLOR_LIGHT_GREY VGA_COLOR_LIGHT_BLUE in
  _ ← on_term (modify (λ t, mk_tty 0 0 color (u32 (u32 addr + higher_half_base)) h w (cells t)));
  on_term (for_range (Z.to_nat h) 0 (λ y, clear_row w y color)).

(** ** Rules for the cells *)

(** The geometry of the console stays as it is. *)
Definition same_frame (t t' : tty) : Prop :=
  framebuf_height t' = framebuf_height t ∧ framebuf_width t' = framebuf_width t ∧
  default_tty_color t' = default_tty_color t ∧ vga_memory t' = vga_memory t.

Section Cells.
Implicit Types (t : tty) (s : list Z).

Lemma wp_vga_read i v Q t :
  is_u32 i → cells t !! Z.to_nat i = Some v → Q v t → wp (vga_read i) Q t.
Proof. intros Hi Hv HQ. unfold wp, vga_read. by rewrite (u32_small i Hi), Hv. Qed.

Lemma wp_vga_write i v Q t :
  is_u32 i → i < Z.of_nat (length (cells t)) →
  Q tt (set_cells (<[Z.to_nat i := v]> (cells t)) t) → wp (vga_write i v) Q t.
Proof.
  intros Hi Hlt HQ. unfold wp, vga_write. rewrite (u32_small i Hi).
  rewrite (proj2 (Nat.ltb_lt (Z.to_nat i) _)); [done|]. unfold is_u32 in Hi. lia.
Qed.

(** The cells after the first [k] have moved up by [w]. *)
Definition shifted (w k : nat) s : list Z := take k (drop w s) ++ drop k s.

Lemma shifted_length w k s : (k + w <= length s)%nat → length (shifted w k s) = length s.
Proof.
  intros Hk. unfold shifted. rewrite length_app, length_take, !length_drop. lia.
Qed.

Lemma shifted_lookup w k i s :
  (k + w <= length s)%nat → (k <= i)%nat → shifted w k s !! i = s !! i.
Proof.
  intros Hk Hi. unfold shifted. assert (length (take k (drop w s)) = k) as Hl
    by (rewrite length_take, length_drop; lia).
  rewrite lookup_app_r by lia. rewrite Hl, lookup_drop. f_equal. lia.
Qed.

Lemma shifted_step w k v s :
  (k + w < length s)%nat → s !! (k + w)%nat = Some v →
  <[k := v]> (shifted w k s) = shifted w (S k) s.
Proof.
  intros Hk Hv. unfold shifted. assert (length (take k (drop w s)) = k) as Hl
    by (rewrite length_take, length_drop; lia).
  rewrite insert_app_r_alt by lia. rewrite Hl, Nat.sub_diag.
  rewrite (take_S_r (drop w s) k v) by (rewrite lookup_drop, <- Hv; f_equal; lia).
  rewrite <- app_assoc. f_equal.
  destruct (lookup_lt_is_Some_2 s k) as [c Hc]; [lia|].
  by rewrite (drop_S s c k Hc).
Qed.

Lemma shifted_all w s : (w <= length s)%nat → shifted w (length s - w) s = drop w s ++ drop (length s - w) s.
Proof.
  intros Hw. unfold shifted. rewrite take_ge; [done|]. rewrite length_drop. lia.
Qed.

(** The cells after [k] of them, from [a] on, are set to [b]. *)
Definition filled (a k : nat) (b : Z) s : list Z := take a s ++ replicate k b ++ drop (a + k) s.

Lemma filled_length a k b s : (a + k <= length s)%nat → length (filled a k b s) = length s.
Proof.
  intros. unfold filled. rewrite !length_app, length_take, length_replicate, length_drop. lia.
Qed.

Lemma filled_step a k b s :
  (a + k < length s)%nat → <[(a + k)%nat := b]> (filled a k b s) = filled a (S k) b s.
Proof.
  intros Hk. unfold filled. assert (length (take a s) = a) as Hl by (rewrite length_take; lia).
  rewrite insert_app_r_alt by lia. f_equal.
  rewrite insert_app_r_alt by (rewrite length_replicate; lia).
  rewrite length_replicate, Hl. replace (a + k - a - k)%nat with 0%nat by lia.
  destruct (lookup_lt_is_Some_2 s (a + k)) as [c Hc]; [lia|]. rewrite (drop_S s c _ Hc).
  rewrite <- Nat.add_succ_r. cbn [insert list_insert].
  replace (replicate (S k) b) with (replicate k b ++ [b]); [by rewrite <- app_assoc|].
  rewrite <- replicate_cons_app. done.
Qed.

Lemma set_cells_id t : set_cells (cells t) t = t.
Proof. by destruct t. Qed.

Lemma wp_vga_copy i j v Q t :
  is_u32 i → is_u32 j → cells t !! Z.to_nat i = Some v → j < Z.of_nat (length (cells t)) →
  Q tt (set_cells (<[Z.to_nat j := v]> (cells t)) t) →
  wp (v ← vga_read i; vga_write j v) Q t.
Proof. intros. apply wp_bind. eapply wp_vga_read; eauto. by apply wp_vga_write. Qed.

Lemma scroll_row_ok w y s t :
  0 <= w → 0 <= y → (y + 1) * w + w <= Z.of_nat (length s) < 2 ^ 32 →
  wp (scroll_row w y) (λ _ t', t' = set_cells (shifted (Z.to_nat w) (Z.to_nat ((y + 1) * w)) s) t)
     (set_cells (shifted (Z.to_nat w) (Z.to_nat (y * w)) s) t).
Proof.
  intros Hw Hy Hs. unfold scroll_row.
  apply (wp_for_range _ _ _
    (λ x t', t' = set_cells (shifted (Z.to_nat w) (Z.to_nat (y * w + x)) s) t)).
  - by rewrite Z.add_0_r.
  - intros x t' Hx ->. rewrite Z.add_0_l, Z2Nat.id in Hx by done.
    assert (0 <= y * w) by lia.
    assert (Z.to_nat ((y + 1) * w + x) = Z.to_nat (y * w + x) + Z.to_nat w)%nat as E by lia.
    destruct (lookup_lt_is_Some_2 s (Z.to_nat (y * w + x) + Z.to_nat w)) as [v Hv]; [lia|].
    apply (wp_vga_copy _ _ v); cbn [cells set_cells].
    + unfold is_u32. lia.
    + unfold is_u32. lia.
    + rewrite E, shifted_lookup by lia. done.
    + rewrite shifted_length by lia. lia.
    + rewrite (shifted_step _ _ v) by (done || lia).
      replace (Z.to_nat (y * w + (x + 1))) with (S (Z.to_nat (y * w + x))) by lia. done.
  - intros t' ->. rewrite Z.add_0_l, Z2Nat.id by done.
    by replace (y * w + w) with ((y + 1) * w) by lia.
Qed.

Lemma clear_row_ok w y a k color s t :
  0 <= w → 0 <= y → y * w + w <= Z.of_nat (length s) < 2 ^ 32 →
  y * w = Z.of_nat (a + k) →
  wp (clear_row w y color)
     (λ _ t', t' = set_cells (filled a (k + Z.to_nat w) (vga_entry 32 color) s) t)
     (set_cells (filled a k (vga_entry 32 color) s) t).
Proof.
  intros Hw Hy Hs Hak. unfold clear_row.
  apply (wp_for_range _ _ _
    (λ x t', t' = set_cells (filled a (k + Z.to_nat x) (vga_entry 32 color) s) t)).
  - by rewrite Nat.add_0_r.
  - intros x t' Hx ->. rewrite Z.add_0_l, Z2Nat.id in Hx by done.
    apply wp_vga_write; cbn [cells set_cells].
    + unfold is_u32. lia.
    + rewrite filled_length by lia. lia.
    + replace (Z.to_nat (y * w + x)) with (a + (k + Z.to_nat x))%nat by lia.
      rewrite filled_step by lia.
      by replace (S (k + Z.to_nat x)) with (k + Z.to_nat (x + 1))%nat by lia.
  - intros t' ->. by rewrite Z.add_0_l, Z2Nat.id.
Qed.

(** The whole scroll: every row moves up and a blank row follows. *)
Lemma tty_scroll_ok h w color s t :
  0 < h → 0 <= w → Z.of_nat (length s) = h * w → h * w < 2 ^ 32 →
  wp (_ ← for_range (Z.to_nat (h - 1)) 0 (scroll_row w); clear_row w (h - 1) color)
     (λ _ t', t' = set_cells (drop (Z.to_nat w) s ++ replicate (Z.to_nat w) (vga_entry 32 color)) t)
     (set_cells s t).
Proof.
  intros Hh Hw Hs Hlt. apply wp_bind.
  apply (wp_for_range _ _ _
    (λ y t', t' = set_cells (shifted (Z.to_nat w) (Z.to_nat (y * w)) s) t)).
  - unfold shifted. by rewrite drop_0.
  - intros y t' Hy ->. apply scroll_row_ok; [done|lia|]. nia.
  - intros t' ->. rewrite Z.add_0_l, Z2Nat.id by lia.
    assert (Z.to_nat ((h - 1) * w) = length s - Z.to_nat w)%nat as -> by nia.
    set (s1 := shifted _ _ s). assert (Hl1 : length s1 = length s) by (apply shifted_length; nia).
    set (k := (length s - Z.to_nat w)%nat).
    replace (set_cells s1 t) with (set_cells (filled k 0 (vga_entry 32 color) s1) t)
      by (unfold filled; simpl; by rewrite Nat.add_0_r, take_drop).
    eapply wp_mono; [apply clear_row_ok; subst k; [lia|lia|nia|nia]|].
    cbn beta. intros _ t' ->. f_equal. unfold filled, s1. subst k.
    rewrite shifted_all by nia. rewrite take_app_length' by (rewrite length_drop; nia).
    rewrite (drop_ge (_ ++ _)) by (rewrite length_app, !length_drop; nia).
    by rewrite app_nil_r.
Qed.

End Cells.

(** ** The promise: an unbounded text, of which the screen shows the end

    A text is the list of its finished rows and the row being written.  The screen
    of [h] rows of [w] cells shows the last [h] rows, the row being written filled
    up with blanks, and blank rows below when the text is shorter. *)

Notation doc := (list (list Z) * list Z)%type.

Section Doc.
Context (h w : nat) (b : Z).
Implicit Types d : doc.

Definition pad (row : list Z) : list Z := row ++ replicate (w - length row) b.
Definition rows d : list (list Z) := d.1 ++ [pad d.2].
Definition view d : list (list Z) :=
  drop (length (rows d) - h) (rows d) ++ replicate (h - length (rows d)) (replicate w b).

(** A new line, and a cell typed at the cursor. *)
Definition newline d : doc := (d.1 ++ [pad d.2], []).
Definition type (e : Z) d : doc :=
  let d' := (d.1, d.2 ++ [e]) in
  if (length d'.2 =? w)%nat then newline d' else d'.

Definition feed (color : Z) d (c : Z) : doc :=
  if c =? 10 then newline d else type (vga_entry (u8 c) color) d.

Definition doc_ok d : Prop := Forall (λ r, length r = w) d.1 ∧ (length d.2 <= w)%nat.

Lemma pad_length r : (length r <= w)%nat → length (pad r) = w.
Proof. intros. unfold pad. rewrite length_app, length_replicate. lia. Qed.

Lemma newline_ok d : doc_ok d → doc_ok (newline d).
Proof.
  intros [Hd Hc]. split; simpl; [|lia]. apply Forall_app. split; [done|].
  constructor; [by apply pad_length|constructor].
Qed.

Lemma view_split d : (0 < h)%nat →
  view d = drop (S (length d.1) - h) d.1 ++ [pad d.2] ++
           replicate (h - S (length d.1)) (replicate w b).
Proof.
  intros Hh. unfold view, rows. rewrite length_app, Nat.add_1_r.
  rewrite drop_app_le by lia. by rewrite <- app_assoc.
Qed.

Lemma concat_length (l : list (list Z)) :
  Forall (λ r, length r = w) l → length (concat l) = (length l * w)%nat.
Proof. induction 1; simpl; [done|]. rewrite length_app. lia. Qed.

Lemma rows_ok d : doc_ok d → Forall (λ r, length r = w) (rows d).
Proof. intros Hd. apply (newline_ok d Hd). Qed.

Lemma view_ok d : doc_ok d → Forall (λ r, length r = w) (view d).
Proof.
  intros Hd. apply Forall_app. split; [by apply Forall_drop, rows_ok|].
  apply Forall_replicate, length_replicate.
Qed.

Lemma view_length d : length (view d) = h.
Proof. unfold view. rewrite length_app, length_drop, length_replicate. lia. Qed.

(** The screen after a new line: as before, or scrolled by one row. *)
Lemma view_newline d : doc_ok d → (0 < h)%nat →
  concat (view (newline d)) =
  if (S (length d.1) <? h)%nat then concat (view d)
  else drop w (concat (view d)) ++ replicate w b.
Proof.
  intros Hd Hh. pose proof (rows_ok d Hd) as Hr.
  assert (Hn : view (newline d) = drop (S (S (length d.1)) - h) (rows d) ++ [replicate w b] ++
                                  replicate (h - S (S (length d.1))) (replicate w b)).
  { rewrite view_split by done. unfold newline, rows, pad at 3. simpl.
    by rewrite length_app, Nat.add_1_r, Nat.sub_0_r. }
  rewrite Hn. unfold view. assert (length (rows d) = S (length d.1)) as ->
    by (unfold rows; rewrite length_app; simpl; lia).
  destruct (Nat.ltb_spec (S (length d.1)) h) as [Hlt|Hge].
  - replace (S (length d.1) - h)%nat with 0%nat by lia.
    replace (S (S (length d.1)) - h)%nat with 0%nat by lia.
    by replace (h - S (length d.1))%nat with (S (h - S (S (length d.1)))) by lia.
  - replace (h - S (length d.1))%nat with 0%nat by lia.
    replace (h - S (S (length d.1)))%nat with 0%nat by lia. simpl. rewrite app_nil_r.
    set (v := drop (S (length d.1) - h) (rows d)).
    replace (drop (S (S (length d.1)) - h) (rows d)) with (drop 1 v)
      by (unfold v; rewrite drop_drop; f_equal; lia).
    assert (Hv : Forall (λ r, length r = w) v) by by apply Forall_drop.
    assert (Hl : (0 < length v)%nat)
      by (unfold v, rows; rewrite length_drop, length_app; simpl; lia).
    destruct v as [|r v]; [simpl in Hl; lia|]. apply Forall_cons_1 in Hv as [Hr1 _]. simpl.
    rewrite drop_0, drop_app_length' by done. rewrite concat_app. simpl. by rewrite app_nil_r.
Qed.

(** Typing a cell at the cursor of the screen. *)
Lemma view_type d e : doc_ok d → (0 < h)%nat → (length d.2 < w)%nat →
  <[(Nat.min (length d.1) (h - 1) * w + length d.2)%nat := e]> (concat (view d)) =
  concat (view (d.1, d.2 ++ [e])).
Proof.
  intros [Hd _] Hh Hc. rewrite !view_split by done. simpl.
  rewrite !concat_app. simpl.
  assert (Hp : length (concat (drop (S (length d.1) - h) d.1)) = (Nat.min (length d.1) (h - 1) * w)%nat).
  { rewrite concat_length by by apply Forall_drop. rewrite length_drop. f_equal. lia. }
  rewrite insert_app_r_alt by lia. f_equal. rewrite Hp.
  replace (_ + length d.2 - _)%nat with (length d.2) by lia.
  rewrite insert_app_l by (rewrite pad_length; lia). f_equal. unfold pad.
  rewrite length_app, insert_app_r_alt, Nat.sub_diag by lia.
  replace (w - length d.2)%nat with (S (w - (length d.2 + length [e]))) by (simpl; lia).
  simpl. by rewrite <- app_assoc.
Qed.

End Doc.

(** ** The console keeps the promise *)

Section Refinement.
Implicit Types (t : tty) (d : doc).

Definition height t : nat := Z.to_nat (framebuf_height t).
Definition width t : nat := Z.to_nat (framebuf_width t).
Definition blank t : Z := vga_entry 32 (default_tty_color t).

Definition frame_ok t : Prop :=
  0 < framebuf_height t ∧ 0 < framebuf_width t ∧ framebuf_height t * framebuf_width t < 2 ^ 32.

(** What the screen shows, wherever the column is. *)
Definition shows_rows t d : Prop :=
  frame_ok t ∧ doc_ok (width t) d ∧ cells t = concat (view (height t) (width t) (blank t) d) ∧
  tty_row t = Z.min (Z.of_nat (length d.1)) (framebuf_height t - 1).

Definition shows t d : Prop :=
  shows_rows t d ∧ (length d.2 < width t)%nat ∧ tty_column t = Z.of_nat (length d.2).

Lemma shows_cells_length t d :
  shows_rows t d → Z.of_nat (length (cells t)) = framebuf_height t * framebuf_width t.
Proof.
  intros ((Hh & Hw & _) & Hd & -> & _).
  rewrite (concat_length (width t)) by by apply view_ok. rewrite view_length. unfold height, width. nia.
Qed.

Lemma tty_adjust_row_ok t d :
  shows_rows t d →
  wp tty_adjust_row (λ _ t', shows_rows t' (newline (width t) (blank t) d) ∧ same_frame t t' ∧
                             tty_column t' = tty_column t) t.
Proof.
  intros Hs. pose proof (shows_cells_length t d Hs) as Hlen.
  destruct Hs as (Hf & Hd & Hcells & Hrow). pose proof Hf as (Hh & Hw & Hlt).
  pose proof (newline_ok _ (blank t) _ Hd) as Hd'.
  pose proof (view_newline (height t) _ (blank t) _ Hd ltac:(unfold height; lia)) as Hv.
  assert (Hl1 : length (newline (width t) (blank t) d).1 = S (length d.1))
    by (simpl; rewrite length_app; simpl; lia).
  unfold tty_adjust_row. wp_steps. cbn [tty_row set_row framebuf_height framebuf_width].
  assert (framebuf_height t < 2 ^ 32) by nia.
  rewrite (u32_small (tty_row t + 1)), (u32_small (framebuf_height t - 1)) by (unfold is_u32; lia).
  destruct (Z.eqb_spec (tty_row t + 1) (framebuf_height t)) as [E|E].
  - apply wp_bind. rewrite <- (set_cells_id (set_row _ t)).
    pose proof (tty_scroll_ok (framebuf_height t) (framebuf_width t) (default_tty_color t) (cells t)
      (set_row (tty_row t + 1) t) Hh ltac:(lia) Hlen Hlt) as Hscroll.
    eapply wp_mono; [exact (wp_bind_inv _ _ _ _ Hscroll)|]. cbn beta. intros _ t1 H1.
    apply wp_bind. eapply wp_mono; [exact H1|]. cbn beta. intros _ t2 ->. wp_steps.
    assert (Hge : (S (length d.1) <? height t)%nat = false)
      by (apply Nat.ltb_ge; unfold height; lia).
    rewrite Hge, <- Hcells in Hv. split_and!; [|done..]. split_and!; [done|done| |].
    + symmetry. exact Hv.
    + cbn [tty_row set_row set_cells framebuf_height]. lia.
  - wp_steps. rewrite (proj2 (Nat.ltb_lt _ _)) in Hv by (unfold height; lia).
    split_and!; [|done..]. split_and!; [done|done| |].
    + symmetry. rewrite <- Hcells in Hv. exact Hv.
    + cbn [tty_row set_row framebuf_height]. lia.
Qed.

Lemma shows_rows_frame t t' d :
  shows_rows t d → cells t' = cells t → tty_row t' = tty_row t → same_frame t t' →
  shows_rows t' d.
Proof.
  unfold shows_rows, frame_ok, height, width, blank.
  intros (Hf & Hd & Hc & Hr) -> -> (-> & -> & -> & _). done.
Qed.

Lemma tty_putchar_ok t d c color :
  shows t d →
  wp (tty_putchar c color)
     (λ _ t', shows t' (type (width t) (blank t) (vga_entry (u8 c) color) d) ∧ same_frame t t') t.
Proof.
  intros (Hs & Hlt & Hcol). pose proof (shows_cells_length t d Hs) as Hlen.
  pose proof Hs as ((Hh & Hw & Hsz) & Hd & Hc & Hrow).
  set (e := vga_entry (u8 c) color). set (d1 := (d.1, d.2 ++ [e])).
  unfold tty_putchar. wp_steps. unfold width in Hlt.
  assert (0 <= tty_row t <= framebuf_height t - 1) by lia.
  assert (0 <= tty_row t * framebuf_width t + tty_column t < framebuf_height t * framebuf_width t) by nia.
  apply wp_vga_write; [unfold is_u32; lia|lia|]. fold e.
  set (t1 := set_cells _ t).
  assert (Hs1 : shows_rows t1 d1).
  { split_and!; [done| |simpl|done].
    - split; [apply Hd|]. simpl. rewrite length_app. unfold width; simpl. lia.
    - change (width t1) with (width t). change (height t1) with (height t).
      rewrite Hc. unfold d1. rewrite <- view_type by (done || (unfold height, width; lia)).
      f_equal. unfold width, height. nia. }
  unfold tty_adjust_indices. wp_steps. cbn [tty_column set_column framebuf_width t1 set_cells].
  rewrite Hcol, u32_small by (unfold is_u32; nia).
  assert (Hl1 : length d1.2 = S (length d.2)) by (simpl; rewrite length_app; simpl; lia).
  unfold type. fold d1. rewrite Hl1.
  destruct (Z.eqb_spec (Z.of_nat (length d.2) + 1) (framebuf_width t)) as [E|E].
  - rewrite (proj2 (Nat.eqb_eq _ _)) by (unfold width; lia). wp_steps.
    eapply wp_mono; [apply (tty_adjust_row_ok _ d1)|].
    + by apply (shows_rows_frame t1).
    + cbn beta. intros _ t2 (H2 & Hf2 & Hc2). split; [|done]. split_and!; [done| |by rewrite Hc2].
      simpl. destruct Hf2 as (_ & Hw2 & _). unfold width. rewrite Hw2. simpl. lia.
  - rewrite (proj2 (Nat.eqb_neq _ _)) by (unfold width; lia). wp_steps. split; [|done].
    split_and!; [by apply (shows_rows_frame t1)| |].
    + unfold width. simpl. rewrite length_app. simpl. lia.
    + simpl. rewrite length_app. simpl. lia.
Qed.

Lemma tty_puts_ok text color t d :
  shows t d →
  wp (tty_puts text color)
     (λ _ t', shows t' (foldl (feed (width t) (blank t) color) d text) ∧ same_frame t t') t.
Proof.
  revert t d. induction text as [|c text IH]; intros t d Hs; [done|].
  cbn [tty_puts foldl]. apply wp_bind.
  apply (wp_mono _ (λ _ t', shows t' (feed (width t) (blank t) color d c) ∧ same_frame t t')).
  - unfold feed. destruct (Z.eqb_spec c 10) as [->|Hc]; [|by apply tty_putchar_ok].
    destruct Hs as (Hs & _ & _). pose proof Hs as ((_ & Hw & _) & _).
    apply wp_bind. eapply wp_mono; [by apply tty_adjust_row_ok|].
    cbn beta. intros _ t' (Hs' & Hf & _). wp_steps. split; [|done].
    split_and!; [by apply (shows_rows_frame t')| |done].
    destruct Hf as (_ & Hw' & _). unfold width. simpl. rewrite Hw'. lia.
  - cbn beta. intros _ t' [Hs' Hf]. eapply wp_mono; [apply (IH _ _ Hs')|]. cbn beta.
    destruct Hf as (Hh & Hw & Hc & Hm). unfold width, blank. rewrite Hw, Hc.
    intros _ t2 [H2 (? & ? & ? & ?)]. split; [done|]. unfold same_frame. intuition congruence.
Qed.

End Refinement.

Definition layout (w : nat) (b color : Z) (text : list Z) : doc :=
  foldl (feed w b color) ([], []) text.

(** Clearing the screen: every cell is blank. *)
Lemma clear_screen_ok h w color s t :
  0 <= h → 0 <= w → Z.of_nat (length s) = h * w → h * w < 2 ^ 32 →
  wp (for_range (Z.to_nat h) 0 (λ y, clear_row w y color))
     (λ _ t', t' = set_cells (replicate (length s) (vga_entry 32 color)) t) (set_cells s t).
Proof.
  intros Hh Hw Hs Hlt.
  apply (wp_for_range _ _ _
    (λ y t', t' = set_cells (filled 0 (Z.to_nat (y * w)) (vga_entry 32 color) s) t)).
  - done.
  - intros y t' Hy ->. eapply wp_mono; [apply clear_row_ok; lia || nia|]. cbn beta.
    intros _ t' ->. do 2 f_equal. nia.
  - intros t' ->. rewrite Z.add_0_l, Z2Nat.id by done. f_equal. unfold filled.
    replace (Z.to_nat (h * w)) with (length s) by lia. rewrite Nat.add_0_l, drop_ge by lia.
    by rewrite app_nil_r.
Qed.

Lemma empty_doc_view h w b : (0 < h)%nat →
  concat (view h w b ([], [])) = replicate (h * w) b.
Proof.
  intros Hh. unfold view. simpl. replace (1 - h)%nat with 0%nat by lia. simpl.
  unfold pad. simpl. rewrite Nat.sub_0_r. destruct h as [|h]; [lia|]. simpl. rewrite Nat.sub_0_r.
  rewrite replicate_add. f_equal. clear. induction h as [|h IH]; simpl; [done|].
  by rewrite IH, replicate_add.
Qed.

(** tty_init leaves an empty screen of the size that the frame buffer tag gives. *)
Lemma tty_init_ok c mb base info h w addr :
  multiboot_framebuffer_info mb (ram c) = Ok (info, ram c) →
  framebuffer_height info (ram c) = Ok (h, ram c) →
  framebuffer_width info (ram c) = Ok (w, ram c) →
  framebuffer_addr info (ram c) = Ok (addr, ram c) →
  0 < h → 0 < w → h * w < 2 ^ 32 → Z.of_nat (length (cells (term c))) = h * w →
  wp (tty_init mb base)
     (λ _ c', ram c' = ram c ∧ shows (term c') ([], []) ∧ framebuf_height (term c') = h ∧
        framebuf_width (term c') = w ∧
        default_tty_color (term c') = vga_entry_color VGA_COLOR_LIGHT_GREY VGA_COLOR_LIGHT_BLUE) c.
Proof.
  intros Hi Hh Hw Ha Hh0 Hw0 Hlt Hlen. unfold tty_init.
  repeat (apply wp_bind, wp_zoom; eapply wp_of_ok; [eassumption|]; cbn [ram term]).
  apply wp_bind, wp_zoom. wp_steps.
  set (t0 := mk_tty _ _ _ _ _ _ _). apply wp_zoom. cbn [ram term]. rewrite <- (set_cells_id t0).
  eapply wp_mono; [apply (clear_screen_ok h w); done || lia|]. cbn beta. intros _ t1 ->.
  split_and!; [done| |done..]. split_and!; [|simpl; unfold width; simpl; lia|done].
  split_and!; [done|split; simpl; [constructor|lia]| |simpl; lia].
  simpl. rewrite empty_doc_view by (unfold height; simpl; lia). f_equal.
  unfold height, width. simpl. nia.
Qed.

(** C27: after tty_init has found a frame buffer of [h] rows of [w] cells, writing a
    text with tty_puts shows the last [h] rows of the text laid out in rows of [w]
    cells, on the console's background, and nothing else; neither fails, however
    long the text is. *)
Theorem tty_shows_text c mb base info h w addr text color :
  multiboot_framebuffer_info mb (ram c) = Ok (info, ram c) →
  framebuffer_height info (ram c) = Ok (h, ram c) →
  framebuffer_width info (ram c) = Ok (w, ram c) →
  framebuffer_addr info (ram c) = Ok (addr, ram c) →
  0 < h → 0 < w → h * w < 2 ^ 32 → Z.of_nat (length (cells (term c))) = h * w →
  let b := vga_entry 32 (vga_entry_color VGA_COLOR_LIGHT_GREY VGA_COLOR_LIGHT_BLUE) in
  let text_rows := rows (Z.to_nat w) b (layout (Z.to_nat w) b color text) in
  wp (_ ← tty_init mb base; on_term (tty_puts text color))
     (λ _ c', ram c' = ram c ∧
        cells (term c') =
        concat (drop (length text_rows - Z.to_nat h) text_rows ++
                replicate (Z.to_nat h - length text_rows) (replicate (Z.to_nat w) b))) c.
Proof.
  intros Hi Hh Hw Ha Hh0 Hw0 Hlt Hlen b text_rows. apply wp_bind.
  eapply wp_mono; [by apply (tty_init_ok c mb base info h w addr)|]. cbn beta.
  intros _ c1 (Hram & Hs & Eh & Ew & Ec). apply wp_zoom. eapply wp_mono; [by apply tty_puts_ok|]. cbn beta.
  intros _ t2 [((_ & _ & Hc & _) & _) (H1 & H2 & H3 & _)]. cbn [ram term]. split; [done|].
  rewrite Hc. unfold height, width, blank. by rewrite H1, H2, H3, Eh, Ew, Ec.
Qed.

Lemma tty_shows_text_witness :
  value ((_ ← tty_init 0x10000 0xC0000000; on_term (tty_puts [104; 105; 10; 33] 0x97))
           (mk_console boot_mem (mk_tty 0 0 0 0 0 0 (replicate 2000 0)))) = Some tt ∧
  wp (_ ← tty_init 0x10000 0xC0000000; on_term (tty_puts [104; 105; 10; 33] 0x97))
     (λ _ c', ram c' = boot_mem ∧
        cells (term c') = [0x9768; 0x9769] ++ replicate 78 0x9720 ++ [0x9721] ++ replicate 1919 0x9720)
     (mk_console boot_mem (mk_tty 0 0 0 0 0 0 (replicate 2000 0))).
Proof.
  split; [vm_compute; reflexivity|].
  eapply wp_mono; [apply (tty_shows_text (mk_console boot_mem (mk_tty 0 0 0 0 0 0 (replicate 2000 0)))
    0x10000 0xC0000000 0x10020 25 80 0xB8000)|].
  - refine (eq_trans (framebuffer_loop_ok (walk_fuel boot_mem) boot_mem (0x10000 + 8) boot_tags
      boot_tags_ok (tags_at_fuel _ _ _ boot_tags_ok _)) _); [lia|done].
  - by apply load32_value.
  - by apply load32_value.
  - cbn [ram]. unfold framebuffer_addr, load64.
    rewrite (bind_ok _ _ _ 0xB8000 boot_mem) by by apply load32_value.
    by rewrite (bind_ok _ _ _ 0 boot_mem) by by apply load32_value.
  - lia.
  - lia.
  - lia.
  - done.
  - cbn beta zeta. intros _ c' [H1 H2]. split; [exact H1|]. rewrite H2. vm_compute. reflexivity.
Defined.
