(* ===== verification/Printk.v ===== *)
(** * Kernel messages: printk.c

    vprintk walks the format string, printing the text between the conversions as
    it is and the arguments as the conversions say.  The variable arguments are the
    32-bit words that the caller pushed (i386 calling convention: a long long takes
    two words, the low one first); [formatted_arg], a local array of 256 bytes, is
    at the address [buf] of the memory. *)

From S2P Require Import Prelude Mem CString Itoa Multiboot Tty.

Definition ARG_MAX_LEN : Z := 256.
Definition EINVAL : Z := 1.

Inductive printk_log_level : Type := PRINTK_DEBUG | PRINTK_INFO | PRINTK_WARN | PRINTK_ERROR.

Definition PRINTK_LOG_COLOR_DEBUG : Z := vga_entry_color VGA_COLOR_LIGHT_GREY VGA_COLOR_LIGHT_BLUE.
Definition PRINTK_LOG_COLOR_INFO : Z := vga_entry_color VGA_COLOR_BLACK VGA_COLOR_LIGHT_BLUE.
Definition PRINTK_LOG_COLOR_WARN : Z := vga_entry_color VGA_COLOR_BROWN VGA_COLOR_LIGHT_BLUE.
Definition PRINTK_LOG_COLOR_ERROR : Z := vga_entry_color VGA_COLOR_RED VGA_COLOR_LIGHT_BLUE.

Definition log_level_number (l : printk_log_level) : Z :=
  match l with PRINTK_DEBUG => 0 | PRINTK_INFO => 1 | PRINTK_WARN => 2 | PRINTK_ERROR => 3 end.

Definition log_level_to_vga_color (log_level : Z) : Z :=
  if log_level =? log_level_number PRINTK_DEBUG then PRINTK_LOG_COLOR_DEBUG
  else if log_level =? log_level_number PRINTK_INFO then PRINTK_LOG_COLOR_INFO
  else if log_level =? log_level_number PRINTK_WARN then PRINTK_LOG_COLOR_WARN
  else if log_level =? log_level_number PRINTK_ERROR then PRINTK_LOG_COLOR_ERROR
  else PRINTK_LOG_COLOR_INFO.

Definition putchar (color ic : Z) : M console Z :=
  _ ← on_term (tty_puts [u8 ic] color); mret ic.

(** The loop of print; [read i] is bytes[i]. *)
Fixpoint print_loop (n : nat) (color : Z) (read : Z → M console Z) (i : Z) : M console Z :=
  match n with
  | O => mret i
  | S n =>
      b ← read i;
      r ← putchar color b;
      if r =? 0 then mret i else print_loop n color read (i + 1)
  end.

Definition print (color data length : Z) : M console Z :=
  print_loop (Z.to_nat length) color (λ i, on_ram (load8 (data + i))) 0.

(** print of a string literal, whose bytes are given *)
Definition print_literal (color : Z) (l : list Z) : M console Z :=
  print_loop (length l) color (λ i, mret (default 0 (l !! Z.to_nat i))) 0.

(** PRINT_OR_RET(color, s, len): [false] when the macro returns -EINVAL.  The macro
    evaluates its argument [len] twice. *)
Definition print_or_ret (color s : Z) (len : M console Z) : M console bool :=
  l ← len; n ← print color s l; l' ← len; mret (n =? l').

(** va_arg(params, ...) for an int, an unsigned int and a pointer, a long long and
    an unsigned long long; no argument left is undefined. *)
Definition va_word (params : list Z) : M console (Z * list Z) :=
  match params with
  | w :: params => mret (w, params)
  | [] => throw (EUndef "va_arg")
  end.
Definition va_dword (params : list Z) : M console (Z * list Z) :=
  '(lo, params) ← va_word params; '(hi, params) ← va_word params;
  mret (lo + 2 ^ 32 * hi, params).

(** strlen(formatted_arg) printed: the tail of most conversions. *)
Definition print_formatted (color buf : Z) : M console bool :=
  print_or_ret color buf (on_ram (strlen buf)).

(** The switch on the character behind an "l"; [i] is the index of the first "l". *)
Definition convert_ll (buf color fmt i : Z) (hash : bool) (params : list Z) :
    M console (option (Z * list Z)) :=
  c ← on_ram (load8 (fmt + (i + 2)));
  if (c =? 100) || (c =? 105) then
    '(v, params) ← va_dword params;
    _ ← on_ram (itoa (to_signed 64 v) buf);
    ok ← print_formatted color buf;
    mret (if ok : bool then Some (i + 2, params) else None)
  else if c =? 117 then
    '(v, params) ← va_dword params;
    _ ← on_ram (uitoa v buf);
    ok ← print_formatted color buf;
    mret (if ok : bool then Some (i + 2, params) else None)
  else if (c =? 120) || (c =? 88) then
    pre ← (if hash then n ← print_literal color [48; 120]; mret (n =? 2) else mret true);
    if pre : bool then
      '(v, params) ← va_dword params;
      _ ← on_ram (uitoa_hex v buf);
      c' ← on_ram (load8 (fmt + i));
      _ ← (if c' =? 88 then _ ← on_ram (strupper buf); mret tt else mret tt);
      ok ← print_formatted color buf;
      mret (if ok : bool then Some (i + 2, params) else None)
    else mret None
  else mret None.

(** The switch on the conversion character at [i]: the index of the last character
    consumed and the arguments left, or [None] when the source returns -EINVAL. *)
Definition convert (buf color fmt len i : Z) (hash : bool) (params : list Z) :
    M console (option (Z * list Z)) :=
  c ← on_ram (load8 (fmt + i));
  if c =? 37 then
    ok ← print_or_ret color (fmt + i) (mret 1);
    mret (if ok : bool then Some (i, params) else None)
  else if (c =? 100) || (c =? 105) then
    '(v, params) ← va_word params;
    _ ← on_ram (itoa (to_signed 32 v) buf);
    ok ← print_formatted color buf;
    mret (if ok : bool then Some (i, params) else None)
  else if c =? 117 then
    '(v, params) ← va_word params;
    _ ← on_ram (itoa v buf);
    ok ← print_formatted color buf;
    mret (if ok : bool then Some (i, params) else None)
  else if (c =? 120) || (c =? 88) then
    pre ← (if hash then n ← print_literal color [48; 120]; mret (n =? 2) else mret true);
    if pre : bool then
      '(v, params) ← va_word params;
      _ ← on_ram (uitoa_hex v buf);
      _ ← (if c =? 88 then _ ← on_ram (strupper buf); mret tt else mret tt);
      ok ← print_formatted color buf;
      mret (if ok : bool then Some (i, params) else None)
    else mret None
  else if c =? 108 then
    if i <? u32 (len - 2) then
      c1 ← on_ram (load8 (fmt + (i + 1)));
      if c1 =? 108 then convert_ll buf color fmt i hash params else mret None
    else mret None
  else if c =? 99 then
    '(v, params) ← va_word params;
    _ ← putchar color (to_signed 32 v);
    mret (Some (i, params))
  else if c =? 115 then
    '(p, params) ← va_word params;
    ok ← print_or_ret color p (on_ram (strlen p));
    mret (if ok : bool then Some (i, params) else None)
  else mret None.

(** A conversion, [i] the index of its percent sign: the flag, then the switch. *)
Definition conversion (buf color fmt len i : Z) (params : list Z) :
    M console (option (Z * list Z)) :=
  if i =? len then mret None
  else
    c1 ← on_ram (load8 (fmt + (i + 1)));
    let hash := c1 =? 35 in
    let i := if hash || (c1 =? 45) || (c1 =? 43) || (c1 =? 32) || (c1 =? 48) then i + 1 else i in
    if i =? len then mret None
    else convert buf color fmt len (i + 1) hash params.

(** while (i < len && fmt[i] != '%') ++i; *)
Fixpoint scan_percent (n : nat) (fmt i : Z) : M console Z :=
  match n with
  | O => mret i
  | S n => c ← on_ram (load8 (fmt + i)); if c =? 37 then mret i else scan_percent n fmt (i + 1)
  end.

(** The loop of vprintk: the returned value. *)
Fixpoint vprintk_loop (fuel : nat) (buf color fmt len i : Z) (params : list Z) : M console Z :=
  match fuel with
  | O => throw EFuel
  | S fuel =>
      if i <? len then
        let start := i in
        i ← scan_percent (Z.to_nat (len - i)) fmt i;
        _ ← (if start <? i then _ ← print color (fmt + start) (i - start); mret tt else mret tt);
        c ← on_ram (load8 (fmt + i));
        if c =? 37 then
          r ← conversion buf color fmt len i params;
          match r with
          | None => mret (- EINVAL)
          | Some (i, params) => vprintk_loop fuel buf color fmt len (i + 1) params
          end
        else vprintk_loop fuel buf color fmt len i params
      else mret (to_signed 32 len)
  end.

Definition vprintk (buf log_level fmt : Z) (params : list Z) : M console Z :=
  len ← on_ram (strlen fmt);
  vprintk_loop (S (Z.to_nat len)) buf (log_level_to_vga_color log_level) fmt len 0 params.

(** The functions with variable arguments; [params] are the arguments pushed behind
    the format. *)
Definition printk (buf log_level fmt : Z) (params : list Z) : M console Z :=
  vprintk buf log_level fmt params.
Definition printk_debug (buf fmt : Z) (params : list Z) : M console Z :=
  vprintk buf (log_level_number PRINTK_DEBUG) fmt params.
Definition printk_info (buf fmt : Z) (params : list Z) : M console Z :=
  vprintk buf (log_level_number PRINTK_INFO) fmt params.
Definition printk_warn (buf fmt : Z) (params : list Z) : M console Z :=
  vprintk buf (log_level_number PRINTK_WARN) fmt params.
Definition printk_err (buf fmt : Z) (params : list Z) : M console Z :=
  vprintk buf (log_level_number PRINTK_ERROR) fmt params.

(** ** Which memory stays mapped *)

Section Keeps.

Lemma keeps_strlen_loop fuel s len : keeps (strlen_loop fuel s len).
Proof. revert len. induction fuel; intros; simpl; keeps_tac. Qed.

Lemma keeps_strlen s : keeps (strlen s).
Proof. unfold strlen. keeps_tac. apply keeps_strlen_loop. Qed.
#[local] Hint Resolve keeps_strlen : keeps.

Lemma keeps_strrev_loop fuel s i j : keeps (strrev_loop fuel s i j).
Proof. revert i j. induction fuel; intros; simpl; unfold xor_swap; keeps_tac. Qed.
#[local] Hint Resolve keeps_strrev_loop : keeps.

Lemma keeps_strrev s : keeps (strrev s).
Proof. unfold strrev. keeps_tac. Qed.
#[local] Hint Resolve keeps_strrev : keeps.

Lemma keeps_strupper_loop fuel s i : keeps (strupper_loop fuel s i).
Proof. revert i. induction fuel; intros; simpl; keeps_tac. Qed.
#[local] Hint Resolve keeps_strupper_loop : keeps.

Lemma keeps_strupper s : keeps (strupper s).
Proof. unfold strupper. keeps_tac. Qed.

Lemma keeps_digits_loop fuel base digit v str i : keeps (digits_loop fuel base digit v str i).
Proof.
  revert v i. induction fuel as [|fuel IH]; intros v i; unfold digits_loop; fold digits_loop;
    keeps_tac.
Qed.
#[local] Hint Resolve keeps_digits_loop : keeps.

Lemma keeps_itoa v s : keeps (itoa v s).
Proof. unfold itoa. keeps_tac. Qed.
Lemma keeps_uitoa v s : keeps (uitoa v s).
Proof. unfold uitoa. keeps_tac. Qed.
Lemma keeps_uitoa_hex v s : keeps (uitoa_hex v s).
Proof. unfold uitoa_hex. keeps_tac. Qed.

End Keeps.
#[export] Hint Resolve keeps_strlen keeps_strrev keeps_strupper keeps_itoa keeps_uitoa
  keeps_uitoa_hex : keeps.

(** ** Printing characters *)

(** The console shows the text [d], in [h] rows of [w] cells with the blank [b]. *)
Definition con_shows (h w : nat) (b : Z) (c : console) (d : doc) : Prop :=
  shows (term c) d ∧ height (term c) = h ∧ width (term c) = w ∧ blank (term c) = b.

Section Output.
Context (h w : nat) (b color : Z).
Implicit Types (c : console) (d : doc).

Lemma putchar_ok c d ic :
  con_shows h w b c d →
  wp (putchar color ic)
     (λ r c', r = ic ∧ ram c' = ram c ∧ con_shows h w b c' (feed w b color d (u8 ic))) c.
Proof.
  intros (Hs & <- & <- & <-). apply wp_bind, wp_zoom. eapply wp_mono; [by apply tty_puts_ok|].
  cbn beta. intros _ t' [Hs' (Hh & Hw & Hc & _)]. apply wp_ret. split_and!; [done|done|].
  split_and!; [done| | |]; simpl; unfold height, width, blank; congruence.
Qed.

Lemma print_loop_ok l i c d read :
  (∀ k x c', l !! k = Some x → ram c' = ram c →
             wp (read (i + Z.of_nat k)) (λ r c'', r = x ∧ c'' = c') c') →
  Forall (λ x, x ≠ 0) l → Forall is_u8 l → con_shows h w b c d →
  wp (print_loop (length l) color read i)
     (λ n c', n = i + Z.of_nat (length l) ∧ ram c' = ram c ∧
              con_shows h w b c' (foldl (feed w b color) d l)) c.
Proof.
  intros Hread Hnz Hu. revert i c d Hread.
  induction l as [|x l IH]; intros i c d Hread Hs; cbn [length print_loop foldl].
  { apply wp_ret. split_and!; [lia|done|done]. }
  apply Forall_cons_1 in Hnz as [Hx Hnz]. apply Forall_cons_1 in Hu as [Hux Hu].
  apply wp_bind. pose proof (Hread 0%nat x c eq_refl eq_refl) as Hr. rewrite Z.add_0_r in Hr.
  eapply wp_mono; [exact Hr|]. cbn beta. intros ? ? [-> ->].
  apply wp_bind. eapply wp_mono; [by apply putchar_ok|]. cbn beta. intros r c1 (-> & Hm & Hs1).
  rewrite (u8_small x Hux) in Hs1. rewrite (proj2 (Z.eqb_neq x 0)) by done.
  eapply wp_mono; [apply (IH Hnz Hu (i + 1) c1 (feed w b color d x)); [|exact Hs1]|].
  - intros k y c' Hk Hc'. replace (i + 1 + Z.of_nat k) with (i + Z.of_nat (S k)) by lia.
    apply Hread; [done|congruence].
  - cbn beta. intros n c' (-> & Hm' & Hs'). split_and!; [lia|congruence|done].
Qed.

Lemma print_ok data l c d :
  bytes_at (ram c) data l → fits_at data l → Forall (λ x, x ≠ 0) l → con_shows h w b c d →
  wp (print color data (Z.of_nat (length l)))
     (λ n c', n = Z.of_nat (length l) ∧ ram c' = ram c ∧
              con_shows h w b c' (foldl (feed w b color) d l)) c.
Proof.
  intros Hb Hf Hnz Hs. unfold print. rewrite Nat2Z.id.
  eapply wp_mono; [apply (print_loop_ok l 0); [|done|by eapply bytes_at_u8|done]|].
  - intros k x c' Hk Hc. apply lookup_lt_Some in Hk as Hlt. apply wp_zoom.
    eapply wp_load8; [|unfold is_u32, fits_at in *; lia|].
    + rewrite Hc, Z.add_0_l. by apply Hb.
    + split; [done|]. by destruct c'.
  - by cbn beta; intros n c' (-> & ? & ?).
Qed.

Lemma print_literal_ok l c d :
  Forall (λ x, x ≠ 0) l → Forall is_u8 l → con_shows h w b c d →
  wp (print_literal color l)
     (λ n c', n = Z.of_nat (length l) ∧ ram c' = ram c ∧
              con_shows h w b c' (foldl (feed w b color) d l)) c.
Proof.
  intros Hnz Hu Hs. eapply wp_mono; [apply (print_loop_ok l 0); [|done..]|].
  - intros k x c' Hk _. apply wp_ret. split; [|done]. by rewrite Z.add_0_l, Nat2Z.id, Hk.
  - by cbn beta; intros n c' (-> & ? & ?).
Qed.

(** A string of the memory, printed as a whole. *)
Lemma print_string_ok s l c d :
  cstring (ram c) s l → con_shows h w b c d →
  wp (print_or_ret color s (on_ram (strlen s)))
     (λ ok c', ok = true ∧ ram c' = ram c ∧ con_shows h w b c' (foldl (feed w b color) d l)) c.
Proof.
  intros Hc Hs. apply wp_bind, wp_zoom. eapply wp_mono; [by apply strlen_ok|].
  cbn beta. intros ? ? [-> ->]. apply wp_bind. pose proof Hc as (Hb & Hnz & Hf).
  apply bytes_at_app in Hb as [Hb _]. unfold fits_at in Hf. rewrite length_app in Hf. simpl in Hf.
  destruct c as [m t]. eapply wp_mono; [apply print_ok; [exact Hb|unfold fits_at; lia|done|exact Hs]|].
  cbn beta. intros n c' (-> & Hm & Hs'). apply wp_bind, wp_zoom.
  eapply wp_mono; [apply strlen_ok; rewrite Hm; exact Hc|]. cbn beta. intros ? ? [-> ->]. apply wp_ret.
  split_and!; [apply Z.eqb_refl|done|by destruct c'].
Qed.

End Output.

(** ** Formats

    A format is a list of conversions, each behind some text, and a text at the
    end.  [conv_chars] is how a conversion is written behind the percent sign and the
    flag, [conv_args] the words it takes and [conv_text] the text that stands for its
    argument; [conv_printed] is what the code prints. *)

Inductive conv : Type :=
  | CPercent
  | CInt (i : bool) (v : Z)        (** %d, or %i *)
  | CUint (v : Z)                  (** %u *)
  | CHex (upper : bool) (v : Z)    (** %x, or %X *)
  | CLong (i : bool) (v : Z)       (** %lld, or %lli *)
  | CULong (v : Z)                 (** %llu *)
  | CLHex (upper : bool) (v : Z)   (** %llx, or %llX *)
  | CChar (v : Z)                  (** %c *)
  | CStr (p : Z) (l : list Z).     (** %s, the string [l] at [p] *)

Definition conv_chars (k : conv) : list Z :=
  match k with
  | CPercent => [37]
  | CInt i _ => [if i then 105 else 100]
  | CUint _ => [117]
  | CHex u _ => [if u then 88 else 120]
  | CLong i _ => [108; 108; if i then 105 else 100]
  | CULong _ => [108; 108; 117]
  | CLHex u _ => [108; 108; if u then 88 else 120]
  | CChar _ => [99]
  | CStr _ _ => [115]
  end.

Definition dword (v : Z) : list Z := [u32 v; u32 (v / 2 ^ 32)].

Definition conv_args (k : conv) : list Z :=
  match k with
  | CPercent => []
  | CInt _ v | CUint v | CHex _ v | CChar v => [u32 v]
  | CLong _ v | CULong v | CLHex _ v => dword v
  | CStr p _ => [p]
  end.

(** The text of an argument: a number in decimal or hexadecimal digits, capital ones for
    %X and %llX, behind 0x when the flag is #; a character; a string.  The other flags have
    no effect. *)
Definition conv_text (hash : bool) (k : conv) : list Z :=
  let hex := if hash then [48; 120] else [] in
  match k with
  | CPercent => [37]
  | CInt _ v | CUint v | CLong _ v => (if v <? 0 then [45] else []) ++ uint_text 10 dec_digit (Z.abs v)
  | CULong v => uint_text 10 dec_digit v
  | CHex u v | CLHex u v => hex ++ (if u then upper <$> uint_text 16 hex_digit v else uint_text 16 hex_digit v)
  | CChar v => [u8 v]
  | CStr _ l => l
  end.

(** What the code prints: %llu its digits in reverse order, %llX small letters (see the
    departures below). *)
Definition conv_printed (hash : bool) (k : conv) : list Z :=
  match k with
  | CPercent => [37]
  | CInt _ v | CUint v | CLong _ v => itoa_text v
  | CHex u v => (if hash then [48; 120] else []) ++
                (if u then upper <$> uint_text 16 hex_digit v else uint_text 16 hex_digit v)
  | CULong v => reverse (uint_text 10 dec_digit v)
  | CLHex _ v => (if hash then [48; 120] else []) ++ uint_text 16 hex_digit v
  | CChar v => [u8 v]
  | CStr _ l => l
  end.

Notation segment := (list Z * option Z * conv)%type.

Definition flag_chars (flag : option Z) : list Z := match flag with Some f => [f] | None => [] end.
Definition segment_fmt (s : segment) : list Z :=
  s.1.1 ++ 37 :: flag_chars s.1.2 ++ conv_chars s.2.
Definition format (l : list segment) (tail : list Z) : list Z := concat (segment_fmt <$> l) ++ tail.
Definition format_args (l : list segment) : list Z := concat ((λ s, conv_args s.2) <$> l).
Definition segment_text (s : segment) : list Z := s.1.1 ++ conv_text (bool_decide (s.1.2 = Some 35)) s.2.
Definition format_text (l : list segment) (tail : list Z) : list Z := concat (segment_text <$> l) ++ tail.
Definition segment_printed (s : segment) : list Z :=
  s.1.1 ++ conv_printed (bool_decide (s.1.2 = Some 35)) s.2.
Definition format_printed (l : list segment) (tail : list Z) : list Z :=
  concat (segment_printed <$> l) ++ tail.

(** The conversions that the code prints as it should: all but %llu and %llX, and these when
    the value has a single digit. *)
Definition printed_right (k : conv) : Prop :=
  match k with CULong v | CLHex true v => v < 10 | _ => True end.

(** Text of a format: no percent sign. *)
Definition plain (l : list Z) : Prop := Forall (λ x, x ≠ 37) l.

Section Conversions.
Context (m0 : mem) (buf : Z).

(** The string of [n] bytes at [p] does not meet [formatted_arg]. *)
Definition off_buf (p n : Z) : Prop := p + n <= buf ∨ buf + ARG_MAX_LEN <= p.

Definition conv_ok (k : conv) : Prop :=
  match k with
  | CPercent => True
  | CInt _ v => - 2 ^ 31 <= v < 2 ^ 31
  | CUint v | CHex _ v | CChar v => is_u32 v
  | CLong _ v => - 2 ^ 63 < v < 2 ^ 63
  | CULong v | CLHex _ v => is_u64 v
  | CStr p l => cstring m0 p l ∧ off_buf p (Z.of_nat (length l) + 1)
  end.

Definition flag_ok (flag : option Z) : Prop :=
  match flag with Some f => f ∈ [35; 45; 43; 32; 48] | None => True end.

Definition segment_ok (s : segment) : Prop := plain s.1.1 ∧ flag_ok s.1.2 ∧ conv_ok s.2.

(** ** The state of vprintk *)

Context (h w : nat) (b color : Z).

(** Only [formatted_arg] has changed; the console shows [d]. *)
Definition inv (c : console) (d : doc) : Prop :=
  mapped (ram c) buf ARG_MAX_LEN ∧ same_outside m0 (ram c) buf (buf + ARG_MAX_LEN) ∧
  con_shows h w b c d.

Context (Hbuf : 0 <= buf ∧ buf + ARG_MAX_LEN <= 2 ^ 32).

Lemma cstring_frame m p l :
  cstring m0 p l → off_buf p (Z.of_nat (length l) + 1) →
  same_outside m0 m buf (buf + ARG_MAX_LEN) → cstring m p l.
Proof.
  intros (Hb & Hnz & Hf) Hd Hs. split_and!; [|done|done].
  eapply bytes_at_frame; [exact Hb|exact Hs|]. rewrite length_app. simpl. unfold off_buf in Hd. lia.
Qed.

(** A function that writes a text into [formatted_arg]. *)
Lemma format_number_ok (f : M mem Z) text c d :
  (∀ old m, bytes_at m buf old → fits_at buf old → (22 <= length old)%nat →
     wp f (λ r m', r = buf ∧ cstring m' buf text ∧
           same_outside m m' buf (buf + Z.of_nat (length old))) m) →
  keeps f → inv c d →
  wp (on_ram f) (λ _ c', inv c' d ∧ cstring (ram c') buf text) c.
Proof.
  intros Hf Hk (Hm & Hs & Hc). apply wp_zoom.
  destruct (mapped_bytes _ _ ARG_MAX_LEN ltac:(done) Hm) as (old & Ho & Hlen). unfold ARG_MAX_LEN in *.
  assert (Hfit : fits_at buf old) by (unfold fits_at; lia).
  pose proof (wp_keeps _ _ _ _ _ Hk Hm (Hf old _ Ho Hfit ltac:(lia))) as W.
  eapply wp_mono; [exact W|]. cbn beta.
  intros r m' [(_ & Ht & Hs') Hm']. rewrite Hlen in Hs'. split; [|done].
  split_and!; [done|by eapply same_outside_trans|done].
Qed.

Lemma print_buf_ok text c d :
  inv c d → cstring (ram c) buf text →
  wp (print_formatted color buf)
     (λ ok c', ok = true ∧ inv c' (foldl (feed w b color) d text)) c.
Proof.
  intros (Hm & Hs & Hc) Ht. eapply wp_mono; [by apply (print_string_ok h w b color)|].
  cbn beta. intros ok c' (-> & Hr & Hc'). split; [done|]. split_and!; [by rewrite Hr..|done].
Qed.

Lemma upper_buf_ok text c d :
  inv c d → cstring (ram c) buf text → (length text <= 256)%nat →
  wp (on_ram (strupper buf)) (λ _ c', inv c' d ∧ cstring (ram c') buf (upper <$> text)) c.
Proof.
  intros (Hm & Hs & Hc) Ht Hlen. apply wp_zoom.
  pose proof (wp_keeps _ _ _ _ _ (keeps_strupper buf) Hm (strupper_ok _ _ _ Ht)) as W.
  eapply wp_mono; [exact W|]. cbn beta.
  intros r m' [(_ & Ht' & Hs') Hm']. split; [|done]. split_and!; [done| |done].
  eapply same_outside_trans; [exact Hs|]. eapply same_outside_mono; [exact Hs'|lia|].
  unfold ARG_MAX_LEN. lia.
Qed.

Lemma format_hex_ok v c d :
  is_u64 v → inv c d →
  wp (on_ram (uitoa_hex v buf)) (λ _ c', inv c' d ∧ cstring (ram c') buf (uint_text 16 hex_digit v)) c.
Proof.
  intros Hv Hi. apply format_number_ok; [|apply keeps_uitoa_hex|done].
  intros. by apply uitoa_hex_ok.
Qed.

(** A number formatted and printed. *)
Lemma print_number_ok {A} (f : M mem Z) text c d (r : A) (z : A) :
  (∀ old m, bytes_at m buf old → fits_at buf old → (22 <= length old)%nat →
     wp f (λ r m', r = buf ∧ cstring m' buf text ∧
           same_outside m m' buf (buf + Z.of_nat (length old))) m) →
  keeps f → inv c d →
  wp (_ ← on_ram f; ok ← print_formatted color buf; mret (if ok : bool then r else z))
     (λ r' c', r' = r ∧ inv c' (foldl (feed w b color) d text)) c.
Proof.
  intros Hf Hk Hi. apply wp_bind. eapply wp_mono; [by apply format_number_ok|]. cbn beta.
  intros _ c1 [Hi1 Ht]. apply wp_bind. eapply wp_mono; [by apply print_buf_ok|]. cbn beta.
  intros ok c2 [-> Hi2]. by apply wp_ret.
Qed.

Lemma prefix_ok (hash : bool) c d :
  inv c d →
  wp (if hash then n ← print_literal color [48; 120]; mret (n =? 2) else mret true)
     (λ r c', r = true ∧ inv c' (foldl (feed w b color) d (if hash then [48; 120] else []))) c.
Proof.
  intros Hi. destruct hash; [|by apply wp_ret]. destruct Hi as (Hm & Hs & Hc).
  apply wp_bind. eapply wp_mono; [apply (print_literal_ok h w b color [48; 120]);
    [by repeat constructor|by repeat constructor|exact Hc]|].
  cbn beta. intros n c' (-> & Hr & Hc'). apply wp_ret. split; [done|].
  split_and!; [by rewrite Hr..|done].
Qed.

Lemma va_word_ok v rest (Q : Z * list Z → console → Prop) c :
  Q (v, rest) c → wp (va_word (v :: rest)) Q c.
Proof. done. Qed.

Lemma va_dword_ok v rest (Q : Z * list Z → console → Prop) c :
  Q (u64 v, rest) c → wp (va_dword (dword v ++ rest)) Q c.
Proof.
  intros HQ. unfold va_dword, dword. simpl. apply wp_bind, va_word_ok, wp_bind, va_word_ok, wp_ret.
  replace (u32 v + 2 ^ 32 * u32 (v / 2 ^ 32)) with (u64 v); [done|].
  unfold u32, u64. change (2 ^ 64) with (2 ^ 32 * 2 ^ 32). rewrite Z.rem_mul_r by lia. lia.
Qed.

Lemma to_signed_u32 v : - 2 ^ 31 <= v < 2 ^ 31 → to_signed 32 (u32 v) = v.
Proof.
  intros Hv. unfold to_signed, u32. rewrite Z.mod_mod by lia. change (2 ^ (32 - 1)) with (2 ^ 31).
  destruct (Z.ltb_spec (v mod 2 ^ 32) (2 ^ 31)); ulia.
Qed.

Lemma to_signed_u64 v : - 2 ^ 63 <= v < 2 ^ 63 → to_signed 64 (u64 v) = v.
Proof.
  intros Hv. unfold to_signed, u64. rewrite Z.mod_mod by lia. change (2 ^ (64 - 1)) with (2 ^ 63).
  destruct (Z.ltb_spec (v mod 2 ^ 64) (2 ^ 63)); ulia.
Qed.

Lemma u8_to_signed32 v : u8 (to_signed 32 (u32 v)) = u8 v.
Proof.
  unfold to_signed, u32. rewrite Z.mod_mod by lia. unfold u8.
  change (2 ^ 32) with (2 ^ 24 * 2 ^ 8). case_match; Z.div_mod_to_equations; lia.
Qed.

(** ** The format string *)

Context (fmt : Z) (F : list Z).
Context (HF : cstring m0 fmt F) (HFoff : off_buf fmt (Z.of_nat (length F) + 1)).

Lemma load_fmt n x Q c d :
  inv c d → (F ++ [0]) !! n = Some x → Q x c → wp (on_ram (load8 (fmt + Z.of_nat n))) Q c.
Proof.
  intros (_ & Hs & _) Hx HQ. pose proof HF as (_ & _ & Hf).
  destruct (cstring_frame _ _ _ HF HFoff Hs) as (Hb & _).
  apply lookup_lt_Some in Hx as Hlt. apply wp_zoom.
  eapply wp_load8; [by apply Hb|unfold is_u32, fits_at in *; lia|]. by destruct c.
Qed.

Lemma load_chars j k i x Q c d :
  (∀ i x, conv_chars k !! i = Some x → F !! (j + i)%nat = Some x) →
  inv c d → conv_chars k !! i = Some x → Q x c →
  wp (on_ram (load8 (fmt + (Z.of_nat j + Z.of_nat i)))) Q c.
Proof.
  intros Hj Hi Hx HQ. rewrite <- Nat2Z.inj_add. eapply load_fmt; [exact Hi| |exact HQ].
  apply lookup_app_l_Some. by apply Hj.
Qed.

(** The conversions of a long long. *)
Lemma convert_ll_ok j k hash rest c d :
  (∀ i x, conv_chars k !! i = Some x → F !! (j + i)%nat = Some x) → conv_ok k → inv c d →
  match k with CLong _ _ | CULong _ | CLHex _ _ => True | _ => False end →
  wp (convert_ll buf color fmt (Z.of_nat j) hash (conv_args k ++ rest))
     (λ r c', r = Some (Z.of_nat j + 2, rest) ∧
              inv c' (foldl (feed w b color) d (conv_printed hash k))) c.
Proof.
  intros Hj Hk Hi Hll. unfold convert_ll. apply wp_bind.
  destruct k as [| | | |i v|v|u v| |]; try done; simpl in Hk.
  - apply (load_chars j (CLong i v) 2 (if i then 105 else 100) _ c d Hj Hi eq_refl).
    replace (((if i then 105 else 100) =? 100) || ((if i then 105 else 100) =? 105)) with true
      by by destruct i.
    cbn [conv_args]. apply wp_bind, va_dword_ok. cbn beta iota.
    rewrite to_signed_u64 by lia. apply print_number_ok; [|apply keeps_itoa|done].
    intros. by apply itoa_ok.
  - apply (load_chars j (CULong v) 2 117 _ c d Hj Hi eq_refl). cbn [conv_args].
    change ((117 =? 100) || (117 =? 105)) with false. change (117 =? 117) with true. cbn iota.
    apply wp_bind, va_dword_ok. rewrite (u64_small v Hk). cbn beta iota.
    apply print_number_ok; [|apply keeps_uitoa|done]. intros. by apply uitoa_ok.
  - apply (load_chars j (CLHex u v) 2 (if u then 88 else 120) _ c d Hj Hi eq_refl). cbn [conv_args].
    set (x := if u then 88 else 120).
    replace ((x =? 100) || (x =? 105)) with false by by destruct u.
    replace (x =? 117) with false by by destruct u.
    replace ((x =? 120) || (x =? 88)) with true by by destruct u. cbn iota.
    apply wp_bind. eapply wp_mono; [by apply prefix_ok|]. cbn beta. intros pre c1 [-> Hi1].
    apply wp_bind, va_dword_ok. rewrite (u64_small v Hk). cbn beta iota.
    apply wp_bind. eapply wp_mono; [by apply (format_hex_ok v)|].
    cbn beta. intros _ c2 [Hi2 Ht]. apply wp_bind.
    replace (fmt + Z.of_nat j) with (fmt + (Z.of_nat j + Z.of_nat 0)) by lia.
    apply (load_chars j (CLHex u v) 0 108 _ c2 _ Hj Hi2 eq_refl).
    change (108 =? 88) with false. cbn iota. apply wp_bind, wp_ret, wp_bind.
    eapply wp_mono; [by apply print_buf_ok|]. cbn beta. intros ok c3 [-> Hi3]. apply wp_ret.
    split; [done|]. cbn [conv_printed]. by rewrite foldl_app.
Qed.

Lemma uint_text_length v : is_u64 v → (length (uint_text 16 hex_digit v) <= 256)%nat.
Proof.
  intros Hv. unfold uint_text. case_match; simpl; [lia|]. rewrite length_fmap, length_reverse.
  etrans; [apply (digits_length 16 ltac:(done) 64 16 v)|lia].
  change (16 ^ Z.of_nat 16) with (2 ^ 64). exact Hv.
Qed.

Lemma convert_hex_ok j (u hash : bool) v rest c d :
  (∀ i x, conv_chars (CHex u v) !! i = Some x → F !! (j + i)%nat = Some x) → is_u32 v → inv c d →
  wp (convert buf color fmt (Z.of_nat (length F)) (Z.of_nat j) hash (u32 v :: rest))
     (λ r c', r = Some (Z.of_nat j, rest) ∧
              inv c' (foldl (feed w b color) d (conv_printed hash (CHex u v)))) c.
Proof.
  intros Hj Hk Hi. unfold convert. apply wp_bind.
  replace (fmt + Z.of_nat j) with (fmt + (Z.of_nat j + Z.of_nat 0)) by lia.
  apply (load_chars j (CHex u v) 0 (if u then 88 else 120) _ c d Hj Hi eq_refl).
  set (x := if u then 88 else 120).
  replace (x =? 37) with false by by destruct u.
  replace ((x =? 100) || (x =? 105)) with false by by destruct u.
  replace (x =? 117) with false by by destruct u.
  replace ((x =? 120) || (x =? 88)) with true by by destruct u. cbn iota.
  apply wp_bind. eapply wp_mono; [by apply prefix_ok|]. cbn beta. intros pre c1 [-> Hi1].
  apply wp_bind, va_word_ok. rewrite (u32_small v Hk). cbn beta iota.
  assert (Hv : is_u64 v) by (unfold is_u32, is_u64 in *; lia).
  apply wp_bind. eapply wp_mono; [by apply (format_hex_ok v)|].
  cbn beta. intros _ c2 [Hi2 Ht]. apply wp_bind. cbn [conv_printed]. rewrite foldl_app.
  set (text := if u then upper <$> uint_text 16 hex_digit v else uint_text 16 hex_digit v).
  eapply (wp_mono _ (λ _ c', inv c' _ ∧ cstring (ram c') buf text)).
  - subst x text. destruct u; [|by apply wp_ret]. apply wp_bind.
    eapply wp_mono; [apply (upper_buf_ok _ _ _ Hi2 Ht); by apply uint_text_length|].
    cbn beta. intros _ c3 H3. by apply wp_ret.
  - cbn beta. intros _ c3 [Hi3 Ht3]. apply wp_bind.
    eapply wp_mono; [by apply print_buf_ok|]. cbn beta. intros ok c4 [-> Hi4]. by apply wp_ret.
Qed.

Lemma convert_long_ok j k hash rest c d :
  (∀ i x, conv_chars k !! i = Some x → F !! (j + i)%nat = Some x) → conv_ok k → inv c d →
  Z.of_nat (length F) < 2 ^ 31 →
  match k with CLong _ _ | CULong _ | CLHex _ _ => True | _ => False end →
  wp (convert buf color fmt (Z.of_nat (length F)) (Z.of_nat j) hash (conv_args k ++ rest))
     (λ r c', r = Some (Z.of_nat j + 2, rest) ∧
              inv c' (foldl (feed w b color) d (conv_printed hash k))) c.
Proof.
  intros Hj Hk Hi Hlen Hll.
  assert (conv_chars k !! 0%nat = Some 108 ∧ conv_chars k !! 1%nat = Some 108 ∧
          is_Some (conv_chars k !! 2%nat)) as (H0 & H1 & [y Hy]) by (destruct k; simpl; eauto; done).
  apply Hj in Hy as Hj2. apply lookup_lt_Some in Hj2.
  unfold convert. apply wp_bind.
  replace (fmt + Z.of_nat j) with (fmt + (Z.of_nat j + Z.of_nat 0)) by lia.
  apply (load_chars j k 0 108 _ c d Hj Hi H0).
  change (108 =? 37) with false. change ((108 =? 100) || (108 =? 105)) with false.
  change (108 =? 117) with false. change ((108 =? 120) || (108 =? 88)) with false.
  change (108 =? 108) with true. cbn iota.
  rewrite u32_small by (unfold is_u32; lia). rewrite (proj2 (Z.ltb_lt _ _)) by lia.
  apply wp_bind. apply (load_chars j k 1 108 _ c d Hj Hi H1).
  change (108 =? 108) with true. cbn iota. by apply convert_ll_ok.
Qed.

(** Every conversion prints its text and takes its words. *)
Lemma convert_ok j k hash rest c d :
  (∀ i x, conv_chars k !! i = Some x → F !! (j + i)%nat = Some x) → conv_ok k → inv c d →
  Z.of_nat (length F) < 2 ^ 31 →
  wp (convert buf color fmt (Z.of_nat (length F)) (Z.of_nat j) hash (conv_args k ++ rest))
     (λ r c', r = Some (Z.of_nat (j + length (conv_chars k)) - 1, rest) ∧
              inv c' (foldl (feed w b color) d (conv_printed hash k))) c.
Proof.
  intros Hj Hk Hi Hlen.
  assert (Hlong : match k with CLong _ _ | CULong _ | CLHex _ _ => True | _ => False end →
    Z.of_nat (j + length (conv_chars k)) - 1 = Z.of_nat j + 2) by (destruct k; simpl; lia).
  assert (Hw : match k with CLong _ _ | CULong _ | CLHex _ _ => False | _ => True end →
    Z.of_nat (j + length (conv_chars k)) - 1 = Z.of_nat j) by (destruct k; simpl; lia).
  destruct k as [|i v|v|u v| | | |v|p l];
    try (rewrite Hlong by done; apply convert_long_ok; done); rewrite Hw by done; clear Hlong Hw;
    try (apply convert_hex_ok; done);
    unfold convert; apply wp_bind;
    replace (fmt + Z.of_nat j) with (fmt + (Z.of_nat j + Z.of_nat 0)) by lia;
    (eapply (load_chars j _ 0); [exact Hj|exact Hi|reflexivity|]); cbn [conv_args app conv_printed].
  - change (37 =? 37) with true. cbn iota. apply wp_bind, wp_bind, wp_ret, wp_bind.
    pose proof Hi as (Hm & Hs & Hc). destruct (cstring_frame _ _ _ HF HFoff Hs) as (Hb & _ & Hf).
    rewrite Z.add_0_r. specialize (Hj 0%nat 37 eq_refl). rewrite Nat.add_0_r in Hj.
    apply lookup_lt_Some in Hj as Hlt.
    eapply wp_mono; [apply (print_ok h w b color _ [37])|].
    + apply bytes_at_cons. destruct (Hb j 37) as [H1 H2]; [by apply lookup_app_l_Some|].
      split_and!; [done|done|apply bytes_at_nil].
    + unfold fits_at in *. rewrite length_app in Hf. simpl in *. lia.
    + by repeat constructor.
    + exact Hc.
    + cbn beta. intros n c' (-> & Hr & Hc'). apply wp_bind, wp_ret, wp_ret, wp_ret.
      split; [done|]. split_and!; [by rewrite Hr..|done].
  - replace ((if i then 105 else 100) =? 37) with false by by destruct i.
    replace (((if i then 105 else 100) =? 100) || ((if i then 105 else 100) =? 105)) with true
      by by destruct i.
    cbn iota. apply wp_bind, va_word_ok. cbn beta iota. simpl in Hk. rewrite to_signed_u32 by done.
    apply print_number_ok; [|apply keeps_itoa|done]. intros. apply itoa_ok; [done..|lia].
  - change (117 =? 37) with false. change ((117 =? 100) || (117 =? 105)) with false.
    change (117 =? 117) with true. cbn iota. apply wp_bind, va_word_ok. cbn beta iota.
    simpl in Hk. rewrite u32_small by done. apply print_number_ok; [|apply keeps_itoa|done].
    intros. apply itoa_ok; [done..|unfold is_u32 in Hk; lia].
  - cbn -[putchar Z.of_nat]. pose proof Hi as (Hm & Hs & Hc). apply wp_bind, wp_ret, wp_bind.
    eapply wp_mono; [by apply (putchar_ok h w b color)|]. cbn beta. intros r c' (-> & Hr & Hc').
    apply wp_ret. rewrite u8_to_signed32 in Hc'. split; [done|]. split_and!; [by rewrite Hr..|done].
  - cbn -[print_or_ret Z.of_nat]. pose proof Hi as (Hm & Hs & Hc). apply wp_bind, wp_ret, wp_bind.
    destruct Hk as [Hk Hoff]. eapply wp_mono; [apply (print_string_ok h w b color)|].
    + by eapply cstring_frame.
    + exact Hc.
    + cbn beta. intros ok c' (-> & Hr & Hc'). apply wp_ret. split; [done|].
      split_and!; [by rewrite Hr..|done].
Qed.

Lemma scan_percent_ok t n i c d :
  inv c d → (∀ k x, t !! k = Some x → F !! (i + k)%nat = Some x) → plain t →
  (length t <= n)%nat → n = length t ∨ F !! (i + length t)%nat = Some 37 →
  wp (scan_percent n fmt (Z.of_nat i)) (λ r c', r = Z.of_nat (i + length t) ∧ c' = c) c.
Proof.
  intros Hi. revert n i. induction t as [|x t IH]; intros n i Ht Hp Hn Hend.
  - rewrite Nat.add_0_r in *. destruct n as [|n]; [by apply wp_ret|]. destruct Hend as [|H37]; [done|].
    simpl. apply wp_bind. eapply load_fmt; [exact Hi|by apply lookup_app_l_Some|]. by apply wp_ret.
  - apply Forall_cons_1 in Hp as [Hx Hp]. simpl in Hn. destruct n as [|n]; [lia|]. simpl.
    apply wp_bind. pose proof (Ht 0%nat x eq_refl) as H0. rewrite Nat.add_0_r in H0.
    eapply load_fmt; [exact Hi|by apply lookup_app_l_Some|].
    rewrite (proj2 (Z.eqb_neq x 37)) by done.
    replace (Z.of_nat i + 1) with (Z.of_nat (S i)) by lia. rewrite Nat.add_succ_r.
    apply (IH n (S i)); [|done|lia|].
    + intros k y Hk. specialize (Ht (S k) y Hk). by rewrite Nat.add_succ_r in Ht.
    + simpl in Hend. rewrite Nat.add_succ_r in Hend. simpl. destruct Hend; [left; lia|by right].
Qed.

(** Printing the text before a conversion, or at the end. *)
Lemma print_text_ok t i c d :
  inv c d → (∀ k x, t !! k = Some x → F !! (i + k)%nat = Some x) → (i + length t <= length F)%nat →
  wp (if Z.of_nat i <? Z.of_nat (i + length t)
      then _ ← print color (fmt + Z.of_nat i) (Z.of_nat (i + length t) - Z.of_nat i); mret tt
      else mret tt)
     (λ _ c', inv c' (foldl (feed w b color) d t)) c.
Proof.
  intros Hi Ht Hlen. destruct (Z.ltb_spec (Z.of_nat i) (Z.of_nat (i + length t))) as [Hlt|Hge].
  2:{ assert (t = []) as -> by (apply length_zero_iff_nil; lia). by apply wp_ret. }
  pose proof Hi as (Hm & Hs & Hc). destruct (cstring_frame _ _ _ HF HFoff Hs) as (Hb & Hnz & Hf).
  replace (Z.of_nat (i + length t) - Z.of_nat i) with (Z.of_nat (length t)) by lia.
  apply wp_bind. eapply wp_mono; [apply (print_ok h w b color _ t)|].
  - intros k x Hk. rewrite <- Z.add_assoc, <- Nat2Z.inj_add. apply Hb, lookup_app_l_Some. by apply Ht.
  - unfold fits_at in *. rewrite length_app in Hf. simpl in Hf. lia.
  - apply Forall_lookup. intros k x Hk. rewrite Forall_lookup in Hnz. by eapply Hnz, Ht.
  - exact Hc.
  - cbn beta. intros n c' (_ & Hr & Hc'). apply wp_ret. split_and!; [by rewrite Hr..|done].
Qed.

Lemma conv_first k : ∃ x, conv_chars k !! 0%nat = Some x ∧ x ∉ [35; 45; 43; 32; 48].
Proof. destruct k; simpl; repeat case_match; eexists; (split; [done|set_solver by lia]). Qed.

(** The flag: the index the conversion is read from, and whether it is "#". *)
Lemma flag_scan flag k i rest x :
  flag_ok flag → F !! S i = Some x → head (flag_chars flag ++ conv_chars k ++ rest) = Some x →
  (x =? 35) = bool_decide (flag = Some 35) ∧
  (if (x =? 35) || (x =? 45) || (x =? 43) || (x =? 32) || (x =? 48) then Z.of_nat i + 1 else Z.of_nat i)
  = Z.of_nat (i + length (flag_chars flag)).
Proof.
  intros Hf _ Hx. destruct flag as [f|]; simpl in *.
  - injection Hx as ->. split.
    + destruct (Z.eqb_spec x 35) as [->|]; [done|]. symmetry. apply bool_decide_eq_false. congruence.
    + assert ((x =? 35) || (x =? 45) || (x =? 43) || (x =? 32) || (x =? 48) = true) as ->; [|lia].
      set_unfold in Hf. lia.
  - destruct (conv_first k) as (y & Hy & Hn).
    assert (x = y) as -> by (destruct (conv_chars k); simplify_eq/=; done). set_unfold in Hn.
    split; [by rewrite (proj2 (Z.eqb_neq y 35)) by tauto|].
    assert ((y =? 35) || (y =? 45) || (y =? 43) || (y =? 32) || (y =? 48) = false) as ->; lia.
Qed.

Context (HFlen : Z.of_nat (length F) < 2 ^ 31).

Lemma drop_lookup_app i l1 l2 l3 k x :
  drop i F = l1 ++ l2 ++ l3 → l2 !! k = Some x → F !! (i + length l1 + k)%nat = Some x.
Proof.
  intros HFi Hk. rewrite <- Nat.add_assoc, <- lookup_drop, HFi.
  rewrite lookup_app_r by lia. replace (length l1 + k - length l1)%nat with k by lia.
  by apply lookup_app_l_Some.
Qed.

Lemma vprintk_loop_end fuel params c d :
  inv c d → (0 < fuel)%nat →
  wp (vprintk_loop fuel buf color fmt (Z.of_nat (length F)) (Z.of_nat (length F)) params)
     (λ r c', r = Z.of_nat (length F) ∧ inv c' d) c.
Proof.
  intros Hi Hf. destruct fuel as [|fuel]; [lia|]. cbn [vprintk_loop]. rewrite Z.ltb_irrefl.
  apply wp_ret. split; [|done]. unfold to_signed. rewrite Z.mod_small by lia.
  by rewrite (proj2 (Z.ltb_lt _ _)).
Qed.

(** The text behind the last conversion. *)
Lemma vprintk_tail_ok tail fuel i params c d :
  plain tail → drop i F = tail → (i <= length F)%nat → inv c d → (length F - i < fuel)%nat →
  wp (vprintk_loop fuel buf color fmt (Z.of_nat (length F)) (Z.of_nat i) params)
     (λ r c', r = Z.of_nat (length F) ∧ inv c' (foldl (feed w b color) d tail)) c.
Proof.
  intros Hp HFi Hi Hinv Hfuel. assert (Hl : (i + length tail = length F)%nat)
    by (rewrite <- HFi, length_drop; lia).
  destruct (decide (i = length F)) as [->|Hne].
  { assert (tail = []) as -> by (apply length_zero_iff_nil; lia). apply vprintk_loop_end; [done|lia]. }
  destruct fuel as [|fuel]; [lia|]. cbn [vprintk_loop].
  rewrite (proj2 (Z.ltb_lt _ _)) by lia.
  assert (Ht : ∀ k x, tail !! k = Some x → F !! (i + k)%nat = Some x)
    by (intros k x Hk; by rewrite <- lookup_drop, HFi).
  apply wp_bind. eapply wp_mono; [apply (scan_percent_ok tail _ i c d); [done|done|done|lia|left; lia]|].
  cbn beta. intros ? ? [-> ->]. apply wp_bind.
  eapply wp_mono; [apply (print_text_ok tail i c d); [done|done|lia]|]. cbn beta. intros _ c1 Hi1.
  apply wp_bind. eapply load_fmt; [exact Hi1| |].
  { rewrite Hl. apply list_lookup_middle. done. }
  change (0 =? 37) with false. cbn iota. rewrite Hl. apply vprintk_loop_end; [done|lia].
Qed.

Lemma format_cons t flag k segs rest :
  concat (segment_fmt <$> (t, flag, k) :: segs) ++ rest =
  t ++ [37] ++ flag_chars flag ++ conv_chars k ++ concat (segment_fmt <$> segs) ++ rest.
Proof.
  cbn [fmap list_fmap concat]. unfold segment_fmt at 1. cbn [fst snd].
  by rewrite <- !app_assoc, <- app_comm_cons, <- !app_assoc.
Qed.

Lemma conversion_ok q flag k rest args c d :
  flag_ok flag → conv_ok k → inv c d →
  drop q F = [37] ++ flag_chars flag ++ conv_chars k ++ rest →
  wp (conversion buf color fmt (Z.of_nat (length F)) (Z.of_nat q) (conv_args k ++ args))
     (λ r c', r = Some (Z.of_nat (q + 1 + length (flag_chars flag) + length (conv_chars k)) - 1, args) ∧
        inv c' (foldl (feed w b color) d (conv_printed (bool_decide (flag = Some 35)) k))) c.
Proof.
  intros Hflag Hk Hi HFq.
  destruct (flag_chars flag ++ conv_chars k ++ rest) as [|x xs] eqn:Ex.
  { destruct (conv_first k) as (y & Hy & _). destruct (flag_chars flag), (conv_chars k); done. }
  assert (Hx : F !! S q = Some x).
  { pose proof (drop_lookup_app q [37] [x] xs 0 x HFq eq_refl) as H1. simpl in H1.
    by replace (q + 1 + 0)%nat with (S q) in H1 by lia. }
  apply lookup_lt_Some in Hx as Hlt.
  destruct (flag_scan flag k q rest x Hflag Hx) as [Hhash Hidx]; [by rewrite Ex|].
  set (j := (q + 1 + length (flag_chars flag))%nat).
  assert (Hj : ∀ n y, conv_chars k !! n = Some y → F !! (j + n)%nat = Some y).
  { intros n y Hn. pose proof (drop_lookup_app q ([37] ++ flag_chars flag) (conv_chars k) rest n y) as H1.
    rewrite length_app, Nat.add_assoc in H1. apply H1; [|done]. rewrite HFq, <- Ex, <- !app_assoc. done. }
  assert (Hjlt : (j < length F)%nat).
  { destruct (conv_first k) as (y & Hy & _). apply Hj, lookup_lt_Some in Hy. lia. }
  unfold conversion. rewrite (proj2 (Z.eqb_neq _ _)) by lia.
  apply wp_bind. replace (Z.of_nat q + 1) with (Z.of_nat (S q)) by lia.
  eapply load_fmt; [exact Hi|by apply lookup_app_l_Some|].
  replace (Z.of_nat (S q)) with (Z.of_nat q + 1) by lia. cbn zeta. rewrite Hidx, Hhash.
  rewrite (proj2 (Z.eqb_neq _ _)) by lia.
  replace (Z.of_nat (q + length (flag_chars flag)) + 1) with (Z.of_nat j) by lia.
  by apply convert_ok.
Qed.

(** The loop up to the percent sign behind the text [t]. *)
Lemma vprintk_text_ok t fuel i params rest c d Q :
  drop i F = t ++ [37] ++ rest → plain t → inv c d →
  (∀ c', inv c' (foldl (feed w b color) d t) →
     wp (conversion buf color fmt (Z.of_nat (length F)) (Z.of_nat (i + length t)) params)
        (λ r c', match r with
                 | None => Q (- EINVAL) c'
                 | Some (i, params) =>
                     wp (vprintk_loop fuel buf color fmt (Z.of_nat (length F)) (i + 1) params) Q c'
                 end) c') →
  wp (vprintk_loop (S fuel) buf color fmt (Z.of_nat (length F)) (Z.of_nat i) params) Q c.
Proof.
  intros HFi Hp Hinv HQ.
  assert (Ht : ∀ n x, t !! n = Some x → F !! (i + n)%nat = Some x).
  { intros n x Hn. pose proof (drop_lookup_app i [] t _ n x HFi Hn) as H1. by rewrite Nat.add_0_r in H1. }
  assert (H37 : F !! (i + length t)%nat = Some 37).
  { pose proof (drop_lookup_app i t [37] _ 0 37 HFi eq_refl) as H1. by rewrite Nat.add_0_r in H1. }
  apply lookup_lt_Some in H37 as Hlt.
  cbn [vprintk_loop]. rewrite (proj2 (Z.ltb_lt _ _)) by lia.
  apply wp_bind. eapply wp_mono; [apply (scan_percent_ok t _ i c d); [done|done|done|lia|by right]|].
  cbn beta. intros ? ? [-> ->]. apply wp_bind.
  eapply wp_mono; [apply (print_text_ok t i c d); [done|done|lia]|]. cbn beta. intros _ c1 Hi1.
  apply wp_bind. eapply load_fmt; [exact Hi1|by apply lookup_app_l_Some|].
  change (37 =? 37) with true. cbn iota. apply wp_bind.
  eapply wp_mono; [by apply HQ|]. cbn beta. intros [[i' params']|] c2 H2; [done|by apply wp_ret].
Qed.

(** The loop goes through the conversions [segs] and continues at [rest]. *)
Lemma vprintk_loop_segs segs rest args fuel i c d Q :
  Forall segment_ok segs → drop i F = concat (segment_fmt <$> segs) ++ rest → (i <= length F)%nat →
  inv c d → (length F - i < fuel)%nat →
  (∀ j fuel' c', drop j F = rest → (j <= length F)%nat → (length F - j < fuel')%nat →
     inv c' (foldl (feed w b color) d (concat (segment_printed <$> segs))) →
     wp (vprintk_loop fuel' buf color fmt (Z.of_nat (length F)) (Z.of_nat j) args) Q c') →
  wp (vprintk_loop fuel buf color fmt (Z.of_nat (length F)) (Z.of_nat i) (format_args segs ++ args)) Q c.
Proof.
  revert fuel i c d.
  induction segs as [|[[t flag] k] segs IH]; intros fuel i c d Hsegs HFi Hi Hinv Hfuel Hend.
  { by apply Hend. }
  destruct fuel as [|fuel]; [lia|].
  apply Forall_cons_1 in Hsegs as [(Hp & Hflag & Hk) Hsegs]. cbn [fst snd] in *.
  rewrite format_cons in HFi. set (rest' := concat _ ++ rest) in *.
  set (q := (i + length t)%nat).
  assert (HFq : drop q F = [37] ++ flag_chars flag ++ conv_chars k ++ rest')
    by (unfold q; rewrite <- drop_drop, HFi; apply drop_app_length).
  assert (Hlen : (q + 1 + length (flag_chars flag) + length (conv_chars k) + length rest' = length F)%nat).
  { apply (f_equal length) in HFi. rewrite !length_app, length_drop in HFi. simpl in HFi. unfold q. lia. }
  eapply vprintk_text_ok; [exact HFi|exact Hp|exact Hinv|]. intros c1 Hi1. fold q.
  replace (format_args ((t, flag, k) :: segs) ++ args) with (conv_args k ++ format_args segs ++ args)
    by (unfold format_args; cbn [fmap list_fmap concat]; by rewrite <- app_assoc).
  eapply wp_mono; [by apply (conversion_ok q flag k rest')|]. cbn beta. intros r c2 [-> Hi2]. cbn iota.
  rewrite Z.sub_add. eapply IH; [done| |lia|exact Hi2|lia|].
  - change (q + 1)%nat with (q + length [37%Z])%nat. rewrite <- !Nat.add_assoc, <- !length_app.
    rewrite <- drop_drop, HFq, !app_assoc. apply drop_app_length.
  - intros j fuel' c' HFj Hj Hf Hi'. apply Hend; [done..|].
    cbn [fmap list_fmap concat]. unfold segment_printed at 1. cbn [fst snd].
    by rewrite !foldl_app.
Qed.

(** A character that is no conversion. *)
Definition unknown (x : Z) : Prop := x ∉ [37; 100; 105; 117; 120; 88; 108; 99; 115].

Lemma conversion_unknown q flag x c d params :
  inv c d → flag_ok flag → unknown x → (flag = None → x ∉ [35; 45; 43; 32; 48]) →
  (q + length (flag_chars flag) < length F)%nat →
  (∀ f, flag = Some f → F !! S q = Some f) →
  (F ++ [0]) !! S (q + length (flag_chars flag)) = Some x →
  wp (conversion buf color fmt (Z.of_nat (length F)) (Z.of_nat q) params) (λ r c', r = None ∧ c' = c) c.
Proof.
  intros Hi Hflag Hx Hnof Hq Hf Hlx. unfold conversion. rewrite (proj2 (Z.eqb_neq _ _)) by lia.
  apply wp_bind. replace (Z.of_nat q + 1) with (Z.of_nat (S q)) by lia.
  set (y := match flag with Some f => f | None => x end).
  eapply (load_fmt _ y); [exact Hi| |].
  { subst y. destruct flag as [f|]; [by apply lookup_app_l_Some, Hf|].
    simpl in Hlx. by rewrite Nat.add_0_r in Hlx. }
  cbn zeta. assert ((if (y =? 35) || (y =? 45) || (y =? 43) || (y =? 32) || (y =? 48)
                     then Z.of_nat (S q) else Z.of_nat q) = Z.of_nat (q + length (flag_chars flag))) as ->.
  { subst y. destruct flag as [f|]; simpl in *.
    - set_unfold in Hflag.
      assert ((f =? 35) || (f =? 45) || (f =? 43) || (f =? 32) || (f =? 48) = true) as ->; lia.
    - specialize (Hnof eq_refl). set_unfold in Hnof.
      assert ((x =? 35) || (x =? 45) || (x =? 43) || (x =? 32) || (x =? 48) = false) as ->; lia. }
  rewrite (proj2 (Z.eqb_neq _ _)) by lia. unfold convert. apply wp_bind.
  replace (Z.of_nat (q + length (flag_chars flag)) + 1)
    with (Z.of_nat (S (q + length (flag_chars flag)))) by lia.
  eapply load_fmt; [exact Hi|exact Hlx|]. unfold unknown in Hx. set_unfold in Hx.
  repeat match goal with |- context [x =? ?n] => rewrite (proj2 (Z.eqb_neq x n)) by tauto end.
  by apply wp_ret.
Qed.

End Conversions.

(** ** What vprintk prints *)

(** vprintk prints what the code makes of every conversion. *)
Lemma vprintk_run c d buf fmt segs tail log_level :
  shows (term c) d → mapped (ram c) buf ARG_MAX_LEN → 0 <= buf → buf + ARG_MAX_LEN <= 2 ^ 32 →
  cstring (ram c) fmt (format segs tail) →
  off_buf buf fmt (Z.of_nat (length (format segs tail)) + 1) →
  Z.of_nat (length (format segs tail)) < 2 ^ 31 →
  Forall (segment_ok (ram c) buf) segs → plain tail →
  wp (vprintk buf log_level fmt (format_args segs))
     (λ r c', r = Z.of_nat (length (format segs tail)) ∧
        con_shows (height (term c)) (width (term c)) (blank (term c)) c'
          (foldl (feed (width (term c)) (blank (term c)) (log_level_to_vga_color log_level)) d
                 (format_printed segs tail)) ∧
        same_outside (ram c) (ram c') buf (buf + ARG_MAX_LEN)) c.
Proof.
  intros Hs Hm Hb0 Hb1 Hf Hoff Hlen Hsegs Hp. apply wp_bind, wp_zoom.
  eapply wp_mono; [by apply strlen_ok|]. cbn beta. intros ? ? [-> ->].
  set (color := log_level_to_vga_color log_level). set (F := format segs tail) in *.
  replace (mk_console (ram c) (term c)) with c by by destruct c.
  rewrite <- (app_nil_r (format_args segs)), Nat2Z.id. change 0 with (Z.of_nat 0).
  eapply (vprintk_loop_segs (ram c) buf (height (term c)) (width (term c)) (blank (term c)) color (conj Hb0 Hb1) fmt F
    Hf Hoff Hlen segs tail [] _ 0 c d); [done|done|lia|by split_and!|lia|].
  intros j fuel c' HFj Hj Hfuel Hi.
  eapply wp_mono; [eapply (vprintk_tail_ok (ram c) buf (height (term c)) (width (term c)) (blank (term c)) color fmt F
    Hf Hoff Hlen tail); [done|done|done|exact Hi|done]|].
  cbn beta. intros r c2 [-> (_ & Hs2 & Hc2)]. split_and!; [done| |done].
  by rewrite <- foldl_app in Hc2.
Qed.

Lemma conv_right hash k m buf : conv_ok m buf k → printed_right k → conv_printed hash k = conv_text hash k.
Proof.
  assert (Hdigit : ∀ v, is_u64 v → v < 10 → v ∈ [0; 1; 2; 3; 4; 5; 6; 7; 8; 9]).
  { intros v [Hv _] Hlt. assert (v = 0 ∨ v = 1 ∨ v = 2 ∨ v = 3 ∨ v = 4 ∨ v = 5 ∨ v = 6 ∨ v = 7 ∨ v = 8 ∨ v = 9) by lia.
    set_solver. }
  destruct k as [|i v|v|u v|i v|v|[] v|v|p l]; simpl; try done; intros Hk Hr.
  1-3: unfold itoa_text; destruct (Z.ltb_spec v 0); [by rewrite Z.abs_neq by lia|by rewrite Z.abs_eq by lia].
  - specialize (Hdigit v Hk Hr). repeat (apply elem_of_cons in Hdigit as [->|Hdigit]; [by vm_compute|]). by apply elem_of_nil in Hdigit.
  - f_equal. specialize (Hdigit v Hk Hr).
    repeat (apply elem_of_cons in Hdigit as [->|Hdigit]; [by vm_compute|]). by apply elem_of_nil in Hdigit.
Qed.

Lemma format_right segs tail m buf :
  Forall (segment_ok m buf) segs → Forall (λ s, printed_right s.2) segs → format_printed segs tail = format_text segs tail.
Proof.
  intros Hok Hr. unfold format_printed, format_text. f_equal. f_equal.
  induction Hok as [|s segs (_ & _ & Hk) _ IH]; [done|]. apply Forall_cons in Hr as [Hs Hr].
  rewrite !fmap_cons, IH by done. f_equal. unfold segment_printed, segment_text. by rewrite (conv_right _ _ m buf Hk Hs).
Qed.

(** C26: vprintk prints its format with every conversion replaced by the text of its
    argument, in the colour of the log level, returns the length of the format, and
    changes no memory but its own buffer; it does not fail.  The conversions are %%, %d, %i,
    %u, %x, %X, %lld, %lli, %llx, %c, %s, and, for values below 10, %llu and %llX, which
    print larger values wrongly ([printk_llu_reversed], [printk_llX_small]). *)
Theorem vprintk_prints c d buf fmt segs tail log_level :
  shows (term c) d → mapped (ram c) buf ARG_MAX_LEN → 0 <= buf → buf + ARG_MAX_LEN <= 2 ^ 32 →
  cstring (ram c) fmt (format segs tail) →
  off_buf buf fmt (Z.of_nat (length (format segs tail)) + 1) →
  Z.of_nat (length (format segs tail)) < 2 ^ 31 →
  Forall (segment_ok (ram c) buf) segs → Forall (λ s, printed_right s.2) segs → plain tail →
  wp (vprintk buf log_level fmt (format_args segs))
     (λ r c', r = Z.of_nat (length (format segs tail)) ∧
        con_shows (height (term c)) (width (term c)) (blank (term c)) c'
          (foldl (feed (width (term c)) (blank (term c)) (log_level_to_vga_color log_level)) d
                 (format_text segs tail)) ∧
        same_outside (ram c) (ram c') buf (buf + ARG_MAX_LEN)) c.
Proof.
  intros ? ? ? ? ? ? ? Hok Hr ?. rewrite <- (format_right segs tail _ _ Hok Hr). by apply vprintk_run.
Qed.

(** At a percent sign without a conversion character behind it (and its flag),
    vprintk returns -EINVAL, after printing everything before it. *)
Theorem vprintk_unknown_conversion c d buf fmt segs args t flag x rest log_level :
  let F := concat (segment_fmt <$> segs) ++ t ++ [37] ++ flag_chars flag ++ rest in
  shows (term c) d → mapped (ram c) buf ARG_MAX_LEN → 0 <= buf → buf + ARG_MAX_LEN <= 2 ^ 32 →
  cstring (ram c) fmt F → off_buf buf fmt (Z.of_nat (length F) + 1) → Z.of_nat (length F) < 2 ^ 31 →
  Forall (segment_ok (ram c) buf) segs → plain t → flag_ok flag →
  head (rest ++ [0]) = Some x → unknown x → (flag = None → x ∉ [35; 45; 43; 32; 48]) →
  wp (vprintk buf log_level fmt (format_args segs ++ args))
     (λ r c', r = - EINVAL ∧
        con_shows (height (term c)) (width (term c)) (blank (term c)) c'
          (foldl (feed (width (term c)) (blank (term c)) (log_level_to_vga_color log_level)) d
                 (concat (segment_printed <$> segs) ++ t))) c.
Proof.
  intros F Hs Hm Hb0 Hb1 Hf Hoff Hlen Hsegs Hp Hflag Hx Hun Hnof. apply wp_bind, wp_zoom.
  eapply wp_mono; [by apply strlen_ok|]. cbn beta. intros ? ? [-> ->].
  set (color := log_level_to_vga_color log_level).
  replace (mk_console (ram c) (term c)) with c by by destruct c.
  rewrite Nat2Z.id. change 0 with (Z.of_nat 0).
  eapply (vprintk_loop_segs (ram c) buf (height (term c)) (width (term c)) (blank (term c)) color (conj Hb0 Hb1) fmt F
    Hf Hoff Hlen segs _ args _ 0 c d); [done|done|lia|by split_and!|lia|].
  intros j fuel c' HFj Hj Hfuel Hi. destruct fuel as [|fuel]; [lia|].
  eapply (vprintk_text_ok (ram c) buf (height (term c)) (width (term c)) (blank (term c)) color fmt F
    Hf Hoff t _ _ _ _ c'); [done|done|exact Hi|].
  intros c1 Hi1. set (q := (j + length t)%nat).
  assert (HFq : drop q (F ++ [0]) = [37] ++ flag_chars flag ++ rest ++ [0]).
  { assert (Hj' : drop j (F ++ [0]) = t ++ [37] ++ flag_chars flag ++ rest ++ [0]).
    { rewrite drop_app_le, HFj by done. by rewrite <- !app_assoc. }
    unfold q. rewrite <- drop_drop, Hj'. apply drop_app_length. }
  assert (Hq : (q + 1 + length (flag_chars flag) + length rest = length F)%nat).
  { apply (f_equal length) in HFq. rewrite length_drop, !length_app in HFq. simpl in HFq. lia. }
  eapply wp_mono; [eapply (conversion_unknown (ram c) buf (height (term c)) (width (term c)) (blank (term c)) color (conj Hb0 Hb1) fmt F
    Hf Hoff q flag x c1); [exact Hi1|done|done|done|lia| |]|].
  - intros f ->. assert (E : (F ++ [0]) !! S q = Some f).
    { replace (S q) with (q + 1)%nat by lia. by rewrite <- lookup_drop, HFq. }
    simpl in Hq. rewrite lookup_app_l in E by lia. exact E.
  - replace (S (q + length (flag_chars flag))) with (q + S (length (flag_chars flag)))%nat by lia.
    rewrite <- lookup_drop, HFq. simpl. rewrite lookup_app_r, Nat.sub_diag by done.
    by rewrite <- head_lookup.
  - cbn beta. intros r c2 [-> ->]. destruct Hi1 as (_ & _ & Hc). split; [done|].
    by rewrite foldl_app.
Qed.

(** ** Witnesses *)

(** The bytes of a string. *)
Definition chars (s : string) : list Z :=
  (λ a, Z.of_N (Ascii.N_of_ascii a)) <$> String.list_ascii_of_string s.

(** A memory with [formatted_arg] at 0x1000, the format at 0x2000 and the string
    "init" at 0x3000, and a console of 4 rows of 20 cells. *)
Definition printk_mem (fmt : string) : mem :=
  mem_of 0x1000 (replicate 256 0) ∪ mem_of 0x2000 (chars fmt ++ [0]) ∪
  mem_of 0x3000 (chars "init" ++ [0]).
Definition tty0 : tty := mk_tty 0 0 0x97 0xC00B8000 4 20 (replicate 80 0x9720).
Definition con0 (fmt : string) : console := mk_console (printk_mem fmt) tty0.

Definition mappedb (m : mem) (p n : Z) : bool :=
  forallb (λ x, match m !! x with Some b => bool_decide (is_u8 b) | None => false end) (seqZ p n).

Lemma mappedb_ok m p n : mappedb m p n = true → mapped m p n.
Proof.
  unfold mappedb. rewrite forallb_forall. intros H x Hx.
  specialize (H x (proj1 (list_elem_of_In _ _) (proj2 (elem_of_seqZ p n x) Hx))).
  destruct (m !! x) as [b|]; [|done]. exists b. split; [done|]. by apply bool_decide_eq_true in H.
Qed.

Lemma tty0_shows : shows tty0 ([], []).
Proof.
  split_and!; [|vm_compute; lia|done].
  split_and!; [by vm_compute|split; [constructor|vm_compute; lia]|by vm_compute|done].
Qed.

(** The characters of the first [n] cells. *)
Definition screen_text (c : console) (n : nat) : list Z := u8 <$> take n (cells (term c)).

Definition fmt1 : string := "%s: pid=%d, %#X!".
Definition segs1 : list segment :=
  [([], None, CStr 0x3000 (chars "init")); (chars ": pid=", None, CInt false (-7));
   (chars ", ", Some 35, CHex true 0xBEEF)].

Lemma vprintk_prints_witness :
  format segs1 (chars "!") = chars fmt1 ∧
  wp (vprintk 0x1000 3 0x2000 (format_args segs1))
     (λ r c', r = 16 ∧ screen_text c' 22 = chars "init: pid=-7, 0xBEEF! ") (con0 fmt1).
Proof.
  split; [by vm_compute|].
  eapply wp_mono; [apply (vprintk_prints (con0 fmt1) ([], []) 0x1000 0x2000 segs1 (chars "!") 3)|].
  - exact tty0_shows.
  - by apply mappedb_ok.
  - done.
  - done.
  - split_and!; [by apply bytes_atb_ok|by repeat constructor|by vm_compute].
  - by right.
  - by vm_compute.
  - apply Forall_cons. split; [|apply Forall_cons; split; [|apply Forall_singleton]];
      (split_and!; [by repeat constructor|try done|]).
    + split; [split_and!; [by apply bytes_atb_ok|by repeat constructor|by vm_compute]|by right].
    + by vm_compute.
    + by left.
    + by vm_compute.
  - by repeat constructor.
  - by repeat constructor.
  - cbn beta. intros r c' (-> & (((_ & _ & Hc & _) & _) & Hh & Hw & Hb) & _). split; [by vm_compute|].
    unfold screen_text. rewrite Hc, Hh, Hw, Hb. vm_compute. reflexivity.
Defined.

Lemma vprintk_unknown_conversion_witness :
  wp (vprintk 0x1000 0 0x2000 (format_args [(chars "a", None, CUint 12)] ++ []))
     (λ r c', r = -1 ∧ screen_text c' 6 = chars "a12b  ") (con0 "a%ub%-q").
Proof.
  eapply wp_mono; [apply (vprintk_unknown_conversion (con0 "a%ub%-q") ([], []) 0x1000 0x2000
    [(chars "a", None, CUint 12)] [] (chars "b") (Some 45) 113 (chars "q") 0)|].
  - exact tty0_shows.
  - by apply mappedb_ok.
  - done.
  - done.
  - split_and!; [by apply bytes_atb_ok|by repeat constructor|by vm_compute].
  - by right.
  - by vm_compute.
  - apply Forall_singleton. split_and!; [by repeat constructor|done|by vm_compute].
  - by repeat constructor.
  - right. left.
  - done.
  - unfold unknown. set_solver by lia.
  - done.
  - cbn beta. intros r c' (-> & (((_ & _ & Hc & _) & _) & Hh & Hw & Hb)). split; [done|].
    unfold screen_text. rewrite Hc, Hh, Hw, Hb. vm_compute. reflexivity.
Defined.

(** ** Departures *)

(** %llu prints the digits in reverse order: 12 is printed as "21". *)
Theorem printk_llu_reversed :
  wp (printk_debug 0x1000 0x2000 (dword 12)) (λ r c', r = 4 ∧ screen_text c' 2 = chars "21")
     (con0 "%llu").
Proof. by vm_compute. Qed.

(** %llX prints small letters: the test for "X" reads the first "l". *)
Theorem printk_llX_small :
  wp (printk_debug 0x1000 0x2000 (dword 0xBEEF)) (λ r c', r = 4 ∧ screen_text c' 4 = chars "beef")
     (con0 "%llX").
Proof. by vm_compute. Qed.
