(* ===== verification/PortIo.v ===== *)
(** * Port input and output: arch/i386/portio.c

    The devices behind the ports are not part of the program.  A computation that
    talks to them carries the trace of what it did, and [device] gives the byte that
    a read returns after a trace; the theorems hold for every such function, or name
    what they ask of it.  Messages of printk are events of the trace as well; what
    a message puts on the screen is the subject of Printk. *)

From S2P Require Import Prelude Printk.

(** An argument of a message: a number or a string. *)
Inductive log_arg : Type := ANum (z : Z) | AStr (s : string).

Inductive event : Type :=
  | EIn (port v : Z)     (** inb(port) returned v *)
  | EOut (port v : Z)    (** outb(port, v) *)
  | EWait                (** io_wait: a write to the unused port 0x80 *)
  | ELog (level : printk_log_level) (fmt : string) (args : list log_arg).

Notation trace := (list event).

Definition emit (e : event) : M trace unit := modify (λ tr, tr ++ [e]).

Definition io_wait : M trace unit := emit EWait.

Definition inb (device : trace → Z → Z) (port : Z) : M trace Z :=
  v ← gets (λ tr, u8 (device tr port)); _ ← emit (EIn port v); mret v.

Definition outb (port value : Z) : M trace unit :=
  _ ← emit (EOut port (u8 value)); io_wait.

Definition log (level : printk_log_level) (fmt : string) (args : list log_arg) : M trace unit :=
  emit (ELog level fmt args).

Section Rules.
Context (device : trace → Z → Z).

Lemma inb_run port tr :
  inb device port tr = Ok (u8 (device tr port), tr ++ [EIn port (u8 (device tr port))]).
Proof. done. Qed.

Lemma outb_run port v tr : outb port v tr = Ok (tt, tr ++ [EOut port (u8 v); EWait]).
Proof. unfold outb, io_wait, emit, mbind, M_bind, modify. by rewrite <- app_assoc. Qed.

Lemma wp_inb port Q tr :
  Q (u8 (device tr port)) (tr ++ [EIn port (u8 (device tr port))]) → wp (inb device port) Q tr.
Proof. done. Qed.

Lemma wp_outb port v Q tr : Q tt (tr ++ [EOut port (u8 v); EWait]) → wp (outb port v) Q tr.
Proof. unfold wp. by rewrite outb_run. Qed.

Lemma wp_log level fmt args Q tr : Q tt (tr ++ [ELog level fmt args]) → wp (log level fmt args) Q tr.
Proof. done. Qed.

End Rules.
