(* ===== verification/MemoryMap.v ===== *)
(** * The memory map of the boot information: pmm_init and multiboot_print_info

    The entries of the memory map tag as a list; with it, the pages that are in use
    after pmm_init (pmm.c), and what the printing functions of multiboot2.c log. *)

From S2P Require Import Prelude PageArith Kmalloc Mem Multiboot Pmm Printk PortIo.

(** ** multiboot_print_memory_map, multiboot_print_framebuffer_info, multiboot_print_info *)

(** The boot information and the log. *)
Definition info_log : Type := mem * trace.
Definition on_info {A} : M mem A → M info_log A := zoom fst (λ m s, (m, s.2)).
Definition say (fmt : string) (args : list log_arg) : M info_log unit :=
  zoom snd (λ tr s, (s.1, tr)) (log PRINTK_DEBUG fmt args).

(** What is printed for the type of an entry. *)
Definition say_type (type : Z) : M info_log unit :=
  if type =? MULTIBOOT_MEMORY_AVAILABLE then say "available\n" []
  else if type =? MULTIBOOT_MEMORY_RESERVED then say "reserved\n" []
  else if type =? MULTIBOOT_MEMORY_ACPI_RECLAIMABLE then say "ACPI reclaimable\n" []
  else if type =? MULTIBOOT_MEMORY_NVS then say "NVS\n" []
  else if type =? MULTIBOOT_MEMORY_BADRAM then say "bad RAM\n" []
  else mret tt.

Fixpoint print_memory_map_loop (fuel : nat) (tag mmap : Z) : M info_log unit :=
  match fuel with
  | O => throw EFuel
  | S fuel =>
      size ← on_info (tag_size tag);
      if mmap <? u32 (tag + size) then
        addr ← on_info (mmap_addr mmap);
        len ← on_info (mmap_len mmap);
        _ ← say "    address: %#llx | length: %llu | type: " [ANum addr; ANum len];
        type ← on_info (mmap_type mmap);
        _ ← say_type type;
        entry_size ← on_info (mmap_entry_size tag);
        print_memory_map_loop fuel tag (u32 (mmap + entry_size))
      else mret tt
  end.

Definition multiboot_print_memory_map (tag mmap : Z) : M info_log unit :=
  _ ← say "Memory map:\n" [];
  s ← get;
  print_memory_map_loop (walk_fuel s.1) tag mmap.

Definition multiboot_print_framebuffer_info (tag : Z) : M info_log unit :=
  addr ← on_info (framebuffer_addr tag);
  size ← on_info (tag_size tag);
  w ← on_info (framebuffer_width tag);
  h ← on_info (framebuffer_height tag);
  say "Framebuffer: addr=%#llx size=%u width=%u height=%u\n" [ANum addr; ANum size; ANum w; ANum h].

Fixpoint print_info_loop (fuel : nat) (tag : Z) : M info_log unit :=
  match fuel with
  | O => throw EFuel
  | S fuel =>
      type ← on_info (tag_type tag);
      if type =? MULTIBOOT_TAG_TYPE_END then mret tt
      else
        _ ← (if type =? MULTIBOOT_TAG_TYPE_MMAP then multiboot_print_memory_map tag (mmap_entries tag)
             else if type =? MULTIBOOT_TAG_TYPE_FRAMEBUFFER then multiboot_print_framebuffer_info tag
             else mret tt);
        tag ← on_info (advance_tag tag);
        print_info_loop fuel tag
  end.

Definition multiboot_print_info (multiboot_info : Z) : M info_log unit :=
  s ← get; print_info_loop (walk_fuel s.1) (u32 (multiboot_info + 8)).

(** ** The entries of a memory map *)

Record mmap_entry : Type := mk_mmap_entry { me_addr : Z; me_len : Z; me_type : Z }.

(** From [p] there are the entries [l], each of [esz] bytes. *)
Fixpoint entries_at (m : mem) (esz p : Z) (l : list mmap_entry) : Prop :=
  match l with
  | [] => True
  | e :: l =>
      mmap_addr p m = Ok (me_addr e, m) ∧ mmap_len p m = Ok (me_len e, m) ∧
      mmap_type p m = Ok (me_type e, m) ∧ entries_at m esz (p + esz) l
  end.

(** The tag of a memory map is at [tag]; its entries fill it. *)
Record map_at (m : mem) (tag esz : Z) (l : list mmap_entry) : Prop := {
  ma_size : tag_size tag m = Ok (16 + esz * Z.of_nat (length l), m);
  ma_esize : mmap_entry_size tag m = Ok (esz, m);
  ma_pos : 0 < esz;
  ma_range : 0 <= tag ∧ tag + 16 + esz * Z.of_nat (length l) + esz <= 2 ^ 32;
  ma_entries : entries_at m esz (tag + 16) l
}.

Definition unavailable (e : mmap_entry) : bool :=
  (me_type e =? MULTIBOOT_MEMORY_RESERVED) || (me_type e =? MULTIBOOT_MEMORY_ACPI_RECLAIMABLE)
  || (me_type e =? MULTIBOOT_MEMORY_NVS) || (me_type e =? MULTIBOOT_MEMORY_BADRAM).

Definition entry_end (e : mmap_entry) : Z := u32 (u64 (me_addr e + me_len e)).

(** The pages that pmm_mark_range_used marks: it steps by a page from the start. *)
Definition marks (start_addr end_addr j : Z) : bool :=
  bool_decide (start_addr / PAGE_SIZE <= j ∧ start_addr + (j - start_addr / PAGE_SIZE) * PAGE_SIZE < end_addr).

Section Entries.
Context (m : mem) (esz : Z).

Lemma entries_lookup p l i e :
  entries_at m esz p l → l !! i = Some e → mmap_addr (p + esz * Z.of_nat i) m = Ok (me_addr e, m).
Proof.
  revert p i. induction l as [|e' l IH]; intros p i Hl Hi; [done|]. destruct Hl as (Ha & _ & _ & Hl).
  destruct i as [|i]; [injection Hi as ->; by rewrite Z.mul_0_r, Z.add_0_r|].
  rewrite <- (IH _ i Hl Hi). f_equal. lia.
Qed.

(** There are not more entries than mapped bytes. *)
Lemma entries_length p l :
  entries_at m esz p l → 0 < esz → 0 <= p → p + esz * Z.of_nat (length l) <= 2 ^ 32 → (length l <= size m)%nat.
Proof.
  intros Hl Hesz Hp Hend. rewrite <- (size_dom m), <- (length_seq (length l) 0), <- (length_fmap (λ i, p + esz * Z.of_nat i)).
  rewrite <- (size_list_to_set (C := gset Z)).
  2:{ apply NoDup_fmap_2; [intros i j E; nia|apply NoDup_seq]. }
  apply subseteq_size. intros x Hx%elem_of_list_to_set.
  apply list_elem_of_fmap in Hx as (i & -> & Hi%elem_of_seq).
  destruct (lookup_lt_is_Some_2 l i) as [e He]; [lia|]. apply elem_of_dom.
  pose proof (entries_lookup _ _ _ _ Hl He) as Ha. unfold mmap_addr, load64, mbind, M_bind in Ha.
  destruct (load32 (p + esz * Z.of_nat i) m) as [[v m']|] eqn:E; [|done].
  assert (Hm : is_Some (m !! u32 (p + esz * Z.of_nat i))).
  { unfold load32, load16, load8, mem_bytes, mem_load8, mbind, M_bind in E. destruct (m !! u32 _); [eauto|done]. }
  rewrite u32_small in Hm; [done|]. unfold is_u32. nia.
Qed.

End Entries.

Section Marking.
Implicit Types (m : mem) (b : bitmap).

Lemma fuel_pos : ∃ n, range_fuel = S n.
Proof. exists (Nat.pred range_fuel). unfold range_fuel. lia. Qed.

Lemma mark_range_ok start_addr end_addr b :
  0 <= start_addr → end_addr <= 2 ^ 32 - PAGE_SIZE → bitmap_ok b →
  wp (pmm_mark_range_used start_addr end_addr)
     (λ _ b', bitmap_ok b' ∧ ∀ j, page_used b' j = marks start_addr end_addr j || page_used b j) b.
Proof.
  intros Hs He Hok. destruct (decide (start_addr <= end_addr + PAGE_SIZE)) as [Hle|Hgt].
  - apply (mark_range_loop_ok range_fuel); [done..| |]; unfold range_fuel; page_unfold; [rewrite Z2Nat.id|]; lia.
  - rewrite PAGE_SIZE_val in *. unfold pmm_mark_range_used.
    destruct fuel_pos as [n ->].
    cbn [mark_range_loop]. rewrite (proj2 (Z.ltb_ge _ _)) by lia. apply wp_ret. split; [done|]. intros j.
    unfold marks. rewrite bool_decide_eq_false_2; [done|]. rewrite PAGE_SIZE_val. lia.
Qed.

(** A range that ends at 4 GB is not marked: its end is 0 in 32 bits. *)
Lemma marks_wrapped e j : is_u32 (me_addr e) → me_addr e + me_len e = 2 ^ 32 → marks (me_addr e) (entry_end e) j = false.
Proof.
  intros He E. unfold entry_end, marks. rewrite E. apply bool_decide_eq_false_2. change (u32 (u64 (2 ^ 32))) with 0.
  rewrite PAGE_SIZE_val. unfold is_u32 in He. intros [? ?]. Z.div_mod_to_equations. lia.
Qed.

Lemma wp_on_mem {A} (c : M mem A) v Q m b : c m = Ok (v, m) → Q v (m, b) → wp (on_mem c) Q (m, b).
Proof. intros E HQ. unfold wp, on_mem, zoom. simpl. by rewrite E. Qed.

Lemma wp_on_bitmap {A} (c : M bitmap A) Q m b : wp c (λ a b', Q a (m, b')) b → wp (on_bitmap c) Q (m, b).
Proof. intros W. by apply wp_zoom. Qed.

(** The pages of the unavailable entries. *)
Definition map_marks (l : list mmap_entry) (j : Z) : bool :=
  existsb (λ e, unavailable e && marks (u32 (me_addr e)) (entry_end e) j) l.

Definition entry_ok (e : mmap_entry) : Prop := unavailable e = true → entry_end e <= 2 ^ 32 - PAGE_SIZE.

Lemma mark_mmap_ok m tag esz es l p fuel b :
  map_at m tag esz es → entries_at m esz p l → tag + 16 <= p →
  p + esz * Z.of_nat (length l) = tag + 16 + esz * Z.of_nat (length es) → Forall entry_ok l →
  (length l < fuel)%nat → bitmap_ok b →
  wp (mark_mmap fuel tag p)
     (λ _ s', s'.1 = m ∧ bitmap_ok s'.2 ∧ ∀ j, page_used s'.2 j = map_marks l j || page_used b j) (m, b).
Proof.
  intros [Hsz Hesz Hpos [Hlo Hhi] _]. revert fuel p b. induction l as [|e l IH]; intros fuel p b Hl Hp Hend Hok Hf Hb;
    (destruct fuel as [|fuel]; [simpl in Hf; lia|]); cbn [mark_mmap length] in *;
    apply wp_bind; (eapply wp_on_mem; [exact Hsz|]); rewrite u32_small by (unfold is_u32; lia).
  - rewrite (proj2 (Z.ltb_ge _ _)) by lia. by apply wp_ret.
  - rewrite (proj2 (Z.ltb_lt _ _)) by nia. destruct Hl as (Ha & Hlen & Hty & Hl).
    inversion_clear Hok as [|? ? He Hok']. apply wp_bind. eapply wp_on_mem; [exact Hty|]. apply wp_bind.
    fold (unavailable e). eapply (wp_mono _ (λ _ s', s'.1 = m ∧ bitmap_ok s'.2 ∧ ∀ j,
      page_used s'.2 j = (unavailable e && marks (u32 (me_addr e)) (entry_end e) j) || page_used b j)).
    + destruct (unavailable e) eqn:Eu; [|by apply wp_ret]. apply wp_bind. eapply wp_on_mem; [exact Ha|].
      apply wp_bind. eapply wp_on_mem; [exact Hlen|]. apply wp_on_bitmap. eapply wp_mono.
      { apply mark_range_ok; [apply u32_range|by apply He|done]. }
      cbn beta. intros _ b' [? ?]. by split_and!.
    + cbn beta. intros _ [m' b1] (Em & Hb1 & Hu1). cbn [fst snd] in *. subst m'. apply wp_bind.
      eapply wp_on_mem; [exact Hesz|]. rewrite u32_small by (unfold is_u32; nia). eapply wp_mono.
      { apply (IH fuel (p + esz) b1 Hl); [lia|lia|done|lia|done]. }
      cbn beta. intros _ s' (? & ? & Hu). split_and!; [done..|]. intros j. rewrite Hu, Hu1. cbn [map_marks existsb].
      fold (map_marks l j). destruct (map_marks l j); simpl; [by rewrite !orb_true_r|by rewrite orb_false_r].
Qed.

End Marking.

(** ** pmm_init *)

Section Init.
Context (mi : kernel_meminfo) (m : mem) (info : Z) (l : list (Z * Z)).
Context (Htags : tags_at m (u32 (info + 8)) l).

(** The first tag of the type [ty]. *)
Definition first_tag (ty : Z) : option Z := head (fst <$> filter (λ t, t.2 = ty) (tag_list (u32 (info + 8)) l)).

Lemma find_mmap_ok fuel p l' :
  tags_at m p l' → (length l' < fuel)%nat →
  find_mmap fuel p m =
  Ok (default (tags_end p l') (head (fst <$> filter (λ t, t.2 = MULTIBOOT_TAG_TYPE_MMAP) (tag_list p l'))), m).
Proof.
  revert p l'. induction fuel as [|fuel IH]; intros p l' Hl Hf; [lia|]. cbn [find_mmap].
  destruct l' as [|[ty sz] l']; cbn [tags_at] in Hl; [by rewrite (bind_ok _ _ _ _ _ Hl)|].
  destruct Hl as (Hty & Hne & Hsz & _ & _ & _ & Hl). rewrite (bind_ok _ _ _ _ _ Hty).
  rewrite (proj2 (Z.eqb_neq ty _)) by done. cbn [tag_list tags_end andb negb].
  destruct (Z.eqb_spec ty MULTIBOOT_TAG_TYPE_MMAP) as [->|Hmap]; cbn [negb].
  - by rewrite filter_cons_True.
  - rewrite filter_cons_False by done. rewrite (bind_ok _ _ _ (u32 (p + tag_step sz)) m).
    + apply IH; [done|]. simpl in Hf. lia.
    + unfold advance_tag. by rewrite (bind_ok _ _ _ _ _ Hsz).
Qed.

Lemma tags_end_type p l' : tags_at m p l' → tag_type (tags_end p l') m = Ok (MULTIBOOT_TAG_TYPE_END, m).
Proof.
  revert p. induction l' as [|[ty sz] l' IH]; intros p Hl; [done|].
  destruct Hl as (_ & _ & _ & _ & _ & _ & Hl). by apply IH.
Qed.

Lemma tag_list_type p l' q ty : tags_at m p l' → (q, ty) ∈ tag_list p l' → tag_type q m = Ok (ty, m).
Proof.
  revert p. induction l' as [|[ty' sz] l' IH]; intros p Hl; cbn [tag_list]; [by intros ?%elem_of_nil|].
  destruct Hl as (Hty & _ & _ & _ & _ & _ & Hl). intros [[= -> ->]|Hq]%elem_of_cons; [done|by eapply IH].
Qed.

Lemma first_tag_type ty q : first_tag ty = Some q → tag_type q m = Ok (ty, m).
Proof.
  intros Hq. apply head_Some_elem_of, list_elem_of_fmap in Hq as ([q' ty'] & -> & [E Hin]%list_elem_of_filter).
  simpl in E. subst ty'. by eapply tag_list_type.
Qed.

(** The range of the frame buffer, as pmm_init computes it. *)
Definition fb_marks (a w h j : Z) : bool :=
  marks (u32 a) (u32 (u64 (a + u32 (u32 (w * h) * 2) - 1))) j.

Definition heap_marks (j : Z) : bool :=
  marks KERNEL_HEAP_PHYS_START (u32 (KERNEL_HEAP_PHYS_START + KERNEL_HEAP_SIZE - 1)) j.

(** After pmm_init the pages in use are those that were, those of the kernel image
    and of the heap, those of the entries of the memory map that are not available (from
    their start, page by page, up to their end in 32 bits), and those of the frame
    buffer; no others. *)
Theorem pmm_init_reserves tag esz es fb a w h b :
  first_tag MULTIBOOT_TAG_TYPE_MMAP = Some tag → map_at m tag esz es → Forall entry_ok es →
  first_tag MULTIBOOT_TAG_TYPE_FRAMEBUFFER = Some fb →
  framebuffer_addr fb m = Ok (a, m) → framebuffer_width fb m = Ok (w, m) → framebuffer_height fb m = Ok (h, m) →
  u32 (u64 (a + u32 (u32 (w * h) * 2) - 1)) <= 2 ^ 32 - PAGE_SIZE →
  0 <= physical_start mi → physical_end mi <= 2 ^ 32 - PAGE_SIZE → bitmap_ok b →
  wp (pmm_init mi info)
     (λ _ s', s'.1 = m ∧ bitmap_ok s'.2 ∧ ∀ j,
        page_used s'.2 j = marks (physical_start mi) (physical_end mi) j || heap_marks j || map_marks es j
                           || fb_marks a w h j || page_used b j) (m, b).
Proof.
  intros Htag Hmap Hes Hfb Ha Hw Hh Hfbend Hs He Hb. unfold pmm_init. cbn zeta.
  pose proof (tags_at_fuel _ _ _ Htags (proj1 (u32_range _))) as Hfuel.
  apply wp_bind, wp_on_bitmap. eapply wp_mono; [by apply mark_range_ok|]. cbn beta. intros _ b1 [Hb1 U1].
  apply wp_bind, wp_on_bitmap. eapply wp_mono; [apply mark_range_ok; [by vm_compute..|done]|]. cbn beta. intros _ b2 [Hb2 U2].
  apply wp_bind, wp_get, wp_bind. cbn [fst].
  eapply wp_on_mem; [by apply (find_mmap_ok _ _ l)|]. fold (first_tag MULTIBOOT_TAG_TYPE_MMAP). rewrite Htag. cbn [default id].
  apply wp_bind. eapply wp_on_mem; [by apply first_tag_type|]. apply wp_bind, wp_assert; [done|].
  apply wp_bind. pose proof Hmap as [_ _ Hpos [Hlo Hhi] Hents]. unfold mmap_entries. rewrite (u32_small (tag + 16)) by (unfold is_u32; nia).
  eapply wp_mono.
  { apply (mark_mmap_ok m tag esz es es (tag + 16) (walk_fuel m) b2 Hmap Hents); [lia|lia|done| |done].
    unfold walk_fuel. pose proof (entries_length m esz _ es Hents Hpos ltac:(lia) ltac:(lia)). lia. }
  cbn beta. intros _ [m' b3] (Em & Hb3 & U3). cbn [fst snd] in *. subst m'.
  apply wp_bind. eapply wp_on_mem; [by apply (framebuffer_info_first m info l)|].
  fold (first_tag MULTIBOOT_TAG_TYPE_FRAMEBUFFER). rewrite Hfb. cbn [default id].
  apply wp_bind. eapply wp_on_mem; [exact Hw|]. apply wp_bind. eapply wp_on_mem; [exact Hh|].
  apply wp_bind. eapply wp_on_mem; [exact Ha|]. apply wp_on_bitmap. eapply wp_mono.
  { apply mark_range_ok; [apply u32_range|exact Hfbend|done]. }
  cbn beta. intros _ b4 [Hb4 U4]. split_and!; [done..|]. intros j. cbn [snd].
  rewrite U4, U3, U2, U1. unfold fb_marks, heap_marks, map_marks.
  repeat match goal with |- context [page_used b j] => destruct (page_used b j) | |- context [marks ?x ?y j] =>
    lazymatch x with u32 (me_addr _) => fail | _ => destruct (marks x y j) end end;
    rewrite ?orb_true_r, ?orb_false_r; try done.
Qed.

(** Without a memory map among the tags the kernel does not go on: pmm_init panics. *)
Theorem pmm_init_needs_map b :
  first_tag MULTIBOOT_TAG_TYPE_MMAP = None → 0 <= physical_start mi → physical_end mi <= 2 ^ 32 - PAGE_SIZE →
  bitmap_ok b → pmm_init mi info (m, b) = Err (EPanic "failed to read memory map").
Proof.
  intros Htag Hs He Hb. unfold pmm_init. cbn zeta. pose proof (tags_at_fuel _ _ _ Htags (proj1 (u32_range _))) as Hfuel.
  assert (Hstep : ∀ {A} lo hi (f : unit → M boot_state A) b0 e, 0 <= lo → hi <= 2 ^ 32 - PAGE_SIZE → bitmap_ok b0 →
    (∀ b1, bitmap_ok b1 → f tt (m, b1) = Err e) → (on_bitmap (pmm_mark_range_used lo hi) ≫= f) (m, b0) = Err e).
  { intros A lo hi f b0 e Hlo Hhi Hb0 Hf.
    apply (wp_fails _ _ (λ _ s1, s1.1 = m ∧ bitmap_ok s1.2)).
    - apply wp_on_bitmap. eapply wp_mono; [by apply mark_range_ok|]. by cbn beta; intros _ b1 [? _].
    - intros [] [m1 b1] [Em Hb1]. cbn [fst snd] in Em, Hb1. subst m1. by apply Hf. }
  apply Hstep; [done..|]. intros b1 Hb1. apply Hstep; [by vm_compute..|done|]. intros b2 _.
  rewrite (bind_ok _ _ _ (m, b2) (m, b2)) by done. cbn [fst].
  apply (wp_fails _ _ (λ tag s, s.1 = m ∧ tag_type tag m = Ok (MULTIBOOT_TAG_TYPE_END, m))).
  { eapply wp_on_mem; [by apply (find_mmap_ok _ _ l)|]. fold (first_tag MULTIBOOT_TAG_TYPE_MMAP). rewrite Htag. cbn [default id].
    split; [done|by apply tags_end_type]. }
  intros tag [m' b3] [Em Hty]. cbn [fst] in Em. subst m'.
  apply (wp_fails _ _ (λ ty _, ty = MULTIBOOT_TAG_TYPE_END)); [by eapply wp_on_mem|]. by intros ty s ->.
Qed.

End Init.

(** ** The printing functions *)

Section Print.
Context (m : mem).

Definition debug (fmt : string) (args : list log_arg) : event := ELog PRINTK_DEBUG fmt args.

(** What is logged for an entry; nothing for its type when it is not one of the five. *)
Definition type_events (type : Z) : list event :=
  match type with
  | 1 => [debug "available\n" []]
  | 2 => [debug "reserved\n" []]
  | 3 => [debug "ACPI reclaimable\n" []]
  | 4 => [debug "NVS\n" []]
  | 5 => [debug "bad RAM\n" []]
  | _ => []
  end.

Definition entry_events (e : mmap_entry) : list event :=
  debug "    address: %#llx | length: %llu | type: " [ANum (me_addr e); ANum (me_len e)] :: type_events (me_type e).

Lemma wp_on_info {A} (c : M mem A) v Q tr : c m = Ok (v, m) → Q v (m, tr) → wp (on_info c) Q (m, tr).
Proof. intros E HQ. unfold wp, on_info, zoom. simpl. by rewrite E. Qed.

Lemma wp_say fmt args Q tr : Q tt (m, tr ++ [debug fmt args]) → wp (say fmt args) Q (m, tr).
Proof. done. Qed.

Lemma wp_say_type type Q tr : Q tt (m, tr ++ type_events type) → wp (say_type type) Q (m, tr).
Proof.
  intros HQ. unfold say_type, MULTIBOOT_MEMORY_AVAILABLE, MULTIBOOT_MEMORY_RESERVED, MULTIBOOT_MEMORY_ACPI_RECLAIMABLE,
    MULTIBOOT_MEMORY_NVS, MULTIBOOT_MEMORY_BADRAM.
  destruct (Z.eqb_spec type 1) as [->|]; [by apply wp_say|]. destruct (Z.eqb_spec type 2) as [->|]; [by apply wp_say|].
  destruct (Z.eqb_spec type 3) as [->|]; [by apply wp_say|]. destruct (Z.eqb_spec type 4) as [->|]; [by apply wp_say|].
  destruct (Z.eqb_spec type 5) as [->|]; [by apply wp_say|]. apply wp_ret.
  replace (type_events type) with (@nil event) in HQ; [by rewrite app_nil_r in HQ|].
  unfold type_events. destruct type as [|[[[]|[]|]|[[]|[]|]|]|]; done.
Qed.

Lemma print_memory_map_loop_ok tag esz es l p fuel tr :
  map_at m tag esz es → entries_at m esz p l → tag + 16 <= p →
  p + esz * Z.of_nat (length l) = tag + 16 + esz * Z.of_nat (length es) → (length l < fuel)%nat →
  wp (print_memory_map_loop fuel tag p) (λ _ s', s' = (m, tr ++ concat (entry_events <$> l))) (m, tr).
Proof.
  intros [Hsz Hesz Hpos [Hlo Hhi] _]. revert fuel p tr. induction l as [|e l IH]; intros fuel p tr Hl Hp Hend Hf;
    (destruct fuel as [|fuel]; [simpl in Hf; lia|]); cbn [print_memory_map_loop length] in *;
    apply wp_bind; (eapply wp_on_info; [exact Hsz|]); rewrite u32_small by (unfold is_u32; lia).
  - rewrite (proj2 (Z.ltb_ge _ _)) by lia. apply wp_ret. by rewrite app_nil_r.
  - rewrite (proj2 (Z.ltb_lt _ _)) by nia. destruct Hl as (Ha & Hlen & Hty & Hl).
    apply wp_bind. eapply wp_on_info; [exact Ha|]. apply wp_bind. eapply wp_on_info; [exact Hlen|].
    apply wp_bind, wp_say, wp_bind. eapply wp_on_info; [exact Hty|]. apply wp_bind, wp_say_type, wp_bind.
    eapply wp_on_info; [exact Hesz|]. rewrite u32_small by (unfold is_u32; nia). eapply wp_mono.
    { apply (IH fuel (p + esz)); [done|lia|lia|lia]. }
    cbn beta. intros _ s' ->. f_equal. rewrite fmap_cons. cbn [concat]. unfold entry_events. by rewrite <- !app_assoc.
Qed.

(** multiboot_print_memory_map logs every entry of the map, in order. *)
Theorem print_memory_map_logs tag esz es tr :
  map_at m tag esz es →
  wp (multiboot_print_memory_map tag (mmap_entries tag))
     (λ _ s', s' = (m, tr ++ debug "Memory map:\n" [] :: concat (entry_events <$> es))) (m, tr).
Proof.
  intros Hmap. pose proof Hmap as [_ _ Hpos [Hlo Hhi] Hents]. unfold multiboot_print_memory_map, mmap_entries.
  rewrite u32_small by (unfold is_u32; nia). apply wp_bind, wp_say, wp_bind, wp_get. eapply wp_mono.
  { apply (print_memory_map_loop_ok tag esz es es (tag + 16)); [done|done|lia|lia|]. unfold walk_fuel. cbn [fst].
    pose proof (entries_length m esz _ es Hents Hpos ltac:(lia) ltac:(lia)). lia. }
  cbn beta. intros _ s' ->. by rewrite <- app_assoc.
Qed.

(** The tag at [q] can be printed. *)
Definition readable (q ty : Z) : Prop :=
  (ty = MULTIBOOT_TAG_TYPE_MMAP → ∃ esz es, map_at m q esz es) ∧
  (ty = MULTIBOOT_TAG_TYPE_FRAMEBUFFER → ∃ a sz w h, framebuffer_addr q m = Ok (a, m) ∧ tag_size q m = Ok (sz, m) ∧
     framebuffer_width q m = Ok (w, m) ∧ framebuffer_height q m = Ok (h, m)).

Lemma print_info_loop_ok fuel p l tr :
  tags_at m p l → (∀ q ty, (q, ty) ∈ tag_list p l → readable q ty) → (length l < fuel)%nat →
  wp (print_info_loop fuel p) (λ _ s', s'.1 = m ∧ ∃ evs, s'.2 = tr ++ evs) (m, tr).
Proof.
  revert p l tr. induction fuel as [|fuel IH]; intros p l tr Hl Hread Hf; [lia|]. cbn [print_info_loop].
  destruct l as [|[ty sz] l]; cbn [tags_at] in Hl.
  { apply wp_bind. eapply wp_on_info; [exact Hl|]. apply wp_ret. split; [done|]. exists []. by rewrite app_nil_r. }
  destruct Hl as (Hty & Hne & Hsz & _ & _ & _ & Hl). cbn [tag_list] in Hread.
  destruct (Hread p ty ltac:(by left)) as [Hm Hfb].
  apply wp_bind. eapply wp_on_info; [exact Hty|]. rewrite (proj2 (Z.eqb_neq ty _)) by done.
  apply wp_bind. eapply (wp_mono _ (λ _ s', s'.1 = m ∧ ∃ evs, s'.2 = tr ++ evs)).
  - destruct (Z.eqb_spec ty MULTIBOOT_TAG_TYPE_MMAP) as [->|_].
    + destruct (Hm eq_refl) as (esz & es & Hmap). eapply wp_mono; [by apply (print_memory_map_logs p esz es)|].
      cbn beta. intros _ s' ->. split; [done|]. by eexists.
    + destruct (Z.eqb_spec ty MULTIBOOT_TAG_TYPE_FRAMEBUFFER) as [->|_].
      * destruct (Hfb eq_refl) as (a & sz' & w & h & Ha & Hs & Hw & Hh). unfold multiboot_print_framebuffer_info.
        apply wp_bind. eapply wp_on_info; [exact Ha|]. apply wp_bind. eapply wp_on_info; [exact Hs|].
        apply wp_bind. eapply wp_on_info; [exact Hw|]. apply wp_bind. eapply wp_on_info; [exact Hh|].
        apply wp_say. split; [done|]. by eexists.
      * apply wp_ret. split; [done|]. exists []. by rewrite app_nil_r.
  - cbn beta. intros _ [m' tr1] [Em [evs Et]]. cbn [fst snd] in Em, Et. subst m' tr1.
    apply wp_bind. eapply wp_on_info.
    { unfold advance_tag. by rewrite (bind_ok _ _ _ _ _ Hsz). }
    eapply wp_mono; [apply (IH _ l); [done| |simpl in Hf; lia]|].
    + intros q ty' Hq. apply Hread. by right.
    + cbn beta. intros _ s' [? [evs2 ->]]. split; [done|]. exists (evs ++ evs2). by rewrite app_assoc.
Qed.

End Print.

(** ** Witnesses *)

Definition le64 (v : Z) : list Z := le32 (v mod 2 ^ 32) ++ le32 (v / 2 ^ 32).

(** A memory map of low memory, the area of the BIOS behind it, and the 256 KB at the
    end of the address space, which are reserved; and a frame buffer of 80 by 25. *)
Definition entries0 : list mmap_entry :=
  [mk_mmap_entry 0 0x9FC00 1; mk_mmap_entry 0x9FC00 0x400 2; mk_mmap_entry 0xFFFC0000 0x40000 2].
Definition map_info : list Z :=
  le32 136 ++ le32 0 ++
  le32 MULTIBOOT_TAG_TYPE_MMAP ++ le32 88 ++ le32 24 ++ le32 0 ++
    concat ((λ e, le64 (me_addr e) ++ le64 (me_len e) ++ le32 (me_type e) ++ le32 0) <$> entries0) ++
  le32 MULTIBOOT_TAG_TYPE_FRAMEBUFFER ++ le32 32 ++ le32 0xB8000 ++ le32 0 ++ le32 160 ++ le32 80 ++
    le32 25 ++ le32 0 ++
  le32 MULTIBOOT_TAG_TYPE_END ++ le32 8.
Definition map_mem : mem := boot_mem_from 0x10000 map_info.
Definition map_tags : list (Z * Z) := [(6, 88); (8, 32)].

Lemma map_tags_ok : tags_at map_mem (u32 (0x10000 + 8)) map_tags.
Proof.
  cbn [tags_at map_tags]. unfold tag_type, tag_size.
  split_and!; first [done | apply load32_value; vm_compute; reflexivity | vm_compute; congruence].
Qed.

Lemma load64_value p m lo hi v :
  value (load32 p m) = Some lo → value (load32 (p + 4) m) = Some hi → v = lo + 2 ^ 32 * hi → load64 p m = Ok (v, m).
Proof.
  intros Hlo%load32_value Hhi%load32_value ->. unfold load64. by rewrite (bind_ok _ _ _ _ _ Hlo), (bind_ok _ _ _ _ _ Hhi).
Qed.

Ltac read_tag := first [apply load32_value; vm_compute; reflexivity | eapply load64_value; vm_compute; reflexivity].

Lemma map0_at : map_at map_mem 0x10008 24 entries0.
Proof.
  split; [apply load32_value; by vm_compute..|done|split; by vm_compute|].
  cbn [entries_at entries0]. unfold mmap_addr, mmap_len, mmap_type. split_and!; first [done|read_tag].
Qed.

Lemma entries0_ok : Forall entry_ok entries0.
Proof.
  apply Forall_cons_2; [by intros|]. apply Forall_cons_2; [intros _; by vm_compute|].
  apply Forall_cons_2; [intros _; by vm_compute|]. by apply Forall_nil_2.
Qed.

Lemma empty_ok : bitmap_ok ∅.
Proof. intros i. unfold bitmap_byte. rewrite lookup_empty. by vm_compute. Qed.

(** The area of the BIOS is in use, page 0 and the end of the address space are not. *)
Lemma pmm_init_reserves_witness :
  wp (pmm_init meminfo0 0x10000)
     (λ _ s', page_used s'.2 0x9F = true ∧ page_used s'.2 0 = false ∧ page_used s'.2 0xFFFC0 = false) (map_mem, ∅).
Proof.
  eapply wp_mono.
  - refine (pmm_init_reserves meminfo0 map_mem 0x10000 map_tags map_tags_ok 0x10008 24 entries0 0x10060 0xB8000 80 25 ∅
      _ map0_at _ _ _ _ _ _ _ _ empty_ok).
    + by vm_compute.
    + exact entries0_ok.
    + by vm_compute.
    + eapply load64_value; by vm_compute.
    + apply load32_value. by vm_compute.
    + apply load32_value. by vm_compute.
    + by vm_compute.
    + by vm_compute.
    + by vm_compute.
  - cbn beta. intros _ s' (_ & _ & Hu). rewrite !Hu. by vm_compute.
Defined.

Lemma pmm_init_needs_map_witness :
  pmm_init meminfo0 0x10000 (boot_mem, ∅) = Err (EPanic "failed to read memory map").
Proof.
  apply (pmm_init_needs_map meminfo0 boot_mem 0x10000 boot_tags boot_tags_ok); [by vm_compute..|exact empty_ok].
Defined.

Lemma print_memory_map_logs_witness :
  wp (multiboot_print_memory_map 0x10008 (mmap_entries 0x10008))
     (λ _ s', length s'.2 = 7%nat) (map_mem, []).
Proof.
  eapply wp_mono; [apply (print_memory_map_logs map_mem 0x10008 24 entries0 [] map0_at)|].
  cbn beta. by intros _ s' ->.
Defined.
