(* ===== verification/Pic.v ===== *)
(** * The interrupt controllers: drivers/pic.c

    Two 8259 interrupt controllers, the second cascaded behind line 2 of the first.
    [i8259] is the controller of the data sheet: the initialisation command words
    ICW1 to ICW4 in their order, then the mask register behind the data port and the
    end-of-interrupt command behind the control port. *)

From S2P Require Import Prelude Printk PortIo.

Definition PIC1_CONTROL : Z := 0x20.
Definition PIC1_DATA : Z := 0x21.
Definition PIC2_CONTROL : Z := 0xa0.
Definition PIC2_DATA : Z := 0xa1.
Definition PIC1_INT_OFFSET : Z := 0x20.
Definition PIC2_INT_OFFSET : Z := PIC1_INT_OFFSET + 8.
Definition PIC_ICW1_IC4 : Z := 1.
Definition PIC_ICW1_INIT : Z := Z.shiftl 1 4.
Definition PIC_ICW4_X86 : Z := 1.
Definition PIC_OCW2_EOI : Z := Z.shiftl 1 5.
Definition PIC_IRQ0 : Z := 0.
Definition PIC_IRQ1 : Z := 1.

Section Operations.
Context (device : trace → Z → Z).

Definition pic_init : M trace unit :=
  mask1 ← inb device PIC1_DATA;
  mask2 ← inb device PIC2_DATA;
  _ ← outb PIC1_CONTROL (Z.lor PIC_ICW1_IC4 PIC_ICW1_INIT);
  _ ← outb PIC2_CONTROL (Z.lor PIC_ICW1_IC4 PIC_ICW1_INIT);
  _ ← outb PIC1_DATA PIC1_INT_OFFSET;
  _ ← outb PIC2_DATA PIC2_INT_OFFSET;
  _ ← outb PIC1_DATA (Z.shiftl 1 2);
  _ ← outb PIC2_DATA 2;
  _ ← outb PIC1_DATA PIC_ICW4_X86;
  _ ← outb PIC2_DATA PIC_ICW4_X86;
  _ ← outb PIC1_DATA mask1;
  outb PIC2_DATA mask2.

Definition pic_send_eoi (irq : Z) : M trace unit :=
  _ ← (if 8 <=? irq then outb PIC2_CONTROL PIC_OCW2_EOI else mret tt);
  outb PIC1_CONTROL PIC_OCW2_EOI.

(** A shift by 32 or more is undefined. *)
Definition pic_clear_mask (irq : Z) : M trace unit :=
  let '(port, irq) := if irq <? 8 then (PIC1_DATA, irq) else (PIC2_DATA, u8 (irq - 8)) in
  if 32 <=? irq then throw (EUndef "shift")
  else
    v ← inb device port;
    outb port (u8 (Z.land v (Z.lnot (Z.shiftl 1 irq)))).

End Operations.

(** ** The 8259 *)

Inductive phase : Type := Ready | NeedICW2 | NeedICW3 | NeedICW4.

Record i8259 : Type := mk_pic {
  pic_phase : phase;
  pic_icw4 : bool;    (** ICW1 asked for ICW4 *)
  pic_base : Z;       (** the vector of its line 0 *)
  pic_cascade : Z;    (** ICW3 *)
  pic_mode : Z;       (** ICW4 *)
  pic_imr : Z;        (** the mask register *)
  pic_eois : nat      (** end-of-interrupt commands received *)
}.

(** A byte written to the control port: ICW1 when bit 4 is set (the mask register is
    cleared), otherwise a command, of which the non-specific end of interrupt
    counts. *)
Definition pic_control (v : Z) (p : i8259) : i8259 :=
  if Z.testbit v 4 then
    mk_pic NeedICW2 (Z.testbit v 0) (pic_base p) (pic_cascade p) (pic_mode p) 0 (pic_eois p)
  else if v =? 0x20 then
    mk_pic (pic_phase p) (pic_icw4 p) (pic_base p) (pic_cascade p) (pic_mode p) (pic_imr p) (S (pic_eois p))
  else p.

(** A byte written to the data port. *)
Definition pic_data (v : Z) (p : i8259) : i8259 :=
  match pic_phase p with
  | NeedICW2 => mk_pic NeedICW3 (pic_icw4 p) (Z.land v 0xf8) (pic_cascade p) (pic_mode p) (pic_imr p) (pic_eois p)
  | NeedICW3 => mk_pic (if pic_icw4 p then NeedICW4 else Ready) (pic_icw4 p) (pic_base p) v (pic_mode p)
                       (pic_imr p) (pic_eois p)
  | NeedICW4 => mk_pic Ready (pic_icw4 p) (pic_base p) (pic_cascade p) v (pic_imr p) (pic_eois p)
  | Ready => mk_pic Ready (pic_icw4 p) (pic_base p) (pic_cascade p) (pic_mode p) v (pic_eois p)
  end.

Definition pic_step (control data : Z) (p : i8259) (e : event) : i8259 :=
  match e with
  | EOut port v => if port =? control then pic_control (u8 v) p
                   else if port =? data then pic_data (u8 v) p else p
  | _ => p
  end.

(** The state of the controllers after a trace, from their states [p1] and [p2] at
    its beginning. *)
Definition pic1 (p1 : i8259) (tr : trace) : i8259 := foldl (pic_step PIC1_CONTROL PIC1_DATA) p1 tr.
Definition pic2 (p2 : i8259) (tr : trace) : i8259 := foldl (pic_step PIC2_CONTROL PIC2_DATA) p2 tr.

(** A machine with the two controllers: the data ports read as the mask registers. *)
Definition has_pics (device : trace → Z → Z) (p1 p2 : i8259) : Prop :=
  ∀ tr, device tr PIC1_DATA = pic_imr (pic1 p1 tr) ∧ device tr PIC2_DATA = pic_imr (pic2 p2 tr).

Section Pics.
Context (device : trace → Z → Z) (p1 p2 : i8259).
Context (Hdev : has_pics device p1 p2) (Hu1 : is_u8 (pic_imr p1)) (Hu2 : is_u8 (pic_imr p2)).

Lemma pic_imr_step c d p e : is_u8 (pic_imr p) → is_u8 (pic_imr (pic_step c d p e)).
Proof.
  intros Hp. destruct e as [|port v| |]; simpl; try done.
  unfold pic_control, pic_data. repeat case_match; simpl; try done. apply u8_range.
Qed.

Lemma pic_imr_u8 c d p tr : is_u8 (pic_imr p) → is_u8 (pic_imr (foldl (pic_step c d) p tr)).
Proof.
  revert p. induction tr as [|e tr IH]; intros p Hp; simpl; [done|]. apply IH, pic_imr_step, Hp.
Qed.

Lemma read_mask1 tr : u8 (device tr PIC1_DATA) = pic_imr (pic1 p1 tr).
Proof. destruct (Hdev tr) as [-> _]. apply u8_small. by apply pic_imr_u8. Qed.
Lemma read_mask2 tr : u8 (device tr PIC2_DATA) = pic_imr (pic2 p2 tr).
Proof. destruct (Hdev tr) as [_ ->]. apply u8_small. by apply pic_imr_u8. Qed.

Lemma u8_u8 z : u8 (u8 z) = u8 z.
Proof. apply u8_small, u8_range. Qed.

Lemma pic_init_ok tr :
  wp (pic_init device)
     (λ _ tr',
        pic1 p1 tr' = mk_pic Ready true PIC1_INT_OFFSET (Z.shiftl 1 2) PIC_ICW4_X86
                             (pic_imr (pic1 p1 tr)) (pic_eois (pic1 p1 tr)) ∧
        pic2 p2 tr' = mk_pic Ready true PIC2_INT_OFFSET 2 PIC_ICW4_X86
                             (pic_imr (pic2 p2 tr)) (pic_eois (pic2 p2 tr))) tr.
Proof.
  unfold pic_init. apply wp_bind, wp_inb. rewrite read_mask1.
  apply wp_bind, wp_inb. rewrite read_mask2.
  assert (E2 : pic2 p2 (tr ++ [EIn PIC1_DATA (pic_imr (pic1 p1 tr))]) = pic2 p2 tr)
    by (unfold pic2; by rewrite foldl_app).
  rewrite E2. do 9 (apply wp_bind, wp_outb). apply wp_outb.
  pose proof (pic_imr_u8 PIC1_CONTROL PIC1_DATA p1 tr Hu1) as H1. fold (pic1 p1 tr) in H1.
  pose proof (pic_imr_u8 PIC2_CONTROL PIC2_DATA p2 tr Hu2) as H2. fold (pic2 p2 tr) in H2.
  unfold pic1, pic2. rewrite !foldl_app. fold (pic1 p1 tr) (pic2 p2 tr).
  simpl. rewrite !u8_u8, (u8_small _ H1), (u8_small _ H2). by split.
Qed.

(** C35: whatever state the controllers are in, pic_init leaves both initialised:
    line 0 of the first raises vector 0x20 and line 0 of the second 0x28, the second
    hangs on line 2 of the first, both are in 8086 mode, and their masks are as
    before. *)
Theorem pic_init_remaps tr :
  wp (pic_init device)
     (λ _ tr',
        pic1 p1 tr' = mk_pic Ready true PIC1_INT_OFFSET (Z.shiftl 1 2) PIC_ICW4_X86
                             (pic_imr (pic1 p1 tr)) (pic_eois (pic1 p1 tr)) ∧
        pic2 p2 tr' = mk_pic Ready true PIC2_INT_OFFSET 2 PIC_ICW4_X86
                             (pic_imr (pic2 p2 tr)) (pic_eois (pic2 p2 tr))) tr.
Proof. apply pic_init_ok. Qed.

(** Clearing a bit of a mask. *)
Definition unmask (irq mask : Z) : Z := Z.land mask (Z.lnot (Z.shiftl 1 irq)).

Lemma unmask_bit irq mask n :
  0 <= irq → 0 <= n → Z.testbit (unmask irq mask) n = Z.testbit mask n && negb (n =? irq).
Proof.
  intros Hi Hn. unfold unmask. rewrite Z.land_spec, Z.lnot_spec, Z.shiftl_spec by done. f_equal. f_equal.
  destruct (Z.eqb_spec n irq) as [->|Hne]; [by rewrite Z.sub_diag|].
  destruct (Z.ltb_spec (n - irq) 0); [by apply Z.testbit_neg_r|].
  change 1 with (2 ^ 0). rewrite Z.pow2_bits_eqb by done. apply Z.eqb_neq. lia.
Qed.

Lemma unmask_u8 irq mask : is_u8 mask → 0 <= irq → is_u8 (unmask irq mask).
Proof.
  intros Hm Hi. unfold is_u8 in *. assert (0 <= unmask irq mask).
  { apply Z.land_nonneg. left. lia. }
  split; [done|]. enough (unmask irq mask <= mask) by lia.
  apply Z.ldiff_le; [lia|]. apply Z.bits_inj'. intros n Hn.
  rewrite Z.ldiff_spec, Z.bits_0, unmask_bit by done. destruct (Z.testbit mask n); simpl; by rewrite ?andb_false_r.
Qed.

Definition with_imr (imr : Z) (p : i8259) : i8259 :=
  mk_pic (pic_phase p) (pic_icw4 p) (pic_base p) (pic_cascade p) (pic_mode p) imr (pic_eois p).

Lemma pic_clear_mask_ok irq tr :
  0 <= irq < 16 → pic_phase (pic1 p1 tr) = Ready → pic_phase (pic2 p2 tr) = Ready →
  wp (pic_clear_mask device irq)
     (λ _ tr',
        pic1 p1 tr' = (if irq <? 8 then with_imr (unmask irq (pic_imr (pic1 p1 tr))) (pic1 p1 tr)
                       else pic1 p1 tr) ∧
        pic2 p2 tr' = (if irq <? 8 then pic2 p2 tr
                       else with_imr (unmask (irq - 8) (pic_imr (pic2 p2 tr))) (pic2 p2 tr))) tr.
Proof.
  intros Hirq R1 R2.
  pose proof (pic_imr_u8 PIC1_CONTROL PIC1_DATA p1 tr Hu1) as H1. fold (pic1 p1 tr) in H1.
  pose proof (pic_imr_u8 PIC2_CONTROL PIC2_DATA p2 tr Hu2) as H2. fold (pic2 p2 tr) in H2.
  unfold pic_clear_mask. destruct (Z.ltb_spec irq 8).
  - rewrite (proj2 (Z.leb_gt 32 irq)) by lia. apply wp_bind, wp_inb. rewrite read_mask1.
    fold (unmask irq (pic_imr (pic1 p1 tr))). apply wp_outb.
    unfold pic1, pic2. rewrite !foldl_app. fold (pic1 p1 tr) (pic2 p2 tr). simpl.
    rewrite !u8_u8, u8_small by (apply unmask_u8; [done|lia]). split; [|done].
    unfold pic_data, with_imr. by rewrite R1.
  - rewrite (u8_small (irq - 8)) by (unfold is_u8; lia). rewrite (proj2 (Z.leb_gt 32 _)) by lia.
    apply wp_bind, wp_inb. rewrite read_mask2. fold (unmask (irq - 8) (pic_imr (pic2 p2 tr))).
    apply wp_outb. unfold pic1, pic2. rewrite !foldl_app. fold (pic1 p1 tr) (pic2 p2 tr). simpl.
    rewrite !u8_u8, u8_small by (apply unmask_u8; [done|lia]). split; [done|].
    unfold pic_data, with_imr. by rewrite R2.
Qed.

(** On initialised controllers pic_clear_mask unmasks the line it is given and
    no other: bit irq of the first controller's mask, or bit irq - 8 of the
    second's. *)
Theorem pic_clear_mask_unmasks irq tr :
  0 <= irq < 16 → pic_phase (pic1 p1 tr) = Ready → pic_phase (pic2 p2 tr) = Ready →
  wp (pic_clear_mask device irq)
     (λ _ tr',
        pic1 p1 tr' = (if irq <? 8 then with_imr (unmask irq (pic_imr (pic1 p1 tr))) (pic1 p1 tr)
                       else pic1 p1 tr) ∧
        pic2 p2 tr' = (if irq <? 8 then pic2 p2 tr
                       else with_imr (unmask (irq - 8) (pic_imr (pic2 p2 tr))) (pic2 p2 tr))) tr ∧
  (∀ mask n, 0 <= n → Z.testbit (unmask (irq mod 8) mask) n = Z.testbit mask n && negb (n =? irq mod 8)).
Proof.
  intros Hirq R1 R2. split; [by apply pic_clear_mask_ok|].
  intros; apply unmask_bit; [by apply Z.mod_pos_bound|done].
Qed.

(** pic_send_eoi ends the interrupt at the first controller and, for the lines of the
    second, there as well. *)
Lemma pic_send_eoi_ok irq tr :
  wp (pic_send_eoi irq)
     (λ _ tr', pic1 p1 tr' = pic_control PIC_OCW2_EOI (pic1 p1 tr) ∧
               pic2 p2 tr' = (if 8 <=? irq then pic_control PIC_OCW2_EOI (pic2 p2 tr) else pic2 p2 tr)) tr.
Proof.
  unfold pic_send_eoi. apply wp_bind. destruct (8 <=? irq);
    [apply wp_outb|apply wp_ret]; apply wp_outb; unfold pic1, pic2; by rewrite !foldl_app.
Qed.

End Pics.

(** ** Witnesses *)

(** Two controllers as the firmware leaves them: vectors 8 and 0x70, all lines masked
    but the first two. *)
Definition bios_pic1 : i8259 := mk_pic Ready true 0x08 4 1 0xfc 0.
Definition bios_pic2 : i8259 := mk_pic Ready true 0x70 2 1 0xff 0.
Definition bios_device (tr : trace) (port : Z) : Z :=
  if port =? PIC1_DATA then pic_imr (pic1 bios_pic1 tr)
  else if port =? PIC2_DATA then pic_imr (pic2 bios_pic2 tr) else 0.

Lemma bios_device_ok : has_pics bios_device bios_pic1 bios_pic2.
Proof. done. Qed.

Lemma pic_init_remaps_witness :
  wp (pic_init bios_device)
     (λ _ tr', pic1 bios_pic1 tr' = mk_pic Ready true 0x20 4 1 0xfc 0 ∧
               pic2 bios_pic2 tr' = mk_pic Ready true 0x28 2 1 0xff 0) [].
Proof. by apply (pic_init_remaps bios_device bios_pic1 bios_pic2 bios_device_ok). Defined.

Lemma pic_clear_mask_unmasks_witness :
  wp (pic_clear_mask bios_device 12) (λ _ tr', pic_imr (pic2 bios_pic2 tr') = 0xef) [].
Proof.
  eapply wp_mono.
  - by apply (pic_clear_mask_unmasks bios_device bios_pic1 bios_pic2 bios_device_ok).
  - cbn beta. by intros _ tr' [_ ->].
Defined.
