(* ===== verification/Gdt.v ===== *)
(** * Segments: arch/i386/gdt.c

    gdt_init fills the global descriptor table and the task state segment and loads
    both.  [decode] reads a descriptor the way the processor does, from the eight
    bytes of the packed struct (Intel SDM volume 3, figure 3-8). *)

From S2P Require Import Prelude.

Definition GDT_ENTRY_COUNT : nat := 6.
Definition GDT_KERNEL_CODE_SEGMENT : Z := 0x8.
Definition GDT_KERNEL_DATA_SEGMENT : Z := 0x10.
Definition GDT_USER_CODE_SEGMENT : Z := 0x18.
Definition GDT_USER_DATA_SEGMENT : Z := 0x20.
Definition GDT_TASK_STATE_SEGMENT : Z := 0x28.
Definition GDT_GRANULARITY_FLAG : Z := 0x8.
Definition GDT_DB_FLAG : Z := 0x4.
Definition GDT_SEGMENT_PRESENT_FLAG : Z := 0x80.
Definition GDT_CODE_OR_DATA_DESCRIPTOR_FLAG : Z := 0x10.
Definition GDT_DPL3_FLAG : Z := 0x60.
Definition GDT_CODE_EXECUTE_READ_SEG_TYPE : Z := 0xA.
Definition GDT_CODE_EXECUTE_ONLY_ACCESSED : Z := 0x9.
Definition GDT_DATA_READ_WRITE_SEG_TYPE : Z := 0x2.

Record segment_descriptor : Type := mk_segment {
  limit_low : Z;
  base_low : Z;
  base_middle : Z;
  access_type : Z;
  seg_flags : Z;
  base_high : Z
}.

Record gdt_descriptor : Type := mk_gdt { gdt_limit : Z; gdt_base : Z }.

(** The bytes of struct task_state_segment, which is packed. *)
Definition TSS_SIZE : nat := 108.
Definition TSS_ESP0 : nat := 4.
Definition TSS_SS0 : nat := 8.

Definition store_le (n : nat) (off : nat) (v : Z) (l : list Z) : list Z :=
  foldl (λ l i, <[(off + i)%nat := v / 2 ^ (8 * Z.of_nat i) mod 2 ^ 8]> l) l (seq 0 n).

(** The processor's registers that load_gdt and load_tss set. *)
Record cpu_segments : Type := mk_cpu {
  gdtr : gdt_descriptor;
  cs : Z;
  ds : Z;     (** also es, fs, gs and ss *)
  task_register : Z
}.

Record gdt_state : Type := mk_gdt_state {
  gdt_entries : list segment_descriptor;
  gdt : gdt_descriptor;
  tss : list Z;
  cpu : cpu_segments
}.

Section Operations.
(** The addresses of the arrays, and KERNEL_MEMINFO.stack_top. *)
Context (gdt_entries_addr tss_addr stack_top : Z).

Definition tss_init : M gdt_state unit :=
  modify (λ s,
    let t := replicate TSS_SIZE 0 in
    let t := store_le 2 TSS_SS0 (u16 GDT_KERNEL_DATA_SEGMENT) t in
    let t := store_le 4 TSS_ESP0 (u32 stack_top) t in
    mk_gdt_state (gdt_entries s) (gdt s) t (cpu s)).

Definition descriptor (base limit access flags : Z) : segment_descriptor :=
  {| base_low := u16 (Z.land base 0xffff);
     base_middle := u8 (Z.land (Z.shiftr base 16) 0xff);
     base_high := u8 (Z.shiftr base 24);
     access_type := u8 access;
     limit_low := u16 (Z.land limit 0xffff);
     seg_flags := u8 (Z.lor (u8 (Z.land (Z.shiftr limit 16) 0x0f)) (Z.shiftl flags 4)) |}.

Definition set_segment_descriptor (i : nat) (base limit access flags : Z) : M gdt_state unit := λ s,
  if (i <? length (gdt_entries s))%nat then
    Ok (tt, mk_gdt_state (<[i := descriptor base limit access flags]> (gdt_entries s)) (gdt s) (tss s) (cpu s))
  else Err (EFault (gdt_entries_addr + 8 * Z.of_nat i)).

(** load_gdt(&gdt, code, data) and load_tss(selector). *)
Definition load_gdt (code data : Z) : M gdt_state unit :=
  modify (λ s, mk_gdt_state (gdt_entries s) (gdt s) (tss s)
                            (mk_cpu (gdt s) code data (task_register (cpu s)))).
Definition load_tss (selector : Z) : M gdt_state unit :=
  modify (λ s, mk_gdt_state (gdt_entries s) (gdt s) (tss s)
                            (mk_cpu (gdtr (cpu s)) (cs (cpu s)) (ds (cpu s)) selector)).

Definition gdt_init : M gdt_state unit :=
  _ ← tss_init;
  _ ← set_segment_descriptor 0 0 0 0 0;
  let kernel_code_desc_flags :=
    Z.lor (Z.lor GDT_SEGMENT_PRESENT_FLAG GDT_CODE_OR_DATA_DESCRIPTOR_FLAG)
          GDT_CODE_EXECUTE_READ_SEG_TYPE in
  _ ← set_segment_descriptor 1 0 0xFFFFFFFF kernel_code_desc_flags
        (Z.lor GDT_GRANULARITY_FLAG GDT_DB_FLAG);
  let kernel_data_desc_flags :=
    Z.lor (Z.lor GDT_SEGMENT_PRESENT_FLAG GDT_CODE_OR_DATA_DESCRIPTOR_FLAG)
          GDT_DATA_READ_WRITE_SEG_TYPE in
  _ ← set_segment_descriptor 2 0 0xFFFFFFFF kernel_data_desc_flags
        (Z.lor GDT_GRANULARITY_FLAG GDT_DB_FLAG);
  _ ← set_segment_descriptor 3 0 0xFFFFFFFF (Z.lor kernel_code_desc_flags GDT_DPL3_FLAG)
        (Z.lor GDT_GRANULARITY_FLAG GDT_DB_FLAG);
  _ ← set_segment_descriptor 4 0 0xFFFFFFFF (Z.lor kernel_data_desc_flags GDT_DPL3_FLAG)
        (Z.lor GDT_GRANULARITY_FLAG GDT_DB_FLAG);
  let tss_desc_flags := Z.lor GDT_SEGMENT_PRESENT_FLAG GDT_CODE_EXECUTE_ONLY_ACCESSED in
  _ ← set_segment_descriptor 5 tss_addr (Z.of_nat TSS_SIZE - 1) tss_desc_flags 0;
  _ ← modify (λ s, mk_gdt_state (gdt_entries s)
                     (mk_gdt (u16 (8 * Z.of_nat GDT_ENTRY_COUNT - 1)) gdt_entries_addr) (tss s) (cpu s));
  _ ← load_gdt GDT_KERNEL_CODE_SEGMENT GDT_KERNEL_DATA_SEGMENT;
  load_tss GDT_TASK_STATE_SEGMENT.

End Operations.

(** ** The processor's view *)

(** The eight bytes of a descriptor as a 64-bit word. *)
Definition descriptor_word (d : segment_descriptor) : Z :=
  limit_low d + 2 ^ 16 * base_low d + 2 ^ 32 * base_middle d + 2 ^ 40 * access_type d +
  2 ^ 48 * seg_flags d + 2 ^ 56 * base_high d.

Record segment : Type := mk_seg {
  seg_base : Z;
  seg_last : Z;      (** the offset of its last byte *)
  seg_type : Z;
  seg_code_or_data : bool;
  seg_dpl : Z;
  seg_present : bool;
  seg_32bit : bool
}.

Definition field (word lo n : Z) : Z := word / 2 ^ lo mod 2 ^ n.

Definition decode (word : Z) : segment :=
  let limit := field word 0 16 + 2 ^ 16 * field word 48 4 in
  {| seg_base := field word 16 24 + 2 ^ 24 * field word 56 8;
     seg_last := if Z.testbit word 55 then limit * 4096 + 4095 else limit;
     seg_type := field word 40 4;
     seg_code_or_data := Z.testbit word 44;
     seg_dpl := field word 45 2;
     seg_present := Z.testbit word 47;
     seg_32bit := Z.testbit word 54 |}.

(** The segment that a selector names, within the limit of the table. *)
Definition selected (s : gdt_state) (selector : Z) : option segment :=
  let i := selector / 8 in
  if 8 * i + 7 <=? gdt_limit (gdtr (cpu s)) then
    d ← gdt_entries s !! Z.to_nat i; Some (decode (descriptor_word d))
  else None.

(** Little-endian loads from the task state segment. *)
Definition load_le (n off : nat) (l : list Z) : Z :=
  foldr (λ i acc, default 0 (l !! (off + i)%nat) + 2 ^ 8 * acc) 0 (seq 0 n).

Section Fields.

Lemma testbit_field w lo n k :
  0 <= lo → 0 <= n → lo <= k < lo + n → Z.testbit w k = Z.testbit (field w lo n) (k - lo).
Proof.
  intros Hlo Hn Hk. unfold field. rewrite Z.mod_pow2_bits_low, <- Z.shiftr_div_pow2, Z.shiftr_spec by lia.
  f_equal. lia.
Qed.

Lemma lor_nibble a f : 0 <= a < 16 → 0 <= f → Z.lor a (Z.shiftl f 4) = a + 16 * f.
Proof.
  intros Ha Hf. rewrite Z.shiftl_mul_pow2, Z.lor_comm by done. change (2 ^ 4) with 16.
  replace (a + 16 * f) with (f * 16 + a) by lia. rewrite <- (Z.add_lor_land (f * 16) a).
  replace (Z.land (f * 16) a) with 0; [lia|].
  symmetry. apply Z.bits_inj'. intros n Hn. rewrite Z.land_spec, Z.bits_0.
  change 16 with (2 ^ 4). rewrite <- Z.shiftl_mul_pow2, Z.shiftl_spec by done.
  destruct (Z.ltb_spec n 4).
  - by rewrite (Z.testbit_neg_r f) by lia.
  - rewrite andb_comm, (Z.bits_above_log2 a); [done|lia|].
    destruct (Z.eq_dec a 0) as [->|]; [simpl; lia|]. apply Z.log2_lt_pow2; [lia|].
    eapply Z.lt_le_trans; [|apply (Z.pow_le_mono_r 2 4); lia]. simpl. lia.
Qed.

Context (base limit access flags : Z).
Context (Hbase : is_u32 base) (Hlimit : is_u32 limit) (Haccess : is_u8 access) (Hflags : 0 <= flags < 16).

(** The fields of a descriptor as numbers. *)
Lemma descriptor_fields :
  descriptor base limit access flags =
  mk_segment (limit mod 2 ^ 16) (base mod 2 ^ 16) (base / 2 ^ 16 mod 2 ^ 8) access
             (limit / 2 ^ 16 mod 2 ^ 4 + 16 * flags) (base / 2 ^ 24).
Proof.
  unfold descriptor. change 0xffff with (Z.ones 16). change 0xff with (Z.ones 8).
  change 0x0f with (Z.ones 4). rewrite !Z.land_ones, !Z.shiftr_div_pow2 by done.
  assert (0 <= limit / 2 ^ 16 mod 2 ^ 4 < 16) by (apply Z.mod_pos_bound; done).
  rewrite (u8_small (limit / 2 ^ 16 mod 2 ^ 4)) by (unfold is_u8; lia).
  rewrite lor_nibble by lia. f_equal; try (unfold u8, u16; rewrite Z.mod_mod; done); apply u8_small;
    unfold is_u8; [done|lia|]. unfold is_u32 in Hbase.
  split; [apply Z.div_pos; lia|]. apply Z.div_lt_upper_bound; [done|]. exact (proj2 Hbase).
Qed.

Let word := descriptor_word (descriptor base limit access flags).

Lemma word_fields :
  field word 0 16 = limit mod 2 ^ 16 ∧ field word 48 4 = limit / 2 ^ 16 mod 2 ^ 4 ∧
  field word 16 24 + 2 ^ 24 * field word 56 8 = base ∧
  field word 40 8 = access ∧ field word 52 4 = flags.
Proof.
  unfold word. rewrite descriptor_fields. unfold descriptor_word, field. simpl.
  set (l0 := limit mod _). set (l1 := limit / _ mod _).
  assert (0 <= l0 < 65536) by (apply Z.mod_pos_bound; done).
  assert (0 <= l1 < 16) by (apply Z.mod_pos_bound; done).
  assert (base = base mod 65536 + 65536 * (base / 65536 mod 256) + 16777216 * (base / 16777216)).
  { clear. Z.div_mod_to_equations. lia. }
  set (b0 := base mod 65536) in *. set (b1 := base / 65536 mod 256) in *. set (b2 := base / 16777216) in *.
  assert (0 <= b0 < 65536) by (apply Z.mod_pos_bound; done).
  assert (0 <= b1 < 256) by (apply Z.mod_pos_bound; done).
  unfold is_u32, is_u8 in *. change (2 ^ 32) with 4294967296 in *. change (2 ^ 8) with 256 in *.
  assert (0 <= b2 < 256).
  { split; [apply Z.div_pos; lia|]. apply Z.div_lt_upper_bound; lia. }
  split_and!; Z.div_mod_to_equations; lia.
Qed.

(** What the processor reads from a descriptor: the base, the low 20 bits of the
    limit in bytes or in pages, and the access byte. *)
Lemma descriptor_decodes :
  decode word =
  {| seg_base := base;
     seg_last := if Z.testbit flags 3 then limit mod 2 ^ 20 * 4096 + 4095 else limit mod 2 ^ 20;
     seg_type := access mod 16;
     seg_code_or_data := Z.testbit access 4;
     seg_dpl := access / 32 mod 4;
     seg_present := Z.testbit access 7;
     seg_32bit := Z.testbit flags 2 |}.
Proof.
  destruct word_fields as (H0 & H1 & H2 & H3 & H4). unfold decode.
  rewrite H0, H1, H2.
  rewrite (testbit_field word 40 8 44), (testbit_field word 40 8 47) by lia.
  rewrite (testbit_field word 52 4 55), (testbit_field word 52 4 54) by lia. rewrite H3, H4.
  replace (limit mod 2 ^ 16 + 2 ^ 16 * (limit / 2 ^ 16 mod 2 ^ 4)) with (limit mod 2 ^ 20).
  2:{ change (2 ^ 20) with (2 ^ 16 * 2 ^ 4). by rewrite Z.rem_mul_r. }
  f_equal.
  - rewrite <- H3. unfold field. clear. change (2 ^ 40) with 1099511627776.
    change (2 ^ 4) with 16. change (2 ^ 8) with 256. Z.div_mod_to_equations. lia.
  - rewrite <- H3. unfold field. clear. change (2 ^ 40) with 1099511627776.
    change (2 ^ 45) with 35184372088832. change (2 ^ 2) with 4. change (2 ^ 8) with 256.
    Z.div_mod_to_equations. lia.
Qed.

End Fields.

Section LittleEndian.
Implicit Types l : list Z.

Lemma length_store_le n off v l : length (store_le n off v l) = length l.
Proof.
  unfold store_le. generalize (seq 0 n). intros ks. revert l.
  induction ks as [|i ks IH]; intros l; simpl; [done|]. by rewrite IH, length_insert.
Qed.

Lemma store_le_lookup n off v l i :
  (∀ k, (k < n)%nat → i ≠ (off + k)%nat) → store_le n off v l !! i = l !! i.
Proof.
  unfold store_le. intros Hi. assert (Hall : ∀ k, k ∈ seq 0 n → i ≠ (off + k)%nat)
    by (intros k [_ Hk]%elem_of_seq; by apply Hi).
  clear Hi. revert l Hall. generalize (seq 0 n). intros ks.
  induction ks as [|k ks IH]; intros l Hall; simpl; [done|].
  rewrite IH by (intros; apply Hall; by right). rewrite list_lookup_insert_ne; [done|].
  apply not_eq_sym, Hall. by left.
Qed.

Lemma store_le_frame n off v l n' off' :
  (off + n <= off' ∨ off' + n' <= off)%nat →
  load_le n' off' (store_le n off v l) = load_le n' off' l.
Proof.
  intros Hd. unfold load_le. assert (Hall : ∀ k, k ∈ seq 0 n' → (k < n')%nat)
    by (intros k [_ Hk]%elem_of_seq; done).
  revert Hall. generalize (seq 0 n'). intros ks.
  induction ks as [|k ks IH]; intros Hall; simpl; [done|].
  rewrite IH by (intros; apply Hall; by right). rewrite store_le_lookup; [done|].
  intros j Hj. specialize (Hall k ltac:(by left)). lia.
Qed.

Lemma store_load_le4 off v l :
  (off + 4 <= length l)%nat → is_u32 v → load_le 4 off (store_le 4 off v l) = v.
Proof.
  intros Hl Hv. unfold load_le, store_le. cbn [seq foldl foldr].
  rewrite !list_lookup_insert_ne by lia.
  repeat (rewrite list_lookup_insert_eq || rewrite list_lookup_insert_ne by lia);
    rewrite ?length_insert; try lia. simpl. unfold is_u32 in Hv. clear -Hv. simpl in Hv.
  Z.div_mod_to_equations. lia.
Qed.

End LittleEndian.

Lemma wp_set_segment ga i base limit access flags Q s :
  (i < length (gdt_entries s))%nat →
  Q tt (mk_gdt_state (<[i := descriptor base limit access flags]> (gdt_entries s)) (gdt s) (tss s) (cpu s)) →
  wp (set_segment_descriptor ga i base limit access flags) Q s.
Proof. intros Hi HQ. unfold wp, set_segment_descriptor. by rewrite (proj2 (Nat.ltb_lt _ _) Hi). Qed.

(** A flat segment: all 4 GB from address 0, present, 32 bits wide. *)
Definition flat (ty dpl : Z) : segment := mk_seg 0 0xFFFFFFFF ty true dpl true true.

(** C32: after gdt_init the processor runs on the kernel's code and data segments;
    the four selectors of the kernel name flat 4 GB segments, code or data, of
    privilege 0 and 3; the task register names the task state segment, all of its
    bytes, whose stack for interrupts is the kernel's; there is no further entry. *)
Theorem gdt_init_segments gdt_entries_addr tss_addr stack_top s :
  length (gdt_entries s) = GDT_ENTRY_COUNT → is_u32 tss_addr → is_u32 stack_top →
  wp (gdt_init gdt_entries_addr tss_addr stack_top)
     (λ _ s',
        selected s' (cs (cpu s')) = Some (flat GDT_CODE_EXECUTE_READ_SEG_TYPE 0) ∧
        selected s' (ds (cpu s')) = Some (flat GDT_DATA_READ_WRITE_SEG_TYPE 0) ∧
        selected s' GDT_USER_CODE_SEGMENT = Some (flat GDT_CODE_EXECUTE_READ_SEG_TYPE 3) ∧
        selected s' GDT_USER_DATA_SEGMENT = Some (flat GDT_DATA_READ_WRITE_SEG_TYPE 3) ∧
        selected s' (task_register (cpu s')) =
          Some (mk_seg tss_addr (Z.of_nat TSS_SIZE - 1) 9 false 0 true false) ∧
        (∀ sel, GDT_TASK_STATE_SEGMENT + 8 <= sel → selected s' sel = None) ∧
        gdt_base (gdtr (cpu s')) = gdt_entries_addr ∧
        load_le 4 TSS_ESP0 (tss s') = stack_top ∧
        load_le 2 TSS_SS0 (tss s') = ds (cpu s')) s.
Proof.
  intros Hlen Htss Hst. destruct s as [entries g t c]. simpl in Hlen.
  destruct entries as [|e0 [|e1 [|e2 [|e3 [|e4 [|e5 [|]]]]]]]; try discriminate Hlen.
  unfold gdt_init, load_gdt, load_tss. apply wp_bind, wp_modify. cbn [gdt_entries gdt tss cpu].
  do 6 (apply wp_bind, wp_set_segment; [simpl; lia|]; cbn [gdt_entries gdt tss cpu insert list_insert]).
  do 2 (apply wp_bind, wp_modify; cbn [gdt_entries gdt tss cpu]). apply wp_modify.
  cbn [gdt_entries gdt tss cpu cs ds task_register gdtr gdt_base].
  set (s' := mk_gdt_state _ _ _ _).
  assert (Hsel : ∀ i d, gdt_entries s' !! i = Some d → (i < 6)%nat →
    selected s' (8 * Z.of_nat i) = Some (decode (descriptor_word d))).
  { intros i d Hd Hi. unfold selected.
    replace (8 * Z.of_nat i / 8) with (Z.of_nat i) by (rewrite Z.mul_comm, Z.div_mul; done).
    rewrite Nat2Z.id, Hd.
    change (gdt_limit (gdtr (cpu s'))) with 47. by rewrite (proj2 (Z.leb_le _ _)) by lia. }
  split_and!.
  - etrans; [apply (Hsel 1%nat _ eq_refl); lia|]. by vm_compute.
  - etrans; [apply (Hsel 2%nat _ eq_refl); lia|]. by vm_compute.
  - etrans; [apply (Hsel 3%nat _ eq_refl); lia|]. by vm_compute.
  - etrans; [apply (Hsel 4%nat _ eq_refl); lia|]. by vm_compute.
  - etrans; [apply (Hsel 5%nat _ eq_refl); lia|]. f_equal.
    rewrite (descriptor_decodes tss_addr) by (exact Htss || by vm_compute). by vm_compute.
  - intros sel Hge. unfold selected. change (gdt_limit (gdtr (cpu s'))) with 47.
    rewrite (proj2 (Z.leb_gt _ _)); [done|]. unfold GDT_TASK_STATE_SEGMENT in Hge.
    Z.div_mod_to_equations. lia.
  - done.
  - cbn [tss s']. rewrite (u32_small stack_top Hst). apply store_load_le4; [|done].
    rewrite length_store_le, length_replicate. unfold TSS_ESP0, TSS_SIZE. lia.
  - cbn [tss s']. rewrite store_le_frame by (unfold TSS_ESP0, TSS_SS0; lia). by vm_compute.
Qed.

Definition gdt_state0 : gdt_state :=
  mk_gdt_state (replicate 6 (mk_segment 0 0 0 0 0 0)) (mk_gdt 0 0) [] (mk_cpu (mk_gdt 0 0) 0 0 0).

Lemma gdt_init_segments_witness :
  wp (gdt_init 0xC0105000 0xC0106000 0xC0110000)
     (λ _ s', selected s' (task_register (cpu s')) =
                Some (mk_seg 0xC0106000 107 9 false 0 true false) ∧
              load_le 4 TSS_ESP0 (tss s') = 0xC0110000) gdt_state0.
Proof.
  eapply wp_mono; [apply (gdt_init_segments 0xC0105000 0xC0106000 0xC0110000 gdt_state0); done|].
  cbn beta. intros _ s' (_ & _ & _ & _ & H & _ & _ & H' & _). by split.
Defined.
