(* ===== verification/Ps2.v ===== *)
(** * The keyboard controller: drivers/ps2.c

    The driver polls the status register before each command, so its loops end only
    if the controller answers: they run with a bound on the number of polls, and the
    theorems say which bound is enough for which controller. *)

From S2P Require Import Prelude Printk PortIo Pic.

Definition PS2_DATA : Z := 0x60.
Definition PS2_CTRL_CMD_REGISTER : Z := 0x64.
Definition PS2_CTRL_STATUS_REGISTER : Z := 0x64.
Definition PS2_CMD_CTRL_SELF_TEST : Z := 0xaa.
Definition PS2_CMD_PORT1_SELF_TEST : Z := 0xab.
Definition PS2_CMD_DISABLE_PORT1 : Z := 0xad.
Definition PS2_CMD_ENABLE_PORT1 : Z := 0xae.
Definition PS2_CMD_DISABLE_PORT2 : Z := 0xa7.
Definition PS2_CMD_ENABLE_PORT2 : Z := 0xa8.
Definition PS2_CMD_CTRL_READ_CONFIG_BYTE : Z := 0x20.
Definition PS2_CMD_CTRL_WRITE_CONFIG_BYTE : Z := 0x60.
Definition PS2_CTRL_STATUS_OUT_BUF_FULL : Z := 1.
Definition PS2_CTRL_STATUS_IN_BUF_FULL : Z := Z.shiftl 1 1.
Definition PS2_CTRL_SELF_TEST_OK : Z := 0x55.
Definition PS2_PORT1_SELF_TEST_OK : Z := 0x00.
Definition PS2_PORT1_RESEND : Z := 0xfe.
Definition PS2_CTRL_CONFIG_PORT1_INTERRUPTS : Z := 1.
Definition PS2_CTRL_CONFIG_PORT2_INTERRUPTS : Z := Z.shiftl 1 1.
Definition PS2_CTRL_CONFIG_SYSTEM_FLAG : Z := Z.shiftl 1 2.
Definition PS2_CTRL_CONFIG_PORT1_CLOCK : Z := Z.shiftl 1 4.
Definition PS2_CTRL_CONFIG_PORT1_TRANSLATION : Z := Z.shiftl 1 6.
Definition PS2_SCANCODE_QUEUE_SIZE : Z := 10.

Record scancode_queue_context : Type := mk_queue {
  queue_start : Z;
  queue_end : Z;
  queue_buf : list Z
}.

Record ps2_state : Type := mk_ps2 {
  scancode_queue_ctx : scancode_queue_context;
  ps2_io : trace
}.

Definition on_io {A} : M trace A → M ps2_state A :=
  zoom ps2_io (λ tr s, mk_ps2 (scancode_queue_ctx s) tr).

Section Operations.
Context (device : trace → Z → Z).
(** The number of polls after which a busy loop is given up as endless. *)
Context (patience : nat).

Definition init_scancode_queue : M ps2_state unit :=
  modify (λ s, mk_ps2 (mk_queue 0 0 (queue_buf (scancode_queue_ctx s))) (ps2_io s)).

Definition ps2_controller_input_buffer_full : M trace bool :=
  v ← inb device PS2_CTRL_STATUS_REGISTER; mret (negb (Z.land v PS2_CTRL_STATUS_IN_BUF_FULL =? 0)).
Definition ps2_controller_output_buffer_full : M trace bool :=
  v ← inb device PS2_CTRL_STATUS_REGISTER; mret (negb (Z.land v PS2_CTRL_STATUS_OUT_BUF_FULL =? 0)).

Fixpoint wait_ready_loop (fuel : nat) : M trace unit :=
  match fuel with
  | O => throw EFuel
  | S fuel =>
      full ← ps2_controller_input_buffer_full;
      if full : bool then _ ← log PRINTK_WARN "PS/2 controller not ready" []; wait_ready_loop fuel
      else mret tt
  end.

Definition ps2_controller_wait_ready_for_cmd : M trace unit := wait_ready_loop patience.

Fixpoint flush_loop (fuel : nat) : M trace unit :=
  match fuel with
  | O => throw EFuel
  | S fuel =>
      full ← ps2_controller_output_buffer_full;
      if full : bool then _ ← inb device PS2_DATA; flush_loop fuel else mret tt
  end.

Definition ps2_flush_controller_output_buffer : M trace unit := flush_loop patience.

Definition ps2_controller_send_cmd (cmd : Z) : M trace unit :=
  _ ← ps2_controller_wait_ready_for_cmd; outb PS2_CTRL_CMD_REGISTER cmd.

Definition ps2_keyboard_send_cmd (cmd : Z) : M trace unit :=
  _ ← ps2_controller_wait_ready_for_cmd; outb PS2_DATA cmd.

(** The configuration byte that is written, from the byte read. *)
Definition configured (config : Z) : Z :=
  let config := u8 (Z.lor config PS2_CTRL_CONFIG_PORT1_INTERRUPTS) in
  let config := u8 (Z.lor config PS2_CTRL_CONFIG_PORT2_INTERRUPTS) in
  let config := u8 (Z.lor config PS2_CTRL_CONFIG_SYSTEM_FLAG) in
  let config := u8 (Z.lor config PS2_CTRL_CONFIG_PORT1_CLOCK) in
  let config := u8 (Z.lor config PS2_CTRL_CONFIG_SYSTEM_FLAG) in
  u8 (Z.land config (Z.lnot PS2_CTRL_CONFIG_PORT1_TRANSLATION)).

(** The source reads the port whose number is the command
    PS2_CMD_CTRL_READ_CONFIG_BYTE. *)
Definition ps2_controller_configure : M trace Z :=
  config ← inb device PS2_CMD_CTRL_READ_CONFIG_BYTE;
  _ ← ps2_controller_send_cmd PS2_CMD_CTRL_WRITE_CONFIG_BYTE;
  let config := configured config in
  _ ← outb PS2_DATA config;
  mret config.

Definition ps2_controller_self_test (config : Z) : M trace unit :=
  _ ← ps2_controller_send_cmd PS2_CMD_CTRL_SELF_TEST;
  err ← inb device PS2_DATA;
  _ ← (if negb (err =? PS2_CTRL_SELF_TEST_OK)
       then log PRINTK_WARN "PS/2 controller self-test: failed (err=%d)\n" [ANum err]
       else log PRINTK_INFO "PS/2 controller self-test: OK\n" []);
  outb PS2_DATA config.

(** while ((err = inb(PS2_DATA)) == PS2_PORT1_RESEND) *)
Fixpoint self_test_loop (fuel : nat) : M trace Z :=
  match fuel with
  | O => throw EFuel
  | S fuel =>
      err ← inb device PS2_DATA;
      if err =? PS2_PORT1_RESEND then
        _ ← ps2_controller_send_cmd PS2_CMD_PORT1_SELF_TEST;
        _ ← log PRINTK_WARN "PS/2 keyboard self-test: failed (err=%d)\n" [ANum err];
        self_test_loop fuel
      else mret err
  end.

Definition ps2_interface_self_test : M trace unit :=
  _ ← ps2_controller_send_cmd PS2_CMD_PORT1_SELF_TEST;
  _ ← inb device PS2_DATA;
  err ← self_test_loop patience;
  if negb (err =? PS2_PORT1_SELF_TEST_OK)
  then log PRINTK_WARN "PS/2 keyboard self-test: failed (err=%d)\n" [ANum err]
  else log PRINTK_INFO "PS/2 keyboard self-test: OK\n" [].

Definition ps2_init_devices : M ps2_state unit :=
  _ ← init_scancode_queue;
  on_io (
    _ ← ps2_controller_send_cmd PS2_CMD_DISABLE_PORT1;
    _ ← ps2_controller_send_cmd PS2_CMD_DISABLE_PORT2;
    _ ← ps2_flush_controller_output_buffer;
    config ← ps2_controller_configure;
    _ ← ps2_controller_self_test config;
    _ ← ps2_interface_self_test;
    _ ← ps2_controller_send_cmd PS2_CMD_ENABLE_PORT1;
    ps2_controller_send_cmd PS2_CMD_ENABLE_PORT2).

(** scancode_queue_ctx.buf[end] = scancode; a store behind the array is a fault. *)
Definition queue_store (scancode : Z) : M ps2_state unit := λ s,
  let q := scancode_queue_ctx s in
  if (Z.to_nat (queue_end q) <? length (queue_buf q))%nat then
    Ok (tt, mk_ps2 (mk_queue (queue_start q) (queue_end q)
                     (<[Z.to_nat (queue_end q) := scancode]> (queue_buf q))) (ps2_io s))
  else Err (EFault (queue_end q)).

Definition print_queue : M ps2_state unit :=
  for_range (Z.to_nat PS2_SCANCODE_QUEUE_SIZE) 0 (λ i,
    s ← get;
    on_io (log PRINTK_DEBUG "%d: %d\n"
      [ANum i; ANum (default 0 (queue_buf (scancode_queue_ctx s) !! Z.to_nat i))])).

Definition ps2_handle_irq1 : M ps2_state unit :=
  scancode ← on_io (inb device PS2_DATA);
  _ ← queue_store scancode;
  _ ← modify (λ s, let q := scancode_queue_ctx s in
        mk_ps2 (mk_queue (queue_start q) (u32 (queue_end q + 1) mod PS2_SCANCODE_QUEUE_SIZE)
                         (queue_buf q)) (ps2_io s));
  _ ← print_queue;
  on_io (pic_send_eoi PIC_IRQ1).

End Operations.

(** ** What a trace shows *)

(** The scancodes read from the keyboard, and the bytes written to the controller. *)
Definition scancodes (tr : trace) : list Z :=
  omap (λ e, match e with EIn port v => if port =? PS2_DATA then Some v else None | _ => None end) tr.
Definition ps2_writes (tr : trace) : list (Z * Z) :=
  omap (λ e, match e with
             | EOut port v => if (port =? PS2_DATA) || (port =? PS2_CTRL_CMD_REGISTER) then Some (port, v)
                              else None
             | _ => None
             end) tr.
Definition status_reads (tr : trace) : nat :=
  length (List.filter (λ e, match e with EIn port _ => port =? PS2_CTRL_STATUS_REGISTER | _ => false end) tr).
Definition warnings (tr : trace) : nat :=
  length (List.filter (λ e, match e with ELog PRINTK_WARN _ _ => true | _ => false end) tr).

Lemma status_reads_app tr tr' : status_reads (tr ++ tr') = (status_reads tr + status_reads tr')%nat.
Proof. unfold status_reads. by rewrite List.filter_app, length_app. Qed.
Lemma warnings_app tr tr' : warnings (tr ++ tr') = (warnings tr + warnings tr')%nat.
Proof. unfold warnings. by rewrite List.filter_app, length_app. Qed.
Lemma scancodes_app tr tr' : scancodes (tr ++ tr') = scancodes tr ++ scancodes tr'.
Proof. apply omap_app. Qed.
Lemma ps2_writes_app tr tr' : ps2_writes (tr ++ tr') = ps2_writes tr ++ ps2_writes tr'.
Proof. apply omap_app. Qed.

(** ** Polling *)

Section Polling.
Context (device : trace → Z → Z) (n : nat).

(** A controller that is busy for its first [n] status reads. *)
Definition busy_for : Prop :=
  ∀ tr, Z.testbit (device tr PS2_CTRL_STATUS_REGISTER) 1 = bool_decide (status_reads tr < n)%nat.

Lemma in_buf_full v : negb (Z.land (u8 v) PS2_CTRL_STATUS_IN_BUF_FULL =? 0) = Z.testbit v 1.
Proof.
  unfold u8. change PS2_CTRL_STATUS_IN_BUF_FULL with (2 ^ 1). 
  assert (E : Z.testbit (v mod 2 ^ 8) 1 = Z.testbit v 1) by by rewrite Z.mod_pow2_bits_low.
  rewrite <- E. generalize (v mod 2 ^ 8). intros x.
  destruct (Z.eqb_spec (Z.land x (2 ^ 1)) 0) as [H0|H0]; simpl.
  - apply (f_equal (λ z, Z.testbit z 1)) in H0. rewrite Z.land_spec, Z.bits_0 in H0.
    change (Z.testbit (2 ^ 1) 1) with true in H0. by rewrite andb_true_r in H0.
  - destruct (Z.testbit x 1) eqn:Ex; [done|]. destruct H0. apply Z.bits_inj'. intros k Hk.
    rewrite Z.land_spec, Z.bits_0, Z.pow2_bits_eqb by done.
    destruct (Z.eqb_spec 1 k) as [<-|]; [by rewrite Ex|by rewrite andb_false_r].
Qed.

(** On a controller that is busy for [n] more polls the driver waits, logging a
    warning for each, and goes on as soon as the controller is ready; a bound of more
    than [n] polls is enough, and a smaller one is not. *)
Theorem ps2_wait_polls patience tr :
  busy_for → (status_reads tr <= n)%nat →
  if bool_decide (n - status_reads tr < patience)%nat then
    wp (ps2_controller_wait_ready_for_cmd device patience)
       (λ _ tr', status_reads tr' = S n ∧ warnings tr' = (warnings tr + (n - status_reads tr))%nat ∧
                 ps2_writes tr' = ps2_writes tr) tr
  else ps2_controller_wait_ready_for_cmd device patience tr = Err EFuel.
Proof.
  unfold ps2_controller_wait_ready_for_cmd. intros Hb.
  revert tr. induction patience as [|fuel IH]; intros tr Hle.
  { rewrite bool_decide_eq_false_2 by lia. done. }
  set (v := u8 (device tr PS2_CTRL_STATUS_REGISTER)).
  set (tr1 := tr ++ [EIn PS2_CTRL_STATUS_REGISTER v]).
  assert (Hrun : ps2_controller_input_buffer_full device tr = Ok (bool_decide (status_reads tr < n)%nat, tr1)).
  { unfold ps2_controller_input_buffer_full. rewrite (bind_ok _ _ _ _ _ (inb_run device _ tr)).
    fold v. unfold mret, M_ret. unfold v at 1. by rewrite in_buf_full, Hb. }
  cbn [wait_ready_loop]. assert (E1 : status_reads tr1 = S (status_reads tr))
    by (unfold tr1; rewrite status_reads_app, Nat.add_comm; done).
  destruct (decide (status_reads tr < n)%nat) as [Hlt|Hge].
  - rewrite bool_decide_eq_true_2 in Hrun by done.
    set (tr2 := tr1 ++ [ELog PRINTK_WARN "PS/2 controller not ready" []]).
    assert (E2 : status_reads tr2 = S (status_reads tr))
      by (unfold tr2; rewrite status_reads_app, Nat.add_comm, E1; done).
    specialize (IH tr2 ltac:(lia)).
    assert (Hrun2 : (full ← ps2_controller_input_buffer_full device;
      if full : bool then _ ← log PRINTK_WARN "PS/2 controller not ready" []; wait_ready_loop device fuel
      else mret tt) tr = wait_ready_loop device fuel tr2) by by rewrite (bind_ok _ _ _ _ _ Hrun).
    destruct (decide (n - status_reads tr < S fuel)%nat) as [Hf|Hf].
    + rewrite (bool_decide_eq_true_2 (_ < S fuel)%nat) by done.
      rewrite bool_decide_eq_true_2 in IH by lia. unfold wp in *. rewrite Hrun2.
      destruct (wait_ready_loop device fuel tr2) as [[[] tr']|]; [|done].
      destruct IH as (H1 & H2 & H3). split_and!; [done| |].
      * rewrite H2, E2. unfold tr2, tr1. rewrite !warnings_app.
        change (warnings [EIn _ _]) with 0%nat. change (warnings [ELog _ _ _]) with 1%nat. lia.
      * rewrite H3. unfold tr2, tr1. by rewrite !ps2_writes_app, !app_nil_r.
    + rewrite (bool_decide_eq_false_2 (_ < S fuel)%nat) by done.
      rewrite bool_decide_eq_false_2 in IH by lia. by rewrite Hrun2.
  - rewrite bool_decide_eq_false_2 in Hrun by done.
    rewrite bool_decide_eq_true_2 by lia. unfold wp. rewrite (bind_ok _ _ _ _ _ Hrun). simpl.
    split_and!; [lia| |unfold tr1; by rewrite ps2_writes_app, app_nil_r].
    unfold tr1. rewrite warnings_app. change (warnings [EIn _ _]) with 0%nat. lia.
Qed.

End Polling.

(** ** The scancode queue *)

(** [codes] have been received since the queue was empty: the buffer is a ring that
    holds the last ten of them. *)
Definition queue_holds (q : scancode_queue_context) (codes : list Z) : Prop :=
  length (queue_buf q) = 10%nat ∧ queue_start q = 0 ∧
  queue_end q = Z.of_nat (length codes mod 10) ∧
  ∀ i c, codes !! i = Some c → (length codes <= i + 10)%nat → queue_buf q !! (i mod 10)%nat = Some c.

Section Queue.
Context (device : trace → Z → Z).

Lemma queue_holds_push q codes v :
  queue_holds q codes →
  queue_holds (mk_queue (queue_start q) (Z.of_nat (length (codes ++ [v]) mod 10))
                 (<[(length codes mod 10)%nat := v]> (queue_buf q))) (codes ++ [v]).
Proof.
  intros (Hlen & Hst & Hend & Hc). split_and!; cbn [queue_buf queue_start queue_end];
    [by rewrite length_insert|done|done|].
  intros i c Hi Hle. rewrite length_app in Hle. cbn [length] in Hle.
  pose proof (Nat.mod_upper_bound (length codes) 10 ltac:(lia)) as Hub.
  destruct (decide (i = length codes)) as [->|Hne].
  - rewrite lookup_app_r, Nat.sub_diag in Hi by done. simplify_eq/=.
    apply list_lookup_insert_eq. lia.
  - assert (Hlt : (i < length codes)%nat).
    { apply lookup_lt_Some in Hi. rewrite length_app in Hi. simpl in Hi. lia. }
    rewrite lookup_app_l in Hi by done. rewrite list_lookup_insert_ne; [apply Hc; [done|lia]|].
    intros E. pose proof (Nat.div_mod_eq i 10). pose proof (Nat.div_mod_eq (length codes) 10). lia.
Qed.

(** print_queue only prints. *)
Lemma print_queue_ok s :
  wp print_queue (λ _ s', scancode_queue_ctx s' = scancode_queue_ctx s ∧
                          scancodes (ps2_io s') = scancodes (ps2_io s)) s.
Proof.
  apply (wp_for_range _ _ _ (λ _ s', scancode_queue_ctx s' = scancode_queue_ctx s ∧
                          scancodes (ps2_io s') = scancodes (ps2_io s))); [done| |done].
  intros k s1 _ [Hq Hs]. apply wp_bind, wp_get, wp_zoom, wp_log. simpl. split; [done|].
  by rewrite scancodes_app, Hs, app_nil_r.
Qed.

Lemma ps2_handle_irq1_ok s codes :
  queue_holds (scancode_queue_ctx s) codes →
  wp (ps2_handle_irq1 device)
     (λ _ s', ∃ v, scancodes (ps2_io s') = scancodes (ps2_io s) ++ [v] ∧
                   queue_holds (scancode_queue_ctx s') (codes ++ [v])) s.
Proof.
  intros Hq. pose proof Hq as (Hlen & Hst & Hend & _).
  pose proof (Nat.mod_upper_bound (length codes) 10 ltac:(lia)) as Hub.
  unfold ps2_handle_irq1. apply wp_bind, wp_zoom, wp_inb.
  set (v := u8 (device (ps2_io s) PS2_DATA)). apply wp_bind. unfold queue_store.
  unfold wp at 1. cbn [scancode_queue_ctx]. rewrite Hend, Nat2Z.id, Hlen.
  rewrite (proj2 (Nat.ltb_lt _ _) Hub). apply wp_bind, wp_modify, wp_bind.
  eapply wp_mono; [apply print_queue_ok|]. cbn [scancode_queue_ctx ps2_io queue_end queue_start queue_buf].
  intros _ s1 [Hq1 Hs1]. apply wp_zoom. unfold pic_send_eoi.
  apply wp_bind. change (8 <=? PIC_IRQ1) with false. apply wp_ret, wp_outb.
  cbn [ps2_io scancode_queue_ctx]. exists v. rewrite scancodes_app, Hs1, scancodes_app. split.
  - by rewrite app_nil_r.
  - rewrite Hq1. replace (u32 (Z.of_nat (length codes mod 10) + 1) mod PS2_SCANCODE_QUEUE_SIZE)
      with (Z.of_nat (length (codes ++ [v]) mod 10)); [by apply queue_holds_push|].
    rewrite length_app, u32_small by (unfold is_u32; lia). unfold PS2_SCANCODE_QUEUE_SIZE. simpl length.
    rewrite !Nat2Z.inj_mod, Nat2Z.inj_add. by rewrite Z.add_mod_idemp_l.
Qed.

(** C33: however many keyboard interrupts arrive, ps2_handle_irq1 stays within its
    buffer and the buffer holds the last ten scancodes read from the data port, each
    at its place in the ring; the write index counts the scancodes modulo ten. *)
Theorem ps2_queue_last_ten (n : nat) s :
  queue_holds (scancode_queue_ctx s) [] →
  wp (for_range n 0 (λ _, ps2_handle_irq1 device))
     (λ _ s', ∃ codes, length codes = n ∧ scancodes (ps2_io s') = scancodes (ps2_io s) ++ codes ∧
                       queue_holds (scancode_queue_ctx s') codes) s.
Proof.
  intros Hq. apply (wp_for_range _ _ _ (λ k s', ∃ codes, Z.of_nat (length codes) = k ∧
    scancodes (ps2_io s') = scancodes (ps2_io s) ++ codes ∧ queue_holds (scancode_queue_ctx s') codes)).
  - exists []. by rewrite app_nil_r.
  - intros k s1 _ (codes & Hk & Hs & Hc). eapply wp_mono; [by apply ps2_handle_irq1_ok|].
    cbn beta. intros _ s2 (v & Hs2 & Hc2). exists (codes ++ [v]).
    rewrite Hs2, Hs, <- app_assoc, length_app. split_and!; [simpl; lia|done|done].
  - intros s1 (codes & Hk & Hs). exists codes. split; [lia|done].
Qed.

End Queue.

(** ** Initialisation *)

(** The bits of the configuration byte. *)
Lemma configured_bits c n :
  0 <= n < 8 →
  Z.testbit (configured c) n =
  if bool_decide (n ∈ [0; 1; 2; 4]) then true else if n =? 6 then false else Z.testbit c n.
Proof.
  intros Hn. unfold configured, u8.
  assert (n = 0 ∨ n = 1 ∨ n = 2 ∨ n = 3 ∨ n = 4 ∨ n = 5 ∨ n = 6 ∨ n = 7) as H8 by lia.
  repeat (rewrite Z.mod_pow2_bits_low by lia; rewrite ?Z.land_spec, ?Z.lor_spec).
  destruct_or! H8; subst n; repeat rewrite Z.mod_pow2_bits_low by lia; simpl;
    rewrite ?orb_true_r, ?orb_false_r, ?andb_true_r, ?andb_false_r; done.
Qed.

(** A controller that takes a command whenever it gets one; that has at most [patience] bytes
    waiting once both ports are disabled; and that does not ask for the self-test of the
    first port again.  The other bits of its status are its own affair. *)
Record ready_controller (device : trace → Z → Z) (patience : nat) : Prop := {
  rc_input : ∀ tr, Z.testbit (device tr PS2_CTRL_STATUS_REGISTER) 1 = false;
  rc_drains : ∀ tr tr', last (ps2_writes tr) = Some (PS2_CTRL_CMD_REGISTER, PS2_CMD_DISABLE_PORT2) → ps2_writes tr' = [] →
    (patience <= length (scancodes tr'))%nat → Z.testbit (device (tr ++ tr') PS2_CTRL_STATUS_REGISTER) 0 = false;
  rc_no_resend : ∀ tr, last (ps2_writes tr) = Some (PS2_CTRL_CMD_REGISTER, PS2_CMD_PORT1_SELF_TEST) →
    u8 (device tr PS2_DATA) ≠ PS2_PORT1_RESEND
}.

Section Init.
Context (device : trace → Z → Z) (patience : nat) (Hready : ready_controller device patience).

Lemma input_ready tr :
  ∃ v, ps2_controller_input_buffer_full device tr = Ok (false, tr ++ [EIn PS2_CTRL_STATUS_REGISTER v]).
Proof.
  unfold ps2_controller_input_buffer_full. rewrite (bind_ok _ _ _ _ _ (inb_run device _ tr)).
  rewrite in_buf_full, (rc_input _ _ Hready tr). by eexists.
Qed.

Lemma out_buf_full v : negb (Z.land (u8 v) PS2_CTRL_STATUS_OUT_BUF_FULL =? 0) = Z.testbit v 0.
Proof.
  unfold u8. change PS2_CTRL_STATUS_OUT_BUF_FULL with (Z.ones 1). rewrite Z.land_ones by done.
  rewrite <- (Z.mod_pow2_bits_low v 8 0) by done. change (2 ^ 1) with 2.
  generalize (v mod 2 ^ 8). intros x. rewrite <- Z.bit0_mod. by destruct (Z.testbit x 0).
Qed.

Lemma wp_send_cmd cmd Q tr :
  is_u8 cmd →
  (∀ tr', ps2_writes tr' = ps2_writes tr ++ [(PS2_CTRL_CMD_REGISTER, cmd)] → Q tt tr') →
  wp (ps2_controller_send_cmd device (S patience) cmd) Q tr.
Proof.
  intros Hc HQ. apply wp_bind. unfold ps2_controller_wait_ready_for_cmd. cbn [wait_ready_loop].
  destruct (input_ready tr) as [v E].
  eapply wp_of_ok; [by rewrite (bind_ok _ _ _ _ _ E)|]. cbn beta. apply wp_outb, HQ.
  rewrite !ps2_writes_app, app_nil_r, (u8_small cmd Hc). done.
Qed.

Lemma wp_data_write v Q tr :
  is_u8 v → (∀ tr', ps2_writes tr' = ps2_writes tr ++ [(PS2_DATA, v)] → Q tt tr') →
  wp (outb PS2_DATA v) Q tr.
Proof. intros Hv HQ. apply wp_outb, HQ. by rewrite ps2_writes_app, (u8_small v Hv). Qed.

Lemma wp_log_ps2 level fmt args Q tr :
  (∀ tr', ps2_writes tr' = ps2_writes tr → Q tt tr') → wp (log level fmt args) Q tr.
Proof. intros HQ. apply wp_log, HQ. by rewrite ps2_writes_app, app_nil_r. Qed.

Lemma wp_read_ps2 port Q tr :
  (∀ tr' v, v = u8 (device tr port) → ps2_writes tr' = ps2_writes tr → Q v tr') → wp (inb device port) Q tr.
Proof. intros HQ. apply wp_inb, HQ; [done|]. by rewrite ps2_writes_app, app_nil_r. Qed.

Lemma configured_u8 c : is_u8 (configured c).
Proof. apply u8_range. Qed.

Lemma wp_controller_self_test config Q tr :
  is_u8 config →
  (∀ tr', ps2_writes tr' = ps2_writes tr ++
     [(PS2_CTRL_CMD_REGISTER, PS2_CMD_CTRL_SELF_TEST); (PS2_DATA, config)] → Q tt tr') →
  wp (ps2_controller_self_test device (S patience) config) Q tr.
Proof.
  intros Hc HQ. unfold ps2_controller_self_test.
  apply wp_bind, wp_send_cmd; [done|]. intros tr1 W1. apply wp_bind, wp_read_ps2. intros tr2 err _ W2.
  apply wp_bind. apply (wp_mono _ (λ _ tr', ps2_writes tr' = ps2_writes tr2)).
  { destruct (negb _); by apply wp_log_ps2. }
  cbn beta. intros _ tr3 W3. apply wp_data_write; [done|]. intros tr4 W4. apply HQ.
  by rewrite W4, W3, W2, W1, <- app_assoc.
Qed.

(** Emptying the output buffer, with [k] bytes read. *)
Lemma flush_loop_ok fuel tr tr' :
  last (ps2_writes tr) = Some (PS2_CTRL_CMD_REGISTER, PS2_CMD_DISABLE_PORT2) → ps2_writes tr' = [] →
  (patience <= fuel + length (scancodes tr'))%nat →
  wp (flush_loop device (S fuel)) (λ _ tr2, ps2_writes tr2 = ps2_writes tr) (tr ++ tr').
Proof.
  intros Hlast. revert tr'. induction fuel as [|fuel IH]; intros tr' Hw Hn;
    cbn [flush_loop]; apply wp_bind; unfold ps2_controller_output_buffer_full; apply wp_bind, wp_inb, wp_ret;
    rewrite out_buf_full.
  - rewrite (rc_drains _ _ Hready tr tr' Hlast Hw Hn). apply wp_ret.
    by rewrite !ps2_writes_app, Hw, !app_nil_r.
  - destruct (Z.testbit _ 0); [|apply wp_ret; by rewrite !ps2_writes_app, Hw, !app_nil_r].
    apply wp_bind, wp_inb. rewrite <- !app_assoc. apply IH; [by rewrite !ps2_writes_app, Hw|].
    rewrite !scancodes_app, !length_app. simpl. lia.
Qed.

Lemma wp_interface_self_test Q tr :
  (∀ tr', ps2_writes tr' = ps2_writes tr ++ [(PS2_CTRL_CMD_REGISTER, PS2_CMD_PORT1_SELF_TEST)] → Q tt tr') →
  wp (ps2_interface_self_test device (S patience)) Q tr.
Proof.
  intros HQ. unfold ps2_interface_self_test. apply wp_bind, wp_send_cmd; [done|]. intros tr5 W5.
  apply wp_bind, wp_read_ps2. intros tr6 _ _ W6. apply wp_bind. cbn [self_test_loop].
  apply wp_bind, wp_read_ps2. intros tr7 v Hv W7. rewrite (proj2 (Z.eqb_neq v _)).
  2:{ rewrite Hv. apply (rc_no_resend _ _ Hready). by rewrite W6, W5, last_snoc. }
  apply wp_ret. apply (wp_mono _ (λ _ tr', ps2_writes tr' = ps2_writes tr7)).
  { destruct (negb _); by apply wp_log_ps2. }
  cbn beta. intros [] tr8 W8. apply HQ. by rewrite W8, W7, W6, W5.
Qed.

(** The bytes that ps2_init_devices writes. *)
Definition init_writes (config : Z) : list (Z * Z) :=
  [(PS2_CTRL_CMD_REGISTER, PS2_CMD_DISABLE_PORT1); (PS2_CTRL_CMD_REGISTER, PS2_CMD_DISABLE_PORT2);
   (PS2_CTRL_CMD_REGISTER, PS2_CMD_CTRL_WRITE_CONFIG_BYTE); (PS2_DATA, config);
   (PS2_CTRL_CMD_REGISTER, PS2_CMD_CTRL_SELF_TEST); (PS2_DATA, config);
   (PS2_CTRL_CMD_REGISTER, PS2_CMD_PORT1_SELF_TEST);
   (PS2_CTRL_CMD_REGISTER, PS2_CMD_ENABLE_PORT1); (PS2_CTRL_CMD_REGISTER, PS2_CMD_ENABLE_PORT2)].

Lemma ps2_init_ok s :
  wp (ps2_init_devices device (S patience))
     (λ _ s', (∃ tr, ps2_writes (ps2_io s') =
          ps2_writes (ps2_io s) ++ init_writes (configured (u8 (device tr PIC1_CONTROL)))) ∧
        queue_start (scancode_queue_ctx s') = 0 ∧ queue_end (scancode_queue_ctx s') = 0) s.
Proof.
  apply wp_bind, wp_modify, wp_zoom. cbn [ps2_io scancode_queue_ctx].
  apply wp_bind, wp_send_cmd; [done|]. intros tr1 W1. apply wp_bind, wp_send_cmd; [done|]. intros tr2 W2.
  apply wp_bind. unfold ps2_flush_controller_output_buffer. pose proof (flush_loop_ok patience tr2 []) as Wf.
  rewrite app_nil_r in Wf. eapply wp_mono; [apply Wf; [by rewrite W2, last_snoc|done|simpl; lia]|].
  cbn beta. intros _ tr3 W3. apply wp_bind.
  unfold ps2_controller_configure. apply wp_bind, wp_read_ps2. intros tr4 v4 Hv4 W4.
  apply wp_bind, wp_send_cmd; [done|]. intros tr5 W5.
  apply wp_bind, wp_data_write; [apply configured_u8|]. intros tr6 W6. apply wp_ret.
  apply wp_bind, wp_controller_self_test; [apply configured_u8|]. intros tr7 W7.
  apply wp_bind, wp_interface_self_test. intros tr8 W8.
  apply wp_bind, wp_send_cmd; [done|]. intros tr9 W9. apply wp_send_cmd; [done|]. intros tr10 W10.
  cbn [ps2_io scancode_queue_ctx queue_start queue_end]. split_and!; [|done|done]. exists tr3.
  rewrite W10, W9, W8, W7, W6, W5, W4, W3, W2, W1, Hv4, <- !app_assoc. done.
Qed.

(** C34: with a controller that takes commands at once, has only so many bytes waiting, and
    does not ask for the port's self-test again, ps2_init_devices returns with the queue
    empty; it has written exactly this, in this order: the commands that disable the first
    and the second port, the command to write the configuration and the configuration byte,
    the command of the controller's self-test and the byte again, the command of the first
    port's self-test, and the commands that enable the first and the second port.  The byte
    has the interrupts of both ports, the system flag and bit 4 on and the translation off;
    its bits 3, 5 and 7 are read from port 0x20, the control port of the first interrupt
    controller, instead of from the keyboard controller. *)
Theorem ps2_init_programs s :
  wp (ps2_init_devices device (S patience))
     (λ _ s', ∃ tr,
        let config := configured (u8 (device tr PIC1_CONTROL)) in
        ps2_writes (ps2_io s') = ps2_writes (ps2_io s) ++
          init_writes config ∧
        (∀ n, 0 <= n < 8 → Z.testbit config n =
           if bool_decide (n ∈ [0; 1; 2; 4]) then true
           else if n =? 6 then false else Z.testbit (u8 (device tr PIC1_CONTROL)) n) ∧
        queue_start (scancode_queue_ctx s') = 0 ∧ queue_end (scancode_queue_ctx s') = 0) s.
Proof.
  eapply wp_mono; [apply ps2_init_ok|]. cbn beta. intros _ s' [[tr Hw] [? ?]]. exists tr.
  split_and!; [done|apply configured_bits|done|done].
Qed.

End Init.


(** ** Witnesses *)

Definition ps2_0 : ps2_state := mk_ps2 (mk_queue 0 0 (replicate 10 0)) [].
Definition busy3 (tr : trace) (port : Z) : Z := if bool_decide (status_reads tr < 3)%nat then 2 else 0.
Definition idle (tr : trace) (port : Z) : Z := 0.

(** Three bytes are waiting; the system flag is on. *)
Definition waiting3 (tr : trace) (port : Z) : Z :=
  if port =? PS2_CTRL_STATUS_REGISTER then if bool_decide (length (scancodes tr) < 3)%nat then 5 else 4 else 0.

Lemma waiting3_ready : ready_controller waiting3 3.
Proof.
  split; intros tr; unfold waiting3; cbn [Z.eqb Pos.eqb PS2_CTRL_STATUS_REGISTER PS2_DATA].
  - by case_bool_decide.
  - intros tr' _ _ Hn. rewrite bool_decide_eq_false_2; [done|]. rewrite scancodes_app, length_app. lia.
  - done.
Qed.

Lemma idle_ready patience : ready_controller idle patience.
Proof. by split. Qed.

Lemma ps2_wait_polls_witness :
  wp (ps2_controller_wait_ready_for_cmd busy3 4) (λ _ tr', warnings tr' = 3%nat) [] ∧
  ps2_controller_wait_ready_for_cmd busy3 3 [] = Err EFuel.
Proof.
  assert (Hb : busy_for busy3 3) by (intros tr; unfold busy3; case_bool_decide; done).
  split.
  - eapply wp_mono; [apply (ps2_wait_polls busy3 3 4 [] Hb); vm_compute; lia|].
    cbn beta. by intros _ tr' (_ & -> & _).
  - exact (ps2_wait_polls busy3 3 3 [] Hb ltac:(vm_compute; lia)).
Defined.

Lemma ps2_queue_last_ten_witness :
  wp (for_range 12 0 (λ _, ps2_handle_irq1 idle))
     (λ _ s', ∃ codes, length codes = 12%nat ∧ queue_holds (scancode_queue_ctx s') codes) ps2_0.
Proof.
  eapply wp_mono; [apply (ps2_queue_last_ten idle 12 ps2_0)|].
  - split_and!; [done|done|done|]. intros i c Hi. by rewrite lookup_nil in Hi.
  - cbn beta. intros _ s' (codes & H1 & _ & H2). by exists codes.
Defined.

Lemma ps2_init_programs_witness :
  wp (ps2_init_devices waiting3 4)
     (λ _ s', (PS2_DATA, 0x17) ∈ ps2_writes (ps2_io s')) ps2_0.
Proof.
  eapply wp_mono; [apply (ps2_init_programs waiting3 3 waiting3_ready ps2_0)|].
  cbn beta zeta. intros _ s' (tr & -> & _). set_solver.
Defined.
