(* ===== verification/Sched.v ===== *)
(** * The scheduler: sched.c, with the task switch of arch/i386/task_switch.S

    The tasks wait in a circular list of nodes from kmalloc.  [tasks_sched_head] is
    the node whose task runs next.  As in Vmm, the nodes live in a store by address
    over the heap interface; the task control blocks are a second map.  Of the
    processor the model has what do_task_switch saves and loads. *)

From S2P Require Import Prelude Allocator Kmalloc Vmm Paging.

Definition INIT_PID : Z := 1.

Record task_control_block : Type := mk_task {
  pid : Z;
  kernel_stack_top : Z;
  virtual_addr_space : Z;
  esp0 : Z;
  task_vmm_context : vmm_context;
  task_paging_ctx : paging_context;
  task_parent : Z
}.

Inductive task_priority : Type := TASK_PRIORITY_LOW.

Record task_list : Type := mk_task_list {
  tl_task : Z;
  tl_priority : task_priority;
  tl_next : Z
}.

Definition sizeof_task_list : Z := 12.

(** The registers and the field of the task state segment that a switch sets. *)
Record cpu_state : Type := mk_cpu_state { cpu_esp : Z; cpu_cr3 : Z; tss_esp0 : Z }.

Record sched_store (H : Type) : Type := SchedStore {
  ss_heap : H;
  ss_tasks : gmap Z task_control_block;
  ss_lists : gmap Z task_list;
  tasks_head : Z;
  tasks_tail : Z;
  tasks_sched_head : Z;
  CURRENT_TASK : task_list;
  SCHED_INIT : Z;
  ss_cpu : cpu_state
}.
Arguments SchedStore {H} _ _ _ _ _ _ _ _ _.
Arguments ss_heap {H} _.
Arguments ss_tasks {H} _.
Arguments ss_lists {H} _.
Arguments tasks_head {H} _.
Arguments tasks_tail {H} _.
Arguments tasks_sched_head {H} _.
Arguments CURRENT_TASK {H} _.
Arguments SCHED_INIT {H} _.
Arguments ss_cpu {H} _.

Section Operations.
Context {H : Type} `{Allocator H}.
Notation SM := (M (sched_store H)).
Implicit Types s : sched_store H.

Definition with_heap (h : H) s : sched_store H :=
  SchedStore h (ss_tasks s) (ss_lists s) (tasks_head s) (tasks_tail s) (tasks_sched_head s)
             (CURRENT_TASK s) (SCHED_INIT s) (ss_cpu s).
Definition with_lists (l : gmap Z task_list) s : sched_store H :=
  SchedStore (ss_heap s) (ss_tasks s) l (tasks_head s) (tasks_tail s) (tasks_sched_head s)
             (CURRENT_TASK s) (SCHED_INIT s) (ss_cpu s).
Definition with_head (p : Z) s : sched_store H :=
  SchedStore (ss_heap s) (ss_tasks s) (ss_lists s) p (tasks_tail s) (tasks_sched_head s)
             (CURRENT_TASK s) (SCHED_INIT s) (ss_cpu s).
Definition with_tail (p : Z) s : sched_store H :=
  SchedStore (ss_heap s) (ss_tasks s) (ss_lists s) (tasks_head s) p (tasks_sched_head s)
             (CURRENT_TASK s) (SCHED_INIT s) (ss_cpu s).
Definition with_sched_head (p : Z) s : sched_store H :=
  SchedStore (ss_heap s) (ss_tasks s) (ss_lists s) (tasks_head s) (tasks_tail s) p
             (CURRENT_TASK s) (SCHED_INIT s) (ss_cpu s).
Definition with_current (c : task_list) s : sched_store H :=
  SchedStore (ss_heap s) (ss_tasks s) (ss_lists s) (tasks_head s) (tasks_tail s) (tasks_sched_head s)
             c (SCHED_INIT s) (ss_cpu s).

Definition load_list (p : Z) : SM task_list := λ s,
  match ss_lists s !! p with Some n => Ok (n, s) | None => Err (EFault p) end.
Definition load_task (p : Z) : SM task_control_block := λ s,
  match ss_tasks s !! p with Some t => Ok (t, s) | None => Err (EFault p) end.
Definition set_next (p q : Z) : SM unit :=
  n ← load_list p;
  modify (λ s, with_lists (<[p := mk_task_list (tl_task n) (tl_priority n) q]> (ss_lists s)) s).

(** kfree(p) *)
Definition free_list (p : Z) : SM unit :=
  _ ← zoom ss_heap with_heap (free p);
  modify (λ s, with_lists (delete p (ss_lists s)) s).

(** do_task_switch(next): four registers are pushed and the stack pointer is saved
    in the current task; the next task becomes the current one, its stack pointer,
    page directory and interrupt stack are loaded, and four registers are popped.  What the
    registers hold, and the interrupt flag (cli, sti), are not part of the state. *)
Definition do_task_switch (next : Z) : SM unit :=
  s ← get;
  let cur := tl_task (CURRENT_TASK s) in
  t ← load_task cur;
  let saved := u32 (cpu_esp (ss_cpu s) - 16) in
  _ ← modify (λ s, SchedStore (ss_heap s)
        (<[cur := mk_task (pid t) saved (virtual_addr_space t) (esp0 t) (task_vmm_context t)
                          (task_paging_ctx t) (task_parent t)]> (ss_tasks s))
        (ss_lists s) (tasks_head s) (tasks_tail s) (tasks_sched_head s)
        (mk_task_list next (tl_priority (CURRENT_TASK s)) (tl_next (CURRENT_TASK s)))
        (SCHED_INIT s) (ss_cpu s));
  n ← load_task next;
  modify (λ s, SchedStore (ss_heap s) (ss_tasks s) (ss_lists s) (tasks_head s) (tasks_tail s)
        (tasks_sched_head s) (CURRENT_TASK s) (SCHED_INIT s)
        (mk_cpu_state (u32 (kernel_stack_top n + 16)) (virtual_addr_space n) (esp0 n))).

Definition sched_switch_task (next : Z) : SM unit := do_task_switch next.

(** init_sched, from the task that task_create made on. *)
Definition sched_start (task : Z) : SM unit :=
  p ← zoom ss_heap with_heap (malloc sizeof_task_list);
  _ ← modify (λ s, with_sched_head p (with_head p (with_tail p s)));
  _ ← (if p =? 0 then throw (EFault 0)
       else modify (λ s, with_lists (<[p := mk_task_list task TASK_PRIORITY_LOW p]> (ss_lists s)) s));
  n ← load_list p;
  _ ← modify (with_current n);
  _ ← sched_switch_task (tl_task n);
  modify (λ s, SchedStore (ss_heap s) (ss_tasks s) (ss_lists s) (tasks_head s) (tasks_tail s)
                 (tasks_sched_head s) (CURRENT_TASK s) 1 (ss_cpu s)).

Definition sched_add (task : Z) (priority : task_priority) : SM unit :=
  p ← zoom ss_heap with_heap (malloc sizeof_task_list);
  s ← get;
  tail ← load_list (tasks_tail s);
  _ ← (if p =? 0 then throw (EFault 0)
       else modify (λ s, with_lists (<[p := mk_task_list task priority (tl_next tail)]> (ss_lists s)) s));
  _ ← set_next (tasks_tail s) p;
  modify (with_tail p).

(** task->task->pid *)
Definition list_pid (p : Z) : SM Z := n ← load_list p; t ← load_task (tl_task n); mret (pid t).

(** The do-while loop of sched_remove; [prev] is the node of the round before. *)
Fixpoint sched_remove_loop (fuel : nat) (wanted prev : Z) : SM unit :=
  match fuel with
  | O => throw EFuel
  | S fuel =>
      s ← get;
      tail ← load_list (tasks_tail s);
      let task := tl_next tail in
      q ← list_pid task;
      if q =? wanted then
        n ← load_list task;
        _ ← set_next prev (tl_next n);
        _ ← (if task =? tasks_head s then modify (with_head (tl_next n)) else mret tt);
        free_list task
      else if negb (task =? tasks_tail s) then sched_remove_loop fuel wanted task
      else panic "task %u not found"
  end.

(** The loop visits no node twice unless it never ends. *)
Definition list_fuel (s : sched_store H) : nat := S (size (ss_lists s)).

Definition sched_remove (wanted : Z) : SM unit :=
  if (wanted =? 0) || (wanted =? INIT_PID) then panic "cannot remove task (PID=%u)"
  else
    s ← get;
    let task := tasks_tail s in
    q ← list_pid task;
    if q =? wanted then
      n ← load_list task;
      _ ← modify (with_tail (tl_next n));
      _ ← set_next (tasks_head s) (tl_next n);
      free_list task
    else sched_remove_loop (list_fuel s) wanted task.

Definition sched_context_switch : SM unit :=
  s ← get;
  n ← load_list (tasks_sched_head s);
  _ ← modify (with_sched_head (tl_next n));
  sched_switch_task (tl_task n).

End Operations.

(** ** The ring of tasks *)

Section Ring.
Context {H : Type} `{Allocator H}.
Implicit Types (s : sched_store H) (l ts : list Z).

(** [l] are the nodes in the order of their links, which close to a circle, and
    [ts] their tasks. *)
Definition ring (lists : gmap Z task_list) l ts : Prop :=
  NoDup l ∧ length ts = length l ∧
  ∀ i a, l !! i = Some a → ∃ n, lists !! a = Some n ∧ ts !! i = Some (tl_task n) ∧
                                l !! (S i mod length l)%nat = Some (tl_next n).

Definition nodes_owned s : Prop :=
  ∃ L, owns (ss_heap s) L ∧ ∀ p, is_Some (ss_lists s !! p) → L !! p = Some sizeof_task_list.

Definition sched_ok s l ts : Prop :=
  ring (ss_lists s) l ts ∧ nodes_owned s ∧
  head l = Some (tasks_head s) ∧ last l = Some (tasks_tail s) ∧
  (∀ t, t ∈ ts → is_Some (ss_tasks s !! t)) ∧ is_Some (ss_tasks s !! tl_task (CURRENT_TASK s)).

Lemma wp_load_list p n Q s : ss_lists s !! p = Some n → Q n s → wp (load_list p) Q s.
Proof. unfold wp, load_list. by intros ->. Qed.
Lemma wp_load_task p t Q s : ss_tasks s !! p = Some t → Q t s → wp (load_task p) Q s.
Proof. unfold wp, load_task. by intros ->. Qed.
Lemma wp_set_list_next p q n Q s :
  ss_lists s !! p = Some n →
  Q tt (with_lists (<[p := mk_task_list (tl_task n) (tl_priority n) q]> (ss_lists s)) s) →
  wp (set_next p q) Q s.
Proof. intros. apply wp_bind. by eapply wp_load_list. Qed.

Lemma malloc_list s :
  nodes_owned s → can_malloc (ss_heap s) sizeof_task_list →
  ∃ p h, malloc sizeof_task_list (ss_heap s) = Ok (p, h) ∧ p ≠ 0 ∧ ss_lists s !! p = None ∧
    ∀ n, nodes_owned (with_lists (<[p := n]> (ss_lists s)) (with_heap h s)).
Proof.
  intros (L & Ho & HL) Hcan.
  assert (Hsz : 0 <= sizeof_task_list < 2 ^ 32 - 8) by (unfold sizeof_task_list; lia).
  pose proof (wp_and _ _ _ _ Hcan (malloc_spec _ _ _ Ho Hsz)) as W.
  apply wp_ok in W as (p & h & E & Hnz & [[-> _]|(Hp & Hf & Ho' & _)]); [done|]. exists p, h. split_and!; [done..| |].
  - apply eq_None_not_Some. intros Hs%HL. congruence.
  - intros n. exists (<[p := sizeof_task_list]> L). split; [done|]. intros q. simpl.
    rewrite !lookup_insert. case_decide; [done|apply HL].
Qed.

Lemma wp_free_list p n Q s :
  nodes_owned s → ss_lists s !! p = Some n →
  (∀ h, let s' := with_lists (delete p (ss_lists s)) (with_heap h s) in nodes_owned s' → Q tt s') →
  wp (free_list p) Q s.
Proof.
  intros (L & Ho & HL) Hp HQ. apply wp_bind, wp_zoom.
  assert (Hpl : L !! p = Some sizeof_task_list) by (apply HL; eauto).
  eapply wp_mono; [by apply (free_spec _ _ _ _ Ho Hpl)|]. cbn beta. intros [] h Ho'.
  apply wp_modify, HQ. exists (delete p L). split; [done|]. intros q. simpl.
  rewrite !lookup_delete. case_decide; [by intros []|apply HL].
Qed.

Lemma ring_lookup lists l ts i a :
  ring lists l ts → l !! i = Some a →
  ∃ n, lists !! a = Some n ∧ ts !! i = Some (tl_task n) ∧ l !! (S i mod length l)%nat = Some (tl_next n).
Proof. intros (_ & _ & Hr) Hi. by apply Hr. Qed.

(** The tail and the node behind it, which is the head. *)
Lemma ring_tail s l ts :
  sched_ok s l ts →
  ∃ n, ss_lists s !! tasks_tail s = Some n ∧ tl_next n = tasks_head s ∧
       l !! (length l - 1)%nat = Some (tasks_tail s) ∧ ts !! (length l - 1)%nat = Some (tl_task n).
Proof.
  intros (Hr & _ & Hh & Ht & _). rewrite last_lookup in Ht. rewrite head_lookup in Hh.
  replace (pred (length l)) with (length l - 1)%nat in Ht by lia.
  destruct (ring_lookup _ _ _ _ _ Hr Ht) as (n & Hn & Htk & Hnx). exists n. split_and!; [done| |done|done].
  apply lookup_lt_Some in Ht as Hlt. replace (S (length l - 1)) with (length l) in Hnx by lia.
  rewrite Nat.Div0.mod_same in Hnx. congruence.
Qed.

(** ** Adding a task *)

Lemma ring_add lists l ts tail p t prio n :
  ring lists l ts → last l = Some tail → lists !! tail = Some n → lists !! p = None → p ∉ l →
  ring (<[tail := mk_task_list (tl_task n) (tl_priority n) p]>
         (<[p := mk_task_list t prio (tl_next n)]> lists)) (l ++ [p]) (ts ++ [t]).
Proof.
  intros (Hnd & Hlen & Hr) Ht Hn Hp Hpl. rewrite last_lookup in Ht.
  apply lookup_lt_Some in Ht as Hlt. assert (Htl : tail ≠ p) by congruence.
  split_and!.
  - apply NoDup_app. split_and!; [done|set_solver|apply NoDup_singleton].
  - rewrite !length_app. simpl. lia.
  - intros i a Hi. rewrite length_app, Nat.add_1_r. cbn [length].
    destruct (decide (i < length l)%nat) as [Hil|Hil].
    + rewrite lookup_app_l in Hi by done. destruct (Hr i a Hi) as (m & Hm & Htm & Hnx).
      rewrite (Nat.mod_small (S i)) by lia. rewrite lookup_app_l by lia.
      destruct (decide (i = pred (length l))) as [->|Hne].
      * assert (a = tail) as -> by congruence. assert (m = n) as -> by congruence.
        rewrite lookup_insert_eq. eexists. split_and!; [done|done|].
        replace (S (pred (length l))) with (length l) by lia. by apply list_lookup_middle.
      * assert (a ≠ tail) by (intros ->; apply Hne; by eapply NoDup_lookup).
        assert (a ≠ p) by (intros ->; apply Hpl; by eapply list_elem_of_lookup_2).
        rewrite !lookup_insert_ne by done. exists m. split_and!; [done|done|].
        rewrite (Nat.mod_small (S i)) in Hnx by lia. by apply lookup_app_l_Some.
    + apply lookup_lt_Some in Hi as Hi2. rewrite length_app in Hi2. simpl in Hi2.
      assert (i = length l) as -> by lia. rewrite list_lookup_middle in Hi by done. simplify_eq.
      rewrite lookup_insert_ne, lookup_insert_eq by done. eexists. split_and!; [done| |].
      * rewrite <- Hlen. by apply list_lookup_middle.
      * rewrite Nat.Div0.mod_same. destruct (Hr _ _ Ht) as (m & Hm & _ & Hnx).
        assert (m = n) as -> by congruence. replace (S (pred (length l))) with (length l) in Hnx by lia.
        rewrite Nat.Div0.mod_same in Hnx. simpl. by apply lookup_app_l_Some.
Qed.

(** sched_add, whatever the heap promises of the new node: it is linked behind the last one. *)
Lemma sched_add_links (R : Z → H → Prop) s l ts task prio :
  ring (ss_lists s) l ts → head l = Some (tasks_head s) → last l = Some (tasks_tail s) →
  wp (malloc sizeof_task_list) (λ p h, p ≠ 0 ∧ ss_lists s !! p = None ∧ R p h) (ss_heap s) →
  wp (sched_add task prio)
     (λ _ s', ∃ p h lists, R p h ∧ p ∉ l ∧ s' = with_tail p (with_lists lists (with_heap h s)) ∧
        ring lists (l ++ [p]) (ts ++ [task]) ∧ ∀ q, is_Some (lists !! q) → q = p ∨ is_Some (ss_lists s !! q)) s.
Proof.
  intros Hr Hh Ht Hm. rewrite last_lookup in Ht. destruct (ring_lookup _ _ _ _ _ Hr Ht) as (n & Hn & _ & Hnx).
  rewrite <- last_lookup in Ht. unfold sched_add. apply wp_bind, wp_zoom. eapply wp_mono; [exact Hm|].
  cbn beta. intros p h (Hp0 & Hp & HR).
  apply wp_bind, wp_get, wp_bind. eapply wp_load_list; [exact Hn|].
  rewrite (proj2 (Z.eqb_neq p 0)) by done. apply wp_bind, wp_modify, wp_bind.
  eapply wp_set_list_next; [simpl; rewrite lookup_insert_ne by congruence; exact Hn|]. apply wp_modify.
  assert (Hpl : p ∉ l).
  { intros [i Hi]%list_elem_of_lookup. destruct (ring_lookup _ _ _ _ _ Hr Hi) as (m & Hm' & _). congruence. }
  exists p, h. eexists. split_and!; [exact HR|exact Hpl|reflexivity| |].
  - by apply ring_add.
  - intros q. simpl. rewrite !lookup_insert. repeat case_decide; subst; eauto.
Qed.

(** C36: sched_add puts the task at the end of the ring; the running task and the one to
    run next stay the same. *)
Theorem sched_add_appends s l ts task prio :
  sched_ok s l ts → can_malloc (ss_heap s) sizeof_task_list → is_Some (ss_tasks s !! task) →
  wp (sched_add task prio)
     (λ _ s', ∃ p, p ∉ l ∧ sched_ok s' (l ++ [p]) (ts ++ [task]) ∧ tasks_tail s' = p ∧
        tasks_head s' = tasks_head s ∧ tasks_sched_head s' = tasks_sched_head s ∧
        CURRENT_TASK s' = CURRENT_TASK s ∧ ss_tasks s' = ss_tasks s) s.
Proof.
  intros (Hr & Hown & Hh & Ht & Htasks & Hcur) Hcan Htask. eapply wp_mono.
  { eapply (sched_add_links (λ p h, ∀ n, nodes_owned (with_lists (<[p := n]> (ss_lists s)) (with_heap h s))));
      [exact Hr|exact Hh|exact Ht|].
    destruct (malloc_list s Hown Hcan) as (p & h & E & Hp). by eapply wp_of_ok. }
  cbn beta. intros _ s' (p & h & lists & Hown' & Hpl & -> & Hr' & Hl'). exists p. split_and!; [done| |done..].
  split_and!; [exact Hr'| |by destruct l|apply last_snoc| |done].
  - destruct (Hown' (mk_task_list 0 TASK_PRIORITY_LOW 0)) as (L & Ho & HL). exists L. split; [exact Ho|]. intros q Hq.
    apply HL. simpl. rewrite lookup_insert. case_decide; [by eexists|]. apply Hl' in Hq as [?|?]; [by subst|done].
  - intros t [Ht'| ->%list_elem_of_singleton]%elem_of_app; auto.
Qed.

(** ** Switching *)

Lemma do_task_switch_ok next t n s :
  ss_tasks s !! tl_task (CURRENT_TASK s) = Some t → ss_tasks s !! next = Some n →
  wp (do_task_switch next)
     (λ _ s', ∃ tasks n', s' = SchedStore (ss_heap s) tasks (ss_lists s) (tasks_head s) (tasks_tail s)
          (tasks_sched_head s)
          (mk_task_list next (tl_priority (CURRENT_TASK s)) (tl_next (CURRENT_TASK s)))
          (SCHED_INIT s) (mk_cpu_state (u32 (kernel_stack_top n' + 16)) (virtual_addr_space n') (esp0 n')) ∧
        tasks = <[tl_task (CURRENT_TASK s) := mk_task (pid t) (u32 (cpu_esp (ss_cpu s) - 16))
                    (virtual_addr_space t) (esp0 t) (task_vmm_context t) (task_paging_ctx t)
                    (task_parent t)]> (ss_tasks s) ∧
        tasks !! next = Some n') s.
Proof.
  intros Ht Hn. apply wp_bind, wp_get, wp_bind. eapply wp_load_task; [exact Ht|].
  set (t' := mk_task _ _ _ _ _ _ _).
  apply wp_bind, wp_modify, wp_bind. set (tasks := <[_ := t']> (ss_tasks s)).
  destruct (decide (next = tl_task (CURRENT_TASK s))) as [->|Hne].
  - eapply wp_load_task; [simpl; apply lookup_insert_eq|]. apply wp_modify. simpl.
    exists tasks, t'. split_and!; [done|done|]. apply lookup_insert_eq.
  - eapply wp_load_task; [simpl; rewrite lookup_insert_ne by done; exact Hn|]. apply wp_modify. simpl.
    exists tasks, n. split_and!; [done|done|]. unfold tasks. by rewrite lookup_insert_ne by done.
Qed.

Lemma sched_context_switch_ok s l ts i :
  sched_ok s l ts → l !! i = Some (tasks_sched_head s) →
  wp sched_context_switch
     (λ _ s', sched_ok s' l ts ∧ l !! (S i mod length l)%nat = Some (tasks_sched_head s') ∧
              ts !! i = Some (tl_task (CURRENT_TASK s')) ∧ SCHED_INIT s' = SCHED_INIT s) s.
Proof.
  intros (Hr & Hown & Hh & Hl & Htasks & Hcur) Hi.
  destruct (ring_lookup _ _ _ _ _ Hr Hi) as (n & Hn & Htn & Hnx).
  unfold sched_context_switch. apply wp_bind, wp_get, wp_bind. eapply wp_load_list; [exact Hn|].
  apply wp_bind, wp_modify. destruct Hcur as [t Ht].
  destruct (Htasks (tl_task n)) as [m Hm]; [by eapply list_elem_of_lookup_2|].
  eapply wp_mono; [by apply (do_task_switch_ok (tl_task n) t m)|]. cbn beta.
  intros _ s' (tasks & n' & -> & Htk & Hn'). split_and!; [|done|done|done].
  assert (Hsome : ∀ x, is_Some (ss_tasks s !! x) → is_Some (tasks !! x)).
  { intros x Hx. rewrite Htk, lookup_insert. case_decide; [eauto|done]. }
  split_and!; simpl; [done|done|done|done|auto|eauto].
Qed.

(** After [z] switches from a state in which the task at place [i] was next. *)
Definition rr_at s l ts (i : nat) (z : Z) : Prop :=
  sched_ok s l ts ∧ l !! ((i + Z.to_nat z) mod length l)%nat = Some (tasks_sched_head s) ∧
  (0 < z → ts !! ((i + Z.to_nat z - 1) mod length l)%nat = Some (tl_task (CURRENT_TASK s))).

Lemma rr_start s l ts i :
  sched_ok s l ts → l !! i = Some (tasks_sched_head s) → rr_at s l ts i 0.
Proof.
  intros Hs Hi. apply lookup_lt_Some in Hi as Hlt. split_and!; [done| |lia].
  by rewrite Nat.add_0_r, Nat.mod_small.
Qed.

Lemma rr_step s l ts i z :
  0 <= z → rr_at s l ts i z →
  wp sched_context_switch (λ _ s', rr_at s' l ts i (z + 1) ∧ SCHED_INIT s' = SCHED_INIT s) s.
Proof.
  intros Hz (Hs & Hl & _). eapply wp_mono; [by apply (sched_context_switch_ok s l ts)|]. cbn beta.
  intros _ s' (Hs' & Hnx & Hcur & Hon). split; [|done]. split_and!; [done| |intros _].
  - rewrite <- Hnx. f_equal. rewrite <- (Nat.add_1_r ((i + Z.to_nat z) mod length l)), Nat.Div0.add_mod_idemp_l.
    f_equal. lia.
  - rewrite <- Hcur. f_equal. f_equal. lia.
Qed.

Lemma rr_running s l ts i (k : nat) :
  rr_at s l ts i (Z.of_nat (S k)) → ts !! ((i + k) mod length l)%nat = Some (tl_task (CURRENT_TASK s)).
Proof. intros (_ & _ & Hcur). rewrite <- Hcur by lia. f_equal. f_equal. lia. Qed.

(** C37: a task that is switched away from resumes with the stack pointer it had, on
    its own page directory and with its own interrupt stack.  What the four pushes write to
    the stack is not modelled, only that the stack pointer is where they leave it. *)
Theorem task_switch_resumes a b ta tb s :
  tl_task (CURRENT_TASK s) = a → a ≠ b → ss_tasks s !! a = Some ta → ss_tasks s !! b = Some tb →
  is_u32 (cpu_esp (ss_cpu s)) →
  wp (_ ← do_task_switch b; do_task_switch a)
     (λ _ s', tl_task (CURRENT_TASK s') = a ∧
        ss_cpu s' = mk_cpu_state (cpu_esp (ss_cpu s)) (virtual_addr_space ta) (esp0 ta) ∧
        pid <$> ss_tasks s' !! b = Some (pid tb) ∧
        kernel_stack_top <$> ss_tasks s' !! b = Some (u32 (u32 (kernel_stack_top tb + 16) - 16))) s.
Proof.
  intros Ha Hab Hta Htb Hesp. rewrite <- Ha in Hta. apply wp_bind.
  eapply wp_mono; [by apply (do_task_switch_ok b ta tb)|]. cbn beta.
  intros _ s1 (tasks & n' & -> & Htk & Hn').
  assert (n' = tb) as -> by (rewrite Htk, Ha, lookup_insert_ne in Hn'; congruence).
  eapply wp_mono.
  { apply (do_task_switch_ok a tb (mk_task (pid ta) (u32 (cpu_esp (ss_cpu s) - 16)) (virtual_addr_space ta)
      (esp0 ta) (task_vmm_context ta) (task_paging_ctx ta) (task_parent ta))); simpl; [done|].
    by rewrite Htk, Ha, lookup_insert_eq. }
  cbn beta. intros _ s2 (tasks2 & n2 & -> & Htk2 & Hn2). simpl in *.
  rewrite Htk2, lookup_insert_ne, Htk, Ha, lookup_insert_eq in Hn2 by done. injection Hn2 as <-.
  split_and!; [done| | |].
  - simpl. f_equal. unfold_width. rewrite Zplus_mod_idemp_l. f_equal. rewrite Z.sub_add.
    apply Z.mod_small. lia.
  - by rewrite Htk2, lookup_insert_eq.
  - by rewrite Htk2, lookup_insert_eq.
Qed.

(** ** Removing a task *)

(** The process id of the task at place [i] of the ring. *)
Definition pid_at s ts (i : nat) : option Z := t ← ts !! i; pid <$> ss_tasks s !! t.

Lemma list_pid_run s l ts i a q :
  ring (ss_lists s) l ts → l !! i = Some a → pid_at s ts i = Some q → list_pid a s = Ok (q, s).
Proof.
  intros Hr Hi Hq. destruct (ring_lookup _ _ _ _ _ Hr Hi) as (n & Hn & Htn & _).
  unfold pid_at in Hq. rewrite Htn in Hq. simpl in Hq. apply fmap_Some in Hq as (t & Ht & ->).
  unfold list_pid, load_list, load_task, mbind, M_bind. by rewrite Hn, Ht.
Qed.

Lemma ring_remove_head lists h l t ts tail nh nt :
  ring lists (h :: l) (t :: ts) → last l = Some tail → lists !! h = Some nh → lists !! tail = Some nt →
  ring (delete h (<[tail := mk_task_list (tl_task nt) (tl_priority nt) (tl_next nh)]> lists)) l ts.
Proof.
  intros (Hnd & Hlen & Hr) Ht Hh Htl. apply NoDup_cons in Hnd as [Hhl Hnd].
  rewrite last_lookup in Ht. apply lookup_lt_Some in Ht as Hlt.
  split_and!; [done|simpl in Hlen; lia|]. intros i a Hi.
  assert (Hah : h ≠ a) by (intros ->; apply Hhl; by eapply list_elem_of_lookup_2).
  rewrite lookup_delete_ne by done. apply lookup_lt_Some in Hi as Hil.
  destruct (Hr (S i) a Hi) as (m & Hm & Htm & Hnx). cbn [length] in Hnx.
  destruct (decide (i = pred (length l))) as [->|Hne].
  - assert (a = tail) as -> by congruence. assert (m = nt) as -> by congruence.
    rewrite lookup_insert_eq. eexists. split_and!; [done|done|]. simpl.
    replace (S (pred (length l))) with (length l) by lia. rewrite Nat.Div0.mod_same.
    destruct (Hr 0%nat h eq_refl) as (m & Hm0 & _ & Hnx0). assert (m = nh) as -> by congruence.
    cbn [length] in Hnx0. rewrite Nat.mod_small in Hnx0 by lia. exact Hnx0.
  - assert (a ≠ tail) by (intros ->; apply Hne; by eapply NoDup_lookup).
    rewrite lookup_insert_ne by done. exists m. split_and!; [done|done|].
    rewrite (Nat.mod_small (S (S i))) in Hnx by lia. rewrite (Nat.mod_small (S i)) by lia. exact Hnx.
Qed.

(** Sched_remove takes the task behind the tail, the first of the ring, out of the
    ring, releases its node and leaves the others in their order. *)
Theorem sched_remove_first s h l t ts w :
  sched_ok s (h :: l) (t :: ts) → l ≠ [] → w ≠ 0 → w ≠ INIT_PID →
  pid_at s (t :: ts) 0 = Some w → (∃ q, pid_at s (t :: ts) (length l) = Some q ∧ q ≠ w) →
  wp (sched_remove w)
     (λ _ s', sched_ok s' l ts ∧ ss_lists s' !! h = None ∧ ss_tasks s' = ss_tasks s ∧
              tasks_tail s' = tasks_tail s) s.
Proof.
  intros Hs Hl Hw0 Hw1 Hp0 (q & Hq & Hqw). pose proof Hs as (Hr & Hown & Hh & Ht & Htasks & Hcur).
  destruct (ring_tail _ _ _ Hs) as (nt & Hnt & Hnx & Htl & _). simpl in Hh. injection Hh as Hh.
  cbn [length] in Htl. replace (S (length l) - 1)%nat with (length l) in Htl by lia.
  destruct (ring_lookup _ _ _ 0 h Hr eq_refl) as (nh & Hnh & _ & Hnxh).
  assert (Htl' : last l = Some (tasks_tail s)) by (destruct l; [done|exact Ht]).
  assert (Hne : h ≠ tasks_tail s).
  { intros ->. destruct Hr as (Hnd & _). pose proof (NoDup_lookup _ 0 (length l) _ Hnd eq_refl Htl).
    destruct l; [done|simpl in *; lia]. }
  unfold sched_remove. rewrite (proj2 (Z.eqb_neq w 0)), (proj2 (Z.eqb_neq w INIT_PID)) by done.
  apply wp_bind, wp_get, wp_bind. eapply wp_of_ok; [by apply (list_pid_run _ _ _ _ _ _ Hr Htl Hq)|].
  rewrite (proj2 (Z.eqb_neq q w)) by done. unfold list_fuel. cbn [sched_remove_loop].
  apply wp_bind, wp_get, wp_bind. eapply wp_load_list; [exact Hnt|]. rewrite Hnx, <- Hh.
  apply wp_bind. eapply wp_of_ok; [by apply (list_pid_run _ _ _ _ _ _ Hr (eq_refl : (h :: l) !! 0%nat = _) Hp0)|].
  rewrite Z.eqb_refl. apply wp_bind. eapply wp_load_list; [exact Hnh|].
  apply wp_bind. eapply wp_set_list_next; [exact Hnt|].
  apply wp_bind. rewrite Z.eqb_refl. apply wp_modify.
  eapply (wp_free_list h nh).
  - destruct Hown as (L & Ho & HL). exists L. split; [done|]. intros p. simpl. rewrite lookup_insert.
    case_decide as Ep; [|apply HL]. intros _. subst p. apply HL. eauto.
  - simpl. by rewrite lookup_insert_ne.
  - intros hp s' Hown'. split_and!; [|simpl; apply lookup_delete_eq|done|done].
    split_and!; simpl; [by eapply ring_remove_head|exact Hown'| |done|intros; apply Htasks; by right|done].
    destruct l as [|h2 l2]; [done|]. cbn [length] in Hnxh. rewrite Nat.mod_small in Hnxh by lia. exact Hnxh.
Qed.

(** Sched_remove never returns for a task that is neither the first nor the last
    of the ring: its loop looks at the node behind the tail again and again. *)
Theorem sched_remove_endless s l ts w q0 q1 fuel prev :
  sched_ok s l ts → (2 <= length l)%nat →
  pid_at s ts 0 = Some q0 → q0 ≠ w → pid_at s ts (length l - 1) = Some q1 → q1 ≠ w →
  w ≠ 0 → w ≠ INIT_PID →
  sched_remove w s = Err EFuel ∧ sched_remove_loop fuel w prev s = Err EFuel.
Proof.
  intros Hs Hlen Hq0 Hn0 Hq1 Hn1 Hw0 Hw1. pose proof Hs as (Hr & _ & Hh & _).
  destruct (ring_tail _ _ _ Hs) as (nt & Hnt & Hnx & Htl & _). rewrite head_lookup in Hh.
  assert (Hne : tasks_head s ≠ tasks_tail s).
  { intros E. rewrite E in Hh. destruct Hr as (Hnd & _).
    pose proof (NoDup_lookup _ 0 (length l - 1) _ Hnd Hh Htl). lia. }
  assert (Hloop : ∀ fuel prev, sched_remove_loop fuel w prev s = Err EFuel).
  { clear fuel prev. induction fuel as [|fuel IH]; intros prev; [done|]. cbn [sched_remove_loop].
    rewrite (bind_ok _ _ _ _ _ (eq_refl : get s = Ok (s, s))).
    rewrite (bind_ok _ _ s nt s) by (unfold load_list; by rewrite Hnt).
    rewrite Hnx, (bind_ok _ _ _ _ _ (list_pid_run _ _ _ _ _ _ Hr Hh Hq0)).
    rewrite (proj2 (Z.eqb_neq q0 w)), (proj2 (Z.eqb_neq _ (tasks_tail s))) by done. apply IH. }
  split; [|apply Hloop]. unfold sched_remove.
  rewrite (proj2 (Z.eqb_neq w 0)), (proj2 (Z.eqb_neq w INIT_PID)) by done.
  cbn [orb]. rewrite (bind_ok _ _ _ _ _ (eq_refl : get s = Ok (s, s))).
  rewrite (bind_ok _ _ _ _ _ (list_pid_run _ _ _ _ _ _ Hr Htl Hq1)).
  rewrite (proj2 (Z.eqb_neq q1 w)) by done. apply Hloop.
Qed.

(** Removing the last task of the ring drops every task but the first one from the
    ring, not only the one removed: with three tasks or more the others never run
    again. *)
Theorem sched_remove_last_drops s h l t ts w :
  sched_ok s (h :: l) (t :: ts) → l ≠ [] → w ≠ 0 → w ≠ INIT_PID →
  pid_at s (t :: ts) (length l) = Some w →
  wp (sched_remove w) (λ _ s', sched_ok s' [h] [t]) s.
Proof.
  intros Hs Hl Hw0 Hw1 Hq. pose proof Hs as (Hr & Hown & Hh & Ht & Htasks & Hcur).
  destruct (ring_tail _ _ _ Hs) as (nt & Hnt & Hnx & Htl & _). simpl in Hh. injection Hh as Hh.
  cbn [length] in Htl. replace (S (length l) - 1)%nat with (length l) in Htl by lia.
  destruct (ring_lookup _ _ _ 0 h Hr eq_refl) as (nh & Hnh & Htk & _).
  assert (Hne : h ≠ tasks_tail s).
  { intros ->. destruct Hr as (Hnd & _). pose proof (NoDup_lookup _ 0 (length l) _ Hnd eq_refl Htl).
    destruct l; [done|simpl in *; lia]. }
  unfold sched_remove. rewrite (proj2 (Z.eqb_neq w 0)), (proj2 (Z.eqb_neq w INIT_PID)) by done.
  apply wp_bind, wp_get, wp_bind. eapply wp_of_ok; [by apply (list_pid_run _ _ _ _ _ _ Hr Htl Hq)|].
  rewrite Z.eqb_refl. apply wp_bind. eapply wp_load_list; [exact Hnt|]. apply wp_bind, wp_modify, wp_bind.
  rewrite <- Hh. eapply wp_set_list_next; [exact Hnh|]. eapply (wp_free_list (tasks_tail s) nt).
  - destruct Hown as (L & Ho & HL). exists L. split; [done|]. intros p. simpl. rewrite lookup_insert.
    case_decide as Ep; [|apply HL]. intros _. subst p. apply HL. eauto.
  - simpl. by rewrite lookup_insert_ne.
  - intros hp s' Hown'. assert (tl_task nh = t) as Et by (simpl in Htk; congruence).
    split_and!; simpl; [|exact Hown'|by rewrite <- Hh|by rewrite Hnx, <- Hh| |done].
    + split_and!; [apply NoDup_singleton|done|]. intros [|i] a Hi; [|done]. injection Hi as <-.
      rewrite lookup_delete_ne, lookup_insert_eq by done. eexists. split_and!; [done|by rewrite <- Et|].
      simpl. by rewrite Hnx, <- Hh.
    + intros x ->%list_elem_of_singleton. apply Htasks. by left.
Qed.

(** Sched_remove refuses to remove the first kernel task and the init task. *)
Theorem sched_remove_protected s w :
  w = 0 ∨ w = INIT_PID → sched_remove w s = Err (EPanic "cannot remove task (PID=%u)").
Proof. by intros [-> | ->]. Qed.

(** sched_start, whatever the heap promises of the new node. *)
Lemma sched_start_runs (R : Z → H → Prop) s task t :
  ss_tasks s !! task = Some t → is_u32 (cpu_esp (ss_cpu s)) →
  wp (malloc sizeof_task_list) (λ p h, p ≠ 0 ∧ R p h) (ss_heap s) →
  let t' := mk_task (pid t) (u32 (cpu_esp (ss_cpu s) - 16)) (virtual_addr_space t) (esp0 t) (task_vmm_context t)
              (task_paging_ctx t) (task_parent t) in
  wp (sched_start task)
     (λ _ s', ∃ p h, R p h ∧
        s' = SchedStore h (<[task := t']> (ss_tasks s)) (<[p := mk_task_list task TASK_PRIORITY_LOW p]> (ss_lists s)) p p p
               (mk_task_list task TASK_PRIORITY_LOW p) 1 (mk_cpu_state (cpu_esp (ss_cpu s)) (virtual_addr_space t) (esp0 t))) s.
Proof.
  intros Ht Hesp Hm t'. unfold sched_start. apply wp_bind, wp_zoom. eapply wp_mono; [exact Hm|].
  cbn beta. intros p h [Hp0 HR]. apply wp_bind, wp_modify, wp_bind. rewrite (proj2 (Z.eqb_neq p 0)) by done.
  apply wp_modify, wp_bind. eapply wp_load_list; [simpl; apply lookup_insert_eq|]. apply wp_bind, wp_modify, wp_bind.
  eapply wp_mono; [apply (do_task_switch_ok task t t); exact Ht|]. cbn beta.
  intros _ s' (tasks & n & -> & -> & Hn). apply wp_modify. exists p, h. split; [exact HR|]. simpl in *.
  rewrite lookup_insert_eq in Hn. injection Hn as <-. unfold t'. simpl. do 3 f_equal.
  unfold is_u32 in Hesp. unfold_width. rewrite Zplus_mod_idemp_l, Z.sub_add. apply Z.mod_small. lia.
Qed.

Lemma ring_single lists p task prio : lists !! p = Some (mk_task_list task prio p) → ring lists [p] [task].
Proof.
  intros Hp. split_and!; [apply NoDup_singleton|done|]. intros [|i] a Hi; [|done]. injection Hi as <-. by eexists.
Qed.

End Ring.

(** ** Witnesses *)

(** A heap with four nodes allocated, and a ring of four tasks (processes 0, 2, 3 and
    4) in it. *)
Definition after_node (k : kheap) : kheap :=
  match kmalloc sizeof_task_list k with Ok (_, k') => k' | Err _ => k end.
Definition heap4 : kheap := after_node (after_node (after_node (after_node heap0))).
Definition node4 (i : Z) : Z := KERNEL_HEAP_VIRT_START + 8 + 20 * i.

Definition task4 (p sp : Z) : task_control_block :=
  mk_task p sp 0x101000 0x8000 (VmmContext 0 0) (PagingContext 0 0) 0.

Definition ring4 : list Z := node4 <$> [0; 1; 2; 3].
Definition tasks4 : list Z := [0x500; 0x600; 0x700; 0x800].

Definition sched4 : sched_store kheap :=
  SchedStore heap4
    (list_to_map [(0x500, task4 0 0x7000); (0x600, task4 2 0x7100); (0x700, task4 3 0x7200);
                  (0x800, task4 4 0x7300)])
    (list_to_map [(node4 0, mk_task_list 0x500 TASK_PRIORITY_LOW (node4 1));
                  (node4 1, mk_task_list 0x600 TASK_PRIORITY_LOW (node4 2));
                  (node4 2, mk_task_list 0x700 TASK_PRIORITY_LOW (node4 3));
                  (node4 3, mk_task_list 0x800 TASK_PRIORITY_LOW (node4 0))])
    (node4 0) (node4 3) (node4 0) (mk_task_list 0x500 TASK_PRIORITY_LOW (node4 1)) 1
    (mk_cpu_state 0x7f00 0x101000 0x8000).

Lemma after_node_reachable k L p :
  heap_reachable k L → value (kmalloc sizeof_task_list k) = Some p → p ≠ 0 →
  heap_reachable (after_node k) (<[p := sizeof_task_list]> L).
Proof.
  intros Hk Hp Hnz. unfold after_node.
  destruct (kmalloc sizeof_task_list k) as [[q k']|] eqn:E; [|done]. injection Hp as ->.
  eapply reach_kmalloc; [exact Hk|unfold sizeof_task_list, sizeof_header; lia|done|exact E].
Qed.

Lemma heap4_reachable :
  heap_reachable heap4 (<[node4 3 := sizeof_task_list]> (<[node4 2 := sizeof_task_list]>
    (<[node4 1 := sizeof_task_list]> (<[node4 0 := sizeof_task_list]> ∅)))).
Proof.
  do 4 (apply after_node_reachable; [|vm_compute; reflexivity|by vm_compute]).
  eapply reach_init, heap0_init.
Qed.

Lemma sched4_owned : nodes_owned sched4.
Proof.
  eexists. split; [exact (heap_reachable_rep _ _ heap4_reachable)|]. intros p.
  unfold sched4. cbn [ss_lists list_to_map foldr fst snd]. rewrite !lookup_insert, lookup_empty.
  repeat case_decide; subst; try done; by intros [].
Qed.

Lemma sched4_ok : sched_ok sched4 ring4 tasks4.
Proof.
  split_and!; [|exact sched4_owned|done|done| |by vm_compute; eauto].
  - split_and!; [|done|].
    + apply (bool_decide_unpack _). by vm_compute.
    + intros i a Hi. do 4 (destruct i as [|i]; [injection Hi as <-; eexists; by vm_compute|]). done.
  - intros t Ht. unfold tasks4 in Ht. set_unfold in Ht. destruct_or! Ht; subst; vm_compute; eauto.
Qed.

Lemma sched4_can_malloc : can_malloc (ss_heap sched4) sizeof_task_list.
Proof. by vm_compute. Qed.

Lemma sched_add_appends_witness :
  wp (sched_add 0x600 TASK_PRIORITY_LOW)
     (λ _ s', ∃ p, sched_ok s' (ring4 ++ [p]) (tasks4 ++ [0x600])) sched4.
Proof.
  eapply wp_mono; [apply (sched_add_appends sched4 _ _ 0x600 TASK_PRIORITY_LOW sched4_ok sched4_can_malloc)|].
  - by vm_compute; eauto.
  - cbn beta. intros _ s' (p & _ & Hs & _). by exists p.
Defined.

Lemma task_switch_resumes_witness :
  wp (_ ← do_task_switch 0x700; do_task_switch 0x500)
     (λ _ s', cpu_esp (ss_cpu s') = 0x7f00) sched4.
Proof.
  eapply wp_mono; [apply (task_switch_resumes 0x500 0x700 (task4 0 0x7000) (task4 3 0x7200) sched4); done|].
  cbn beta. by intros _ s' (_ & -> & _).
Defined.

(** The same ring started one task later: the first task has the process id 2. *)
Definition sched4' : sched_store kheap := with_head (node4 1) (with_tail (node4 0) sched4).

Lemma sched4'_ok :
  sched_ok sched4' [node4 1; node4 2; node4 3; node4 0] [0x600; 0x700; 0x800; 0x500].
Proof.
  destruct sched4_ok as (_ & Hown & _ & _ & Ht & Hc). split_and!; [|exact Hown|done|done| |exact Hc].
  - split_and!; [|done|].
    + apply (bool_decide_unpack _). by vm_compute.
    + intros i a Hi. do 4 (destruct i as [|i]; [injection Hi as <-; eexists; by vm_compute|]). done.
  - intros t Hin. apply Ht. unfold tasks4. set_solver.
Qed.

Lemma sched_remove_first_witness :
  wp (sched_remove 2) (λ _ s', sched_ok s' [node4 2; node4 3; node4 0] [0x700; 0x800; 0x500]) sched4'.
Proof.
  eapply wp_mono; [apply (sched_remove_first sched4' (node4 1) [node4 2; node4 3; node4 0] 0x600
    [0x700; 0x800; 0x500] 2 sched4'_ok); try done; by exists 0|].
  by cbn beta; intros _ s' [Hs _].
Defined.

Lemma sched_remove_endless_witness : sched_remove 3 sched4 = Err EFuel.
Proof.
  apply (sched_remove_endless sched4 ring4 tasks4 3 0 4 0 0 sched4_ok);
    [vm_compute; lia|by vm_compute..].
Defined.

Lemma sched_remove_last_drops_witness :
  wp (sched_remove 4) (λ _ s', sched_ok s' [node4 0] [0x500]) sched4.
Proof.
  apply (sched_remove_last_drops sched4 (node4 0) [node4 1; node4 2; node4 3] 0x500
    [0x600; 0x700; 0x800] 4 sched4_ok); done.
Defined.

Lemma sched_remove_protected_witness :
  sched_remove 1 sched4 = Err (EPanic "cannot remove task (PID=%u)").
Proof. apply (sched_remove_protected sched4 1). by right. Defined.

