(* ===== verification/Elf.v ===== *)
(** * ELF headers: elf/elf.c

    elf_parse_header copies the header of a file and checks it.  The struct of the
    source is not packed, but its fields are aligned, so they are at the offsets of
    the ELF format; [header_of] reads the header from its 52 bytes and [header_bytes]
    writes it. *)

From S2P Require Import Prelude Mem CString.

Definition ELF_NIDENT : Z := 16.
Definition ELF_IDENT_MAGIC0 : Z := 0.
Definition ELF_IDENT_MAGIC1 : Z := 1.
Definition ELF_IDENT_MAGIC2 : Z := 2.
Definition ELF_IDENT_MAGIC3 : Z := 3.
Definition ELF_IDENT_CLASS : Z := 4.
Definition ELF_IDENT_DATA : Z := 5.
Definition ELF_IDENT_OSABI : Z := 7.
Definition ELF_TYPE_EXEC : Z := 2.
Definition ELF_MACHINE_386 : Z := 3.
Definition ELF_MAGIC0 : Z := 0x7f.
Definition ELF_MAGIC1 : Z := 0x45.
Definition ELF_MAGIC2 : Z := 0x4c.
Definition ELF_MAGIC3 : Z := 0x46.
Definition ELF_CLASS32 : Z := 1.
Definition ELF_DATA_LSB : Z := 1.
Definition ELF_OSABI_NONE : Z := 0.
Definition ELF_PARSE_ERR_TRUNCATED : Z := 1.
Definition ELF_PARSE_ERR_INV_IDENT : Z := 2.
Definition ELF_PARSE_ERR_INV_TYPE : Z := 3.
Definition ELF_PARSE_ERR_INV_CLASS : Z := 4.
Definition ELF_PARSE_ERR_INV_DATA : Z := 5.
Definition ELF_PARSE_ERR_INV_OSABI : Z := 6.
Definition ELF_PARSE_ERR_INV_MACHINE : Z := 7.

Definition sizeof_elf32_hdr : Z := 52.

Section Operations.
Context {St : Type} `{ByteMemory St}.

(** hdr->ident[i], hdr->type and hdr->machine. *)
Definition hdr_ident (hdr i : Z) : M St Z := load8 (hdr + i).
Definition hdr_type (hdr : Z) : M St Z := load16 (hdr + 16).
Definition hdr_machine (hdr : Z) : M St Z := load16 (hdr + 18).

(** The condition of the first if, evaluated from left to right. *)
Definition bad_magic (hdr : Z) : M St bool :=
  b0 ← hdr_ident hdr ELF_IDENT_MAGIC0;
  if negb (b0 =? ELF_MAGIC0) then mret true else
  b1 ← hdr_ident hdr ELF_IDENT_MAGIC1;
  if negb (b1 =? ELF_MAGIC1) then mret true else
  b2 ← hdr_ident hdr ELF_IDENT_MAGIC2;
  if negb (b2 =? ELF_MAGIC2) then mret true else
  b3 ← hdr_ident hdr ELF_IDENT_MAGIC3;
  mret (negb (b3 =? ELF_MAGIC3)).

Definition elf_parse_header (elf len hdr : Z) : M St Z :=
  if len <? sizeof_elf32_hdr then mret ELF_PARSE_ERR_TRUNCATED else
  _ ← memcpy hdr elf sizeof_elf32_hdr;
  bad ← bad_magic hdr;
  if bad : bool then mret ELF_PARSE_ERR_INV_IDENT else
  class ← hdr_ident hdr ELF_IDENT_CLASS;
  if negb (class =? ELF_CLASS32) then mret ELF_PARSE_ERR_INV_CLASS else
  data ← hdr_ident hdr ELF_IDENT_DATA;
  if negb (data =? ELF_DATA_LSB) then mret ELF_PARSE_ERR_INV_DATA else
  osabi ← hdr_ident hdr ELF_IDENT_OSABI;
  if negb (osabi =? ELF_OSABI_NONE) then mret ELF_PARSE_ERR_INV_OSABI else
  type ← hdr_type hdr;
  if negb (type =? ELF_TYPE_EXEC) then mret ELF_PARSE_ERR_INV_TYPE else
  machine ← hdr_machine hdr;
  if negb (machine =? ELF_MACHINE_386) then mret ELF_PARSE_ERR_INV_MACHINE else
  machine ← hdr_machine hdr;
  if negb (machine =? ELF_MACHINE_386) then mret ELF_PARSE_ERR_INV_MACHINE else
  mret 0.

End Operations.

(** ** Headers *)

Record elf32_hdr : Type := mk_elf32_hdr {
  e_ident : list Z;
  e_type : Z;
  e_machine : Z;
  e_version : Z;
  e_entry : Z;
  e_phoff : Z;
  e_shoff : Z;
  e_flags : Z;
  e_ehsize : Z;
  e_phentsize : Z;
  e_phnum : Z;
  e_shentsize : Z;
  e_shnum : Z;
  e_shstrndx : Z
}.

(** Little-endian numbers of a byte list. *)
Fixpoint le_bytes (n : nat) (v : Z) : list Z :=
  match n with O => [] | S n => v mod 2 ^ 8 :: le_bytes n (v / 2 ^ 8) end.
Fixpoint le_value (l : list Z) : Z :=
  match l with [] => 0 | b :: l => b + 2 ^ 8 * le_value l end.

Definition le_at (l : list Z) (off n : nat) : Z := le_value (take n (drop off l)).

Definition header_of (l : list Z) : elf32_hdr :=
  mk_elf32_hdr (take 16 l) (le_at l 16 2) (le_at l 18 2) (le_at l 20 4) (le_at l 24 4) (le_at l 28 4)
    (le_at l 32 4) (le_at l 36 4) (le_at l 40 2) (le_at l 42 2) (le_at l 44 2) (le_at l 46 2)
    (le_at l 48 2) (le_at l 50 2).

Definition header_bytes (h : elf32_hdr) : list Z :=
  e_ident h ++ le_bytes 2 (e_type h) ++ le_bytes 2 (e_machine h) ++ le_bytes 4 (e_version h) ++
  le_bytes 4 (e_entry h) ++ le_bytes 4 (e_phoff h) ++ le_bytes 4 (e_shoff h) ++ le_bytes 4 (e_flags h) ++
  le_bytes 2 (e_ehsize h) ++ le_bytes 2 (e_phentsize h) ++ le_bytes 2 (e_phnum h) ++
  le_bytes 2 (e_shentsize h) ++ le_bytes 2 (e_shnum h) ++ le_bytes 2 (e_shstrndx h).

(** What the parser accepts, and the error for each thing it rejects, in the order in
    which it looks. *)
Definition header_status (h : elf32_hdr) : Z :=
  if negb (bool_decide (take 4 (e_ident h) = [ELF_MAGIC0; ELF_MAGIC1; ELF_MAGIC2; ELF_MAGIC3]))
  then ELF_PARSE_ERR_INV_IDENT
  else if negb (bool_decide (e_ident h !! 4%nat = Some ELF_CLASS32)) then ELF_PARSE_ERR_INV_CLASS
  else if negb (bool_decide (e_ident h !! 5%nat = Some ELF_DATA_LSB)) then ELF_PARSE_ERR_INV_DATA
  else if negb (bool_decide (e_ident h !! 7%nat = Some ELF_OSABI_NONE)) then ELF_PARSE_ERR_INV_OSABI
  else if negb (e_type h =? ELF_TYPE_EXEC) then ELF_PARSE_ERR_INV_TYPE
  else if negb (e_machine h =? ELF_MACHINE_386) then ELF_PARSE_ERR_INV_MACHINE
  else 0.

Definition header_ok (h : elf32_hdr) : Prop :=
  length (e_ident h) = 16%nat ∧ Forall is_u8 (e_ident h) ∧
  is_u16 (e_type h) ∧ is_u16 (e_machine h) ∧ is_u32 (e_version h) ∧ is_u32 (e_entry h) ∧
  is_u32 (e_phoff h) ∧ is_u32 (e_shoff h) ∧ is_u32 (e_flags h) ∧ is_u16 (e_ehsize h) ∧
  is_u16 (e_phentsize h) ∧ is_u16 (e_phnum h) ∧ is_u16 (e_shentsize h) ∧ is_u16 (e_shnum h) ∧
  is_u16 (e_shstrndx h).

Section LittleEndian.

Lemma le_bytes_length n v : length (le_bytes n v) = n.
Proof. revert v. induction n; intros; simpl; auto. Qed.

Lemma le_roundtrip n v : 0 <= v < 2 ^ (8 * Z.of_nat n) → le_value (le_bytes n v) = v.
Proof.
  revert v. induction n as [|n IH]; intros v Hv; simpl.
  - change (2 ^ (8 * Z.of_nat 0)) with 1 in Hv. lia.
  - replace (8 * Z.of_nat (S n)) with (8 + 8 * Z.of_nat n) in Hv by lia.
    rewrite Z.pow_add_r in Hv by lia.
    rewrite IH; [rewrite (Z.div_mod v (2 ^ 8)) at 3 by done; lia|].
    split; [apply Z.div_pos; lia|]. apply Z.div_lt_upper_bound; lia.
Qed.

Lemma le_bytes_u8 n v : Forall is_u8 (le_bytes n v).
Proof.
  revert v. induction n; intros v; simpl; constructor; [|auto]. apply Z.mod_pos_bound. done.
Qed.

Lemma le_at_app l1 l2 l3 off n :
  off = length l1 → n = length l2 → le_at (l1 ++ l2 ++ l3) off n = le_value l2.
Proof. intros -> ->. unfold le_at. by rewrite drop_app_length, take_app_length. Qed.

(** The header read from its bytes. *)
Lemma header_roundtrip h : header_ok h → header_of (header_bytes h) = h.
Proof.
  intros (Hl & _ & Hranges). unfold header_of, header_bytes. destruct h as [id a b c d e f g i j k l m n].
  cbn [e_ident e_type e_machine e_version e_entry e_phoff e_shoff e_flags e_ehsize e_phentsize e_phnum
       e_shentsize e_shnum e_shstrndx] in *.
  rewrite <- (app_nil_r (le_bytes 2 n)).
  assert (H2 : ∀ v, is_u16 v → le_value (le_bytes 2 v) = v) by (intros; by apply le_roundtrip).
  assert (H4 : ∀ v, is_u32 v → le_value (le_bytes 4 v) = v) by (intros; by apply le_roundtrip).
  f_equal; [by rewrite take_app_length'|..];
    (match goal with |- le_at _ ?o ?k = ?v =>
       etrans; [|first [apply (H2 v); tauto | apply (H4 v); tauto]] end);
    rewrite ?app_assoc; rewrite <- ?app_assoc.
  all: repeat match goal with
    | |- le_at (?x ++ ?y ++ ?z) ?o ?k = le_value ?w =>
        first [apply (le_at_app x y z); [rewrite ?length_app, ?le_bytes_length, Hl; reflexivity
                                        |by rewrite le_bytes_length]
              |rewrite (app_assoc x y z)]
    end.
Qed.

End LittleEndian.

(** ** The parser *)

Section Parser.
Context {St : Type} `{ByteMemory St} (hdr : Z) (l : list Z).
(** The bytes [l] of the header can be read at [hdr] as long as [I] holds. *)
Context (I : St → Prop) (Hlen : length l = 52%nat).
Context (Hload : ∀ (i : nat) b (Q : Z → St → Prop) s,
  l !! i = Some b → I s → (∀ s', I s' → Q b s') → wp (load8 (hdr + Z.of_nat i)) Q s).
Implicit Types s : St.

Lemma wp_half (i : nat) b0 b1 (Q : Z → St → Prop) s :
  l !! i = Some b0 → l !! S i = Some b1 → I s → (∀ s', I s' → Q (b0 + 2 ^ 8 * b1) s') →
  wp (load16 (hdr + Z.of_nat i)) Q s.
Proof.
  intros H0 H1 Hs HQ. unfold load16. apply wp_bind. apply (Hload i b0); [done..|]. intros s1 Hs1.
  apply wp_bind. replace (hdr + Z.of_nat i + 1) with (hdr + Z.of_nat (S i)) by lia.
  apply (Hload (S i) b1); [done..|]. intros s2 Hs2. by apply HQ.
Qed.

(** One comparison of a byte of the identification: it holds, or the parser returns. *)
Ltac check_ident HQ Wi n b c :=
  let s := fresh "s" in let Hs := fresh "Hs" in
  apply wp_bind, (Wi n b _ _ eq_refl ltac:(eassumption)); intros s Hs; destruct (Z.eqb_spec b c) as [->|?]; cbn [negb];
  [|repeat apply wp_ret; apply HQ in Hs; by rewrite bool_decide_eq_false_2 in Hs by congruence].

(** The checks agree with [header_status]. *)
Lemma parse_checks_ok (Q : Z → St → Prop) s :
  I s → (∀ s', I s' → Q (header_status (header_of l)) s') →
  wp (bad ← bad_magic hdr;
      if bad : bool then mret ELF_PARSE_ERR_INV_IDENT else
      class ← hdr_ident hdr ELF_IDENT_CLASS;
      if negb (class =? ELF_CLASS32) then mret ELF_PARSE_ERR_INV_CLASS else
      data ← hdr_ident hdr ELF_IDENT_DATA;
      if negb (data =? ELF_DATA_LSB) then mret ELF_PARSE_ERR_INV_DATA else
      osabi ← hdr_ident hdr ELF_IDENT_OSABI;
      if negb (osabi =? ELF_OSABI_NONE) then mret ELF_PARSE_ERR_INV_OSABI else
      type ← hdr_type hdr;
      if negb (type =? ELF_TYPE_EXEC) then mret ELF_PARSE_ERR_INV_TYPE else
      machine ← hdr_machine hdr;
      if negb (machine =? ELF_MACHINE_386) then mret ELF_PARSE_ERR_INV_MACHINE else
      machine ← hdr_machine hdr;
      if negb (machine =? ELF_MACHINE_386) then mret ELF_PARSE_ERR_INV_MACHINE else
      mret 0) Q s.
Proof.
  intros Hs HQ. pose proof Hload as Wi. pose proof wp_half as Wh. clear Hload.
  destruct l as [|b0 [|b1 [|b2 [|b3 [|b4 [|b5 [|b6 [|b7 [|b8 [|b9 [|b10 [|b11 [|b12 [|b13 [|b14 [|b15
    [|b16 [|b17 [|b18 [|b19 rest]]]]]]]]]]]]]]]]]]]]; try discriminate Hlen.
  unfold header_status, header_of in HQ.
  cbn [e_ident e_type e_machine take firstn lookup list_lookup] in HQ.
  change (le_at _ 16 2) with (b16 + 2 ^ 8 * (b17 + 2 ^ 8 * 0)) in HQ.
  change (le_at _ 18 2) with (b18 + 2 ^ 8 * (b19 + 2 ^ 8 * 0)) in HQ.
  rewrite Z.mul_0_r, !Z.add_0_r in HQ. unfold bad_magic.
  apply wp_bind. check_ident HQ Wi 0%nat b0 ELF_MAGIC0. check_ident HQ Wi 1%nat b1 ELF_MAGIC1.
  check_ident HQ Wi 2%nat b2 ELF_MAGIC2.
  apply wp_bind, (Wi 3%nat b3 _ _ eq_refl ltac:(eassumption)). intros s3 Hs3. apply wp_ret.
  destruct (Z.eqb_spec b3 ELF_MAGIC3) as [->|H3]; cbn [negb];
    [|apply wp_ret; apply HQ in Hs3; by rewrite bool_decide_eq_false_2 in Hs3 by congruence].
  rewrite bool_decide_eq_true_2 in HQ by done. cbn [negb] in HQ.
  check_ident HQ Wi 4%nat b4 ELF_CLASS32. rewrite bool_decide_eq_true_2 in HQ by done. cbn [negb] in HQ.
  check_ident HQ Wi 5%nat b5 ELF_DATA_LSB. rewrite bool_decide_eq_true_2 in HQ by done. cbn [negb] in HQ.
  check_ident HQ Wi 7%nat b7 ELF_OSABI_NONE. rewrite bool_decide_eq_true_2 in HQ by done. cbn [negb] in HQ.
  apply wp_bind, (Wh 16%nat b16 b17 _ _ eq_refl eq_refl ltac:(eassumption)). intros s7 Hs7.
  destruct (negb (b16 + 2 ^ 8 * b17 =? ELF_TYPE_EXEC)); [by apply wp_ret, HQ|].
  apply wp_bind, (Wh 18%nat b18 b19 _ _ eq_refl eq_refl Hs7). intros s8 Hs8.
  destruct (negb (b18 + 2 ^ 8 * b19 =? ELF_MACHINE_386)) eqn:E; [by apply wp_ret, HQ|].
  apply wp_bind, (Wh 18%nat b18 b19 _ _ eq_refl eq_refl Hs8). intros s9 Hs9. rewrite E. by apply wp_ret, HQ.
Qed.

End Parser.

(** C38: elf_parse_header rejects a file shorter than a header without touching anything;
    otherwise it copies the header and returns the first error in the order
    identification, class, byte order, ABI, type, machine, or 0. *)
Theorem elf_parse_header_checks m elf hdr len l old :
  bytes_at m elf l → length l = 52%nat → fits_at elf l →
  bytes_at m hdr old → length old = 52%nat → fits_at hdr l →
  hdr <= elf ∨ elf + 52 <= hdr →
  wp (elf_parse_header elf len hdr)
     (λ r m', if len <? sizeof_elf32_hdr then r = ELF_PARSE_ERR_TRUNCATED ∧ m' = m
              else r = header_status (header_of l) ∧ bytes_at m' hdr l ∧
                   same_outside m m' hdr (hdr + 52)) m.
Proof.
  intros Hl Hlen Hfe Ho Hol Hfh Hd. unfold elf_parse_header.
  destruct (len <? sizeof_elf32_hdr); [by apply wp_ret|].
  apply wp_bind. unfold memcpy. apply wp_bind.
  pose proof (memcpy_loop_ok hdr elf 0 l m old) as W. rewrite !Z.add_0_r, Hlen in W.
  eapply wp_mono; [apply W; [done|done|lia|done|done|lia]|]. cbn beta. intros _ m' [Hb Hs].
  apply wp_ret. apply (parse_checks_ok hdr l (λ m2, m2 = m')); [done| |done|by intros ? ->].
  intros i b Q m2 Hi -> HQ. apply lookup_lt_Some in Hi as Hlt.
  eapply wp_load8; [by apply Hb|unfold fits_at in Hfh; unfold is_u32; lia|by apply HQ].
Qed.

(** A header is accepted exactly when it is that of a little-endian 32-bit executable
    for the 80386; its version is not looked at. *)
Theorem elf_header_accepted h :
  length (e_ident h) = 16%nat →
  header_status h = 0 ↔
  (∃ version rest, e_ident h = [0x7f; 0x45; 0x4c; 0x46; ELF_CLASS32; ELF_DATA_LSB; version;
                                ELF_OSABI_NONE] ++ rest) ∧
  e_type h = ELF_TYPE_EXEC ∧ e_machine h = ELF_MACHINE_386.
Proof.
  intros Hlen. destruct h as [id ty ma]. cbn [e_ident e_type e_machine] in *.
  destruct id as [|b0 [|b1 [|b2 [|b3 [|b4 [|b5 [|b6 [|b7 rest]]]]]]]]; try discriminate Hlen.
  unfold header_status. cbn [e_ident e_type e_machine take firstn lookup list_lookup app]. split.
  - repeat case_bool_decide; cbn [negb]; try discriminate 1. simplify_eq.
    destruct (Z.eqb_spec ty ELF_TYPE_EXEC); [|discriminate 1].
    destruct (Z.eqb_spec ma ELF_MACHINE_386); [|discriminate 1]. subst. eauto.
  - intros ((v & r & E) & -> & ->). simplify_eq. by rewrite !bool_decide_eq_true_2.
Qed.

(** ** Witnesses *)

(** The header of a small executable, at 0x1000, and a buffer at 0x2000. *)
Definition hello_hdr : elf32_hdr :=
  mk_elf32_hdr ([0x7f; 0x45; 0x4c; 0x46; 1; 1; 1; 0] ++ replicate 8 0) 2 3 1 0x8048054 52 0 0 52 32 1 40 0 0.
Definition elf_mem : mem := mem_of 0x1000 (header_bytes hello_hdr) ∪ mem_of 0x2000 (replicate 52 0).

Lemma elf_parse_header_checks_witness :
  header_of (header_bytes hello_hdr) = hello_hdr ∧
  wp (elf_parse_header 0x1000 1024 0x2000)
     (λ r m', r = 0 ∧ bytes_at m' 0x2000 (header_bytes hello_hdr)) elf_mem.
Proof.
  split; [by vm_compute|]. eapply wp_mono.
  - apply (elf_parse_header_checks elf_mem 0x1000 0x2000 1024 (header_bytes hello_hdr) (replicate 52 0));
      [by apply bytes_atb_ok|done|by vm_compute|by apply bytes_atb_ok|done|by vm_compute|by right].
  - cbn beta. change (1024 <? sizeof_elf32_hdr) with false. cbn iota. intros r m' (-> & ? & _).
    split; [by vm_compute|done].
Defined.

Lemma elf_header_accepted_witness : header_status hello_hdr = 0.
Proof. apply (elf_header_accepted hello_hdr); [done|]. split; [eexists _, _; done|done]. Defined.
