(* ===== verification/Idt.v ===== *)
(** * The interrupt table: arch/i386/interrupts/idt.c

    idt_init fills the 256 gates, programs the interrupt controllers and turns the
    interrupts on.  [isr] are the service routines of the kernel; where the linker
    put them is a parameter. *)

From S2P Require Import Prelude Printk PortIo Pic Gdt.

Definition IDT_GATE_DESCRIPTOR_COUNT : Z := 256.
Definition IDT_INT_GATE_FLAGS : Z := 0x6.
Definition IDT_TRAP_GATE_FLAGS : Z := 0x7.
Definition IDT_32_BIT_GATE_SIZE : Z := 0x8.
Definition IDT_USER_DPL : Z := 0x60.
Definition IDT_KERNEL_DPL : Z := 0x0.
Definition IDT_SEG_PRESENT : Z := 0x80.
Definition IDT_RESERVED_INT_COUNT : Z := 32.
Definition IDT_SYSCALL_INT : Z := 80.

Definition INT_DIVIDE_ERROR_EXCEPTION : Z := 0.
Definition INT_DEBUG_EXCEPTION : Z := 1.
Definition INT_NMI_INTERRUPT : Z := 2.
Definition INT_BREAKPOINT_EXCEPTION : Z := 3.
Definition INT_OVERFLOW_EXCEPTION : Z := 4.
Definition INT_BOUND_RANGE_EXCEEDED_EXCEPTION : Z := 5.
Definition INT_INVALID_OPCODE_EXCEPTION : Z := 6.
Definition INT_DEVICE_NOT_AVAILABLE_EXCEPTION : Z := 7.
Definition INT_DOUBLE_FAULT_EXCEPTION : Z := 8.
Definition INT_COPROCESSOR_SEGMENT_OVERRUN : Z := 9.
Definition INT_INVALID_TSS_EXCEPTION : Z := 10.
Definition INT_SEGMENT_NOT_PRESENT : Z := 11.
Definition INT_STACK_FAULT_EXCEPTION : Z := 12.
Definition INT_GENERAL_PROTECTION_EXCEPTION : Z := 13.
Definition INT_PAGE_FAULT_EXCEPTION : Z := 14.
Definition INT_X87_FPU_FLOATING_POINT_ERROR : Z := 16.
Definition INT_ALIGNMENT_CHECK_EXCEPTION : Z := 17.
Definition INT_MACHINE_CHECK_EXCEPTION : Z := 18.
Definition INT_SIMD_FLOATING_POINT_EXCEPTION : Z := 19.
Definition INT_VIRTUALIZATION_EXCEPTION : Z := 20.
Definition INT_CONTROL_PROTECTION_EXCEPTION : Z := 21.

(** The service routines: those of handlers.c, of idt.c, and the system call entry of
    syscall_int_handler.S. *)
Inductive isr : Type :=
  | divide_error_exception_handler | debug_exception_handler | nmi_interrupt_handler
  | breakpoint_exception_handler | overflow_exception_handler | bound_range_exceeded_exception_handler
  | invalid_opcode_exception_handler | device_not_available_exception_handler
  | double_fault_exception_handler | coprocessor_segment_overrun_handler
  | invalid_tss_exception_handler | segment_not_present_handler | stack_fault_exception_handler
  | general_protection_exception_handler | page_fault_exception_handler
  | x87_fpu_floating_point_error_handler | alignment_check_exception_handler
  | machine_check_exception_handler | simd_floating_point_exception_handler
  | virtualization_exception_handler | control_protection_exception_handler
  | default_exception_handler | timer_irq_handler | keyboard_irq_handler
  | syscall_interrupt_handler.

#[global] Instance isr_eq_dec : EqDecision isr.
Proof. solve_decision. Defined.

Record idt_gate_descriptor : Type := mk_gate {
  addr_low : Z;
  segment_selector : Z;
  gate_reserved : Z;
  gate_flags : Z;
  addr_high : Z
}.

Record idt_register : Type := mk_idtr { idtr_limit : Z; idtr_base : Z }.

Record idt_state : Type := mk_idt {
  idt_descriptors : list idt_gate_descriptor;
  idtr : idt_register;
  loaded_idtr : option idt_register;   (** the operand of lidt *)
  interrupts_on : bool;                (** sti *)
  idt_io : trace
}.

Definition gate (isr_addr flags : Z) : idt_gate_descriptor :=
  {| addr_low := u16 (Z.land isr_addr 0xffff);
     segment_selector := GDT_KERNEL_CODE_SEGMENT;
     gate_flags := flags;
     addr_high := u16 (Z.land (Z.shiftr isr_addr 16) 0xffff);
     gate_reserved := 0 |}.

Section Operations.
Context (device : trace → Z → Z) (isr_addr : isr → Z) (idt_addr : Z).

Definition with_gates (g : list idt_gate_descriptor) (s : idt_state) : idt_state :=
  mk_idt g (idtr s) (loaded_idtr s) (interrupts_on s) (idt_io s).

Definition on_trace {A} : M trace A → M idt_state A :=
  zoom idt_io (λ tr s, mk_idt (idt_descriptors s) (idtr s) (loaded_idtr s) (interrupts_on s) tr).

Definition set_idt_gate (vector addr flags : Z) : M idt_state unit := λ s,
  let i := Z.to_nat (u8 vector) in
  if (i <? length (idt_descriptors s))%nat then
    Ok (tt, with_gates (<[i := gate addr (u8 flags)]> (idt_descriptors s)) s)
  else Err (EFault (idt_addr + 8 * u8 vector)).

Definition kernel_gate_flags : Z :=
  Z.lor (Z.lor (Z.lor IDT_TRAP_GATE_FLAGS IDT_SEG_PRESENT) IDT_KERNEL_DPL) IDT_32_BIT_GATE_SIZE.
Definition user_gate_flags : Z :=
  Z.lor (Z.lor (Z.lor IDT_INT_GATE_FLAGS IDT_SEG_PRESENT) IDT_USER_DPL) IDT_32_BIT_GATE_SIZE.

Definition init_hardware_interrupts : M idt_state unit :=
  let flags := kernel_gate_flags in
  _ ← set_idt_gate IDT_RESERVED_INT_COUNT (isr_addr timer_irq_handler) flags;
  _ ← set_idt_gate (IDT_RESERVED_INT_COUNT + 1) (isr_addr keyboard_irq_handler) flags;
  on_trace (_ ← pic_init device; _ ← pic_clear_mask device PIC_IRQ0; pic_clear_mask device PIC_IRQ1).

(** A loop that gives the vectors from [lo] to [hi - 1] the default handler. *)
Definition default_gates (lo hi flags : Z) : M idt_state unit :=
  for_range (Z.to_nat (hi - lo)) lo (λ i, set_idt_gate i (isr_addr default_exception_handler) flags).

Definition idt_init : M idt_state unit :=
  _ ← modify (λ s, mk_idt (idt_descriptors s) (mk_idtr (u16 (8 * IDT_GATE_DESCRIPTOR_COUNT - 1)) idt_addr)
                          (loaded_idtr s) (interrupts_on s) (idt_io s));
  let flags := kernel_gate_flags in
  _ ← set_idt_gate INT_DIVIDE_ERROR_EXCEPTION (isr_addr divide_error_exception_handler) flags;
  _ ← set_idt_gate INT_DEBUG_EXCEPTION (isr_addr debug_exception_handler) flags;
  _ ← set_idt_gate INT_NMI_INTERRUPT (isr_addr nmi_interrupt_handler) flags;
  _ ← set_idt_gate INT_BREAKPOINT_EXCEPTION (isr_addr breakpoint_exception_handler) flags;
  _ ← set_idt_gate INT_OVERFLOW_EXCEPTION (isr_addr overflow_exception_handler) flags;
  _ ← set_idt_gate INT_BOUND_RANGE_EXCEEDED_EXCEPTION (isr_addr bound_range_exceeded_exception_handler) flags;
  _ ← set_idt_gate INT_INVALID_OPCODE_EXCEPTION (isr_addr invalid_opcode_exception_handler) flags;
  _ ← set_idt_gate INT_DEVICE_NOT_AVAILABLE_EXCEPTION (isr_addr device_not_available_exception_handler) flags;
  _ ← set_idt_gate INT_DOUBLE_FAULT_EXCEPTION (isr_addr double_fault_exception_handler) flags;
  _ ← set_idt_gate INT_COPROCESSOR_SEGMENT_OVERRUN (isr_addr coprocessor_segment_overrun_handler) flags;
  _ ← set_idt_gate INT_INVALID_TSS_EXCEPTION (isr_addr invalid_tss_exception_handler) flags;
  _ ← set_idt_gate INT_SEGMENT_NOT_PRESENT (isr_addr segment_not_present_handler) flags;
  _ ← set_idt_gate INT_STACK_FAULT_EXCEPTION (isr_addr stack_fault_exception_handler) flags;
  _ ← set_idt_gate INT_GENERAL_PROTECTION_EXCEPTION (isr_addr general_protection_exception_handler) flags;
  _ ← set_idt_gate INT_PAGE_FAULT_EXCEPTION (isr_addr page_fault_exception_handler) flags;
  _ ← set_idt_gate INT_X87_FPU_FLOATING_POINT_ERROR (isr_addr x87_fpu_floating_point_error_handler) flags;
  _ ← set_idt_gate INT_ALIGNMENT_CHECK_EXCEPTION (isr_addr alignment_check_exception_handler) flags;
  _ ← set_idt_gate INT_MACHINE_CHECK_EXCEPTION (isr_addr machine_check_exception_handler) flags;
  _ ← set_idt_gate INT_SIMD_FLOATING_POINT_EXCEPTION (isr_addr simd_floating_point_exception_handler) flags;
  _ ← set_idt_gate INT_VIRTUALIZATION_EXCEPTION (isr_addr virtualization_exception_handler) flags;
  _ ← set_idt_gate INT_CONTROL_PROTECTION_EXCEPTION (isr_addr control_protection_exception_handler) flags;
  _ ← init_hardware_interrupts;
  let flags := user_gate_flags in
  _ ← default_gates (IDT_RESERVED_INT_COUNT + 2) IDT_SYSCALL_INT flags;
  _ ← set_idt_gate IDT_SYSCALL_INT (isr_addr syscall_interrupt_handler) flags;
  _ ← default_gates (IDT_SYSCALL_INT + 1) IDT_GATE_DESCRIPTOR_COUNT flags;
  modify (λ s, mk_idt (idt_descriptors s) (idtr s) (Some (idtr s)) true (idt_io s)).

End Operations.

(** ** The processor's view *)

(** Where the gate of a vector leads: the address, the segment and the flags, when
    the gate is within the loaded limit and present. *)
Definition gate_target (g : idt_gate_descriptor) : option (Z * Z * Z) :=
  if Z.testbit (gate_flags g) 7 then
    Some (addr_low g + 2 ^ 16 * addr_high g, segment_selector g, gate_flags g)
  else None.

Definition vector_target (s : idt_state) (v : Z) : option (Z * Z * Z) :=
  r ← loaded_idtr s;
  if 8 * v + 7 <=? idtr_limit r then idt_descriptors s !! Z.to_nat v ≫= gate_target else None.

(** The table the kernel wants: the exceptions of the processor with the kernel's
    privilege, the two hardware lines, the system call and the rest for anybody. *)
Definition exceptions : list isr :=
  [divide_error_exception_handler; debug_exception_handler; nmi_interrupt_handler;
   breakpoint_exception_handler; overflow_exception_handler; bound_range_exceeded_exception_handler;
   invalid_opcode_exception_handler; device_not_available_exception_handler;
   double_fault_exception_handler; coprocessor_segment_overrun_handler; invalid_tss_exception_handler;
   segment_not_present_handler; stack_fault_exception_handler; general_protection_exception_handler;
   page_fault_exception_handler].
Definition late_exceptions : list isr :=
  [x87_fpu_floating_point_error_handler; alignment_check_exception_handler;
   machine_check_exception_handler; simd_floating_point_exception_handler;
   virtualization_exception_handler; control_protection_exception_handler].

Definition wanted (v : Z) : option (isr * Z) :=
  if v <? 15 then (λ h, (h, 0x8F)) <$> exceptions !! Z.to_nat v
  else if v <? 16 then None
  else if v <? 22 then (λ h, (h, 0x8F)) <$> late_exceptions !! Z.to_nat (v - 16)
  else if v <? 32 then None
  else if v =? 32 then Some (timer_irq_handler, 0x8F)
  else if v =? 33 then Some (keyboard_irq_handler, 0x8F)
  else if v =? 80 then Some (syscall_interrupt_handler, 0xEE)
  else Some (default_exception_handler, 0xEE).

Section Gates.
Context (isr_addr : isr → Z) (idt_addr : Z).
Notation gate_write := (Z * isr * Z)%type.

Definition apply_writes (g : list idt_gate_descriptor) (ws : list gate_write) : list idt_gate_descriptor :=
  foldl (λ g w, <[Z.to_nat w.1.1 := gate (isr_addr w.1.2) w.2]> g) g ws.

(** The gates in the order in which idt_init writes them. *)
Definition idt_writes : list gate_write :=
  imap (λ i h, (Z.of_nat i, h, 0x8F)) exceptions ++
  imap (λ i h, (16 + Z.of_nat i, h, 0x8F)) late_exceptions ++
  [(32, timer_irq_handler, 0x8F); (33, keyboard_irq_handler, 0x8F)] ++
  ((λ v, (v, default_exception_handler, 0xEE)) <$> seqZ 34 46) ++
  [(80, syscall_interrupt_handler, 0xEE)] ++
  ((λ v, (v, default_exception_handler, 0xEE)) <$> seqZ 81 175).

Lemma apply_writes_length g ws : length (apply_writes g ws) = length g.
Proof.
  unfold apply_writes. revert g. induction ws as [|w ws IH]; intros g; simpl; [done|].
  by rewrite IH, length_insert.
Qed.

Lemma apply_writes_app g ws ws' : apply_writes g (ws ++ ws') = apply_writes (apply_writes g ws) ws'.
Proof. apply foldl_app. Qed.

(** The last write to a vector counts. *)
Definition last_write (ws : list gate_write) (v : Z) : option (isr * Z) :=
  (λ w, (w.1.2, w.2)) <$> last (filter (λ w, w.1.1 = v) ws).

Lemma apply_writes_lookup g ws v :
  Forall (λ w, 0 <= w.1.1) ws → 0 <= v < Z.of_nat (length g) →
  apply_writes g ws !! Z.to_nat v =
  match last_write ws v with
  | Some (h, fl) => Some (gate (isr_addr h) fl)
  | None => g !! Z.to_nat v
  end.
Proof.
  intros Hws Hv. unfold last_write.
  induction ws as [|w ws IH] using rev_ind; [done|].
  apply Forall_app in Hws as [Hws Hw]. apply Forall_cons_1 in Hw as [Hw _].
  rewrite apply_writes_app, filter_app. cbn [apply_writes foldl].
  destruct (decide (w.1.1 = v)) as [<-|Hne].
  - rewrite filter_cons_True, filter_nil by done. rewrite last_snoc. cbn [fmap option_fmap option_map].
    apply list_lookup_insert_eq. rewrite apply_writes_length. lia.
  - rewrite filter_cons_False, filter_nil, app_nil_r by done. rewrite list_lookup_insert_ne; [by apply IH|]. 
    intros E. apply Hne. apply Z2Nat.inj; [exact Hw|lia|exact E].
Qed.

Lemma wp_set_gate g ws v h fl Q s :
  length g = 256%nat → is_u8 v → is_u8 fl →
  Q tt (with_gates (apply_writes g (ws ++ [(v, h, fl)])) s) →
  wp (set_idt_gate idt_addr v (isr_addr h) fl) Q (with_gates (apply_writes g ws) s).
Proof.
  intros Hg Hv Hfl HQ. unfold wp, set_idt_gate. rewrite (u8_small v Hv), (u8_small fl Hfl).
  cbn [idt_descriptors with_gates]. rewrite apply_writes_length, Hg. unfold is_u8 in Hv.
  rewrite (proj2 (Nat.ltb_lt _ _)) by lia. by rewrite apply_writes_app in HQ.
Qed.

Lemma wp_default_gates g ws lo (n : nat) fl Q s :
  length g = 256%nat → 0 <= lo → lo + Z.of_nat n <= 256 → is_u8 fl →
  Q tt (with_gates (apply_writes g
         (ws ++ ((λ v, (v, default_exception_handler, fl)) <$> seqZ lo (Z.of_nat n)))) s) →
  wp (default_gates isr_addr idt_addr lo (lo + Z.of_nat n) fl) Q (with_gates (apply_writes g ws) s).
Proof.
  intros Hg Hlo Hhi Hfl HQ. unfold default_gates.
  replace (Z.to_nat (lo + Z.of_nat n - lo)) with n by lia.
  apply (wp_for_range _ _ _ (λ k s', s' = with_gates (apply_writes g
    (ws ++ ((λ v, (v, default_exception_handler, fl)) <$> seqZ lo (k - lo)))) s)).
  - rewrite Z.sub_diag. cbn. by rewrite app_nil_r.
  - intros k s' Hk ->. apply wp_set_gate; [done|unfold is_u8; lia|done|].
    rewrite <- app_assoc. do 3 f_equal. replace (k + 1 - lo) with (k - lo + 1) by lia.
    rewrite seqZ_app, fmap_app by lia. do 2 f_equal. simpl. do 3 f_equal. lia.
  - intros s' ->. replace (lo + Z.of_nat n - lo) with (Z.of_nat n) by lia. exact HQ.
Qed.

End Gates.

(** The writes make the table the kernel wants. *)
Lemma idt_writes_wanted v : 0 <= v < 256 → last_write idt_writes v = wanted v.
Proof.
  intros Hv.
  assert (Hall : forallb (λ v, bool_decide (last_write idt_writes v = wanted v)) (seqZ 0 256) = true)
    by (vm_compute; reflexivity).
  rewrite forallb_forall in Hall. apply (bool_decide_eq_true_1 _), Hall, list_elem_of_In, elem_of_seqZ. lia.
Qed.

Lemma gate_leads a fl : is_u32 a → Z.testbit fl 7 = true →
  gate_target (gate a fl) = Some (a, GDT_KERNEL_CODE_SEGMENT, fl).
Proof.
  intros Ha Hp. unfold gate_target, gate. cbn [gate_flags addr_low addr_high segment_selector]. rewrite Hp.
  do 3 f_equal. change 0xffff with (Z.ones 16). rewrite !Z.land_ones, Z.shiftr_div_pow2 by done.
  unfold_width. rewrite !Z.mod_mod by done. Z.div_mod_to_equations. lia.
Qed.

Lemma wanted_present v h fl : wanted v = Some (h, fl) → Z.testbit fl 7 = true.
Proof.
  unfold wanted. intros E.
  repeat (case_match; simplify_option_eq; try done).
Qed.

Section Init.
Context (device : trace → Z → Z) (p1 p2 : i8259) (isr_addr : isr → Z) (idt_addr : Z).
Context (Hdev : has_pics device p1 p2) (Hu1 : is_u8 (pic_imr p1)) (Hu2 : is_u8 (pic_imr p2)).

(** The controllers as init_hardware_interrupts leaves them: remapped, with the timer
    and the keyboard unmasked. *)
Definition hardware_on (tr tr' : trace) : Prop :=
  pic1 p1 tr' = mk_pic Ready true PIC1_INT_OFFSET (Z.shiftl 1 2) PIC_ICW4_X86
    (unmask PIC_IRQ1 (unmask PIC_IRQ0 (pic_imr (pic1 p1 tr)))) (pic_eois (pic1 p1 tr)) ∧
  pic2 p2 tr' = mk_pic Ready true PIC2_INT_OFFSET 2 PIC_ICW4_X86 (pic_imr (pic2 p2 tr))
    (pic_eois (pic2 p2 tr)).

Lemma hardware_ok tr :
  wp (_ ← pic_init device; _ ← pic_clear_mask device PIC_IRQ0; pic_clear_mask device PIC_IRQ1)
     (λ _ tr', hardware_on tr tr') tr.
Proof.
  apply wp_bind. eapply wp_mono; [by apply (pic_init_ok device p1 p2)|]. cbn beta. intros _ tr1 [H1 H2].
  apply wp_bind. eapply wp_mono;
    [apply (pic_clear_mask_ok device p1 p2 Hdev Hu1 Hu2 PIC_IRQ0 tr1);
       [unfold PIC_IRQ0; lia|by rewrite H1|by rewrite H2]|].
  cbn beta. change (PIC_IRQ0 <? 8) with true. cbn iota. rewrite H1, H2. intros _ tr2 [H3 H4].
  eapply wp_mono; [apply (pic_clear_mask_ok device p1 p2 Hdev Hu1 Hu2 PIC_IRQ1 tr2);
       [unfold PIC_IRQ1; lia|by rewrite H3|by rewrite H4]|].
  cbn beta. change (PIC_IRQ1 <? 8) with true. cbn iota. rewrite H3, H4. done.
Qed.

(** After idt_init every vector has the gate the kernel wants: the handlers of the
    processor's exceptions, the timer and the keyboard at the vectors that the
    remapped controllers raise for their lines 0 and 1, the system call at 80 and the
    default handler elsewhere, except for the vectors 15 and 22 to 31, which are left
    as they were; the two lines are unmasked and the interrupts are on. *)
Theorem idt_init_table s :
  length (idt_descriptors s) = 256%nat → (∀ h, is_u32 (isr_addr h)) →
  wp (idt_init device isr_addr idt_addr)
     (λ _ s',
        (∀ v, 0 <= v < 256 →
           match wanted v with
           | Some (h, fl) => vector_target s' v = Some (isr_addr h, GDT_KERNEL_CODE_SEGMENT, fl)
           | None => idt_descriptors s' !! Z.to_nat v = idt_descriptors s !! Z.to_nat v
           end) ∧
        vector_target s' 256 = None ∧ interrupts_on s' = true ∧
        hardware_on (idt_io s) (idt_io s')) s.
Proof.
  intros Hlen Haddr. unfold idt_init. apply wp_bind, wp_modify.
  set (g := idt_descriptors s) in *. set (r := mk_idtr _ idt_addr).
  change (mk_idt _ r (loaded_idtr s) (interrupts_on s) (idt_io s)) with
    (with_gates (apply_writes isr_addr g []) (mk_idt g r (loaded_idtr s) (interrupts_on s) (idt_io s))).
  set (s1 := mk_idt g r _ _ _).
  do 21 (apply wp_bind, wp_set_gate; [exact Hlen|by vm_compute|by vm_compute|]; cbn [app]).
  apply wp_bind. unfold init_hardware_interrupts.
  do 2 (apply wp_bind, wp_set_gate; [exact Hlen|by vm_compute|by vm_compute|]; cbn [app]).
  apply wp_zoom. eapply wp_mono; [apply hardware_ok|]. cbn beta. intros _ tr' Hhw.
  change (mk_idt _ _ _ _ tr') with
    (with_gates (apply_writes isr_addr g (take 23 idt_writes))
       (mk_idt g r (loaded_idtr s) (interrupts_on s) tr')).
  set (s2 := mk_idt g r _ _ tr').
  apply wp_bind, (wp_default_gates isr_addr idt_addr g _ 34 46); [exact Hlen|lia|lia|by vm_compute|].
  apply wp_bind, wp_set_gate; [exact Hlen|by vm_compute|by vm_compute|].
  apply wp_bind, (wp_default_gates isr_addr idt_addr g _ 81 175); [exact Hlen|lia|lia|by vm_compute|].
  apply wp_modify. set (ws := (_ ++ _) ++ _). assert (ws = idt_writes) as -> by reflexivity.
  assert (Hws : Forall (λ w : Z * isr * Z, 0 <= w.1.1) idt_writes).
  { apply (bool_decide_unpack _). by vm_compute. }
  split_and!; [|done|done|exact Hhw].
  intros v Hv. pose proof (apply_writes_lookup isr_addr g idt_writes v Hws ltac:(lia)) as Hl.
  rewrite idt_writes_wanted in Hl by done. destruct (wanted v) as [[h fl]|] eqn:Ew; [|exact Hl].
  unfold vector_target. cbn [loaded_idtr mbind option_bind idtr with_gates idtr_limit s2 r idt_descriptors].
  rewrite (proj2 (Z.leb_le _ _)) by (change (u16 _) with 2047; lia).
  rewrite Hl. cbn [mbind option_bind]. apply gate_leads; [apply Haddr|by eapply wanted_present].
Qed.

End Init.

(** ** Witnesses *)

Definition idt0 : idt_state := mk_idt (replicate 256 (mk_gate 0 0 0 0 0)) (mk_idtr 0 0) None false [].
Definition isr_addr0 (h : isr) : Z :=
  match h with
  | timer_irq_handler => 0xC0101000
  | syscall_interrupt_handler => 0xC0102000
  | _ => 0xC0103000
  end.

Lemma idt_init_table_witness :
  wp (idt_init bios_device isr_addr0 0xC0120000)
     (λ _ s', vector_target s' 32 = Some (0xC0101000, GDT_KERNEL_CODE_SEGMENT, 0x8F) ∧
              vector_target s' 80 = Some (0xC0102000, GDT_KERNEL_CODE_SEGMENT, 0xEE) ∧
              idt_descriptors s' !! 15%nat = Some (mk_gate 0 0 0 0 0)) idt0.
Proof.
  eapply wp_mono; [apply (idt_init_table bios_device bios_pic1 bios_pic2 isr_addr0 0xC0120000 bios_device_ok
    ltac:(by vm_compute) ltac:(by vm_compute) idt0); [done|by intros []]|].
  cbn beta. intros _ s' (Hv & _). split_and!.
  - exact (Hv 32 ltac:(lia)).
  - exact (Hv 80 ltac:(lia)).
  - exact (Hv 15 ltac:(lia)).
Defined.
