(* ===== verification/Kernel.v ===== *)
(** * The state the parts of the running kernel share

    Interrupt handlers, system calls and the creation of tasks use the scheduler, the
    virtual memory manager, the page allocator, the page tables and the devices
    together.  [kernel] holds the state of all of them; the kernel heap is one, used
    by the scheduler and the virtual memory manager alike.  [on_sched], [on_vmm] and
    the others run an operation of one part on its share of the state. *)

From S2P Require Import Prelude Allocator PageArith Vmm Mem Pmm Paging Printk PortIo Ps2 Sched.

Record kernel (H : Type) : Type := mk_kernel {
  k_sched : sched_store H;
  k_blocks : gmap Z vmm_free_blocks;
  k_nodes : gmap Z vmm_allocation_tree;
  k_bitmap : bitmap;
  k_words : words;
  k_ps2 : ps2_state;
  k_last_pid : Z
}.
Arguments mk_kernel {H} _ _ _ _ _ _ _.
Arguments k_sched {H} _.
Arguments k_blocks {H} _.
Arguments k_nodes {H} _.
Arguments k_bitmap {H} _.
Arguments k_words {H} _.
Arguments k_ps2 {H} _.
Arguments k_last_pid {H} _.

(** struct interrupt_state of interrupts/handlers.h, as the handlers read it. *)
Record interrupt_state : Type := mk_interrupt_state { eflags : Z; cs : Z; eip : Z }.

(** What the processor leaves on the stack, from the lowest address up, is EIP, CS
    and EFLAGS; the structure names them in the opposite order. *)
Definition pushed_state (pushed_eip pushed_cs pushed_eflags : Z) : interrupt_state :=
  mk_interrupt_state pushed_eip pushed_cs pushed_eflags.

Section Parts.
Context {H : Type} `{Allocator H}.
Notation KM := (M (kernel H)).
Implicit Types k : kernel H.

Definition set_sched (s : sched_store H) k : kernel H :=
  mk_kernel s (k_blocks k) (k_nodes k) (k_bitmap k) (k_words k) (k_ps2 k) (k_last_pid k).
Definition vmm_of k : vmm_store H := VmmStore (ss_heap (k_sched k)) (k_blocks k) (k_nodes k).
Definition set_vmm (v : vmm_store H) k : kernel H :=
  mk_kernel (with_heap (vs_heap v) (k_sched k)) (vs_blocks v) (vs_nodes v) (k_bitmap k) (k_words k)
            (k_ps2 k) (k_last_pid k).
Definition set_bitmap (b : bitmap) k : kernel H :=
  mk_kernel (k_sched k) (k_blocks k) (k_nodes k) b (k_words k) (k_ps2 k) (k_last_pid k).
Definition set_words (w : words) k : kernel H :=
  mk_kernel (k_sched k) (k_blocks k) (k_nodes k) (k_bitmap k) w (k_ps2 k) (k_last_pid k).
Definition set_ps2 (p : ps2_state) k : kernel H :=
  mk_kernel (k_sched k) (k_blocks k) (k_nodes k) (k_bitmap k) (k_words k) p (k_last_pid k).
Definition set_last_pid (p : Z) k : kernel H :=
  mk_kernel (k_sched k) (k_blocks k) (k_nodes k) (k_bitmap k) (k_words k) (k_ps2 k) p.
Definition k_io k : trace := ps2_io (k_ps2 k).
Definition set_io (tr : trace) k : kernel H := set_ps2 (mk_ps2 (scancode_queue_ctx (k_ps2 k)) tr) k.

Definition on_sched {A} : M (sched_store H) A → KM A := zoom k_sched set_sched.
Definition on_vmm {A} : M (vmm_store H) A → KM A := zoom vmm_of set_vmm.
Definition on_pmm {A} : M bitmap A → KM A := zoom k_bitmap set_bitmap.
Definition on_words {A} : M words A → KM A := zoom k_words set_words.
Definition on_ps2 {A} : M ps2_state A → KM A := zoom k_ps2 set_ps2.
Definition on_ports {A} : M trace A → KM A := zoom k_io set_io.

Definition klog (level : printk_log_level) (fmt : string) (args : list log_arg) : KM unit :=
  on_ports (log level fmt args).

(** *CURRENT_TASK.task *)
Definition current_task : KM task_control_block :=
  on_sched (s ← get; load_task (tl_task (CURRENT_TASK s))).

Lemma wp_current_task t Q k :
  ss_tasks (k_sched k) !! tl_task (CURRENT_TASK (k_sched k)) = Some t → Q t k → wp current_task Q k.
Proof.
  intros Ht HQ. apply wp_zoom, wp_bind, wp_get. eapply wp_load_task; [exact Ht|]. by destruct k.
Qed.

Lemma wp_klog level fmt args Q k :
  Q tt (set_io (k_io k ++ [ELog level fmt args]) k) → wp (klog level fmt args) Q k.
Proof. intros HQ. apply wp_zoom, wp_log, HQ. Qed.

Lemma run_on_sched {A} (m : M (sched_store H) A) k e : m (k_sched k) = Err e → on_sched m k = Err e.
Proof. unfold on_sched, zoom. by intros ->. Qed.

Lemma run_current_task t k :
  ss_tasks (k_sched k) !! tl_task (CURRENT_TASK (k_sched k)) = Some t → current_task k = Ok (t, k).
Proof.
  intros Ht. unfold current_task, on_sched, zoom, mbind, M_bind, get, load_task. rewrite Ht.
  by destruct k.
Qed.

End Parts.
