(* ===== verification/Syscall.v ===== *)
(** * System calls: syscall/syscall.c, syscall/exit.c and syscall/fork.c

    A handler gets a pointer to the registers the entry code saved and may change
    them; here it returns the registers as it leaves them. *)

From S2P Require Import Prelude Allocator Kmalloc Vmm Paging Printk PortIo Ps2 Sched Kernel.

Definition SYS_EXIT : Z := 1.
Definition SYS_FORK : Z := 2.

Record registers : Type := mk_registers {
  eax : Z; ebx : Z; ecx : Z; edx : Z; esi : Z; edi : Z; esp : Z; ebp : Z
}.

Definition with_eax (v : Z) (r : registers) : registers :=
  mk_registers v (ebx r) (ecx r) (edx r) (esi r) (edi r) (esp r) (ebp r).

Section Operations.
Context {H : Type} `{Allocator H}.
Notation KM := (M (kernel H)).

Definition exit (regs : registers) : KM unit :=
  t ← current_task;
  _ ← (if task_parent t =? 0 then panic "init task exited" else mret tt);
  _ ← on_sched (sched_remove (pid t));
  klog PRINTK_DEBUG "task %u exited with status %#x\n" [ANum (pid t); ANum (ebx regs)].

Definition fork (regs : registers) : KM registers := mret (with_eax 0xbeef regs).

Definition syscall_handler (state : interrupt_state) (regs : registers) : KM registers :=
  let syscall_num := eax regs in
  _ ← klog PRINTK_DEBUG "handling syscall (eflags=%#x, cs=%d, eip=%d, syscall=%d)\n"
        [ANum (eflags state); ANum (cs state); ANum (eip state); ANum syscall_num];
  _ ← klog PRINTK_DEBUG "registers eax=%#x ebx=%#x ecx=%#x edx=%#x esi=%#x edi=%#x\n"
        [ANum (eax regs); ANum (ebx regs); ANum (ecx regs); ANum (edx regs); ANum (esi regs);
         ANum (edi regs)];
  if syscall_num =? SYS_EXIT then (_ ← exit regs; mret regs)
  else if syscall_num =? SYS_FORK then fork regs
  else panic "unknown syscall %d".

End Operations.

Section Props.
Context {H : Type} `{Allocator H}.
Implicit Types (k : kernel H) (l ts : list Z).

(** [k] after messages have been logged. *)
Definition logged k k' : Prop := ∃ tr, k' = set_io tr k.

Lemma logged_refl k : logged k k.
Proof. exists (k_io k). by destruct k as [? ? ? ? ? [] ?]. Qed.
Lemma logged_trans k1 k2 k3 : logged k1 k2 → logged k2 k3 → logged k1 k3.
Proof. intros [t ->] [t' ->]. by exists t'. Qed.

Lemma klog_logged level fmt args k :
  ∃ k', klog level fmt args k = Ok (tt, k') ∧ logged k k'.
Proof. eexists. split; [done|]. eexists. done. Qed.

Lemma logged_sched k k' : logged k k' → k_sched k' = k_sched k.
Proof. by intros [? ->]. Qed.

(** The two messages, and then the call. *)
Lemma syscall_handler_run state regs k :
  ∃ k', logged k k' ∧ syscall_handler state regs k =
    (if eax regs =? SYS_EXIT then (_ ← exit regs; mret regs)
     else if eax regs =? SYS_FORK then fork regs else panic "unknown syscall %d") k'.
Proof.
  unfold syscall_handler.
  match goal with |- context [klog ?a ?b ?c ≫= _] =>
    destruct (klog_logged a b c k) as (k1 & E1 & L1); rewrite (bind_ok _ _ _ _ _ E1) end.
  match goal with |- context [klog ?a ?b ?c ≫= _] =>
    destruct (klog_logged a b c k1) as (k2 & E2 & L2); rewrite (bind_ok _ _ _ _ _ E2) end.
  exists k2. split; [by eapply logged_trans|done].
Qed.

(** The running task of [k]: its control block. *)
Definition running k : option task_control_block :=
  ss_tasks (k_sched k) !! tl_task (CURRENT_TASK (k_sched k)).

Lemma exit_run regs t k :
  running k = Some t → task_parent t ≠ 0 →
  exit regs k =
  (_ ← on_sched (sched_remove (pid t));
   klog PRINTK_DEBUG "task %u exited with status %#x\n" [ANum (pid t); ANum (ebx regs)]) k.
Proof.
  intros Hr Hp. unfold exit. rewrite (bind_ok _ _ _ _ _ (run_current_task _ _ Hr)).
  by rewrite (proj2 (Z.eqb_neq _ 0)).
Qed.

(** sched_remove, where it returns, inside exit. *)
Lemma exit_ok (Q : sched_store H → Prop) regs t k :
  running k = Some t → task_parent t ≠ 0 → wp (sched_remove (pid t)) (λ _ s', Q s') (k_sched k) →
  wp (exit regs) (λ _ k', Q (k_sched k')) k.
Proof.
  intros Hr Hp Hrem. unfold wp at 1. rewrite (exit_run regs t k Hr Hp).
  apply wp_bind, wp_zoom. eapply wp_mono; [exact Hrem|]. cbn beta. intros _ s' HQ.
  apply wp_klog. exact HQ.
Qed.

(** The system call exit, for a task that has a parent. *)
Lemma sys_exit_ok (Q : sched_store H → Prop) state regs t k :
  eax regs = SYS_EXIT → running k = Some t → task_parent t ≠ 0 →
  wp (sched_remove (pid t)) (λ _ s', Q s') (k_sched k) →
  wp (syscall_handler state regs) (λ r k', r = regs ∧ Q (k_sched k')) k.
Proof.
  intros He Hr Hp Hrem. destruct (syscall_handler_run state regs k) as (k' & Hl & E).
  unfold wp at 1. rewrite E, He, Z.eqb_refl. apply wp_bind.
  pose proof (logged_sched _ _ Hl) as Es. unfold running in Hr. rewrite <- Es in Hr, Hrem.
  eapply wp_mono; [by eapply (exit_ok Q regs t k')|]. cbn beta. intros _ k2 HQ. by apply wp_ret.
Qed.

(** The first task of the ring can exit: its node leaves the ring, the others stay
    in their order, and the registers are those of the caller. *)
Theorem sys_exit_first state regs h l t ts tcb k :
  sched_ok (k_sched k) (h :: l) (t :: ts) → l ≠ [] →
  eax regs = SYS_EXIT → running k = Some tcb → task_parent tcb ≠ 0 →
  pid tcb ≠ 0 → pid tcb ≠ INIT_PID → pid_at (k_sched k) (t :: ts) 0 = Some (pid tcb) →
  (∃ q, pid_at (k_sched k) (t :: ts) (length l) = Some q ∧ q ≠ pid tcb) →
  wp (syscall_handler state regs)
     (λ r k', r = regs ∧ sched_ok (k_sched k') l ts ∧ ss_lists (k_sched k') !! h = None) k.
Proof.
  intros Hs Hl He Hr Hp Hz Hi Hp0 Hq.
  apply (sys_exit_ok (λ s', sched_ok s' l ts ∧ ss_lists s' !! h = None) state regs tcb); try done.
  eapply wp_mono; [by apply (sched_remove_first _ h l t ts)|]. cbn beta. by intros _ s' (? & ? & _).
Qed.

(** When the task that was added last exits, every task but the first is dropped
    from the ring with it. *)
Theorem sys_exit_last_drops state regs h l t ts tcb k :
  sched_ok (k_sched k) (h :: l) (t :: ts) → l ≠ [] →
  eax regs = SYS_EXIT → running k = Some tcb → task_parent tcb ≠ 0 →
  pid tcb ≠ 0 → pid tcb ≠ INIT_PID → pid_at (k_sched k) (t :: ts) (length l) = Some (pid tcb) →
  wp (syscall_handler state regs) (λ r k', r = regs ∧ sched_ok (k_sched k') [h] [t]) k.
Proof.
  intros Hs Hl He Hr Hp Hz Hi Hq. apply (sys_exit_ok (λ s', sched_ok s' [h] [t]) state regs tcb); try done.
  by apply (sched_remove_last_drops _ h l t ts).
Qed.

(** C39: the exit of any other task never returns. *)
Theorem sys_exit_endless state regs l ts tcb q0 q1 k :
  sched_ok (k_sched k) l ts → (2 <= length l)%nat →
  eax regs = SYS_EXIT → running k = Some tcb → task_parent tcb ≠ 0 →
  pid tcb ≠ 0 → pid tcb ≠ INIT_PID →
  pid_at (k_sched k) ts 0 = Some q0 → q0 ≠ pid tcb →
  pid_at (k_sched k) ts (length l - 1) = Some q1 → q1 ≠ pid tcb →
  syscall_handler state regs k = Err EFuel.
Proof.
  intros Hs Hlen He Hr Hp Hz Hi Hq0 Hn0 Hq1 Hn1.
  destruct (syscall_handler_run state regs k) as (k' & Hl & E). rewrite E, He, Z.eqb_refl.
  apply logged_sched in Hl as Es. unfold running in Hr. rewrite <- Es in *. apply bind_err.
  rewrite (exit_run regs tcb k' Hr Hp). apply bind_err, run_on_sched.
  by apply (sched_remove_endless _ l ts (pid tcb) q0 q1 0 0).
Qed.

(** Every system call number, on a task without a parent: fork returns 0xbeef in
    EAX and touches nothing else; exit and the unknown numbers halt the machine. *)
Theorem syscall_results state regs t k :
  running k = Some t → task_parent t = 0 →
  (eax regs = SYS_FORK → ∃ tr, syscall_handler state regs k = Ok (with_eax 0xbeef regs, set_io tr k)) ∧
  (eax regs = SYS_EXIT → syscall_handler state regs k = Err (EPanic "init task exited")) ∧
  (eax regs ≠ SYS_FORK → eax regs ≠ SYS_EXIT →
     syscall_handler state regs k = Err (EPanic "unknown syscall %d")).
Proof.
  intros Hr Hp. destruct (syscall_handler_run state regs k) as (k' & Hl & E). rewrite E.
  split_and!.
  - intros ->. change (SYS_FORK =? SYS_EXIT) with false. rewrite Z.eqb_refl.
    destruct Hl as [tr ->]. by exists tr.
  - intros ->. rewrite Z.eqb_refl. apply bind_err. unfold exit.
    apply logged_sched in Hl as Es. unfold running in Hr. rewrite <- Es in Hr.
    rewrite (bind_ok _ _ _ _ _ (run_current_task _ _ Hr)). by rewrite Hp.
  - intros Hf He. by rewrite (proj2 (Z.eqb_neq _ _) He), (proj2 (Z.eqb_neq _ _) Hf).
Qed.

End Props.

(** ** Witnesses *)

(** A kernel with the ring of four tasks of [sched4], in which the task at [cur] runs
    and has a parent. *)
Definition child_of (p : Z) (t : task_control_block) : task_control_block :=
  mk_task (pid t) (kernel_stack_top t) (virtual_addr_space t) (esp0 t) (task_vmm_context t)
          (task_paging_ctx t) p.

Definition sched_running (cur : Z) (t : task_control_block) (s : sched_store kheap) : sched_store kheap :=
  SchedStore (ss_heap s) (<[cur := child_of 0x500 t]> (ss_tasks s)) (ss_lists s) (tasks_head s)
    (tasks_tail s) (tasks_sched_head s) (mk_task_list cur TASK_PRIORITY_LOW 0) 1 (ss_cpu s).

Definition kernel_with (s : sched_store kheap) : kernel kheap :=
  mk_kernel s ∅ ∅ ∅ ∅ ps2_0 0.

Definition exit_regs : registers := mk_registers SYS_EXIT 0 0 0 0 0 0 0.
Definition state0 : interrupt_state := pushed_state 0x1000 0x1b 0x202.

Lemma sched_running_ok cur t s l ts :
  sched_ok s l ts → is_Some (ss_tasks s !! cur) → sched_ok (sched_running cur t s) l ts.
Proof.
  intros (Hr & Hown & Hh & Ht & Htasks & Hcur) Hc. split_and!; [done|done|done|done| |].
  - intros x Hx. simpl. rewrite lookup_insert. case_decide; [eauto|by apply Htasks].
  - simpl. rewrite lookup_insert_eq. eauto.
Qed.

Lemma sys_exit_first_witness :
  wp (syscall_handler state0 exit_regs)
     (λ _ k', sched_ok (k_sched k') [node4 2; node4 3; node4 0] [0x700; 0x800; 0x500])
     (kernel_with (sched_running 0x600 (task4 2 0x7100) sched4')).
Proof.
  eapply wp_mono.
  - apply (sys_exit_first state0 exit_regs (node4 1) [node4 2; node4 3; node4 0] 0x600
      [0x700; 0x800; 0x500] (child_of 0x500 (task4 2 0x7100))); try done.
    + apply sched_running_ok; [exact sched4'_ok|by vm_compute; eauto].
    + by exists 0.
  - by cbn beta; intros r k' (_ & ? & _).
Defined.

Lemma sys_exit_last_drops_witness :
  wp (syscall_handler state0 exit_regs) (λ _ k', sched_ok (k_sched k') [node4 0] [0x500])
     (kernel_with (sched_running 0x800 (task4 4 0x7300) sched4)).
Proof.
  eapply wp_mono.
  - apply (sys_exit_last_drops state0 exit_regs (node4 0) [node4 1; node4 2; node4 3] 0x500
      [0x600; 0x700; 0x800] (child_of 0x500 (task4 4 0x7300))); try done.
    apply sched_running_ok; [exact sched4_ok|by vm_compute; eauto].
  - by cbn beta; intros r k' [_ ?].
Defined.

Lemma sys_exit_endless_witness :
  syscall_handler state0 exit_regs (kernel_with (sched_running 0x700 (task4 3 0x7200) sched4)) = Err EFuel.
Proof.
  apply (sys_exit_endless state0 exit_regs ring4 tasks4 (child_of 0x500 (task4 3 0x7200)) 0 4); try done.
  - apply sched_running_ok; [exact sched4_ok|by vm_compute; eauto].
  - vm_compute. lia.
Defined.

Lemma syscall_results_witness :
  syscall_handler state0 (mk_registers 77 0 0 0 0 0 0 0) (kernel_with sched4) =
  Err (EPanic "unknown syscall %d").
Proof. by apply (syscall_results state0 _ (task4 0 0x7000) (kernel_with sched4)). Defined.
