(* ===== verification/PageFault.v ===== *)
(** * Page faults: arch/i386/interrupts/page_fault.c

    A page of an allocation gets its page-table entry when it is first touched: the
    handler looks the faulting page up among the allocations of the running task and
    maps it.  [cr2] is the faulting address, which the processor leaves in CR2. *)

From S2P Require Import Prelude Allocator Kmalloc PageArith Vmm VmmRules VmmRanges VmmFree VmmTree VmmSpace.
From S2P Require Import VmmProps Mem Pmm Paging Printk PortIo Ps2 Sched Kernel Syscall.

Definition PAGING_ERR_CODE_P : Z := 1.
Definition PAGING_ERR_CODE_WR : Z := Z.shiftl 1 1.
Definition PAGING_ERR_CODE_US : Z := Z.shiftl 1 2.

Section Operations.
Context {H : Type} `{Allocator H} (KERNEL_MEMINFO : kernel_meminfo).
Notation KM := (M (kernel H)).

Definition page_fault_handler (state : interrupt_state) (cr2 err_code : Z) : KM unit :=
  let addr := cr2 in
  t ← current_task;
  let has (f : Z) : bool := negb (Z.land err_code f =? 0) in
  _ ← klog PRINTK_DEBUG
        "[task %u] page fault @ %#x (eflags=%#x, cs=%d, eip=%d, err_code=%d): cause=%s, access=%s, mode=%s\n\t\n"
        [ANum (pid t); ANum addr; ANum (eflags state); ANum (cs state); ANum (eip state); ANum err_code;
         AStr (if has PAGING_ERR_CODE_P then "protection_fault" else "non_present_page");
         AStr (if has PAGING_ERR_CODE_WR then "write" else "read");
         AStr (if has PAGING_ERR_CODE_US then "user" else "kernel")];
  if has PAGING_ERR_CODE_P then
    if has PAGING_ERR_CODE_US then panic "TODO: kill the misbehaving user process"
    else panic "kernel protection fault"
  else
    let aligned_vaddr := paging_align_addr addr in
    alloc ← on_vmm (vmm_find_allocation (task_vmm_context t) aligned_vaddr);
    _ ← assert (negb (page_count alloc =? 0)) "invalid VMM state";
    physical_addr ← (if negb (physical_addr alloc =? 0) then mret (physical_addr alloc)
                     else on_pmm pmm_alloc_page);
    _ ← on_words (paging_map_virtual_to_physical KERNEL_MEMINFO (task_paging_ctx t) aligned_vaddr
                    physical_addr (flags alloc));
    klog PRINTK_DEBUG "mapped %#x -> %#x (flags=%u)\n"
      [ANum aligned_vaddr; ANum physical_addr; ANum (flags alloc)].

End Operations.

(** No two allocations of an address space contain the same address. *)
Lemma ctx_rep_unique {H} `{Allocator H} (s : vmm_store H) ctx bl A a b x :
  ctx_rep s ctx bl A → a ∈ A → b ∈ A → contains a x → contains b x → a = b.
Proof.
  intros (l & t & [_ _ _ _ _ Hord _] & _ & HA) Ha Hb. apply (lists_elem _ _ _ HA) in Ha, Hb.
  destruct Hord as [[p ->]|(Hu & Ht & _)].
  - by apply elem_of_nil in Ha.
  - rewrite (allocs_in_use _ Hu) in Ha, Hb. by apply (bst_disjoint _ _ _ Ht).
Qed.

Lemma align_page addr : is_u32 addr →
  is_u32 (paging_align_addr addr) ∧ paging_align_addr addr / PAGE_SIZE = addr / PAGE_SIZE.
Proof.
  intros Ha. unfold paging_align_addr. rewrite PAGE_SIZE_val. unfold is_u32 in *.
  split; Z.div_mod_to_equations; lia.
Qed.

Section Props.
Context {H : Type} `{Allocator H} (mi : kernel_meminfo).
Context (Hhh : higher_half_base mi mod 4096 = 0) (Hhr : is_u32 (higher_half_base mi)).
Implicit Types k : kernel H.

(** Looking up an address uses only the root of the allocation tree. *)
Lemma find_allocation_root (ctx ctx' : vmm_context) (x : Z) :
  allocations ctx = allocations ctx' →
  vmm_find_allocation (H := H) ctx x = vmm_find_allocation ctx' x.
Proof. unfold vmm_find_allocation. by intros ->. Qed.

(** The running task of [k] can have faults served: its page tables are well formed,
    and its allocations are [A].  The task's copy of the context may have an older head
    of the free list than the context that others go on using; the tree is one. *)
Record faultable k (t : task_control_block) (A : list vmm_allocation) : Prop := {
  ft_running : running k = Some t;
  ft_paging : paging_ok (task_paging_ctx t);
  ft_space : ∃ ctx bl, allocations (task_vmm_context t) = allocations ctx ∧ ctx_rep (vmm_of k) ctx bl A;
  ft_allocs : ∀ a, a ∈ A → flags_ok (flags a) ∧ is_u32 (physical_addr a)
}.

(** The frame that a fault in the allocation [a] uses. *)
Definition fault_frame k (a : vmm_allocation) (f : Z) : Prop :=
  if physical_addr a =? 0 then ∃ p, lowest_free (k_bitmap k) p ∧ f = p * PAGE_SIZE
  else f = physical_addr a / PAGE_SIZE * PAGE_SIZE.

Definition page_mapped k (t : task_control_block) (addr f fl : Z) : Prop :=
  ∀ x, is_u32 x → x / PAGE_SIZE = addr / PAGE_SIZE →
    region_ok mi (task_paging_ctx t) (k_words k) x ∧
    entries_translation (task_paging_ctx t) (k_words k) x = Some (f + fl, f + x mod PAGE_SIZE).

(** The pages other than that of [addr] that were translated, or are in another
    region, are translated as before. *)
Definition others_kept k k' (t : task_control_block) (addr : Z) : Prop :=
  ∀ x, is_u32 x → x / PAGE_SIZE ≠ addr / PAGE_SIZE → region_ok mi (task_paging_ctx t) (k_words k) x →
    PAGE_DIRECTORY_INDEX x ≠ PAGE_DIRECTORY_INDEX addr ∨
      present (word (k_words k) (pde_addr (task_paging_ctx t) x)) = true →
    region_ok mi (task_paging_ctx t) (k_words k') x ∧
    entries_translation (task_paging_ctx t) (k_words k') x =
    entries_translation (task_paging_ctx t) (k_words k) x.

(** What a fault at [addr] in the allocation [a] leads to. *)
Definition fault_served k (t : task_control_block) (a : vmm_allocation) (addr : Z) k' : Prop :=
  ∃ f, fault_frame k a f ∧ page_mapped k' t addr f (flags a) ∧ others_kept k k' t addr ∧
    (∀ b, b ≠ pde_addr (task_paging_ctx t) addr → b ≠ pte_addr (task_paging_ctx t) addr →
       word (k_words k') b = word (k_words k) b) ∧
    k_sched k' = k_sched k ∧ vmm_of k' = vmm_of k ∧ (physical_addr a ≠ 0 → k_bitmap k' = k_bitmap k) ∧
    k_last_pid k' = k_last_pid k ∧ (words_ok (k_words k) → words_ok (k_words k')).

(** The last steps of the handler, once the frame [pa] is known. *)
Lemma fault_mapping t a addr pa k k2 :
  paging_ok (task_paging_ctx t) → flags_ok (flags a) → is_u32 addr → is_u32 pa →
  fault_frame k a (pa / PAGE_SIZE * PAGE_SIZE) →
  k_words k2 = k_words k → k_sched k2 = k_sched k → vmm_of k2 = vmm_of k →
  (physical_addr a ≠ 0 → k_bitmap k2 = k_bitmap k) → k_last_pid k2 = k_last_pid k →
  wp (_ ← on_words (paging_map_virtual_to_physical mi (task_paging_ctx t) (paging_align_addr addr) pa (flags a));
      klog PRINTK_DEBUG "mapped %#x -> %#x (flags=%u)\n"
        [ANum (paging_align_addr addr); ANum pa; ANum (flags a)])
     (λ _ k', fault_served k t a addr k') k2.
Proof.
  intros Hpg Hfl Haddr Hpa Hff Hw Hs Hv Hb Hl. destruct (align_page addr Haddr) as [Hal Hpage].
  apply wp_bind, wp_zoom. rewrite Hw.
  pose proof (paging_map_entries mi (task_paging_ctx t) Hpg Hhh Hhr (paging_align_addr addr) pa
    (flags a) (k_words k) Hal Hpa Hfl) as W.
  unfold wp in W. pose proof (map_eq mi (task_paging_ctx t) Hpg Hhr (paging_align_addr addr) pa
    (flags a) (k_words k) Hal) as E. rewrite E in W. eapply wp_of_ok; [exact E|]. clear E.
  rename W into Hent. apply wp_klog. eexists. split; [exact Hff|]. split_and!; [| | |done|done|done|done|].
  - intros x Hx Hxp. apply Hent; [done|by rewrite Hpage].
  - intros x Hx Hxp Hok Hd. apply Hent; [done|by rewrite Hpage|done|].
    destruct Hd as [Hd|]; [left|by right]. intros E. apply Hd. rewrite E. by apply same_page_region.
  - intros b Hb1 Hb2. cbn [k_words set_io set_ps2 set_words]. rewrite !word_set, !decide_False; [done| |].
    + rewrite (proj2 (pde_addr_inj (task_paging_ctx t) (paging_align_addr addr) addr)); [congruence|].
      by apply same_page_region.
    + rewrite (proj2 (pte_addr_inj mi (task_paging_ctx t) Hhr (paging_align_addr addr) addr Hal Haddr)); congruence.
  - intros Hok. by apply words_ok_set, words_ok_set.
Qed.

Lemma page_fault_served st addr err t A a k :
  faultable k t A → is_u32 addr → Z.land err PAGING_ERR_CODE_P = 0 →
  a ∈ A → contains a (paging_align_addr addr) → (physical_addr a = 0 → ∃ p, lowest_free (k_bitmap k) p) →
  wp (page_fault_handler mi st addr err) (λ _ k', fault_served k t a addr k') k.
Proof.
  intros [Hrun Hpg (vctx & bl & Hroot & Hrep) Hall] Haddr Herr Ha Hc Hfree.
  destruct (align_page addr Haddr) as [Hal _]. destruct (Hall a Ha) as (Hfl & Hpa). pose proof (contains_count _ _ Hc) as Hcnt.
  unfold page_fault_handler. apply wp_bind. eapply wp_current_task; [exact Hrun|].
  apply wp_bind, wp_klog. rewrite Herr. cbn [negb Z.eqb]. set (k1 := set_io _ k).
  apply wp_bind, wp_zoom. change (vmm_of k1) with (vmm_of k). rewrite (find_allocation_root _ _ _ Hroot).
  eapply wp_mono; [apply (vmm_find_allocation_ok _ bl A _ _ Hrep); apply Hal|]. cbn beta.
  intros b v [-> Hfound].
  assert (b = a) as ->.
  { destruct Hfound as [[Hb Hcb]|[_ Hno]]; [by eapply ctx_rep_unique|]. by destruct (Hno a Ha). }
  replace (set_vmm (vmm_of k) k1) with k1 by (unfold set_vmm, k1, set_io, set_ps2; simpl; by destruct (k_sched k)).
  apply wp_bind, wp_assert; [by rewrite (proj2 (Z.eqb_neq _ _) Hcnt)|].
  apply wp_bind. pose proof (fault_mapping t a addr) as Hmap. unfold fault_frame in Hmap.
  destruct (Z.eqb_spec (physical_addr a) 0) as [E0|E0]; cbn [negb].
  - destruct (Hfree E0) as [p Hp]. apply wp_zoom, (wp_pmm_alloc_page p); [exact Hp|].
    destruct Hp as (? & Hp & ?). assert (is_u32 (p * PAGE_SIZE)) by (rewrite PAGE_SIZE_val; unfold is_u32; lia).
    apply Hmap; try done. exists p. split; [done|]. by rewrite PAGE_SIZE_val, Z.div_mul.
  - by apply wp_ret, Hmap.
Qed.

(** C6: a fault on a page that is not present, in an allocation of the running task,
    is served: afterwards the processor translates every address of the page, under
    the task's directory, to the frame of the allocation, or to the lowest free frame
    when the allocation has none, with the flags of the allocation; the other pages
    that were mapped keep their translation, that is their frame and their table entry (the
    rights of the pages of the same 4 MB region are those of [paging_map_translates]). *)
Theorem page_fault_maps st addr err t A a k :
  faultable k t A → dir_apart mi (task_paging_ctx t) (virtual_addr_space t) →
  is_u32 addr → Z.land err PAGING_ERR_CODE_P = 0 →
  a ∈ A → contains a (paging_align_addr addr) → (physical_addr a = 0 → ∃ p, lowest_free (k_bitmap k) p) →
  wp (page_fault_handler mi st addr err)
     (λ _ k', ∃ f, fault_frame k a f ∧
        (∀ x, is_u32 x → x / PAGE_SIZE = addr / PAGE_SIZE →
           dir_translate mi (task_paging_ctx t) (k_words k') (virtual_addr_space t) x =
           Some (f + flags a, f + x mod PAGE_SIZE)) ∧
        (∀ x e, is_u32 x → x / PAGE_SIZE ≠ addr / PAGE_SIZE →
           region_ok mi (task_paging_ctx t) (k_words k) x →
           dir_translate mi (task_paging_ctx t) (k_words k) (virtual_addr_space t) x = Some e →
           dir_translate mi (task_paging_ctx t) (k_words k') (virtual_addr_space t) x = Some e) ∧
        k_sched k' = k_sched k) k.
Proof.
  intros Hft Hap Haddr Herr Ha Hc Hfree. eapply wp_mono; [by apply (page_fault_served st addr err t A a)|].
  cbn beta. intros _ k' (f & Hf & Hm & Ho & _ & Hs & _). exists f. split_and!; [done| | |done].
  - intros x Hx Hp. destruct (Hm x Hx Hp) as [Hok <-]. apply dir_translate_entries; [apply Hft|done..].
  - intros x e Hx Hp Hok. rewrite dir_translate_entries by (apply Hft || done). intros E.
    assert (Hpr : present (word (k_words k) (pde_addr (task_paging_ctx t) x)) = true)
      by (unfold entries_translation in E; by destruct (present (word _ (pde_addr _ _)))).
    destruct (Ho x Hx Hp Hok (or_intror Hpr)) as [Hok' E'].
    rewrite dir_translate_entries by (apply Hft || done). congruence.
Qed.

Lemma faultable_kept k k' t A :
  faultable k t A → k_sched k' = k_sched k → vmm_of k' = vmm_of k → faultable k' t A.
Proof.
  intros [Hrun Hpg Hrep Hall] Hs Hv. split; [unfold running; by rewrite Hs|done|by rewrite Hv|done].
Qed.

(** All the pages of an allocation that has a frame are mapped to that one frame:
    after faults on two of its pages, equal offsets in the two pages are the same
    physical address. *)
Theorem page_fault_aliases st1 st2 err1 err2 x y t A a k :
  faultable k t A → dir_apart mi (task_paging_ctx t) (virtual_addr_space t) →
  is_u32 x → is_u32 y → x / PAGE_SIZE ≠ y / PAGE_SIZE →
  Z.land err1 PAGING_ERR_CODE_P = 0 → Z.land err2 PAGING_ERR_CODE_P = 0 →
  a ∈ A → contains a (paging_align_addr x) → contains a (paging_align_addr y) → physical_addr a ≠ 0 →
  let f := physical_addr a / PAGE_SIZE * PAGE_SIZE in
  wp (_ ← page_fault_handler mi st1 x err1; page_fault_handler mi st2 y err2)
     (λ _ k', let tr := dir_translate mi (task_paging_ctx t) (k_words k') (virtual_addr_space t) in
        tr x = Some (f + flags a, f + x mod PAGE_SIZE) ∧ tr y = Some (f + flags a, f + y mod PAGE_SIZE)) k.
Proof.
  intros Hft Hap Hx Hy Hxy He1 He2 Ha Hcx Hcy Hpa f. apply wp_bind.
  eapply wp_mono; [by apply (page_fault_served st1 x err1 t A a)|]. cbn beta.
  intros _ k1 (f1 & Hf1 & Hm1 & _ & _ & Hs1 & Hv1 & _).
  assert (Hft1 : faultable k1 t A) by by eapply faultable_kept.
  eapply wp_mono; [by apply (page_fault_served st2 y err2 t A a)|]. cbn beta.
  intros _ k2 (f2 & Hf2 & Hm2 & Ho2 & _).
  unfold fault_frame in Hf1, Hf2. rewrite (proj2 (Z.eqb_neq _ _) Hpa) in Hf1, Hf2. subst f1 f2.
  destruct (Hm1 x Hx eq_refl) as [Hok1 E1]. destruct (Hm2 y Hy eq_refl) as [Hok2 E2].
  assert (Hpr : present (word (k_words k1) (pde_addr (task_paging_ctx t) x)) = true)
    by (unfold entries_translation in E1; by destruct (present (word _ (pde_addr _ _)))).
  destruct (Ho2 x Hx Hxy Hok1 (or_intror Hpr)) as [Hok3 E3].
  destruct Hft. split; rewrite dir_translate_entries by done; [by rewrite E3|done].
Qed.

(** The page tables of [t] and [u] are the same, under different directories, as those
    of two tasks that task_create made. *)
Definition shared_tables (t u : task_control_block) : Prop :=
  paging_ok (task_paging_ctx u) ∧ page_tables (task_paging_ctx u) = page_tables (task_paging_ctx t) ∧
  (page_directory (task_paging_ctx t) + 4096 <= page_directory (task_paging_ctx u) ∨
   page_directory (task_paging_ctx u) + 4096 <= page_directory (task_paging_ctx t)).

(** C21: tasks are not isolated: all of them share the kernel's page tables, and only the
    directories are their own.  When the running task [t] faults on a page, another task
    [u] that has the 4 MB region in its directory is left with the frame and flags of
    [t] at this address, whatever it had there before. *)
Theorem page_fault_clobbers st addr err t u A a k :
  faultable k t A → shared_tables t u →
  dir_apart mi (task_paging_ctx t) (virtual_addr_space t) →
  dir_apart mi (task_paging_ctx u) (virtual_addr_space u) →
  is_u32 addr → Z.land err PAGING_ERR_CODE_P = 0 →
  a ∈ A → contains a (paging_align_addr addr) → (physical_addr a = 0 → ∃ p, lowest_free (k_bitmap k) p) →
  region_ok mi (task_paging_ctx u) (k_words k) addr →
  present (word (k_words k) (pde_addr (task_paging_ctx u) addr)) = true →
  wp (page_fault_handler mi st addr err)
     (λ _ k', ∃ f, fault_frame k a f ∧
        let seen v := dir_translate mi (task_paging_ctx v) (k_words k') (virtual_addr_space v) addr in
        seen t = Some (f + flags a, f + addr mod PAGE_SIZE) ∧ seen u = seen t) k.
Proof.
  intros Hft (Hpu & Htab & Hdirs) Hapt Hapu Haddr Herr Ha Hc Hfree Hreg Hpres.
  eapply wp_mono; [by apply (page_fault_served st addr err t A a)|]. cbn beta.
  intros _ k' (f & Hf & Hm & _ & Hw & _). exists f. split; [done|]. cbn zeta.
  destruct (Hm addr Haddr eq_refl) as [Hok E].
  destruct (indices mi Hhr addr Haddr) as (Hd & _).
  assert (Epde : word (k_words k') (pde_addr (task_paging_ctx u) addr) =
                 word (k_words k) (pde_addr (task_paging_ctx u) addr)).
  { apply Hw; [unfold pde_addr; lia|]. replace (pte_addr (task_paging_ctx t) addr)
      with (pte_addr (task_paging_ctx u) addr) by (unfold pte_addr; by rewrite Htab).
    by apply (pde_pte_apart mi). }
  rewrite (dir_translate_entries mi _ (ft_paging _ _ _ Hft) Hhr _ _ _ Haddr Hapt Hok).
  rewrite (dir_translate_entries mi _ Hpu Hhr _ _ _ Haddr Hapu); [|unfold region_ok; rewrite Epde; exact Hreg].
  split; [exact E|]. rewrite E. unfold entries_translation in *. rewrite Epde, Hpres.
  replace (pte_addr (task_paging_ctx u) addr) with (pte_addr (task_paging_ctx t) addr)
    by (unfold pte_addr; by rewrite Htab).
  by destruct (present (word (k_words k') (pde_addr (task_paging_ctx t) addr))).
Qed.

(** A fault on a page of no allocation of the running task. *)
Lemma page_fault_no_allocation st addr err t A k :
  faultable k t A → is_u32 addr → Z.land err PAGING_ERR_CODE_P = 0 →
  (∀ a, a ∈ A → ¬ contains a (paging_align_addr addr)) →
  page_fault_handler mi st addr err k = Err (EPanic "invalid VMM state").
Proof.
  intros [Hrun _ (vctx & bl & Hroot & Hrep) _] Haddr He Hno. unfold page_fault_handler.
  rewrite (bind_ok _ _ _ _ _ (run_current_task _ _ Hrun)).
  match goal with |- context [klog ?a ?b ?c ≫= _] =>
    destruct (klog_logged a b c k) as (k1 & E1 & [tr L1]); rewrite (bind_ok _ _ _ _ _ E1) end.
  rewrite He. cbn [negb Z.eqb].
  destruct (align_page addr Haddr) as [[Hal _] _]. rewrite (find_allocation_root _ _ _ Hroot).
  pose proof (vmm_find_allocation_ok _ bl A _ _ Hrep Hal) as W.
  apply wp_ok in W as (b & v & E & -> & [[Hb Hcb]|[-> _]]); [by destruct (Hno b Hb)|].
  rewrite (bind_ok _ _ k1 no_allocation (set_vmm (vmm_of k) k1)); [done|].
  unfold on_vmm, zoom. replace (vmm_of k1) with (vmm_of k) by by rewrite L1. by rewrite E.
Qed.

(** A fault that is a protection violation halts the machine, and so does a fault
    on a page of no allocation of the running task. *)
Theorem page_fault_panics st addr err t A k :
  faultable k t A → is_u32 addr →
  (Z.land err PAGING_ERR_CODE_P ≠ 0 →
     page_fault_handler mi st addr err k =
     Err (EPanic (if Z.land err PAGING_ERR_CODE_US =? 0 then "kernel protection fault"
                  else "TODO: kill the misbehaving user process"))) ∧
  (Z.land err PAGING_ERR_CODE_P = 0 → (∀ a, a ∈ A → ¬ contains a (paging_align_addr addr)) →
     page_fault_handler mi st addr err k = Err (EPanic "invalid VMM state")).
Proof.
  intros Hft Haddr. split; [|intros; by eapply page_fault_no_allocation]. intros He. unfold page_fault_handler.
  rewrite (bind_ok _ _ _ _ _ (run_current_task _ _ (ft_running _ _ _ Hft))).
  match goal with |- context [klog ?a ?b ?c ≫= _] =>
    destruct (klog_logged a b c k) as (k1 & E1 & _); rewrite (bind_ok _ _ _ _ _ E1) end.
  rewrite (proj2 (Z.eqb_neq _ _) He). cbn [negb]. by destruct (Z.land err PAGING_ERR_CODE_US =? 0).
Qed.

End Props.

(** ** Witnesses *)

(** A kernel whose running task has the address space [space1], four pages at 64 KB
    in the frames from 4 MB on. *)
Definition fault_task : task_control_block :=
  mk_task 7 0x7000 (vmm_virtual_to_physical meminfo0 (page_directory ctx0)) 0x8000 space1.1 ctx0 0.
Definition fault_kernel : kernel kheap :=
  mk_kernel (SchedStore (vs_heap space1.2) {[ 0x500 := fault_task ]} ∅ 0 0 0
               (mk_task_list 0x500 TASK_PRIORITY_LOW 0) 1 (mk_cpu_state 0 0 0))
    (vs_blocks space1.2) (vs_nodes space1.2) bitmap0 ∅ ps2_0 8.

Lemma fault_kernel_ok : faultable fault_kernel fault_task [Allocation 0x10000 0x400000 4 7].
Proof.
  split; [done|exact ctx0_ok| |].
  - exists space1.1. eexists. split; [done|]. replace (vmm_of fault_kernel) with space1.2; [exact (proj1 space1_rep)|].
    unfold vmm_of, fault_kernel. by destruct space1 as [? []].
  - intros a ->%list_elem_of_singleton. split_and!; by vm_compute.
Qed.

Lemma ctx0_apart :
  dir_apart meminfo0 ctx0 (vmm_virtual_to_physical meminfo0 (page_directory ctx0)).
Proof.
  intros va Hva. destruct (indices meminfo0 (proj2 meminfo0_base) va Hva) as (Hd & _). right. unfold table_phys, vmm_virtual_to_physical.
  change (page_tables ctx0) with 0xC0200000. change (page_directory ctx0) with 0xC0110000.
  change (higher_half_base meminfo0) with 0xC0000000. ulia.
Qed.

Lemma page_fault_maps_witness :
  wp (page_fault_handler meminfo0 state0 0x11234 0)
     (λ _ k', dir_translate meminfo0 ctx0 (k_words k') (virtual_addr_space fault_task) 0x11234 =
              Some (0x400007, 0x400234)) fault_kernel.
Proof.
  eapply wp_mono.
  - apply (page_fault_maps meminfo0 (proj1 meminfo0_base) (proj2 meminfo0_base) state0 0x11234 0 fault_task
      _ (Allocation 0x10000 0x400000 4 7) fault_kernel fault_kernel_ok ctx0_apart); [done|done|by left|done|done].
  - cbn beta. intros _ k' (f & Hf & Hm & _). change (f = 0x400000) in Hf. subst f. by apply Hm.
Defined.

Lemma page_fault_aliases_witness :
  wp (_ ← page_fault_handler meminfo0 state0 0x11234 0; page_fault_handler meminfo0 state0 0x12234 0)
     (λ _ k', dir_translate meminfo0 ctx0 (k_words k') (virtual_addr_space fault_task) 0x11234 =
              dir_translate meminfo0 ctx0 (k_words k') (virtual_addr_space fault_task) 0x12234)
     fault_kernel.
Proof.
  eapply wp_mono.
  - apply (page_fault_aliases meminfo0 (proj1 meminfo0_base) (proj2 meminfo0_base) state0 state0 0 0
      0x11234 0x12234 fault_task _ (Allocation 0x10000 0x400000 4 7) fault_kernel fault_kernel_ok ctx0_apart);
      done || by left.
  - cbn beta. intros _ k' [E1 E2]. cbn [task_paging_ctx fault_task] in E1, E2. exact (eq_trans E1 (eq_sym E2)).
Defined.

Lemma page_fault_panics_witness :
  page_fault_handler meminfo0 state0 0x20000 4 fault_kernel = Err (EPanic "invalid VMM state").
Proof.
  apply (page_fault_panics meminfo0 state0 0x20000 4 fault_task _ fault_kernel fault_kernel_ok); [done|done|].
  intros a ->%list_elem_of_singleton. by intros [_ Hc].
Defined.

(** A second task, with the page at 0x11000 in the frame at 7 MB. *)
Definition ctx1 : paging_context := PagingContext 0xC0111000 (page_tables ctx0).
Definition other_task : task_control_block :=
  mk_task 8 0x7000 (vmm_virtual_to_physical meminfo0 (page_directory ctx1)) 0x8000 space1.1 ctx1 0.
Definition clobber_kernel : kernel kheap :=
  set_words {[ pde_addr ctx1 0x11234 := table_phys meminfo0 ctx1 0x11234 + 7;
               pte_addr ctx1 0x11234 := 0x700007 ]} fault_kernel.

Lemma ctx1_apart :
  dir_apart meminfo0 ctx1 (vmm_virtual_to_physical meminfo0 (page_directory ctx1)).
Proof.
  intros va Hva. destruct (indices meminfo0 (proj2 meminfo0_base) va Hva) as (Hd & _). right.
  unfold table_phys, vmm_virtual_to_physical.
  change (page_tables ctx1) with 0xC0200000. change (page_directory ctx1) with 0xC0111000.
  change (higher_half_base meminfo0) with 0xC0000000. ulia.
Qed.

Lemma page_fault_clobbers_witness :
  dir_translate meminfo0 ctx1 (k_words clobber_kernel) (virtual_addr_space other_task) 0x11234 =
    Some (0x700007, 0x700234) ∧
  wp (page_fault_handler meminfo0 state0 0x11234 0)
     (λ _ k', dir_translate meminfo0 ctx1 (k_words k') (virtual_addr_space other_task) 0x11234 =
              Some (0x400007, 0x400234)) clobber_kernel.
Proof.
  split; [by vm_compute|]. eapply wp_mono.
  - apply (page_fault_clobbers meminfo0 (proj1 meminfo0_base) (proj2 meminfo0_base) state0 0x11234 0 fault_task
      other_task [Allocation 0x10000 0x400000 4 7] (Allocation 0x10000 0x400000 4 7) clobber_kernel).
    + apply (faultable_kept fault_kernel); [exact fault_kernel_ok|done|done].
    + split_and!; [|done|by left]. split; (by vm_compute) || (by split; vm_compute) || (left; by vm_compute).
    + exact ctx0_apart.
    + exact ctx1_apart.
    + done.
    + done.
    + by left.
    + done.
    + done.
    + intros _. by vm_compute.
    + by vm_compute.
  - cbn beta. intros _ k' (f & Hf & E1 & E2). change (f = 0x400000) in Hf. subst f.
    cbn [task_paging_ctx other_task] in E2. by rewrite E2.
Defined.
