(* ===== verification/Handlers.v ===== *)
(** * Interrupt handlers: arch/i386/interrupts/handlers.c and the handlers of idt.c

    [run_isr] is what each service routine does.  [interrupt] is what the processor
    does when a vector is raised: it takes the gate of the loaded table and runs the
    routine at the address in it.  [isr_at], the routine at an address, is the inverse
    of [isr_addr] of Idt. *)

From S2P Require Import Prelude Allocator Kmalloc PageArith Vmm Paging Printk PortIo.
From S2P Require Import Pic Gdt Ps2 Sched Idt Kernel Syscall PageFault.

Section Operations.
Context {H : Type} `{Allocator H} (KERNEL_MEMINFO : kernel_meminfo) (device : trace → Z → Z).
Notation KM := (M (kernel H)).

(** timer_irq_handler *)
Definition timer_irq : KM unit :=
  _ ← on_ports (pic_send_eoi PIC_IRQ0);
  k ← get;
  if negb (SCHED_INIT (k_sched k) =? 0) then on_sched sched_context_switch else mret tt.

(** keyboard_irq_handler *)
Definition keyboard_irq : KM unit := on_ps2 (ps2_handle_irq1 device).

(** The message of the handlers that only panic; [None] for the others. *)
Definition panic_message (h : isr) : option string :=
  match h with
  | divide_error_exception_handler => Some "divide_error_exception (eflags=%#x, cs=%d, eip=%d)\n"
  | debug_exception_handler => Some "debug_exception (eflags=%#x, cs=%d, eip=%d)\n"
  | nmi_interrupt_handler => Some "nmi_interrupt (eflags=%#x, cs=%d, eip=%d)\n"
  | breakpoint_exception_handler => Some "breakpoint_exception (eflags=%#x, cs=%d, eip=%d)\n"
  | overflow_exception_handler => Some "overflow_exception (eflags=%#x, cs=%d, eip=%d)\n"
  | bound_range_exceeded_exception_handler =>
      Some "bound_range_exceeded_exception (eflags=%#x, cs=%d, eip=%d)\n"
  | invalid_opcode_exception_handler => Some "invalid_opcode_exception (eflags=%#x, cs=%d, eip=%d)\n"
  | device_not_available_exception_handler =>
      Some "device_not_available_exception (eflags=%#x, cs=%d, eip=%d)\n"
  | double_fault_exception_handler =>
      Some "double_fault_exception (eflags=%#x, cs=%d, eip=%d, error=%d)\n"
  | coprocessor_segment_overrun_handler =>
      Some "coprocessor_segment_overrun (eflags=%#x, cs=%d, eip=%d)\n"
  | invalid_tss_exception_handler =>
      Some "invalid_tss_exception (eflags=%#x, cs=%d, eip=%d, error=%d)\n"
  | segment_not_present_handler => Some "segment_not_present (eflags=%#x, cs=%d, eip=%d, error=%d)\n"
  | stack_fault_exception_handler =>
      Some "stack_fault_exception (eflags=%#x, cs=%d, eip=%d, error=%d)\n"
  | general_protection_exception_handler =>
      Some "general_protection_exception (eflags=%#x, cs=%d, eip=%d, error=%d)\n"
  | x87_fpu_floating_point_error_handler =>
      Some "x87_fpu_floating_point_error (eflags=%#x, cs=%d, eip=%d)\n"
  | alignment_check_exception_handler =>
      Some "alignment_check_exception (eflags=%#x, cs=%d, eip=%d, error=%d)\n"
  | machine_check_exception_handler => Some "machine_check_exception (eflags=%#x, cs=%d, eip=%d)\n"
  | simd_floating_point_exception_handler =>
      Some "simd_floating_point_exception (eflags=%#x, cs=%d, eip=%d)\n"
  | virtualization_exception_handler => Some "virtualization_exception (eflags=%#x, cs=%d, eip=%d)\n"
  | control_protection_exception_handler =>
      Some "control_protection_exception (eflags=%#x, cs=%d, eip=%d, error=%d)\n"
  | default_exception_handler => Some "received interrupt (eflags=%#x, cs=%d, eip=%d)\n"
  | page_fault_exception_handler | timer_irq_handler | keyboard_irq_handler
  | syscall_interrupt_handler => None
  end.

(** What the processor hands to a handler. *)
Record interrupt_args : Type := mk_args {
  ia_state : interrupt_state; ia_err_code : Z; ia_cr2 : Z; ia_regs : registers
}.

Definition run_isr (h : isr) (a : interrupt_args) : KM registers :=
  match panic_message h with
  | Some msg => panic msg
  | None =>
      match h with
      | page_fault_exception_handler =>
          _ ← page_fault_handler KERNEL_MEMINFO (ia_state a) (ia_cr2 a) (ia_err_code a); mret (ia_regs a)
      | timer_irq_handler => _ ← timer_irq; mret (ia_regs a)
      | keyboard_irq_handler => _ ← keyboard_irq; mret (ia_regs a)
      | _ => syscall_handler (ia_state a) (ia_regs a)
      end
  end.

Definition interrupt (isr_at : Z → option isr) (idt : idt_state) (v : Z) (a : interrupt_args) :
    KM registers :=
  match vector_target idt v with
  | Some (addr, _, _) =>
      match isr_at addr with Some h => run_isr h a | None => throw (EFault addr) end
  | None => throw (EUndef "a vector without a gate")
  end.

End Operations.

Section Props.
Context {H : Type} `{Allocator H} (mi : kernel_meminfo) (device : trace → Z → Z).
Context (p1 p2 : i8259) (isr_addr : isr → Z) (idt_addr : Z) (isr_at : Z → option isr).
Implicit Types k : kernel H.

(** ** From the vector to the handler *)

Section Dispatch.
Context (Hdev : has_pics device p1 p2) (Hu1 : is_u8 (pic_imr p1)) (Hu2 : is_u8 (pic_imr p2)).
Context (Haddr : ∀ h, is_u32 (isr_addr h)) (Hat : ∀ h, isr_at (isr_addr h) = Some h).
Notation raise := (interrupt (H := H) mi device isr_at).

(** The vectors that reach a handler which does more than panic. *)
Definition served : list Z :=
  [INT_PAGE_FAULT_EXCEPTION; PIC1_INT_OFFSET + PIC_IRQ0; PIC1_INT_OFFSET + PIC_IRQ1; IDT_SYSCALL_INT].

Lemma raise_wanted s v h fl a k :
  vector_target s v = Some (isr_addr h, GDT_KERNEL_CODE_SEGMENT, fl) →
  raise s v a k = run_isr mi device h a k.
Proof. intros E. unfold interrupt. by rewrite E, Hat. Qed.

(** Which of the wanted gates lead to a handler that panics. *)
Lemma wanted_panics v :
  0 <= v < 256 → v ∉ served →
  match wanted v with Some (h, _) => is_Some (panic_message h) | None => v = 15 ∨ 22 <= v < 32 end.
Proof.
  intros Hv Hs.
  assert (Hall : forallb (λ v, bool_decide (v ∈ served) ||
    match wanted v with
    | Some (h, _) => match panic_message h with Some _ => true | None => false end
    | None => (v =? 15) || ((22 <=? v) && (v <? 32))
    end) (seqZ 0 256) = true) by (vm_compute; reflexivity).
  rewrite forallb_forall in Hall. specialize (Hall v). rewrite bool_decide_eq_false_2 in Hall by done.
  assert (Hin : In v (seqZ 0 256)) by (apply list_elem_of_In, elem_of_seqZ; lia).
  apply Hall in Hin. cbn [orb] in Hin. destruct (wanted v) as [[h fl]|].
  - destruct (panic_message h); [by eauto|done].
  - rewrite orb_true_iff, andb_true_iff, Z.eqb_eq, Z.leb_le, Z.ltb_lt in Hin. done.
Qed.

(** C24: once idt_init has run, raising a vector that it makes a gate for runs the kernel's
    routine for it: the page fault handler at 14, the timer and the keyboard at the vectors
    to which the controllers' lines 0 and 1 were moved, the system call at 80.  Every other
    vector that has a gate halts the machine with the message of its handler.  The vectors
    15 and 22 to 31, which the processor reserves, have no gate and are not part of this. *)
Theorem interrupts_dispatched s :
  length (idt_descriptors s) = 256%nat →
  wp (idt_init device isr_addr idt_addr)
     (λ _ s', ∀ a k,
        raise s' INT_PAGE_FAULT_EXCEPTION a k = run_isr mi device page_fault_exception_handler a k ∧
        raise s' (PIC1_INT_OFFSET + PIC_IRQ0) a k = run_isr mi device timer_irq_handler a k ∧
        raise s' (PIC1_INT_OFFSET + PIC_IRQ1) a k = run_isr mi device keyboard_irq_handler a k ∧
        raise s' IDT_SYSCALL_INT a k = syscall_handler (ia_state a) (ia_regs a) k ∧
        ∀ v, 0 <= v < 256 → v ∉ served → v ≠ 15 → ¬ 22 <= v < 32 →
          ∃ msg, raise s' v a k = Err (EPanic msg)) s.
Proof.
  intros Hlen. eapply wp_mono; [by apply (idt_init_table device p1 p2 isr_addr idt_addr Hdev Hu1 Hu2)|].
  cbn beta. intros _ s' (Hv & _) a k. split_and!.
  - exact (raise_wanted s' 14 page_fault_exception_handler 0x8F a k (Hv 14 ltac:(lia))).
  - exact (raise_wanted s' 32 timer_irq_handler 0x8F a k (Hv 32 ltac:(lia))).
  - exact (raise_wanted s' 33 keyboard_irq_handler 0x8F a k (Hv 33 ltac:(lia))).
  - exact (raise_wanted s' 80 syscall_interrupt_handler 0xEE a k (Hv 80 ltac:(lia))).
  - intros v Hr Hs H15 H22. specialize (Hv v Hr). pose proof (wanted_panics v Hr Hs) as Hw.
    destruct (wanted v) as [[h fl]|]; [|exfalso; destruct Hw; [done|lia]]. destruct Hw as [msg Hmsg].
    exists msg. rewrite (raise_wanted s' v h fl a k Hv). unfold run_isr. by rewrite Hmsg.
Qed.

(** The gates from 34 on, the system call's apart, can be used by user programs
    (their privilege level is 3) and lead to a handler that halts the machine. *)
Theorem user_interrupt_panics s v :
  length (idt_descriptors s) = 256%nat → 34 <= v < 256 → v ≠ IDT_SYSCALL_INT →
  wp (idt_init device isr_addr idt_addr)
     (λ _ s', ∀ a k, (∃ addr sel fl, vector_target s' v = Some (addr, sel, fl) ∧ Z.land fl 0x60 = IDT_USER_DPL) ∧
        raise s' v a k = Err (EPanic "received interrupt (eflags=%#x, cs=%d, eip=%d)\n")) s.
Proof.
  intros Hlen Hv Hne. eapply wp_mono; [by apply (idt_init_table device p1 p2 isr_addr idt_addr Hdev Hu1 Hu2)|].
  cbn beta. intros _ s' (Ht & _) a k. specialize (Ht v ltac:(lia)).
  assert (E : wanted v = Some (default_exception_handler, 0xEE)).
  { unfold wanted, IDT_SYSCALL_INT in *.
    rewrite !(proj2 (Z.ltb_ge v _)), !(proj2 (Z.eqb_neq v _)) by lia. done. }
  rewrite E in Ht. split; [by do 3 eexists|]. by rewrite (raise_wanted s' v _ _ a k Ht).
Qed.

End Dispatch.

(** ** The timer *)

(** C18: the timer drives the round robin: from a state in which the task at place [i]
    of [n] is next, after [m + 1] timer interrupts the task at place [i + m] modulo [n]
    runs, so in [n] ticks every task of the ring has run; and each interrupt has been
    acknowledged to the controller. *)
Theorem timer_round_robin k l ts i (m : nat) :
  sched_ok (k_sched k) l ts → l !! i = Some (tasks_sched_head (k_sched k)) →
  SCHED_INIT (k_sched k) ≠ 0 →
  wp (for_range (S m) 0 (λ _, timer_irq))
     (λ _ k', sched_ok (k_sched k') l ts ∧
        ts !! ((i + m) mod length l)%nat = Some (tl_task (CURRENT_TASK (k_sched k'))) ∧
        pic_eois (pic1 p1 (k_io k')) = (pic_eois (pic1 p1 (k_io k)) + S m)%nat) k.
Proof.
  intros Hs Hi Hon.
  apply (wp_for_range _ _ _ (λ z k', rr_at (k_sched k') l ts i z ∧ SCHED_INIT (k_sched k') ≠ 0 ∧
    pic_eois (pic1 p1 (k_io k')) = (pic_eois (pic1 p1 (k_io k)) + Z.to_nat z)%nat)).
  - split_and!; [by apply rr_start|done|lia].
  - intros z k1 Hz (Hrr & Hon1 & He1). unfold timer_irq.
    apply wp_bind, wp_zoom. eapply wp_mono; [apply (pic_send_eoi_ok p1 p2)|]. cbn beta.
    intros _ tr [Hp _]. apply wp_bind, wp_get. cbn [k_sched set_io set_ps2].
    rewrite (proj2 (Z.eqb_neq _ _) Hon1). cbn [negb]. apply wp_zoom. cbn [k_sched set_io set_ps2].
    eapply wp_mono; [exact (rr_step _ l ts i z ltac:(lia) Hrr)|].
    cbn beta. intros _ s' [Hrr' Hi']. split_and!; [exact Hrr'|simpl; by rewrite Hi'|].
    change (k_io (set_sched s' (set_io tr k1))) with tr. rewrite Hp. change (pic_eois (pic_control _ ?p)) with (S (pic_eois p)).
    rewrite He1. lia.
  - intros k1 (Hrr & _ & He). split_and!; [apply Hrr|by apply rr_running|rewrite He; lia].
Qed.

End Props.

(** ** Witnesses *)

(** The routines at distinct addresses. *)
Definition isrs : list isr :=
  exceptions ++ late_exceptions ++
  [default_exception_handler; timer_irq_handler; keyboard_irq_handler; syscall_interrupt_handler].
Definition isr_addr1 (h : isr) : Z :=
  match list_find (h =.) isrs with Some (i, _) => 0xC0101000 + 64 * Z.of_nat i | None => 0 end.
Definition isr_at1 (a : Z) : option isr := isrs !! Z.to_nat ((a - 0xC0101000) / 64).

Definition args0 : interrupt_args := mk_args state0 0 0 exit_regs.

Lemma interrupts_dispatched_witness :
  wp (idt_init bios_device isr_addr1 0xC0120000)
     (λ _ s', ∃ msg, interrupt meminfo0 bios_device isr_at1 s' 13 args0 (kernel_with sched4) =
                     Err (EPanic msg)) idt0.
Proof.
  eapply wp_mono; [apply (interrupts_dispatched meminfo0 bios_device bios_pic1 bios_pic2 isr_addr1 0xC0120000
    isr_at1 bios_device_ok ltac:(by vm_compute) ltac:(by vm_compute)); [by intros []..|done]|].
  cbn beta. intros _ s' Hs. apply (Hs args0 (kernel_with sched4)); [lia| |done|lia].
  unfold served. by vm_compute; set_solver.
Defined.

Lemma user_interrupt_panics_witness :
  wp (idt_init bios_device isr_addr1 0xC0120000)
     (λ _ s', interrupt meminfo0 bios_device isr_at1 s' 128 args0 (kernel_with sched4) =
              Err (EPanic "received interrupt (eflags=%#x, cs=%d, eip=%d)\n")) idt0.
Proof.
  eapply wp_mono; [apply (user_interrupt_panics meminfo0 bios_device bios_pic1 bios_pic2 isr_addr1 0xC0120000
    isr_at1 bios_device_ok ltac:(by vm_compute) ltac:(by vm_compute)) with (v := 128); [by intros []|by intros []|done|lia|done]|].
  cbn beta. intros _ s' Hs. apply Hs.
Defined.

Lemma timer_round_robin_witness :
  wp (for_range 6 0 (λ _, timer_irq))
     (λ _ k', tl_task (CURRENT_TASK (k_sched k')) = 0x600 ∧ pic_eois (pic1 bios_pic1 (k_io k')) = 6%nat)
     (kernel_with sched4).
Proof.
  eapply wp_mono; [apply (timer_round_robin bios_pic1 bios_pic2 (kernel_with sched4) ring4 tasks4 0 5
    sched4_ok); done|].
  cbn beta. intros _ k' (_ & Ht & He). split; [by injection Ht|exact He].
Defined.
