(* ===== verification/Task.v ===== *)
(** * Tasks: arch/i386/mm/addr_space.c, task.c, and vmm_clone_paging_context of vmm.c

    A new task gets a kernel stack, for a user task a page directory of its own, and
    a control block; on the stack are the words that the first switch to the task
    pops.  The kernel stack and the directories are memory at virtual addresses, in
    [k_words].  The entry points whose addresses are pushed are parameters. *)

From S2P Require Import Prelude Allocator Kmalloc PageArith Vmm VmmRules VmmRanges VmmFree VmmTree VmmSpace.
From S2P Require Import Spaces VmmProps VmmClone Mem Pmm Paging Printk PortIo Ps2 Sched Kernel Syscall PageFault.

Definition KERNEL_STACK_PAGE_COUNT : Z := 10.
Definition KERNEL_STACK_SIZE : Z := KERNEL_STACK_PAGE_COUNT * PAGE_SIZE.
Definition sizeof_task_control_block : Z := 36.

Section Operations.
Context {H : Type} `{Allocator H} (KERNEL_MEMINFO : kernel_meminfo).
Context (sched_halt_or_crash sched_remove_addr : Z).
Notation KM := (M (kernel H)).

Definition kernel_page_flags : Z := Z.lor PAGE_FLAG_PRESENT PAGE_FLAG_WRITE.

(** The loop of alloc_kernel_stack, from the second page of the stack on. *)
Definition map_stack_pages (paging_ctx : paging_context) (kernel_stack_bottom : Z) : KM unit :=
  for_range (Z.to_nat (KERNEL_STACK_PAGE_COUNT - 1)) 1 (λ i,
    physical_addr ← on_pmm pmm_alloc_page;
    on_words (paging_map_virtual_to_physical KERNEL_MEMINFO paging_ctx
                (u32 (kernel_stack_bottom + i * PAGE_SIZE)) physical_addr kernel_page_flags)).

(** The stack top, and the context as the call leaves it. *)
Definition alloc_kernel_stack (paging_ctx : paging_context) (vmm_ctx : vmm_context) :
    KM (Z * vmm_context) :=
  bottom_physical_addr ← on_pmm pmm_alloc_page;
  r ← on_vmm (vmm_map_pages KERNEL_MEMINFO vmm_ctx 0 bottom_physical_addr KERNEL_STACK_PAGE_COUNT
                kernel_page_flags);
  let kernel_stack_bottom := r.1 in
  let kernel_stack_top := u32 (kernel_stack_bottom + KERNEL_STACK_SIZE - 16) in
  _ ← map_stack_pages paging_ctx kernel_stack_bottom;
  mret (kernel_stack_top, r.2).

(** memcpy between two page_table_t, entry by entry.  The first write to a new directory is a
    page fault in the code, which maps its page; here the words are written at once. *)
Definition copy_table (dst src : Z) : M words unit :=
  for_range (Z.to_nat PAGE_TABLE_SIZE) 0 (λ i,
    modify (λ w, set_word (entry_addr dst i) (word w (entry_addr src i)) w)).

Definition vmm_clone_paging_context (vmm_ctx : vmm_context) (paging_ctx : paging_context) :
    KM (paging_context * vmm_context) :=
  physical_addr ← on_pmm pmm_alloc_page;
  r ← on_vmm (vmm_map_pages KERNEL_MEMINFO vmm_ctx 0 physical_addr 1 kernel_page_flags);
  let directory := r.1 in
  _ ← on_words (copy_table directory (page_directory paging_ctx));
  _ ← on_words (modify (set_word (entry_addr directory (PAGE_TABLE_SIZE - 1))
                  (Z.lor (Z.lor physical_addr PAGE_FLAG_PRESENT) PAGE_FLAG_WRITE)));
  mret (PagingContext directory (page_tables paging_ctx), r.2).

Definition push_uint32 (kernel_stack_top value : Z) : KM Z :=
  _ ← on_words (modify (set_word kernel_stack_top value));
  mret (u32 (kernel_stack_top - 4)).

(** last_pid++ *)
Definition next_pid : KM Z :=
  pid ← gets k_last_pid; _ ← modify (set_last_pid (u32 (pid + 1))); mret pid.

Definition with_task (p : Z) (t : task_control_block) (s : sched_store H) : sched_store H :=
  SchedStore (ss_heap s) (<[p := t]> (ss_tasks s)) (ss_lists s) (tasks_head s) (tasks_tail s)
             (tasks_sched_head s) (CURRENT_TASK s) (SCHED_INIT s) (ss_cpu s).
Definition store_task (p : Z) (t : task_control_block) : KM unit :=
  if p =? 0 then throw (EFault 0)
  else on_sched (modify (with_task p t)).

(** The words of the first frame, from the stack top [sp] down. *)
Definition push_frame (sp pid task_fn ret_addr : Z) : KM Z :=
  sp ← push_uint32 sp pid;
  sp ← push_uint32 sp sched_halt_or_crash;
  sp ← push_uint32 sp sched_remove_addr;
  sp ← (if negb (ret_addr =? 0) then push_uint32 sp ret_addr else mret sp);
  sp ← push_uint32 sp task_fn;
  sp ← push_uint32 sp 0;
  sp ← push_uint32 sp 0;
  sp ← push_uint32 sp 0;
  _ ← on_words (modify (set_word sp 0));
  mret sp.

Definition task_create (paging_ctx : paging_context) (vmm_ctx : vmm_context) (task_fn ret_addr : Z)
    (is_userspace : bool) : KM Z :=
  r ← alloc_kernel_stack paging_ctx vmm_ctx;
  let kernel_stack_top := r.1 in
  r ← (if is_userspace then vmm_clone_paging_context r.2 paging_ctx else mret (paging_ctx, r.2));
  let task_paging_ctx := r.1 in
  let vmm_ctx := r.2 in
  task ← on_vmm (on_heap (malloc sizeof_task_control_block));
  pid ← next_pid;
  kernel_stack_top ← push_frame kernel_stack_top pid task_fn ret_addr;
  cr3 ← (if is_userspace then
           alloc ← on_vmm (vmm_find_allocation vmm_ctx (page_directory task_paging_ctx));
           _ ← assert (negb (page_count alloc =? 0)) "invalid VMM state";
           mret (physical_addr alloc)
         else mret (vmm_virtual_to_physical KERNEL_MEMINFO (page_directory task_paging_ctx)));
  _ ← store_task task (mk_task pid kernel_stack_top cr3 kernel_stack_top vmm_ctx task_paging_ctx 0);
  mret task.

Definition init_sched (paging_ctx : paging_context) (vmm_context : vmm_context) : KM unit :=
  task ← task_create paging_ctx vmm_context 0 0 false;
  on_sched (sched_start task).

End Operations.

(** Blocks of the heap that others own make no difference to what the code does. *)
Section Reserving.
Context {H : Type} `{Allocator H} (kept : gmap Z Z) (mi : kernel_meminfo).

Lemma alloc_kernel_stack_reserving pctx ctx :
  @alloc_kernel_stack H (reserving kept) mi pctx ctx = alloc_kernel_stack mi pctx ctx.
Proof.
  unfold alloc_kernel_stack.
  by generalize kernel_page_flags, KERNEL_STACK_PAGE_COUNT, 0, KERNEL_STACK_SIZE, (map_stack_pages (H := H) mi pctx).
Qed.

Lemma vmm_map_pages_reserving ctx va pa n fl :
  @vmm_map_pages H (reserving kept) mi ctx va pa n fl = vmm_map_pages mi ctx va pa n fl.
Proof. done. Qed.

Lemma vmm_clone_paging_context_reserving ctx pctx :
  @vmm_clone_paging_context H (reserving kept) mi ctx pctx = vmm_clone_paging_context mi ctx pctx.
Proof.
  unfold vmm_clone_paging_context. by generalize kernel_page_flags, 1, 0.
Qed.

Lemma vmm_unmap_pages_reserving ctx va n :
  @vmm_unmap_pages H (reserving kept) mi ctx va n = vmm_unmap_pages mi ctx va n.
Proof. done. Qed.

Lemma vmm_clone_context_reserving junk ctx :
  @vmm_clone_context H (reserving kept) junk ctx = vmm_clone_context junk ctx.
Proof. done. Qed.

(** The kernel [k] has these address spaces, next to the blocks [kept] of its heap. *)
Definition address_spaces (k : kernel H) (S : list space) : Prop := @spaces H (reserving kept) (vmm_of k) S.

End Reserving.

(** ** The first frame *)

Section Frame.
Context {H : Type} `{Allocator H} (halt_addr remove_addr : Z).
Implicit Types (k : kernel H) (w : words).

(** The words of the frame, from the stack top down. *)
Definition first_frame (pid task_fn ret_addr : Z) : list Z :=
  [pid; halt_addr; remove_addr] ++ (if ret_addr =? 0 then [] else [ret_addr]) ++ [task_fn; 0; 0; 0; 0].

(** [vs] lie below the address [top], and memory is otherwise as [w0] was. *)
Definition pushed (top : Z) (vs : list Z) (w0 w : words) : Prop :=
  (∀ i v, vs !! i = Some v → word w (top - 4 * Z.of_nat i) = u32 v) ∧
  (∀ a, ¬ (top - 4 * Z.of_nat (length vs) < a <= top) → word w a = word w0 a) ∧
  (words_ok w0 → words_ok w).

Lemma pushed_nil top w : pushed top [] w w.
Proof. by split. Qed.

Lemma pushed_snoc top vs v w0 w :
  pushed top vs w0 w → pushed top (vs ++ [v]) w0 (set_word (top - 4 * Z.of_nat (length vs)) v w).
Proof.
  intros (Hv & Hk & Hok). split_and!.
  - intros i x Hi. rewrite word_set. destruct (decide (i = length vs)) as [->|Hne].
    + rewrite decide_True by done. rewrite lookup_app_r, Nat.sub_diag in Hi by done. by injection Hi as ->.
    + assert ((i < length vs)%nat).
      { apply lookup_lt_Some in Hi. rewrite length_app in Hi. simpl in Hi. lia. }
      rewrite decide_False by lia. apply Hv. by rewrite lookup_app_l in Hi.
  - intros a Ha. rewrite length_app in Ha. simpl in Ha. rewrite word_set, decide_False by lia. apply Hk. lia.
  - intros Hw. by apply words_ok_set, Hok.
Qed.

(** One push, of the word for which there is room. *)
Lemma wp_push top vs v w0 Q k :
  pushed top vs w0 (k_words k) → 4 * Z.of_nat (length vs) < top < 2 ^ 32 - 4 → 
  (∀ w, pushed top (vs ++ [v]) w0 w →
     Q (top - 4 * Z.of_nat (length (vs ++ [v]))) (set_words w k)) →
  4 * Z.of_nat (length vs) + 4 <= top →
  wp (push_uint32 (top - 4 * Z.of_nat (length vs)) v) Q k.
Proof.
  intros Hp Hr HQ Hr2. apply wp_bind, wp_zoom, wp_modify, wp_ret.
  replace (u32 _) with (top - 4 * Z.of_nat (length (vs ++ [v]))).
  - apply HQ. by apply pushed_snoc.
  - rewrite length_app. simpl. rewrite u32_small by (unfold is_u32; lia). lia.
Qed.

Lemma push_frame_ok top pid task_fn ret_addr k :
  64 <= top < 2 ^ 32 - 4 →
  wp (push_frame halt_addr remove_addr top pid task_fn ret_addr)
     (λ sp k', ∃ w, k' = set_words w k ∧ pushed top (first_frame pid task_fn ret_addr) (k_words k) w ∧
        sp = top - 4 * (Z.of_nat (length (first_frame pid task_fn ret_addr)) - 1)) k.
Proof.
  intros Ht. unfold push_frame, first_frame. pose proof (pushed_nil top (k_words k)) as Hp.
  assert (E0 : top = top - 4 * Z.of_nat (length (@nil Z))) by (simpl; lia). rewrite E0 at 1.
  do 3 (apply wp_bind; eapply wp_push; [exact Hp|simpl; lia| |simpl; lia]; clear Hp; intros ? Hp).
  apply wp_bind. destruct (ret_addr =? 0); cbn [negb app];
    [apply wp_ret|eapply wp_push; [exact Hp|simpl; lia| |simpl; lia]; clear Hp; intros ? Hp].
  all: do 4 (apply wp_bind; eapply wp_push; [exact Hp|simpl; lia| |simpl; lia]; clear Hp; intros ? Hp).
  all: apply wp_bind, wp_zoom, wp_modify, wp_ret; eexists; split_and!;
    [reflexivity|exact (pushed_snoc _ _ 0 _ _ Hp)|simpl; lia].
Qed.

End Frame.

(** ** The kernel stack *)

Section Stack.
Context {H : Type} `{Allocator H} {FL : Limit} (mi : kernel_meminfo) (kctx : paging_context).
Context (Hctx : paging_ok kctx).
Context (Hhh : higher_half_base mi mod 4096 = 0) (Hhr : is_u32 (higher_half_base mi)).
Implicit Types (k : kernel H) (w : words) (bl : list (Z * Z)).

(** An address that belongs to the kernel's page directory or page tables. *)
Definition table_addr (a : Z) : Prop :=
  page_directory kctx <= a < page_directory kctx + 4096 ∨
  page_tables kctx <= a < page_tables kctx + 4096 * 1024.

Lemma entries_table va : is_u32 va → table_addr (pde_addr kctx va) ∧ table_addr (pte_addr kctx va).
Proof.
  intros Hva. destruct (indices mi Hhr va Hva) as (Hd & Ht & _). unfold table_addr, pde_addr, pte_addr. lia.
Qed.

(** The pages, by number, that are not of [S] have the entries they had, in tables that
    have only become present. *)
Definition entries_kept (S : Z → Prop) w w' : Prop :=
  ∀ x, is_u32 x → ¬ S (x / PAGE_SIZE) →
    (region_ok mi kctx w x → region_ok mi kctx w' x) ∧
    word w' (pte_addr kctx x) = word w (pte_addr kctx x) ∧
    (present (word w (pde_addr kctx x)) = true → present (word w' (pde_addr kctx x)) = true).

Lemma entries_kept_trans (S1 S2 S : Z → Prop) w1 w2 w3 :
  entries_kept S1 w1 w2 → entries_kept S2 w2 w3 → (∀ n, S1 n ∨ S2 n → S n) → entries_kept S w1 w3.
Proof.
  intros H1 H2 HS x Hx Hno. destruct (H1 x Hx) as (R1 & P1 & D1); [by intros ?; apply Hno, HS; left|].
  destruct (H2 x Hx) as (R2 & P2 & D2); [by intros ?; apply Hno, HS; right|]. split_and!; [auto|congruence|auto].
Qed.

(** Words outside the directory and the tables do not matter. *)
Lemma entries_kept_tables S w w' : (∀ a, table_addr a → word w' a = word w a) → entries_kept S w w'.
Proof.
  intros Hw x Hx _. destruct (entries_table x Hx) as [Hd Ht]. unfold region_ok. by rewrite (Hw _ Hd), (Hw _ Ht).
Qed.

(** Setting the entries of the page of [x]. *)
Lemma entries_kept_page x w w' :
  is_u32 x → region_ok mi kctx w' x → present (word w' (pde_addr kctx x)) = true →
  (∀ b, b ≠ pde_addr kctx x → b ≠ pte_addr kctx x → word w' b = word w b) →
  entries_kept (λ n, n = x / PAGE_SIZE) w w'.
Proof.
  intros Hx Hok Hp Hw y Hy Hne.
  assert (Ht : word w' (pte_addr kctx y) = word w (pte_addr kctx y)).
  { apply Hw; [intros E; by apply (pde_pte_apart mi kctx Hctx Hhr x y)|by rewrite (pte_addr_inj mi)]. }
  destruct (decide (PAGE_DIRECTORY_INDEX y = PAGE_DIRECTORY_INDEX x)) as [Ed|Ed].
  - unfold region_ok in *. rewrite (proj2 (pde_addr_inj _ y x) Ed), (same_region_table mi _ y x Ed). by split_and!.
  - unfold region_ok. rewrite Ht, Hw; [done|by rewrite pde_addr_inj|by apply (pde_pte_apart mi)].
Qed.

(** A kernel request for [n] pages without an address gets the pages at [addr]. *)
Definition anon (n : Z) bl (addr : Z) bl' : Prop :=
  0 <= addr ∧ addr mod PAGE_SIZE = 0 ∧ addr + n * PAGE_SIZE < 2 ^ 32 ∧
  remove_ranges mi 0 n false bl = Some (addr, bl') ∧ took bl addr n bl'.

(** First fit: the request gets the start of the first range that will do, which is larger. *)
Lemma anon_at n l1 v c l2 :
  Forall (λ b, pick mi 0 n false b = false) l1 → pick mi 0 n false (v, c) = true → 0 < n < c →
  ranges_from 0 (l1 ++ (v, c) :: l2) →
  anon n (l1 ++ (v, c) :: l2) v (l1 ++ (v + n * PAGE_SIZE, c - n) :: l2).
Proof.
  intros Hno Hp Hn Hr. destruct (remove_ranges_anon mi n false 0 l1 v c l2 Hno Hp Hn Hr) as (Hrem & Hrg & Hcov).
  assert (Hvc : v mod PAGE_SIZE = 0 ∧ ∀ x, v <= x < v + c * PAGE_SIZE → covered (l1 ++ (v, c) :: l2) x).
  { split; [|intros x Hx; exists (v, c); split; [apply elem_of_app; right; by left|exact Hx]].
    clear -Hr. generalize dependent Hr. generalize 0 at 1. induction l1 as [|[w d] l1 IH]; intros lo; [by intros (_ & _ & ? & _)|].
    intros (_ & _ & _ & Hr). by eapply IH. }
  destruct Hvc as [Hal Hin]. pose proof (λ x Hx, ranges_from_covered _ _ x Hr (Hin x Hx)) as Hb.
  rewrite PAGE_SIZE_val in *. destruct (Hb v) as [? _]; [lia|]. destruct (Hb (v + c * 4096 - 1)) as [_ ?]; [lia|].
  unfold anon, took. rewrite PAGE_SIZE_val in *.
  split_and!; [lia|done|lia|exact Hrem|exact Hrg| |exact Hcov]. intros x Hx. apply Hin. lia.
Qed.

(** Only the heap, the address spaces, the page bitmap and memory have changed. *)
Definition only_memory k k' : Prop :=
  k_sched k' = with_heap (ss_heap (k_sched k')) (k_sched k) ∧ k_ps2 k' = k_ps2 k ∧
  k_last_pid k' = k_last_pid k.

Lemma only_memory_refl k : only_memory k k.
Proof. by destruct k as [[] ? ? ? ? ? ?]. Qed.

Lemma only_memory_trans k1 k2 k3 : only_memory k1 k2 → only_memory k2 k3 → only_memory k1 k3.
Proof. intros (E1 & P1 & L1) (E2 & P2 & L2). split_and!; [|congruence..]. rewrite E2, E1. done. Qed.

(** The allocation tree is the same object, and so is the first node of the free list
    unless its range is gone: another copy of the context can still be used. *)
Definition still_current bl bl' (ctx ctx' : vmm_context) : Prop :=
  allocations ctx' = allocations ctx ∧ (bl' = tl bl ∨ free_blocks ctx' = free_blocks ctx).

Lemma map_anon_ok n pa vctx bl A O addr bl' (j : nat) k :
  spaces (vmm_of k) (Space vctx bl A :: O) → anon n bl addr bl' → 0 < n → pa mod PAGE_SIZE = 0 →
  room (ss_heap (k_sched k)) (2 + j) →
  wp (on_vmm (vmm_map_pages mi vctx 0 pa n kernel_page_flags))
     (λ r k', r.1 = addr ∧ spaces (vmm_of k') (Space r.2 bl' (Allocation addr pa n kernel_page_flags :: A) :: O) ∧
        room (ss_heap (k_sched k')) j ∧ only_memory k k' ∧
        k_bitmap k' = k_bitmap k ∧ k_words k' = k_words k ∧ still_current bl bl' vctx r.2) k.
Proof.
  intros Hrep (Ha & Haa & Hend & Hrem & Htook) Hn Hpa Hroom. apply wp_zoom. eapply wp_mono.
  - apply (spaces_map mi vctx 0 pa n kernel_page_flags bl A addr bl' O); try done.
    + by apply paging_is_aligned_spec.
    + eapply room_le; [|exact Hroom]. lia.
  - cbn beta. intros r v (Hr & Hrep' & Hrm & Hroot & Hcur). split_and!; [done| |by apply Hrm|done..].
    by destruct v.
Qed.

Lemma frame_page p : 0 <= p < 2 ^ 20 → is_u32 (p * PAGE_SIZE) ∧ (p * PAGE_SIZE) mod PAGE_SIZE = 0.
Proof. intros Hp. rewrite PAGE_SIZE_val. split; [unfold is_u32; lia|apply Z.mod_mul; lia]. Qed.

(** pmm_alloc_page with enough pages: a page that was free, and is not any more. *)
Lemma take_page_ok n k :
  has_pages (k_bitmap k) (S n) →
  wp (on_pmm pmm_alloc_page)
     (λ pa k', ∃ p, next_frame (k_bitmap k) p ∧ pa = p * PAGE_SIZE ∧ is_u32 pa ∧ pa mod PAGE_SIZE = 0 ∧
        k' = set_bitmap (mark p (k_bitmap k)) k ∧ has_pages (k_bitmap k') n) k.
Proof.
  intros Hp. destruct (has_pages_take _ _ Hp) as (p & Hlow & Hrest). apply wp_zoom.
  apply (wp_pmm_alloc_page p); [by apply next_frame_lowest|]. exists p. destruct Hlow as (? & Hr & ?).
  destruct (frame_page p Hr). by split_and!.
Qed.

(** The page of [x] is mapped for the kernel. *)
Definition kernel_page w (x : Z) : Prop :=
  region_ok mi kctx w x ∧ present (word w (pde_addr kctx x)) = true ∧
  ∃ f, entries_translation kctx w x = Some (f + kernel_page_flags, f + x mod PAGE_SIZE).

Lemma kernel_page_map va pa w x :
  is_u32 va → is_u32 pa → is_u32 x →
  wp (paging_map_virtual_to_physical mi kctx va pa kernel_page_flags)
     (λ _ w', (x / PAGE_SIZE = va / PAGE_SIZE → kernel_page w' x) ∧ (kernel_page w x → kernel_page w' x)) w.
Proof.
  intros Hva Hpa Hx.
  eapply wp_mono; [apply (paging_map_entries mi kctx Hctx Hhh Hhr va pa kernel_page_flags w Hva Hpa); by vm_compute|].
  cbn beta. intros _ w' Hw. destruct (Hw x Hx) as [Hsame Hother].
  assert (Hpr : ∀ e, entries_translation kctx w' x = Some e → present (word w' (pde_addr kctx x)) = true)
    by (unfold entries_translation; intros e; by destruct (present (word w' (pde_addr kctx x)))).
  assert (H1 : x / PAGE_SIZE = va / PAGE_SIZE → kernel_page w' x).
  { intros E. destruct (Hsame E) as [Hok Ht]. split_and!; [done|by eapply Hpr|by eexists]. }
  split; [done|]. intros (Hok & Hp & f & Ht).
  destruct (decide (x / PAGE_SIZE = va / PAGE_SIZE)) as [E|E]; [by apply H1|].
  destruct (Hother E Hok (or_intror Hp)) as [Hok' Ht']. rewrite Ht in Ht'.
  split_and!; [done|by eapply Hpr|by exists f].
Qed.

(** The pages in use stay in use, and the words stay words. *)
Definition pages_kept k k' : Prop :=
  (∀ p, taken (k_bitmap k) p = true → taken (k_bitmap k') p = true) ∧
  (words_ok (k_words k) → words_ok (k_words k')).

(** The upper pages of the stack are mapped. *)
Definition stack_mapped w (bottom : Z) (i : Z) : Prop :=
  ∀ x, bottom + PAGE_SIZE <= x < bottom + i * PAGE_SIZE → kernel_page w x.

(** Memory outside the page tables, and the entries of the other pages than those of [S], stay. *)
Definition tables_changed (S : Z → Prop) w w' : Prop :=
  entries_kept S w w' ∧ ∀ a, ¬ table_addr a → word w' a = word w a.

Lemma tables_changed_trans (S1 S2 S : Z → Prop) w1 w2 w3 :
  tables_changed S1 w1 w2 → tables_changed S2 w2 w3 → (∀ n, S1 n ∨ S2 n → S n) → tables_changed S w1 w3.
Proof.
  intros [E1 W1] [E2 W2] HS. split; [by eapply entries_kept_trans|]. intros a Ha. by rewrite W2, W1.
Qed.

Lemma map_tables_changed va pa w :
  is_u32 va → is_u32 pa →
  wp (paging_map_virtual_to_physical mi kctx va pa kernel_page_flags)
     (λ _ w', tables_changed (λ n, n = va / PAGE_SIZE) w w') w.
Proof.
  intros Hva Hpa.
  pose proof (paging_map_entries mi kctx Hctx Hhh Hhr va pa kernel_page_flags w Hva Hpa ltac:(by vm_compute)) as W.
  unfold wp in W. pose proof (map_eq mi kctx Hctx Hhr va pa kernel_page_flags w Hva) as E. rewrite E in W.
  eapply wp_of_ok; [exact E|]. destruct (W va Hva) as [Hin _]. destruct (Hin eq_refl) as [Hok Et]. clear W Hin E.
  destruct (entries_table va Hva) as [Hd Ht]. split.
  - apply entries_kept_page; [done|done| |].
    + unfold entries_translation in Et. by destruct (present (word _ (pde_addr kctx va))).
    + intros b Hb1 Hb2. by rewrite !word_set, !decide_False.
  - intros a Ha. rewrite !word_set, !decide_False; [done|intros E; apply Ha; by rewrite <- E..].
Qed.

(** The pages of a stack that are mapped when it is made. *)
Definition stack_page bottom (n : Z) : Prop :=
  bottom / PAGE_SIZE < n < bottom / PAGE_SIZE + KERNEL_STACK_PAGE_COUNT.

Lemma map_stack_pages_ok bottom n k :
  0 <= bottom → bottom mod PAGE_SIZE = 0 → bottom + KERNEL_STACK_SIZE < 2 ^ 32 →
  has_pages (k_bitmap k) (9 + n) →
  wp (map_stack_pages mi kctx bottom)
     (λ _ k', stack_mapped (k_words k') bottom KERNEL_STACK_PAGE_COUNT ∧ only_memory k k' ∧
        vmm_of k' = vmm_of k ∧ has_pages (k_bitmap k') n ∧ pages_kept k k' ∧
        tables_changed (stack_page bottom) (k_words k) (k_words k')) k.
Proof.
  intros Hb Hal Hend Hpages. rewrite PAGE_SIZE_val in Hal.
  unfold KERNEL_STACK_SIZE, KERNEL_STACK_PAGE_COUNT in *. rewrite PAGE_SIZE_val in Hend.
  apply (wp_for_range _ _ _ (λ i k', stack_mapped (k_words k') bottom i ∧ only_memory k k' ∧
    vmm_of k' = vmm_of k ∧ has_pages (k_bitmap k') (Z.to_nat (10 - i) + n) ∧ pages_kept k k' ∧
    tables_changed (λ m, bottom / PAGE_SIZE < m < bottom / PAGE_SIZE + i) (k_words k) (k_words k'))).
  - split_and!; [intros x Hx; lia|apply only_memory_refl|done|exact Hpages|by split|by split].
  - intros i k1 Hi (Hst & Hom & Hv & Hpg & Hu & Htc). change (Z.to_nat (KERNEL_STACK_PAGE_COUNT - 1)) with 9%nat in Hi. apply wp_bind.
    replace (Z.to_nat (10 - i) + n)%nat with (S (Z.to_nat (10 - (i + 1)) + n)) in Hpg by lia.
    eapply wp_mono; [by apply take_page_ok|]. cbn beta.
    intros pa k2 (p & Hlow & -> & Hpa & _ & -> & Hpg2). apply wp_zoom.
    assert (Hva : u32 (bottom + i * PAGE_SIZE) = bottom + i * 4096)
      by (rewrite PAGE_SIZE_val; apply u32_small; unfold is_u32; lia).
    rewrite Hva. cbn [k_words set_bitmap].
    eapply wp_of_ok; [by apply (map_eq mi kctx Hctx Hhr); unfold is_u32; lia|]. set (w' := set_word _ _ _).
    pose proof (map_tables_changed (bottom + i * 4096) (p * PAGE_SIZE) (k_words k1) ltac:(unfold is_u32; lia) Hpa) as Wt.
    unfold wp in Wt. rewrite (map_eq mi kctx Hctx Hhr) in Wt by (unfold is_u32; lia). fold w' in Wt.
    split_and!; [|exact (only_memory_trans _ _ _ Hom (only_memory_refl k1))|done|exact Hpg2| |].
    + intros x Hx. rewrite PAGE_SIZE_val in Hx. cbn [k_words set_words].
      pose proof (kernel_page_map (bottom + i * 4096) (p * PAGE_SIZE) (k_words k1) x
        ltac:(unfold is_u32; lia) Hpa ltac:(unfold is_u32; lia)) as W.
      unfold wp in W. rewrite (map_eq mi kctx Hctx Hhr) in W by (unfold is_u32; lia). fold w' in W.
      destruct W as [W1 W2]. destruct (decide (x < bottom + i * 4096)) as [Hlt|Hge].
      * apply W2, Hst. rewrite PAGE_SIZE_val. lia.
      * apply W1. rewrite PAGE_SIZE_val. Z.div_mod_to_equations. lia.
    + destruct Hu as [Hu Hw]. split.
      * intros q Hq. cbn [k_bitmap set_words set_bitmap]. rewrite taken_mark, Hu by done. by apply orb_true_r.
      * intros Hok. by apply words_ok_set, words_ok_set, Hw.
    + eapply tables_changed_trans; [exact Htc|exact Wt|]. intros m. rewrite PAGE_SIZE_val.
      rewrite Z.div_add by done. lia.
  - intros k1 (Hst & Hom & Hv & Hpg & Hu & Htc). by split_and!.
Qed.

Lemma pages_kept_take p b k k' :
  k_bitmap k = b → k_bitmap k' = mark p b → k_words k' = k_words k → pages_kept k k'.
Proof.
  intros <- Hb Hw. split; [|by rewrite Hw]. intros q Hq. by rewrite Hb, taken_mark, Hq, orb_true_r.
Qed.

Lemma pages_kept_trans k1 k2 k3 : pages_kept k1 k2 → pages_kept k2 k3 → pages_kept k1 k3.
Proof. intros [H1 W1] [H2 W2]. split; auto. Qed.

Lemma alloc_kernel_stack_ok vctx bl A O addr bl' (j n : nat) k :
  spaces (vmm_of k) (Space vctx bl A :: O) → anon KERNEL_STACK_PAGE_COUNT bl addr bl' →
  room (ss_heap (k_sched k)) (2 + j) → has_pages (k_bitmap k) (10 + n) →
  wp (alloc_kernel_stack mi kctx vctx)
     (λ r k', r.1 = addr + KERNEL_STACK_SIZE - 16 ∧
        (∃ pa, is_u32 pa ∧ spaces (vmm_of k') (Space r.2 bl'
                 (Allocation addr pa KERNEL_STACK_PAGE_COUNT kernel_page_flags :: A) :: O)) ∧
        stack_mapped (k_words k') addr KERNEL_STACK_PAGE_COUNT ∧ room (ss_heap (k_sched k')) j ∧
        only_memory k k' ∧ (has_pages (k_bitmap k') n ∧ taken (k_bitmap k') 0 = true) ∧ pages_kept k k' ∧
        tables_changed (stack_page addr) (k_words k) (k_words k') ∧ still_current bl bl' vctx r.2) k.
Proof.
  intros Hrep Hanon Hroom Hpages. pose proof Hanon as (Ha & Hal & Hend & _). unfold alloc_kernel_stack.
  apply wp_bind. eapply wp_mono; [by apply (take_page_ok (9 + n))|]. cbn beta.
  intros pa k1 (p & Hlow & -> & Hpa & Hpal & -> & Hpg1). apply wp_bind.
  eapply wp_mono; [by apply (map_anon_ok KERNEL_STACK_PAGE_COUNT (p * PAGE_SIZE) vctx bl A O addr bl' j)|].
  cbn beta. intros r k2 (-> & Hrep2 & Hroom2 & Hom2 & Hb2 & Hw2 & Hcur). apply wp_bind.
  eapply wp_mono; [apply (map_stack_pages_ok addr n); [done|done|done|by rewrite Hb2]|]. cbn beta.
  intros _ k3 (Hst & Hom3 & Hv3 & Hpg3 & Hk3 & Htc3). apply wp_ret. cbn [fst snd]. split_and!.
  - apply u32_small. unfold KERNEL_STACK_SIZE, KERNEL_STACK_PAGE_COUNT, is_u32 in *.
    rewrite PAGE_SIZE_val in *. lia.
  - exists (p * PAGE_SIZE). split; [done|]. by rewrite Hv3.
  - done.
  - change (ss_heap (k_sched k3)) with (vs_heap (vmm_of k3)). by rewrite Hv3.
  - eapply only_memory_trans; [|exact Hom3]. exact (only_memory_trans _ _ _ (only_memory_refl k) Hom2).
  - done.
  - apply Hk3. rewrite Hb2. by apply next_frame_zero.
  - eapply pages_kept_trans; [|exact Hk3]. by eapply (pages_kept_take p _ k k2 eq_refl).
  - by rewrite Hw2 in Htc3.
  - done.
Qed.

End Stack.

(** ** Creating a kernel task *)

Section Create.
Context {H : Type} `{Allocator H} {FL : Limit} (mi : kernel_meminfo) (kctx : paging_context).
Context (Hctx : paging_ok kctx).
Context (Hhh : higher_half_base mi mod 4096 = 0) (Hhr : is_u32 (higher_half_base mi)).
Context (halt_addr remove_addr : Z).
Implicit Types (k : kernel H) (w : words) (bl : list (Z * Z)).

(** The page tables are not in free memory. *)
Definition tables_taken bl : Prop := ∀ a, table_addr kctx a → ¬ covered bl a.

Lemma one_address_space k vctx bl A : ctx_rep (vmm_of k) vctx bl A → address_spaces ∅ k [Space vctx bl A].
Proof. intros Hrep. by apply spaces_reserve_none, spaces_one. Qed.

Lemma kernel_page_kept w w' x :
  (∀ a, table_addr kctx a → word w' a = word w a) → is_u32 x → kernel_page mi kctx w x → kernel_page mi kctx w' x.
Proof.
  intros Hw Hx. destruct (entries_table mi kctx Hhr x Hx) as [Hd Ht].
  unfold kernel_page, region_ok, entries_translation. by rewrite (Hw _ Hd), (Hw _ Ht).
Qed.

(** The block for the control block. *)
Lemma wp_task_block kept sp O (j : nat) Q k :
  address_spaces kept k (sp :: O) → room (ss_heap (k_sched k)) (1 + j) →
  (∀ p k', p ≠ 0 → kept !! p = None → address_spaces (<[p := sizeof_task_control_block]> kept) k' (sp :: O) →
     only_memory k k' → k_bitmap k' = k_bitmap k → k_words k' = k_words k → room (ss_heap (k_sched k')) j → Q p k') →
  wp (on_vmm (on_heap (malloc sizeof_task_control_block))) Q k.
Proof.
  intros Hsp Hroom HQ. apply wp_zoom, wp_zoom.
  eapply wp_mono; [apply (spaces_reserve kept sizeof_task_control_block j _ _ _ Hsp Hroom); by vm_compute|].
  cbn beta. intros p h (Hp & Hnew & Hrm & Hsp'). by apply HQ.
Qed.

(** The task at [p] is ready to run: its control block is [t], and the first frame is
    on the stack whose top is [top]. *)
Definition ready k' (p : Z) (t : task_control_block) (top task_fn ret_addr : Z) : Prop :=
  let frame := first_frame halt_addr remove_addr (pid t) task_fn ret_addr in
  p ≠ 0 ∧ ss_tasks (k_sched k') !! p = Some t ∧
  kernel_stack_top t = top - 4 * (Z.of_nat (length frame) - 1) ∧ esp0 t = kernel_stack_top t ∧
  ∀ i v, frame !! i = Some v → word (k_words k') (top - 4 * Z.of_nat i) = u32 v.

(** The last part of task_create, from the allocation of the control block on: the
    stack top is [top], and [get_cr3] finds the page directory without changing
    anything. *)
Lemma finish_create_ok (get_cr3 : M (kernel H) Z) kept (j : nat) cr3 pctx vctx bl A O top task_fn ret_addr k :
  address_spaces kept k (Space vctx bl A :: O) → room (ss_heap (k_sched k)) (1 + j) → 64 <= top < 2 ^ 32 - 4 →
  (∀ k', ctx_rep (vmm_of k') vctx bl A → get_cr3 k' = Ok (cr3, k')) →
  wp (task ← on_vmm (on_heap (malloc sizeof_task_control_block));
      pid ← next_pid;
      sp ← push_frame halt_addr remove_addr top pid task_fn ret_addr;
      cr3 ← get_cr3;
      _ ← store_task task (mk_task pid sp cr3 sp vctx pctx 0);
      mret task)
     (λ p k', ∃ t, ready k' p t top task_fn ret_addr ∧
        pid t = k_last_pid k ∧ k_last_pid k' = u32 (k_last_pid k + 1) ∧ virtual_addr_space t = cr3 ∧
        task_vmm_context t = vctx ∧ task_paging_ctx t = pctx ∧ kept !! p = None ∧
        address_spaces (<[p := sizeof_task_control_block]> kept) k' (Space vctx bl A :: O) ∧
        (∀ a, ¬ top - 36 < a <= top → word (k_words k') a = word (k_words k) a) ∧
        (words_ok (k_words k) → words_ok (k_words k')) ∧
        k_sched k' = with_task p t (with_heap (ss_heap (k_sched k')) (k_sched k)) ∧
        room (ss_heap (k_sched k')) j ∧ k_bitmap k' = k_bitmap k) k.
Proof.
  intros Hrep Hroom Htop Hcr3. apply wp_bind.
  eapply (wp_task_block kept _ O j); [exact Hrep|exact Hroom|]. intros p k2 Hp Hnew Hrep2 (Es & _ & El) Hb2 Hw2 Hrm2.
  apply wp_bind, wp_bind, wp_gets, wp_bind, wp_modify, wp_ret, wp_bind.
  eapply wp_mono; [by apply push_frame_ok|]. cbn beta. intros sp k3 (w & -> & Hpu & Hsp).
  apply wp_bind. eapply wp_of_ok; [apply Hcr3; exact (spaces_head _ _ _ _ _ (spaces_unreserved _ _ _ Hrep2))|].
  apply wp_bind. unfold store_task. rewrite (proj2 (Z.eqb_neq p 0)) by done.
  apply wp_zoom, wp_modify, wp_ret. rewrite El in *.
  eexists. split; [split_and!; [done|apply lookup_insert_eq|exact Hsp|done|]|split_and!]; simpl; try done.
  - intros i v Hi. apply Hpu. exact Hi.
  - intros a Ha. rewrite <- Hw2. apply Hpu. unfold first_frame.
    destruct (ret_addr =? 0); simpl; lia.
  - rewrite <- Hw2. apply Hpu.
  - by rewrite Es.
Qed.

Lemma stack_top_range addr :
  0 <= addr → addr + KERNEL_STACK_PAGE_COUNT * PAGE_SIZE < 2 ^ 32 → 
  64 <= addr + KERNEL_STACK_SIZE - 16 < 2 ^ 32 - 4.
Proof. unfold KERNEL_STACK_SIZE, KERNEL_STACK_PAGE_COUNT. rewrite PAGE_SIZE_val. lia. Qed.

(** Pushing a frame on the stack leaves the page tables, which are elsewhere. *)
Lemma stack_mapped_kept bl addr bl' w w' :
  anon mi KERNEL_STACK_PAGE_COUNT bl addr bl' → tables_taken bl →
  (∀ a, ¬ addr <= a < addr + KERNEL_STACK_SIZE → word w' a = word w a) →
  stack_mapped mi kctx w addr KERNEL_STACK_PAGE_COUNT → stack_mapped mi kctx w' addr KERNEL_STACK_PAGE_COUNT.
Proof.
  intros (Ha & _ & Hend & _ & _ & Hwas & _) Htaken Hw Hst x Hx.
  eapply kernel_page_kept; [|unfold is_u32; rewrite PAGE_SIZE_val in *; lia|by apply Hst].
  intros a Hta. apply Hw. intros Hin. by apply (Htaken a Hta), Hwas.
Qed.

Lemma frame_on_stack addr a :
  ¬ addr <= a < addr + KERNEL_STACK_SIZE →
  ¬ addr + KERNEL_STACK_SIZE - 16 - 36 < a <= addr + KERNEL_STACK_SIZE - 16.
Proof. unfold KERNEL_STACK_SIZE, KERNEL_STACK_PAGE_COUNT. rewrite PAGE_SIZE_val. lia. Qed.

(** What task_create leaves of a state [k] for a kernel task: the task [t] at [p], which is
    none of the blocks [kept] of the heap that others own, with a kernel stack in the
    frames from [pa] on mapped at [addr]. *)
Record kernel_task_made (kept : gmap Z Z) k vctx bl A O addr bl' task_fn ret_addr (j n : nat)
    (p : Z) k' (t : task_control_block) (pa : Z) : Prop := {
  km_new : kept !! p = None;
  km_ready : ready k' p t (addr + KERNEL_STACK_SIZE - 16) task_fn ret_addr;
  km_pid : pid t = k_last_pid k ∧ k_last_pid k' = u32 (k_last_pid k + 1);
  km_cr3 : virtual_addr_space t = vmm_virtual_to_physical mi (page_directory kctx);
  km_paging : task_paging_ctx t = kctx;
  km_frame : is_u32 pa;
  km_stack : stack_mapped mi kctx (k_words k') addr KERNEL_STACK_PAGE_COUNT;
  km_sched : k_sched k' = with_task p t (with_heap (ss_heap (k_sched k')) (k_sched k));
  km_space : address_spaces (<[p := sizeof_task_control_block]> kept) k' (Space (task_vmm_context t) bl'
    (Allocation addr pa KERNEL_STACK_PAGE_COUNT kernel_page_flags :: A) :: O);
  km_current : bl' ≠ tl bl → task_vmm_context t = vctx;
  km_room : room (ss_heap (k_sched k')) j;
  km_pages : (∀ q, taken (k_bitmap k) q = true → taken (k_bitmap k') q = true) ∧ has_pages (k_bitmap k') n;
  km_page0 : taken (k_bitmap k') 0 = true;
  km_entries : entries_kept mi kctx (stack_page addr) (k_words k) (k_words k');
  km_words : ∀ a, ¬ table_addr kctx a → ¬ covered bl a → word (k_words k') a = word (k_words k) a;
  km_words_ok : words_ok (k_words k) → words_ok (k_words k')
}.

Lemma still_current_eq bl bl' (ctx ctx' : vmm_context) : still_current bl bl' ctx ctx' → bl' ≠ tl bl → ctx' = ctx.
Proof. destruct ctx, ctx'. intros [E [?|E']] Hne; [done|]. simpl in *. by subst. Qed.

Lemma task_create_kernel_ok kept vctx bl A O addr bl' task_fn ret_addr (j n : nat) k :
  address_spaces kept k (Space vctx bl A :: O) → anon mi KERNEL_STACK_PAGE_COUNT bl addr bl' →
  tables_taken bl →
  room (ss_heap (k_sched k)) (3 + j) → has_pages (k_bitmap k) (10 + n) →
  wp (task_create mi halt_addr remove_addr kctx vctx task_fn ret_addr false)
     (λ p k', ∃ t pa, kernel_task_made kept k vctx bl A O addr bl' task_fn ret_addr j n p k' t pa) k.
Proof.
  intros Hrep Hanon Htaken Hroom Hpages. pose proof Hanon as (Ha & _ & Hend & _ & _ & Hwas & _).
  unfold task_create. apply wp_bind. eapply wp_mono.
  { rewrite <- (alloc_kernel_stack_reserving kept). exact (@alloc_kernel_stack_ok H (reserving kept) FL mi kctx Hctx Hhh Hhr vctx bl A O addr bl' (1 + j) n k Hrep Hanon Hroom Hpages). }
  cbn beta. intros r k1 (Etop & (pa & Hpau & Hrep1) & Hst1 & Hroom1 & (Es & _ & El) & [Hpg1 H01] & [Hkept1 Hwok1] & [Hent1 Hw1] & Hcur1). rewrite Etop.
  apply wp_bind, wp_ret. cbn [fst snd]. eapply wp_mono.
  { by apply (finish_create_ok (mret _) kept j (vmm_virtual_to_physical mi (page_directory kctx)) kctx r.2 bl' _ O
      (addr + KERNEL_STACK_SIZE - 16) task_fn ret_addr k1 Hrep1 Hroom1); [apply stack_top_range|]. }
  cbn beta. intros p k' (t & Hready & Hpid & Hlast & Hcr3 & Hv & Hpc & Hnew & Hrep' & Hw & Hwok & Hs & Hrm & Hb). exists t, pa.
  split; [done|done|by rewrite Hpid, Hlast, El|done|done|done| | |by rewrite Hv| |done| |by rewrite Hb| | |by auto].
  - eapply stack_mapped_kept; [exact Hanon|exact Htaken| |exact Hst1]. intros a Hna. by apply Hw, frame_on_stack.
  - rewrite Hs, Es. done.
  - rewrite Hv. by apply still_current_eq.
  - rewrite Hb. by split.
  - eapply (entries_kept_trans mi kctx _ (λ _, False)); [exact Hent1| |by intros m [?|[]]]. apply (entries_kept_tables mi kctx Hhr).
    intros a Hta. apply Hw, frame_on_stack. intros Hin. by apply (Htaken a Hta), Hwas.
  - intros a Hta Hca. rewrite Hw, Hw1; [done|done|]. apply frame_on_stack. intros Hin. by apply Hca, Hwas.
Qed.

(** What is on the stack when the task starts: the function it runs, the word for
    that function, and a call of sched_remove with the process id that returns to
    sched_halt_or_crash. *)
Definition entry_stack (pid task_fn ret_addr : Z) : list Z :=
  task_fn :: (if ret_addr =? 0 then [] else [ret_addr]) ++ [remove_addr; halt_addr; pid].

Lemma entry_frame_lookup p task_fn ret_addr i v :
  entry_stack p task_fn ret_addr !! i = Some v →
  let frame := first_frame halt_addr remove_addr p task_fn ret_addr in
  (i + 5 <= length frame)%nat ∧ frame !! (length frame - 5 - i)%nat = Some v.
Proof.
  unfold entry_stack, first_frame. destruct (ret_addr =? 0); cbn [app length]; intros Hi;
    do 5 (destruct i as [|i]; [simplify_eq/=; by (split; [lia|])|]); done.
Qed.

(** C14: a kernel task that task_create made starts in its function: after the first
    switch to it the stack pointer is at the function's address, above it lie the
    words with which the function ends in sched_remove of its own process id, and the
    page they are on is mapped; the page directory is the kernel's.  (The block of
    the new task is not that of the running one.) *)
Theorem new_task_enters vctx bl A addr bl' task_fn ret_addr k :
  ctx_rep (vmm_of k) vctx bl A → anon mi KERNEL_STACK_PAGE_COUNT bl addr bl' →
  tables_taken bl →
  room (ss_heap (k_sched k)) 3 → has_pages (k_bitmap k) 10 → is_Some (running k) →
  wp (task_create mi halt_addr remove_addr kctx vctx task_fn ret_addr false)
     (λ p k', p ≠ tl_task (CURRENT_TASK (k_sched k)) →
        wp (on_sched (do_task_switch p))
           (λ _ k'', let esp := cpu_esp (ss_cpu (k_sched k'')) in
              (∀ i v, entry_stack (k_last_pid k) task_fn ret_addr !! i = Some v →
                 word (k_words k'') (esp + 4 * Z.of_nat i) = u32 v) ∧
              kernel_page mi kctx (k_words k'') esp ∧ tl_task (CURRENT_TASK (k_sched k'')) = p ∧
              cpu_cr3 (ss_cpu (k_sched k'')) = vmm_virtual_to_physical mi (page_directory kctx)) k') k.
Proof.
  intros Hrep Hanon Htaken Hroom Hpages [cur Hcur]. pose proof Hanon as (Ha & _ & Hend & _).
  eapply wp_mono; [apply (task_create_kernel_ok ∅ vctx bl A [] addr bl' task_fn ret_addr 0 0); try done; by apply one_address_space|].
  cbn beta. intros p k' (t & pa & [_ (Hp & Ht & Hsp & _ & Hfr) [Hpid _] Hcr3 _ _ Hst Hs _ _ _ _ _ _ _]) Hne.
  assert (Hct : CURRENT_TASK (k_sched k') = CURRENT_TASK (k_sched k)) by by rewrite Hs.
  assert (Hts : ss_tasks (k_sched k') = <[p := t]> (ss_tasks (k_sched k))) by by rewrite Hs.
  apply wp_zoom. unfold running in Hcur.
  eapply wp_mono; [apply (do_task_switch_ok p cur t); [|exact Ht]|].
  { by rewrite Hct, Hts, lookup_insert_ne. }
  cbn beta. intros _ s' (tasks & n & -> & Htk & Hn).
  assert (n = t) as -> by (rewrite Htk, Hct, lookup_insert_ne in Hn by done; congruence).
  cbn [k_sched set_sched ss_cpu cpu_esp cpu_cr3 CURRENT_TASK tl_task k_words].
  set (len := length (first_frame halt_addr remove_addr (pid t) task_fn ret_addr)) in *.
  assert (Hlen : 8 <= Z.of_nat len <= 9) by (unfold len, first_frame; destruct (ret_addr =? 0); simpl; lia).
  unfold KERNEL_STACK_SIZE, KERNEL_STACK_PAGE_COUNT in *. rewrite PAGE_SIZE_val in *.
  rewrite u32_small by (unfold is_u32; lia). split_and!; [|apply Hst; rewrite PAGE_SIZE_val; lia|done|done].
  intros i v Hi. rewrite <- Hpid in Hi. destruct (entry_frame_lookup _ _ _ _ _ Hi) as [Hi5 Hl]. fold len in Hi5, Hl.
  rewrite <- (Hfr _ _ Hl). f_equal. lia.
Qed.

(** What init_sched leaves: the task [T] at [p] is the booting thread, the only one of the
    ring with the node [nd], running and next; [k1] is the state in which task_create had
    made it. *)
Record sched_booted (kept : gmap Z Z) (S : list space) (j : nat) k1 (p : Z) (T : task_control_block) (nd : Z) k' : Prop := {
  sb_node : nd ≠ 0 ∧ (<[p := sizeof_task_control_block]> kept) !! nd = None;
  sb_spaces : address_spaces (<[nd := sizeof_task_list]> (<[p := sizeof_task_control_block]> kept)) k' S;
  sb_room : room (ss_heap (k_sched k')) j;
  sb_kernel : k' = set_sched (SchedStore (ss_heap (k_sched k'))
    (<[p := mk_task (pid T) (u32 (cpu_esp (ss_cpu (k_sched k1)) - 16)) (virtual_addr_space T) (esp0 T) (task_vmm_context T)
              (task_paging_ctx T) (task_parent T)]> (ss_tasks (k_sched k1)))
    (<[nd := mk_task_list p TASK_PRIORITY_LOW nd]> (ss_lists (k_sched k1))) nd nd nd (mk_task_list p TASK_PRIORITY_LOW nd) 1
    (mk_cpu_state (cpu_esp (ss_cpu (k_sched k1))) (virtual_addr_space T) (esp0 T))) k1
}.

Lemma sched_start_ok kept S sp (j : nat) p T k :
  address_spaces (<[p := sizeof_task_control_block]> kept) k (sp :: S) → room (ss_heap (k_sched k)) (1 + j) →
  ss_tasks (k_sched k) !! p = Some T → is_u32 (cpu_esp (ss_cpu (k_sched k))) →
  wp (on_sched (sched_start p)) (λ _ k', ∃ nd, sched_booted kept (sp :: S) j k p T nd k') k.
Proof.
  intros Hsp Hroom HT Hesp. apply wp_zoom. eapply wp_mono.
  { apply (sched_start_runs (λ nd h, (nd ≠ 0 ∧ (<[p := sizeof_task_control_block]> kept) !! nd = None) ∧ room h j ∧
      @spaces H (reserving (<[nd := sizeof_task_list]> (<[p := sizeof_task_control_block]> kept)))
        (VmmStore h (k_blocks k) (k_nodes k)) (sp :: S)) _ _ _ HT Hesp).
    eapply wp_mono; [apply (spaces_reserve _ sizeof_task_list j _ _ _ Hsp Hroom); by vm_compute|].
    cbn beta. by intros nd h (? & ? & ? & ?). }
  cbn beta. intros _ s' (nd & h & (Hnd & Hrm & Hsp') & ->). by exists nd.
Qed.

Lemma init_sched_ok kept vctx bl A O addr bl' (j n : nat) k :
  address_spaces kept k (Space vctx bl A :: O) → anon mi KERNEL_STACK_PAGE_COUNT bl addr bl' →
  tables_taken bl →
  room (ss_heap (k_sched k)) (4 + j) → has_pages (k_bitmap k) (10 + n) → is_u32 (cpu_esp (ss_cpu (k_sched k))) →
  wp (init_sched mi halt_addr remove_addr kctx vctx)
     (λ _ k', ∃ p T pa nd k1, kernel_task_made kept k vctx bl A O addr bl' 0 0 (1 + j) n p k1 T pa ∧
        sched_booted kept (Space (task_vmm_context T) bl'
          (Allocation addr pa KERNEL_STACK_PAGE_COUNT kernel_page_flags :: A) :: O) j k1 p T nd k') k.
Proof.
  intros Hrep Hanon Htaken Hroom Hpages Hesp. unfold init_sched. apply wp_bind.
  eapply wp_mono; [by apply (task_create_kernel_ok kept vctx bl A O addr bl' 0 0 (1 + j) n)|]. cbn beta.
  intros p k1 (T & pa & Hm). pose proof Hm as [_ (_ & HT & _) _ _ _ _ _ Hs Hspc _ Hrm _ _ _ _ _]. eapply wp_mono.
  { eapply (sched_start_ok kept); [exact Hspc|exact Hrm|exact HT|]. by rewrite Hs. }
  cbn beta. intros _ k' [nd Hb]. by exists p, T, pa, nd, k1.
Qed.

End Create.

(** ** The page directory of a user task *)

Section Clone.
Context {H : Type} `{Allocator H} {FL : Limit} (mi : kernel_meminfo) (kctx : paging_context).
Context (Hctx : paging_ok kctx).
Context (Hhh : higher_half_base mi mod 4096 = 0) (Hhr : is_u32 (higher_half_base mi)).
Implicit Types (k : kernel H) (w : words) (bl : list (Z * Z)).

Lemma copy_table_ok dst src w :
  0 <= dst → dst + 4096 <= 2 ^ 32 → 0 <= src → src + 4096 <= 2 ^ 32 →
  dst + 4096 <= src ∨ src + 4096 <= dst → words_ok w →
  wp (copy_table dst src)
     (λ _ w', (∀ i, 0 <= i < 1024 → word w' (dst + 4 * i) = word w (src + 4 * i)) ∧
              (∀ a, ¬ dst <= a < dst + 4096 → word w' a = word w a) ∧ words_ok w') w.
Proof.
  intros Hd1 Hd2 Hs1 Hs2 Hap Hok. unfold copy_table.
  apply (wp_for_range _ _ _ (λ n w', (∀ i, 0 <= i < n → word w' (dst + 4 * i) = word w (src + 4 * i)) ∧
    (∀ a, ¬ dst <= a < dst + 4096 → word w' a = word w a) ∧ words_ok w')).
  - split_and!; [lia|done|done].
  - intros n w' Hn (Hc & Hk & Hw'). change (Z.to_nat PAGE_TABLE_SIZE) with 1024%nat in Hn.
    apply wp_modify. unfold entry_addr. rewrite !u32_small by (unfold is_u32; lia). split_and!.
    + intros i Hi. rewrite word_set. case_decide as E.
      * assert (i = n) as -> by lia. rewrite Hk by lia. by apply u32_small.
      * apply Hc. lia.
    + intros a Ha. rewrite word_set, decide_False by lia. by apply Hk.
    + by apply words_ok_set.
  - done.
Qed.

(** The directory a task got: a copy of the kernel's but for the last entry, which
    points to the directory itself. *)
Definition cloned_directory w (dir pa : Z) : Prop :=
  (∀ i, 0 <= i < 1023 → word w (dir + 4 * i) = word w (page_directory kctx + 4 * i)) ∧
  word w (dir + 4 * 1023) = pa + kernel_page_flags.

Lemma vmm_clone_paging_context_ok vctx bl A O dir bl' (j n : nat) k :
  spaces (vmm_of k) (Space vctx bl A :: O) → anon mi 1 bl dir bl' → tables_taken kctx bl →
  room (ss_heap (k_sched k)) (2 + j) → has_pages (k_bitmap k) (1 + n) → words_ok (k_words k) →
  wp (vmm_clone_paging_context mi vctx kctx)
     (λ r k', ∃ p, let pa := p * PAGE_SIZE in
        r.1 = PagingContext dir (page_tables kctx) ∧ taken (k_bitmap k) p = false ∧ is_u32 pa ∧
        pa mod PAGE_SIZE = 0 ∧
        spaces (vmm_of k') (Space r.2 bl' (Allocation dir pa 1 kernel_page_flags :: A) :: O) ∧
        cloned_directory (k_words k') dir pa ∧ words_ok (k_words k') ∧ (∀ a, ¬ dir <= a < dir + 4096 → word (k_words k') a = word (k_words k) a) ∧
        room (ss_heap (k_sched k')) j ∧ only_memory k k' ∧ k_bitmap k' = mark p (k_bitmap k) ∧
        has_pages (k_bitmap k') n ∧ still_current bl bl' vctx r.2) k.
Proof.
  intros Hrep Hanon Htaken Hroom Hpages Hw. pose proof Hanon as (Ha & Hal & Hend & _ & _ & Hwas & _).
  rewrite PAGE_SIZE_val in Hal, Hend. pose proof Hctx as [Hpa _ Hpr _ _].
  assert (Hap : dir + 4096 <= page_directory kctx ∨ page_directory kctx + 4096 <= dir).
  { destruct (decide (page_directory kctx = dir)) as [E|E].
    - exfalso. apply (Htaken dir); [left; lia|]. apply Hwas. rewrite PAGE_SIZE_val. lia.
    - Z.div_mod_to_equations. lia. }
  unfold vmm_clone_paging_context. apply wp_bind. eapply wp_mono; [by apply (take_page_ok n)|]. cbn beta.
  intros pa k1 (p & (_ & _ & Hfree & _) & -> & Hpu & Hpal & -> & Hpg1). apply wp_bind.
  eapply wp_mono; [apply (map_anon_ok mi 1 (p * PAGE_SIZE) vctx bl A O dir bl' j); try done|]. cbn beta.
  intros r k2 (-> & Hrep2 & Hroom2 & Hom2 & Hb2 & Hw2 & Hcur). apply wp_bind, wp_zoom. rewrite Hw2.
  eapply wp_mono; [by apply (copy_table_ok dir (page_directory kctx)); [lia..|exact Hw]|]. cbn beta.
  intros _ w3 (Hc & Hk & Hw3). apply wp_bind, wp_zoom, wp_modify, wp_ret.
  cbn [k_words set_words]. unfold entry_addr. change (PAGE_TABLE_SIZE - 1) with 1023.
  rewrite u32_small by (unfold is_u32; lia).
  exists p. split_and!; [done|done|done|done|exact Hrep2| |by apply words_ok_set| |exact Hroom2| | | |].
  - split.
    + intros i Hi. rewrite !word_set, !decide_False by lia. rewrite Hc, Hk by lia. done.
    + rewrite word_set, decide_True by done. rewrite <- Z.lor_assoc.
      apply entry_u32; [by rewrite <- PAGE_SIZE_val|exact Hpu|by vm_compute].
  - intros a Hna. rewrite word_set, decide_False by lia. by apply Hk.
  - exact (only_memory_trans _ _ _ (only_memory_refl k) Hom2).
  - exact (eq_trans Hb2 eq_refl).
  - cbn [k_bitmap set_words]. rewrite Hb2. exact Hpg1.
  - done.
Qed.

End Clone.

(** ** Creating a user task *)

Section CreateUser.
Context {H : Type} `{Allocator H} {FL : Limit} (mi : kernel_meminfo) (kctx : paging_context).
Context (Hctx : paging_ok kctx).
Context (Hhh : higher_half_base mi mod 4096 = 0) (Hhr : is_u32 (higher_half_base mi)).
Context (halt_addr remove_addr : Z).
Implicit Types (k : kernel H) (w : words) (bl : list (Z * Z)).

(** task_create finds the frame of the directory it has just mapped. *)
Lemma find_directory dir pa vctx bl A k :
  ctx_rep (vmm_of k) vctx bl (Allocation dir pa 1 kernel_page_flags :: A) → 0 <= dir →
  (alloc ← on_vmm (vmm_find_allocation vctx dir);
   _ ← assert (negb (page_count alloc =? 0)) "invalid VMM state";
   mret (physical_addr alloc)) k = Ok (pa, k).
Proof.
  intros Hrep Hd. pose proof (vmm_find_allocation_ok vctx bl _ dir _ Hrep Hd) as W.
  assert (Hc : contains (Allocation dir pa 1 kernel_page_flags) dir)
    by (unfold contains, alloc_end; simpl; rewrite PAGE_SIZE_val; lia).
  apply wp_ok in W as (a & v & E & -> & [[Hin Hca]|[_ Hno]]); [|by destruct (Hno (Allocation dir pa 1 kernel_page_flags)); [left|]].
  assert (a = Allocation dir pa 1 kernel_page_flags) as -> by (eapply ctx_rep_unique; [exact Hrep|exact Hin|left|exact Hca|exact Hc]).
  rewrite (bind_ok _ _ k (Allocation dir pa 1 kernel_page_flags) k); [done|].
  unfold on_vmm, zoom. rewrite E. by destruct k as [[] ? ? ? ? ? ?].
Qed.

Lemma tables_taken_took bl addr n bl' :
  tables_taken kctx bl → took bl addr n bl' → tables_taken kctx bl'.
Proof. intros Ht (_ & _ & Hc) a Ha Hcov. apply (Ht a Ha). by apply Hc. Qed.

(** The translation under a cloned directory is the kernel's, but for the last 4 MB. *)
Lemma cloned_translate w dir pa va :
  cloned_directory kctx w dir pa → dir_apart mi kctx pa → is_u32 va → PAGE_DIRECTORY_INDEX va ≠ 1023 →
  paging_ok (PagingContext dir (page_tables kctx)) → region_ok mi kctx w va →
  dir_translate mi (PagingContext dir (page_tables kctx)) w pa va = translate mi w kctx va.
Proof.
  intros [Hc _] Hap Hva Hne Hok Hreg. destruct (indices mi Hhr va Hva) as (Hd & _).
  assert (E : word w (pde_addr (PagingContext dir (page_tables kctx)) va) = word w (pde_addr kctx va)).
  { unfold pde_addr. simpl. apply Hc. lia. }
  rewrite (dir_translate_entries mi _ Hok Hhr w pa va Hva Hap), (translate_entries mi kctx Hctx Hhr w va Hva Hreg).
  - unfold entries_translation. rewrite E. done.
  - unfold region_ok in *. rewrite E. exact Hreg.
Qed.

(** A free, aligned page gives a directory that is apart from the tables. *)
Lemma clone_paging_ok bl dir bl' :
  anon mi 1 bl dir bl' → tables_taken kctx bl → paging_ok (PagingContext dir (page_tables kctx)).
Proof.
  intros (Ha & Hal & Hend & _ & _ & Hwas & _) Htaken. destruct Hctx as [_ Hpt _ Hptr _].
  rewrite PAGE_SIZE_val in *. split; simpl; [done|done|lia|done|].
  assert (Hn : ¬ page_tables kctx <= dir < page_tables kctx + 4096 * 1024).
  { intros Hin. apply (Htaken dir); [by right|]. apply Hwas. lia. }
  Z.div_mod_to_equations. lia.
Qed.

Lemma free_frame_apart (b : bitmap) p :
  (∀ va, is_u32 va → taken b (table_phys mi kctx va / PAGE_SIZE) = true) → taken b p = false →
  dir_apart mi kctx (p * PAGE_SIZE).
Proof.
  intros Hused Hp va Hva. destruct (table_phys_ok mi kctx Hctx Hhh Hhr va Hva) as [Hal _].
  assert (table_phys mi kctx va / PAGE_SIZE ≠ p) by (intros E; rewrite <- E, Hused in Hp; done).
  rewrite PAGE_SIZE_val in *. Z.div_mod_to_equations. lia.
Qed.

(** Pushing the first frame leaves the new directory and the kernel's. *)
Lemma cloned_kept bl addr bl1 dir bl2 pa w w' :
  cloned_directory kctx w dir pa → anon mi KERNEL_STACK_PAGE_COUNT bl addr bl1 → anon mi 1 bl1 dir bl2 →
  tables_taken kctx bl → (∀ a, ¬ addr <= a < addr + KERNEL_STACK_SIZE → word w' a = word w a) →
  cloned_directory kctx w' dir pa.
Proof.
  intros [Hc Hlast] (_ & _ & _ & _ & _ & Hfr0 & Hcov) (Hd0 & _ & _ & _ & _ & Hdwas & _) Htaken Hout.
  assert (Hdir : ∀ i, 0 <= i < 1024 → word w' (dir + 4 * i) = word w (dir + 4 * i)).
  { intros i Hi. apply Hout. intros Hin. apply (proj1 (Hcov (dir + 4 * i))); [|exact Hin].
    apply Hdwas. rewrite PAGE_SIZE_val. lia. }
  split; [|by rewrite Hdir by lia]. intros i Hi. rewrite Hdir, Hc by lia. symmetry. apply Hout. intros Hin.
  apply (Htaken (page_directory kctx + 4 * i)); [left; lia|by apply Hfr0].
Qed.

(** What task_create leaves of a state [k] for a user task: the task [t] at [p], which is
    none of the blocks [kept] of the heap that others own, with a kernel stack in the
    frames from [pa] on mapped at [addr], and a page directory at [dir] in the frame [f]. *)
Record user_task_made (kept : gmap Z Z) k vctx bl A O addr bl1 dir bl2 task_fn ret_addr (j n : nat)
    (p : Z) k' (t : task_control_block) (f pa : Z) : Prop := {
  um_new : kept !! p = None;
  um_ready : ready halt_addr remove_addr k' p t (addr + KERNEL_STACK_SIZE - 16) task_fn ret_addr;
  um_pid : pid t = k_last_pid k;
  um_paging : task_paging_ctx t = PagingContext dir (page_tables kctx);
  um_frame : taken (k_bitmap k) f = false ∧ virtual_addr_space t = f * PAGE_SIZE;
  um_frames : is_u32 (f * PAGE_SIZE) ∧ is_u32 pa ∧ taken (k_bitmap k') f = true;
  um_directory : cloned_directory kctx (k_words k') dir (f * PAGE_SIZE);
  um_apart : (∀ va, is_u32 va → taken (k_bitmap k) (table_phys mi kctx va / PAGE_SIZE) = true) →
    dir_apart mi kctx (f * PAGE_SIZE);
  um_space : address_spaces (<[p := sizeof_task_control_block]> kept) k' (Space (task_vmm_context t) bl2
    (Allocation dir (f * PAGE_SIZE) 1 kernel_page_flags ::
     Allocation addr pa KERNEL_STACK_PAGE_COUNT kernel_page_flags :: A) :: O);
  um_current : bl1 ≠ tl bl → bl2 ≠ tl bl1 → task_vmm_context t = vctx;
  um_sched : k_sched k' = with_task p t (with_heap (ss_heap (k_sched k')) (k_sched k));
  um_pages : (∀ q, taken (k_bitmap k) q = true → taken (k_bitmap k') q = true) ∧ has_pages (k_bitmap k') n;
  um_room : room (ss_heap (k_sched k')) j;
  um_entries : entries_kept mi kctx (stack_page addr) (k_words k) (k_words k');
  um_words : ∀ a, ¬ table_addr kctx a → ¬ covered bl a → word (k_words k') a = word (k_words k) a;
  um_words_ok : words_ok (k_words k');
  um_last : k_last_pid k' = u32 (k_last_pid k + 1)
}.

(** Free memory is not that of the tables: what is written there leaves the entries alone. *)
Lemma entries_kept_free bl S w w' :
  tables_taken kctx bl → (∀ a, ¬ covered bl a → word w' a = word w a) → entries_kept mi kctx S w w'.
Proof. intros Ht Hw. apply (entries_kept_tables mi kctx Hhr). intros a Ha. by apply Hw, Ht. Qed.

Lemma task_create_user_ok kept vctx bl A O addr bl1 dir bl2 task_fn ret_addr (j n : nat) k :
  address_spaces kept k (Space vctx bl A :: O) →
  anon mi KERNEL_STACK_PAGE_COUNT bl addr bl1 →
  anon mi 1 bl1 dir bl2 → tables_taken kctx bl →
  room (ss_heap (k_sched k)) (5 + j) → has_pages (k_bitmap k) (11 + n) → words_ok (k_words k) →
  wp (task_create mi halt_addr remove_addr kctx vctx task_fn ret_addr true)
     (λ p k', ∃ t f pa, user_task_made kept k vctx bl A O addr bl1 dir bl2 task_fn ret_addr j n p k' t f pa) k.
Proof.
  intros Hrep Hanon Hanon2 Htaken Hroom Hpages Hwok. pose proof Hanon as (Ha & _ & Hend & _ & Htook).
  unfold task_create. apply wp_bind. eapply wp_mono.
  { rewrite <- (alloc_kernel_stack_reserving kept). exact (@alloc_kernel_stack_ok H (reserving kept) FL mi kctx Hctx Hhh Hhr vctx bl A O addr bl1 (3 + j) (1 + n) k Hrep Hanon Hroom Hpages). }
  cbn beta. intros r k1 (Etop & (pa & Hpau & Hrep1) & _ & Hroom1 & (Es1 & _ & El1) & [Hpg1 _] & [Hkept1 Hwok1] & [Hent1 Hw1] & Hcur1).
  rewrite Etop. apply wp_bind. assert (Htaken1 : tables_taken kctx bl1) by by eapply tables_taken_took.
  eapply wp_mono.
  { rewrite <- (vmm_clone_paging_context_reserving kept). exact (@vmm_clone_paging_context_ok H (reserving kept) FL mi kctx Hctx r.2 bl1 _ O dir bl2 (1 + j) n k1 Hrep1 Hanon2 Htaken1 Hroom1 Hpg1 (Hwok1 Hwok)). }
  cbn beta. intros r2 k2 (f & -> & Hfree & Hfu & Hfal & Hrep2 & Hclone & Hwok2 & Hw2 & Hroom2 & (Es2 & _ & El2) & Hb2 & Hpg2 & Hcur2).
  cbn [fst snd]. pose proof Hanon2 as (Hd0 & Hdal & Hdend & _ & _ & Hdwas & _). eapply wp_mono.
  { apply (finish_create_ok halt_addr remove_addr _ kept j (f * PAGE_SIZE) (PagingContext dir (page_tables kctx)) r2.2 bl2 _ O
      (addr + KERNEL_STACK_SIZE - 16) task_fn ret_addr k2 Hrep2 Hroom2);
      [by apply stack_top_range|]. intros k' Hrep'. eapply find_directory; [exact Hrep'|exact Hd0]. }
  cbn beta. intros p k' (t & Hready & Hpid & Hlast & Hcr3 & Hvc & Hpc & Hnew & Hrep' & Hw & Hwok' & Es' & Hrm' & Hb'). exists t, f, pa.
  assert (Hout : ∀ a, ¬ addr <= a < addr + KERNEL_STACK_SIZE → word (k_words k') a = word (k_words k2) a)
    by (intros a Hna; by apply Hw, frame_on_stack).
  assert (Hcl : cloned_directory kctx (k_words k') dir (f * PAGE_SIZE)).
  { eapply cloned_kept; [exact Hclone|exact Hanon|exact Hanon2|exact Htaken|exact Hout]. }
  split; try done.
  - by rewrite Hpid, El2.
  - split; [|done]. apply not_true_iff_false. intros Hu. by rewrite (Hkept1 f Hu) in Hfree.
  - split_and!; [done|done|]. rewrite Hb', Hb2, taken_mark. by rewrite bool_decide_eq_true_2.
  - intros Hused. eapply (free_frame_apart (k_bitmap k1)); [|exact Hfree]. intros x Hx. by apply Hkept1, Hused.
  - by rewrite Hvc.
  - intros H1 H2. rewrite Hvc, (still_current_eq _ _ _ _ Hcur2 H2). by apply (still_current_eq bl bl1).
  - rewrite Es', Es2, Es1. done.
  - split; [|by rewrite Hb']. intros q Hq. rewrite Hb', Hb2, taken_mark, (Hkept1 q Hq). by apply orb_true_r.
  - eapply entries_kept_trans; [exact Hent1|eapply (entries_kept_free bl (λ _, False)); [exact Htaken|]|by intros m [?|[]]].
    intros a Hna. rewrite Hout, Hw2; [done| |].
    + intros Hin. apply Hna. destruct Htook as (_ & _ & Hcov). apply (Hcov a), Hdwas. rewrite PAGE_SIZE_val. lia.
    + intros Hin. apply Hna. destruct Htook as (_ & Hwas & _). by apply Hwas.
  - intros a Hta Hca. destruct Htook as (_ & Hwas & Hcov). rewrite Hout, Hw2, Hw1; [done|done| |].
    + intros Hin. apply Hca, (Hcov a), Hdwas. rewrite PAGE_SIZE_val. lia.
    + intros Hin. by apply Hca, Hwas.
  - by apply Hwok'.
  - by rewrite Hlast, El2, El1.
Qed.

(** C17: a user task gets a page directory of its own, in a frame that was free, under
    which the processor translates every address as under the kernel's directory,
    except for the last 4 MB, where the directory points to itself; the task is ready
    to run on its kernel stack, with the next process id. *)
Theorem user_task_shares_kernel vctx bl A addr bl1 dir bl2 task_fn ret_addr k :
  ctx_rep (vmm_of k) vctx bl A → anon mi KERNEL_STACK_PAGE_COUNT bl addr bl1 →
  anon mi 1 bl1 dir bl2 →
  tables_taken kctx bl → (∀ va, is_u32 va → taken (k_bitmap k) (table_phys mi kctx va / PAGE_SIZE) = true) →
  room (ss_heap (k_sched k)) 5 → has_pages (k_bitmap k) 11 → words_ok (k_words k) →
  wp (task_create mi halt_addr remove_addr kctx vctx task_fn ret_addr true)
     (λ p k', ∃ t f, ready halt_addr remove_addr k' p t (addr + KERNEL_STACK_SIZE - 16) task_fn ret_addr ∧
        pid t = k_last_pid k ∧ task_paging_ctx t = PagingContext dir (page_tables kctx) ∧
        taken (k_bitmap k) f = false ∧ virtual_addr_space t = f * PAGE_SIZE ∧
        word (k_words k') (dir + 4 * 1023) = f * PAGE_SIZE + kernel_page_flags ∧
        ∀ va, is_u32 va → PAGE_DIRECTORY_INDEX va ≠ 1023 → region_ok mi kctx (k_words k') va →
          dir_translate mi (task_paging_ctx t) (k_words k') (virtual_addr_space t) va =
          translate mi (k_words k') kctx va) k.
Proof.
  intros Hrep Hanon Hanon2 Htaken Hused Hroom Hpages Hwok. eapply wp_mono.
  { apply (task_create_user_ok ∅ vctx bl A [] addr bl1 dir bl2 task_fn ret_addr 0 0 k); try done. by apply one_address_space. }
  cbn beta. intros p k' (t & f & pa & [_ Hready Hpid Hpc [Hfree Hcr3] _ Hcl Hap _ _ _ _ _ _]). exists t, f.
  split_and!; [done..|apply Hcl|]. intros va Hva Hne Hreg. rewrite Hpc, Hcr3. apply cloned_translate; try done; [by apply Hap|].
  eapply (clone_paging_ok bl1); [exact Hanon2|]. eapply tables_taken_took; [exact Htaken|apply Hanon].
Qed.

End CreateUser.

(** ** Witnesses *)

(** The address space [space0] with the first 8 MB of the upper part, where the
    kernel and its page tables are, taken, and the first 6 MB of memory in use. *)
Definition space3 : vmm_context * vmm_store kheap := after_map space0 0xC0000000 0 0x800 3.
Definition free3 : list (Z * Z) := [(0, 0xC0000); (0xC0800000, 0x3F800)].

Lemma space3_rep :
  ctx_rep space3.2 space3.1 free3 [Allocation 0xC0000000 0 0x800 3] ∧ room (vs_heap space3.2) 5.
Proof.
  destruct (took_at meminfo0 0xC0000000 0x800 false [(0, 0xC0000); (0xC0000000, 0x40000)])
    as (bl' & Hrem & Htook & _); [by vm_compute..| |].
  { exists (0xC0000000, 0x40000). split; [right; left|by vm_compute]. }
  vm_compute in Hrem. injection Hrem as <-.
  destruct (after_map_rep space0 [(0, 0xC0000); (0xC0000000, 0x40000)] [] 0xC0000000 0 0x800 3 0xC0000000
    free3 7 space0_rep) as [Hrep Hroom]; [by vm_compute..|exact Htook|].
  split; [exact Hrep|]. eapply room_le; [|exact Hroom]. lia.
Qed.

Definition bitmap3 : bitmap := list_to_map ((λ i, (i, 255)) <$> seqZ 0 0xC0).

Lemma bitmap3_byte i : bitmap_byte bitmap3 i = if decide (0 <= i < 0xC0) then 255 else 0.
Proof.
  unfold bitmap_byte, bitmap3. case_decide as Hi.
  - assert (Hin : (i, 255) ∈ (λ i, (i, 255)) <$> seqZ 0 0xC0)
      by (apply list_elem_of_fmap; exists i; split; [done|apply elem_of_seqZ; lia]).
    rewrite (elem_of_list_to_map_1 _ i 255); [done| |exact Hin].
    rewrite <- list_fmap_compose. change (fst ∘ _) with (λ x : Z, x). rewrite list_fmap_id. apply NoDup_seqZ.
  - rewrite not_elem_of_list_to_map_1; [done|]. rewrite <- list_fmap_compose.
    change (fst ∘ _) with (λ x : Z, x). rewrite list_fmap_id, elem_of_seqZ. lia.
Qed.

(** Every frame may be handed out. *)
#[local] Instance all_frames : Limit := 2 ^ 20.

Lemma bitmap3_pages : has_pages bitmap3 11.
Proof.
  split; [intros i; rewrite bitmap3_byte; by case_decide|].
  exists (seqZ 0x600 11). split_and!; [apply NoDup_seqZ|by rewrite length_seqZ|].
  intros p Hp%elem_of_seqZ. split; [lia|]. apply orb_false_iff. split; [|apply Z.leb_gt; change frame_limit with (2 ^ 20); lia].
  unfold page_used. rewrite bitmap3_byte, decide_False by ulia. apply Z.bits_0.
Qed.

Lemma bitmap3_tables va : is_u32 va → taken bitmap3 (table_phys meminfo0 ctx0 va / PAGE_SIZE) = true.
Proof.
  intros Hva. destruct (indices meminfo0 (proj2 meminfo0_base) va Hva) as (Hd & _).
  assert (E : table_phys meminfo0 ctx0 va = 0x200000 + 4096 * PAGE_DIRECTORY_INDEX va).
  { unfold table_phys, vmm_virtual_to_physical. change (page_tables ctx0) with 0xC0200000.
    change (higher_half_base meminfo0) with 0xC0000000. rewrite u32_small by ulia. lia. }
  rewrite E. apply taken_used. unfold page_used. rewrite bitmap3_byte, PAGE_SIZE_val, decide_True by ulia.
  change 255 with (Z.ones 8). apply Z.ones_spec_low. ulia.
Qed.

Definition create_kernel : kernel kheap :=
  mk_kernel (SchedStore (vs_heap space3.2) {[ 0x500 := task4 0 0x7000 ]} ∅ 0 0 0
               (mk_task_list 0x500 TASK_PRIORITY_LOW 0) 1 (mk_cpu_state 0x6f00 0x110000 0x8000))
    (vs_blocks space3.2) (vs_nodes space3.2) bitmap3 ∅ ps2_0 5.

Lemma create_kernel_rep :
  ctx_rep (vmm_of create_kernel) space3.1 free3 [Allocation 0xC0000000 0 0x800 3].
Proof.
  replace (vmm_of create_kernel) with space3.2; [apply space3_rep|].
  unfold vmm_of, create_kernel. by destruct space3 as [? []].
Qed.

Lemma free3_tables : tables_taken ctx0 free3.
Proof.
  intros a Ha (b & Hb & Hc). unfold free3 in Hb. unfold covers in Hc.
  unfold table_addr in Ha. change (page_directory ctx0) with 0xC0110000 in Ha.
  change (page_tables ctx0) with 0xC0200000 in Ha. rewrite PAGE_SIZE_val in Hc.
  apply elem_of_cons in Hb as [->|Hb%list_elem_of_singleton]; [|subst b]; simpl in Hc; lia.
Qed.

(** The first anonymous request gets the pages from address 0 on, the next one pages
    of the upper part. *)
Definition free3' : list (Z * Z) := [(0xA000, 0xBFFF6); (0xC0800000, 0x3F800)].
Definition free3'' : list (Z * Z) := [(0xA000, 0xBFFF6); (0xC0801000, 0x3F7FF)].

Lemma anon3 : anon meminfo0 KERNEL_STACK_PAGE_COUNT free3 0 free3'.
Proof. apply (anon_at meminfo0 10 [] 0 0xC0000 [(0xC0800000, 0x3F800)]); [by apply Forall_nil|by vm_compute..]. Qed.

Lemma anon3' : anon meminfo0 1 free3' 0xC0800000 free3''.
Proof.
  apply (anon_at meminfo0 1 [(0xA000, 0xBFFF6)] 0xC0800000 0x3F800 []); [by apply Forall_singleton; vm_compute|by vm_compute..].
Qed.

Lemma new_task_enters_witness :
  wp (task_create meminfo0 0xC0105000 0xC0106000 ctx0 space3.1 0xC0107000 0 false)
     (λ p k', p ≠ 0x500 → wp (on_sched (do_task_switch p))
        (λ _ k'', word (k_words k'') (cpu_esp (ss_cpu (k_sched k''))) = 0xC0107000 ∧
                  word (k_words k'') (cpu_esp (ss_cpu (k_sched k'')) + 12) = 5) k') create_kernel.
Proof.
  eapply wp_mono.
  - apply (new_task_enters meminfo0 ctx0 ctx0_ok (proj1 meminfo0_base) (proj2 meminfo0_base) 0xC0105000 0xC0106000
      space3.1 free3 [Allocation 0xC0000000 0 0x800 3] 0 free3' 0xC0107000 0 create_kernel create_kernel_rep anon3 free3_tables).
    + eapply room_le; [|exact (proj2 space3_rep)]. lia.
    + destruct bitmap3_pages as (Hok & l & Hnd & Hlen & Hl). split; [done|]. exists l. split_and!; [done|lia|done].
    + by eexists.
  - cbn beta. intros p k' Hsw Hp. eapply wp_mono; [by apply Hsw|]. cbn beta.
    intros _ k'' (Hst & _). split; [|by apply (Hst 3%nat 5)].
    rewrite <- (Z.add_0_r (cpu_esp _)). by apply (Hst 0%nat 0xC0107000).
Defined.

Lemma user_task_shares_kernel_witness :
  wp (task_create meminfo0 0xC0105000 0xC0106000 ctx0 space3.1 0xC0107000 0x8048000 true)
     (λ p k', ∃ t, ss_tasks (k_sched k') !! p = Some t ∧ pid t = 5) create_kernel.
Proof.
  eapply wp_mono.
  - apply (user_task_shares_kernel meminfo0 ctx0 ctx0_ok (proj1 meminfo0_base) (proj2 meminfo0_base) 0xC0105000
      0xC0106000 space3.1 free3 [Allocation 0xC0000000 0 0x800 3] 0 free3' 0xC0800000 free3'' 0xC0107000 0x8048000 create_kernel
      create_kernel_rep anon3 anon3' free3_tables bitmap3_tables (proj2 space3_rep) bitmap3_pages).
    intros a. change (is_u32 (word ∅ a)). unfold word. rewrite lookup_empty. by vm_compute.
  - cbn beta. intros p k' (t & f & (_ & Ht & _) & Hpid & _). by exists t.
Defined.
