(* ===== verification/System.v ===== *)
(** * The running kernel: what happens after boot

    Once the tasks are started, the kernel is a machine that takes one event at a time:
    an interrupt, or a step of the running task.  [run_event] is the step and
    [run_events] a run; there is no other way for the state of the kernel to change,
    since nothing creates tasks or address spaces after boot.  The theorems are about
    every run. *)

From S2P Require Import Prelude Allocator Kmalloc PageArith Vmm VmmRules VmmRanges VmmFree VmmTree VmmSpace.
From S2P Require Import VmmProps Mem Pmm Paging Printk PortIo Pic Gdt Ps2 Sched Idt Kernel Syscall PageFault Handlers Task.

Inductive system_event : Type :=
  | EvInterrupt (h : isr) (a : interrupt_args)  (** an interrupt reaches the handler [h] *)
  | EvIdle                                      (** the running task logs its process id *)
  | EvReturn                                    (** the function of the running task returns *)
  | EvWrite (a v : Z)                           (** the running task writes a word of memory: of
      the page tables and stacks, not one of the kernel's objects in the heap *)
  | EvStack (sp : Z).                           (** the running task moves its stack pointer *)

Section Operations.
Context {H : Type} `{Allocator H} (KERNEL_MEMINFO : kernel_meminfo) (device : trace → Z → Z).
Notation KM := (M (kernel H)).

(** One iteration of the loops of test_task and of the end of kernel_main, up to hlt. *)
Definition idle_step : KM unit :=
  t ← current_task; klog PRINTK_DEBUG "task %u\n" [ANum (pid t)].

(** The address behind the task's function is sched_remove's, and its argument is the
    process id: see [Task.entry_stack]. *)
Definition task_returns : KM unit := t ← current_task; on_sched (sched_remove (pid t)).

Definition set_esp (sp : Z) : M (sched_store H) unit :=
  modify (λ s, SchedStore (ss_heap s) (ss_tasks s) (ss_lists s) (tasks_head s) (tasks_tail s)
    (tasks_sched_head s) (CURRENT_TASK s) (SCHED_INIT s)
    (mk_cpu_state (u32 sp) (cpu_cr3 (ss_cpu s)) (tss_esp0 (ss_cpu s)))).

Definition run_event (e : system_event) : KM unit :=
  match e with
  | EvInterrupt h a => _ ← run_isr KERNEL_MEMINFO device h a; mret tt
  | EvIdle => idle_step
  | EvReturn => task_returns
  | EvWrite a v => on_words (modify (set_word a v))
  | EvStack sp => on_sched (set_esp sp)
  end.

Fixpoint run_events (es : list system_event) : KM unit :=
  match es with
  | [] => mret tt
  | e :: es => _ ← run_event e; run_events es
  end.

End Operations.

(** ** Types

    The fields of the scheduler, the bitmap, memory and the keyboard queue have the width of
    their C types, and the ring buffer its bounds. *)

Section Typing.
Context {H : Type} `{Allocator H} (mi : kernel_meminfo) (device : trace → Z → Z).
Implicit Types k : kernel H.

Definition list_typed (n : task_list) : Prop := is_u32 (tl_task n) ∧ is_u32 (tl_next n).
Definition task_typed (t : task_control_block) : Prop :=
  is_u32 (pid t) ∧ is_u32 (kernel_stack_top t) ∧ is_u32 (virtual_addr_space t) ∧ is_u32 (esp0 t) ∧
  is_u32 (task_parent t).
Definition cpu_typed (c : cpu_state) : Prop := is_u32 (cpu_esp c) ∧ is_u32 (cpu_cr3 c) ∧ is_u32 (tss_esp0 c).

Record sched_typed (s : sched_store H) : Prop := {
  st_tasks : ∀ p t, ss_tasks s !! p = Some t → task_typed t;
  st_lists : ∀ p n, ss_lists s !! p = Some n → list_typed n;
  st_ends : is_u32 (tasks_head s) ∧ is_u32 (tasks_tail s) ∧ is_u32 (tasks_sched_head s);
  st_current : list_typed (CURRENT_TASK s);
  st_cpu : cpu_typed (ss_cpu s)
}.

Definition queue_typed (s : ps2_state) : Prop :=
  let q := scancode_queue_ctx s in
  length (queue_buf q) = 10%nat ∧ Forall is_u8 (queue_buf q) ∧ 0 <= queue_end q < 10.

Record typed k : Prop := {
  ty_sched : sched_typed (k_sched k);
  ty_bitmap : bitmap_ok (k_bitmap k);
  ty_words : words_ok (k_words k);
  ty_queue : queue_typed (k_ps2 k);
  ty_pid : is_u32 (k_last_pid k)
}.

(** The scheduler. *)
Lemma type_load_list p : has_type sched_typed (load_list p) list_typed.
Proof.
  intros s a s' Hs. unfold load_list. destruct (ss_lists s !! p) eqn:E; [|done]. intros [= <- <-].
  split; [done|]. by eapply st_lists.
Qed.
Lemma type_load_task p : has_type sched_typed (load_task p) task_typed.
Proof.
  intros s a s' Hs. unfold load_task. destruct (ss_tasks s !! p) eqn:E; [|done]. intros [= <- <-].
  split; [done|]. by eapply st_tasks.
Qed.
#[local] Hint Resolve type_load_list type_load_task : typing.

Lemma sched_typed_lists s g :
  sched_typed s → (∀ p n, g !! p = Some n → list_typed n) → sched_typed (with_lists g s).
Proof. by intros [] Hg; split. Qed.
Lemma sched_typed_ends s p :
  sched_typed s → is_u32 p →
  sched_typed (with_head p s) ∧ sched_typed (with_tail p s) ∧ sched_typed (with_sched_head p s).
Proof. intros [? ? (? & ? & ?) ? ?] Hp. split_and!; by split. Qed.

Lemma type_set_list_next p q : is_u32 q → has_type sched_typed (set_next p q) (λ _, True).
Proof.
  intros Hq. eapply type_bind; [apply type_load_list|]. intros n [Hn _]. apply type_modify. intros s Hs.
  apply sched_typed_lists; [done|]. intros r m. rewrite lookup_insert. case_decide; [by intros [= <-]|by apply st_lists].
Qed.

Lemma type_free_list p : has_type sched_typed (free_list p) (λ _, True).
Proof.
  eapply type_bind with (R := λ _, True).
  - intros s a s' Hs. unfold zoom. destruct (free p (ss_heap s)) as [[? h]|]; [|done]. intros [= <- <-].
    split; [|done]. by destruct Hs; split.
  - intros _ _. apply type_modify. intros s Hs. apply sched_typed_lists; [done|]. intros r m.
    intros [_ Hm]%lookup_delete_Some. by eapply st_lists.
Qed.

Lemma type_with_end p :
  is_u32 p → has_type sched_typed (modify (with_head p)) (λ _, True) ∧
             has_type sched_typed (modify (with_tail p)) (λ _, True) ∧
             has_type sched_typed (modify (with_sched_head p)) (λ _, True).
Proof. intros Hp. split_and!; apply type_modify; intros s Hs; by apply sched_typed_ends. Qed.

Lemma type_list_pid p : has_type sched_typed (list_pid p) is_u32.
Proof.
  eapply type_bind; [apply type_load_list|]. intros n _. eapply type_bind; [apply type_load_task|].
  intros t Ht. apply type_ret, Ht.
Qed.
#[local] Hint Resolve type_set_list_next type_free_list type_list_pid : typing.

Lemma type_sched_remove_loop fuel w prev : has_type sched_typed (sched_remove_loop fuel w prev) (λ _, True).
Proof.
  revert prev. induction fuel as [|fuel IH]; intros prev; [apply type_throw|]. cbn [sched_remove_loop].
  eapply type_bind; [apply type_get|]. intros s Hs. eapply type_bind; [apply type_load_list|]. intros n [_ Hn].
  eapply type_bind; [apply type_list_pid|]. intros q _. destruct (_ =? _).
  - eapply type_bind; [apply type_load_list|]. intros m [_ Hm]. eapply type_bind; [by apply type_set_list_next|].
    intros _ _. eapply type_bind with (R := λ _, True); [|intros; apply type_free_list].
    destruct (_ =? _); [by apply type_with_end|by apply type_ret].
  - destruct (negb _); [apply IH|apply type_throw].
Qed.

Lemma type_sched_remove w : has_type sched_typed (sched_remove w) (λ _, True).
Proof.
  unfold sched_remove. destruct (_ || _); [apply type_throw|]. eapply type_bind; [apply type_get|]. intros s Hs.
  eapply type_bind; [apply type_list_pid|]. intros q _. destruct (_ =? _); [|apply type_sched_remove_loop].
  eapply type_bind; [apply type_load_list|]. intros n [_ Hn]. eapply type_bind; [by apply type_with_end|].
  intros _ _. eapply type_bind; [by apply type_set_list_next|]. intros. apply type_free_list.
Qed.

Lemma type_do_task_switch next : is_u32 next → has_type sched_typed (do_task_switch next) (λ _, True).
Proof.
  intros Hnext. eapply type_bind; [apply type_get|]. intros s Hs. eapply type_bind; [apply type_load_task|].
  intros t (? & ? & ? & ? & ?). eapply type_bind with (R := λ _, True).
  - apply type_modify. intros s1 [Ht ? ? [] ?]. split; try done. intros p u. simpl. rewrite lookup_insert.
    case_decide; [|by apply Ht]. intros [= <-]. split_and!; [done|apply u32_range|done..].
  - intros _ _. eapply type_bind; [apply type_load_task|]. intros n (? & ? & ? & ? & ?). apply type_modify.
    intros s1 []. split; try done. split_and!; [apply u32_range|done..].
Qed.

Lemma type_sched_context_switch : has_type sched_typed sched_context_switch (λ _, True).
Proof.
  eapply type_bind; [apply type_get|]. intros s Hs. eapply type_bind; [apply type_load_list|]. intros n [Ht Hn].
  eapply type_bind; [by apply type_with_end|]. intros _ _. by apply type_do_task_switch.
Qed.

(** The frames, the page tables, the devices and the log. *)
Lemma type_pmm_alloc_page : has_type bitmap_ok pmm_alloc_page (λ _, True).
Proof.
  unfold pmm_alloc_page. generalize 0. induction (Z.to_nat MEM_BITMAP_SIZE) as [|n IH]; intros i; [apply type_throw|].
  cbn [alloc_page_loop]. eapply type_bind with (R := λ _, True); [by apply type_gets|]. intros v _.
  destruct (_ =? _); [apply IH|]. eapply type_bind; [|intros; by apply type_ret]. apply type_modify. intros b Hb.
  by apply bitmap_ok_insert.
Qed.

Lemma type_queue_store v : is_u8 v → has_type queue_typed (queue_store v) (λ _, True).
Proof.
  intros Hv s a s' (Hl & Hu & He). unfold queue_store. destruct (_ <? _)%nat; [|done]. intros [= <- <-].
  split; [|done]. split_and!; simpl; [by rewrite length_insert|by apply Forall_insert|lia..].
Qed.

Lemma type_on_io {A} (m : M trace A) R :
  (∀ tr a tr', m tr = Ok (a, tr') → R a) → has_type queue_typed (on_io m) R.
Proof.
  intros HR. apply (type_zoom _ (λ _, True)); [|done..]. intros tr a tr' _ E. split; [done|]. by eapply HR.
Qed.

Lemma type_ps2_handle_irq1 : has_type queue_typed (ps2_handle_irq1 device) (λ _, True).
Proof.
  eapply type_bind with (R := is_u8).
  { apply type_on_io. intros tr a tr' [= <- _]. apply u8_range. }
  intros v Hv. eapply type_bind; [by apply type_queue_store|]. intros _ _. eapply type_bind with (R := λ _, True).
  { apply type_modify. intros s (Hl & Hu & He). split_and!; [done|done|..]; apply Z.mod_pos_bound; done. }
  intros _ _. eapply type_bind with (R := λ _, True); [|intros; by apply type_on_io].
  apply type_for_range. intros i. eapply type_bind; [apply type_get|]. intros s _. by apply type_on_io.
Qed.

(** The parts within the kernel. *)
Lemma type_on_sched {A} (m : M (sched_store H) A) R : has_type sched_typed m R → has_type typed (on_sched m) R.
Proof. intros Hm. eapply type_zoom; [exact Hm|by intros ? []|]. by intros ? ? [] ?; split. Qed.
Lemma type_on_pmm {A} (m : M bitmap A) R : has_type bitmap_ok m R → has_type typed (on_pmm m) R.
Proof. intros Hm. eapply type_zoom; [exact Hm|by intros ? []|]. by intros ? ? [] ?; split. Qed.
Lemma type_on_words {A} (m : M words A) R : has_type words_ok m R → has_type typed (on_words m) R.
Proof. intros Hm. eapply type_zoom; [exact Hm|by intros ? []|]. by intros ? ? [] ?; split. Qed.
Lemma type_on_ps2 {A} (m : M ps2_state A) R : has_type queue_typed m R → has_type typed (on_ps2 m) R.
Proof. intros Hm. eapply type_zoom; [exact Hm|by intros ? []|]. by intros ? ? [] ?; split. Qed.
Lemma type_on_ports {A} (m : M trace A) : has_type typed (on_ports m) (λ _, True).
Proof. apply (type_zoom _ (λ _, True)); [by intros ? ? ? ? ?|done|]. by intros ? ? [] ?; split. Qed.
Lemma type_klog level fmt args : has_type typed (klog (H := H) level fmt args) (λ _, True).
Proof. apply type_on_ports. Qed.

Lemma type_current_task : has_type typed current_task task_typed.
Proof. apply type_on_sched. eapply type_bind; [apply type_get|]. intros. apply type_load_task. Qed.

Lemma type_find_allocation ctx x : has_type typed (on_vmm (vmm_find_allocation ctx x)) (λ _, True).
Proof.
  apply (type_zoom _ (λ _, True)); [by intros ? ? ? ? ?|done|]. intros k v [[] ? ? ? ?] _. by split.
Qed.
#[local] Hint Resolve type_klog type_current_task type_find_allocation : typing.

(** The handlers. *)
Lemma type_page_fault st addr err : has_type typed (page_fault_handler mi st addr err) (λ _, True).
Proof.
  eapply type_bind; [apply type_current_task|]. intros t _. eapply type_bind; [apply type_klog|]. intros _ _.
  destruct (negb _); [destruct (negb _); apply type_throw|].
  eapply type_bind; [apply type_find_allocation|]. intros a _. eapply type_bind with (R := λ _, True).
  { unfold assert. destruct (negb _); [by apply type_ret|apply type_throw]. }
  intros _ _. eapply type_bind with (R := λ _, True).
  { destruct (negb _); [by apply type_ret|]. apply type_on_pmm, type_pmm_alloc_page. }
  intros pa _. eapply type_bind; [apply type_on_words, type_paging_map|]. intros. apply type_klog.
Qed.

Lemma type_timer : has_type typed timer_irq (λ _, True).
Proof.
  eapply type_bind; [apply type_on_ports|]. intros _ _. eapply type_bind; [apply type_get|]. intros k _.
  destruct (negb _); [apply type_on_sched, type_sched_context_switch|by apply type_ret].
Qed.

Lemma type_syscall st regs : has_type typed (syscall_handler st regs) (λ _, True).
Proof.
  do 2 (eapply type_bind; [apply type_klog|]; intros _ _). destruct (_ =? _); [|destruct (_ =? _);
    [by apply type_ret|apply type_throw]].
  eapply type_bind with (R := λ _, True); [|intros; by apply type_ret].
  eapply type_bind; [apply type_current_task|]. intros t _. eapply type_bind with (R := λ _, True).
  { destruct (_ =? _); [apply type_throw|by apply type_ret]. }
  intros _ _. eapply type_bind; [apply type_on_sched, type_sched_remove|]. intros. apply type_klog.
Qed.

Lemma type_run_isr h a : has_type typed (run_isr mi device h a) (λ _, True).
Proof.
  unfold run_isr. destruct (panic_message h); [apply type_throw|].
  destruct h; try (apply type_syscall); (eapply type_bind with (R := λ _, True); [|intros; by apply type_ret]).
  - apply type_page_fault.
  - apply type_timer.
  - apply type_on_ps2, type_ps2_handle_irq1.
Qed.

Lemma type_run_event e : has_type typed (run_event mi device e) (λ _, True).
Proof.
  destruct e; simpl.
  - eapply type_bind; [apply type_run_isr|]. intros. by apply type_ret.
  - eapply type_bind; [apply type_current_task|]. intros. apply type_klog.
  - eapply type_bind; [apply type_current_task|]. intros. apply type_on_sched, type_sched_remove.
  - apply type_on_words, type_set_word.
  - apply type_on_sched, type_modify. intros s [? ? ? ? (? & ? & ?)]. split; try done.
    split_and!; [apply u32_range|done..].
Qed.

(** C11: these parts of the state are well typed in every run of the kernel, whatever
    interrupts arrive, in whatever order, with whatever arguments, and whatever the devices
    answer: the process id, stack top, page directory, interrupt stack and parent of each
    control block, the nodes and the ends of the ring, the running task and the registers of
    the processor, the bitmap of the frames, the words of memory, the last process id, and
    the keyboard's ring buffer with its bounds.  The headers of the heap, the free ranges,
    the allocations and the contexts in the control blocks are not among them. *)
Theorem run_events_typed es k k' :
  typed k → run_events mi device es k = Ok (tt, k') → typed k'.
Proof.
  revert k. induction es as [|e es IH]; intros k Hk; [by intros [= <-]|]. cbn [run_events]. intros E.
  unfold mbind, M_bind in E. destruct (run_event mi device e k) as [[u k1]|] eqn:E1; [|done].
  eapply IH; [|exact E]. by eapply type_run_event.
Qed.

End Typing.

(** ** The invariant of the running kernel *)

Section Invariant.
Context {H : Type} `{Allocator H} (mi : kernel_meminfo) (device : trace → Z → Z).
Implicit Types (k : kernel H) (l ts : list Z).

(** The page tables and the allocations of a task. *)
Record space_ok k (t : task_control_block) (A : list vmm_allocation) : Prop := {
  sp_paging : paging_ok (task_paging_ctx t);
  sp_space : ∃ ctx bl, allocations (task_vmm_context t) = allocations ctx ∧ ctx_rep (vmm_of k) ctx bl A;
  sp_allocs : ∀ a, a ∈ A → flags_ok (flags a) ∧ is_u32 (physical_addr a)
}.

(** The nodes of the scheduler and of the address spaces are different blocks of one heap. *)
Definition shares_heap k : Prop :=
  ∃ L, owns (ss_heap (k_sched k)) L ∧
    (∀ p, is_Some (ss_lists (k_sched k) !! p) → L !! p = Some sizeof_task_list ∧ k_blocks k !! p = None) ∧
    (∀ p, is_Some (k_blocks k !! p) → L !! p = Some sizeof_free_blocks) ∧
    (∀ p, is_Some (k_nodes k !! p) → L !! p = Some sizeof_allocation_tree).

(** The ring has the nodes [l] and the tasks [ts], and the task at place [i] is next.  The
    running task is the one before it; or the first task is next and it runs itself, as
    before the first tick, or is the only one left in the ring, when the running task has
    just left it.  The processor uses the page directory and the interrupt stack of the
    running task.  Process ids are distinct, and the first task of the ring is the one that
    booted. *)
Record system_ok k l ts (i : nat) : Prop := {
  sy_ring : sched_ok (k_sched k) l ts;
  sy_next : l !! i = Some (tasks_sched_head (k_sched k));
  sy_on : SCHED_INIT (k_sched k) ≠ 0;
  sy_cpu : ∃ t, running k = Some t ∧ cpu_cr3 (ss_cpu (k_sched k)) = virtual_addr_space t ∧
                tss_esp0 (ss_cpu (k_sched k)) = esp0 t;
  sy_place : ts !! ((i + length l - 1) mod length l)%nat = Some (tl_task (CURRENT_TASK (k_sched k))) ∨
             i = 0%nat ∧ (length l = 1%nat ∨ ts !! 0%nat = Some (tl_task (CURRENT_TASK (k_sched k))));
  sy_pids : ∀ a b q, pid_at (k_sched k) ts a = Some q → pid_at (k_sched k) ts b = Some q → a = b;
  sy_first : pid_at (k_sched k) ts 0 = Some 0;
  sy_spaces : ∀ p t, ss_tasks (k_sched k) !! p = Some t → ∃ A, space_ok k t A;
  sy_heap : shares_heap k
}.

(** *** Events that leave the tasks and the address spaces alone *)

(** Of the tasks and address spaces only the stack pointer of the processor has changed. *)
Definition steady k0 k : Prop :=
  (∃ sp, k_sched k = SchedStore (ss_heap (k_sched k0)) (ss_tasks (k_sched k0)) (ss_lists (k_sched k0))
      (tasks_head (k_sched k0)) (tasks_tail (k_sched k0)) (tasks_sched_head (k_sched k0))
      (CURRENT_TASK (k_sched k0)) (SCHED_INIT (k_sched k0))
      (mk_cpu_state sp (cpu_cr3 (ss_cpu (k_sched k0))) (tss_esp0 (ss_cpu (k_sched k0))))) ∧
  k_blocks k = k_blocks k0 ∧ k_nodes k = k_nodes k0.

Lemma steady_refl k : steady k k.
Proof. split; [|done]. exists (cpu_esp (ss_cpu (k_sched k))). by destruct k as [[? ? ? ? ? ? ? ? []] ? ? ? ? ? ?]. Qed.

Lemma system_ok_calm k k' l ts i : system_ok k l ts i → steady k k' → system_ok k' l ts i.
Proof.
  intros [Hring Hnext Hon Hcpu Hpl Hpids Hfirst Hsp Hheap] ([sp E] & Eb & En).
  assert (Ev : vmm_of k' = vmm_of k) by (unfold vmm_of; by rewrite E, Eb, En).
  split; unfold running, shares_heap; rewrite ?E, ?Eb, ?En; try done.
  - intros p t Ht. destruct (Hsp p t Ht) as [A [Hp Hs Ha]]. exists A. split; [done|by rewrite Ev|done].
Qed.

Lemma steady_kept k0 k k' :
  steady k0 k → k_sched k' = k_sched k → k_blocks k' = k_blocks k → k_nodes k' = k_nodes k → steady k0 k'.
Proof. intros ([sp E] & Eb & En) E' Eb' En'. split_and!; [exists sp; by rewrite E'|congruence..]. Qed.

Lemma steady_on_pmm {A} k0 (m : M bitmap A) : has_type (steady k0) (on_pmm m) (λ _, True).
Proof. apply (type_zoom _ (λ _, True)); [by intros ? ? ? ? ?|done|]. intros k b Hk _. by eapply steady_kept. Qed.
Lemma steady_on_words {A} k0 (m : M words A) : has_type (steady k0) (on_words m) (λ _, True).
Proof. apply (type_zoom _ (λ _, True)); [by intros ? ? ? ? ?|done|]. intros k b Hk _. by eapply steady_kept. Qed.
Lemma steady_on_ps2 {A} k0 (m : M ps2_state A) : has_type (steady k0) (on_ps2 m) (λ _, True).
Proof. apply (type_zoom _ (λ _, True)); [by intros ? ? ? ? ?|done|]. intros k b Hk _. by eapply steady_kept. Qed.
Lemma steady_klog k0 level fmt args : has_type (steady k0) (klog level fmt args) (λ _, True).
Proof. apply (type_zoom _ (λ _, True)); [by intros ? ? ? ? ?|done|]. intros k b Hk _. by eapply steady_kept. Qed.

Lemma current_task_ok k u k' : current_task k = Ok (u, k') → k' = k ∧ running k = Some u.
Proof.
  unfold current_task, on_sched, zoom, mbind, M_bind, get, load_task, running.
  destruct (ss_tasks (k_sched k) !! _); [|done]. intros [= <- <-]. split; [by destruct k|done].
Qed.

Lemma steady_current_task k0 : has_type (steady k0) current_task (λ _, True).
Proof. intros k u k' Hk E. by apply current_task_ok in E as [-> _]. Qed.

Lemma find_allocation_reads fuel va root (s s' : vmm_store H) u :
  find_allocation_loop fuel va root s = Ok (u, s') → s' = s.
Proof.
  revert root. induction fuel as [|fuel IH]; intros root; [done|]. cbn [find_allocation_loop].
  destruct (_ =? _); [by intros [= _ <-]|].
  unfold mbind at 1, M_bind at 1, load_node at 1. destruct (vs_nodes s !! root) as [n|]; [|done].
  repeat case_match; first [by intros [= _ <-]|apply IH].
Qed.

Lemma steady_find_allocation k0 ctx x : has_type (steady k0) (on_vmm (vmm_find_allocation ctx x)) (λ _, True).
Proof.
  intros k u k' Hk. unfold on_vmm, zoom, vmm_find_allocation, mbind, M_bind, get.
  destruct (find_allocation_loop _ _ _ _) as [[a v]|] eqn:E; [|done]. intros [= _ <-]. split; [|done].
  apply find_allocation_reads in E as ->. eapply steady_kept; [exact Hk|by destruct k as [[] ? ? ? ? ? ?]|done..].
Qed.

Lemma steady_page_fault k0 st addr err : has_type (steady k0) (page_fault_handler mi st addr err) (λ _, True).
Proof.
  eapply type_bind; [apply steady_current_task|]. intros t _. eapply type_bind; [apply steady_klog|]. intros _ _.
  destruct (negb _); [destruct (negb _); apply type_throw|].
  eapply type_bind; [apply steady_find_allocation|]. intros a _. eapply type_bind with (R := λ _, True).
  { unfold assert. destruct (negb _); [by apply type_ret|apply type_throw]. }
  intros _ _. eapply type_bind with (R := λ _, True).
  { destruct (negb _); [by apply type_ret|]. apply steady_on_pmm. }
  intros pa _. eapply type_bind; [apply steady_on_words|]. intros. apply steady_klog.
Qed.

Lemma steady_logged k k' : logged k k' → steady k k'.
Proof. intros [tr ->]. by eapply steady_kept; [apply steady_refl|..]. Qed.

(** *** The timer *)

(** The tasks are the same but for their stack pointers. *)
Definition same_tasks (g g' : gmap Z task_control_block) : Prop :=
  ∀ p t', g' !! p = Some t' → ∃ t, g !! p = Some t ∧ pid t' = pid t ∧ virtual_addr_space t' = virtual_addr_space t ∧
    esp0 t' = esp0 t ∧ task_vmm_context t' = task_vmm_context t ∧ task_paging_ctx t' = task_paging_ctx t.

Lemma same_tasks_pids (s s' : sched_store H) ts n q :
  same_tasks (ss_tasks s) (ss_tasks s') → pid_at s' ts n = Some q → pid_at s ts n = Some q.
Proof.
  intros Hg. unfold pid_at. destruct (ts !! n) as [t|]; [|done]. simpl. intros (u & Hu & ->)%fmap_Some.
  destruct (Hg t u Hu) as (v & -> & -> & _). done.
Qed.

(** sched_context_switch: what changes but for the ring, which [sched_context_switch_ok]
    is about. *)
Lemma context_switch_frame (s : sched_store H) n t m :
  ss_lists s !! tasks_sched_head s = Some n → ss_tasks s !! tl_task (CURRENT_TASK s) = Some t →
  ss_tasks s !! tl_task n = Some m →
  wp sched_context_switch
     (λ _ s', same_tasks (ss_tasks s) (ss_tasks s') ∧ ss_lists s' = ss_lists s ∧ ss_heap s' = ss_heap s ∧
        pid <$> ss_tasks s' !! tl_task n = Some (pid m) ∧
        ∃ u, ss_tasks s' !! tl_task (CURRENT_TASK s') = Some u ∧
             cpu_cr3 (ss_cpu s') = virtual_addr_space u ∧ tss_esp0 (ss_cpu s') = esp0 u) s.
Proof.
  intros Hn Ht Hm. unfold sched_context_switch. apply wp_bind, wp_get, wp_bind. eapply wp_load_list; [exact Hn|].
  apply wp_bind, wp_modify. eapply wp_mono; [by apply (do_task_switch_ok (tl_task n) t m)|]. cbn beta.
  intros _ s' (tasks & n' & -> & Htk & Hn'). simpl. split_and!; [|done|done| |by exists n'].
  - intros p t'. rewrite Htk. rewrite lookup_insert. simpl. case_decide as Ep; [|by exists t'].
    intros [= <-]. exists t. by rewrite <- Ep.
  - rewrite Hn'. rewrite Htk, lookup_insert in Hn'. simpl in Hn'. case_decide as Ep; [|by rewrite Hm in Hn'; injection Hn' as ->].
    injection Hn' as <-. simpl. rewrite <- Ep in Hm. congruence.
Qed.

Lemma pid_zero_kept (s s' : sched_store H) ts q :
  (∀ t, t ∈ ts → is_Some (ss_tasks s' !! t)) → same_tasks (ss_tasks s) (ss_tasks s') →
  pid_at s ts 0 = Some q → pid_at s' ts 0 = Some q.
Proof.
  intros Hin Hg. unfold pid_at. destruct (ts !! 0%nat) as [t|] eqn:Et; [|done]. simpl.
  destruct (Hin t) as [u Hu]; [by eapply list_elem_of_lookup_2|]. destruct (Hg t u Hu) as (v & Hv & E & _).
  rewrite Hv, Hu. simpl. congruence.
Qed.

Lemma next_place (i n : nat) : (i < n)%nat → ((S i mod n + n - 1) mod n)%nat = i.
Proof.
  intros Hi. destruct (decide (S i = n)) as [<-|Hne].
  - rewrite Nat.Div0.mod_same. rewrite Nat.mod_small; lia.
  - rewrite (Nat.mod_small (S i)) by lia. replace (S i + n - 1)%nat with (i + 1 * n)%nat by lia.
    rewrite Nat.Div0.mod_add. apply Nat.mod_small. lia.
Qed.

(** The running task is the one before the place [i]. *)
Definition runs_before k l ts (i : nat) : Prop :=
  ts !! ((i + length l - 1) mod length l)%nat = Some (tl_task (CURRENT_TASK (k_sched k))).

Lemma system_timer k l ts i :
  system_ok k l ts i →
  wp timer_irq (λ _ k', system_ok k' l ts (S i mod length l) ∧ runs_before k' l ts (S i mod length l)) k.
Proof.
  intros [Hring Hnext Hon (t0 & Hrun & _) Hpl Hpids Hfirst Hsp Hheap]. unfold timer_irq.
  apply wp_bind, wp_zoom. eapply wp_mono; [apply (pic_send_eoi_ok bios_pic1 bios_pic2)|]. cbn beta.
  intros _ tr _. apply wp_bind, wp_get. change (k_sched (set_io tr k)) with (k_sched k).
  rewrite (proj2 (Z.eqb_neq _ _) Hon). cbn [negb]. apply wp_zoom. change (k_sched (set_io tr k)) with (k_sched k).
  pose proof Hring as (Hr & _ & _ & _ & Htasks & _).
  destruct (ring_lookup _ _ _ _ _ Hr Hnext) as (n & Hn & Htn & _).
  destruct (Htasks (tl_task n)) as [m Hm]; [by eapply list_elem_of_lookup_2|].
  eapply wp_mono; [apply (wp_and _ _ _ _ (sched_context_switch_ok _ l ts i Hring Hnext)
    (context_switch_frame _ n t0 m Hn Hrun Hm))|]. cbn beta.
  intros _ s' ((Hring' & Hnext' & Hcur & Hinit) & Hsame & El & Eh & _ & Hcpu).
  apply lookup_lt_Some in Hnext as Hlt.
  assert (Hbefore : runs_before (set_sched s' (set_io tr k)) l ts (S i mod length l)).
  { unfold runs_before. cbn [k_sched set_sched]. by rewrite next_place. }
  split; [|exact Hbefore]. split; try done.
  - by cbn; rewrite Hinit.
  - by left.
  - intros a b q Ha Hb. cbn [k_sched set_sched] in Ha, Hb. apply (Hpids a b q); by eapply same_tasks_pids.
  - eapply pid_zero_kept; [apply Hring'|exact Hsame|exact Hfirst].
  - intros p t' Ht'. destruct (Hsame p t' Ht') as (t & Ht & _ & _ & _ & Ev & Ep).
    destruct (Hsp p t Ht) as [A [Hpg Hs Ha]]. exists A. split; [by rewrite Ep| |done].
    destruct Hs as (ctx & bl & Ec & Hrep). exists ctx, bl. split; [by rewrite Ev|].
    unfold vmm_of in *. cbn. rewrite Eh. exact Hrep.
  - destruct Hheap as (L & Ho & Hl & Hb & Hd). exists L. cbn. rewrite Eh, El. split_and!; done.
Qed.

(** *** The end of a task *)

(** The running task is the last one of the ring, and not the init task. *)
Definition leaves k l ts : Prop :=
  (2 <= length l)%nat ∧ ∃ t, running k = Some t ∧ pid t ≠ INIT_PID ∧
    pid_at (k_sched k) ts (length l - 1) = Some (pid t).

(** Removing the last task: what changes but for the ring, which
    [sched_remove_last_drops] is about. *)
Lemma remove_last_frame (s : sched_store H) h0 l ts w :
  sched_ok s (h0 :: l) ts → w ≠ 0 → w ≠ INIT_PID → pid_at s ts (length l) = Some w →
  wp (sched_remove w)
     (λ _ s', ∃ h n, free (tasks_tail s) (ss_heap s) = Ok (tt, h) ∧
        s' = with_lists (delete (tasks_tail s) (<[tasks_head s := n]> (ss_lists s)))
               (with_heap h (with_tail (tasks_head s) s))) s.
Proof.
  intros Hs Hw0 Hw1 Hq. pose proof Hs as (Hr & Hown & Hh & _).
  destruct (ring_tail _ _ _ Hs) as (nt & Hnt & Hnx & Htl & _). rewrite head_lookup in Hh.
  cbn [length] in Htl. replace (S (length l) - 1)%nat with (length l) in Htl by lia.
  destruct (ring_lookup _ _ _ _ _ Hr Hh) as (nh & Hnh & _).
  unfold sched_remove. rewrite (proj2 (Z.eqb_neq w 0)), (proj2 (Z.eqb_neq w INIT_PID)) by done.
  apply wp_bind, wp_get, wp_bind. eapply wp_of_ok; [by apply (list_pid_run _ _ _ _ _ _ Hr Htl Hq)|].
  rewrite Z.eqb_refl. apply wp_bind. eapply wp_load_list; [exact Hnt|]. apply wp_bind, wp_modify, wp_bind.
  rewrite Hnx. eapply wp_set_list_next; [exact Hnh|]. apply wp_bind, wp_zoom. destruct Hown as (L & Ho & HL).
  pose proof (free_spec _ _ _ _ Ho (HL _ (mk_is_Some _ _ Hnt))) as W. apply wp_ok in W as ([] & h & E & _).
  eapply wp_of_ok; [exact E|]. apply wp_modify. by eexists h, _.
Qed.

(** Where sched_remove returns for the running task, that is the last one of the ring. *)
Lemma sched_remove_returns k l ts i t s' u :
  system_ok k l ts i → running k = Some t → sched_remove (pid t) (k_sched k) = Ok (u, s') → leaves k l ts.
Proof.
  intros [Hring Hnext _ _ _ _ Hfirst _ _] Hrun E. pose proof Hring as (Hr & _ & Hh & _ & Htasks & _).
  destruct (decide (pid t = 0)) as [E0|E0]; [by rewrite E0 in E|].
  destruct (decide (pid t = INIT_PID)) as [E1|E1]; [by rewrite E1 in E|].
  apply lookup_lt_Some in Hnext as Hlt. destruct (ring_tail _ _ _ Hring) as (nt & Hnt & Hnx & Htl & Htt).
  assert (∃ q, pid_at (k_sched k) ts (length l - 1) = Some q) as [q Hq].
  { unfold pid_at. rewrite Htt. simpl. destruct (Htasks (tl_task nt)) as [x ->]; [by eapply list_elem_of_lookup_2|]. by eexists. }
  destruct (decide (2 <= length l)%nat) as [Hlen|Hlen].
  - destruct (decide (q = pid t)) as [->|Hne]; [split; [done|]; by exists t|].
    by rewrite (proj1 (sched_remove_endless _ l ts (pid t) 0 q 0 0 Hring Hlen Hfirst (not_eq_sym E0) Hq Hne E0 E1)) in E.
  - exfalso. assert (Hlen1 : length l = 1%nat) by lia. rewrite Hlen1 in Htl, Hq. simpl in Htl, Hq.
    assert (q = 0) as -> by congruence. unfold sched_remove in E.
    rewrite (proj2 (Z.eqb_neq _ _) E0), (proj2 (Z.eqb_neq _ _) E1) in E. cbn [orb] in E.
    rewrite (bind_ok _ _ _ _ _ (eq_refl : get _ = Ok (k_sched k, k_sched k))) in E.
    rewrite (bind_ok _ _ _ _ _ (list_pid_run _ _ _ _ _ _ Hr Htl Hfirst)) in E.
    rewrite (proj2 (Z.eqb_neq 0 _)) in E by done. unfold list_fuel in E. cbn [sched_remove_loop] in E.
    rewrite (bind_ok _ _ _ _ _ (eq_refl : get _ = Ok (k_sched k, k_sched k))) in E.
    rewrite (bind_ok _ _ (k_sched k) nt (k_sched k)) in E by (unfold load_list; by rewrite Hnt).
    rewrite head_lookup in Hh. rewrite Hnx in E.
    rewrite (bind_ok _ _ _ _ _ (list_pid_run _ _ _ _ _ _ Hr Hh Hfirst)) in E.
    rewrite (proj2 (Z.eqb_neq 0 _)) in E by done.
    assert (tasks_head (k_sched k) = tasks_tail (k_sched k)) as Eht by congruence.
    by rewrite Eht, Z.eqb_refl in E.
Qed.

Lemma ctx_rep_heap (v v' : vmm_store H) ctx bl A :
  ctx_rep v ctx bl A → store_ok v' → vs_blocks v' = vs_blocks v → vs_nodes v' = vs_nodes v → ctx_rep v' ctx bl A.
Proof.
  intros (l & t & [] & ? & ?) Hok Eb En. destruct v as [h b n], v' as [h' b' n']. simpl in *. subst b' n'.
  exists l, t. split; [|done]. by split.
Qed.

Lemma system_remove k l ts i t :
  system_ok k l ts i → running k = Some t → leaves k l ts →
  wp (on_sched (sched_remove (pid t))) (λ _ k', system_ok k' (take 1 l) (take 1 ts) 0) k.
Proof.
  intros [Hring Hnext Hon Hcpu Hpl Hpids Hfirst Hsp Hheap] Hrun (Hlen & t' & Hrun' & Hne1 & Hlast).
  assert (t' = t) as -> by congruence. clear Hrun'.
  pose proof Hring as (Hr & _ & Hh & Hl & Htasks & Hcur). pose proof Hr as (_ & Hlts & _).
  assert (Hne0 : pid t ≠ 0).
  { intros E. rewrite E in Hlast. specialize (Hpids _ _ _ Hfirst Hlast). lia. }
  assert (Hi : i = 0%nat).
  { destruct Hpl as [Hpl|[? _]]; [|done]. apply lookup_lt_Some in Hnext as Hlt.
    assert (Hp : pid_at (k_sched k) ts ((i + length l - 1) mod length l) = Some (pid t))
      by (unfold pid_at; rewrite Hpl; simpl; unfold running in Hrun; by rewrite Hrun).
    specialize (Hpids _ _ _ Hp Hlast). destruct (decide (i = 0%nat)) as [|Hi]; [done|].
    replace (i + length l - 1)%nat with (i - 1 + 1 * length l)%nat in Hpids by lia.
    rewrite Nat.Div0.mod_add, Nat.mod_small in Hpids by lia. lia. }
  subst i. destruct l as [|h l0]; [simpl in Hlen; lia|]. destruct ts as [|t0 ts0]; [done|].
  simpl in Hnext. injection Hnext as Hnext. simpl in Hh. injection Hh as Hh.
  cbn [length] in Hlast. replace (S (length l0) - 1)%nat with (length l0) in Hlast by lia.
  apply wp_zoom. eapply wp_mono.
  { assert (Hl0 : l0 ≠ []) by (intros ->; simpl in Hlen; lia).
    exact (wp_and _ _ _ _ (sched_remove_last_drops _ h l0 t0 ts0 (pid t) Hring Hl0 Hne0 Hne1 Hlast)
      (remove_last_frame _ h l0 (t0 :: ts0) (pid t) Hring Hne0 Hne1 Hlast)). }
  cbn beta. intros _ s' (Hring' & hp & n & Hfree & ->).
  assert (Hheap' : shares_heap (set_sched (with_lists (delete (tasks_tail (k_sched k)) (<[tasks_head (k_sched k):=n]> (ss_lists (k_sched k))))
    (with_heap hp (with_tail (tasks_head (k_sched k)) (k_sched k)))) k)).
  { destruct Hheap as (L & Ho & HL & Hb & Hd). exists (delete (tasks_tail (k_sched k)) L). cbn.
    destruct (ring_tail _ _ _ Hring) as (nt & Hnt & _). destruct (HL _ (mk_is_Some _ _ Hnt)) as [Hsz Hnb].
    pose proof (free_spec _ _ _ _ Ho Hsz) as W. unfold wp in W. rewrite Hfree in W. split_and!; [exact W|..].
    - intros p. rewrite !lookup_delete. case_decide; [by intros []|]. rewrite lookup_insert. case_decide as Ep; [|apply HL].
      intros _. apply HL. rewrite <- Ep. destruct (ring_lookup _ _ _ 0 h Hr eq_refl) as (nh & Hnh & _). rewrite <- Hh. eauto.
    - intros p Hp. rewrite lookup_delete_ne; [by apply Hb|]. intros <-. rewrite Hnb in Hp. by destruct Hp.
    - intros p Hp. rewrite lookup_delete_ne; [by apply Hd|]. intros <-. apply Hd in Hp. rewrite Hsz in Hp. discriminate Hp. }
  split; try done.
  - cbn. by rewrite <- Hnext.
  - right. split; [done|by left].
  - intros [|a] [|b] q; try done; unfold pid_at; simpl; by rewrite ?lookup_nil.
  - intros p u Hu. destruct (Hsp p u Hu) as [A [Hpg (ctx & bl & Ec & Hrep) Ha]]. exists A. split; [done| |done].
    exists ctx, bl. split; [done|]. eapply ctx_rep_heap; [exact Hrep| |done|done].
    destruct Hheap' as (L & Ho & _ & Hb & Hd). exists L. by split_and!.
Qed.

(** *** One event *)

Definition is_timer (e : system_event) : bool :=
  match e with EvInterrupt timer_irq_handler _ => true | _ => false end.

Definition ticks (es : list system_event) : nat := length (List.filter is_timer es).

Lemma ticks_cons e es (i n : nat) :
  (((if is_timer e then S i mod n else i) + ticks es) mod n)%nat = ((i + ticks (e :: es)) mod n)%nat.
Proof.
  unfold ticks. simpl. destruct (is_timer e); [|done]. rewrite Nat.Div0.add_mod_idemp_l. simpl. f_equal. lia.
Qed.

Lemma bind_ok_inv {S A B} (m : M S A) (f : A → M S B) s b s2 :
  (m ≫= f) s = Ok (b, s2) → ∃ a s1, m s = Ok (a, s1) ∧ f a s1 = Ok (b, s2).
Proof. unfold mbind, M_bind. destruct (m s) as [[a s1]|]; [|done]. intros E. by exists a, s1. Qed.

(** The events with which the running task ends. *)
Definition departs (e : system_event) : Prop :=
  match e with
  | EvReturn => True
  | EvInterrupt syscall_interrupt_handler a => eax (ia_regs a) = SYS_EXIT
  | _ => False
  end.

(** The places at which the tasks stand after an event, with which, if [D], a task may end. *)
Definition stepped (D : Prop) k k' l ts (j : nat) : Prop :=
  system_ok k' l ts j ∧ CURRENT_TASK (k_sched k') = CURRENT_TASK (k_sched k) ∨
  D ∧ leaves k l ts ∧ system_ok k' (take 1 l) (take 1 ts) 0.

Lemma steady_stepped {A} D (m : M (kernel H) A) k a k' l ts i :
  has_type (steady k) m (λ _, True) → system_ok k l ts i → m k = Ok (a, k') → stepped D k k' l ts i.
Proof.
  intros Hm Hk E. left. destruct (Hm _ _ _ (steady_refl k) E) as [Hst _]. split; [by eapply system_ok_calm|].
  by destruct Hst as [[sp ->] _].
Qed.

Lemma logged_stepped D k k1 k' l ts j :
  logged k k1 → stepped D k1 k' l ts j → stepped D k k' l ts j.
Proof. intros [tr ->] [Hs|(HD & Hl & Hs)]; [by left|by right]. Qed.

Lemma remove_stepped k l ts i t u k' :
  system_ok k l ts i → running k = Some t → on_sched (sched_remove (pid t)) k = Ok (u, k') →
  leaves k l ts ∧ system_ok k' (take 1 l) (take 1 ts) 0.
Proof.
  intros Hk Hrun E. assert (Hlv : leaves k l ts).
  { unfold on_sched, zoom in E. destruct (sched_remove (pid t) (k_sched k)) as [[v s']|] eqn:E1; [|done].
    by eapply sched_remove_returns. }
  split; [exact Hlv|]. pose proof (system_remove _ _ _ _ _ Hk Hrun Hlv) as W. unfold wp in W. by rewrite E in W.
Qed.

Lemma syscall_stepped st regs k u k' l ts i :
  system_ok k l ts i → syscall_handler st regs k = Ok (u, k') →
  stepped (eax regs = SYS_EXIT) k k' l ts i.
Proof.
  intros Hk E. destruct (syscall_handler_run st regs k) as (k1 & Hlog & E1). rewrite E1 in E. clear E1.
  assert (Hk1 : system_ok k1 l ts i) by (eapply system_ok_calm; [exact Hk|by apply steady_logged]).
  eapply logged_stepped; [exact Hlog|]. destruct (Z.eqb_spec (eax regs) SYS_EXIT) as [Ee|_].
  - apply bind_ok_inv in E as (v & k2 & E & [= <- <-]). unfold exit in E.
    apply bind_ok_inv in E as (t & k3 & Et & E). apply current_task_ok in Et as [-> Hrun].
    apply bind_ok_inv in E as (v0 & k3 & Ep & E). destruct (task_parent t =? 0); [done|]. injection Ep as <- <-.
    apply bind_ok_inv in E as (v1 & k4 & Er & E).
    destruct (remove_stepped _ _ _ _ _ _ _ Hk1 Hrun Er) as [Hlv Hk4]. right. split; [exact Ee|]. split; [exact Hlv|].
    injection E as _ <-. eapply system_ok_calm; [exact Hk4|]. by eapply steady_kept; [apply steady_refl|..].
  - destruct (_ =? SYS_FORK); [|done]. injection E as _ <-. left. by split.
Qed.

Lemma system_step k l ts i e u k' :
  system_ok k l ts i → run_event mi device e k = Ok (u, k') →
  if is_timer e then system_ok k' l ts (S i mod length l) ∧ runs_before k' l ts (S i mod length l)
  else stepped (departs e) k k' l ts i.
Proof.
  intros Hk E. assert (Hlt : (i < length l)%nat) by (eapply lookup_lt_Some, Hk). destruct e as [h a| | |x v|sp]; cbn [run_event is_timer] in *.
  - apply bind_ok_inv in E as (r & k1 & E & [= <- <-]). unfold run_isr in E.
    destruct h; cbn [panic_message] in E; try done.
    + apply bind_ok_inv in E as (v & k2 & E & [= <- <-]). eapply steady_stepped; [|exact Hk|exact E]. apply steady_page_fault.
    + apply bind_ok_inv in E as (v & k2 & E & [= <- <-]). pose proof (system_timer _ _ _ _ Hk) as W.
      unfold wp in W. by rewrite E in W.
    + apply bind_ok_inv in E as (v & k2 & E & [= <- <-]). eapply steady_stepped; [|exact Hk|exact E]. apply steady_on_ps2.
    + by eapply syscall_stepped.
  - eapply steady_stepped; [|exact Hk|exact E]. eapply type_bind; [apply steady_current_task|]. intros. apply steady_klog.
  - unfold task_returns in E. apply bind_ok_inv in E as (t & k1 & Et & E). apply current_task_ok in Et as [-> Hrun].
    right. split; [done|]. by eapply remove_stepped.
  - eapply steady_stepped; [|exact Hk|exact E]. apply steady_on_words.
  - injection E as _ <-. left. split; [|done]. eapply system_ok_calm; [exact Hk|]. split; [by eexists|done].
Qed.

(** One event, for the runs. *)
Lemma system_next k l ts i e u k' :
  system_ok k l ts i → run_event mi device e k = Ok (u, k') →
  system_ok k' l ts (if is_timer e then S i mod length l else i) ∧
    (is_timer e = true ∨ runs_before k l ts i → runs_before k' l ts (if is_timer e then S i mod length l else i)) ∨
  departs e ∧ leaves k l ts ∧ system_ok k' (take 1 l) (take 1 ts) 0.
Proof.
  intros Hk E. pose proof (system_step _ _ _ _ _ _ _ Hk E) as Hs. destruct (is_timer e); [left; by destruct Hs|].
  destruct Hs as [[Hk' Ec]|Hs]; [left|by right]. split; [done|]. unfold runs_before. rewrite Ec. by intros [?|?].
Qed.

(** A ring of one task stays as it is. *)
Lemma run_events_alone es k k' l ts i :
  (length l <= 1)%nat → system_ok k l ts i → run_events mi device es k = Ok (tt, k') → system_ok k' l ts 0.
Proof.
  revert k i. induction es as [|e es IH]; intros k i Hl Hk E.
  - injection E as <-. pose proof (lookup_lt_Some _ _ _ (sy_next _ _ _ _ Hk)). by replace 0%nat with i by lia.
  - cbn [run_events] in E. apply bind_ok_inv in E as (u & k1 & E1 & E).
    destruct (system_next _ _ _ _ _ _ _ Hk E1) as [[Hk1 _]|(_ & (Hlen & _) & _)]; [by eapply IH|lia].
Qed.

(** C4: the invariant of the running kernel holds in every run: whatever events arrive in
    whatever order, as long as none halts the machine, one of two things holds at the end.
    - The tasks are all in the ring, and the place of the next task has moved by one with
      each tick of the timer, and with nothing else.  Once there was a tick, or if it was so
      at the start, the task that runs is the one before the next.
    - A task has ended: one of the events was the return of its function or the system call
      exit, at a point where the ring was still whole and the task that ran was its last.
      The ring is left with its first task alone, to the end.
    In both cases the processor runs under the page directory and with the interrupt stack
    of the task that runs ([system_ok]). *)
Theorem run_events_invariant es k k' l ts i :
  system_ok k l ts i → run_events mi device es k = Ok (tt, k') →
  system_ok k' l ts ((i + ticks es) mod length l) ∧
    ((0 < ticks es)%nat ∨ runs_before k l ts i → runs_before k' l ts ((i + ticks es) mod length l)) ∨
  ∃ es1 e es2 k1, es = es1 ++ e :: es2 ∧ run_events mi device es1 k = Ok (tt, k1) ∧
    system_ok k1 l ts ((i + ticks es1) mod length l) ∧ departs e ∧ leaves k1 l ts ∧
    system_ok k' (take 1 l) (take 1 ts) 0.
Proof.
  revert k i. induction es as [|e es IH]; intros k i Hk E;
    assert (Hlt : (i < length l)%nat) by (eapply lookup_lt_Some, Hk).
  - injection E as <-. left. unfold ticks. simpl. rewrite Nat.add_0_r, Nat.mod_small by done.
    split; [done|]. intros [?|?]; [lia|done].
  - cbn [run_events] in E. apply bind_ok_inv in E as ([] & k1 & E1 & E).
    destruct (system_next _ _ _ _ _ _ _ Hk E1) as [[Hk1 Hb1]|(Hd & Hl & Hk1)].
    + destruct (IH _ _ Hk1 E) as [[Hk' Hb']|(es1 & e' & es2 & k2 & -> & E2 & Hk2 & Hrest)]; rewrite ticks_cons in *.
      * left. split; [exact Hk'|]. intros Ht. apply Hb'. unfold ticks in Ht |- *. simpl in Ht.
        destruct (is_timer e); [right; by apply Hb1; left|].
        destruct Ht as [?|Hr]; [by left|right; by apply Hb1; right].
      * right. exists (e :: es1), e', es2, k2. split_and!; [done| |done|apply Hrest..].
        cbn [run_events]. by rewrite (bind_ok _ _ _ _ _ E1).
    + right. exists [], e, es, k. unfold ticks. simpl. rewrite Nat.add_0_r, Nat.mod_small by done.
      split_and!; [done..|]. eapply run_events_alone; [|exact Hk1|exact E]. rewrite length_take. lia.
Qed.

(** *** Which events the kernel survives *)

(** A fault at [addr] can be served: the page is not present, it belongs to an allocation
    of the running task, and there is a frame for it. *)
Definition servable k (addr err : Z) : Prop :=
  Z.land err PAGING_ERR_CODE_P = 0 ∧
  ∃ t A a, faultable k t A ∧ a ∈ A ∧ contains a (paging_align_addr addr) ∧
    (physical_addr a = 0 → ∃ p, 0 <= p < 2 ^ 23 ∧ page_used (k_bitmap k) p = false).

Definition survives k l ts (e : system_event) : Prop :=
  match e with
  | EvInterrupt page_fault_exception_handler a => servable k (ia_cr2 a) (ia_err_code a)
  | EvInterrupt timer_irq_handler _ | EvInterrupt keyboard_irq_handler _ => True
  | EvInterrupt syscall_interrupt_handler a =>
      eax (ia_regs a) = SYS_FORK ∨
      eax (ia_regs a) = SYS_EXIT ∧ leaves k l ts ∧ ∃ t, running k = Some t ∧ task_parent t ≠ 0
  | EvInterrupt _ _ => False
  | EvReturn => leaves k l ts
  | EvIdle | EvWrite _ _ | EvStack _ => True
  end.

(** The computation returns. *)
Definition returns {S A} (m : M S A) (s : S) : Prop := wp m (λ _ _, True) s.

Lemma returns_ok {S A} (m : M S A) s a s' : m s = Ok (a, s') → returns m s.
Proof. intros E. by eapply wp_of_ok. Qed.

Lemma returns_inv {S A} (m : M S A) s : returns m s → ∃ a s', m s = Ok (a, s').
Proof. intros (a & s' & E & _)%wp_ok. by exists a, s'. Qed.

Lemma returns_bind_err {S A B} (m : M S A) (f : A → M S B) s e : m s = Err e → ¬ returns (m ≫= f) s.
Proof. intros E Hr. unfold returns, wp in Hr. by rewrite (bind_err _ _ _ _ E) in Hr. Qed.

(** pmm_alloc_page returns as long as one of the bits of the bitmap is clear. *)
Lemma pmm_alloc_page_returns b :
  bitmap_ok b → returns pmm_alloc_page b ↔ ∃ p, 0 <= p < 2 ^ 23 ∧ page_used b p = false.
Proof.
  intros Hok. split.
  - intros Hr. destruct (returns_inv _ _ Hr) as (pa & b' & E). exact (pmm_alloc_page_finds b pa b' Hok E).
  - intros (p & Hp & Hf). destruct (least_free b (Z.to_nat p)) as (q & Hq & Hqf & Hlow); [by rewrite Z2Nat.id by lia|].
    rewrite Z2Nat.id in Hq by lia. assert (Hq2 : 0 <= q < 2 ^ 23) by lia.
    exact (returns_ok pmm_alloc_page b _ _ (pmm_alloc_page_eq b q Hok Hq2 Hqf Hlow)).
Qed.

Lemma system_faultable k l ts i : system_ok k l ts i → ∃ t A, faultable k t A.
Proof.
  intros Hk. destruct (sy_cpu _ _ _ _ Hk) as (t & Hrun & _). destruct (sy_spaces _ _ _ _ Hk _ _ Hrun) as [A [Hp Hs Ha]].
  exists t, A. by split.
Qed.

Lemma faultable_running k t A : faultable k t A → running k = Some t.
Proof. by intros []. Qed.

(** The page fault handler, when the fault is in the allocation [a]. *)
Lemma page_fault_returns st addr err t A a k :
  faultable k t A → bitmap_ok (k_bitmap k) → is_u32 addr → Z.land err PAGING_ERR_CODE_P = 0 →
  a ∈ A → contains a (paging_align_addr addr) →
  returns (page_fault_handler mi st addr err) k ↔
  (physical_addr a = 0 → ∃ p, 0 <= p < 2 ^ 23 ∧ page_used (k_bitmap k) p = false).
Proof.
  intros Hft Hbm Haddr Herr Ha Hc. pose proof Hft as [Hrun _ (vctx & bl & Hroot & Hrep) Hall].
  destruct (align_page addr Haddr) as [[Hal _] _]. pose proof (contains_count _ _ Hc) as Hcnt.
  rewrite <- (pmm_alloc_page_returns _ Hbm). unfold returns at 1, wp, page_fault_handler.
  rewrite (bind_ok _ _ _ _ _ (run_current_task _ _ Hrun)).
  match goal with |- context [klog ?x ?y ?z ≫= _] =>
    destruct (klog_logged x y z k) as (k1 & E1 & [tr L1]); rewrite (bind_ok _ _ _ _ _ E1) end.
  rewrite Herr. cbn [negb Z.eqb]. rewrite (find_allocation_root _ _ _ Hroot).
  pose proof (vmm_find_allocation_ok _ bl A _ _ Hrep Hal) as W.
  apply wp_ok in W as (b & v & E & -> & Hb).
  assert (b = a) as ->.
  { destruct Hb as [[Hb Hcb]|[_ Hno]]; [by eapply ctx_rep_unique|by destruct (Hno a Ha)]. }
  assert (E2 : on_vmm (vmm_find_allocation vctx (paging_align_addr addr)) k1 = Ok (a, set_vmm (vmm_of k) k1)).
  { unfold on_vmm, zoom. replace (vmm_of k1) with (vmm_of k) by by rewrite L1. by rewrite E. }
  rewrite (bind_ok _ _ _ _ _ E2). set (k2 := set_vmm _ _).
  unfold assert at 1. rewrite (proj2 (Z.eqb_neq _ 0) Hcnt). cbn [negb].
  rewrite (bind_ok (mret tt) _ k2 tt k2) by done.
  destruct (Z.eqb_spec (physical_addr a) 0) as [E0|E0]; cbn [negb].
  - assert (Eb : k_bitmap k2 = k_bitmap k) by by unfold k2; rewrite L1. split.
    + intros Hr _. destruct (pmm_alloc_page (k_bitmap k)) as [[pa b']|e] eqn:Ep; [exact (returns_ok _ _ _ _ Ep)|].
      rewrite (bind_err _ _ k2 e) in Hr; [done|]. unfold on_pmm, zoom. by rewrite Eb, Ep.
    + intros Hr. destruct (returns_inv _ _ (Hr E0)) as (pa & b' & Ep).
      rewrite (bind_ok _ _ k2 pa (set_bitmap b' k2)); [done|]. unfold on_pmm, zoom. by rewrite Eb, Ep.
  - by rewrite (bind_ok (mret (physical_addr a)) _ k2 (physical_addr a) k2) by done.
Qed.

Lemma returns_bind {S A B} (m : M S A) (f : A → M S B) s :
  (∀ a s', returns (f a) s') → returns (m ≫= f) s ↔ returns m s.
Proof.
  intros Hf. unfold returns, wp, mbind, M_bind. destruct (m s) as [[a s']|]; [|done]. split; [done|]. intros _. apply Hf.
Qed.

Lemma returns_mono {S A} (m : M S A) (Q : A → S → Prop) s : wp m Q s → returns m s.
Proof. intros W. by eapply wp_mono. Qed.

Lemma servable_returns st addr err k l ts i :
  typed k → system_ok k l ts i → is_u32 addr →
  returns (page_fault_handler mi st addr err) k ↔ servable k addr err.
Proof.
  intros Hty Hk Haddr. pose proof (ty_bitmap _ Hty) as Hbm. split.
  - intros Hr. destruct (system_faultable _ _ _ _ Hk) as (t & A & Hft).
    destruct (page_fault_panics mi st addr err t A k Hft Haddr) as [Hprot Hnone].
    destruct (decide (Z.land err PAGING_ERR_CODE_P = 0)) as [E|E].
    2:{ unfold returns, wp in Hr. by rewrite (Hprot E) in Hr. }
    destruct (decide (Exists (λ a, virtual_addr a <= paging_align_addr addr < alloc_end a) A)) as [Hex|Hno].
    + apply Exists_exists in Hex as (a & Ha & Hc). split; [exact E|]. exists t, A, a. split_and!; [exact Hft|exact Ha|exact Hc|].
      by apply (page_fault_returns st addr err t A a k Hft Hbm Haddr E Ha Hc).
    + exfalso. unfold returns, wp in Hr. rewrite Hnone in Hr; [done|done|]. intros a Ha Hc. apply Hno, Exists_exists. by exists a.
  - intros (E & t & A & a & Hft & Ha & Hc & Hfree). by apply (page_fault_returns st addr err t A a k Hft Hbm Haddr E Ha Hc).
Qed.

Lemma keyboard_returns s : queue_typed s → returns (ps2_handle_irq1 device) s.
Proof.
  intros (Hl & _ & He). apply wp_bind, wp_zoom, wp_inb, wp_bind. unfold queue_store, wp at 1.
  cbn [scancode_queue_ctx]. rewrite Hl, (proj2 (Nat.ltb_lt _ 10)) by lia. apply wp_bind, wp_modify, wp_bind.
  eapply wp_mono; [apply print_queue_ok|]. cbn beta. intros _ s' _. apply wp_zoom.
  by eapply returns_mono, (pic_send_eoi_ok bios_pic1 bios_pic2).
Qed.

Lemma klog_returns level fmt args k : returns (klog level fmt args) k.
Proof. done. Qed.

Lemma remove_returns k l ts i t :
  system_ok k l ts i → running k = Some t → returns (on_sched (sched_remove (pid t))) k ↔ leaves k l ts.
Proof.
  intros Hk Hrun. split.
  - intros Hr. destruct (returns_inv _ _ Hr) as (u & k' & E). by destruct (remove_stepped _ _ _ _ _ _ _ Hk Hrun E).
  - intros Hl. by eapply returns_mono, system_remove.
Qed.

Lemma leaves_logged k k' l ts : logged k k' → leaves k' l ts ↔ leaves k l ts.
Proof. by intros [tr ->]. Qed.

Lemma syscall_returns st regs k l ts i :
  system_ok k l ts i →
  returns (syscall_handler st regs) k ↔
  eax regs = SYS_FORK ∨ eax regs = SYS_EXIT ∧ leaves k l ts ∧ ∃ t, running k = Some t ∧ task_parent t ≠ 0.
Proof.
  intros Hk. destruct (syscall_handler_run st regs k) as (k1 & Hlog & E). unfold returns at 1, wp. rewrite E. clear E.
  assert (Hk1 : system_ok k1 l ts i) by (eapply system_ok_calm; [exact Hk|by apply steady_logged]).
  destruct (sy_cpu _ _ _ _ Hk1) as (t & Hrun & _).
  assert (Hrun0 : running k = Some t) by (by destruct Hlog as [tr ->]).
  destruct (Z.eqb_spec (eax regs) SYS_EXIT) as [E1|E1].
  - transitivity (returns (exit regs) k1); [by apply (returns_bind (exit regs) (λ _, mret regs))|].
    unfold exit, returns, wp at 1. rewrite (bind_ok _ _ _ _ _ (run_current_task _ _ Hrun)).
    destruct (Z.eqb_spec (task_parent t) 0) as [E0|E0].
    + split; [done|]. intros [E2|(_ & _ & t' & Hrun' & Hp)]; [by rewrite E1 in E2|]. congruence.
    + rewrite (bind_ok (mret tt) _ k1 tt k1) by done.
      transitivity (returns (on_sched (sched_remove (pid t))) k1); [by apply (returns_bind _ (λ _, klog PRINTK_DEBUG _ _))|].
      rewrite (remove_returns _ _ _ _ _ Hk1 Hrun), (leaves_logged _ _ _ _ Hlog). split.
      * intros Hl. right. split_and!; [done|done|]. by exists t.
      * intros [E2|(_ & Hl & _)]; [by rewrite E1 in E2|done].
  - destruct (Z.eqb_spec (eax regs) SYS_FORK) as [E2|E2]; split; try done; [by left|]. intros [?|[? _]]; done.
Qed.

(** The arguments that the processor can hand over: CR2 is a register. *)
Definition event_ok (e : system_event) : Prop :=
  match e with EvInterrupt _ a => is_u32 (ia_cr2 a) | _ => True end.

(** C7: the events that the running kernel survives are exactly these: ticks and keys always;
    a fault on a page that is not present, in an allocation of the running task, while there
    is a frame for it; fork; the end of the running task, by exit or by the return of its
    function, when it was the last of the ring to be added and is not the init task (and, for
    exit, has a parent); and the steps of tasks (to log, to move the stack pointer, to write a
    word of memory that is not one of the kernel's own objects).  Every other event halts the machine or
    never returns. *)
Theorem run_event_survives k l ts i e :
  typed k → system_ok k l ts i → event_ok e →
  returns (run_event mi device e) k ↔ survives k l ts e.
Proof.
  intros Hty Hk He. destruct (sy_cpu _ _ _ _ Hk) as (t & Hrun & _). destruct e as [h a| | |x v|sp]; cbn [run_event].
  - rewrite returns_bind by done. unfold run_isr. destruct h; cbn [panic_message survives]; try by (split; intros []).
    + rewrite returns_bind by done. by apply (servable_returns _ _ _ _ l ts i).
    + rewrite returns_bind by done. split; [done|]. intros _. by eapply returns_mono, system_timer.
    + rewrite returns_bind by done. split; [done|]. intros _. apply wp_zoom. apply keyboard_returns, Hty.
    + by eapply syscall_returns.
  - split; [done|]. intros _. by apply wp_bind, (wp_current_task t), klog_returns.
  - unfold task_returns, returns, wp at 1. rewrite (bind_ok _ _ _ _ _ (run_current_task _ _ Hrun)).
    by apply (remove_returns _ _ _ i).
  - done.
  - done.
Qed.

(** Ticks of the timer, keys, calls of fork and the steps of tasks. *)
Definition quiet (e : system_event) : bool :=
  match e with
  | EvInterrupt timer_irq_handler _ | EvInterrupt keyboard_irq_handler _ | EvIdle | EvWrite _ _ | EvStack _ => true
  | EvInterrupt syscall_interrupt_handler a => eax (ia_regs a) =? SYS_FORK
  | _ => false
  end.

Lemma quiet_survives e k l ts : quiet e = true → survives k l ts e ∧ ¬ departs e.
Proof.
  destruct e as [h a| | | |]; [destruct h|..]; try done; try (intros _; split; [done|intros []]).
  cbn [quiet survives departs]. intros E%Z.eqb_eq. rewrite E. split; [by left|done].
Qed.

(** C15: the kernel runs on: ticks of the timer, keys, calls of fork and the steps of tasks, in
    any number and order, never halt it, and the round robin goes on undisturbed by the
    rest: with each tick among the events the place of the next task moves by one.  The writes of
    tasks are to words of memory; a write over the kernel's own objects in the heap is not
    an event of the model. *)
Theorem quiet_events_run es k l ts i :
  typed k → system_ok k l ts i → Forall event_ok es → forallb quiet es = true →
  wp (run_events mi device es) (λ _ k', typed k' ∧ system_ok k' l ts ((i + ticks es) mod length l)) k.
Proof.
  revert k i. induction es as [|e es IH]; intros k i Hty Hk Hok Hq.
  - apply wp_ret. split; [done|]. assert (Hlt : (i < length l)%nat) by (eapply lookup_lt_Some, Hk).
    unfold ticks. simpl. by rewrite Nat.add_0_r, Nat.mod_small.
  - apply Forall_cons in Hok as [He Hok]. cbn [forallb] in Hq. apply andb_true_iff in Hq as [Hqe Hq].
    destruct (quiet_survives e k l ts Hqe) as [Hs Hnd].
    apply (run_event_survives k l ts i e Hty Hk He) in Hs. destruct (returns_inv _ _ Hs) as ([] & k1 & E).
    apply wp_bind. eapply wp_of_ok; [exact E|]. destruct (type_run_event mi device e _ _ _ Hty E) as [Hty1 _].
    destruct (system_next _ _ _ _ _ _ _ Hk E) as [[Hk1 _]|[Hd _]]; [|done].
    eapply wp_mono; [exact (IH _ _ Hty1 Hk1 Hok Hq)|]. cbn beta. intros _ k' [Hty' Hk']. split; [exact Hty'|].
    replace ((i + ticks (e :: es)) mod length l)%nat
      with (((if is_timer e then S i mod length l else i) + ticks es) mod length l)%nat; [exact Hk'|].
    by rewrite ticks_cons.
Qed.

(** A node for the ring, from the heap. *)
Lemma shares_heap_new k p h n :
  shares_heap k → malloc sizeof_task_list (ss_heap (k_sched k)) = Ok (p, h) → p ≠ 0 →
  shares_heap (set_sched (with_lists (<[p := n]> (ss_lists (k_sched k))) (with_heap h (k_sched k))) k).
Proof.
  intros (L & Ho & Hl & Hb & Hd) E Hp.
  pose proof (malloc_spec _ _ sizeof_task_list Ho ltac:(by vm_compute)) as W. unfold wp in W. rewrite E in W.
  destruct W as [[-> _]|(_ & Hf & Ho' & _)]; [done|]. exists (<[p := sizeof_task_list]> L). cbn. split_and!; [exact Ho'|..]; intros q.
  - rewrite !lookup_insert. case_decide as Eq; [|apply Hl]. intros _. split; [done|]. subst q.
    apply eq_None_not_Some. intros Hs%Hb. congruence.
  - intros Hq. rewrite lookup_insert_ne; [by apply Hb|]. intros ->. apply Hb in Hq. congruence.
  - intros Hq. rewrite lookup_insert_ne; [by apply Hd|]. intros ->. apply Hd in Hq. congruence.
Qed.

End Invariant.

(** ** Witnesses *)

(** Two tasks with the address space [space1], in a ring: the first one runs, the second
    one is next. *)
Definition duo_heap1 : kheap := after_node (vs_heap space1.2).
Definition duo_heap2 : kheap := after_node duo_heap1.
Definition duo_node1 : Z := 3758096488.
Definition duo_node2 : Z := 3758096508.
Definition duo_task (p : Z) : task_control_block :=
  mk_task p 0x7000 (vmm_virtual_to_physical meminfo0 (page_directory ctx0)) 0x8000 space1.1 ctx0 0x500.

Definition duo_sched : sched_store kheap :=
  SchedStore duo_heap2 (<[0x600 := duo_task 2]> {[ 0x500 := duo_task 0 ]})
    (<[duo_node2 := mk_task_list 0x600 TASK_PRIORITY_LOW duo_node1]>
      {[ duo_node1 := mk_task_list 0x500 TASK_PRIORITY_LOW duo_node2 ]})
    duo_node1 duo_node2 duo_node2 (mk_task_list 0x500 TASK_PRIORITY_LOW duo_node2) 1
    (mk_cpu_state 0x7f00 (virtual_addr_space (duo_task 0)) 0x8000).
Definition duo_kernel : kernel kheap :=
  mk_kernel duo_sched (vs_blocks space1.2) (vs_nodes space1.2) bitmap0 ∅ ps2_0 3.

Lemma duo_node1_new : malloc sizeof_task_list (vs_heap space1.2) = Ok (duo_node1, duo_heap1).
Proof.
  unfold duo_heap1, after_node. change (malloc sizeof_task_list) with (kmalloc sizeof_task_list).
  destruct (kmalloc sizeof_task_list (vs_heap space1.2)) as [[q h]|] eqn:E.
  - assert (Hq : value (kmalloc sizeof_task_list (vs_heap space1.2)) = Some duo_node1) by (vm_compute; reflexivity).
    rewrite E in Hq. by injection Hq as ->.
  - assert (Hq : value (kmalloc sizeof_task_list (vs_heap space1.2)) = Some duo_node1) by (vm_compute; reflexivity).
    by rewrite E in Hq.
Qed.

Lemma duo_node2_new : malloc sizeof_task_list duo_heap1 = Ok (duo_node2, duo_heap2).
Proof.
  unfold duo_heap2, after_node at 1. change (malloc sizeof_task_list) with (kmalloc sizeof_task_list).
  assert (Hq : value (kmalloc sizeof_task_list duo_heap1) = Some duo_node2) by (vm_compute; reflexivity).
  destruct (kmalloc sizeof_task_list duo_heap1) as [[q h]|] eqn:E; [|done]. by injection Hq as ->.
Qed.

Lemma duo_heap : shares_heap duo_kernel.
Proof.
  set (k0 := mk_kernel (SchedStore (vs_heap space1.2) (ss_tasks duo_sched) ∅ duo_node1 duo_node2 duo_node2
    (CURRENT_TASK duo_sched) 1 (ss_cpu duo_sched)) (vs_blocks space1.2) (vs_nodes space1.2) bitmap0 ∅ ps2_0 3).
  assert (H0 : shares_heap k0).
  { destruct (proj1 space1_rep) as (l & t & [(L & Ho & Hb & Hn) _ _ _ _ _ _] & _). exists L.
    split_and!; [exact Ho|intros p Hp; change (is_Some ((∅ : gmap Z task_list) !! p)) in Hp; rewrite lookup_empty in Hp; by destruct Hp|exact Hb|exact Hn]. }
  pose proof (shares_heap_new k0 _ _ (mk_task_list 0x500 TASK_PRIORITY_LOW duo_node2) H0 duo_node1_new ltac:(done)) as H1.
  exact (shares_heap_new _ _ _ (mk_task_list 0x600 TASK_PRIORITY_LOW duo_node1) H1 duo_node2_new ltac:(done)).
Qed.

Lemma duo_tasks p t : ss_tasks duo_sched !! p = Some t → (p = 0x600 ∧ t = duo_task 2) ∨ (p = 0x500 ∧ t = duo_task 0).
Proof.
  cbn [ss_tasks duo_sched]. rewrite lookup_insert. case_decide; [intros [= <-]; by left|].
  rewrite lookup_singleton. case_decide; [intros [= <-]; by right|done].
Qed.

Lemma duo_spaces p t : ss_tasks duo_sched !! p = Some t → space_ok duo_kernel t [Allocation 0x10000 0x400000 4 7].
Proof.
  intros Ht. assert (Et : task_vmm_context t = space1.1 ∧ task_paging_ctx t = ctx0)
    by (by destruct (duo_tasks p t Ht) as [[_ ->]|[_ ->]]). destruct Et as [Ev Ep].
  split; [rewrite Ep; exact ctx0_ok| |].
  - exists space1.1. eexists. split; [by rewrite Ev|]. eapply ctx_rep_heap; [exact (proj1 space1_rep)| |done|done].
    destruct duo_heap as (L & Ho & _ & Hb & Hn). exists L. exact (conj Ho (conj Hb Hn)).
  - clear. intros a ->%list_elem_of_singleton. split_and!; by vm_compute.
Qed.

Lemma duo_pids a : pid_at duo_sched [0x500; 0x600] a = [0; 2] !! a.
Proof. by destruct a as [|[|a]]. Qed.

Lemma duo_ok : system_ok duo_kernel [duo_node1; duo_node2] [0x500; 0x600] 1.
Proof.
  assert (Hsome : ∀ t, t ∈ [0x500; 0x600] → is_Some (ss_tasks duo_sched !! t)).
  { intros t [->| ->%list_elem_of_singleton]%elem_of_cons; by eexists. }
  split.
  - split_and!; [|destruct duo_heap as (L & Ho & Hl & _); exists L; split; [exact Ho|intros p Hp; by apply Hl]|done|done|exact Hsome|by eexists].
    split_and!; [apply (bool_decide_unpack _); by vm_compute|done|]. intros i a Hi.
    do 2 (destruct i as [|i]; [injection Hi as <-; by eexists|]). done.
  - done.
  - done.
  - by exists (duo_task 0).
  - by left.
  - intros a b q Ha Hb. change (k_sched duo_kernel) with duo_sched in Ha, Hb. rewrite duo_pids in Ha, Hb.
    clear -Ha Hb. destruct a as [|[|a]], b as [|[|b]]; done || (simpl in Ha, Hb; congruence).
  - done.
  - intros p t Ht. eexists. by eapply duo_spaces.
  - exact duo_heap.
Qed.

Lemma duo_typed : typed duo_kernel.
Proof.
  split; [split|exact bitmap0_ok| | |done].
  - intros p t Ht. destruct (duo_tasks p t Ht) as [[_ ->]|[_ ->]]; split_and!; by vm_compute.
  - intros p n. cbn [ss_lists duo_kernel k_sched duo_sched]. rewrite lookup_insert.
    case_decide; [intros [= <-]; split; by vm_compute|]. rewrite lookup_singleton.
    case_decide; [intros [= <-]; split; by vm_compute|done].
  - split_and!; by vm_compute.
  - split; by vm_compute.
  - split_and!; by vm_compute.
  - intros a. change (is_u32 (word ∅ a)). unfold word. rewrite lookup_empty. by vm_compute.
  - split_and!; [done| |done..]. cbn. by repeat constructor.
Qed.

(** The second task ends: the one of the first task, by exit, is refused. *)
Definition duo_fault : system_event :=
  EvInterrupt page_fault_exception_handler (mk_args state0 0 0x11234 exit_regs).

Lemma duo_servable : survives duo_kernel [duo_node1; duo_node2] [0x500; 0x600] duo_fault.
Proof.
  split; [done|]. exists (duo_task 0), [Allocation 0x10000 0x400000 4 7], (Allocation 0x10000 0x400000 4 7).
  split_and!; [|by left|by vm_compute|done]. destruct (duo_spaces 0x500 (duo_task 0) eq_refl). by split.
Qed.

Lemma run_event_survives_witness :
  returns (run_event meminfo0 idle duo_fault) duo_kernel ∧ ¬ returns (run_event meminfo0 idle EvReturn) duo_kernel.
Proof.
  assert (He : event_ok duo_fault) by by vm_compute. split.
  - exact (proj2 (run_event_survives meminfo0 idle duo_kernel _ _ 1 duo_fault duo_typed duo_ok He) duo_servable).
  - intros Hr. pose proof (proj1 (run_event_survives meminfo0 idle duo_kernel _ _ 1 EvReturn duo_typed duo_ok I) Hr) as Hl.
    destruct Hl as (_ & t & Et & _ & Hp). change (k_sched duo_kernel) with duo_sched in Hp.
    rewrite duo_pids in Hp. injection Et as <-. discriminate Hp.
Defined.

(** Two ticks, and a key between them. *)
Definition duo_events : list system_event :=
  [EvInterrupt timer_irq_handler args0; EvInterrupt keyboard_irq_handler args0;
   EvWrite 0x2000 7; EvInterrupt timer_irq_handler args0].


Lemma duo_quiet : Forall event_ok duo_events ∧ forallb quiet duo_events = true.
Proof. split; [|done]. by repeat constructor. Qed.

Lemma quiet_events_run_witness :
  wp (run_events meminfo0 idle duo_events)
     (λ _ k', tasks_sched_head (k_sched k') = duo_node2 ∧ tl_task (CURRENT_TASK (k_sched k')) = 0x500) duo_kernel.
Proof.
  eapply wp_mono; [exact (quiet_events_run meminfo0 idle duo_events duo_kernel _ _ 1 duo_typed duo_ok
    (proj1 duo_quiet) (proj2 duo_quiet))|].
  cbn beta. intros _ k' [_ Hk]. pose proof (sy_next _ _ _ _ Hk) as Hn. split.
  - by injection Hn as ->.
  - destruct (sy_place _ _ _ _ Hk) as [Hp|[? _]]; [|done]. by injection Hp as <-.
Defined.

(** The same run, as far as it goes. *)
Lemma duo_run : ∃ k', run_events meminfo0 idle duo_events duo_kernel = Ok (tt, k').
Proof.
  pose proof (quiet_events_run meminfo0 idle duo_events duo_kernel _ _ 1 duo_typed duo_ok
    (proj1 duo_quiet) (proj2 duo_quiet)) as W.
  destruct (returns_inv _ _ (returns_mono _ _ _ W)) as ([] & k' & E). exists k'. exact E.
Qed.

Lemma run_events_typed_witness :
  ∃ k', run_events meminfo0 idle duo_events duo_kernel = Ok (tt, k') ∧ typed k'.
Proof.
  destruct duo_run as [k' E]. exists k'. split; [exact E|].
  exact (run_events_typed meminfo0 idle duo_events duo_kernel k' duo_typed E).
Defined.

Lemma run_events_invariant_witness :
  ∃ k', run_events meminfo0 idle duo_events duo_kernel = Ok (tt, k') ∧
        ∃ t, running k' = Some t ∧ cpu_cr3 (ss_cpu (k_sched k')) = virtual_addr_space t.
Proof.
  destruct duo_run as [k' E]. exists k'. split; [exact E|].
  destruct (run_events_invariant meminfo0 idle duo_events duo_kernel k' _ _ 1 duo_ok E)
    as [[Hk _]|(_ & _ & _ & _ & _ & _ & _ & _ & _ & Hk)];
    destruct (sy_cpu _ _ _ _ Hk) as (t & Hr & Hc & _); exists t; exact (conj Hr Hc).
Defined.
