(* ===== verification/Mmu.v ===== *)
(** * Memory behind the page tables

    The bytes of physical memory, and access to them through the translation of the
    processor: an access to a page that is not present raises a page fault, the handler
    of page_fault.c runs, and the access is made again.  The kernel runs with CR0.WP
    clear (boot.S sets only the paging bit), so that its accesses fail only for pages
    that are not present.  The words of the directories and tables stay in [k_words];
    the frames that hold them are not accessed as bytes. *)

From S2P Require Import Prelude Allocator Kmalloc PageArith Vmm VmmRules VmmRanges VmmFree VmmTree VmmSpace.
From S2P Require Import VmmProps Mem CString Pmm Paging Printk PortIo Ps2 Sched Elf Kernel Syscall PageFault.
From S2P Require Import Task.

Record machine (H : Type) : Type := mk_machine { mc_kernel : kernel H; mc_phys : mem }.
Arguments mk_machine {H} _ _.
Arguments mc_kernel {H} _.
Arguments mc_phys {H} _.

Section Operations.
Context {H : Type} `{Allocator H} (KERNEL_MEMINFO : kernel_meminfo).
(** The registers that the processor pushes at a page fault of the kernel. *)
Context (fault_state : interrupt_state).
Notation MM := (M (machine H)).

Definition on_kernel {A} : M (kernel H) A → MM A :=
  zoom mc_kernel (λ k μ, mk_machine k (mc_phys μ)).
Definition on_phys {A} : M mem A → MM A :=
  zoom mc_phys (λ m μ, mk_machine (mc_kernel μ) m).

(** The physical address that CR3 gives [va]: the directory is the running task's. *)
Definition mmu_translate (va : Z) : M (kernel H) (option Z) :=
  t ← current_task;
  k ← get;
  mret (snd <$> dir_translate KERNEL_MEMINFO (task_paging_ctx t) (k_words k)
                  (cpu_cr3 (ss_cpu (k_sched k))) va).

(** [fuel] attempts at the access; between two of them the fault handler runs.  When
    the handler does not make the page present, the access faults again for ever. *)
Fixpoint resolve (fuel : nat) (va err_code : Z) : MM Z :=
  match fuel with
  | O => throw EFuel
  | S fuel =>
      r ← on_kernel (mmu_translate va);
      match r with
      | Some pa => mret pa
      | None =>
          _ ← on_kernel (page_fault_handler KERNEL_MEMINFO fault_state va err_code);
          resolve fuel va err_code
      end
  end.

Definition mmu_load8 (p : Z) : MM Z :=
  pa ← resolve 2 (u32 p) 0; on_phys (load8 pa).
Definition mmu_store8 (p v : Z) : MM unit :=
  pa ← resolve 2 (u32 p) PAGING_ERR_CODE_WR; on_phys (store8 pa v).

Definition mmu_bytes : ByteMemory (machine H) := {| load8 := mmu_load8; store8 := mmu_store8 |}.

End Operations.

(** ** Pages and frames *)

Section Pages.

(** Addresses of one page. *)
Lemma in_page base off :
  0 <= off → base mod PAGE_SIZE + off < PAGE_SIZE →
  (base + off) / PAGE_SIZE = base / PAGE_SIZE ∧ (base + off) mod PAGE_SIZE = base mod PAGE_SIZE + off.
Proof. rewrite PAGE_SIZE_val. intros. Z.div_mod_to_equations. lia. Qed.

Lemma page_u32 base off :
  is_u32 base → 0 <= off → base mod PAGE_SIZE + off < PAGE_SIZE → is_u32 (base + off).
Proof. rewrite PAGE_SIZE_val. intros. ulia. Qed.

(** The frame [f] is one of physical memory. *)
Definition frame_ok (f : Z) : Prop := 0 <= f ∧ f + PAGE_SIZE <= 2 ^ 32.

Lemma frame_u32 f base off :
  frame_ok f → 0 <= off → base mod PAGE_SIZE + off < PAGE_SIZE → is_u32 (f + (base mod PAGE_SIZE + off)).
Proof. unfold frame_ok. rewrite PAGE_SIZE_val. intros. ulia. Qed.

Lemma le_at_4 l (o : nat) :
  (o + 4 <= length l)%nat → ∃ b0 b1 b2 b3, l !! o = Some b0 ∧ l !! (o + 1)%nat = Some b1 ∧
    l !! (o + 2)%nat = Some b2 ∧ l !! (o + 3)%nat = Some b3 ∧
    le_at l o 4 = b0 + 2 ^ 8 * b1 + 2 ^ 16 * (b2 + 2 ^ 8 * b3).
Proof.
  intros Hl. unfold le_at. pose proof (length_drop l o) as Hd. pose proof (λ i, lookup_drop l o i) as Hk.
  destruct (drop o l) as [|b0 [|b1 [|b2 [|b3 r]]]]; simpl in Hd; try lia.
  exists b0, b1, b2, b3. rewrite <- !Hk, <- (Nat.add_0_r o), <- Hk. simpl. split_and!; [done..|]. lia.
Qed.

End Pages.

Section Access.
Context {H : Type} `{Allocator H} (mi : kernel_meminfo) (fault_state : interrupt_state).
Context (Hhh : higher_half_base mi mod 4096 = 0) (Hhr : is_u32 (higher_half_base mi)).
Context (t : task_control_block).
(** Pages, by number, that have no entry in the tables as long as they are not mapped. *)
Context (E : Z → Prop).
Implicit Types (k : kernel H) (μ : machine H) (w : words).
#[local] Instance access_bytes : ByteMemory (machine H) := mmu_bytes mi fault_state.

(** The page of [x] is in the frame [f], or not present in its table. *)
Definition page_state w (x f : Z) : Prop :=
  region_ok mi (task_paging_ctx t) w x ∧
  (present (word w (pte_addr (task_paging_ctx t) x)) = true →
     frame (word w (pte_addr (task_paging_ctx t) x)) = f).

Definition page_free w (x : Z) : Prop :=
  region_ok mi (task_paging_ctx t) w x ∧ present (word w (pte_addr (task_paging_ctx t) x)) = false.

(** [F] gives pages, by number, the frames they are in or will be in. *)
Definition view_ok w (F : Z → option Z) : Prop :=
  (∀ x f, is_u32 x → F (x / PAGE_SIZE) = Some f → page_state w x f) ∧
  ∀ x, is_u32 x → E (x / PAGE_SIZE) → F (x / PAGE_SIZE) = None → page_free w x.

(** The page [n] is in an allocation with the frame [f], so that a fault can be served. *)
Definition page_backed (A : list vmm_allocation) (n f : Z) : Prop :=
  ∃ a, a ∈ A ∧ contains a (n * PAGE_SIZE) ∧ physical_addr a = f ∧ f ≠ 0 ∧ f mod PAGE_SIZE = 0.

Definition page_present w (n : Z) : Prop :=
  ∀ x, is_u32 x → x / PAGE_SIZE = n → present (word w (pde_addr (task_paging_ctx t) x)) = true ∧
    present (word w (pte_addr (task_paging_ctx t) x)) = true.

(** The pages of [F] can be touched: they are present, or in allocations with a frame. *)
Definition view_backed w (A : list vmm_allocation) (F : Z → option Z) : Prop :=
  ∀ n f, F n = Some f → page_present w n ∨ page_backed A n f.

(** The task [t] runs on its own directory. *)
Record on_cpu k (A : list vmm_allocation) (F : Z → option Z) : Prop := {
  oc_fault : faultable k t A;
  oc_cr3 : cpu_cr3 (ss_cpu (k_sched k)) = virtual_addr_space t;
  oc_apart : dir_apart mi (task_paging_ctx t) (virtual_addr_space t);
  oc_view : view_ok (k_words k) F;
  oc_backed : view_backed (k_words k) A F
}.

(** Only the directory and the tables of the task have changed in memory. *)
Definition words_kept k k' : Prop :=
  ∀ a, ¬ table_addr (task_paging_ctx t) a → word (k_words k') a = word (k_words k) a.

Lemma words_kept_trans k1 k2 k3 : words_kept k1 k2 → words_kept k2 k3 → words_kept k1 k3.
Proof. intros H1 H2 a Ha. by rewrite H2, H1. Qed.

(** What touching memory leaves alone. *)
Definition calm k k' : Prop :=
  k_sched k' = k_sched k ∧ vmm_of k' = vmm_of k ∧ k_bitmap k' = k_bitmap k ∧ words_kept k k' ∧
  k_last_pid k' = k_last_pid k ∧ (words_ok (k_words k) → words_ok (k_words k')).

Lemma calm_refl k : calm k k.
Proof. done. Qed.
Lemma calm_trans k1 k2 k3 : calm k1 k2 → calm k2 k3 → calm k1 k3.
Proof.
  intros (S1 & V1 & B1 & W1 & L1 & O1) (S2 & V2 & B2 & W2 & L2 & O2).
  split_and!; [congruence..|by eapply words_kept_trans|congruence|auto].
Qed.

(** Touching memory, and allocating frames, leave the task running; so does a change of
    the address spaces in which its allocations become [A']. *)
Lemma on_cpu_same k k' A F :
  on_cpu k A F → k_sched k' = k_sched k → vmm_of k' = vmm_of k → k_words k' = k_words k → on_cpu k' A F.
Proof.
  intros [Hft Hc Hap Hv Hb] Hs Hvm Hw.
  split; [by eapply faultable_kept|by rewrite Hs|done|by rewrite Hw..].
Qed.

Lemma on_cpu_changed k k' A F ctx bl A' F' :
  on_cpu k A F → running k' = Some t → ss_cpu (k_sched k') = ss_cpu (k_sched k) →
  allocations (task_vmm_context t) = allocations ctx → ctx_rep (vmm_of k') ctx bl A' →
  (∀ a, a ∈ A' → a ∈ A ∨ flags_ok (flags a) ∧ is_u32 (physical_addr a)) →
  view_ok (k_words k') F' → view_backed (k_words k') A' F' → on_cpu k' A' F'.
Proof.
  intros [[_ Hpg _ Hall] Hc Hap _ _] Hrun Hcpu Hroot Hrep Hnew Hv Hb. split; try done; [|by rewrite Hcpu]. split; try done.
  - by exists ctx, bl.
  - intros a [?|?]%Hnew; [by apply Hall|done].
Qed.

Lemma on_cpu_vmm k A F v ctx bl A' F' :
  on_cpu k A F → allocations (task_vmm_context t) = allocations ctx → ctx_rep v ctx bl A' →
  (∀ a, a ∈ A' → a ∈ A ∨ flags_ok (flags a) ∧ is_u32 (physical_addr a)) →
  view_ok (k_words k) F' → view_backed (k_words k) A' F' → on_cpu (set_vmm v k) A' F'.
Proof.
  intros Hcpu Hroot Hrep Hnew Hv Hb. eapply on_cpu_changed; [exact Hcpu|apply Hcpu|done|done| |done..].
  by destruct v.
Qed.

(** The view with one more page. *)
Definition add_page (n f : Z) (F : Z → option Z) : Z → option Z := λ m, if decide (m = n) then Some f else F m.

Lemma view_ok_add w n f F :
  view_ok w F → E n → F n = None → view_ok w (add_page n f F).
Proof.
  intros [Hv Hno] HE HF. unfold add_page. split.
  - intros y g Hy. case_decide as Ey; [|by apply Hv]. intros [= <-]. subst n.
    destruct (Hno y Hy HE HF) as [Hok Hp]. split; [done|]. by rewrite Hp.
  - intros y Hy HEy. case_decide; [done|]. by apply Hno.
Qed.

Lemma view_backed_add w A F n a f :
  view_backed w A F → contains a (n * PAGE_SIZE) → physical_addr a = f → f ≠ 0 → f mod PAGE_SIZE = 0 →
  view_backed w (a :: A) (add_page n f F).
Proof.
  intros Hb Hc Hpa Hnz Hal m g. unfold add_page. case_decide as Em.
  - intros [= <-]. subst m. right. exists a. split_and!; [by left|done..].
  - intros [?|(b & Hin & ?)]%Hb; [by left|right]. exists b. split; [by right|done].
Qed.

Lemma page_state_translate w x f cr3 :
  paging_ok (task_paging_ctx t) → dir_apart mi (task_paging_ctx t) cr3 → is_u32 x → page_state w x f →
  dir_translate mi (task_paging_ctx t) w cr3 x = None ∨
  snd <$> dir_translate mi (task_paging_ctx t) w cr3 x = Some (f + x mod PAGE_SIZE).
Proof.
  intros Hpg Hap Hx [Hok Hf]. rewrite dir_translate_entries by done. unfold entries_translation.
  destruct (present (word w (pde_addr _ x))); [|by left]. simpl.
  destruct (present (word w (pte_addr _ x))); [right|by left]. simpl. by rewrite Hf.
Qed.

(** The view when only the entries of other pages, those of [S], have changed. *)
Lemma view_kept S w w' F :
  view_ok w F → entries_kept mi (task_paging_ctx t) S w w' → (∀ n, S n → F n = None ∧ ¬ E n) → view_ok w' F.
Proof.
  intros [Hv Hno] Hk HS. split.
  - intros x f Hx HF. destruct (Hk x Hx) as (Hok & Ew & _); [intros ?%HS; naive_solver congruence|].
    destruct (Hv x f Hx HF). split; [by apply Hok|by rewrite Ew].
  - intros x Hx HE HF. destruct (Hk x Hx) as (Hok & Ew & _); [by intros ?%HS; naive_solver|].
    destruct (Hno x Hx HE HF). split; [by apply Hok|by rewrite Ew].
Qed.

Lemma backed_kept S w w' A F :
  view_backed w A F → entries_kept mi (task_paging_ctx t) S w w' → (∀ n, S n → F n = None) → view_backed w' A F.
Proof.
  intros Hb Hk HS n f HF. destruct (Hb n f HF) as [Hp|?]; [left|by right]. intros x Hx Hn.
  destruct (Hp x Hx Hn) as [Hd Ht]. destruct (Hk x Hx) as (_ & Ew & Hd'); [subst n; intros ?%HS; congruence|].
  split; [by apply Hd'|by rewrite Ew].
Qed.

(** The words when paging_unmap_addr has unmapped the page of [va]. *)
Definition unmapped w va : words :=
  set_word (pte_addr (task_paging_ctx t) va) 0
    (set_word (pde_addr (task_paging_ctx t) va) (table_phys mi (task_paging_ctx t) va) w).

Lemma unmapped_entries w va x :
  paging_ok (task_paging_ctx t) → is_u32 va → is_u32 x →
  (region_ok mi (task_paging_ctx t) w x → region_ok mi (task_paging_ctx t) (unmapped w va) x) ∧
  word (unmapped w va) (pte_addr (task_paging_ctx t) x) =
    (if decide (x / PAGE_SIZE = va / PAGE_SIZE) then 0 else word w (pte_addr (task_paging_ctx t) x)) ∧
  (PAGE_DIRECTORY_INDEX x ≠ PAGE_DIRECTORY_INDEX va →
     word (unmapped w va) (pde_addr (task_paging_ctx t) x) = word w (pde_addr (task_paging_ctx t) x)).
Proof.
  intros Hpg Hva Hx. unfold unmapped, region_ok. rewrite !word_set.
  assert (Hap : ∀ y z, is_u32 y → is_u32 z → pde_addr (task_paging_ctx t) y ≠ pte_addr (task_paging_ctx t) z)
    by (intros y z ? ?; by apply (pde_pte_apart mi)).
  rewrite (decide_False (P := pte_addr _ va = pde_addr _ x)) by (intros E'; by apply (Hap x va)).
  rewrite (decide_False (P := pde_addr _ va = pte_addr _ x)) by by apply Hap.
  destruct (table_phys_ok mi _ Hpg Hhh Hhr va Hva) as [Ht1 Ht2]. split_and!.
  - case_decide as Ed; [|done]. intros _. rewrite (u32_small (table_phys _ _ _)) by done.
    replace (present (table_phys mi (task_paging_ctx t) va)) with false; [done|].
    unfold present. rewrite <- (Z.add_0_r (table_phys _ _ _)).
    by rewrite (entry_bit _ 0 Ht1 Ht2 ltac:(lia)) by lia.
  - case_decide as E1; rewrite (pte_addr_inj mi) in E1 by done; case_decide as E2; done || congruence.
  - intros Hne. rewrite decide_False; [done|]. intros E1%pde_addr_inj. congruence.
Qed.

(** Unmapping a page brings the view back in which it is free. *)
Lemma view_ok_drop w va f F :
  paging_ok (task_paging_ctx t) → is_u32 va → F (va / PAGE_SIZE) = None →
  view_ok w (add_page (va / PAGE_SIZE) f F) → view_ok (unmapped w va) F.
Proof.
  intros Hpg Hva HF [Hv Hno]. unfold add_page in *. split.
  - intros x g Hx HFx. destruct (unmapped_entries w va x Hpg Hva Hx) as (Hr & Hw & _).
    assert (Hne : x / PAGE_SIZE ≠ va / PAGE_SIZE) by congruence. rewrite decide_False in Hw by done.
    destruct (Hv x g Hx) as [Hok Hf]; [by rewrite decide_False|]. split; [by apply Hr|by rewrite Hw].
  - intros x Hx HE HFx. destruct (unmapped_entries w va x Hpg Hva Hx) as (Hr & Hw & _).
    case_decide as Ex.
    + destruct (Hv x f Hx) as [Hok _]; [by rewrite decide_True|]. split; [by apply Hr|]. by rewrite Hw.
    + destruct (Hno x Hx HE) as [Hok Hp]; [by rewrite decide_False|]. split; [by apply Hr|by rewrite Hw].
Qed.

(** The other pages of the region are no longer present, and need an allocation. *)
Lemma view_backed_drop w va f F a b A :
  paging_ok (task_paging_ctx t) → is_u32 va → F (va / PAGE_SIZE) = None →
  (∀ m, contains a (m * PAGE_SIZE) → m = va / PAGE_SIZE) →
  (∀ m g, F m = Some g → PAGE_DIRECTORY_INDEX (m * PAGE_SIZE) = PAGE_DIRECTORY_INDEX va → page_backed A m g) →
  view_backed w (a :: A) (add_page (va / PAGE_SIZE) f F) → view_backed (unmapped w va) (b :: A) F.
Proof.
  intros Hpg Hva HF Ha Hreg Hb m g HFm. assert (Hne : m ≠ va / PAGE_SIZE) by congruence.
  assert (Hmore : page_backed A m g → page_backed (b :: A) m g) by (intros (c & ? & ?); exists c; split; [by right|done]).
  destruct (decide (PAGE_DIRECTORY_INDEX (m * PAGE_SIZE) = PAGE_DIRECTORY_INDEX va)) as [Ed|Ed]; [right; by apply Hmore, Hreg|].
  destruct (Hb m g) as [Hp|(c & [->|Hc]%elem_of_cons & Hcm & Hrest)]; [unfold add_page; by rewrite decide_False| | |].
  - left. intros x Hx Exm. destruct (unmapped_entries w va x Hpg Hva Hx) as (_ & Hw & Hd). destruct (Hp x Hx Exm) as [Hpd Hpt].
    rewrite decide_False in Hw by congruence. rewrite Hw, Hd; [done|].
    intros Edx. apply Ed. rewrite <- Edx, <- Exm, !PAGE_DIRECTORY_INDEX_div, PAGE_SIZE_val. Z.div_mod_to_equations. lia.
  - by apply Ha in Hcm.
  - right. apply Hmore. by exists c.
Qed.

(** A fault at [x] changes the entries of its page only, which become present. *)
Lemma fault_entries k k' a x :
  fault_served mi k t a x k' → paging_ok (task_paging_ctx t) → is_u32 x →
  entries_kept mi (task_paging_ctx t) (λ n, n = x / PAGE_SIZE) (k_words k) (k_words k') ∧
  page_present (k_words k') (x / PAGE_SIZE).
Proof.
  intros (f & _ & Hm & _ & Hw & _) Hpg Hx.
  assert (Hin : page_present (k_words k') (x / PAGE_SIZE)).
  { intros y Hy Ey. destruct (Hm y Hy Ey) as [_ Et]. unfold entries_translation in Et.
    destruct (present (word _ (pde_addr _ y))), (present (word _ (pte_addr _ y))); done. }
  split; [|done]. apply entries_kept_page; [done..|by apply Hm|by apply Hin|done].
Qed.

Lemma fault_view k k' a x F f :
  fault_served mi k t a x k' → paging_ok (task_paging_ctx t) → is_u32 x → F (x / PAGE_SIZE) = Some f →
  physical_addr a = f → f ≠ 0 → f mod PAGE_SIZE = 0 → view_ok (k_words k) F → view_ok (k_words k') F.
Proof.
  intros Hs Hpg Hx HF Ha Hnz Hal [Hview Hno]. destruct (fault_entries k k' a x Hs Hpg Hx) as [Hent _].
  destruct Hs as (f' & Hf & Hm & _).
  assert (f' = f) as ->.
  { unfold fault_frame in Hf. rewrite Ha, (proj2 (Z.eqb_neq f 0)) in Hf by done. subst f'.
    rewrite PAGE_SIZE_val in *. Z.div_mod_to_equations. lia. }
  split.
  - intros y g Hy Hg. destruct (decide (y / PAGE_SIZE = x / PAGE_SIZE)) as [Exy|Exy].
    + rewrite Exy, HF in Hg. injection Hg as ->. destruct (Hm y Hy Exy) as [Hok Et]. split; [done|].
      unfold entries_translation in Et. intros Hp. rewrite Hp, andb_true_r in Et.
      destruct (present (word _ (pde_addr _ y))); [|done]. injection Et as _ Et. lia.
    + destruct (Hview y g Hy Hg), (Hent y Hy Exy) as (Hok & Ew & _). split; [by apply Hok|by rewrite Ew].
  - intros y Hy HE HFy. destruct (Hent y Hy) as (Hok & Ew & _); [congruence|].
    destruct (Hno y Hy HE HFy). split; [by apply Hok|by rewrite Ew].
Qed.

Lemma fault_backed k k' a x A F :
  fault_served mi k t a x k' → paging_ok (task_paging_ctx t) → is_u32 x →
  view_backed (k_words k) A F → view_backed (k_words k') A F.
Proof.
  intros Hs Hpg Hx Hb n f HF. destruct (fault_entries k k' a x Hs Hpg Hx) as [Hent Hin].
  destruct (Hb n f HF) as [Hp|?]; [left|by right]. destruct (decide (n = x / PAGE_SIZE)) as [->|Hne]; [done|].
  intros y Hy Hn. destruct (Hp y Hy Hn) as [Hd Ht]. destruct (Hent y Hy) as (_ & Ew & Hd'); [congruence|].
  split; [by apply Hd'|by rewrite Ew].
Qed.

Lemma fault_words k k' a x :
  fault_served mi k t a x k' → is_u32 x → words_kept k k'.
Proof.
  intros (_ & _ & _ & _ & Hw & _) Hx b Hb. destruct (entries_table mi (task_paging_ctx t) Hhr x Hx) as [Hd Ht].
  apply Hw; by intros ->.
Qed.

Lemma resolve_ok x err A F f μ :
  on_cpu (mc_kernel μ) A F → is_u32 x → F (x / PAGE_SIZE) = Some f → Z.land err PAGING_ERR_CODE_P = 0 →
  wp (resolve mi fault_state 2 x err)
     (λ pa μ', pa = f + x mod PAGE_SIZE ∧ mc_phys μ' = mc_phys μ ∧
        calm (mc_kernel μ) (mc_kernel μ') ∧ on_cpu (mc_kernel μ') A F) μ.
Proof.
  intros Hcpu Hx HF Herr. pose proof Hcpu as [Hft Hcr3 Hap Hview Hback]. pose proof Hft as [Hrun Hpg _ Hall].
  assert (Htr : ∀ μ1, on_cpu (mc_kernel μ1) A F → ∀ Q, Q (snd <$> dir_translate mi (task_paging_ctx t)
      (k_words (mc_kernel μ1)) (virtual_addr_space t) x) μ1 → wp (on_kernel (mmu_translate mi x)) Q μ1).
  { intros μ1 [Hft1 Hc1 _ _ _] Q HQ. apply wp_zoom, wp_bind. eapply wp_current_task; [apply Hft1|].
    apply wp_bind, wp_get, wp_ret. rewrite Hc1. by destruct μ1. }
  cbn [resolve]. apply wp_bind, Htr; [done|].
  destruct (page_state_translate (k_words (mc_kernel μ)) x f (virtual_addr_space t) Hpg Hap Hx (proj1 Hview x f Hx HF)) as [Et|Et];
    rewrite Et; [|by apply wp_ret].
  destruct (Hback _ _ HF) as [Hpres|(a & Ha & Hc & Hpa & Hnz & Hal)].
  { exfalso. destruct (Hpres x Hx eq_refl) as [Hd Hp]. rewrite dir_translate_entries in Et by (done || by apply (proj1 Hview x f)).
    unfold entries_translation in Et. by rewrite Hd, Hp in Et. }
  apply wp_bind, wp_zoom.
  eapply wp_mono; [apply (page_fault_served mi Hhh Hhr fault_state x err t A a); try done; congruence|]. cbn beta.
  intros _ k' Hs. pose proof Hs as (f' & Hf & Hm & _ & _ & Hsc & Hv & Hb & Hlp & Hwok).
  assert (f' = f) as ->.
  { unfold fault_frame in Hf. rewrite Hpa, (proj2 (Z.eqb_neq f 0)) in Hf by done. subst f'.
    rewrite PAGE_SIZE_val in *. Z.div_mod_to_equations. lia. }
  assert (Hcpu' : on_cpu k' A F).
  { split; [by eapply faultable_kept|by rewrite Hsc|done|by eapply fault_view|by eapply fault_backed]. }
  apply wp_bind, Htr; [done|]. cbn [mc_kernel mc_phys]. destruct (Hm x Hx eq_refl) as [Hok Et'].
  rewrite dir_translate_entries, Et' by done. cbn. apply wp_ret. split_and!; [done|done| |done].
  split_and!; [done|done|apply Hb; congruence|by eapply fault_words|done|done].
Qed.

Lemma wp_mmu_load8 p b A F f Q μ :
  on_cpu (mc_kernel μ) A F → is_u32 p → F (p / PAGE_SIZE) = Some f → is_u32 (f + p mod PAGE_SIZE) →
  mc_phys μ !! (f + p mod PAGE_SIZE) = Some b →
  (∀ μ', mc_phys μ' = mc_phys μ → calm (mc_kernel μ) (mc_kernel μ') → on_cpu (mc_kernel μ') A F → Q b μ') →
  wp (load8 p) Q μ.
Proof.
  intros Hcpu Hp HF Hpa Hb HQ. change (wp (mmu_load8 mi fault_state p) Q μ). unfold mmu_load8.
  rewrite u32_small by done. apply wp_bind. eapply wp_mono; [by apply (resolve_ok p 0 A F f)|]. cbn beta.
  intros pa μ' (-> & Eph & Hcalm & Hcpu'). apply wp_zoom. rewrite Eph. eapply wp_load8; [done|done|].
  rewrite <- Eph. destruct μ'. by apply HQ.
Qed.

Lemma wp_mmu_store8 p b v A F f Q μ :
  on_cpu (mc_kernel μ) A F → is_u32 p → F (p / PAGE_SIZE) = Some f → is_u32 (f + p mod PAGE_SIZE) →
  mc_phys μ !! (f + p mod PAGE_SIZE) = Some b →
  (∀ μ', mc_phys μ' = <[f + p mod PAGE_SIZE := u8 v]> (mc_phys μ) →
     calm (mc_kernel μ) (mc_kernel μ') → on_cpu (mc_kernel μ') A F → Q tt μ') →
  wp (store8 p v) Q μ.
Proof.
  intros Hcpu Hp HF Hpa Hb HQ. change (wp (mmu_store8 mi fault_state p v) Q μ). unfold mmu_store8.
  rewrite u32_small by done. apply wp_bind. eapply wp_mono; [by apply (resolve_ok p PAGING_ERR_CODE_WR A F f)|]. cbn beta.
  intros pa μ' (-> & Eph & Hcalm & Hcpu'). apply wp_zoom. rewrite Eph. eapply wp_store8; [done|done|].
  by apply HQ.
Qed.

(** A byte at offset [off] in the page of [base]. *)
Lemma load_in_page base off b A F f Q μ :
  on_cpu (mc_kernel μ) A F → is_u32 base → F (base / PAGE_SIZE) = Some f → frame_ok f →
  0 <= off → base mod PAGE_SIZE + off < PAGE_SIZE → mc_phys μ !! (f + base mod PAGE_SIZE + off) = Some b →
  (∀ μ', mc_phys μ' = mc_phys μ → calm (mc_kernel μ) (mc_kernel μ') → on_cpu (mc_kernel μ') A F → Q b μ') →
  wp (load8 (base + off)) Q μ.
Proof.
  intros Hcpu Hb HF Hf Hge Hoff Hm HQ. destruct (in_page base off Hge Hoff) as [E1 E2].
  eapply (wp_mmu_load8 _ b A F f); rewrite ?E1, ?E2, ?Z.add_assoc; try done; [by apply page_u32|].
  rewrite <- Z.add_assoc. by apply frame_u32.
Qed.

Lemma store_in_page base off b v A F f Q μ :
  on_cpu (mc_kernel μ) A F → is_u32 base → F (base / PAGE_SIZE) = Some f → frame_ok f →
  0 <= off → base mod PAGE_SIZE + off < PAGE_SIZE → mc_phys μ !! (f + base mod PAGE_SIZE + off) = Some b →
  (∀ μ', mc_phys μ' = <[f + base mod PAGE_SIZE + off := u8 v]> (mc_phys μ) →
     calm (mc_kernel μ) (mc_kernel μ') → on_cpu (mc_kernel μ') A F → Q tt μ') →
  wp (store8 (base + off) v) Q μ.
Proof.
  intros Hcpu Hb HF Hf Hge Hoff Hm HQ. destruct (in_page base off Hge Hoff) as [E1 E2].
  eapply (wp_mmu_store8 _ b v A F f); rewrite ?E1, ?E2, ?Z.add_assoc; try done; [by apply page_u32|].
  rewrite <- Z.add_assoc. by apply frame_u32.
Qed.

(** A 32-bit field of an object in one page. *)
Lemma load32_in_page base (o : nat) l A F f Q μ :
  on_cpu (mc_kernel μ) A F → is_u32 base → F (base / PAGE_SIZE) = Some f → frame_ok f →
  bytes_at (mc_phys μ) (f + base mod PAGE_SIZE) l → base mod PAGE_SIZE + Z.of_nat (length l) <= PAGE_SIZE →
  (o + 4 <= length l)%nat →
  (∀ μ', mc_phys μ' = mc_phys μ → calm (mc_kernel μ) (mc_kernel μ') → on_cpu (mc_kernel μ') A F →
     Q (le_at l o 4) μ') →
  wp (load32 (base + Z.of_nat o)) Q μ.
Proof.
  intros Hcpu Hb HF Hf Hl Hlen Ho HQ. destruct (le_at_4 l o Ho) as (b0 & b1 & b2 & b3 & E0 & E1 & E2 & E3 & ->) in HQ |- *.
  assert (Hld : ∀ (i : nat) x b (Q : Z → machine H → Prop) μ1, x = base + Z.of_nat (o + i) → (i < 4)%nat →
    l !! (o + i)%nat = Some b → mc_phys μ1 = mc_phys μ → calm (mc_kernel μ) (mc_kernel μ1) → on_cpu (mc_kernel μ1) A F →
    (∀ μ', mc_phys μ' = mc_phys μ → calm (mc_kernel μ) (mc_kernel μ') → on_cpu (mc_kernel μ') A F → Q b μ') →
    wp (load8 x) Q μ1).
  { intros i x b Q' μ1 -> Hi Hib Ep Hc Hcpu1 HQ'.
    apply (load_in_page base (Z.of_nat (o + i)) b A F f); try done; [lia|lia| |].
    - rewrite Ep. by apply Hl.
    - intros μ' Ep' Hc' Hcpu'. apply HQ'; [congruence|by eapply calm_trans|done]. }
  unfold load32, load16. rewrite <- (Nat.add_0_r o) in E0.
  apply wp_bind, wp_bind. apply (Hld 0%nat _ b0); [lia|lia|done|done|apply calm_refl|done|]. intros μ1 P1 C1 K1.
  apply wp_bind. apply (Hld 1%nat _ b1); [lia|lia|done|done|done|done|]. intros μ2 P2 C2 K2. apply wp_ret.
  apply wp_bind, wp_bind. apply (Hld 2%nat _ b2); [lia|lia|done|done|done|done|]. intros μ3 P3 C3 K3.
  apply wp_bind. apply (Hld 3%nat _ b3); [lia|lia|done|done|done|done|]. intros μ4 P4 C4 K4. apply wp_ret, wp_ret.
  by apply HQ.
Qed.

(** memcpy from one page to another in a different frame. *)
Lemma memcpy_in_page to from i l old A F ft fs μ :
  on_cpu (mc_kernel μ) A F → is_u32 to → is_u32 from →
  F (to / PAGE_SIZE) = Some ft → F (from / PAGE_SIZE) = Some fs → frame_ok ft → frame_ok fs →
  ft + PAGE_SIZE <= fs ∨ fs + PAGE_SIZE <= ft → 0 <= i →
  to mod PAGE_SIZE + i + Z.of_nat (length l) <= PAGE_SIZE →
  from mod PAGE_SIZE + i + Z.of_nat (length l) <= PAGE_SIZE →
  bytes_at (mc_phys μ) (fs + from mod PAGE_SIZE + i) l →
  bytes_at (mc_phys μ) (ft + to mod PAGE_SIZE + i) old → length old = length l →
  wp (memcpy_loop (length l) to from i)
     (λ _ μ', bytes_at (mc_phys μ') (ft + to mod PAGE_SIZE + i) l ∧
        same_outside (mc_phys μ) (mc_phys μ') (ft + to mod PAGE_SIZE + i)
          (ft + to mod PAGE_SIZE + i + Z.of_nat (length l)) ∧
        calm (mc_kernel μ) (mc_kernel μ') ∧ on_cpu (mc_kernel μ') A F) μ.
Proof.
  intros Hcpu Hto Hfrom HFt HFs Hft Hfs Hap. revert i old μ Hcpu.
  induction l as [|b l IH]; intros i [|o old] μ Hcpu Hi Ht Hs Hl Ho Hlen; simplify_eq/=.
  { apply wp_ret. split_and!; [apply bytes_at_nil|done|apply calm_refl|done]. }
  apply bytes_at_cons in Hl as (Hb & Hu & Hl), Ho as (Hm & _ & Ho). rewrite !Zplus_assoc_reverse in Hl, Ho.
  pose proof (Z.mod_pos_bound to PAGE_SIZE ltac:(done)). pose proof (Z.mod_pos_bound from PAGE_SIZE ltac:(done)).
  apply wp_bind. apply (load_in_page from i b A F fs); try done; [lia|]. intros μ1 P1 C1 K1.
  apply wp_bind. apply (store_in_page to i o b A F ft); try done; [lia|by rewrite P1|]. intros μ2 P2 C2 K2.
  rewrite P1, u8_small in P2 by done.
  assert (Hso : same_outside (mc_phys μ) (mc_phys μ2) (ft + to mod PAGE_SIZE + i) (ft + to mod PAGE_SIZE + i + 1))
    by (rewrite P2; apply same_outside_insert; lia).
  eapply wp_mono.
  { apply (IH (i + 1) old μ2); try done; [lia|lia|lia| |].
    - rewrite Zplus_assoc_reverse. eapply bytes_at_frame; [exact Hl|exact Hso|]. lia.
    - rewrite Zplus_assoc_reverse. eapply bytes_at_frame; [exact Ho|exact Hso|]. lia. }
  cbn beta. intros _ μ3 (Hb3 & Hso3 & C3 & K3). split_and!.
  - apply bytes_at_cons. split_and!; [|done|by rewrite Zplus_assoc_reverse]. rewrite Hso3 by lia. rewrite P2. apply lookup_insert_eq.
  - eapply same_outside_join; [exact Hso|exact Hso3|lia..].
  - eapply calm_trans; [exact C1|]. by eapply calm_trans.
  - done.
Qed.

Lemma memset_in_page buf i old A F f μ :
  on_cpu (mc_kernel μ) A F → is_u32 buf → F (buf / PAGE_SIZE) = Some f → frame_ok f → 0 <= i →
  buf mod PAGE_SIZE + i + Z.of_nat (length old) <= PAGE_SIZE →
  bytes_at (mc_phys μ) (f + buf mod PAGE_SIZE + i) old →
  wp (memset_loop (length old) buf 0 i)
     (λ _ μ', bytes_at (mc_phys μ') (f + buf mod PAGE_SIZE + i) (replicate (length old) 0) ∧
        same_outside (mc_phys μ) (mc_phys μ') (f + buf mod PAGE_SIZE + i)
          (f + buf mod PAGE_SIZE + i + Z.of_nat (length old)) ∧
        calm (mc_kernel μ) (mc_kernel μ') ∧ on_cpu (mc_kernel μ') A F) μ.
Proof.
  intros Hcpu Hbuf HF Hf. revert i μ Hcpu.
  induction old as [|o old IH]; intros i μ Hcpu Hi Ht Ho; simpl in *.
  { apply wp_ret. split_and!; [apply bytes_at_nil|done|apply calm_refl|done]. }
  apply bytes_at_cons in Ho as (Hm & _ & Ho). rewrite !Zplus_assoc_reverse in Ho.
  pose proof (Z.mod_pos_bound buf PAGE_SIZE ltac:(done)).
  apply wp_bind. apply (store_in_page buf i o (u8 0) A F f); try done; [lia|]. intros μ2 P2 C2 K2.
  change (u8 (u8 0)) with 0 in P2.
  assert (Hso : same_outside (mc_phys μ) (mc_phys μ2) (f + buf mod PAGE_SIZE + i) (f + buf mod PAGE_SIZE + i + 1))
    by (rewrite P2; apply same_outside_insert; lia).
  eapply wp_mono.
  { apply (IH (i + 1) μ2); try done; [lia|lia|]. rewrite Zplus_assoc_reverse.
    eapply bytes_at_frame; [exact Ho|exact Hso|]. lia. }
  cbn beta. intros _ μ3 (Hb3 & Hso3 & C3 & K3). split_and!.
  - apply bytes_at_cons. split_and!; [|done|by rewrite Zplus_assoc_reverse]. rewrite Hso3 by lia. rewrite P2. apply lookup_insert_eq.
  - eapply same_outside_join; [exact Hso|exact Hso3|lia..].
  - by eapply calm_trans.
  - done.
Qed.

(** A page that is in no allocation and has no entry cannot be touched. *)
Definition no_page_at k (A : list vmm_allocation) (x : Z) : Prop :=
  is_u32 x ∧ page_free (k_words k) x ∧ ∀ a, a ∈ A → ¬ contains a (paging_align_addr x).

Lemma resolve_panics x err A F μ :
  on_cpu (mc_kernel μ) A F → no_page_at (mc_kernel μ) A x → Z.land err PAGING_ERR_CODE_P = 0 →
  resolve mi fault_state 2 x err μ = Err (EPanic "invalid VMM state").
Proof.
  intros [Hft Hcr3 Hap _ _] (Hx & [Hok Hp] & Hno) Herr. cbn [resolve].
  apply (wp_fails _ _ (λ r μ', r = None ∧ μ' = μ)).
  - apply wp_zoom, wp_bind. eapply wp_current_task; [apply Hft|]. apply wp_bind, wp_get, wp_ret.
    split; [|by destruct μ]. rewrite Hcr3, dir_translate_entries by (done || apply Hft).
    unfold entries_translation. by rewrite Hp, andb_false_r.
  - intros r μ' [-> ->]. apply bind_err. unfold on_kernel, zoom.
    by rewrite (page_fault_no_allocation mi fault_state x err t A).
Qed.

Lemma load_panics x A F μ :
  on_cpu (mc_kernel μ) A F → no_page_at (mc_kernel μ) A x → load8 x μ = Err (EPanic "invalid VMM state").
Proof.
  intros Hcpu Hno. apply bind_err. rewrite u32_small by apply Hno. by apply (resolve_panics x 0 A F).
Qed.

Lemma store_panics x v A F μ :
  on_cpu (mc_kernel μ) A F → no_page_at (mc_kernel μ) A x → store8 x v μ = Err (EPanic "invalid VMM state").
Proof.
  intros Hcpu Hno. apply bind_err. rewrite u32_small by apply Hno. by apply (resolve_panics x _ A F).
Qed.

End Access.
