(* ===== verification/Loader.v ===== *)
(** * The program loader: elf/loader.c

    elf_load copies the loadable segments of a program into fresh frames.  Each page is
    mapped in the kernel's address space first, so that memcpy can write to it (the
    page-table entry comes into being by a page fault in the middle of the copy), then
    in that of the new task, and is unmapped again from the kernel's.  The program
    header table and the segments are read from the file in memory at [raw_elf]. *)

From S2P Require Import Prelude Allocator Kmalloc PageArith Vmm VmmRules VmmRanges VmmFree VmmTree VmmSpace.
From S2P Require Import Spaces VmmProps VmmClone Mem CString Pmm Paging Printk PortIo Ps2 Sched Elf Kernel Syscall PageFault.
From S2P Require Import Task Mmu.

Definition ELF_PROG_HDR_TYPE_NULL : Z := 0.
Definition ELF_PROG_HDR_TYPE_LOAD : Z := 1.
Definition ELF_PROG_HDR_FLAG_W : Z := 2.

Definition elf_flags_to_paging_flags (flags : Z) : Z :=
  let pt_flags := 0 in
  if negb (Z.land flags ELF_PROG_HDR_FLAG_W =? 0) then Z.lor pt_flags PAGE_FLAG_WRITE else pt_flags.

Section Operations.
Context {H : Type} `{Allocator H} (KERNEL_MEMINFO : kernel_meminfo) (fault_state : interrupt_state).
Notation MM := (M (machine H)).
#[local] Instance loader_bytes : ByteMemory (machine H) := mmu_bytes KERNEL_MEMINFO fault_state.

(** The fields of the elf32_prog_hdr_t at [prog_hdr]. *)
Definition ph_type (prog_hdr : Z) : MM Z := load32 (prog_hdr + 0).
Definition ph_offset (prog_hdr : Z) : MM Z := load32 (prog_hdr + 4).
Definition ph_vaddr (prog_hdr : Z) : MM Z := load32 (prog_hdr + 8).
Definition ph_filesz (prog_hdr : Z) : MM Z := load32 (prog_hdr + 16).
Definition ph_memsz (prog_hdr : Z) : MM Z := load32 (prog_hdr + 20).
Definition ph_flags (prog_hdr : Z) : MM Z := load32 (prog_hdr + 24).

(** One iteration for the page [i]: the file size that is left and the two contexts. *)
Definition load_page (kern_paging_ctx : paging_context) (prog_hdr raw_elf i file_size : Z)
    (kern_vmm_ctx vmm_ctx : vmm_context) : MM (Z * vmm_context * vmm_context) :=
  vaddr ← ph_vaddr prog_hdr;
  let virtual_addr := u32 (vaddr + i * PAGE_SIZE) in
  let aligned_vaddr := paging_align_addr virtual_addr in
  physical_addr ← on_kernel (on_pmm pmm_alloc_page);
  hdr_flags ← ph_flags prog_hdr;
  let flags := Z.lor (Z.lor PAGE_FLAG_PRESENT PAGE_FLAG_USER) (elf_flags_to_paging_flags hdr_flags) in
  kr ← on_kernel (on_vmm (vmm_map_pages KERNEL_MEMINFO kern_vmm_ctx aligned_vaddr physical_addr 1 flags));
  offset ← ph_offset prog_hdr;
  _ ← memcpy virtual_addr (u32 (raw_elf + offset + i * PAGE_SIZE)) file_size;
  ur ← on_kernel (on_vmm (vmm_map_pages KERNEL_MEMINFO vmm_ctx aligned_vaddr physical_addr 1 flags));
  file_size' ← (if file_size <? PAGE_SIZE then
                  memsz ← ph_memsz prog_hdr;
                  filesz ← ph_filesz prog_hdr;
                  _ ← (if filesz <? memsz then
                         memsz ← ph_memsz prog_hdr;
                         filesz ← ph_filesz prog_hdr;
                         memset (u32 (virtual_addr + file_size)) 0 (u32 (memsz - filesz))
                       else mret 0);
                  mret file_size
                else mret (u32 (file_size - PAGE_SIZE)));
  kctx ← on_kernel (on_vmm (vmm_unmap_pages KERNEL_MEMINFO kr.2 aligned_vaddr 1));
  _ ← on_kernel (on_words (paging_unmap_addr KERNEL_MEMINFO kern_paging_ctx aligned_vaddr));
  mret (file_size', kctx, ur.2).

Fixpoint load_pages (n : nat) (kern_paging_ctx : paging_context) (prog_hdr raw_elf i file_size : Z)
    (kern_vmm_ctx vmm_ctx : vmm_context) : MM (vmm_context * vmm_context) :=
  match n with
  | O => mret (kern_vmm_ctx, vmm_ctx)
  | S n =>
      r ← load_page kern_paging_ctx prog_hdr raw_elf i file_size kern_vmm_ctx vmm_ctx;
      load_pages n kern_paging_ctx prog_hdr raw_elf (i + 1) r.1.1 r.1.2 r.2
  end.

(** The two contexts are passed by reference: the result is what the call leaves. *)
Definition handle_loadable_segment (kern_paging_ctx : paging_context) (kern_vmm_ctx vmm_ctx : vmm_context)
    (prog_hdr raw_elf : Z) : MM (vmm_context * vmm_context) :=
  filesz ← ph_filesz prog_hdr;
  memsz ← ph_memsz prog_hdr;
  size ← (if memsz <? filesz then ph_filesz prog_hdr else ph_memsz prog_hdr);
  file_size ← ph_filesz prog_hdr;
  let page_count := paging_page_count size in
  load_pages (Z.to_nat page_count) kern_paging_ctx prog_hdr raw_elf 0 file_size kern_vmm_ctx vmm_ctx.

(** The loop of elf_load over the [n] program headers from number [i] on. *)
Fixpoint load_segments (n : nat) (kern_paging_ctx : paging_context) (header : elf32_hdr) (raw_elf i : Z)
    (kern_vmm_ctx vmm_ctx : vmm_context) : MM (vmm_context * vmm_context) :=
  match n with
  | O => mret (kern_vmm_ctx, vmm_ctx)
  | S n =>
      let prog_header_offset := u32 (e_phoff header + i * e_phentsize header) in
      let prog_hdr := u32 (raw_elf + prog_header_offset) in
      type ← ph_type prog_hdr;
      if type =? ELF_PROG_HDR_TYPE_NULL then mret (kern_vmm_ctx, vmm_ctx)
      else if type =? ELF_PROG_HDR_TYPE_LOAD then
        r ← handle_loadable_segment kern_paging_ctx kern_vmm_ctx vmm_ctx prog_hdr raw_elf;
        load_segments n kern_paging_ctx header raw_elf (i + 1) r.1 r.2
      else panic "unsupported program header type %d"
  end.

Definition elf_load (kern_paging_ctx : paging_context) (kern_vmm_ctx vmm_ctx : vmm_context)
    (header : elf32_hdr) (raw_elf : Z) : MM (vmm_context * vmm_context) :=
  load_segments (Z.to_nat (e_phnum header)) kern_paging_ctx header raw_elf 0 kern_vmm_ctx vmm_ctx.

End Operations.

(** ** The file and its segments *)

Section File.

Lemma le_value_range l : Forall is_u8 l → 0 <= le_value l < 2 ^ (8 * Z.of_nat (length l)).
Proof.
  induction 1 as [|b l Hb _ IH]; [simpl; lia|]. cbn [le_value length].
  replace (8 * Z.of_nat (S (length l))) with (8 + 8 * Z.of_nat (length l)) by lia.
  rewrite Z.pow_add_r by lia. unfold is_u8 in Hb. nia.
Qed.

Lemma le_at_u32 l (o : nat) : Forall is_u8 l → (o + 4 <= length l)%nat → is_u32 (le_at l o 4).
Proof.
  intros Hl Ho. unfold le_at, is_u32.
  pose proof (le_value_range (take 4 (drop o l)) (Forall_take _ _ _ (Forall_drop _ _ _ Hl))) as Hr.
  rewrite length_take, length_drop, Nat.min_l in Hr by lia. exact Hr.
Qed.

Context (file : list Z) (o : nat).

(** The program header at offset [o] of the file. *)
Definition seg_offset : Z := le_at file (o + 4) 4.
Definition seg_vaddr : Z := le_at file (o + 8) 4.
Definition seg_filesz : Z := le_at file (o + 16) 4.
Definition seg_memsz : Z := le_at file (o + 20) 4.
Definition seg_flags : Z :=
  Z.lor (Z.lor PAGE_FLAG_PRESENT PAGE_FLAG_USER) (elf_flags_to_paging_flags (le_at file (o + 24) 4)).
Definition seg_page : Z := seg_vaddr / PAGE_SIZE * PAGE_SIZE.

(** What a segment is in memory: its part of the file, and zeros up to its size. *)
Definition seg_data : list Z := take (Z.to_nat seg_filesz) (drop (Z.to_nat seg_offset) file).
Definition seg_bytes : list Z := seg_data ++ replicate (Z.to_nat (seg_memsz - seg_filesz)) 0.

(** A segment that lies in one page, not the first nor the last of the address space, and
    whose data are in the file. *)
Record one_page : Prop := {
  op_size : 0 < Z.max seg_filesz seg_memsz;
  op_fits : seg_vaddr mod PAGE_SIZE + Z.max seg_filesz seg_memsz <= PAGE_SIZE;
  op_file : seg_offset + seg_filesz <= Z.of_nat (length file);
  op_low : PAGE_SIZE <= seg_vaddr;
  op_high : seg_page + PAGE_SIZE < 2 ^ 32
}.

Lemma seg_flags_ok : flags_ok seg_flags.
Proof.
  unfold seg_flags, elf_flags_to_paging_flags. destruct (negb _); split_and!; by vm_compute.
Qed.

End File.

Section Segment.
Context {H : Type} `{Allocator H} {FL : Limit} (mi : kernel_meminfo) (fault_state : interrupt_state).
Context (Hhh : higher_half_base mi mod 4096 = 0) (Hhr : is_u32 (higher_half_base mi)).
Context (t : task_control_block) (E : Z → Prop) (raw_elf epa : Z) (file : list Z).
Context (Hraw : is_u32 raw_elf) (Hral : raw_elf mod PAGE_SIZE = 0) (Hepa : frame_ok epa).
Context (Hlen : Z.of_nat (length file) <= PAGE_SIZE).
(** What else is in the heap: blocks [kept] of others, and the address spaces [O]. *)
Context (kept : gmap Z Z) (O : list space).
Implicit Types (k : kernel H) (μ : machine H) (F : Z → option Z).
#[local] Instance segment_bytes : ByteMemory (machine H) := mmu_bytes mi fault_state.

(** The file is at [raw_elf], in the frame [epa]. *)
Definition file_in μ F : Prop := F (raw_elf / PAGE_SIZE) = Some epa ∧ bytes_at (mc_phys μ) epa file.

Lemma wp_field (c : nat) x A F Q μ :
  x = raw_elf + Z.of_nat c → (c + 4 <= length file)%nat → on_cpu mi t E (mc_kernel μ) A F → file_in μ F →
  (∀ μ', mc_phys μ' = mc_phys μ → calm t (mc_kernel μ) (mc_kernel μ') → on_cpu mi t E (mc_kernel μ') A F →
     Q (le_at file c 4) μ') →
  wp (load32 x) Q μ.
Proof.
  intros -> Hc Hcpu [HF Hb] HQ. apply (load32_in_page mi fault_state Hhh Hhr t E raw_elf c file A F epa); try done.
  - by rewrite Hral, Z.add_0_r.
  - rewrite Hral. lia.
Qed.

(** Only the heap of the scheduler's state has changed. *)
Definition sched_kept k k' : Prop := k_sched k' = with_heap (ss_heap (k_sched k')) (k_sched k).

Lemma sched_kept_trans k1 k2 k3 : sched_kept k1 k2 → sched_kept k2 k3 → sched_kept k1 k3.
Proof. unfold sched_kept. intros -> ->. done. Qed.

Lemma sched_kept_same k k' : k_sched k' = k_sched k → sched_kept k k'.
Proof. unfold sched_kept. intros ->. by destruct (k_sched k). Qed.

(** The kernel's address space and the new task's, next to the others. *)
Definition two_spaces (v : vmm_store H) ctx1 bl1 A1 ctx2 bl2 A2 : Prop :=
  @spaces H (reserving kept) v (Space ctx1 bl1 A1 :: Space ctx2 bl2 A2 :: O).

Lemma two_spaces_sym v ctx1 bl1 A1 ctx2 bl2 A2 :
  two_spaces v ctx1 bl1 A1 ctx2 bl2 A2 → two_spaces v ctx2 bl2 A2 ctx1 bl1 A1.
Proof. intros Hsp. eapply (@spaces_perm H (reserving kept)); [|exact Hsp]. apply perm_swap. Qed.

Lemma two_spaces_left v ctx1 bl1 A1 ctx2 bl2 A2 : two_spaces v ctx1 bl1 A1 ctx2 bl2 A2 → ctx_rep v ctx1 bl1 A1.
Proof. intros Hsp%spaces_unreserved. exact (spaces_head _ _ _ _ _ Hsp). Qed.

Lemma two_spaces_right v ctx1 bl1 A1 ctx2 bl2 A2 : two_spaces v ctx1 bl1 A1 ctx2 bl2 A2 → ctx_rep v ctx2 bl2 A2.
Proof. intros Hsp%two_spaces_sym. by eapply two_spaces_left. Qed.

(** One page is mapped in the first of them. *)
Lemma two_spaces_map va pa fl ctx1 bl1 A1 ctx2 bl2 A2 (j : nat) v :
  two_spaces v ctx1 bl1 A1 ctx2 bl2 A2 → va mod PAGE_SIZE = 0 → pa mod PAGE_SIZE = 0 → 0 < va →
  va + PAGE_SIZE < 2 ^ 32 → within bl1 va (va + 1 * PAGE_SIZE) → room (vs_heap v) (2 + j) →
  wp (vmm_map_pages mi ctx1 va pa 1 fl)
     (λ r v', allocations r.2 = allocations ctx1 ∧ room (vs_heap v') j ∧
        ∃ bl', two_spaces v' r.2 bl' (Allocation va pa 1 fl :: A1) ctx2 bl2 A2 ∧
          remove_ranges mi va 1 (negb (Z.land fl PAGE_FLAG_USER =? 0)) bl1 = Some (va, bl') ∧ took bl1 va 1 bl' ∧
          (bl' = tl bl1 ∨ free_blocks r.2 = free_blocks ctx1) ∧
          ∀ x y, x < y → within bl1 x y → y <= va ∨ va + 1 * PAGE_SIZE <= x → within bl' x y) v.
Proof.
  intros Hsp Hva Hpa Hpos Hend Hw Hroom. rewrite <- (vmm_map_pages_reserving kept). eapply wp_mono.
  { refine (@spaces_map_at H (reserving kept) mi ctx1 va pa 1 fl bl1 A1 _ v Hsp _ _ Hpos eq_refl _ Hw _);
      [by apply paging_is_aligned_spec..|by rewrite Z.mul_1_l|]. eapply room_le; [|exact Hroom]. lia. }
  cbn beta. intros r v' (_ & Hroot & (bl' & Hsp' & Hrem & Htook & Hhead & Hkeep) & Hrm). split_and!; [done|by apply Hrm|].
  by exists bl'.
Qed.

(** The segment's page is mapped in the kernel's address space. *)
Lemma map_kernel_page va pa fl kctx bl A uctx bl2 A2 F (j : nat) μ :
  on_cpu mi t E (mc_kernel μ) A F → two_spaces (vmm_of (mc_kernel μ)) kctx bl A uctx bl2 A2 →
  allocations (task_vmm_context t) = allocations kctx → room (ss_heap (k_sched (mc_kernel μ))) (2 + j) →
  flags_ok fl → is_u32 pa → pa mod PAGE_SIZE = 0 → pa ≠ 0 → is_u32 va → PAGE_SIZE <= va →
  va / PAGE_SIZE * PAGE_SIZE + PAGE_SIZE < 2 ^ 32 →
  within bl (va / PAGE_SIZE * PAGE_SIZE) (va / PAGE_SIZE * PAGE_SIZE + 1 * PAGE_SIZE) →
  E (va / PAGE_SIZE) → F (va / PAGE_SIZE) = None →
  let a := Allocation (va / PAGE_SIZE * PAGE_SIZE) pa 1 fl in
  wp (on_kernel (on_vmm (vmm_map_pages mi kctx (va / PAGE_SIZE * PAGE_SIZE) pa 1 fl)))
     (λ r μ', mc_phys μ' = mc_phys μ ∧ k_bitmap (mc_kernel μ') = k_bitmap (mc_kernel μ) ∧
        sched_kept (mc_kernel μ) (mc_kernel μ') ∧ k_words (mc_kernel μ') = k_words (mc_kernel μ) ∧
        k_last_pid (mc_kernel μ') = k_last_pid (mc_kernel μ) ∧
        allocations r.2 = allocations kctx ∧
        (∃ bl', two_spaces (vmm_of (mc_kernel μ')) r.2 bl' (a :: A) uctx bl2 A2 ∧
           remove_ranges mi (va / PAGE_SIZE * PAGE_SIZE) 1 (negb (Z.land fl PAGE_FLAG_USER =? 0)) bl =
             Some (va / PAGE_SIZE * PAGE_SIZE, bl') ∧
           took bl (va / PAGE_SIZE * PAGE_SIZE) 1 bl' ∧ (bl' = tl bl ∨ free_blocks r.2 = free_blocks kctx) ∧
           ∀ x y, x < y → within bl x y → y <= va / PAGE_SIZE * PAGE_SIZE ∨
             va / PAGE_SIZE * PAGE_SIZE + 1 * PAGE_SIZE <= x → within bl' x y) ∧
        room (ss_heap (k_sched (mc_kernel μ'))) j ∧
        on_cpu mi t E (mc_kernel μ') (a :: A) (add_page (va / PAGE_SIZE) pa F)) μ.
Proof.
  intros Hcpu Htwo Hroot Hroom Hfl Hpa Hpal Hnz Hva Hlow Hhigh Hw HE HF a. apply wp_zoom, wp_zoom.
  eapply wp_mono.
  { apply (two_spaces_map (va / PAGE_SIZE * PAGE_SIZE) pa fl kctx bl A uctx bl2 A2 j); try done; [by apply Z.mod_mul|].
    rewrite PAGE_SIZE_val in *. Z.div_mod_to_equations; lia. }
  cbn beta. intros r v (Hroot' & Hrm & bl' & Htwo' & Hrest). cbn [mc_phys mc_kernel].
  split_and!; [done|done|done|done|done|done|exists bl'; split; [destruct v; exact Htwo'|done]|done|].
  eapply (on_cpu_vmm _ _ _ _ _ _ _ r.2); [exact Hcpu|by rewrite Hroot, <- Hroot'|exact (two_spaces_left _ _ _ _ _ _ _ Htwo')| | |].
  - intros b [->|?]%elem_of_cons; [right|by left]. by split_and!.
  - apply view_ok_add; try done. apply Hcpu.
  - apply view_backed_add; [apply Hcpu| |done..]. unfold a, contains, alloc_end. simpl. rewrite PAGE_SIZE_val. lia.
Qed.

(** The same page is mapped in the address space of the new task. *)
Lemma map_user_page va pa fl kctx bl A uctx bl2 A2 F (j : nat) μ :
  on_cpu mi t E (mc_kernel μ) A F → two_spaces (vmm_of (mc_kernel μ)) kctx bl A uctx bl2 A2 →
  allocations (task_vmm_context t) = allocations kctx → room (ss_heap (k_sched (mc_kernel μ))) (2 + j) →
  pa mod PAGE_SIZE = 0 → PAGE_SIZE <= va → va / PAGE_SIZE * PAGE_SIZE + PAGE_SIZE < 2 ^ 32 →
  within bl2 (va / PAGE_SIZE * PAGE_SIZE) (va / PAGE_SIZE * PAGE_SIZE + 1 * PAGE_SIZE) →
  let a := Allocation (va / PAGE_SIZE * PAGE_SIZE) pa 1 fl in
  wp (on_kernel (on_vmm (vmm_map_pages mi uctx (va / PAGE_SIZE * PAGE_SIZE) pa 1 fl)))
     (λ r μ', mc_phys μ' = mc_phys μ ∧ k_bitmap (mc_kernel μ') = k_bitmap (mc_kernel μ) ∧
        sched_kept (mc_kernel μ) (mc_kernel μ') ∧ k_words (mc_kernel μ') = k_words (mc_kernel μ) ∧
        k_last_pid (mc_kernel μ') = k_last_pid (mc_kernel μ) ∧
        (∃ bl2', two_spaces (vmm_of (mc_kernel μ')) kctx bl A r.2 bl2' (a :: A2) ∧
           took bl2 (va / PAGE_SIZE * PAGE_SIZE) 1 bl2' ∧
           ∀ x y, x < y → within bl2 x y → y <= va / PAGE_SIZE * PAGE_SIZE ∨
             va / PAGE_SIZE * PAGE_SIZE + 1 * PAGE_SIZE <= x → within bl2' x y) ∧
        room (ss_heap (k_sched (mc_kernel μ'))) j ∧
        on_cpu mi t E (mc_kernel μ') A F) μ.
Proof.
  intros Hcpu Htwo Hroot Hroom Hpal Hlow Hhigh Hw a. apply wp_zoom, wp_zoom.
  apply two_spaces_sym in Htwo. eapply wp_mono.
  { apply (two_spaces_map (va / PAGE_SIZE * PAGE_SIZE) pa fl uctx bl2 A2 kctx bl A j); try done; [by apply Z.mod_mul|].
    rewrite PAGE_SIZE_val in *. Z.div_mod_to_equations; lia. }
  cbn beta. intros r v (_ & Hrm & bl' & Htwo' & _ & Htook & _ & Hkeep). cbn [mc_phys mc_kernel].
  split_and!; [done|done|done|done|done| |done|].
  - exists bl'. apply two_spaces_sym in Htwo'. split_and!; [destruct v; exact Htwo'|done|done].
  - eapply on_cpu_vmm; [exact Hcpu|exact Hroot|exact (two_spaces_right _ _ _ _ _ _ _ Htwo')|by left|apply Hcpu|apply Hcpu].
Qed.

Context (o : nat) (Ho : (o + 32 <= length file)%nat) (Hseg : one_page file o) (Hfile : Forall is_u8 file).

Lemma seg_ranges :
  is_u32 (seg_offset file o) ∧ is_u32 (seg_vaddr file o) ∧ is_u32 (seg_filesz file o) ∧ is_u32 (seg_memsz file o).
Proof. split_and!; apply le_at_u32; done || lia. Qed.

Lemma length_seg_data : length (seg_data file o) = Z.to_nat (seg_filesz file o).
Proof.
  destruct seg_ranges as (? & _ & ? & _), Hseg as [_ _ Hf _ _]. unfold seg_data, is_u32 in *.
  rewrite length_take, length_drop. lia.
Qed.

(** memcpy brings the data of the segment into its frame. *)
Lemma copy_data A F f μ :
  on_cpu mi t E (mc_kernel μ) A F → file_in μ F → F (seg_vaddr file o / PAGE_SIZE) = Some f → frame_ok f →
  mapped (mc_phys μ) f PAGE_SIZE → f + PAGE_SIZE <= epa ∨ epa + PAGE_SIZE <= f →
  wp (memcpy (seg_vaddr file o) (u32 (raw_elf + seg_offset file o + 0 * PAGE_SIZE)) (seg_filesz file o))
     (λ _ μ', bytes_at (mc_phys μ') (f + seg_vaddr file o mod PAGE_SIZE) (seg_data file o) ∧
        same_outside (mc_phys μ) (mc_phys μ') f (f + PAGE_SIZE) ∧ still_mapped (mc_phys μ) (mc_phys μ') ∧
        calm t (mc_kernel μ) (mc_kernel μ') ∧ on_cpu mi t E (mc_kernel μ') A F) μ.
Proof.
  intros Hcpu [HFe Hb] HF Hf Hmap Hap. destruct seg_ranges as (Hou & Hvu & Hfu & _).
  destruct Hseg as [_ Hfits Hfl Hlow Hhigh]. rewrite PAGE_SIZE_val in *.
  pose proof (Z.mod_pos_bound (seg_vaddr file o) 4096 ltac:(done)) as Hvm.
  apply wp_bind. rewrite <- length_seg_data. destruct (Z.eq_dec (seg_filesz file o) 0) as [E0|E0].
  { assert (seg_data file o = []) as -> by (apply length_zero_iff_nil; rewrite length_seg_data, E0; done).
    apply wp_ret, wp_ret. split_and!; [apply bytes_at_nil|done|apply still_mapped_refl|apply calm_refl|done]. }
  assert (Hsrc : u32 (raw_elf + seg_offset file o + 0 * 4096) = raw_elf + seg_offset file o).
  { rewrite Z.add_0_r. apply u32_small. unfold is_u32 in *. Z.div_mod_to_equations. lia. }
  destruct (in_page raw_elf (seg_offset file o)) as [Ep Em]; [unfold is_u32 in Hou; lia|rewrite PAGE_SIZE_val; unfold is_u32 in *; lia|].
  rewrite PAGE_SIZE_val, Hral in *. rewrite Hsrc.
  destruct (mapped_bytes (mc_phys μ) (f + seg_vaddr file o mod 4096) (seg_filesz file o)) as (old & Hold & Elen).
  { unfold is_u32 in Hfu. lia. }
  { intros x Hx. apply Hmap. lia. }
  eapply wp_mono.
  { apply (memcpy_in_page mi fault_state Hhh Hhr t E (seg_vaddr file o) (raw_elf + seg_offset file o) 0
      (seg_data file o) old A F f epa); rewrite ?PAGE_SIZE_val, ?Ep, ?Em, ?Z.add_0_r, ?length_seg_data; try done.
    - unfold is_u32 in *. Z.div_mod_to_equations. lia.
    - unfold is_u32 in Hfu. lia.
    - unfold is_u32 in *. lia.
    - intros n b Hnb. unfold seg_data in Hnb. apply lookup_take_Some in Hnb as [Hnb _]. rewrite lookup_drop in Hnb.
      destruct (Hb _ _ Hnb) as [Eb ?]. split; [|done]. rewrite <- Eb. f_equal. unfold is_u32 in Hou. lia.
    - unfold is_u32 in Hfu. lia. }
  cbn beta. rewrite Z.add_0_r, PAGE_SIZE_val, length_seg_data. intros _ μ' (Hb' & Hso & Hc & Hk). apply wp_ret.
  split_and!; [done| |intros p n; by eapply mapped_patch; [exact Hb'|rewrite length_seg_data; exact Hso]|done|done].
  eapply same_outside_mono; [exact Hso|lia|]. unfold is_u32 in Hfu. lia.
Qed.

(** memset clears the rest of the segment. *)
Lemma clear_rest A F f μ :
  on_cpu mi t E (mc_kernel μ) A F → F (seg_vaddr file o / PAGE_SIZE) = Some f → frame_ok f →
  mapped (mc_phys μ) f PAGE_SIZE → seg_filesz file o < seg_memsz file o →
  let at_ := f + seg_vaddr file o mod PAGE_SIZE + seg_filesz file o in
  wp (memset (u32 (seg_vaddr file o + seg_filesz file o)) 0 (u32 (seg_memsz file o - seg_filesz file o)))
     (λ _ μ', bytes_at (mc_phys μ') at_ (replicate (Z.to_nat (seg_memsz file o - seg_filesz file o)) 0) ∧
        same_outside (mc_phys μ) (mc_phys μ') at_ (f + PAGE_SIZE) ∧ still_mapped (mc_phys μ) (mc_phys μ') ∧
        calm t (mc_kernel μ) (mc_kernel μ') ∧ on_cpu mi t E (mc_kernel μ') A F) μ.
Proof.
  intros Hcpu HF Hf Hmap Hlt at_. destruct seg_ranges as (_ & Hvu & Hfu & Hmu).
  destruct Hseg as [_ Hfits _ Hlow Hhigh]. subst at_. rewrite PAGE_SIZE_val in *. unfold is_u32 in Hfu, Hmu.
  set (at_ := f + seg_vaddr file o mod 4096 + seg_filesz file o).
  pose proof (Z.mod_pos_bound (seg_vaddr file o) 4096 ltac:(done)) as Hvm.
  destruct (in_page (seg_vaddr file o) (seg_filesz file o)) as [Ep Em]; [lia|rewrite PAGE_SIZE_val; lia|].
  rewrite PAGE_SIZE_val in Ep, Em. unfold seg_page in Hhigh. rewrite PAGE_SIZE_val in Hhigh.
  rewrite !u32_small by (unfold is_u32 in *; lia || (Z.div_mod_to_equations; lia)).
  destruct (mapped_bytes (mc_phys μ) at_ (seg_memsz file o - seg_filesz file o)) as (old & Hold & Elen); [lia| |].
  { unfold at_. intros x Hx. apply Hmap. lia. }
  apply wp_bind. replace (Z.to_nat (seg_memsz file o - seg_filesz file o)) with (length old) by lia. eapply wp_mono.
  { apply (memset_in_page mi fault_state Hhh Hhr t E (seg_vaddr file o + seg_filesz file o) 0 old A F f);
      rewrite ?PAGE_SIZE_val, ?Ep, ?Em, ?Z.add_0_r, ?Z.add_assoc; try done.
    - unfold is_u32 in *. Z.div_mod_to_equations. lia.
    - lia. }
  cbn beta. rewrite PAGE_SIZE_val, Em, Z.add_0_r, Z.add_assoc. fold at_. intros _ μ' (Hb & Hso & Hc & Hk).
  apply wp_ret. split_and!; [done| |intros p n; by eapply mapped_patch; [exact Hb|rewrite length_replicate; exact Hso]|done|done].
  eapply same_outside_mono; [exact Hso|lia|]. unfold at_. lia.
Qed.

(** The kernel gets its address space back when the page is unmapped: the page is below the
    upper part but not in the first free range from its start on; there are other
    allocations, none of them an empty one at the page; and the pages of the view in the
    same 4 MB region, which paging_unmap_addr makes absent, are in allocations. *)
Record can_return bl A F : Prop := {
  cr_user : seg_page file o + 1 * PAGE_SIZE < higher_half_base mi;
  cr_below : head_below (seg_page file o) bl;
  cr_more : A ≠ [];
  cr_stubs : ∀ b, b ∈ A → page_count b = 0 → virtual_addr b ≠ seg_page file o;
  cr_region : ∀ m f, F m = Some f → PAGE_DIRECTORY_INDEX (m * PAGE_SIZE) = PAGE_DIRECTORY_INDEX (seg_vaddr file o) →
    page_backed A m f
}.

(** The kernel's allocation of the page when it was unmapped from it, and the free ranges
    with the page back in its place. *)
Definition left_over (f : Z) : vmm_allocation := shrink 1 (Allocation (seg_page file o) f 1 (seg_flags file o)).
Definition restored bl bl3 : Prop :=
  bl3 = reload mi (seg_page file o) 1 bl ∧ same_free (seg_page file o) 1 bl bl3.

Lemma user_flag : negb (Z.land (seg_flags file o) PAGE_FLAG_USER =? 0) = true.
Proof.
  unfold seg_flags, elf_flags_to_paging_flags.
  by destruct (negb (Z.land (le_at file (o + 24) 4) ELF_PROG_HDR_FLAG_W =? 0)); vm_compute.
Qed.

(** The loader can load the segment: the kernel task [t] runs; the kernel's and the new
    task's address spaces have the segment's page free; there are frames, memory behind
    them and room in the heap; and the page tables have no entry for the page. *)
Record ready_to_load μ (kctx : vmm_context) bl A (uctx : vmm_context) bl2 A2 F (n j : nat) : Prop := {
  rl_cpu : on_cpu mi t E (mc_kernel μ) A F;
  rl_spaces : two_spaces (vmm_of (mc_kernel μ)) kctx bl A uctx bl2 A2;
  rl_root : allocations (task_vmm_context t) = allocations kctx;
  rl_room : room (ss_heap (k_sched (mc_kernel μ))) (5 + j);
  rl_pages : has_pages (k_bitmap (mc_kernel μ)) (S n);
  rl_page0 : taken (k_bitmap (mc_kernel μ)) 0 = true;
  rl_ram : ∀ p, next_frame (k_bitmap (mc_kernel μ)) p → mapped (mc_phys μ) (p * PAGE_SIZE) PAGE_SIZE;
  rl_file : file_in μ F;
  rl_used : epa mod PAGE_SIZE = 0 ∧ taken (k_bitmap (mc_kernel μ)) (epa / PAGE_SIZE) = true;
  rl_free : within bl (seg_page file o) (seg_page file o + 1 * PAGE_SIZE);
  rl_ufree : within bl2 (seg_page file o) (seg_page file o + 1 * PAGE_SIZE);
  rl_entry : E (seg_vaddr file o / PAGE_SIZE) ∧ F (seg_vaddr file o / PAGE_SIZE) = None;
  rl_return : can_return bl A F
}.

(** The segment is in the frame [p], and in the new task's address space; the kernel's is
    as before, but for an allocation without pages. *)
Record segment_loaded μ (kctx : vmm_context) bl A bl2 A2 F (n j : nat) (p : Z) (r : vmm_context * vmm_context) μ' : Prop := {
  sl_frame : next_frame (k_bitmap (mc_kernel μ)) p;
  sl_kernel : r.1 = kctx ∧ on_cpu mi t E (mc_kernel μ') (left_over (p * PAGE_SIZE) :: A) F;
  sl_spaces : ∃ bl2' bl3,
    two_spaces (vmm_of (mc_kernel μ')) kctx bl3 (left_over (p * PAGE_SIZE) :: A)
      r.2 bl2' (Allocation (seg_page file o) (p * PAGE_SIZE) 1 (seg_flags file o) :: A2) ∧
    restored bl bl3 ∧ took bl2 (seg_page file o) 1 bl2' ∧
    ∀ x y, x < y → within bl2 x y → y <= seg_page file o ∨ seg_page file o + 1 * PAGE_SIZE <= x → within bl2' x y;
  sl_bytes : bytes_at (mc_phys μ') (p * PAGE_SIZE + seg_vaddr file o mod PAGE_SIZE) (seg_bytes file o);
  sl_memory : same_outside (mc_phys μ) (mc_phys μ') (p * PAGE_SIZE) (p * PAGE_SIZE + PAGE_SIZE);
  sl_mapped : still_mapped (mc_phys μ) (mc_phys μ');
  sl_sched : sched_kept (mc_kernel μ) (mc_kernel μ') ∧ k_last_pid (mc_kernel μ') = k_last_pid (mc_kernel μ);
  sl_pages : k_bitmap (mc_kernel μ') = mark p (k_bitmap (mc_kernel μ)) ∧ has_pages (k_bitmap (mc_kernel μ')) n;
  sl_words : words_kept t (mc_kernel μ) (mc_kernel μ') ∧
    (words_ok (k_words (mc_kernel μ)) → words_ok (k_words (mc_kernel μ')));
  sl_room : room (ss_heap (k_sched (mc_kernel μ'))) j
}.

Lemma file_page_apart μ kctx bl A uctx bl2 A2 F n j :
  ready_to_load μ kctx bl A uctx bl2 A2 F n j → raw_elf / PAGE_SIZE ≠ seg_vaddr file o / PAGE_SIZE.
Proof.
  intros Hrl Epage. destruct (rl_file _ _ _ _ _ _ _ _ _ _ Hrl) as [HF _].
  destruct (rl_entry _ _ _ _ _ _ _ _ _ _ Hrl) as [_ Hno]. rewrite Epage in HF. congruence.
Qed.

(** The frame that the segment gets is not 0, and is not that of the file. *)
Lemma new_frame μ kctx bl A uctx bl2 A2 F n j p :
  ready_to_load μ kctx bl A uctx bl2 A2 F n j → next_frame (k_bitmap (mc_kernel μ)) p →
  p * PAGE_SIZE ≠ 0 ∧ frame_ok (p * PAGE_SIZE) ∧ mapped (mc_phys μ) (p * PAGE_SIZE) PAGE_SIZE ∧
  (p * PAGE_SIZE + PAGE_SIZE <= epa ∨ epa + PAGE_SIZE <= p * PAGE_SIZE).
Proof.
  intros Hrl Hlowp. pose proof Hlowp as (_ & Hp & Hfree & _). pose proof (rl_page0 _ _ _ _ _ _ _ _ _ _ Hrl) as H0u.
  destruct (rl_used _ _ _ _ _ _ _ _ _ _ Hrl) as [Hal Hu]. unfold frame_ok.
  assert (p ≠ 0) by congruence. assert (p ≠ epa / PAGE_SIZE) by congruence.
  pose proof (rl_ram _ _ _ _ _ _ _ _ _ _ Hrl p Hlowp). rewrite PAGE_SIZE_val in *.
  split_and!; [lia|lia|lia|done|]. Z.div_mod_to_equations. lia.
Qed.

Let prog_hdr : Z := raw_elf + Z.of_nat o.

Ltac field c := eapply (wp_field (o + c)); [unfold prog_hdr; lia|lia|eassumption|eassumption|].

(** After the copy: the rest of the segment is cleared. *)
Lemma fill_rest A F f μ :
  on_cpu mi t E (mc_kernel μ) A F → file_in μ F → F (seg_vaddr file o / PAGE_SIZE) = Some f → frame_ok f →
  mapped (mc_phys μ) f PAGE_SIZE → f + PAGE_SIZE <= epa ∨ epa + PAGE_SIZE <= f →
  bytes_at (mc_phys μ) (f + seg_vaddr file o mod PAGE_SIZE) (seg_data file o) →
  wp (if seg_filesz file o <? PAGE_SIZE then
        memsz ← ph_memsz mi fault_state prog_hdr;
        filesz ← ph_filesz mi fault_state prog_hdr;
        _ ← (if filesz <? memsz then
               memsz ← ph_memsz mi fault_state prog_hdr;
               filesz ← ph_filesz mi fault_state prog_hdr;
               memset (u32 (seg_vaddr file o + seg_filesz file o)) 0 (u32 (memsz - filesz))
             else mret 0);
        mret (seg_filesz file o)
      else mret (u32 (seg_filesz file o - PAGE_SIZE)))
     (λ _ μ', bytes_at (mc_phys μ') (f + seg_vaddr file o mod PAGE_SIZE) (seg_bytes file o) ∧
        same_outside (mc_phys μ) (mc_phys μ') f (f + PAGE_SIZE) ∧ still_mapped (mc_phys μ) (mc_phys μ') ∧
        calm t (mc_kernel μ) (mc_kernel μ') ∧ on_cpu mi t E (mc_kernel μ') A F) μ.
Proof.
  intros Hcpu Hfin HF Hf Hmap Hap Hdata. destruct seg_ranges as (_ & Hvu & Hfu & Hmu).
  pose proof (op_fits _ _ Hseg) as Hfits. pose proof (Z.mod_pos_bound (seg_vaddr file o) PAGE_SIZE ltac:(done)) as Hvm.
  unfold seg_bytes. destruct (Z.ltb_spec (seg_filesz file o) PAGE_SIZE) as [Hlt|Hge].
  2:{ apply wp_ret. rewrite (Z2Nat.nonpos (_ - _)) by lia. rewrite app_nil_r. split_and!; [done|done|apply still_mapped_refl|apply calm_refl|done]. }
  apply wp_bind. unfold ph_memsz at 1. field 20%nat. intros μ1 P1 C1 K1.
  assert (Hfin1 : file_in μ1 F) by (unfold file_in in *; by rewrite P1).
  apply wp_bind. unfold ph_filesz at 1. field 16%nat. intros μ2 P2 C2 K2.
  change (le_at file (o + 20) 4) with (seg_memsz file o). change (le_at file (o + 16) 4) with (seg_filesz file o).
  apply wp_bind. destruct (Z.ltb_spec (seg_filesz file o) (seg_memsz file o)) as [Hlt2|Hge2].
  2:{ apply wp_ret, wp_ret. rewrite (Z2Nat.nonpos (_ - _)) by lia. rewrite app_nil_r, P2, P1.
      split_and!; [done|done|apply still_mapped_refl|by eapply calm_trans|done]. }
  assert (Hfin2 : file_in μ2 F) by (unfold file_in in *; by rewrite P2).
  apply wp_bind. unfold ph_memsz. field 20%nat. intros μ3 P3 C3 K3.
  assert (Hfin3 : file_in μ3 F) by (unfold file_in in *; by rewrite P3).
  apply wp_bind. unfold ph_filesz. field 16%nat. intros μ4 P4 C4 K4.
  change (le_at file (o + 20) 4) with (seg_memsz file o). change (le_at file (o + 16) 4) with (seg_filesz file o).
  assert (P : mc_phys μ4 = mc_phys μ) by congruence.
  eapply wp_mono; [apply (clear_rest A F f μ4); try done; by rewrite P|]. cbn beta zeta.
  rewrite P. intros _ μ5 (Hz & Hso & Hm5 & C5 & K5). apply wp_ret. unfold is_u32 in *. split_and!.
  - apply bytes_at_app. rewrite length_seg_data, Z2Nat.id by lia. split; [|done].
    eapply bytes_at_frame; [exact Hdata|exact Hso|]. rewrite length_seg_data. lia.
  - eapply same_outside_mono; [exact Hso|lia|lia].
  - done.
  - eapply calm_trans, C5. eapply calm_trans, C4. eapply calm_trans, C3. by eapply calm_trans.
  - done.
Qed.

(** What has been left alone so far. *)
Definition quiet μ μ' : Prop :=
  sched_kept (mc_kernel μ) (mc_kernel μ') ∧ k_bitmap (mc_kernel μ') = k_bitmap (mc_kernel μ) ∧
  words_kept t (mc_kernel μ) (mc_kernel μ') ∧ k_last_pid (mc_kernel μ') = k_last_pid (mc_kernel μ) ∧
  (words_ok (k_words (mc_kernel μ)) → words_ok (k_words (mc_kernel μ'))).

Lemma calm_quiet μ μ' : calm t (mc_kernel μ) (mc_kernel μ') → quiet μ μ'.
Proof. intros (Hs & _ & Hb & Hw & Hl & Hwd). split_and!; [by apply sched_kept_same|done..]. Qed.

Lemma quiet_trans μ1 μ2 μ3 : quiet μ1 μ2 → quiet μ2 μ3 → quiet μ1 μ3.
Proof.
  intros (S1 & B1 & W1 & L1 & O1) (S2 & B2 & W2 & L2 & O2).
  split_and!; [by eapply sched_kept_trans|congruence|by eapply words_kept_trans|congruence|auto].
Qed.

(** The page is unmapped from the kernel's address space. *)
Lemma drop_page (fs : Z) kctx bl0 bl A uctx bl2 A2 F f (j : nat) μ :
  on_cpu mi t E (mc_kernel μ) (Allocation (seg_page file o) f 1 (seg_flags file o) :: A)
    (add_page (seg_vaddr file o / PAGE_SIZE) f F) →
  two_spaces (vmm_of (mc_kernel μ)) kctx bl (Allocation (seg_page file o) f 1 (seg_flags file o) :: A) uctx bl2 A2 →
  lent mi (seg_page file o) 1 bl0 bl → can_return bl0 A F → F (seg_vaddr file o / PAGE_SIZE) = None →
  allocations (task_vmm_context t) = allocations kctx → is_u32 f → room (ss_heap (k_sched (mc_kernel μ))) (1 + j) →
  wp (kctx ← on_kernel (on_vmm (vmm_unmap_pages mi kctx (seg_page file o) 1));
      _ ← on_kernel (on_words (paging_unmap_addr mi (task_paging_ctx t) (seg_page file o)));
      mret (fs, kctx, uctx))
     (λ r μ', r = (fs, kctx, uctx) ∧ mc_phys μ' = mc_phys μ ∧ quiet μ μ' ∧ room (ss_heap (k_sched (mc_kernel μ'))) j ∧
        (∃ bl3, two_spaces (vmm_of (mc_kernel μ')) kctx bl3 (left_over f :: A) uctx bl2 A2 ∧ restored bl0 bl3) ∧
        on_cpu mi t E (mc_kernel μ') (left_over f :: A) F) μ.
Proof.
  intros Hcpu Htwo [Erel Hbelow _ Hmode Hadj Hback] [Huser _ Hmore Hstubs Hreg] HF Hroot Hf Hroom. pose proof (op_low _ _ Hseg) as Hlow.
  assert (Hpos : 1 < seg_page file o) by (unfold seg_page; rewrite PAGE_SIZE_val in *; Z.div_mod_to_equations; lia).
  apply wp_bind, wp_zoom, wp_zoom. rewrite <- (vmm_unmap_pages_reserving kept). eapply wp_mono.
  { refine (@spaces_unmap H (reserving kept) mi kctx (Allocation (seg_page file o) f 1 (seg_flags file o)) 1 bl A _ _ Htwo _ _ _ _ _ _ _ _);
      try done. eapply room_le; [|exact Hroom]. lia. }
  cbn beta. intros kctx' v (Hsp & Hrm & Hroot' & Hsame). specialize (Hsame Hbelow). subst kctx'.
  apply wp_bind, wp_zoom, wp_zoom. destruct seg_ranges as (_ & Hvu & _). destruct (align_page _ Hvu) as [Hpu _].
  change (paging_align_addr (seg_vaddr file o)) with (seg_page file o) in Hpu.
  assert (Hpg : paging_ok (task_paging_ctx t)) by apply Hcpu.
  eapply wp_of_ok; [by apply (unmap_eq mi (task_paging_ctx t) Hpg Hhr)|]. apply wp_ret.
  cbn [mc_kernel mc_phys]. fold (unmapped mi t (k_words (set_vmm v (mc_kernel μ))) (seg_page file o)).
  assert (Epage : seg_vaddr file o / PAGE_SIZE = seg_page file o / PAGE_SIZE) by (unfold seg_page; by rewrite Z.div_mul).
  assert (Edir : PAGE_DIRECTORY_INDEX (seg_vaddr file o) = PAGE_DIRECTORY_INDEX (seg_page file o)).
  { rewrite !PAGE_DIRECTORY_INDEX_div. unfold seg_page. rewrite PAGE_SIZE_val. Z.div_mod_to_equations. lia. }
  split_and!; [done|done| |by apply Hrm| |].
  - split_and!; [done|done| |done|].
    + intros a Ha. destruct (entries_table mi (task_paging_ctx t) Hhr _ Hpu) as [Hd Ht].
      cbn [mc_kernel k_words set_words set_vmm]. unfold unmapped. rewrite !word_set, !decide_False; [done|intros E'; apply Ha; by rewrite <- E'..].
    + intros Hok. by apply words_ok_set, words_ok_set.
  - exists (reload mi (seg_page file o) 1 bl0). split; [rewrite <- Erel; destruct v; exact Hsp|by split].
  - rewrite Epage, Edir in *.
    eapply on_cpu_changed; [exact Hcpu|apply Hcpu|done|exact Hroot|destruct v; exact (two_spaces_left _ _ _ _ _ _ _ Hsp)| | |].
    + intros b [->|Hb]%elem_of_cons; [right; by split; [apply seg_flags_ok|]|left; by right].
    + apply (view_ok_drop mi Hhh Hhr t E _ _ f); [done|done|done|apply Hcpu].
    + eapply (view_backed_drop mi Hhh Hhr t E _ _ f); [done|done|done| |done|apply Hcpu].
      intros m. unfold contains, alloc_end, seg_page. cbn [virtual_addr page_count]. rewrite PAGE_SIZE_val. Z.div_mod_to_equations. lia.
Qed.

Lemma file_in_add μ μ' F f :
  file_in μ F → mc_phys μ' = mc_phys μ → raw_elf / PAGE_SIZE ≠ seg_vaddr file o / PAGE_SIZE →
  file_in μ' (add_page (seg_vaddr file o / PAGE_SIZE) f F).
Proof. intros [HF Hb] P Hne. split; [|by rewrite P]. unfold add_page. by rewrite decide_False. Qed.

(** The second half of an iteration, when the page is mapped in both address spaces. *)
Lemma load_page_end kctx bl0 bl A uctx bl2 A2 f (j : nat) μ :
  let a := Allocation (seg_page file o) f 1 (seg_flags file o) in
  let F' F := add_page (seg_vaddr file o / PAGE_SIZE) f F in
  ∀ F, on_cpu mi t E (mc_kernel μ) (a :: A) (F' F) → file_in μ (F' F) → frame_ok f →
  mapped (mc_phys μ) f PAGE_SIZE → f + PAGE_SIZE <= epa ∨ epa + PAGE_SIZE <= f →
  bytes_at (mc_phys μ) (f + seg_vaddr file o mod PAGE_SIZE) (seg_data file o) →
  two_spaces (vmm_of (mc_kernel μ)) kctx bl (a :: A) uctx bl2 A2 →
  lent mi (seg_page file o) 1 bl0 bl → can_return bl0 A F → F (seg_vaddr file o / PAGE_SIZE) = None →
  allocations (task_vmm_context t) = allocations kctx → is_u32 f →
  room (ss_heap (k_sched (mc_kernel μ))) (1 + j) →
  wp (file_size' ← (if seg_filesz file o <? PAGE_SIZE then
                      memsz ← ph_memsz mi fault_state prog_hdr;
                      filesz ← ph_filesz mi fault_state prog_hdr;
                      _ ← (if filesz <? memsz then
                             memsz ← ph_memsz mi fault_state prog_hdr;
                             filesz ← ph_filesz mi fault_state prog_hdr;
                             memset (u32 (seg_vaddr file o + seg_filesz file o)) 0 (u32 (memsz - filesz))
                           else mret 0);
                      mret (seg_filesz file o)
                    else mret (u32 (seg_filesz file o - PAGE_SIZE)));
      kctx ← on_kernel (on_vmm (vmm_unmap_pages mi kctx (seg_page file o) 1));
      _ ← on_kernel (on_words (paging_unmap_addr mi (task_paging_ctx t) (seg_page file o)));
      mret (file_size', kctx, uctx))
     (λ r μ', r.1.2 = kctx ∧ r.2 = uctx ∧
        (∃ bl3, two_spaces (vmm_of (mc_kernel μ')) kctx bl3 (left_over f :: A) uctx bl2 A2 ∧ restored bl0 bl3) ∧
        on_cpu mi t E (mc_kernel μ') (left_over f :: A) F ∧
        bytes_at (mc_phys μ') (f + seg_vaddr file o mod PAGE_SIZE) (seg_bytes file o) ∧
        same_outside (mc_phys μ) (mc_phys μ') f (f + PAGE_SIZE) ∧ still_mapped (mc_phys μ) (mc_phys μ') ∧ quiet μ μ' ∧
        room (ss_heap (k_sched (mc_kernel μ'))) j) μ.
Proof.
  intros a F' F Hcpu Hfin Hf Hmap Hap Hdata Htwo Hlent Hret HFn Hroot Hfu Hroom.
  assert (HF : F' F (seg_vaddr file o / PAGE_SIZE) = Some f) by (unfold F', add_page; by rewrite decide_True).
  apply wp_bind. eapply wp_mono; [by apply (fill_rest (a :: A) (F' F) f)|]. cbn beta.
  intros fs μ1 (Hb1 & Hso1 & Hm1 & C1 & K1). pose proof C1 as (Cs & Cv & Cb & Cw). eapply wp_mono.
  { apply (drop_page fs kctx bl0 bl A uctx bl2 A2 F f j μ1); try done; [by rewrite Cv|by rewrite Cs]. }
  cbn beta. intros r μ2 (-> & P2 & Q2 & Hroom2 & Hsp & K2). rewrite P2. split_and!; try done.
  eapply quiet_trans; [by apply calm_quiet|done].
Qed.

(** From the copy on, when the page is mapped in the kernel's address space. *)
Lemma load_page_mid kctx bl0 bl A uctx bl2 A2 f (j : nat) μ F :
  let a := Allocation (seg_page file o) f 1 (seg_flags file o) in
  let F' := add_page (seg_vaddr file o / PAGE_SIZE) f F in
  on_cpu mi t E (mc_kernel μ) (a :: A) F' → file_in μ F' → frame_ok f → f mod PAGE_SIZE = 0 →
  mapped (mc_phys μ) f PAGE_SIZE → f + PAGE_SIZE <= epa ∨ epa + PAGE_SIZE <= f →
  allocations (task_vmm_context t) = allocations kctx →
  two_spaces (vmm_of (mc_kernel μ)) kctx bl (a :: A) uctx bl2 A2 →
  lent mi (seg_page file o) 1 bl0 bl → can_return bl0 A F → F (seg_vaddr file o / PAGE_SIZE) = None → is_u32 f →
  within bl2 (seg_page file o) (seg_page file o + 1 * PAGE_SIZE) →
  room (ss_heap (k_sched (mc_kernel μ))) (3 + j) →
  wp (offset ← ph_offset mi fault_state prog_hdr;
      _ ← memcpy (seg_vaddr file o) (u32 (raw_elf + offset + 0 * PAGE_SIZE)) (seg_filesz file o);
      ur ← on_kernel (on_vmm (vmm_map_pages mi uctx (seg_page file o) f 1 (seg_flags file o)));
      file_size' ← (if seg_filesz file o <? PAGE_SIZE then
                      memsz ← ph_memsz mi fault_state prog_hdr;
                      filesz ← ph_filesz mi fault_state prog_hdr;
                      _ ← (if filesz <? memsz then
                             memsz ← ph_memsz mi fault_state prog_hdr;
                             filesz ← ph_filesz mi fault_state prog_hdr;
                             memset (u32 (seg_vaddr file o + seg_filesz file o)) 0 (u32 (memsz - filesz))
                           else mret 0);
                      mret (seg_filesz file o)
                    else mret (u32 (seg_filesz file o - PAGE_SIZE)));
      kctx ← on_kernel (on_vmm (vmm_unmap_pages mi kctx (seg_page file o) 1));
      _ ← on_kernel (on_words (paging_unmap_addr mi (task_paging_ctx t) (seg_page file o)));
      mret (file_size', kctx, ur.2))
     (λ r μ', r.1.2 = kctx ∧ on_cpu mi t E (mc_kernel μ') (left_over f :: A) F ∧
        (∃ bl2' bl3, two_spaces (vmm_of (mc_kernel μ')) kctx bl3 (left_over f :: A) r.2 bl2' (a :: A2) ∧
          restored bl0 bl3 ∧ took bl2 (seg_page file o) 1 bl2' ∧
          ∀ x y, x < y → within bl2 x y → y <= seg_page file o ∨ seg_page file o + 1 * PAGE_SIZE <= x →
            within bl2' x y) ∧
        bytes_at (mc_phys μ') (f + seg_vaddr file o mod PAGE_SIZE) (seg_bytes file o) ∧
        same_outside (mc_phys μ) (mc_phys μ') f (f + PAGE_SIZE) ∧ still_mapped (mc_phys μ) (mc_phys μ') ∧ quiet μ μ' ∧
        room (ss_heap (k_sched (mc_kernel μ'))) j) μ.
Proof.
  intros a F' Hcpu Hfin Hf Hal Hmap Hap Hroot Htwo Hlent Hret HFn Hfu Hufree Hroom.
  apply wp_bind. unfold ph_offset. field 4%nat. intros μ1 P1 C1 K1. pose proof C1 as (Cs1 & Cv1 & _).
  change (le_at file (o + 4) 4) with (seg_offset file o).
  assert (Hfin1 : file_in μ1 F') by (unfold file_in in *; by rewrite P1).
  apply wp_bind. eapply wp_mono; [apply (copy_data (a :: A) F' f μ1); try done; [|by rewrite P1]|].
  { unfold F', add_page. by rewrite decide_True. }
  cbn beta. intros _ μ2 (Hb2 & Hso2 & Hm2 & C2 & K2). assert (Hmap2 : mapped (mc_phys μ2) f PAGE_SIZE) by (apply Hm2; by rewrite P1). pose proof C2 as (Cs2 & Cv2 & _).
  assert (Hfin2 : file_in μ2 F').
  { destruct Hfin1 as [HF1 Hb1]. split; [done|]. eapply bytes_at_frame; [exact Hb1|exact Hso2|]. lia. }
  apply wp_bind. eapply wp_mono.
  { apply (map_user_page (seg_vaddr file o) f (seg_flags file o) kctx bl (a :: A) uctx bl2 A2 F' (1 + j) μ2);
      try done; [by rewrite Cv2, Cv1|by rewrite Cs2, Cs1|apply Hseg|apply Hseg]. }
  cbn beta zeta. fold (seg_page file o). fold a.
  intros ur μ3 (P3 & B3 & S3 & W3 & L3 & (bl2' & Htwo3 & Htook & Hkeep) & Hroom3 & K3).
  eapply wp_mono.
  { apply (load_page_end kctx bl0 bl A ur.2 bl2' (a :: A2) f j μ3 F); try done; unfold file_in; rewrite ?P3; done. }
  cbn beta. intros r μ4 (Hk4 & -> & (bl3 & Hsp4 & Hres4) & K4 & Hb4 & Hso4 & Hm4 & Q4 & Hroom4).
  split_and!; [done|done|by exists bl2', bl3|done| |rewrite P1 in Hm2; rewrite P3 in Hm4; by eapply still_mapped_trans|
    eapply quiet_trans, Q4; eapply quiet_trans; [apply calm_quiet, C1|eapply quiet_trans; [by apply calm_quiet|]]|done].

  - rewrite P1 in Hso2. rewrite P3 in Hso4. by eapply same_outside_trans.
  - split_and!; [done|done| |done|by rewrite W3]. intros b _. by rewrite W3.
Qed.

Lemma load_page_ok kctx bl A uctx bl2 A2 F (n j : nat) μ :
  ready_to_load μ kctx bl A uctx bl2 A2 F n j →
  wp (load_page mi fault_state (task_paging_ctx t) prog_hdr raw_elf 0 (seg_filesz file o) kctx uctx)
     (λ r μ', ∃ p, segment_loaded μ kctx bl A bl2 A2 F n j p (r.1.2, r.2) μ') μ.
Proof.
  intros Hrl. pose proof (file_page_apart _ _ _ _ _ _ _ _ _ _ Hrl) as Hne.
  pose proof Hrl as [Hcpu Htwo Hroot Hroom Hpages _ _ Hfin _ Hfree Hufree [HE HFno] Hret].
  destruct seg_ranges as (_ & Hvu & _). pose proof (op_low _ _ Hseg) as Hlow. pose proof (op_high _ _ Hseg) as Hhigh.
  unfold load_page. apply wp_bind. unfold ph_vaddr. field 8%nat. intros μ1 P1 C1 K1.
  change (le_at file (o + 8) 4) with (seg_vaddr file o). rewrite Z.add_0_r, (u32_small (seg_vaddr file o)) by done.
  change (paging_align_addr (seg_vaddr file o)) with (seg_page file o). cbn zeta.
  pose proof C1 as (Cs1 & Cv1 & Cb1 & _).
  apply wp_bind, wp_zoom. eapply wp_mono; [apply (take_page_ok n); by rewrite Cb1|]. cbn beta.
  intros pa k2 (p & Hp & -> & Hpu & Hpal & -> & Hpg2). rewrite Cb1 in Hp.
  destruct (new_frame _ _ _ _ _ _ _ _ _ _ p Hrl Hp) as (Hnz & Hfo & Hmap & Hap).
  set (μ2 := mk_machine _ _). assert (P2 : mc_phys μ2 = mc_phys μ) by done.
  assert (K2 : on_cpu mi t E (mc_kernel μ2) A F) by (by eapply on_cpu_same).
  assert (Hfin2 : file_in μ2 F) by (unfold file_in in *; by rewrite P2).
  apply wp_bind. unfold ph_flags. field 24%nat. intros μ3 P3 C3 K3. fold (seg_flags file o).
  pose proof C3 as (Cs3 & Cv3 & Cb3 & _).
  assert (Hfin3 : file_in μ3 F) by (unfold file_in in *; by rewrite P3).
  apply wp_bind. eapply wp_mono.
  { apply (map_kernel_page (seg_vaddr file o) (p * PAGE_SIZE) (seg_flags file o) kctx bl A uctx bl2 A2 F (3 + j) μ3);
      try done; [by rewrite Cv3; exact (eq_ind_r (λ v, two_spaces v kctx bl A uctx bl2 A2) Htwo Cv1)
                |by rewrite Cs3; cbn [k_sched mc_kernel μ2 set_bitmap]; rewrite Cs1|apply seg_flags_ok]. }
  cbn beta zeta. fold (seg_page file o). set (a := Allocation _ _ _ _).
  intros kr μ4 (P4 & B4 & S4 & W4 & L4 & Hroot4 & (bl' & Htwo4 & Hrem & Htook & Hhead & Hkeep) & Hroom4 & K4).
  assert (Hrg : ranges_from 0 bl) by (destruct (two_spaces_left _ _ _ _ _ _ _ Htwo) as (l & tr & Hinv & <- & _); apply Hinv).
  assert (Hlent : lent mi (seg_page file o) 1 bl bl').
  { apply took_lent; [done|done|apply Hret|done|by rewrite user_flag in Hrem|done|apply Hret|done]. }
  assert (Hkr : kr.2 = kctx) by (eapply still_current_eq; [split; [exact Hroot4|exact Hhead]|apply Hlent]).
  rewrite Hkr in Htwo4 |- *.
  pose proof (file_in_add μ3 μ4 F (p * PAGE_SIZE) Hfin3 P4 Hne) as Hfin4.
  eapply wp_mono.
  { apply (load_page_mid kctx bl bl' A uctx bl2 A2 (p * PAGE_SIZE) j μ4 F); try done;
      rewrite ?P4, ?P3, ?P2; done. }
  cbn beta. intros r μ5 (Hk5 & K5 & (bl2' & bl3 & Hsp5 & Hres & Htook2 & Hkeep2) & Hb & Hso & Hm & (S5 & B5 & W5 & L5 & O5) & Hroom5).
  exists p. rewrite P4, P3, P2 in Hso, Hm.
  pose proof (calm_quiet _ _ C1) as (QS1 & _ & QW1 & QL1 & QO1). pose proof (calm_quiet _ _ C3) as (QS3 & _ & QW3 & QL3 & QO3).
  split; [done|by split|by exists bl2', bl3|done|done|done| | | |done].
  - split; [|rewrite L5, L4, QL3; exact QL1].
    eapply sched_kept_trans, S5. eapply sched_kept_trans, S4. eapply sched_kept_trans, QS3. exact QS1.
  - rewrite B5, B4, Cb3. split; [cbn; by rewrite Cb1|exact Hpg2].
  - split; [|intros Hw; apply O5; rewrite W4; by apply QO3, QO1].
    intros b Hb'. rewrite W5, W4, QW3 by done. by apply QW1.
Qed.

(** Reading the file does not disturb the loader. *)
Lemma ready_calm μ μ' kctx bl A uctx bl2 A2 F n j :
  ready_to_load μ kctx bl A uctx bl2 A2 F n j → mc_phys μ' = mc_phys μ → calm t (mc_kernel μ) (mc_kernel μ') →
  on_cpu mi t E (mc_kernel μ') A F → ready_to_load μ' kctx bl A uctx bl2 A2 F n j.
Proof.
  intros [] P (Cs & Cv & Cb & _) K. split; rewrite ?P, ?Cs, ?Cv, ?Cb; try done. unfold file_in in *. by rewrite P.
Qed.

Lemma loaded_calm μ μ1 μ' kctx bl A bl2 A2 F n j p r :
  segment_loaded μ1 kctx bl A bl2 A2 F n j p r μ' → mc_phys μ1 = mc_phys μ → calm t (mc_kernel μ) (mc_kernel μ1) →
  segment_loaded μ kctx bl A bl2 A2 F n j p r μ'.
Proof.
  intros [] P (Cs & Cv & Cb & Cw & Cl & Cwd).
  split; rewrite <- ?P, <- ?Cb, <- ?Cl; try done; [unfold sched_kept in *; by rewrite <- Cs|].
  destruct sl_words0 as [Hk Hwd]. split; [by eapply words_kept_trans|auto].
Qed.

Lemma one_page_count : paging_page_count (Z.max (seg_filesz file o) (seg_memsz file o)) = 1.
Proof.
  destruct Hseg as [Hs Hf _ _ _]. unfold paging_page_count. rewrite PAGE_SIZE_val in *.
  pose proof (Z.mod_pos_bound (seg_vaddr file o) 4096 ltac:(done)). ulia.
Qed.

(** Reading a field of the program header. *)
Lemma ready_field (c : nat) μ kctx bl A uctx bl2 A2 F n j :
  ready_to_load μ kctx bl A uctx bl2 A2 F n j → (c + 4 <= 32)%nat →
  wp (load32 (prog_hdr + Z.of_nat c))
     (λ v μ', v = le_at file (o + c) 4 ∧ mc_phys μ' = mc_phys μ ∧ calm t (mc_kernel μ) (mc_kernel μ') ∧
        ready_to_load μ' kctx bl A uctx bl2 A2 F n j) μ.
Proof.
  intros Hrl Hc. eapply (wp_field (o + c)); [unfold prog_hdr; lia|lia|apply Hrl|apply Hrl|].
  intros μ' P C K. split_and!; [done|done|done|by eapply ready_calm].
Qed.

(** The size that handle_loadable_segment computes. *)
Lemma ready_size μ kctx bl A uctx bl2 A2 F n j :
  ready_to_load μ kctx bl A uctx bl2 A2 F n j →
  wp (filesz ← ph_filesz mi fault_state prog_hdr;
      memsz ← ph_memsz mi fault_state prog_hdr;
      if memsz <? filesz then ph_filesz mi fault_state prog_hdr else ph_memsz mi fault_state prog_hdr)
     (λ v μ', v = Z.max (seg_filesz file o) (seg_memsz file o) ∧ mc_phys μ' = mc_phys μ ∧
        calm t (mc_kernel μ) (mc_kernel μ') ∧ ready_to_load μ' kctx bl A uctx bl2 A2 F n j) μ.
Proof.
  intros R0. apply wp_bind. eapply wp_mono; [exact (ready_field 16 _ _ _ _ _ _ _ _ _ _ R0 ltac:(lia))|].
  cbn beta. intros _ μ1 (-> & P1 & C1 & R1).
  apply wp_bind. eapply wp_mono; [exact (ready_field 20 _ _ _ _ _ _ _ _ _ _ R1 ltac:(lia))|]. cbn beta. intros _ μ2 (-> & P2 & C2 & R2).
  change (le_at file (o + 20) 4) with (seg_memsz file o). change (le_at file (o + 16) 4) with (seg_filesz file o).
  assert (C : calm t (mc_kernel μ) (mc_kernel μ2)) by (by eapply calm_trans).
  destruct (Z.ltb_spec (seg_memsz file o) (seg_filesz file o)).
  - eapply wp_mono; [exact (ready_field 16 _ _ _ _ _ _ _ _ _ _ R2 ltac:(lia))|]. cbn beta. intros _ μ3 (-> & P3 & C3 & R3).
    split_and!; [unfold seg_filesz in *; lia|congruence|by eapply calm_trans|done].
  - eapply wp_mono; [exact (ready_field 20 _ _ _ _ _ _ _ _ _ _ R2 ltac:(lia))|]. cbn beta. intros _ μ3 (-> & P3 & C3 & R3).
    split_and!; [unfold seg_memsz in *; lia|congruence|by eapply calm_trans|done].
Qed.

Lemma handle_loadable_segment_ok kctx bl A uctx bl2 A2 F (n j : nat) μ :
  ready_to_load μ kctx bl A uctx bl2 A2 F n j →
  wp (handle_loadable_segment mi fault_state (task_paging_ctx t) kctx uctx prog_hdr raw_elf)
     (λ r μ', ∃ p, segment_loaded μ kctx bl A bl2 A2 F n j p r μ') μ.
Proof.
  intros Hrl. pose proof (ready_size _ _ _ _ _ _ _ _ _ _ Hrl) as W. unfold handle_loadable_segment.
  apply wp_bind. eapply wp_mono; [exact (wp_bind_inv _ _ _ _ W)|]. clear W. intros filesz μ1 W.
  apply wp_bind. eapply wp_mono; [exact (wp_bind_inv _ _ _ _ W)|]. clear W. intros memsz μ2 W.
  apply wp_bind. eapply wp_mono; [exact W|]. clear W. cbn beta. intros v μ3 (-> & P3 & C3 & R3).
  apply wp_bind. eapply wp_mono; [exact (ready_field 16 _ _ _ _ _ _ _ _ _ _ R3 ltac:(lia))|]. cbn beta. intros _ μ4 (-> & P4 & C4 & R4).
  rewrite one_page_count. change (Z.to_nat 1) with 1%nat. cbn [load_pages].
  apply wp_bind. eapply wp_mono; [by apply (load_page_ok kctx bl A uctx bl2 A2 F n j)|]. cbn beta.
  intros r μ5 [p Hl]. apply wp_ret. exists p. eapply loaded_calm; [exact Hl|congruence|by eapply calm_trans].
Qed.

(** The address of the first program header. *)
Lemma first_header header :
  e_phoff header = Z.of_nat o → u32 (raw_elf + u32 (e_phoff header + 0 * e_phentsize header)) = prog_hdr.
Proof.
  intros Hoff. rewrite Hoff, Z.mul_0_l, Z.add_0_r. rewrite PAGE_SIZE_val in Hlen.
  rewrite (u32_small (Z.of_nat o)) by (unfold is_u32; lia).
  apply u32_small, page_u32; [done|lia|]. rewrite Hral, PAGE_SIZE_val. lia.
Qed.

(** A program with one loadable segment that lies in one page is loaded: the lowest
    free frame is taken for it, the new task's address space has the page with the
    segment's flags in this frame, the frame holds the segment's bytes of the file
    followed by zeros, at the segment's offset in the page, and no other memory has
    changed.  The kernel task goes on with the address space it had: the same memory is
    free and mapped, and only an allocation without pages is left of the page through
    which the segment was written; all other address spaces are as before. *)
Theorem elf_load_loads header kctx bl A uctx bl2 A2 F n j μ :
  ready_to_load μ kctx bl A uctx bl2 A2 F n j →
  e_phnum header = 1 → e_phoff header = Z.of_nat o → le_at file o 4 = ELF_PROG_HDR_TYPE_LOAD →
  wp (elf_load mi fault_state (task_paging_ctx t) kctx uctx header raw_elf)
     (λ r μ', ∃ p, segment_loaded μ kctx bl A bl2 A2 F n j p r μ') μ.
Proof.
  intros Hrl Hn Hoff Hty. unfold elf_load. rewrite Hn. change (Z.to_nat 1) with 1%nat. cbn [load_segments].
  cbn zeta. rewrite (first_header header Hoff). apply wp_bind. unfold ph_type.
  eapply (wp_field o); [unfold prog_hdr; lia|lia|apply Hrl|apply Hrl|]. intros μ1 P1 C1 K1.
  rewrite Hty. cbn [Z.eqb ELF_PROG_HDR_TYPE_NULL ELF_PROG_HDR_TYPE_LOAD Pos.eqb]. apply wp_bind. eapply wp_mono.
  { apply (handle_loadable_segment_ok kctx bl A uctx bl2 A2 F n j). by eapply ready_calm. }
  cbn beta. intros [kctx' uctx'] μ2 [p Hl]. apply wp_ret. exists p. by eapply loaded_calm.
Qed.

(** *** Segments that do not lie in one page *)

(** The page of [x] is in no allocation and has no entry. *)
Definition blocked (A : list vmm_allocation) F (x : Z) : Prop :=
  is_u32 x ∧ E (x / PAGE_SIZE) ∧ F (x / PAGE_SIZE) = None ∧ ∀ a, a ∈ A → ¬ contains a (paging_align_addr x).

Lemma blocked_no_page k A F x : on_cpu mi t E k A F → blocked A F x → no_page_at mi t k A x.
Proof. intros Hcpu (Hx & HE & HF & Hno). split_and!; [done|by apply (oc_view _ _ _ _ _ _ Hcpu)|done]. Qed.

(** A segment whose data go beyond its first page, at an offset in the file that is not
    behind that in the page. *)
Record overruns : Prop := {
  ov_file : Z.of_nat (length file) = PAGE_SIZE;
  ov_cross : PAGE_SIZE < seg_vaddr file o mod PAGE_SIZE + seg_filesz file o;
  ov_offset : seg_offset file o <= seg_vaddr file o mod PAGE_SIZE;
  ov_size : Z.max (seg_filesz file o) (seg_memsz file o) <= 2 ^ 32 - PAGE_SIZE;
  ov_low : PAGE_SIZE <= seg_vaddr file o;
  ov_high : seg_page file o + PAGE_SIZE < 2 ^ 32
}.
Lemma copy_overruns A F f μ :
  overruns → on_cpu mi t E (mc_kernel μ) A F → file_in μ F → F (seg_vaddr file o / PAGE_SIZE) = Some f →
  frame_ok f → mapped (mc_phys μ) f PAGE_SIZE → f + PAGE_SIZE <= epa ∨ epa + PAGE_SIZE <= f →
  blocked A F (seg_page file o + PAGE_SIZE) → blocked A F (raw_elf + PAGE_SIZE) →
  memcpy (seg_vaddr file o) (u32 (raw_elf + seg_offset file o + 0 * PAGE_SIZE)) (seg_filesz file o) μ =
  Err (EPanic "invalid VMM state").
Proof.
  intros [Hlen4 Hcr Hoff _ Hlow Hhigh] Hcpu [HFe Hb] HF Hf Hmap Hap Hb1 Hb2.
  destruct seg_ranges as (Hou & Hvu & Hfu & _).
  pose proof (Z.mod_pos_bound (seg_vaddr file o) PAGE_SIZE ltac:(done)) as Hvm. unfold is_u32 in Hou, Hfu.
  destruct (in_page raw_elf (seg_offset file o)) as [Ep Em]; [lia|rewrite Hral; lia|]. rewrite Hral in Em.
  assert (Hsrc : u32 (raw_elf + seg_offset file o + 0 * PAGE_SIZE) = raw_elf + seg_offset file o).
  { rewrite Z.add_0_r. apply u32_small, page_u32; [done|lia|rewrite Hral; lia]. }
  rewrite Hsrc. apply bind_err. set (m := PAGE_SIZE - seg_vaddr file o mod PAGE_SIZE) in *.
  set (l := take (Z.to_nat m) (drop (Z.to_nat (seg_offset file o)) file)).
  assert (Hl : length l = Z.to_nat m) by (unfold l; rewrite length_take, length_drop; lia).
  replace (Z.to_nat (seg_filesz file o)) with (length l + S (Z.to_nat (seg_filesz file o - m - 1)))%nat by lia.
  rewrite memcpy_loop_app.
  destruct (mapped_bytes (mc_phys μ) (f + seg_vaddr file o mod PAGE_SIZE) m) as (old & Hold & Elen); [lia| |].
  { intros x Hx. apply Hmap. lia. }
  eapply wp_fails.
  { apply (memcpy_in_page mi fault_state Hhh Hhr t E (seg_vaddr file o) (raw_elf + seg_offset file o) 0 l old A F f epa);
      rewrite ?Ep, ?Em, ?Z.add_0_r; try done; [apply page_u32; [done|lia|rewrite Hral; lia]|lia|lia| |lia].
    intros n b Hnb. unfold l in Hnb. apply lookup_take_Some in Hnb as [Hnb _]. rewrite lookup_drop in Hnb.
    destruct (Hb _ _ Hnb) as [Eb ?]. split; [|done]. rewrite <- Eb. f_equal. lia. }
  cbn beta. rewrite Z.add_0_r. intros _ μ1 (_ & Hso & C1 & K1). cbn [memcpy_loop].
  rewrite Hl, Z.add_0_l, Z2Nat.id by lia.
  assert (Hto : seg_vaddr file o + m = seg_page file o + PAGE_SIZE).
  { unfold m, seg_page. rewrite PAGE_SIZE_val. Z.div_mod_to_equations. lia. }
  destruct (decide (seg_offset file o + m = PAGE_SIZE)) as [Hend|Hend].
  - apply bind_err. replace (raw_elf + seg_offset file o + m) with (raw_elf + PAGE_SIZE) by lia.
    by apply (load_panics mi fault_state Hhr t E _ A F), (blocked_no_page _ A F).
  - destruct (lookup_lt_is_Some_2 file (Z.to_nat (seg_offset file o + m))) as [b Hfb]; [lia|].
    apply (wp_fails _ _ (λ _ μ2, on_cpu mi t E (mc_kernel μ2) A F)).
    + rewrite <- Z.add_assoc. apply (load_in_page mi fault_state Hhh Hhr t E raw_elf _ b A F epa); try done; [lia|rewrite Hral; lia|].
      rewrite Hral, Z.add_0_r. destruct (Hb _ _ Hfb) as [Eb _]. rewrite Z2Nat.id in Eb by lia. rewrite Hso; [done|lia].
    + intros c μ2 K2. apply bind_err. rewrite Hto.
      by apply (store_panics mi fault_state Hhr t E _ _ A F), (blocked_no_page _ A F).
Qed.

Lemma overruns_pages :
  overruns → ∃ n, Z.to_nat (paging_page_count (Z.max (seg_filesz file o) (seg_memsz file o))) = S n.
Proof.
  intros [_ Hc _ Hs _ _]. exists (Nat.pred (Z.to_nat (paging_page_count (Z.max (seg_filesz file o) (seg_memsz file o))))).
  destruct seg_ranges as (_ & _ & Hfu & Hmu). unfold paging_page_count. rewrite PAGE_SIZE_val in *.
  pose proof (Z.mod_pos_bound (seg_vaddr file o) 4096 ltac:(done)). ulia.
Qed.

Lemma blocked_add A F x f fl :
  blocked A F x → x / PAGE_SIZE ≠ seg_vaddr file o / PAGE_SIZE →
  blocked (Allocation (seg_page file o) f 1 fl :: A) (add_page (seg_vaddr file o / PAGE_SIZE) f F) x.
Proof.
  intros (Hx & HE & HF & Hno) Hne. split_and!; [done|done|unfold add_page; by rewrite decide_False|].
  intros a [->|Ha]%elem_of_cons; [|by apply Hno]. unfold contains, alloc_end, paging_align_addr, seg_page. simpl.
  rewrite PAGE_SIZE_val in *. lia.
Qed.

Lemma load_page_overruns kctx bl A uctx bl2 A2 F n j μ :
  overruns → ready_to_load μ kctx bl A uctx bl2 A2 F n j →
  blocked A F (seg_page file o + PAGE_SIZE) → blocked A F (raw_elf + PAGE_SIZE) →
  raw_elf + PAGE_SIZE ≠ seg_page file o →
  load_page mi fault_state (task_paging_ctx t) prog_hdr raw_elf 0 (seg_filesz file o) kctx uctx μ =
  Err (EPanic "invalid VMM state").
Proof.
  intros Hov Hrl Hb1 Hb2 Hne.
  destruct seg_ranges as (_ & Hvu & _). pose proof (ov_low Hov) as Hlow. pose proof (ov_high Hov) as Hhigh.
  pose proof (file_page_apart _ _ _ _ _ _ _ _ _ _ Hrl) as Hfp.
  unfold load_page. eapply wp_fails.
  { exact (ready_field 8 _ _ _ _ _ _ _ _ _ _ Hrl ltac:(lia)). }
  cbn beta. intros _ μ1 (-> & P1 & C1 & R1). pose proof R1 as [K1 Htwo1 Hroot Hroom1 Hpg1 _ _ Hfin1 _ Hfree _ [HE HFn] _].
  change (le_at file (o + 8) 4) with (seg_vaddr file o). rewrite Z.add_0_r, (u32_small (seg_vaddr file o)) by done.
  change (paging_align_addr (seg_vaddr file o)) with (seg_page file o). cbn zeta.
  apply (wp_fails _ _ (λ pa μ2, ∃ p, next_frame (k_bitmap (mc_kernel μ1)) p ∧ pa = p * PAGE_SIZE ∧ is_u32 pa ∧
    pa mod PAGE_SIZE = 0 ∧ μ2 = mk_machine (set_bitmap (mark p (k_bitmap (mc_kernel μ1))) (mc_kernel μ1)) (mc_phys μ1))).
  { apply wp_zoom. eapply wp_mono; [exact (take_page_ok n _ Hpg1)|]. cbn beta.
    intros pa k' (p & ? & ? & ? & ? & -> & _). by exists p. }
  intros pa μ2 (p & Hp & -> & Hpu & Hpal & Eμ2).
  destruct (new_frame _ _ _ _ _ _ _ _ _ _ p R1 Hp) as (Hnz & Hfo & Hmap & Hap).
  assert (K2 : on_cpu mi t E (mc_kernel μ2) A F) by (rewrite Eμ2; by eapply on_cpu_same).
  assert (Hfin2 : file_in μ2 F) by (unfold file_in in *; by rewrite Eμ2).
  apply (wp_fails _ _ (λ v μ3, v = le_at file (o + 24) 4 ∧ mc_phys μ3 = mc_phys μ2 ∧
    calm t (mc_kernel μ2) (mc_kernel μ3) ∧ on_cpu mi t E (mc_kernel μ3) A F)).
  { unfold ph_flags. field 24%nat. by intros. }
  intros _ μ3 (-> & P3 & (Cs3 & Cv3 & Cb3 & _) & K3). fold (seg_flags file o).
  assert (Hfin3 : file_in μ3 F) by (unfold file_in in *; by rewrite P3).
  eapply wp_fails.
  { apply (map_kernel_page (seg_vaddr file o) (p * PAGE_SIZE) (seg_flags file o) kctx bl A uctx bl2 A2 F (3 + j) μ3);
      try done; [by rewrite Cv3, Eμ2|by rewrite Cs3, Eμ2|apply seg_flags_ok]. }
  cbn beta zeta. fold (seg_page file o). set (a := Allocation _ _ _ _).
  intros kr μ4 (P4 & _ & _ & _ & _ & _ & _ & _ & K4).
  pose proof (file_in_add μ3 μ4 F (p * PAGE_SIZE) Hfin3 P4 Hfp) as Hfin4.
  apply (wp_fails _ _ (λ v μ5, v = seg_offset file o ∧ mc_phys μ5 = mc_phys μ4 ∧
    on_cpu mi t E (mc_kernel μ5) (a :: A) (add_page (seg_vaddr file o / PAGE_SIZE) (p * PAGE_SIZE) F))).
  { unfold ph_offset. field 4%nat. by intros. }
  intros _ μ5 (-> & P5 & K5). apply bind_err.
  apply (copy_overruns (a :: A) (add_page (seg_vaddr file o / PAGE_SIZE) (p * PAGE_SIZE) F) (p * PAGE_SIZE)); try done.
  - unfold file_in in *. by rewrite P5.
  - unfold add_page. by rewrite decide_True.
  - rewrite P5, P4, P3, Eμ2. exact Hmap.
  - apply blocked_add; [done|]. unfold seg_page. rewrite PAGE_SIZE_val. Z.div_mod_to_equations. lia.
  - apply blocked_add; [done|]. unfold seg_page in Hne. rewrite PAGE_SIZE_val in *. Z.div_mod_to_equations. lia.
Qed.

(** C22: a program with a loadable segment that goes beyond its first page cannot be
    loaded: memcpy copies all of the file's data in the first iteration, when only the
    first page is mapped, and the page fault at the end of the page halts the machine. *)
Theorem segment_overrun_panics header kctx bl A uctx bl2 A2 F n j μ :
  overruns → ready_to_load μ kctx bl A uctx bl2 A2 F n j →
  blocked A F (seg_page file o + PAGE_SIZE) → blocked A F (raw_elf + PAGE_SIZE) →
  raw_elf + PAGE_SIZE ≠ seg_page file o →
  0 < e_phnum header → e_phoff header = Z.of_nat o → le_at file o 4 = ELF_PROG_HDR_TYPE_LOAD →
  elf_load mi fault_state (task_paging_ctx t) kctx uctx header raw_elf μ = Err (EPanic "invalid VMM state").
Proof.
  intros Hov Hrl Hb1 Hb2 Hne Hn Hoff Hty. unfold elf_load.
  replace (Z.to_nat (e_phnum header)) with (S (Z.to_nat (e_phnum header - 1))) by lia. cbn [load_segments]. cbn zeta.
  rewrite (first_header header Hoff).
  eapply wp_fails; [exact (ready_field 0 _ _ _ _ _ _ _ _ _ _ Hrl ltac:(lia))|]. cbn beta.
  rewrite Nat.add_0_r, Hty. intros _ μ1 (-> & _ & _ & R1). cbn [Z.eqb ELF_PROG_HDR_TYPE_NULL ELF_PROG_HDR_TYPE_LOAD Pos.eqb].
  apply bind_err. pose proof (ready_size _ _ _ _ _ _ _ _ _ _ R1) as W. unfold handle_loadable_segment.
  eapply wp_fails; [exact (wp_bind_inv _ _ _ _ W)|]. clear W. intros filesz μ2 W.
  eapply wp_fails; [exact (wp_bind_inv _ _ _ _ W)|]. clear W. intros memsz μ3 W.
  eapply wp_fails; [exact W|]. clear W. cbn beta. intros v μ4 (-> & _ & _ & R4).
  eapply wp_fails; [exact (ready_field 16 _ _ _ _ _ _ _ _ _ _ R4 ltac:(lia))|]. cbn beta.
  intros _ μ5 (-> & _ & _ & R5). change (le_at file (o + 16) 4) with (seg_filesz file o).
  destruct (overruns_pages Hov) as [m ->]. cbn [load_pages]. apply bind_err.
  by apply (load_page_overruns kctx bl A uctx bl2 A2 F n j).
Qed.

(** The loop stops at the first program header of type NULL: what follows it is not
    loaded, and nothing has changed; any other type than NULL and LOAD halts the machine. *)
Theorem elf_load_first_type header kctx uctx A F μ :
  on_cpu mi t E (mc_kernel μ) A F → file_in μ F → 0 < e_phnum header → e_phoff header = Z.of_nat o →
  (le_at file o 4 = ELF_PROG_HDR_TYPE_NULL →
   wp (elf_load mi fault_state (task_paging_ctx t) kctx uctx header raw_elf)
      (λ r μ', r = (kctx, uctx) ∧ mc_phys μ' = mc_phys μ ∧ calm t (mc_kernel μ) (mc_kernel μ')) μ) ∧
  (le_at file o 4 ≠ ELF_PROG_HDR_TYPE_NULL → le_at file o 4 ≠ ELF_PROG_HDR_TYPE_LOAD →
   elf_load mi fault_state (task_paging_ctx t) kctx uctx header raw_elf μ =
   Err (EPanic "unsupported program header type %d")).
Proof.
  intros Hcpu Hfin Hn Hoff. unfold elf_load.
  replace (Z.to_nat (e_phnum header)) with (S (Z.to_nat (e_phnum header - 1))) by lia. cbn [load_segments]. cbn zeta.
  rewrite (first_header header Hoff). split.
  - intros Hty. apply wp_bind. unfold ph_type. eapply (wp_field o); [unfold prog_hdr; lia|lia|done|done|].
    intros μ1 P1 C1 _. rewrite Hty. by apply wp_ret.
  - intros Hz Hl. apply (wp_fails _ _ (λ v _, v = le_at file o 4)).
    + unfold ph_type. eapply (wp_field o); [unfold prog_hdr; lia|lia|done|done|]. by intros.
    + intros _ μ1 ->. by rewrite (proj2 (Z.eqb_neq _ _) Hz), (proj2 (Z.eqb_neq _ _) Hl).
Qed.

End Segment.

(** ** Witnesses *)

(** Every frame may be handed out. *)
#[local] Instance all_frames : Limit := 2 ^ 20.

(** The address space [space0] with the first 8 MB of the upper part taken, and the page
    behind them, where the file is. *)
Definition space5 : vmm_context * vmm_store kheap :=
  after_map (after_map space0 0xC0000000 0 0x800 3) 0xC0800000 0x300000 1 3.
Definition free5 : list (Z * Z) := [(0, 0xC0000); (0xC0801000, 0x3F7FF)].
Definition allocs5 : list vmm_allocation :=
  [Allocation 0xC0800000 0x300000 1 3; Allocation 0xC0000000 0 0x800 3].

Lemma space5_room k :
  room (vs_heap space0.2) (4 + k) → ctx_rep space5.2 space5.1 free5 allocs5 ∧ room (vs_heap space5.2) k.
Proof.
  intros Hroom.
  destruct (took_at meminfo0 0xC0000000 0x800 false [(0, 0xC0000); (0xC0000000, 0x40000)])
    as (bl1 & Hrem1 & Htook1 & _); [by vm_compute..| |].
  { exists (0xC0000000, 0x40000). split; [right; left|by vm_compute]. }
  vm_compute in Hrem1. injection Hrem1 as <-.
  destruct (took_at meminfo0 0xC0800000 1 false [(0, 0xC0000); (0xC0800000, 0x3F800)])
    as (bl2 & Hrem2 & Htook2 & _); [by vm_compute..| |].
  { exists (0xC0800000, 0x3F800). split; [right; left|by vm_compute]. }
  vm_compute in Hrem2. injection Hrem2 as <-.
  apply (after_map_rep _ [(0, 0xC0000); (0xC0800000, 0x3F800)] [Allocation 0xC0000000 0 0x800 3]
    0xC0800000 0x300000 1 3 0xC0800000 free5 k); [|by vm_compute..|exact Htook2].
  apply (after_map_rep space0 [(0, 0xC0000); (0xC0000000, 0x40000)] [] 0xC0000000 0 0x800 3 0xC0000000
    [(0, 0xC0000); (0xC0800000, 0x3F800)] (2 + k)); [|by vm_compute..|exact Htook1].
  split; [apply space0_rep|exact Hroom].
Qed.

Lemma space5_rep : ctx_rep space5.2 space5.1 free5 allocs5 ∧ room (vs_heap space5.2) 18.
Proof. by apply space5_room, space0_room. Qed.

(** A copy of it for the new task. *)
Definition cloned5 : vmm_context * vmm_store kheap :=
  match vmm_clone_context zero_node space5.1 space5.2 with Ok r => r | Err _ => space5 end.

Lemma cloned5_spaces :
  two_spaces ∅ [] cloned5.2 space5.1 free5 allocs5 cloned5.1 free5 allocs5 ∧ room (vs_heap cloned5.2) 12.
Proof.
  destruct space5_rep as [Hrep%spaces_one Hroom]. unfold cloned5. destruct space5 as [ctx s]. cbn [fst snd] in *.
  pose proof (vmm_clone_context_ok zero_node zero_node_null ctx free5 allocs5 [] 12 s Hrep Hroom) as W.
  apply wp_ok in W as (ctx2 & s2 & E & Hsp & Hr). rewrite E. split; [|exact Hr].
  apply two_spaces_sym, spaces_reserve_none, Hsp.
Qed.

(** The kernel's task, with the file's page in its view. *)
Definition loader_task : task_control_block :=
  mk_task 0 0x7000 (vmm_virtual_to_physical meminfo0 (page_directory ctx0)) 0x8000 space5.1 ctx0 0.
Definition loader_kernel : kernel kheap :=
  mk_kernel (SchedStore (vs_heap cloned5.2) {[ 0x500 := loader_task ]} ∅ 0 0 0
               (mk_task_list 0x500 TASK_PRIORITY_LOW 0) 1
               (mk_cpu_state 0 (virtual_addr_space loader_task) 0))
    (vs_blocks cloned5.2) (vs_nodes cloned5.2) bitmap3 ∅ ps2_0 8.
Definition loader_machine (file : list Z) : machine kheap :=
  mk_machine loader_kernel (mem_of 0x300000 file ∪ mem_of 0x600000 (replicate 4096 0)).

Definition file_page : Z → option Z := λ n, if decide (n = 0xC0800) then Some 0x300000 else None.
Definition any_page (n : Z) : Prop := True.

Lemma vmm_of_loader : vmm_of loader_kernel = cloned5.2.
Proof. unfold vmm_of, loader_kernel. by destruct cloned5 as [? []]. Qed.

Lemma loader_cpu : on_cpu meminfo0 loader_task any_page loader_kernel allocs5 file_page.
Proof.
  assert (Hno : ∀ x, region_ok meminfo0 ctx0 ∅ x ∧ present (word ∅ (pte_addr ctx0 x)) = false).
  { intros x. split; unfold region_ok, word; rewrite lookup_empty; [intros Hp; by vm_compute in Hp|by vm_compute]. }
  split.
  - split; [done|exact ctx0_ok| |].
    + exists space5.1, free5. split; [done|]. rewrite vmm_of_loader. eapply two_spaces_left, cloned5_spaces.
    + intros a [->|[->|Ha%elem_of_nil]%elem_of_cons]%elem_of_cons; [..|done]; split_and!; by vm_compute.
  - done.
  - exact ctx0_apart.
  - split; intros x.
    + intros f _ _. destruct (Hno x) as [Hr Hp]. split; [exact Hr|]. cbn [task_paging_ctx loader_task k_words loader_kernel].
      by rewrite Hp.
    + intros _ _ _. exact (Hno x).
  - intros n f. unfold file_page. case_decide as En; [|done]. intros [= <-]. subst n.
    right. exists (Allocation 0xC0800000 0x300000 1 3). split_and!; [by left|by vm_compute..].
Qed.

Lemma lowest3 p : next_frame bitmap3 p → p = 0x600.
Proof.
  intros (_ & Hp & Hfree & Hlow)%next_frame_lowest. unfold page_used in Hfree. rewrite bitmap3_byte in Hfree.
  case_decide as Hi.
  - change 255 with (Z.ones 8) in Hfree. rewrite Z.ones_spec_low in Hfree by ulia. done.
  - destruct (Z.lt_trichotomy p 0x600) as [|[|]]; [ulia|done|].
    specialize (Hlow 0x600 ltac:(lia)). unfold page_used in Hlow. by rewrite bitmap3_byte in Hlow.
Qed.

(** Program headers for a segment at 0x8048054, and the files with them. *)
Definition phdr_bytes (type offset vaddr filesz memsz flags : Z) : list Z :=
  concat (le_bytes 4 <$> [type; offset; vaddr; vaddr; filesz; memsz; flags; 0x1000]).
Definition hello_file : list Z :=
  header_bytes hello_hdr ++ phdr_bytes 1 84 0x8048054 16 32 6 ++ seqZ 1 16.
Definition big_file : list Z :=
  header_bytes hello_hdr ++ phdr_bytes 1 84 0x8048054 0x1000 0x1000 6 ++ replicate 4012 0x90.
Definition null_file : list Z :=
  header_bytes hello_hdr ++ phdr_bytes 0 0 0 0 0 0 ++ phdr_bytes 1 84 0x8048054 16 32 6.

Lemma bytes_mapped m p l n : bytes_at m p l → n = Z.of_nat (length l) → mapped m p n.
Proof.
  intros Hb -> x Hx. destruct (lookup_lt_is_Some_2 l (Z.to_nat (x - p))) as [b Hl]; [lia|].
  destruct (Hb _ _ Hl) as [Hm ?]. exists b. split; [|done]. rewrite <- Hm. f_equal. lia.
Qed.

(** The file is in memory, and so is the frame for the segment. *)
Definition file_at (file : list Z) : Prop :=
  bytes_at (mc_phys (loader_machine file)) 0x300000 file ∧
  bytes_at (mc_phys (loader_machine file)) 0x600000 (replicate 4096 0).

Lemma loader_ready file :
  file_at file → seg_page file 52 = 0x8048000 →
  ready_to_load meminfo0 loader_task any_page 0xC0800000 0x300000 file ∅ [] 52
    (loader_machine file) space5.1 free5 allocs5 cloned5.1 free5 allocs5 file_page 10 7.
Proof.
  intros [Hfile Hframe] Hpage. split.
  - exact loader_cpu.
  - cbn [mc_kernel loader_machine]. rewrite vmm_of_loader. apply cloned5_spaces.
  - done.
  - apply cloned5_spaces.
  - exact bitmap3_pages.
  - by vm_compute.
  - intros p ->%lowest3. by eapply bytes_mapped.
  - done.
  - split; by vm_compute.
  - rewrite Hpage. exists (0, 0xC0000). split; [left|by vm_compute].
  - rewrite Hpage. exists (0, 0xC0000). split; [left|by vm_compute].
  - split; [done|]. unfold file_page. rewrite decide_False; [done|]. unfold seg_page in Hpage.
    rewrite PAGE_SIZE_val in *. lia.
  - split; rewrite ?Hpage; [by vm_compute|by vm_compute|done|by apply no_stub_at|].
    intros m f. unfold file_page. case_decide as Em; [|done]. subst m. intros _ Ed. exfalso.
    rewrite !PAGE_DIRECTORY_INDEX_div in Ed. unfold seg_page in Hpage. rewrite PAGE_SIZE_val in *. change (2 ^ 22) with 4194304 in Ed.
    Z.div_mod_to_equations. lia.
Qed.

Lemma mem_of_below p l x : x < p → mem_of p l !! x = None.
Proof.
  revert p. induction l as [|b l IH]; intros p Hx; simpl; [apply lookup_empty|].
  rewrite lookup_insert_ne by lia. apply IH. lia.
Qed.

Lemma mem_of_lookup p l i : mem_of p l !! (p + Z.of_nat i) = l !! i.
Proof.
  revert p i. induction l as [|b l IH]; intros p i; simpl; [by rewrite lookup_empty|].
  destruct i as [|i]; [by rewrite Z.add_0_r, lookup_insert_eq|].
  rewrite lookup_insert_ne by lia. simpl. rewrite <- (IH (p + 1) i). f_equal. lia.
Qed.

Lemma file_at_ok file : Forall is_u8 file → Z.of_nat (length file) <= PAGE_SIZE → file_at file.
Proof.
  intros Hb Hl. rewrite PAGE_SIZE_val in Hl. split; intros i b Hi.
  - split; [|by eapply Forall_lookup_1]. apply lookup_union_Some_l. by rewrite mem_of_lookup.
  - split; [|by apply lookup_replicate_1 in Hi as [-> _]]. cbn [mc_phys loader_machine].
    rewrite lookup_union_r; [by rewrite mem_of_lookup|].
    replace (0x600000 + Z.of_nat i) with (0x300000 + Z.of_nat (Z.to_nat 0x300000 + i)) by lia.
    rewrite mem_of_lookup. apply lookup_ge_None. lia.
Qed.

Lemma byte_list l : forallb (λ b, bool_decide (is_u8 b)) l = true → Forall is_u8 l.
Proof.
  rewrite forallb_forall. intros Hl. apply Forall_forall. intros b Hb. apply (bool_decide_eq_true_1 (is_u8 b)), Hl.
  by apply list_elem_of_In.
Qed.

Lemma hello_bytes : Forall is_u8 hello_file.
Proof. apply byte_list. by vm_compute. Qed.
Lemma big_bytes : Forall is_u8 big_file.
Proof.
  unfold big_file. rewrite !Forall_app. split_and!; [apply byte_list; by vm_compute..|]. by apply Forall_replicate.
Qed.
Lemma big_length : length big_file = 4096%nat.
Proof. unfold big_file. by rewrite !length_app, length_replicate. Qed.
Lemma null_bytes : Forall is_u8 null_file.
Proof. apply byte_list. by vm_compute. Qed.

(** The segment of [hello_file] is its last sixteen bytes and sixteen zeros. *)
Lemma elf_load_loads_witness :
  seg_bytes hello_file 52 = seqZ 1 16 ++ replicate 16 0 ∧
  wp (elf_load meminfo0 state0 ctx0 space5.1 cloned5.1 hello_hdr 0xC0800000)
     (λ r μ', bytes_at (mc_phys μ') 0x600054 (seg_bytes hello_file 52)) (loader_machine hello_file).
Proof.
  split; [by vm_compute|]. eapply wp_mono.
  - apply (elf_load_loads meminfo0 state0 (proj1 meminfo0_base) (proj2 meminfo0_base) loader_task any_page
      0xC0800000 0x300000 hello_file ltac:(by vm_compute) ltac:(by vm_compute) ltac:(by vm_compute)
      ltac:(by vm_compute) ∅ [] 52 ltac:(apply Nat.leb_le; by vm_compute)
      ltac:(split; by vm_compute) hello_bytes hello_hdr space5.1 free5 allocs5 cloned5.1 free5 allocs5
      file_page 10 7).
    + apply loader_ready; [apply file_at_ok; [exact hello_bytes|by vm_compute]|by vm_compute].
    + by vm_compute.
    + by vm_compute.
    + by vm_compute.
  - cbn beta. intros r μ' (p & [Hp _ _ Hb _ _ _ _ _ _]). apply lowest3 in Hp. subst p. exact Hb.
Defined.

(** Pages outside the allocations. *)
Lemma blocked5 x :
  is_u32 x → 0xC0801000 <= paging_align_addr x ∨ paging_align_addr x < 0xC0000000 → blocked any_page allocs5 file_page x.
Proof.
  intros Hx Hout. unfold paging_align_addr in Hout. rewrite PAGE_SIZE_val in Hout. split_and!; [done|done| |].
  - unfold file_page. rewrite decide_False; [done|]. rewrite PAGE_SIZE_val. lia.
  - intros a [->|[->|Ha%elem_of_nil]%elem_of_cons]%elem_of_cons; [..|done]; unfold contains, alloc_end, paging_align_addr;
      cbn [virtual_addr page_count]; rewrite PAGE_SIZE_val; lia.
Qed.

(** The segment of [big_file] begins where that of [hello_file] does and has 4 KB. *)
Lemma segment_overrun_panics_witness :
  elf_load meminfo0 state0 ctx0 space5.1 cloned5.1 hello_hdr 0xC0800000 (loader_machine big_file) =
  Err (EPanic "invalid VMM state").
Proof.
  apply (segment_overrun_panics meminfo0 state0 (proj1 meminfo0_base) (proj2 meminfo0_base) loader_task any_page
      0xC0800000 0x300000 big_file ltac:(by vm_compute) ltac:(by vm_compute) ltac:(by vm_compute)
      ltac:(by rewrite big_length) ∅ [] 52 ltac:(rewrite big_length; lia)
      big_bytes hello_hdr space5.1 free5 allocs5 cloned5.1 free5 allocs5 file_page 10 7).
  - split; rewrite ?big_length; by vm_compute.
  - apply loader_ready; [apply file_at_ok; [exact big_bytes|by rewrite big_length]|by vm_compute].
  - apply blocked5; [by vm_compute|right; by vm_compute].
  - apply blocked5; [by vm_compute|left; by vm_compute].
  - by vm_compute.
  - by vm_compute.
  - by vm_compute.
  - by vm_compute.
Defined.

(** The second program header of [null_file] is not looked at. *)
Definition null_hdr : elf32_hdr :=
  mk_elf32_hdr (e_ident hello_hdr) 2 3 1 0x8048054 52 0 0 52 32 2 40 0 0.

Lemma elf_load_first_type_witness :
  wp (elf_load meminfo0 state0 ctx0 space5.1 cloned5.1 null_hdr 0xC0800000)
     (λ r μ', r = (space5.1, cloned5.1)) (loader_machine null_file).
Proof.
  assert (Hfile : file_in 0xC0800000 0x300000 null_file (loader_machine null_file) file_page).
  { split; [done|]. apply file_at_ok; [exact null_bytes|by vm_compute]. }
  assert (Hty : le_at null_file 52 4 = ELF_PROG_HDR_TYPE_NULL) by by vm_compute.
  eapply wp_mono.
  - exact (proj1 (elf_load_first_type meminfo0 state0 (proj1 meminfo0_base) (proj2 meminfo0_base) loader_task any_page
      0xC0800000 0x300000 null_file ltac:(by vm_compute) ltac:(by vm_compute) ltac:(by vm_compute)
      ltac:(by vm_compute) 52 ltac:(apply Nat.leb_le; by vm_compute) null_hdr space5.1 cloned5.1 allocs5 file_page
      (loader_machine null_file) loader_cpu Hfile ltac:(by vm_compute) ltac:(by vm_compute)) Hty).
  - by intros r μ' [? _].
Defined.
