(* ===== verification/Init.v ===== *)
(** * User tasks: init.c and init_user_mode.S

    init_create_user_task maps the file of a program, makes a task for it, copies the
    kernel's address space for the task, loads the program and maps the user stack.
    The address of the local variable [header] on the kernel stack and that of
    init_goto_user_mode are parameters.  Section UserMode models what the processor does
    from the end of the first switch to a user task until the program runs. *)

From S2P Require Import Prelude Allocator Kmalloc PageArith Vmm VmmRules VmmRanges VmmFree VmmTree VmmSpace.
From S2P Require Import Spaces VmmProps VmmClone Mem CString Pmm Paging Printk PortIo Ps2 Sched Elf Kernel Syscall PageFault.
From S2P Require Import Gdt Task System Mmu Loader.

Definition USER_STACK_TOP : Z := 0xA0000000.
Definition USER_STACK_PAGE_COUNT : Z := 10.
Definition USER_STACK_SIZE : Z := USER_STACK_PAGE_COUNT * PAGE_SIZE.

Section Operations.
Context {H : Type} `{Allocator H} (KERNEL_MEMINFO : kernel_meminfo) (fault_state : interrupt_state).
Context (junk : Z → vmm_allocation_tree).
Context (sched_halt_or_crash sched_remove_addr init_goto_user_mode_addr header_addr : Z).
Notation MM := (M (machine H)).
#[local] Instance init_bytes : ByteMemory (machine H) := mmu_bytes KERNEL_MEMINFO fault_state.

Definition user_page_flags : Z := Z.lor (Z.lor PAGE_FLAG_PRESENT PAGE_FLAG_WRITE) PAGE_FLAG_USER.

(** The loop that maps the user stack, from page [i] on. *)
Fixpoint map_user_stack (n : nat) (i : Z) (vmm_ctx : vmm_context) : M (kernel H) vmm_context :=
  match n with
  | O => mret vmm_ctx
  | S n =>
      physical_addr ← on_pmm pmm_alloc_page;
      r ← on_vmm (vmm_map_pages KERNEL_MEMINFO vmm_ctx
                    (u32 (USER_STACK_TOP - USER_STACK_SIZE + i * PAGE_SIZE)) physical_addr 1 user_page_flags);
      map_user_stack n (i + 1) r.2
  end.

(** The value of the local variable [header], which is passed to elf_load. *)
Fixpoint load_bytes (n : nat) (p : Z) : MM (list Z) :=
  match n with
  | O => mret []
  | S n => b ← load8 p; l ← load_bytes n (p + 1); mret (b :: l)
  end.

Definition load_elf_header : MM elf32_hdr :=
  l ← load_bytes (Z.to_nat sizeof_elf32_hdr) header_addr; mret (header_of l).

Definition load_tcb (p : Z) : MM task_control_block := on_kernel (on_sched (load_task p)).

Definition set_task_parent (parent : Z) (t : task_control_block) : task_control_block :=
  mk_task (pid t) (kernel_stack_top t) (virtual_addr_space t) (esp0 t) (task_vmm_context t)
          (task_paging_ctx t) parent.
Definition set_vmm_context (ctx : vmm_context) (t : task_control_block) : task_control_block :=
  mk_task (pid t) (kernel_stack_top t) (virtual_addr_space t) (esp0 t) ctx (task_paging_ctx t) (task_parent t).

(** Both contexts are passed by value: what happens to kern_vmm_ctx here does not reach
    the caller's variable. *)
Definition init_create_user_task (kern_paging_ctx : paging_context) (kern_vmm_ctx : vmm_context)
    (user_elf_physical_addr parent : Z) : MM Z :=
  r ← on_kernel (on_vmm (vmm_map_pages KERNEL_MEMINFO kern_vmm_ctx 0 user_elf_physical_addr 1 kernel_page_flags));
  let user_elf := r.1 in
  let kern_vmm_ctx := r.2 in
  let file_len := 1024 in
  res ← elf_parse_header user_elf file_len header_addr;
  if negb (res =? 0) then panic "failed to parse ELF: %d %u\n" else
  header ← load_elf_header;
  task ← on_kernel (task_create KERNEL_MEMINFO sched_halt_or_crash sched_remove_addr kern_paging_ctx kern_vmm_ctx
                      init_goto_user_mode_addr (e_entry header) true);
  t ← load_tcb task;
  _ ← on_kernel (store_task task (set_task_parent parent t));
  vmm_ctx ← on_kernel (on_vmm (vmm_clone_context junk kern_vmm_ctx));
  r ← elf_load KERNEL_MEMINFO fault_state kern_paging_ctx kern_vmm_ctx vmm_ctx header user_elf;
  vmm_ctx ← on_kernel (map_user_stack (Z.to_nat USER_STACK_PAGE_COUNT) 0 r.2);
  t ← load_tcb task;
  _ ← on_kernel (store_task task (set_vmm_context vmm_ctx t));
  mret task.

Definition init_create_task0 (kern_paging_ctx : paging_context) (kern_vmm_ctx : vmm_context)
    (user_elf_physical_addr : Z) : MM Z :=
  task ← init_create_user_task kern_paging_ctx kern_vmm_ctx user_elf_physical_addr 0;
  t ← load_tcb task;
  _ ← assert (pid t =? INIT_PID) "invalid PID for init task: %u";
  mret task.

End Operations.

(** ** Entering user mode

    The end of do_task_switch and init_user_mode.S, with the words of the kernel stack in
    [k_words].  [eflags] is what EFLAGS holds at the entry. *)

Definition FLAGS_INT_ENABLE_FLAG : Z := Z.shiftl 1 9.
Definition GDT_USER_RPL : Z := 3.

(** The bits of EFLAGS that pushf stores: RF and VM read as zero. *)
Definition EFLAGS_PUSHED : Z := 0xFCFFFF.

(** What iret loads: the registers of the task in user mode. *)
Record user_context : Type := mk_user_context {
  uc_eip : Z;
  uc_cs : Z;
  uc_eflags : Z;
  uc_esp : Z;
  uc_ss : Z;
  uc_ds : Z
}.

Section UserMode.
Context {H : Type}.
Notation KM := (M (kernel H)).

Definition cpu_sp : KM Z := gets (λ k, cpu_esp (ss_cpu (k_sched k))).
Definition stack_word (sp : Z) : KM Z := gets (λ k, word (k_words k) sp).

(** ret: the address of the function that runs next. *)
Definition cpu_ret : KM Z :=
  sp ← cpu_sp;
  fn ← stack_word sp;
  _ ← on_sched (set_esp (u32 (sp + 4)));
  mret fn.

Definition cpu_push (sp v : Z) : KM Z :=
  let sp := u32 (sp - 4) in
  _ ← on_words (modify (set_word sp v));
  mret sp.

Definition cpu_iret (sp ds : Z) : KM user_context :=
  eip ← stack_word sp;
  cs ← stack_word (u32 (sp + 4));
  flags ← stack_word (u32 (sp + 8));
  esp ← stack_word (u32 (sp + 12));
  ss ← stack_word (u32 (sp + 16));
  mret (mk_user_context eip cs flags esp ss ds).

Definition init_goto_user_mode (eflags : Z) : KM user_context :=
  let flags := Z.ldiff eflags FLAGS_INT_ENABLE_FLAG in
  let ds := Z.lor GDT_USER_DATA_SEGMENT GDT_USER_RPL in
  sp ← cpu_sp;
  esi ← stack_word sp;
  sp ← cpu_push sp (Z.lor GDT_USER_DATA_SEGMENT GDT_USER_RPL);
  sp ← cpu_push sp USER_STACK_TOP;
  sp ← cpu_push sp (Z.land flags EFLAGS_PUSHED);
  flags ← stack_word sp;
  _ ← on_words (modify (set_word sp (Z.lor flags FLAGS_INT_ENABLE_FLAG)));
  sp ← cpu_push sp (Z.lor GDT_USER_CODE_SEGMENT GDT_USER_RPL);
  sp ← cpu_push sp esi;
  cpu_iret sp ds.

(** The registers with which a program starts at [entry]. *)
Definition user_start (entry eflags : Z) (u : user_context) : Prop :=
  uc_eip u = entry ∧ uc_esp u = USER_STACK_TOP ∧ uc_cs u = 0x1B ∧ uc_ss u = 0x23 ∧ uc_ds u = 0x23 ∧
  uc_eflags u = Z.lor (Z.land eflags EFLAGS_PUSHED) FLAGS_INT_ENABLE_FLAG.

Lemma pushed_flags eflags :
  u32 (Z.lor (u32 (Z.land (Z.ldiff eflags FLAGS_INT_ENABLE_FLAG) EFLAGS_PUSHED)) FLAGS_INT_ENABLE_FLAG) =
  Z.lor (Z.land eflags EFLAGS_PUSHED) FLAGS_INT_ENABLE_FLAG.
Proof.
  assert (Hu : ∀ a b, u32 (Z.lor (u32 (Z.land a 0xFCFFFF)) b) = Z.lor (Z.land a 0xFCFFFF) (u32 b)).
  { intros a b. unfold u32. rewrite <- !Z.land_ones by lia. rewrite !Z.land_lor_distr_l, <- !Z.land_assoc. done. }
  unfold EFLAGS_PUSHED. rewrite Hu. change (u32 FLAGS_INT_ENABLE_FLAG) with 0x200. change FLAGS_INT_ENABLE_FLAG with 0x200.
  apply Z.bits_inj'. intros i Hi. rewrite !Z.lor_spec, !Z.land_spec, Z.ldiff_spec.
  by destruct (Z.testbit 0x200 i), (Z.testbit eflags i), (Z.testbit 0xFCFFFF i).
Qed.

Lemma init_goto_user_mode_ok eflags (k : kernel H) :
  let sp := cpu_esp (ss_cpu (k_sched k)) in
  20 <= sp < 2 ^ 32 → is_u32 (word (k_words k) sp) →
  wp (init_goto_user_mode eflags)
     (λ u k', user_start (word (k_words k) sp) eflags u ∧ k_sched k' = k_sched k) k.
Proof.
  intros sp Hsp Hw. unfold init_goto_user_mode, cpu_iret, cpu_push, cpu_sp, stack_word. fold sp.
  repeat (apply wp_bind || apply wp_gets || apply wp_ret || apply wp_zoom || apply wp_modify). fold sp.
  cbn [k_words set_words]. rewrite !word_set.
  assert (E4 : u32 (sp - 4) = sp - 4) by (apply u32_small; unfold is_u32; lia).
  assert (E8 : u32 (sp - 4 - 4) = sp - 8) by (rewrite u32_small by (unfold is_u32; lia); lia).
  assert (E12 : u32 (sp - 8 - 4) = sp - 12) by (rewrite u32_small by (unfold is_u32; lia); lia).
  assert (E16 : u32 (sp - 12 - 4) = sp - 16) by (rewrite u32_small by (unfold is_u32; lia); lia).
  assert (E20 : u32 (sp - 16 - 4) = sp - 20) by (rewrite u32_small by (unfold is_u32; lia); lia).
  rewrite E4, E8, E12, E16, E20, !(u32_small (sp - 20 + _)) by (unfold is_u32; lia).
  repeat first [rewrite decide_True by lia|rewrite decide_False by lia].
  split; [|done]. unfold user_start. cbn [uc_eip uc_esp uc_cs uc_ss uc_ds uc_eflags].
  split_and!; [by apply u32_small|exact eq_refl..|apply pushed_flags].
Qed.

(** The first switch to the user task at [p], with the function that it enters. *)
Definition start_user_task (p eflags : Z) : KM (Z * user_context) :=
  _ ← on_sched (do_task_switch p);
  fn ← cpu_ret;
  u ← init_goto_user_mode eflags;
  mret (fn, u).

End UserMode.

(** ** The user stack *)

Section UserStack.
Context {H : Type} `{Allocator H} {FL : Limit} (mi : kernel_meminfo) (kept : gmap Z Z) (O : list space).
Implicit Types (k : kernel H).

Definition user_stack_bottom : Z := USER_STACK_TOP - USER_STACK_SIZE.

(** The allocations [A] with those of the pages of the stack from page [i] on, in the
    frames [fs], the last page first. *)
Fixpoint stack_allocs (i : Z) (fs : list Z) (A : list vmm_allocation) : list vmm_allocation :=
  match fs with
  | [] => A
  | f :: fs => stack_allocs (i + 1) fs (Allocation (user_stack_bottom + i * PAGE_SIZE) (f * PAGE_SIZE) 1 user_page_flags :: A)
  end.

Lemma stack_allocs_more fs i A a : a ∈ A → a ∈ stack_allocs i fs A.
Proof. revert i A. induction fs as [|f fs IH]; intros i A Ha; [done|]. apply IH. by right. Qed.

Lemma stack_allocs_page fs n f i A :
  fs !! n = Some f →
  Allocation (user_stack_bottom + (i + Z.of_nat n) * PAGE_SIZE) (f * PAGE_SIZE) 1 user_page_flags ∈ stack_allocs i fs A.
Proof.
  revert n i A. induction fs as [|g fs IH]; intros n i A Hn; [done|]. cbn [stack_allocs].
  destruct n as [|n]; [injection Hn as ->; rewrite Z.add_0_r; apply stack_allocs_more; by left|].
  replace (i + Z.of_nat (S n)) with (i + 1 + Z.of_nat n) by lia. by apply IH.
Qed.

(** Frames that were free, each taken once. *)
Definition fresh_frames k k' (fs : list Z) : Prop :=
  NoDup fs ∧ ∀ f, f ∈ fs → 0 <= f < 2 ^ 20 ∧ taken (k_bitmap k) f = false ∧ taken (k_bitmap k') f = true.

Lemma map_user_stack_ok (n : nat) i ctx bl A (m j : nat) k :
  address_spaces kept k (Space ctx bl A :: O) → 0 <= i → i + Z.of_nat n = USER_STACK_PAGE_COUNT →
  (0 < n)%nat → within bl (user_stack_bottom + i * PAGE_SIZE) USER_STACK_TOP →
  has_pages (k_bitmap k) (n + m) → room (ss_heap (k_sched k)) (2 * n + j) →
  wp (map_user_stack mi n i ctx)
     (λ ctx' k', ∃ fs bl', length fs = n ∧ fresh_frames k k' fs ∧
        (∀ q, taken (k_bitmap k) q = true → taken (k_bitmap k') q = true) ∧
        address_spaces kept k' (Space ctx' bl' (stack_allocs i fs A) :: O) ∧ k_words k' = k_words k ∧
        has_pages (k_bitmap k') m ∧ room (ss_heap (k_sched k')) j ∧ sched_kept k k' ∧ k_last_pid k' = k_last_pid k) k.
Proof.
  revert i ctx bl A k. induction n as [|n IH]; intros i ctx bl A k Hrep Hi Hn Hpos Hw Hpages Hroom; [lia|].
  unfold user_stack_bottom, USER_STACK_SIZE, USER_STACK_PAGE_COUNT, USER_STACK_TOP in *. rewrite PAGE_SIZE_val in Hw.
  cbn [map_user_stack]. apply wp_bind. eapply wp_mono; [apply (take_page_ok (n + m)); exact Hpages|]. cbn beta.
  intros pa k1 (p & Hlow & -> & _ & Hpal & -> & Hpg1). apply wp_bind, wp_zoom.
  set (va := u32 _). assert (Eva : va = USER_STACK_TOP - USER_STACK_SIZE + i * 4096).
  { unfold va, USER_STACK_TOP, USER_STACK_SIZE, USER_STACK_PAGE_COUNT. rewrite PAGE_SIZE_val. apply u32_small. unfold is_u32. lia. }
  unfold USER_STACK_TOP, USER_STACK_SIZE, USER_STACK_PAGE_COUNT in Eva. rewrite PAGE_SIZE_val in Eva.
  assert (Hw1 : within bl va (va + 1 * PAGE_SIZE)).
  { destruct Hw as (b & Hb & Hlo & Hhi). exists b. rewrite PAGE_SIZE_val in *. split; [done|lia]. }
  rewrite <- (vmm_map_pages_reserving kept). eapply wp_mono.
  { refine (@spaces_map_at H (reserving kept) mi ctx va (p * PAGE_SIZE) 1 user_page_flags bl A O _ Hrep _ _ _ eq_refl _ Hw1
      _).
    - apply paging_is_aligned_spec. rewrite PAGE_SIZE_val, Eva. Z.div_mod_to_equations. lia.
    - by apply paging_is_aligned_spec.
    - lia.
    - rewrite PAGE_SIZE_val. lia.
    - eapply room_le; [|exact Hroom]. lia. }
  cbn beta. intros r v (_ & _ & (bl' & Hrep' & _ & _ & _ & Hkeep) & Hrm). set (k2 := set_vmm v _).
  assert (Hrep2 : address_spaces kept k2 (Space r.2 bl' (Allocation va (p * PAGE_SIZE) 1 user_page_flags :: A) :: O)) by by destruct v.
  assert (Hroom2 : room (ss_heap (k_sched k2)) (2 * n + j)).
  { apply Hrm. change (vs_heap (vmm_of _)) with (ss_heap (k_sched k)). eapply room_le; [|exact Hroom]. lia. }
  assert (Hva : va = - 10 * 4096 + 0xA0000000 + i * PAGE_SIZE) by (rewrite PAGE_SIZE_val; lia).
  assert (Hmark : ∀ q, taken (k_bitmap k2) q = bool_decide (q = p) || taken (k_bitmap k) q)
    by (intros q; apply taken_mark).
  destruct Hlow as (_ & Hpr & Hpf & _). destruct n as [|n].
  - apply wp_ret. exists [p], bl'. split_and!; try done.
    + split; [apply NoDup_singleton|]. intros f ->%list_elem_of_singleton. by rewrite Hmark, bool_decide_eq_true_2.
    + intros q Hq. by rewrite Hmark, Hq, orb_true_r.
    + cbn [stack_allocs]. unfold user_stack_bottom, USER_STACK_TOP, USER_STACK_SIZE, USER_STACK_PAGE_COUNT.
      rewrite PAGE_SIZE_val in *. replace (0xA0000000 - 10 * 4096 + i * 4096) with va by lia. exact Hrep2.
  - eapply wp_mono.
    { apply (IH (i + 1) r.2 bl' (Allocation va (p * PAGE_SIZE) 1 user_page_flags :: A) k2 Hrep2);
        [lia|lia|lia| |exact Hpg1|exact Hroom2].
      rewrite PAGE_SIZE_val in *. apply Hkeep; [lia| |right; lia].
      destruct Hw as (b & Hb & Hlo & Hhi). exists b. rewrite PAGE_SIZE_val in *. split; [done|lia]. }
    cbn beta. intros ctx' k' (fs & bl2 & Hlen & [Hnd Hfs] & Hkept & Hrep3 & Hwd & Hpg & Hrm3 & Hsk & Hlp).
    exists (p :: fs), bl2. split_and!; [simpl; lia| | | |by rewrite Hwd|done|done|by eapply sched_kept_trans, Hsk|by rewrite Hlp].
    + split.
      * apply NoDup_cons. split; [|done]. intros Hp%Hfs. destruct Hp as (_ & Hf & _).
        by rewrite Hmark, bool_decide_eq_true_2 in Hf.
      * intros f [->|Hf]%elem_of_cons.
        -- split_and!; [lia|lia|done|]. apply Hkept. by rewrite Hmark, bool_decide_eq_true_2.
        -- destruct (Hfs f Hf) as (? & Hff & ?). split_and!; [lia|lia| |done].
           rewrite Hmark in Hff. by apply orb_false_iff in Hff as [_ ?].
    + intros q Hq. apply Hkept. by rewrite Hmark, Hq, orb_true_r.
    + cbn [stack_allocs]. unfold user_stack_bottom at 1. unfold USER_STACK_TOP, USER_STACK_SIZE, USER_STACK_PAGE_COUNT.
      rewrite PAGE_SIZE_val in *. by replace (0xA0000000 - 10 * 4096 + i * 4096) with va by lia.
Qed.

(** The loop of init_create_user_task gives a task whose address space is free below
    USER_STACK_TOP a stack of ten pages there, which the task can read and write, each in
    a frame of its own that was free; the last byte below USER_STACK_TOP, where
    init_goto_user_mode lets the stack begin, is in the last page. *)
Theorem user_stack_mapped ctx bl A (m j : nat) k :
  address_spaces kept k (Space ctx bl A :: O) → within bl user_stack_bottom USER_STACK_TOP →
  has_pages (k_bitmap k) (10 + m) → room (ss_heap (k_sched k)) (20 + j) →
  wp (map_user_stack mi (Z.to_nat USER_STACK_PAGE_COUNT) 0 ctx)
     (λ ctx' k', ∃ fs bl', fresh_frames k k' fs ∧ address_spaces kept k' (Space ctx' bl' (stack_allocs 0 fs A) :: O) ∧
        ∀ x, user_stack_bottom <= x < USER_STACK_TOP → ∃ i f, fs !! i = Some f ∧
          let a := Allocation (user_stack_bottom + Z.of_nat i * PAGE_SIZE) (f * PAGE_SIZE) 1 user_page_flags in
          a ∈ stack_allocs 0 fs A ∧ contains a x) k.
Proof.
  intros Hrep Hw Hpages Hroom. eapply wp_mono.
  { apply (map_user_stack_ok (Z.to_nat USER_STACK_PAGE_COUNT) 0 ctx bl A m j k); try done.
    by apply Nat.ltb_lt. }
  cbn beta. intros ctx' k' (fs & bl' & Hlen & Hfs & _ & Hrep' & _). exists fs, bl'. split_and!; [done|done|].
  intros x Hx. unfold user_stack_bottom, USER_STACK_SIZE in *. change (Z.to_nat USER_STACK_PAGE_COUNT) with 10%nat in Hlen.
  unfold USER_STACK_PAGE_COUNT in *. rewrite PAGE_SIZE_val in *.
  set (i := Z.to_nat ((x - (USER_STACK_TOP - 10 * 4096)) / 4096)).
  assert (Hi : 0 <= x - (USER_STACK_TOP - 10 * 4096) - Z.of_nat i * 4096 < 4096).
  { unfold i. rewrite Z2Nat.id by (apply Z.div_pos; lia). Z.div_mod_to_equations. lia. }
  destruct (lookup_lt_is_Some_2 fs i) as [f Hf]; [lia|]. exists i, f. split; [done|]. cbn zeta. split.
  - rewrite <- PAGE_SIZE_val. exact (stack_allocs_page fs i f 0 A Hf).
  - unfold contains, alloc_end. cbn [virtual_addr page_count]. rewrite PAGE_SIZE_val. lia.
Qed.

End UserStack.

(** ** Witnesses *)

(** Every frame may be handed out. *)
#[local] Instance all_frames : Limit := 2 ^ 20.

(** The stack of a task with the address space [space0]. *)
Definition stack_kernel : kernel kheap :=
  mk_kernel (SchedStore (vs_heap space0.2) ∅ ∅ 0 0 0 (mk_task_list 0 TASK_PRIORITY_LOW 0) 1 (mk_cpu_state 0 0 0))
    (vs_blocks space0.2) (vs_nodes space0.2) bitmap3 ∅ ps2_0 1.

Lemma user_stack_mapped_witness :
  wp (map_user_stack meminfo0 10 0 space0.1)
     (λ ctx' k', ∃ fs bl', fresh_frames stack_kernel k' fs ∧
        address_spaces ∅ k' [Space ctx' bl' (stack_allocs 0 fs [])]) stack_kernel.
Proof.
  eapply wp_mono.
  - apply (user_stack_mapped meminfo0 ∅ [] space0.1 [(0, 0xC0000); (0xC0000000, 0x40000)] [] 1 0 stack_kernel).
    + apply one_address_space. replace (vmm_of stack_kernel) with space0.2; [apply space0_rep|]. unfold vmm_of, stack_kernel. by destruct space0 as [? []].
    + exists (0, 0xC0000). split; [left|by vm_compute].
    + exact bitmap3_pages.
    + by apply space0_room.
  - cbn beta. intros ctx' k' (fs & bl' & Hfs & Hrep & _). by exists fs, bl'.
Defined.
