(* ===== verification/UserTask.v ===== *)
(** * A user task from its program: init_create_user_task of init.c, as a whole

    The file of a program is mapped and its header parsed; a task is created; the kernel's
    address space is copied for it; the program's segment is loaded and the user stack
    mapped.  The theorems follow the one call from a state of the kernel in which there is
    room for all of it to the task that is ready to enter user mode. *)

From S2P Require Import Prelude Allocator Kmalloc PageArith Vmm VmmRules VmmRanges VmmFree VmmTree VmmSpace.
From S2P Require Import Spaces VmmProps VmmClone Mem CString Pmm Paging Printk PortIo Ps2 Sched Elf Kernel Syscall PageFault.
From S2P Require Import Task Mmu Loader Init.

(** ** Reading the header *)

Section Header.
Context {H : Type} `{Allocator H} (mi : kernel_meminfo) (fault_state : interrupt_state).
Context (Hhh : higher_half_base mi mod 4096 = 0) (Hhr : is_u32 (higher_half_base mi)).
Context (t : task_control_block) (E : Z → Prop) (header_addr hf : Z).
Context (Hha : is_u32 header_addr) (Hhf : frame_ok hf) (Hroom : header_addr mod PAGE_SIZE + 52 <= PAGE_SIZE).
Implicit Types (k : kernel H) (μ : machine H) (F : Z → option Z).
#[local] Instance header_bytes_mem : ByteMemory (machine H) := mmu_bytes mi fault_state.

(** The state has only been read since [μ], by the running task. *)
Definition only_read A F μ μ' : Prop :=
  mc_phys μ' = mc_phys μ ∧ calm t (mc_kernel μ) (mc_kernel μ') ∧ on_cpu mi t E (mc_kernel μ') A F.

Lemma only_read_refl A F μ : on_cpu mi t E (mc_kernel μ) A F → only_read A F μ μ.
Proof. intros. split_and!; [done|apply calm_refl|done]. Qed.

Lemma only_read_trans A F μ1 μ2 μ3 : only_read A F μ1 μ2 → only_read A F μ2 μ3 → only_read A F μ1 μ3.
Proof. intros (P1 & C1 & _) (P2 & C2 & ?). split_and!; [congruence|by eapply calm_trans|done]. Qed.

(** The local variable [header]. *)
Definition header_at : Z := hf + header_addr mod PAGE_SIZE.

Lemma read_header_byte l A F (i : nat) b (Q : Z → machine H → Prop) μ μ' :
  F (header_addr / PAGE_SIZE) = Some hf → bytes_at (mc_phys μ) header_at l → length l = 52%nat →
  l !! i = Some b → only_read A F μ μ' → (∀ μ2, only_read A F μ μ2 → Q b μ2) →
  wp (load8 (header_addr + Z.of_nat i)) Q μ'.
Proof.
  intros HF Hb Hl Hi Hor HQ. pose proof Hor as (P & C & K). apply lookup_lt_Some in Hi as Hlt.
  apply (load_in_page mi fault_state Hhh Hhr t E header_addr _ b A F hf); try done; [lia|lia|rewrite P; by apply Hb|].
  intros μ2 P2 C2 K2. apply HQ. eapply only_read_trans; [exact Hor|done].
Qed.

Lemma load_bytes_ok l A F (i : nat) μ μ' :
  F (header_addr / PAGE_SIZE) = Some hf → bytes_at (mc_phys μ) header_at l → length l = 52%nat → (i <= 52)%nat →
  only_read A F μ μ' →
  wp (load_bytes mi fault_state (52 - i) (header_addr + Z.of_nat i)) (λ r μ2, r = drop i l ∧ only_read A F μ μ2) μ'.
Proof.
  intros HF Hb Hl. remember (52 - i)%nat as n eqn:En. revert i En μ'.
  induction n as [|n IH]; intros i En μ' Hi Hor; cbn [load_bytes].
  { apply wp_ret. split; [by rewrite drop_ge by lia|done]. }
  destruct (lookup_lt_is_Some_2 l i) as [b Hib]; [lia|]. apply wp_bind.
  apply (read_header_byte l A F i b _ μ); try done. intros μ2 Hor2. apply wp_bind.
  replace (header_addr + Z.of_nat i + 1) with (header_addr + Z.of_nat (S i)) by lia.
  eapply wp_mono; [apply (IH (S i)); [lia|lia|done]|]. cbn beta. intros r μ3 [-> Hor3]. apply wp_ret.
  split; [|done]. symmetry. by apply drop_S.
Qed.

Lemma load_elf_header_ok l A F μ :
  F (header_addr / PAGE_SIZE) = Some hf → bytes_at (mc_phys μ) header_at l → length l = 52%nat →
  on_cpu mi t E (mc_kernel μ) A F →
  wp (load_elf_header mi fault_state header_addr) (λ h μ', h = header_of l ∧ only_read A F μ μ') μ.
Proof.
  intros HF Hb Hl Hcpu. apply wp_bind. rewrite <- (Z.add_0_r header_addr) at 1.
  eapply wp_mono; [apply (load_bytes_ok l A F 0 μ μ); [done|done|done|lia|by apply only_read_refl]|].
  cbn beta. intros r μ' [-> Hor]. by apply wp_ret.
Qed.

(** The header is copied from the file's page, and checked. *)
Lemma parse_header_ok elf fe l A F μ :
  F (header_addr / PAGE_SIZE) = Some hf → F (elf / PAGE_SIZE) = Some fe → is_u32 elf → elf mod PAGE_SIZE = 0 →
  frame_ok fe → hf + PAGE_SIZE <= fe ∨ fe + PAGE_SIZE <= hf → bytes_at (mc_phys μ) fe l → length l = 52%nat →
  mapped (mc_phys μ) header_at 52 → on_cpu mi t E (mc_kernel μ) A F →
  wp (elf_parse_header elf 1024 header_addr)
     (λ r μ', r = header_status (header_of l) ∧ bytes_at (mc_phys μ') header_at l ∧
        same_outside (mc_phys μ) (mc_phys μ') header_at (header_at + 52) ∧
        calm t (mc_kernel μ) (mc_kernel μ') ∧ on_cpu mi t E (mc_kernel μ') A F) μ.
Proof.
  intros HF HFe Helf Hal Hfe Hap Hl Hlen Hmap Hcpu. unfold elf_parse_header. cbn [Z.ltb sizeof_elf32_hdr Z.compare Pos.compare Pos.compare_cont].
  destruct (mapped_bytes (mc_phys μ) header_at 52 ltac:(lia) Hmap) as (old & Hold & Hol). apply wp_bind, wp_bind.
  change (Z.to_nat sizeof_elf32_hdr) with 52%nat. rewrite <- Hlen. eapply wp_mono.
  { apply (memcpy_in_page mi fault_state Hhh Hhr t E header_addr elf 0 l old A F hf fe); rewrite ?Z.add_0_r, ?Hlen, ?Hal; try done.
    - by rewrite Z.add_0_r.
    - lia. }
  cbn beta. rewrite Hlen, !Z.add_0_r. fold header_at. intros _ μ1 (Hb & Hso & C & K). apply wp_ret.
  apply (parse_checks_ok header_addr l (only_read A F μ1) Hlen); [|by apply only_read_refl|].
  - intros i b Q μ2 Hi Hor HQ. by apply (read_header_byte l A F i b _ μ1).
  - intros μ2 (P2 & C2 & K2). rewrite P2. split_and!; [done|done|done|by eapply calm_trans|done].
Qed.

End Header.

(** ** Making the task *)

Section Create.
Context {H : Type} `{Allocator H} {FL : Limit} (mi : kernel_meminfo) (fault_state : interrupt_state).
Context (Hhh : higher_half_base mi mod 4096 = 0) (Hhr : is_u32 (higher_half_base mi)).
Context (halt_addr remove_addr init_goto_user_mode_addr : Z) (t : task_control_block) (E : Z → Prop).
(** The control blocks of the tasks that exist are blocks [kept] of the heap; the address
    spaces [O] are there besides the kernel's. *)
Context (kept : gmap Z Z) (O : list space).
Implicit Types (k : kernel H) (μ : machine H) (F : Z → option Z) (bl : list (Z * Z)).
#[local] Instance create_bytes : ByteMemory (machine H) := mmu_bytes mi fault_state.

Notation kctx := (task_paging_ctx t).

Definition tasks_kept k : Prop := ∀ q, is_Some (ss_tasks (k_sched k) !! q) → is_Some (kept !! q).

Lemma first_space k vctx bl A S : address_spaces kept k (Space vctx bl A :: S) → ctx_rep (vmm_of k) vctx bl A.
Proof. intros Hsp%spaces_unreserved. exact (spaces_head _ _ _ _ _ Hsp). Qed.

(** The file in the frame [epa] gets a page in the kernel's address space. *)
Lemma map_file_ok epa elf bl1 vctx bl A F (j : nat) μ :
  on_cpu mi t E (mc_kernel μ) A F → address_spaces kept (mc_kernel μ) (Space vctx bl A :: O) →
  allocations (task_vmm_context t) = allocations vctx → anon mi 1 bl elf bl1 → bl1 ≠ tl bl →
  is_u32 epa → epa mod PAGE_SIZE = 0 → epa ≠ 0 → E (elf / PAGE_SIZE) → F (elf / PAGE_SIZE) = None →
  room (ss_heap (k_sched (mc_kernel μ))) (2 + j) →
  let a := Allocation elf epa 1 kernel_page_flags in
  wp (on_kernel (on_vmm (vmm_map_pages mi vctx 0 epa 1 kernel_page_flags)))
     (λ r μ', r = (elf, vctx) ∧ mc_phys μ' = mc_phys μ ∧ only_memory (mc_kernel μ) (mc_kernel μ') ∧
        k_bitmap (mc_kernel μ') = k_bitmap (mc_kernel μ) ∧ k_words (mc_kernel μ') = k_words (mc_kernel μ) ∧
        address_spaces kept (mc_kernel μ') (Space vctx bl1 (a :: A) :: O) ∧
        room (ss_heap (k_sched (mc_kernel μ'))) j ∧
        on_cpu mi t E (mc_kernel μ') (a :: A) (add_page (elf / PAGE_SIZE) epa F)) μ.
Proof.
  intros Hcpu Hrep Hroot Hanon Hne Hepa Hal Hnz HE HF Hroom a. pose proof Hanon as (Ha & Hela & Hend & _).
  apply wp_zoom. rewrite <- (vmm_map_pages_reserving kept). eapply wp_mono.
  { exact (@map_anon_ok H (reserving kept) mi 1 epa vctx bl A O elf bl1 j _ Hrep Hanon eq_refl Hal Hroom). }
  cbn beta. intros [addr vctx'] k' (Hr & Hrep' & Hroom' & Hom & Hb & Hw & Hcur). cbn [fst snd] in *.
  rewrite (still_current_eq _ _ _ _ Hcur Hne) in Hrep' |- *. rewrite Hr. cbn [mc_kernel mc_phys].
  split_and!; try done. pose proof Hom as (Es & _).
  eapply (on_cpu_changed mi t E _ k' A F vctx bl1); [exact Hcpu| |by rewrite Es|exact Hroot|exact (first_space _ _ _ _ _ Hrep')| |rewrite Hw..].
  - unfold running. rewrite Es. apply Hcpu.
  - intros b [->|?]%elem_of_cons; [right|by left]. split_and!; [by vm_compute..|done|done].
  - apply view_ok_add; [apply Hcpu|done..].
  - apply view_backed_add; [apply Hcpu| |done..]. unfold a, contains, alloc_end. simpl. rewrite PAGE_SIZE_val in *.
    Z.div_mod_to_equations. lia.
Qed.

(** task_create, for the running task: it goes on running. *)
Lemma create_task_ok vctx bl A stk bl1 dir bl2 task_fn ret_addr (j n : nat) F μ :
  on_cpu mi t E (mc_kernel μ) A F → address_spaces kept (mc_kernel μ) (Space vctx bl A :: O) →
  allocations (task_vmm_context t) = allocations vctx → tasks_kept (mc_kernel μ) →
  anon mi KERNEL_STACK_PAGE_COUNT bl stk bl1 → anon mi 1 bl1 dir bl2 →
  tables_taken kctx bl → bl1 ≠ tl bl → bl2 ≠ tl bl1 → (∀ m, stack_page stk m → F m = None ∧ ¬ E m) →
  room (ss_heap (k_sched (mc_kernel μ))) (5 + j) → has_pages (k_bitmap (mc_kernel μ)) (11 + n) →
  words_ok (k_words (mc_kernel μ)) →
  wp (on_kernel (task_create mi halt_addr remove_addr kctx vctx task_fn ret_addr true))
     (λ p μ', mc_phys μ' = mc_phys μ ∧ ∃ T f pa,
        user_task_made mi kctx halt_addr remove_addr kept (mc_kernel μ) vctx bl A O stk bl1 dir bl2 task_fn ret_addr j n
          p (mc_kernel μ') T f pa ∧ p ≠ tl_task (CURRENT_TASK (k_sched (mc_kernel μ))) ∧
        ss_tasks (k_sched (mc_kernel μ)) !! p = None ∧
        on_cpu mi t E (mc_kernel μ')
          (Allocation dir (f * PAGE_SIZE) 1 kernel_page_flags ::
           Allocation stk pa KERNEL_STACK_PAGE_COUNT kernel_page_flags :: A) F) μ.
Proof.
  intros Hcpu Hrep Hroot Htasks Hstk Hdir Htaken Hne1 Hne2 HS Hroom Hpages Hwok. apply wp_zoom. eapply wp_mono.
  { apply (task_create_user_ok mi kctx (ft_paging _ _ _ (oc_fault _ _ _ _ _ _ Hcpu)) Hhh Hhr halt_addr remove_addr kept vctx bl A O stk bl1 dir bl2
      task_fn ret_addr j n); done. }
  cbn beta. intros p k' (T & f & pa & Hm). split; [done|]. exists T, f, pa. cbn [mc_kernel].
  pose proof Hm as [Hnew _ _ _ _ (Hfu & Hpu & _) _ _ Hrep' Hcur Hs _ _ Hent _ _ _].
  assert (Hold : ∀ q, is_Some (ss_tasks (k_sched (mc_kernel μ)) !! q) → p ≠ q).
  { intros q Hq%Htasks ->. rewrite Hnew in Hq. by destruct Hq. }
  pose proof (ft_running _ _ _ (oc_fault _ _ _ _ _ _ Hcpu)) as Hrun. unfold running in Hrun.
  assert (Hpc : p ≠ tl_task (CURRENT_TASK (k_sched (mc_kernel μ)))) by (apply Hold; eauto).
  split_and!; [done|done| |].
  - apply eq_None_not_Some. intros Hp%Hold. done.
  - apply spaces_unreserved, spaces_head in Hrep'. eapply on_cpu_changed; [exact Hcpu| |by rewrite Hs| |exact Hrep'| | |].
    + unfold running. rewrite Hs. cbn. by rewrite lookup_insert_ne.
    + by rewrite Hcur.
    + intros a [->|[->|Ha]%elem_of_cons]%elem_of_cons; [right|right|by left]; (split_and!; [by vm_compute..|done|done]).
    + eapply view_kept; [apply Hcpu|exact Hent|exact HS].
    + eapply backed_kept; [|exact Hent|intros m Hm'; by apply HS].
      intros m g Hg. destruct (oc_backed _ _ _ _ _ _ Hcpu m g Hg) as [?|(a & Ha & ?)]; [by left|right].
      exists a. split; [by right; right|done].
Qed.

(** Storing a control block that is not the running task's. *)
Lemma store_task_ok p T μ (Q : unit → machine H → Prop) :
  p ≠ 0 → Q tt (mk_machine (set_sched (with_task p T (k_sched (mc_kernel μ))) (mc_kernel μ)) (mc_phys μ)) →
  wp (on_kernel (store_task p T)) Q μ.
Proof.
  intros Hp HQ. apply wp_zoom. unfold store_task. rewrite (proj2 (Z.eqb_neq p 0)) by done.
  by apply wp_zoom, wp_modify.
Qed.

Lemma load_tcb_ok p T μ (Q : task_control_block → machine H → Prop) :
  ss_tasks (k_sched (mc_kernel μ)) !! p = Some T → Q T μ → wp (load_tcb p) Q μ.
Proof.
  intros Hp HQ. apply wp_zoom, wp_zoom. eapply wp_load_task; [exact Hp|]. destruct μ as [k m]. by destruct k.
Qed.

Lemma on_cpu_store p T k A F :
  on_cpu mi t E k A F → p ≠ tl_task (CURRENT_TASK (k_sched k)) →
  on_cpu mi t E (set_sched (with_task p T (k_sched k)) k) A F.
Proof.
  intros Hcpu Hne. pose proof Hcpu as [[Hrun _ (ctx & bl & Hroot & Hrep) _] _ _ Hv Hb].
  eapply on_cpu_changed; [exact Hcpu| |done|exact Hroot|exact Hrep|by left|exact Hv|exact Hb].
  unfold running in *. cbn. by rewrite lookup_insert_ne.
Qed.

(** Another address space and the heap have changed. *)
Lemma on_cpu_heap k k' ctx bl A F :
  on_cpu mi t E k A F → sched_kept k k' → k_words k' = k_words k →
  allocations (task_vmm_context t) = allocations ctx → ctx_rep (vmm_of k') ctx bl A → on_cpu mi t E k' A F.
Proof.
  intros Hcpu Hs Hw Hroot Hrep. unfold sched_kept in Hs.
  eapply on_cpu_changed; [exact Hcpu| |by rewrite Hs|exact Hroot|exact Hrep|by left|rewrite Hw; apply Hcpu..].
  unfold running. rewrite Hs. apply Hcpu.
Qed.

(** *** Loading the program *)

Section Program.
Context (junk : Z → vmm_allocation_tree) (Hjunk : null_links junk).
Context (elf epa : Z) (file : list Z) (o : nat).

Definition program_header : elf32_hdr := header_of (take 52 file).

(** A file of at most one page with a header that the parser accepts and one program
    header, at offset [o], of a loadable segment that lies in one page. *)
Record program_ok : Prop := {
  po_bytes : Forall is_u8 file;
  po_length : Z.of_nat (length file) <= PAGE_SIZE;
  po_header : (52 <= length file)%nat;
  po_status : header_status program_header = 0;
  po_phnum : e_phnum program_header = 1;
  po_phoff : e_phoff program_header = Z.of_nat o;
  po_table : (o + 32 <= length file)%nat;
  po_type : le_at file o 4 = ELF_PROG_HDR_TYPE_LOAD;
  po_segment : one_page file o
}.
Context (Hprog : program_ok).
Context (Helf : is_u32 elf) (Hela : elf mod PAGE_SIZE = 0) (Hepa : frame_ok epa) (Hepal : epa mod PAGE_SIZE = 0).

(** Free frames below the limit are memory. *)
Definition free_is_memory μ : Prop :=
  ∀ p, 0 <= p < 2 ^ 20 → taken (k_bitmap (mc_kernel μ)) p = false → mapped (mc_phys μ) (p * PAGE_SIZE) PAGE_SIZE.

(** What the end of init_create_user_task finds: the control block of the new task at
    [p], and the file in the page [elf]. *)
Record can_fill μ vctx bl A F (p : Z) (T : task_control_block) (n j : nat) : Prop := {
  cf_cpu : on_cpu mi t E (mc_kernel μ) A F;
  cf_space : address_spaces kept (mc_kernel μ) (Space vctx bl A :: O);
  cf_root : allocations (task_vmm_context t) = allocations vctx;
  cf_task : p ≠ 0 ∧ ss_tasks (k_sched (mc_kernel μ)) !! p = Some T ∧ p ≠ tl_task (CURRENT_TASK (k_sched (mc_kernel μ)));
  cf_room : room (ss_heap (k_sched (mc_kernel μ))) (1 + length bl + (1 + length A + (25 + j)));
  cf_pages : has_pages (k_bitmap (mc_kernel μ)) (11 + n);
  cf_page0 : taken (k_bitmap (mc_kernel μ)) 0 = true;
  cf_memory : free_is_memory μ;
  cf_file : file_in elf epa file μ F;
  cf_used : taken (k_bitmap (mc_kernel μ)) (epa / PAGE_SIZE) = true;
  cf_segment : within bl (seg_page file o) (seg_page file o + 1 * PAGE_SIZE);
  cf_entry : E (seg_vaddr file o / PAGE_SIZE) ∧ F (seg_vaddr file o / PAGE_SIZE) = None;
  cf_return : can_return mi file o bl A F;
  cf_stack : within bl user_stack_bottom USER_STACK_TOP;
  cf_apart : seg_page file o + 1 * PAGE_SIZE <= user_stack_bottom ∨ USER_STACK_TOP <= seg_page file o
}.

(** The allocations of the new task: those of the kernel, the segment in the frame [q], and
    the stack in the frames [fs]. *)
Definition task_allocs (A : list vmm_allocation) (q : Z) (fs : list Z) : list vmm_allocation :=
  stack_allocs 0 fs (Allocation (seg_page file o) (q * PAGE_SIZE) 1 (seg_flags file o) :: A).

(** The kernel's free ranges and allocations afterwards. *)
Definition kernel_free bl : list (Z * Z) := reload mi (seg_page file o) 1 bl.
Definition kernel_allocs (A : list vmm_allocation) (q : Z) : list vmm_allocation :=
  left_over file o (q * PAGE_SIZE) :: A.

(** The task got a copy [uctx] of the address space with the segment in the frame [q]
    and the stack in the frames [fs]; the kernel's is as it was. *)
Record filled μ vctx bl A F (p : Z) (T : task_control_block) (n j : nat) (q : Z) (fs : list Z) (uctx : vmm_context) μ' : Prop := {
  fi_sched : k_sched (mc_kernel μ') =
    with_task p (set_vmm_context uctx T) (with_heap (ss_heap (k_sched (mc_kernel μ'))) (k_sched (mc_kernel μ)));
  fi_spaces : ∃ bl', address_spaces kept (mc_kernel μ')
    (Space vctx (kernel_free bl) (kernel_allocs A q) :: Space uctx bl' (task_allocs A q fs) :: O);
  fi_free : same_free (seg_page file o) 1 bl (kernel_free bl);
  fi_cpu : on_cpu mi t E (mc_kernel μ') (kernel_allocs A q) F;
  fi_frames : length fs = 10%nat ∧ fresh_frames (mc_kernel μ) (mc_kernel μ') (q :: fs);
  fi_used : ∀ f, taken (k_bitmap (mc_kernel μ)) f = true → taken (k_bitmap (mc_kernel μ')) f = true;
  fi_bytes : bytes_at (mc_phys μ') (q * PAGE_SIZE + seg_vaddr file o mod PAGE_SIZE) (seg_bytes file o);
  fi_memory : same_outside (mc_phys μ) (mc_phys μ') (q * PAGE_SIZE) (q * PAGE_SIZE + PAGE_SIZE);
  fi_mapped : still_mapped (mc_phys μ) (mc_phys μ');
  fi_words : words_kept t (mc_kernel μ) (mc_kernel μ');
  fi_words_ok : words_ok (k_words (mc_kernel μ)) → words_ok (k_words (mc_kernel μ'));
  fi_last : k_last_pid (mc_kernel μ') = k_last_pid (mc_kernel μ);
  fi_left : has_pages (k_bitmap (mc_kernel μ')) n ∧ room (ss_heap (k_sched (mc_kernel μ'))) j
}.

Lemma clone_ok vctx bl A F p T n j μ :
  can_fill μ vctx bl A F p T n j →
  wp (on_kernel (on_vmm (vmm_clone_context junk vctx)))
     (λ uctx μ', mc_phys μ' = mc_phys μ ∧ k_bitmap (mc_kernel μ') = k_bitmap (mc_kernel μ) ∧
        k_words (mc_kernel μ') = k_words (mc_kernel μ) ∧ sched_kept (mc_kernel μ) (mc_kernel μ') ∧
        k_last_pid (mc_kernel μ') = k_last_pid (mc_kernel μ) ∧
        ready_to_load mi t E elf epa file kept O o μ' vctx bl A uctx bl A F (10 + n) (20 + j)) μ.
Proof.
  intros [Hcpu Hrep Hroot _ Hroom Hpg Hp0 Hram Hfin Hu Hseg Hent Hret _ _]. apply wp_zoom, wp_zoom.
  rewrite <- (vmm_clone_context_reserving kept). eapply wp_mono.
  { exact (@vmm_clone_context_ok H (reserving kept) junk Hjunk vctx bl A O (25 + j) _ Hrep Hroom). }
  cbn beta. intros uctx v [Htwo Hrm]. apply (two_spaces_sym kept O) in Htwo. split_and!; [done..|]. split; try done.
  - eapply on_cpu_vmm; [exact Hcpu|exact Hroot|exact (two_spaces_left _ _ _ _ _ _ _ _ _ Htwo)|by left|apply Hcpu|apply Hcpu].
  - by destruct v.
  - intros q (_ & Hq & Hf & _). by apply Hram.
Qed.

Lemma fill_stack vctx bl A F p T n j q μ μ1 μ2 r :
  can_fill μ vctx bl A F p T n j → mc_phys μ1 = mc_phys μ → k_bitmap (mc_kernel μ1) = k_bitmap (mc_kernel μ) →
  k_words (mc_kernel μ1) = k_words (mc_kernel μ) → sched_kept (mc_kernel μ) (mc_kernel μ1) →
  k_last_pid (mc_kernel μ1) = k_last_pid (mc_kernel μ) →
  segment_loaded mi t E file kept O o μ1 vctx bl A bl A F (10 + n) (20 + j) q r μ2 →
  wp (uctx ← on_kernel (map_user_stack mi (Z.to_nat USER_STACK_PAGE_COUNT) 0 r.2);
      t ← load_tcb p; _ ← on_kernel (store_task p (set_vmm_context uctx t)); mret p)
     (λ x μ', x = p ∧ ∃ fs uctx', filled μ vctx bl A F p T n j q fs uctx' μ') μ2.
Proof.
  intros [_ _ Hroot (Hp & Ht & Hpc) _ _ _ _ _ _ _ _ _ Hstk Hap] P1 B1 W1 S1 L1 [Hlow [_ K2] Hsp Hb Hso Hm2 [S2 L2] [B2 Hpg2] [W2 WO2] Hrm2].
  destruct Hsp as (bl2 & bl3 & Hsp & [Ebl3 Hfree] & _ & Hkeep). subst bl3. fold (kernel_free bl) in *.
  apply two_spaces_sym in Hsp. rewrite P1 in Hso, Hm2. rewrite B1 in Hlow, B2.
  apply wp_bind, wp_zoom. eapply wp_mono.
  { apply (map_user_stack_ok mi kept _ 10 0 r.2 bl2 _ n j (mc_kernel μ2) Hsp); [lia|done|lia| |exact Hpg2|exact Hrm2].
    rewrite Z.mul_0_l, Z.add_0_r. apply Hkeep; [by vm_compute|done|]. destruct Hap; [by right|by left]. }
  cbn beta. intros uctx' k3 (fs & bl3 & Hlen & [Hnd Hfs] & Hused & Hsp3 & W3 & Hpg3 & Hrm3 & S3 & L3).
  apply (two_spaces_sym kept O) in Hsp3.
  pose proof (on_cpu_heap _ k3 _ _ _ _ K2 S3 W3 Hroot (two_spaces_left _ _ _ _ _ _ _ _ _ Hsp3)) as K3.
  apply wp_bind. eapply load_tcb_ok.
  { cbn [mc_kernel]. rewrite S3, S2, S1. exact Ht. }
  apply wp_bind. apply store_task_ok; [done|]. apply wp_ret. split; [done|]. exists fs, uctx'. cbn [mc_kernel mc_phys].
  assert (Hmark : ∀ f, taken (k_bitmap (mc_kernel μ2)) f = bool_decide (f = q) || taken (k_bitmap (mc_kernel μ)) f)
    by (intros f; rewrite B2; apply taken_mark).
  destruct Hlow as (_ & Hq & Hqf & _). split; cbn [mc_kernel mc_phys]; try done.
  - cbn. rewrite S3, S2, S1. done.
  - exists bl3. exact Hsp3.
  - apply on_cpu_store; [exact K3|]. by rewrite S3, S2, S1.
  - split; [done|]. split.
    + apply NoDup_cons. split; [|done]. intros Hin. destruct (Hfs q Hin) as (_ & Hf & _).
      rewrite Hmark, bool_decide_eq_true_2 in Hf by done. done.
    + intros f [->|Hin]%elem_of_cons.
      * split_and!; [lia|lia|done|]. apply Hused. rewrite Hmark. by rewrite bool_decide_eq_true_2.
      * destruct (Hfs f Hin) as (Hr & Hf & ?). rewrite Hmark in Hf. by apply orb_false_iff in Hf as [_ ?].
  - intros f Hf. apply Hused. by rewrite Hmark, Hf, orb_true_r.
  - intros a Ha. cbn. by rewrite W3, W2, W1.
  - intros Hw. cbn. rewrite W3. apply WO2. by rewrite W1.
  - cbn. by rewrite L3, L2.
Qed.

(** From the copy of the address space to the end. *)
Lemma fill_ok vctx bl A F p T n j μ :
  can_fill μ vctx bl A F p T n j →
  wp (vmm_ctx ← on_kernel (on_vmm (vmm_clone_context junk vctx));
      r ← elf_load mi fault_state kctx vctx vmm_ctx program_header elf;
      vmm_ctx ← on_kernel (map_user_stack mi (Z.to_nat USER_STACK_PAGE_COUNT) 0 r.2);
      t ← load_tcb p; _ ← on_kernel (store_task p (set_vmm_context vmm_ctx t)); mret p)
     (λ r μ', r = p ∧ ∃ q fs uctx, filled μ vctx bl A F p T n j q fs uctx μ') μ.
Proof.
  intros Hcf. destruct Hprog as [Hfb Hlen _ _ Hpn Hpo Htab Hty Hone]. apply wp_bind.
  eapply wp_mono; [by apply (clone_ok vctx bl A F p T n j)|]. cbn beta. intros uctx μ1 (P1 & B1 & W1 & S1 & L1 & Hrl).
  apply wp_bind. eapply wp_mono.
  { apply (elf_load_loads mi fault_state Hhh Hhr t E elf epa file Helf Hela Hepa Hlen kept O o Htab Hone Hfb program_header
      vctx bl A uctx bl A F (10 + n) (20 + j) μ1 Hrl Hpn Hpo Hty). }
  cbn beta. intros r μ2 [q Hl]. eapply wp_mono; [by apply (fill_stack vctx bl A F p T n j q μ μ1 μ2 r)|].
  cbn beta. intros x μ3 (-> & fs & uctx' & Hf). split; [done|]. by exists q, fs, uctx'.
Qed.

End Program.

End Create.

(** ** The whole call *)

Section Whole.
Context {H : Type} `{Allocator H} {FL : Limit} (mi : kernel_meminfo) (fault_state : interrupt_state).
Context (Hhh : higher_half_base mi mod 4096 = 0) (Hhr : is_u32 (higher_half_base mi)).
Context (junk : Z → vmm_allocation_tree) (Hjunk : null_links junk).
Context (halt_addr remove_addr init_goto_user_mode_addr header_addr hf : Z) (t : task_control_block) (E : Z → Prop).
Implicit Types (k : kernel H) (μ : machine H) (F : Z → option Z) (bl : list (Z * Z)).
#[local] Instance whole_bytes : ByteMemory (machine H) := mmu_bytes mi fault_state.

Notation kctx := (task_paging_ctx t).

(** The kernel, in the task [t], has its address space, with the free ranges [bl] and the
    allocations [A], besides the blocks [kept] and the address spaces [O]; it sees the pages
    of [F]; [n] pages are free and the heap has room for [j] blocks; the local variable
    [header] is in the frame [hf]. *)
Record kernel_up (kept : gmap Z Z) (O : list space) μ (vctx : vmm_context) bl A F (n j : nat) : Prop := {
  ku_cpu : on_cpu mi t E (mc_kernel μ) A F;
  ku_spaces : address_spaces kept (mc_kernel μ) (Space vctx bl A :: O);
  ku_root : allocations (task_vmm_context t) = allocations vctx;
  ku_tasks : tasks_kept kept (mc_kernel μ);
  ku_words : words_ok (k_words (mc_kernel μ));
  ku_room : room (ss_heap (k_sched (mc_kernel μ))) j;
  ku_pages : has_pages (k_bitmap (mc_kernel μ)) n;
  ku_page0 : taken (k_bitmap (mc_kernel μ)) 0 = true;
  ku_memory : free_is_memory μ;
  ku_header : is_u32 header_addr ∧ header_addr mod PAGE_SIZE + 52 <= PAGE_SIZE ∧ F (header_addr / PAGE_SIZE) = Some hf ∧
    mapped (mc_phys μ) (header_at header_addr hf) 52;
  ku_frame : frame_ok hf ∧ hf mod PAGE_SIZE = 0 ∧ taken (k_bitmap (mc_kernel μ)) (hf / PAGE_SIZE) = true
}.

Section Call.
Context (kept : gmap Z Z) (O : list space) (epa : Z) (file : list Z) (o : nat).
Notation hdr := (program_header file).

(** The file of the program is in the frame [epa]. *)
Record file_ready μ : Prop := {
  fr_frame : frame_ok epa ∧ epa mod PAGE_SIZE = 0 ∧ epa ≠ 0 ∧ epa ≠ hf;
  fr_bytes : bytes_at (mc_phys μ) epa file;
  fr_used : taken (k_bitmap (mc_kernel μ)) (epa / PAGE_SIZE) = true
}.

(** Where things go: the file gets a page at [elf], the kernel stack is at [stk] and the
    page directory at [dir]; the segment and the user stack find their pages free. *)
Record layout bl A F (elf : Z) bl1 (stk : Z) bl2 (dir : Z) bl3 : Prop := {
  ly_tables : tables_taken kctx bl;
  ly_elf : anon mi 1 bl elf bl1 ∧ bl1 ≠ tl bl ∧ E (elf / PAGE_SIZE) ∧ F (elf / PAGE_SIZE) = None;
  ly_stack : anon mi KERNEL_STACK_PAGE_COUNT bl1 stk bl2 ∧ bl2 ≠ tl bl1 ∧ (∀ m, stack_page stk m → F m = None ∧ ¬ E m);
  ly_dir : anon mi 1 bl2 dir bl3 ∧ bl3 ≠ tl bl2;
  ly_segment : within bl3 (seg_page file o) (seg_page file o + 1 * PAGE_SIZE) ∧
    E (seg_vaddr file o / PAGE_SIZE) ∧ F (seg_vaddr file o / PAGE_SIZE) = None;
  ly_return : can_return mi file o bl3 (Allocation elf epa 1 kernel_page_flags :: A) (add_page (elf / PAGE_SIZE) epa F);
  ly_user_stack : within bl3 user_stack_bottom USER_STACK_TOP ∧
    (seg_page file o + 1 * PAGE_SIZE <= user_stack_bottom ∨ USER_STACK_TOP <= seg_page file o)
}.

(** The blocks of the heap that the call needs. *)
Definition blocks_needed bl (A : list vmm_allocation) : nat := 33 + length bl + (4 + length A).

(** The kernel can make a task of the program; [n] pages and [j] blocks will be left. *)
Record can_create μ (vctx : vmm_context) bl A F (elf : Z) bl1 (stk : Z) bl2 (dir : Z) bl3 (n j : nat) : Prop := {
  cc_up : kernel_up kept O μ vctx bl A F (22 + n) (blocks_needed bl3 A + j);
  cc_file : file_ready μ;
  cc_layout : layout bl A F elf bl1 stk bl2 dir bl3
}.

(** The first steps: the file is mapped and its header has been copied. *)
Definition header_read μ (vctx : vmm_context) A F (elf : Z) bl1 (m : nat) (r : Z) μ' : Prop :=
  let l := take 52 file in
  r = header_status (header_of l) ∧ bytes_at (mc_phys μ') (header_at header_addr hf) l ∧
  same_outside (mc_phys μ) (mc_phys μ') (header_at header_addr hf) (header_at header_addr hf + 52) ∧
  k_bitmap (mc_kernel μ') = k_bitmap (mc_kernel μ) ∧
  words_kept t (mc_kernel μ) (mc_kernel μ') ∧ sched_kept (mc_kernel μ) (mc_kernel μ') ∧
  k_last_pid (mc_kernel μ') = k_last_pid (mc_kernel μ) ∧ words_ok (k_words (mc_kernel μ')) ∧
  address_spaces kept (mc_kernel μ') (Space vctx bl1 (Allocation elf epa 1 kernel_page_flags :: A) :: O) ∧
  room (ss_heap (k_sched (mc_kernel μ'))) m ∧
  on_cpu mi t E (mc_kernel μ') (Allocation elf epa 1 kernel_page_flags :: A) (add_page (elf / PAGE_SIZE) epa F).

Lemma read_header_ok μ vctx bl A F elf bl1 stk bl2 dir bl3 n j :
  can_create μ vctx bl A F elf bl1 stk bl2 dir bl3 n j → (52 <= length file)%nat →
  wp (on_kernel (on_vmm (vmm_map_pages mi vctx 0 epa 1 kernel_page_flags)))
     (λ r μ1, r = (elf, vctx) ∧ wp (elf_parse_header elf 1024 header_addr)
        (λ res μ', header_read μ vctx A F elf bl1 (31 + length bl3 + (4 + length A) + j) res μ') μ1) μ.
Proof.
  intros [[Hcpu Hrep Hroot _ Hwok Hroom _ _ _ (Hha & Hin & HF & Hmap) (Hhf & Hhal & _)]
          [(Hepa & Hal & Hnz & Hne) Hb _] [_ (Hanon & Hne1 & HE & HFe) _ _ _ _ _]] Hlen.
  assert (Hepau : is_u32 epa) by (unfold frame_ok in Hepa; unfold is_u32; rewrite PAGE_SIZE_val in *; lia).
  pose proof Hanon as (He0 & Heal & Heend & _). eapply wp_mono.
  { apply (map_file_ok mi t E kept O epa elf bl1 vctx bl A F (31 + length bl3 + (4 + length A) + j) μ); try done. }
  cbn beta zeta. intros r μ1 (Hr & P1 & (Es1 & _ & L1) & B1 & W1 & Hrep1 & Hroom1 & K1). split; [done|].
  set (F1 := add_page _ _ F) in *. assert (Hfile1 : bytes_at (mc_phys μ1) epa (take 52 file)).
  { rewrite P1. intros i b [Hi _]%lookup_take_Some. by apply Hb. }
  eapply wp_mono.
  { apply (parse_header_ok mi fault_state Hhh Hhr t E header_addr hf Hha Hhf Hin elf epa (take 52 file)
      (Allocation elf epa 1 kernel_page_flags :: A) F1 μ1); try done.
    - unfold F1, add_page. rewrite decide_False; [done|]. intros Eh. rewrite Eh in HF. congruence.
    - unfold F1, add_page. by rewrite decide_True.
    - unfold is_u32. rewrite PAGE_SIZE_val in *. lia.
    - rewrite PAGE_SIZE_val in *. Z.div_mod_to_equations. lia.
    - rewrite length_take. lia.
    - by rewrite P1. }
  cbn beta. rewrite P1. intros res μ2 (-> & Hbh & Hso & (Cs & Cv & Cb & Cw & Cl & Co) & K2). unfold header_read. split_and!; try done.
  - by rewrite Cb.
  - intros a Ha. by rewrite Cw, W1.
  - eapply sched_kept_trans; [exact Es1|by apply sched_kept_same].
  - by rewrite Cl.
  - apply Co. by rewrite W1.
  - unfold address_spaces. by rewrite Cv.
  - by rewrite Cs.
Qed.

Lemma header_read_calm μ vctx A F elf bl1 m r μ2 μ3 :
  header_read μ vctx A F elf bl1 m r μ2 →
  only_read mi t E (Allocation elf epa 1 kernel_page_flags :: A) (add_page (elf / PAGE_SIZE) epa F) μ2 μ3 →
  header_read μ vctx A F elf bl1 m r μ3.
Proof.
  intros (Hr & Hb & Hso & B & W & S & L & O' & Hrep & Hrm & _) (P & (Cs & Cv & Cb & Cw & Cl & Co) & K).
  unfold header_read, address_spaces. rewrite P, Cb, Cv, Cs, Cl. split_and!; try done; [by eapply words_kept_trans| |by apply Co].
  eapply sched_kept_trans; [exact S|by apply sched_kept_same].
Qed.

(** The kernel's allocations for the task, whose kernel stack and directory are in the
    frames [pa] and [f]. *)
Definition task_made_allocs (A : list vmm_allocation) (elf stk dir pa f : Z) : list vmm_allocation :=
  Allocation dir (f * PAGE_SIZE) 1 kernel_page_flags ::
  Allocation stk pa KERNEL_STACK_PAGE_COUNT kernel_page_flags :: Allocation elf epa 1 kernel_page_flags :: A.

(** The task [T] at [p] is ready to run the program in user mode: its stack starts with
    the frame that enters init_goto_user_mode with the entry point of the program; it has
    a directory of its own in the frame [f]; and its address space is the kernel's with
    the program's segment, in the frame [q], and a stack in the frames [fs].  The kernel is
    up as before: it has given the pages of the task away, and an allocation without pages
    is left of the page through which the segment was written. *)
Record user_task_ready μ vctx bl A F (elf stk dir : Z) bl3 (n j : nat) (parent p : Z) (T : task_control_block)
    (f q : Z) (fs : list Z) μ' : Prop := {
  ut_new : ss_tasks (k_sched (mc_kernel μ)) !! p = None ∧ kept !! p = None;
  ut_sched : k_sched (mc_kernel μ') = with_task p T (with_heap (ss_heap (k_sched (mc_kernel μ'))) (k_sched (mc_kernel μ)));
  ut_ids : pid T = k_last_pid (mc_kernel μ) ∧ task_parent T = parent ∧
    k_last_pid (mc_kernel μ') = u32 (k_last_pid (mc_kernel μ) + 1);
  ut_entry : ready halt_addr remove_addr (mc_kernel μ') p T (stk + KERNEL_STACK_SIZE - 16) init_goto_user_mode_addr (e_entry hdr);
  ut_directory : task_paging_ctx T = PagingContext dir (page_tables kctx) ∧ virtual_addr_space T = f * PAGE_SIZE;
  ut_frames : length fs = 10%nat ∧ fresh_frames (mc_kernel μ) (mc_kernel μ') (f :: q :: fs);
  ut_used : ∀ g, taken (k_bitmap (mc_kernel μ)) g = true → taken (k_bitmap (mc_kernel μ')) g = true;
  ut_spaces : ∃ pa bl', let A3 := task_made_allocs A elf stk dir pa f in
    kernel_up (<[p := sizeof_task_control_block]> kept) (Space (task_vmm_context T) bl' (task_allocs file o A3 q fs) :: O) μ' vctx
      (kernel_free mi file o bl3) (kernel_allocs file o A3 q) (add_page (elf / PAGE_SIZE) epa F) n j;
  ut_free : same_free (seg_page file o) 1 bl3 (kernel_free mi file o bl3);
  ut_bytes : bytes_at (mc_phys μ') (q * PAGE_SIZE + seg_vaddr file o mod PAGE_SIZE) (seg_bytes file o);
  ut_memory : ∀ x, ¬ header_at header_addr hf <= x < header_at header_addr hf + 52 →
    ¬ q * PAGE_SIZE <= x < q * PAGE_SIZE + PAGE_SIZE → mc_phys μ' !! x = mc_phys μ !! x;
  ut_words : ∀ a, ¬ table_addr kctx a → ¬ covered bl a → word (k_words (mc_kernel μ')) a = word (k_words (mc_kernel μ)) a
}.

(** The segment's page, which is still free, is not that of the file. *)
Lemma seg_page_other bl elf bl1 stk bl2 dir bl3 va :
  anon mi 1 bl elf bl1 → anon mi KERNEL_STACK_PAGE_COUNT bl1 stk bl2 → anon mi 1 bl2 dir bl3 →
  within bl3 (va / PAGE_SIZE * PAGE_SIZE) (va / PAGE_SIZE * PAGE_SIZE + 1 * PAGE_SIZE) → va / PAGE_SIZE ≠ elf / PAGE_SIZE.
Proof.
  intros (_ & Hal & _ & _ & _ & _ & H1) (_ & _ & _ & _ & _ & _ & H2) (_ & _ & _ & _ & _ & _ & H3) Hw Heq.
  assert (Hc : covered bl3 (va / PAGE_SIZE * PAGE_SIZE)) by (eapply within_covered; [exact Hw|rewrite PAGE_SIZE_val; lia]).
  apply H3, proj1, H2, proj1, H1, proj2 in Hc. apply Hc. rewrite Heq, PAGE_SIZE_val in *. Z.div_mod_to_equations. lia.
Qed.

(** More allocations, none of them without pages, do not keep the page from coming back. *)
Lemma can_return_more bl A F new :
  can_return mi file o bl A F → Forall (λ a, page_count a ≠ 0) new → can_return mi file o bl (new ++ A) F.
Proof.
  intros [Hu Hb Hm Hs Hr] Hnew. split; try done.
  - by destruct new.
  - intros b [Hb'|?]%elem_of_app; [|by apply Hs]. rewrite Forall_forall in Hnew. intros Hz. by destruct (Hnew b Hb').
  - intros m f HF Hd. destruct (Hr m f HF Hd) as (a & Ha & ?). exists a. split; [apply elem_of_app; by right|done].
Qed.

(** The parts of a [can_create] state that the first half of the call leaves to the second. *)
Lemma made_can_fill μ vctx bl A F elf bl1 stk bl2 dir bl3 n j m r μ3 μ4 p T f pa parent :
  can_create μ vctx bl A F elf bl1 stk bl2 dir bl3 n j → program_ok file o →
  header_read μ vctx A F elf bl1 m r μ3 → mc_phys μ4 = mc_phys μ3 →
  user_task_made mi kctx halt_addr remove_addr kept (mc_kernel μ3) vctx bl1 (Allocation elf epa 1 kernel_page_flags :: A) O
    stk bl2 dir bl3 init_goto_user_mode_addr (e_entry hdr) (26 + length bl3 + (4 + length A) + j) (11 + n)
    p (mc_kernel μ4) T f pa →
  p ≠ tl_task (CURRENT_TASK (k_sched (mc_kernel μ4))) →
  let A' := task_made_allocs A elf stk dir pa f in
  let F' := add_page (elf / PAGE_SIZE) epa F in
  on_cpu mi t E (mc_kernel μ4) A' F' →
  can_fill mi t E (<[p := sizeof_task_control_block]> kept) O elf epa file o
    (mk_machine (set_sched (with_task p (set_task_parent parent T) (k_sched (mc_kernel μ4))) (mc_kernel μ4)) (mc_phys μ4))
    vctx bl3 A' F' p (set_task_parent parent T) n j.
Proof.
  intros [[_ _ Hroot _ _ _ _ H0p Hram (Hha & Hin & HF & Hmap) (Hhf & Hhal & _)]
          [(_ & Heal & _ & Hne) Hb Hu] [_ [Hanon _] (Hstk & Hne1 & _) [Hdir Hne2] (Hseg & HsegE & HsegF) Hret [Hus Hus2]]].
  intros Hprog Hh P4 Hm Hpc A' F' Hcpu. destruct Hh as (_ & Hbh & Hso & Bk & _ & _ & _ & _ & _ & _ & K3).
  pose proof Hm as [_ Hready _ _ _ _ _ _ Hrep Hcur _ [Hkept Hpg] Hrm _ _ _ _]. rewrite Bk in Hkept.
  pose proof (seg_page_other _ _ _ _ _ _ _ _ Hanon Hstk Hdir Hseg) as Hother.
  split; cbn [mc_kernel mc_phys]; try done.
  - by apply on_cpu_store.
  - rewrite <- (Hcur Hne1 Hne2). exact Hrep.
  - split_and!; [apply Hready|apply lookup_insert_eq|done].
  - eapply room_le; [|exact Hrm]. unfold A', task_made_allocs. cbn [length]. lia.
  - by apply Hkept.
  - intros x Hx Hf. cbn [mc_phys]. rewrite P4.
    eapply mapped_patch; [exact Hbh|rewrite length_take, Nat.min_l by apply Hprog; exact Hso|].
    apply Hram; [done|]. apply not_true_iff_false. intros Hxu%Hkept. exact (eq_true_false_abs _ Hxu Hf).
  - split; [unfold F', add_page; by rewrite decide_True|]. cbn [mc_phys]. rewrite P4.
    eapply bytes_at_frame; [exact Hb|exact Hso|]. pose proof (po_length _ _ Hprog). unfold header_at.
    pose proof (Z.mod_pos_bound header_addr PAGE_SIZE ltac:(done)). rewrite PAGE_SIZE_val in *. Z.div_mod_to_equations. lia.
  - by apply Hkept.
  - split; [done|]. unfold F', add_page. by rewrite decide_False.
  - apply (can_return_more _ _ _ [_; _] Hret). by repeat constructor.
Qed.

(** The words of the first frame are on the stack, and stay there. *)
Lemma frame_kept bl1 stk bl2 k k' p T task_fn ret_addr :
  anon mi KERNEL_STACK_PAGE_COUNT bl1 stk bl2 → tables_taken kctx bl1 → words_kept t k k' →
  ready halt_addr remove_addr k p T (stk + KERNEL_STACK_SIZE - 16) task_fn ret_addr →
  ∀ i v, first_frame halt_addr remove_addr (pid T) task_fn ret_addr !! i = Some v →
    word (k_words k') (stk + KERNEL_STACK_SIZE - 16 - 4 * Z.of_nat i) = u32 v.
Proof.
  intros (_ & _ & _ & _ & _ & Hwas & _) Htab Hw (_ & _ & _ & _ & Hfr) i v Hi. rewrite <- (Hfr i v Hi). apply Hw.
  intros Hin%Htab. apply Hin, Hwas. apply lookup_lt_Some in Hi.
  assert (length (first_frame halt_addr remove_addr (pid T) task_fn ret_addr) <= 9)%nat
    by (unfold first_frame; destruct (ret_addr =? 0); simpl; lia).
  unfold KERNEL_STACK_SIZE, KERNEL_STACK_PAGE_COUNT. rewrite PAGE_SIZE_val. lia.
Qed.

Lemma filled_ready μ vctx bl A F elf bl1 stk bl2 dir bl3 n j m r μ3 μ4 p T f pa parent j' n' q fs uctx μ' :
  can_create μ vctx bl A F elf bl1 stk bl2 dir bl3 n j → program_ok file o →
  header_read μ vctx A F elf bl1 m r μ3 → mc_phys μ4 = mc_phys μ3 → ss_tasks (k_sched (mc_kernel μ3)) !! p = None →
  user_task_made mi kctx halt_addr remove_addr kept (mc_kernel μ3) vctx bl1 (Allocation elf epa 1 kernel_page_flags :: A) O
    stk bl2 dir bl3 init_goto_user_mode_addr (e_entry hdr) j' n' p (mc_kernel μ4) T f pa →
  filled mi t E (<[p := sizeof_task_control_block]> kept) O file o
    (mk_machine (set_sched (with_task p (set_task_parent parent T) (k_sched (mc_kernel μ4))) (mc_kernel μ4)) (mc_phys μ4))
    vctx bl3 (task_made_allocs A elf stk dir pa f) (add_page (elf / PAGE_SIZE) epa F)
    p (set_task_parent parent T) n j q fs uctx μ' →
  user_task_ready μ vctx bl A F elf stk dir bl3 n j parent p (set_vmm_context uctx (set_task_parent parent T)) f q fs μ'.
Proof.
  intros Hcc Hprog Hh P4 Hnew Hm Hf. pose proof Hcc as [[_ _ Hroot Htasks _ _ _ Hp0 Hram (Hha & Hin & HF & Hmap) Hhf] _ Hly].
  destruct Hh as (_ & Hbh & Hso & Bk & Wk & Sk & Lk & _).
  destruct Hm as [Hnk Hready Hpid Hpag [Hfree Hcr3] ([Hf0 Hf1] & _ & Hfu) _ _ _ _ Hs4 [Hkept _] _ _ Hw4 Hwok4 Hl4].
  destruct Hf as [Hs [bl' Hsp] Hsf K' [Hlen [Hnd Hfr]] Hused Hb Hso' Hmp Hw Hwok Hl [Hpg Hrm]].
  cbn [mc_kernel mc_phys k_bitmap set_sched k_words k_last_pid] in *.
  rewrite Bk in Hkept, Hfree. assert (Htk : ss_tasks (k_sched (mc_kernel μ3)) = ss_tasks (k_sched (mc_kernel μ))) by by rewrite Sk.
  assert (Hstill : ∀ g, taken (k_bitmap (mc_kernel μ4)) g = false → taken (k_bitmap (mc_kernel μ)) g = false).
  { intros g Hg. apply not_true_iff_false. intros Hu%Hkept. congruence. }
  assert (Hall : ∀ g, taken (k_bitmap (mc_kernel μ)) g = true → taken (k_bitmap (mc_kernel μ')) g = true)
    by (intros g Hg; by apply Hused, Hkept).
  assert (Hstay : still_mapped (mc_phys μ) (mc_phys μ')).
  { eapply still_mapped_trans; [|exact Hmp]. rewrite P4. intros a c.
    eapply mapped_patch; [exact Hbh|rewrite length_take, Nat.min_l by apply Hprog; exact Hso]. }
  assert (Hsched : k_sched (mc_kernel μ') = with_task p (set_vmm_context uctx (set_task_parent parent T))
    (with_heap (ss_heap (k_sched (mc_kernel μ'))) (k_sched (mc_kernel μ)))).
  { rewrite Hs at 1. cbn. rewrite Hs4, Sk. cbn. unfold with_task. cbn. by rewrite !insert_insert_eq. }
  split; try done.
  - by rewrite <- Htk.
  - cbn. rewrite Hl, Hl4, Lk. split_and!; [congruence|done|done].
  - pose proof (frame_kept bl1 stk bl2 (mc_kernel μ4) (mc_kernel μ') p T init_goto_user_mode_addr (e_entry hdr) (proj1 (ly_stack _ _ _ _ _ _ _ _ _ Hly))
      (tables_taken_took _ _ _ _ _ (ly_tables _ _ _ _ _ _ _ _ _ Hly) ltac:(apply (ly_elf _ _ _ _ _ _ _ _ _ Hly))) Hw Hready) as Hframe.
    destruct Hready as (Hp & _ & Hk & He & _). split_and!; [done|rewrite Hs; apply lookup_insert_eq|done|done|exact Hframe].
  - split; [done|]. split.
    + apply NoDup_cons. split; [|done]. intros Hq%Hfr. destruct Hq as (_ & Hg & _). congruence.
    + intros g [->|Hq]%elem_of_cons.
      * rewrite PAGE_SIZE_val in Hf0, Hf1. split_and!; [lia|lia|done|by apply Hused].
      * destruct (Hfr g Hq) as (? & ? & ?). split_and!; try done; [lia|lia|by apply Hstill].
  - exists pa, bl'. split; try done.
    + intros g Hg. rewrite Hsched in Hg. cbn in Hg. destruct (decide (p = g)) as [<-|Hpg']; [rewrite lookup_insert_eq; eauto|].
      rewrite lookup_insert_ne by done. rewrite lookup_insert_ne in Hg by done. by apply Htasks.
    + by apply Hwok.
    + by apply Hall.
    + intros x Hx Hxf. apply Hstay, Hram; [done|]. apply not_true_iff_false. intros Hu%Hall. congruence.
    + split_and!; [done|done| |by apply Hstay]. unfold add_page. rewrite decide_False; [done|]. intros Eh.
      destruct (ly_elf _ _ _ _ _ _ _ _ _ Hly) as (_ & _ & _ & HFe). rewrite Eh in HF. congruence.
    + destruct Hhf as (? & ? & ?). split_and!; [done|done|by apply Hall].
  - intros x Hx1 Hx2. rewrite Hso', P4, Hso by done. done.
  - intros a Hta Hca. rewrite Hw, Hw4, Wk; [done|done|done| |done].
    intros Hc. apply Hca. destruct (ly_elf _ _ _ _ _ _ _ _ _ Hly) as ((_ & _ & _ & _ & _ & _ & Hcov) & _). by apply Hcov in Hc as [? _].
Qed.

Lemma create_rest μ vctx bl A F elf bl1 stk bl2 dir bl3 n j r μ2 parent :
  can_create μ vctx bl A F elf bl1 stk bl2 dir bl3 n j → program_ok file o →
  header_read μ vctx A F elf bl1 (31 + length bl3 + (4 + length A) + j) r μ2 →
  wp (header ← load_elf_header mi fault_state header_addr;
      task ← on_kernel (task_create mi halt_addr remove_addr kctx vctx init_goto_user_mode_addr (e_entry header) true);
      t0 ← load_tcb task;
      _ ← on_kernel (store_task task (set_task_parent parent t0));
      vmm_ctx ← on_kernel (on_vmm (vmm_clone_context junk vctx));
      r ← elf_load mi fault_state kctx vctx vmm_ctx header elf;
      vmm_ctx ← on_kernel (map_user_stack mi (Z.to_nat USER_STACK_PAGE_COUNT) 0 r.2);
      t0 ← load_tcb task;
      _ ← on_kernel (store_task task (set_vmm_context vmm_ctx t0));
      mret task)
     (λ p μ', ∃ T f q fs, user_task_ready μ vctx bl A F elf stk dir bl3 n j parent p T f q fs μ') μ2.
Proof.
  intros Hcc Hprog Hh. pose proof Hcc as [[_ _ Hroot Htasks Hwok _ Hpages _ _ (Hha & Hin & HF & _) (Hhf & _)]
    [(Hepa & Heal & _) _ _] [Htab (Hanon & Hne & HE & HFe) (Hstk & Hne1 & HS) [Hdir Hne2] _ _ _]].
  assert (HFh : add_page (elf / PAGE_SIZE) epa F (header_addr / PAGE_SIZE) = Some hf).
  { unfold add_page. rewrite decide_False; [done|]. intros Eh. rewrite Eh in HF. congruence. }
  pose proof Hh as (_ & Hbh & _ & _ & _ & _ & _ & _ & _ & _ & K2). apply wp_bind. eapply wp_mono.
  { apply (load_elf_header_ok mi fault_state Hhh Hhr t E header_addr hf Hha Hhf Hin (take 52 file)
      (Allocation elf epa 1 kernel_page_flags :: A) _ μ2 HFh Hbh); [|exact K2].
    rewrite length_take. pose proof (po_header _ _ Hprog). lia. }
  cbn beta. intros h μ3 [-> Hor]. change (header_of (take 52 file)) with hdr.
  pose proof (header_read_calm _ _ _ _ _ _ _ _ _ _ Hh Hor) as Hh3. clear Hh Hbh K2 Hor.
  pose proof Hh3 as (_ & _ & _ & Bk & Wk & Sk & Lk & Hwok3 & Hrep & Hroom & K3). apply wp_bind. eapply wp_mono.
  { apply (create_task_ok mi Hhh Hhr halt_addr remove_addr t E kept O vctx bl1 _ stk bl2 dir bl3 init_goto_user_mode_addr
      (e_entry hdr) (26 + length bl3 + (4 + length A) + j) (11 + n) _ μ3 K3 Hrep); try done.
    - unfold tasks_kept. by rewrite Sk.
    - eapply tables_taken_took; [exact Htab|apply Hanon].
    - intros m Hm. destruct (HS m Hm). split; [|done]. unfold add_page. rewrite decide_False; [done|]. by intros ->.
    - by rewrite Bk. }
  cbn beta. intros p μ4 (P4 & T & f & pa & Hm & Hpc & Hnew & K4).
  pose proof (um_ready _ _ _ _ _ _ _ _ _ _ _ _ _ _ _ _ _ _ _ _ _ _ _ Hm) as Hready.
  apply wp_bind. eapply load_tcb_ok; [apply Hready|]. apply wp_bind, store_task_ok; [apply Hready|].
  assert (Hpc4 : p ≠ tl_task (CURRENT_TASK (k_sched (mc_kernel μ4))))
    by by rewrite (um_sched _ _ _ _ _ _ _ _ _ _ _ _ _ _ _ _ _ _ _ _ _ _ _ Hm).
  pose proof (made_can_fill _ _ _ _ _ _ _ _ _ _ _ _ _ _ _ _ _ _ _ _ _ parent Hcc Hprog Hh3 P4 Hm Hpc4 K4) as Hcf.
  pose proof Hanon as (He0 & Hea & Hee & _). eapply wp_mono.
  { eapply (fill_ok mi fault_state Hhh Hhr t E _ O junk Hjunk elf epa file o Hprog); [|done|done|done|exact Hcf].
    unfold is_u32. rewrite PAGE_SIZE_val in *. lia. }
  cbn beta. intros x μ' (-> & q & fs & uctx & Hf).
  exists (set_vmm_context uctx (set_task_parent parent T)), f, q, fs. by eapply filled_ready.
Qed.

Lemma created_ok μ vctx bl A F elf bl1 stk bl2 dir bl3 n j parent :
  can_create μ vctx bl A F elf bl1 stk bl2 dir bl3 n j → program_ok file o →
  wp (init_create_user_task mi fault_state junk halt_addr remove_addr init_goto_user_mode_addr header_addr kctx vctx epa parent)
     (λ p μ', ∃ T f q fs, user_task_ready μ vctx bl A F elf stk dir bl3 n j parent p T f q fs μ') μ.
Proof.
  intros Hcc Hprog. unfold init_create_user_task. apply wp_bind.
  eapply wp_mono; [exact (read_header_ok _ _ _ _ _ _ _ _ _ _ _ _ _ Hcc (po_header _ _ Hprog))|].
  cbn beta zeta. intros r μ1 [-> W]. cbn [fst snd]. apply wp_bind. eapply wp_mono; [exact W|]. cbn beta. intros res μ2 Hh.
  pose proof Hh as (-> & _). change (header_of (take 52 file)) with hdr in *. rewrite (po_status _ _ Hprog) in *. cbn [Z.eqb negb].
  by eapply create_rest.
Qed.

(** C5: for a program of one segment ([program_ok]: a file of at most a page with a header
    that the parser accepts and exactly one program header, of a segment to load that lies
    in one page), with the memory it needs free, and when the memory that kmalloc hands out
    holds zeros in the links that vmm_clone_context leaves uninitialised ([null_links]),
    init_create_user_task makes a task that is complete: its control block is in none
    of the blocks of the other tasks, with the next process id and the given parent; its
    kernel stack starts with the frame that enters init_goto_user_mode with the entry
    point of the program, and then sched_remove; it has a page directory of its own; its
    address space is the kernel's with the page of the program's segment, with the flags
    of the segment, and ten pages of stack below USER_STACK_TOP; the segment's frame holds
    the segment's bytes of the file and zeros behind them.  All the frames were free and
    are different, and no other memory than the segment's frame and the local variable
    [header] has changed.  The kernel is up afterwards with the address space that it
    passed, less the pages of the task, and with all the other address spaces, so that it
    can make the next task. *)
Theorem user_task_created μ vctx bl A F elf bl1 stk bl2 dir bl3 n j parent :
  can_create μ vctx bl A F elf bl1 stk bl2 dir bl3 n j → program_ok file o →
  wp (init_create_user_task mi fault_state junk halt_addr remove_addr init_goto_user_mode_addr header_addr kctx vctx epa parent)
     (λ p μ', ∃ T f q fs, user_task_ready μ vctx bl A F elf stk dir bl3 n j parent p T f q fs μ') μ.
Proof. apply created_ok. Qed.

Lemma bad_header_panics μ vctx bl A F elf bl1 stk bl2 dir bl3 n j parent :
  can_create μ vctx bl A F elf bl1 stk bl2 dir bl3 n j → (52 <= length file)%nat → header_status hdr ≠ 0 →
  init_create_user_task mi fault_state junk halt_addr remove_addr init_goto_user_mode_addr header_addr kctx vctx epa parent μ =
  Err (EPanic "failed to parse ELF: %d %u\n").
Proof.
  intros Hcc Hlen Hbad. unfold init_create_user_task.
  eapply wp_fails; [exact (read_header_ok _ _ _ _ _ _ _ _ _ _ _ _ _ Hcc Hlen)|].
  cbn beta zeta. intros r μ1 [-> W]. eapply wp_fails; [exact W|]. cbn beta. intros res μ2 (-> & _).
  change (header_of (take 52 file)) with hdr. by rewrite (proj2 (Z.eqb_neq _ _) Hbad).
Qed.

(** The words from which a program starts: without an entry point, the next one of the frame. *)
Lemma entry_word p entry fn :
  entry_stack halt_addr remove_addr p fn entry !! 0%nat = Some fn ∧
  entry_stack halt_addr remove_addr p fn entry !! 1%nat = Some (if entry =? 0 then remove_addr else entry).
Proof. unfold entry_stack. by destruct (entry =? 0). Qed.

(** The first switch to a task that is ready: it goes to user mode. *)
Definition enters_program (p : Z) (T : task_control_block) (stk cr3 eflags : Z) k : Prop :=
  wp (start_user_task p eflags)
     (λ r k', r.1 = u32 init_goto_user_mode_addr ∧
        user_start (u32 (if e_entry hdr =? 0 then remove_addr else e_entry hdr)) eflags r.2 ∧
        running k' = Some T ∧ tl_task (CURRENT_TASK (k_sched k')) = p ∧
        cpu_cr3 (ss_cpu (k_sched k')) = cr3 ∧ tss_esp0 (ss_cpu (k_sched k')) = esp0 T ∧
        stk <= esp0 T < stk + KERNEL_STACK_SIZE) k.

Lemma ready_enters p T stk eflags k :
  ready halt_addr remove_addr k p T (stk + KERNEL_STACK_SIZE - 16) init_goto_user_mode_addr (e_entry hdr) →
  is_Some (running k) → p ≠ tl_task (CURRENT_TASK (k_sched k)) → 0 <= stk → stk + KERNEL_STACK_SIZE < 2 ^ 32 →
  enters_program p T stk (virtual_addr_space T) eflags k.
Proof.
  intros (_ & HT & Hsp & He & Hfr) [cur Hcur] Hne Hs0 Hs1. unfold running in Hcur.
  unfold enters_program, start_user_task. apply wp_bind, wp_zoom. eapply wp_mono; [apply (do_task_switch_ok p cur T); [exact Hcur|exact HT]|].
  cbn beta. intros _ s' (tasks & T' & -> & Htk & HT').
  assert (T' = T) as -> by (rewrite Htk, lookup_insert_ne in HT' by congruence; congruence). clear Htk.
  destruct (entry_word (pid T) (e_entry hdr) init_goto_user_mode_addr) as [[_ L0]%entry_frame_lookup [H6 L1]%entry_frame_lookup].
  set (len := length _) in *.
  assert (Hlen : Z.of_nat len <= 9) by (unfold len, first_frame; destruct (e_entry hdr =? 0); simpl; lia).
  apply Hfr in L0, L1. clear Hfr. unfold KERNEL_STACK_SIZE, KERNEL_STACK_PAGE_COUNT in *. rewrite PAGE_SIZE_val in *.
  set (sp := kernel_stack_top T + 16) in *. assert (Esp : u32 sp = sp) by (apply u32_small; unfold is_u32; lia).
  replace (stk + 10 * 4096 - 16 - 4 * Z.of_nat (len - 5 - 0)) with sp in L0 by lia.
  replace (stk + 10 * 4096 - 16 - 4 * Z.of_nat (len - 5 - 1)) with (sp + 4) in L1 by lia.
  assert (Esp4 : u32 (u32 (sp + 4)) = sp + 4) by (rewrite !u32_small by (unfold is_u32; rewrite ?u32_small by (unfold is_u32; lia); lia); done).
  unfold cpu_ret, cpu_sp, stack_word. apply wp_bind, wp_bind, wp_gets, wp_bind, wp_gets, wp_bind, wp_zoom, wp_modify, wp_ret.
  cbn [k_words k_sched set_sched ss_cpu cpu_esp]. rewrite Esp. apply wp_bind.
  set (k1 := set_sched _ _). eapply wp_mono; [apply (init_goto_user_mode_ok eflags k1)|];
    cbn [k1 k_words k_sched set_sched ss_cpu cpu_esp]; rewrite ?Esp4.
  - lia.
  - rewrite L1. apply u32_range.
  - cbn beta. intros u k' [Hu Hk]. apply wp_ret. cbn [fst snd]. unfold running. rewrite Hk. unfold k1.
    cbn [k_sched set_sched ss_cpu ss_tasks CURRENT_TASK tl_task cpu_cr3 tss_esp0].
    rewrite L1 in Hu. split_and!; try done; lia.
Qed.

Lemma ready_not_running μ vctx bl A F elf bl1 stk bl2 dir bl3 n j parent p T f q fs μ' :
  can_create μ vctx bl A F elf bl1 stk bl2 dir bl3 n j → user_task_ready μ vctx bl A F elf stk dir bl3 n j parent p T f q fs μ' →
  is_Some (running (mc_kernel μ')) ∧ p ≠ tl_task (CURRENT_TASK (k_sched (mc_kernel μ'))) ∧ 0 <= stk ∧ stk + KERNEL_STACK_SIZE < 2 ^ 32.
Proof.
  intros [Hup _ Hly] [[Hnew _] Hs _ _ _ _ _ _ _ _ _ _].
  pose proof (ft_running _ _ _ (oc_fault _ _ _ _ _ _ (ku_cpu _ _ _ _ _ _ _ _ _ Hup))) as Hrun. unfold running in *.
  assert (Hne : p ≠ tl_task (CURRENT_TASK (k_sched (mc_kernel μ)))) by congruence.
  pose proof (ly_stack _ _ _ _ _ _ _ _ _ Hly) as [(Hs0 & _ & Hs1 & _) _].
  rewrite Hs. cbn. split_and!; [rewrite lookup_insert_ne by done; eauto|done|done|done].
Qed.

(** C16: under the conditions of [user_task_created] (a program of one segment in one page,
    its memory free, zeros in the memory of the heap), the first switch to a task that
    init_create_user_task made gets to user mode at the entry point of its program: do_task_switch returns into init_goto_user_mode, whose iret
    loads the entry point, the top of the user stack, the selectors of the user segments
    with privilege level 3, and the flags with interrupts on; the processor then uses the
    page directory of the task, and its kernel stack for interrupts.  A file without an
    entry point (e_entry = 0) is entered at the address of sched_remove, because
    task_create leaves the word for the return address out when it is 0. *)
Theorem user_task_enters μ vctx bl A F elf bl1 stk bl2 dir bl3 n j parent eflags :
  can_create μ vctx bl A F elf bl1 stk bl2 dir bl3 n j → program_ok file o →
  wp (init_create_user_task mi fault_state junk halt_addr remove_addr init_goto_user_mode_addr header_addr kctx vctx epa parent)
     (λ p μ', ∃ T, ss_tasks (k_sched (mc_kernel μ')) !! p = Some T ∧
        wp (start_user_task p eflags)
          (λ r k', r.1 = u32 init_goto_user_mode_addr ∧
             user_start (u32 (if e_entry hdr =? 0 then remove_addr else e_entry hdr)) eflags r.2 ∧
             running k' = Some T ∧ tl_task (CURRENT_TASK (k_sched k')) = p ∧
             cpu_cr3 (ss_cpu (k_sched k')) = virtual_addr_space T ∧ tss_esp0 (ss_cpu (k_sched k')) = esp0 T ∧
             stk <= esp0 T < stk + KERNEL_STACK_SIZE) (mc_kernel μ')) μ.
Proof.
  intros Hcc Hprog. eapply wp_mono; [by eapply created_ok|]. cbn beta. intros p μ' (T & f & q & fs & Hr). exists T.
  destruct (ready_not_running _ _ _ _ _ _ _ _ _ _ _ _ _ _ _ _ _ _ _ _ Hcc Hr) as (Hrun & Hne & Hs0 & Hs1).
  pose proof (ut_entry _ _ _ _ _ _ _ _ _ _ _ _ _ _ _ _ _ _ Hr) as Hready. split; [apply Hready|]. by apply ready_enters.
Qed.

(** What init_create_task0 does with the new task. *)
Lemma task0_ok μ vctx bl A F elf bl1 stk bl2 dir bl3 n j :
  can_create μ vctx bl A F elf bl1 stk bl2 dir bl3 n j → program_ok file o → k_last_pid (mc_kernel μ) = INIT_PID →
  wp (init_create_task0 mi fault_state junk halt_addr remove_addr init_goto_user_mode_addr header_addr kctx vctx epa)
     (λ p μ', ∃ T f q fs, user_task_ready μ vctx bl A F elf stk dir bl3 n j 0 p T f q fs μ' ∧ pid T = INIT_PID) μ.
Proof.
  intros Hcc Hprog Hpid. apply wp_bind. eapply wp_mono; [by eapply created_ok|]. cbn beta. intros p μ' (T & f & q & fs & Hr).
  pose proof (ut_ids _ _ _ _ _ _ _ _ _ _ _ _ _ _ _ _ _ _ Hr) as [Ep _]. rewrite Hpid in Ep.
  apply wp_bind. eapply load_tcb_ok; [apply (ut_entry _ _ _ _ _ _ _ _ _ _ _ _ _ _ _ _ _ _ Hr)|].
  apply wp_bind, wp_assert; [by rewrite Ep|]. apply wp_ret. by exists T, f, q, fs.
Qed.

(** C23: for a file whose header either is not accepted by the parser or is that of a program
    of one segment in one page ([program_ok]; what becomes of a larger segment is the
    subject of [segment_overrun_panics]), with the memory that a task needs free and zeros
    in the memory of the heap ([null_links]): init_create_task0 returns a complete task
    without a parent exactly when the header is accepted and the task is the second one
    that is made, with the process id 1; a header that is not accepted, and any other
    process id, halt the machine, each with its message. *)
Theorem init_task_outcome μ vctx bl A F elf bl1 stk bl2 dir bl3 n j :
  can_create μ vctx bl A F elf bl1 stk bl2 dir bl3 n j → (52 <= length file)%nat →
  (header_status hdr = 0 → program_ok file o) →
  let init := init_create_task0 mi fault_state junk halt_addr remove_addr init_goto_user_mode_addr header_addr kctx vctx epa in
  if decide (header_status hdr ≠ 0) then init μ = Err (EPanic "failed to parse ELF: %d %u\n")
  else if decide (k_last_pid (mc_kernel μ) ≠ INIT_PID) then init μ = Err (EPanic "invalid PID for init task: %u")
  else wp init (λ p μ', ∃ T f q fs, user_task_ready μ vctx bl A F elf stk dir bl3 n j 0 p T f q fs μ' ∧ pid T = INIT_PID) μ.
Proof.
  intros Hcc Hlen Hprog init. unfold init. case_decide as Hst; [apply bind_err; by eapply bad_header_panics|].
  assert (Hp : program_ok file o) by (apply Hprog; lia). case_decide as Hpid; [|eapply task0_ok; [done|done|lia]].
  eapply wp_fails; [exact (created_ok _ _ _ _ _ _ _ _ _ _ _ _ _ 0 Hcc Hp)|]. cbn beta. intros p μ' (T & f & q & fs & Hr).
  eapply wp_fails; [by eapply (load_tcb_ok p T μ' (λ t0 μ2, t0 = T)); [apply (ut_entry _ _ _ _ _ _ _ _ _ _ _ _ _ _ _ _ _ _ Hr)|]|].
  cbn beta. intros _ μ2 ->. apply bind_err. unfold assert.
  by rewrite (proj1 (ut_ids _ _ _ _ _ _ _ _ _ _ _ _ _ _ _ _ _ _ Hr)), (proj2 (Z.eqb_neq _ _) Hpid).
Qed.

End Call.

End Whole.

(** ** Witnesses *)

(** Every frame may be handed out. *)
#[local] Instance all_frames : Limit := 2 ^ 20.

(** The heap with the control block of the running task, and the address space [space0]
    over it with the first 8 MB of the upper part taken, and the page behind them for the
    stack. *)
Definition tcb_block : Z * kheap :=
  match malloc sizeof_task_control_block heap0 with Ok r => r | Err _ => (0, heap0) end.
Definition tcb : Z := tcb_block.1.
Definition tcb_kept : gmap Z Z := {[ tcb := sizeof_task_control_block ]}.
Definition tcb_store : vmm_store kheap := VmmStore tcb_block.2 ∅ ∅.
Definition user_space0 : vmm_context * vmm_store kheap :=
  match vmm_new_context meminfo0 [] tcb_store with Ok r => r | Err _ => (VmmContext 0 0, tcb_store) end.
Definition user_space : vmm_context * vmm_store kheap :=
  after_map (after_map user_space0 0xC0000000 0 0x800 3) 0xC0800000 0x300000 1 3.

Lemma tcb_store_ok : @store_ok kheap (reserving tcb_kept) tcb_store ∧ room (vs_heap tcb_store) 80.
Proof.
  assert (E : malloc sizeof_task_control_block heap0 = Ok tcb_block) by (vm_compute; reflexivity).
  assert (Ho : owns heap0 ∅) by (by apply (heap_reachable_rep heap0 ∅), (reach_init _ _ heap0_init)).
  pose proof (malloc_spec heap0 ∅ sizeof_task_control_block Ho ltac:(by vm_compute)) as W.
  pose proof (room_malloc heap0 80 sizeof_task_control_block (heap0_room 81 ltac:(done)) ltac:(by vm_compute)) as W2.
  unfold wp in W, W2. rewrite E in W, W2. destruct tcb_block as [p h] eqn:Eb. destruct W2 as [Hp Hrm].
  destruct W as [[-> _]|(_ & _ & Ho' & _)]; [done|]. unfold tcb_store, tcb_kept, tcb. rewrite Eb. cbn [fst snd vs_heap].
  split; [|exact Hrm]. exists ∅. split_and!; [|intros q; simpl; rewrite lookup_empty; by intros []..].
  split; [apply map_disjoint_empty_l|]. rewrite map_empty_union. exact Ho'.
Qed.

Lemma reserved_map_rep kept sp bl A va pa n fl addr bl' k :
  @ctx_rep kheap (reserving kept) sp.2 sp.1 bl A ∧ room (vs_heap sp.2) (2 + k) →
  is_u32 va → paging_is_aligned va = true → paging_is_aligned pa = true →
  0 < n → 0 <= addr → addr mod PAGE_SIZE = 0 → addr + n * PAGE_SIZE < 2 ^ 32 →
  remove_ranges meminfo0 va n (negb (Z.land fl PAGE_FLAG_USER =? 0)) bl = Some (addr, bl') →
  took bl addr n bl' →
  @ctx_rep kheap (reserving kept) (after_map sp va pa n fl).2 (after_map sp va pa n fl).1 bl'
    (Allocation addr pa n fl :: A) ∧ room (vs_heap (after_map sp va pa n fl).2) k.
Proof.
  intros [Hrep Hroom] Hva Hal Hpa Hn Ha Haa Hend Hrem Htook.
  pose proof (@vmm_map_pages_took kheap (reserving kept) meminfo0 sp.1 va pa n fl bl A addr bl' sp.2 Hrep Hva Hal Hpa Hn Ha
    Haa Hend (room_le _ (2 + k) 2 ltac:(lia) Hroom) Hrem Htook) as W.
  rewrite vmm_map_pages_reserving in W.
  apply wp_ok in W as ([a ctx] & s & E & _ & W1 & W2 & _). unfold after_map. rewrite E. simpl in *.
  split; [done|]. by apply W2.
Qed.

Lemma user_space0_rep :
  @ctx_rep kheap (reserving tcb_kept) user_space0.2 user_space0.1 [(0, 0xC0000); (0xC0000000, 0x40000)] [] ∧
  room (vs_heap user_space0.2) 77.
Proof.
  destruct tcb_store_ok as [Hok Hroom].
  pose proof (@new_context_free kheap (reserving tcb_kept) meminfo0 tcb_store Hok ltac:(by vm_compute) ltac:(by vm_compute)
    (room_le _ 80 3 ltac:(lia) Hroom)) as W.
  unfold wp in W. match type of W with match ?r with _ => _ end => assert (E : r = Ok user_space0) end.
  { vm_compute. reflexivity. }
  rewrite E in W. destruct user_space0 as [ctx s]. destruct W as [W1 W2]. split; [exact W1|]. by apply (W2 77%nat).
Qed.

Lemma user_space_rep :
  @ctx_rep kheap (reserving tcb_kept) user_space.2 user_space.1 free5 allocs5 ∧ room (vs_heap user_space.2) 73.
Proof.
  destruct (took_at meminfo0 0xC0000000 0x800 false [(0, 0xC0000); (0xC0000000, 0x40000)])
    as (bl1 & Hrem1 & Htook1 & _); [by vm_compute..| |].
  { exists (0xC0000000, 0x40000). split; [right; left|by vm_compute]. }
  vm_compute in Hrem1. injection Hrem1 as <-.
  destruct (took_at meminfo0 0xC0800000 1 false [(0, 0xC0000); (0xC0800000, 0x3F800)])
    as (bl2 & Hrem2 & Htook2 & _); [by vm_compute..| |].
  { exists (0xC0800000, 0x3F800). split; [right; left|by vm_compute]. }
  vm_compute in Hrem2. injection Hrem2 as <-.
  apply (reserved_map_rep tcb_kept _ [(0, 0xC0000); (0xC0800000, 0x3F800)] [Allocation 0xC0000000 0 0x800 3]
    0xC0800000 0x300000 1 3 0xC0800000 free5 73); [|by vm_compute..|exact Htook2].
  apply (reserved_map_rep tcb_kept user_space0 [(0, 0xC0000); (0xC0000000, 0x40000)] [] 0xC0000000 0 0x800 3 0xC0000000
    [(0, 0xC0000); (0xC0800000, 0x3F800)] 75); [|by vm_compute..|exact Htook1].
  exact user_space0_rep.
Qed.

(** The kernel's task 1, with its stack in the frame 0x300000; the file at 0x400000. *)
Definition user_parent : task_control_block :=
  mk_task 1 0x7000 (vmm_virtual_to_physical meminfo0 (page_directory ctx0)) 0x8000 user_space.1 ctx0 0.
Definition user_kernel : kernel kheap :=
  mk_kernel (SchedStore (vs_heap user_space.2) {[ tcb := user_parent ]} ∅ 0 0 0
               (mk_task_list tcb TASK_PRIORITY_LOW 0) 1 (mk_cpu_state 0 (virtual_addr_space user_parent) 0))
    (vs_blocks user_space.2) (vs_nodes user_space.2) bitmap3 ∅ ps2_0 2.

(** All of memory, with zeros, and a file in it. *)
Definition blank (size : Z) : mem := mem_of 0 (replicate (Z.to_nat size) 0).
Definition user_machine (file : list Z) : machine kheap :=
  mk_machine user_kernel (mem_of 0x400000 file ∪ blank (2 ^ 32)).
Definition user_page (n : Z) : Prop := n = 0 ∨ n = 0x8048.

Lemma file_mapped base file m p n : Forall is_u8 file → mapped m p n → mapped (mem_of base file ∪ m) p n.
Proof.
  intros Hf Hm x Hx. destruct (mem_of base file !! x) as [b|] eqn:E.
  - exists b. split; [by apply lookup_union_Some_l|].
    destruct (Z.ltb_spec x base) as [Hlt|Hge]; [by rewrite mem_of_below in E|].
    replace x with (base + Z.of_nat (Z.to_nat (x - base))) in E by lia. rewrite mem_of_lookup in E.
    by eapply Forall_lookup_1.
  - destruct (Hm x Hx) as (b & Hb & ?). exists b. split; [|done]. by rewrite lookup_union_r.
Qed.

Lemma blank_mapped size p n : 0 <= p → p + n <= size → mapped (blank size) p n.
Proof.
  intros Hp Hn x Hx. exists 0. split; [|by vm_compute]. unfold blank.
  replace x with (0 + Z.of_nat (Z.to_nat x)) by lia. rewrite mem_of_lookup.
  apply lookup_replicate_2. apply Z2Nat.inj_lt; lia.
Qed.

Lemma file_bytes base file m : Forall is_u8 file → bytes_at (mem_of base file ∪ m) base file.
Proof.
  intros Hf i b Hi. split; [|by eapply Forall_lookup_1]. apply lookup_union_Some_l. by rewrite mem_of_lookup.
Qed.

Lemma file_bytes_under base file base' file' m :
  base + Z.of_nat (length file) <= base' → Forall is_u8 file' →
  bytes_at (mem_of base file ∪ (mem_of base' file' ∪ m)) base' file'.
Proof.
  intros Hap Hf i b Hi. destruct (file_bytes base' file' m Hf i b Hi) as [Hx ?]. split; [|done].
  rewrite lookup_union_r; [exact Hx|]. replace (base' + Z.of_nat i) with (base + Z.of_nat (Z.to_nat (base' - base) + i)) by lia.
  rewrite mem_of_lookup. apply lookup_ge_None. lia.
Qed.

Lemma vmm_of_user : vmm_of user_kernel = user_space.2.
Proof. unfold vmm_of, user_kernel. by destruct user_space as [? []]. Qed.

Lemma user_cpu : on_cpu meminfo0 user_parent user_page user_kernel allocs5 file_page.
Proof.
  assert (Hno : ∀ x, region_ok meminfo0 ctx0 ∅ x ∧ present (word ∅ (pte_addr ctx0 x)) = false).
  { intros x. split; unfold region_ok, word; rewrite lookup_empty; [intros Hp; by vm_compute in Hp|by vm_compute]. }
  split.
  - split; [apply lookup_singleton_eq|exact ctx0_ok| |].
    + exists user_space.1, free5. split; [done|]. rewrite vmm_of_user. eapply ctx_rep_unreserved, user_space_rep.
    + intros a [->|[->|Ha%elem_of_nil]%elem_of_cons]%elem_of_cons; [..|done]; split_and!; by vm_compute.
  - exact eq_refl.
  - exact ctx0_apart.
  - split; intros x.
    + intros f _ _. destruct (Hno x) as [Hr Hp]. split; [exact Hr|]. cbn [task_paging_ctx user_parent k_words user_kernel].
      by rewrite Hp.
    + intros _ _ _. exact (Hno x).
  - intros n f. unfold file_page. case_decide as En; [|done]. intros [= <-]. subst n.
    right. exists (Allocation 0xC0800000 0x300000 1 3). split_and!; [by left|by vm_compute..].
Qed.

Lemma bitmap3_many n : 0x600 + Z.of_nat n <= 2 ^ 20 → has_pages bitmap3 n.
Proof.
  intros Hn. split; [intros i; rewrite bitmap3_byte; by case_decide|].
  exists (seqZ 0x600 (Z.of_nat n)). split_and!; [apply NoDup_seqZ|by rewrite length_seqZ, Nat2Z.id|].
  intros p Hp%elem_of_seqZ. split; [lia|]. apply orb_false_iff. split; [|apply Z.leb_gt; change frame_limit with (2 ^ 20); lia].
  unfold page_used. rewrite bitmap3_byte, decide_False by ulia. apply Z.bits_0.
Qed.

Lemma free5_tables : tables_taken ctx0 free5.
Proof.
  intros a Ha (b & Hb & Hc). unfold free5 in Hb. unfold covers in Hc.
  unfold table_addr in Ha. change (page_directory ctx0) with 0xC0110000 in Ha.
  change (page_tables ctx0) with 0xC0200000 in Ha. rewrite PAGE_SIZE_val in Hc.
  apply elem_of_cons in Hb as [->|Hb%list_elem_of_singleton]; [|subst b]; simpl in Hc; lia.
Qed.

(** The free ranges after the file's page, the kernel stack and the directory. *)
Definition user_free (v n : Z) : list (Z * Z) := [(0x1000, 0xBFFFF); (v, n)].

Lemma user_anon : anon meminfo0 1 free5 0 (user_free 0xC0801000 0x3F7FF).
Proof. apply (anon_at meminfo0 1 [] 0 0xC0000 [(0xC0801000, 0x3F7FF)]); [by apply Forall_nil|by vm_compute..]. Qed.

Lemma user_anon_upper v c n :
  pick meminfo0 0 n false (v, c) = true → pick meminfo0 0 n false (0x1000, 0xBFFFF) = false → 0 < n < c →
  ranges_from 0 (user_free v c) → anon meminfo0 n (user_free v c) v (user_free (v + n * PAGE_SIZE) (c - n)).
Proof. intros Hp Hp1. apply (anon_at meminfo0 n [_] v c []); [by apply Forall_singleton|done]. Qed.

Lemma user_kernel_up file n j :
  Forall is_u8 file → (0x600 + Z.of_nat n <= 2 ^ 20) → (j <= 73)%nat →
  kernel_up meminfo0 0xC0800F00 0x300000 user_parent user_page tcb_kept [] (user_machine file) user_space.1 free5 allocs5
    file_page n j.
Proof.
  intros Hfile Hn Hj. split; cbn [mc_kernel user_machine].
  - exact user_cpu.
  - unfold address_spaces. rewrite vmm_of_user. apply (@spaces_one kheap (reserving tcb_kept)), user_space_rep.
  - exact eq_refl.
  - intros q [x Hx]. cbn [k_sched user_kernel ss_tasks] in Hx. apply lookup_singleton_Some in Hx as [<- _].
    exists sizeof_task_control_block. apply lookup_singleton_eq.
  - intros a. change (is_u32 (word ∅ a)). unfold word. rewrite lookup_empty. by vm_compute.
  - eapply room_le; [exact Hj|exact (proj2 user_space_rep)].
  - by apply bitmap3_many.
  - by vm_compute.
  - intros p Hp _. apply file_mapped, blank_mapped; [exact Hfile|rewrite PAGE_SIZE_val; lia..].
  - split; [by vm_compute|]. split; [by vm_compute|]. split; [exact eq_refl|].
    apply file_mapped, blank_mapped; [exact Hfile|by vm_compute..].
  - split; [split; by vm_compute|]. cbn [k_bitmap user_kernel]. split; by vm_compute.
Qed.

Lemma user_file_ready file : Forall is_u8 file → file_ready 0x300000 0x400000 file (user_machine file).
Proof.
  intros Hfile. split; [|exact (file_bytes _ _ _ Hfile)|cbn [mc_kernel user_machine k_bitmap user_kernel]; by vm_compute].
  split; [split; by vm_compute|split_and!; by vm_compute].
Qed.

Lemma user_layout file :
  seg_vaddr file 52 = 0x8048054 →
  layout meminfo0 user_parent user_page 0x400000 file 52 free5 allocs5 file_page 0 (user_free 0xC0801000 0x3F7FF)
    0xC0801000 (user_free 0xC080B000 0x3F7F5) 0xC080B000 (user_free 0xC080C000 0x3F7F4).
Proof.
  intros Hva. assert (Hpage : seg_page file 52 = 0x8048000) by (unfold seg_page; by rewrite Hva).
  split; rewrite ?Hpage, ?Hva.
  - exact free5_tables.
  - split_and!; [exact user_anon|by vm_compute|by left|by vm_compute].
  - split_and!; [apply (user_anon_upper 0xC0801000 0x3F7FF 10); by vm_compute|by vm_compute|].
    intros m Hm. unfold stack_page, KERNEL_STACK_PAGE_COUNT in Hm. rewrite PAGE_SIZE_val in Hm.
    change (0xC0801000 / 4096) with 0xC0801 in Hm. unfold file_page, user_page. rewrite decide_False; [split; [done|lia]|lia].
  - split; [apply (user_anon_upper 0xC080B000 0x3F7F5 1); by vm_compute|by vm_compute].
  - split_and!; [exists (0x1000, 0xBFFFF); split; [left|by vm_compute]|by right|by vm_compute].
  - split; rewrite ?Hpage; [by vm_compute|by vm_compute|done|by apply no_stub_at|].
    intros m f. rewrite Hva. unfold add_page, file_page. intros Hm Hd. exfalso. revert Hd.
    case_decide as E1; [subst m; by vm_compute|]. case_decide as E2; [subst m; by vm_compute|done].
  - split; [exists (0x1000, 0xBFFFF); split; [left|by vm_compute]|left; by vm_compute].
Qed.

Lemma user_can_create file :
  Forall is_u8 file → seg_vaddr file 52 = 0x8048054 →
  can_create meminfo0 0xC0800F00 0x300000 user_parent user_page tcb_kept [] 0x400000 file 52 (user_machine file)
    user_space.1 free5 allocs5 file_page 0 (user_free 0xC0801000 0x3F7FF) 0xC0801000 (user_free 0xC080B000 0x3F7F5)
    0xC080B000 (user_free 0xC080C000 0x3F7F4) 0 0.
Proof.
  intros Hfile Hva. split; [|by apply user_file_ready|by apply user_layout].
  apply user_kernel_up; [exact Hfile|by vm_compute|apply Nat.leb_le; by vm_compute].
Qed.

Lemma hello_program : program_ok hello_file 52.
Proof.
  split; [exact hello_bytes|by vm_compute|apply Nat.leb_le; by vm_compute|by vm_compute..|apply Nat.leb_le; by vm_compute|
    by vm_compute|split; by vm_compute].
Qed.

Lemma user_task_created_witness :
  wp (init_create_user_task meminfo0 state0 zero_node 0xC0105000 0xC0106000 0xC0107000 0xC0800F00 ctx0 user_space.1 0x400000 0)
     (λ p μ', ∃ T, ss_tasks (k_sched (mc_kernel μ')) !! p = Some T ∧ pid T = 2 ∧ esp0 T = 0xC080AFD0)
     (user_machine hello_file).
Proof.
  eapply wp_mono.
  - exact (user_task_created meminfo0 state0 (proj1 meminfo0_base) (proj2 meminfo0_base) zero_node zero_node_null
      0xC0105000 0xC0106000 0xC0107000 0xC0800F00 0x300000 user_parent user_page tcb_kept [] 0x400000 hello_file 52
      (user_machine hello_file) user_space.1 free5 allocs5 file_page 0 (user_free 0xC0801000 0x3F7FF) 0xC0801000
      (user_free 0xC080B000 0x3F7F5) 0xC080B000 (user_free 0xC080C000 0x3F7F4) 0 0 0
      (user_can_create hello_file hello_bytes ltac:(by vm_compute)) hello_program).
  - cbn beta. intros p μ' (T & f & q & fs & [_ _ [Hpid _] (_ & Ht & Hsp & He & _) _ _ _ _ _ _ _ _]). exists T.
    split; [exact Ht|]. split; [exact Hpid|]. rewrite He, Hsp. by vm_compute.
Defined.

(** The program of [hello_file] starts at its entry point with the flags of a reset. *)
Lemma user_task_enters_witness :
  wp (init_create_user_task meminfo0 state0 zero_node 0xC0105000 0xC0106000 0xC0107000 0xC0800F00 ctx0 user_space.1 0x400000 0)
     (λ p μ', wp (start_user_task p 2)
        (λ r _, r = (0xC0107000, mk_user_context 0x8048054 0x1B 0x202 0xA0000000 0x23 0x23)) (mc_kernel μ'))
     (user_machine hello_file).
Proof.
  eapply wp_mono.
  - exact (user_task_enters meminfo0 state0 (proj1 meminfo0_base) (proj2 meminfo0_base) zero_node zero_node_null
      0xC0105000 0xC0106000 0xC0107000 0xC0800F00 0x300000 user_parent user_page tcb_kept [] 0x400000 hello_file 52
      (user_machine hello_file) user_space.1 free5 allocs5 file_page 0 (user_free 0xC0801000 0x3F7FF) 0xC0801000
      (user_free 0xC080B000 0x3F7F5) 0xC080B000 (user_free 0xC080C000 0x3F7F4) 0 0 0 2
      (user_can_create hello_file hello_bytes ltac:(by vm_compute)) hello_program).
  - cbn beta. intros p μ' (T & _ & W). eapply wp_mono; [exact W|]. cbn beta.
    intros [fn [eip cs fl sp ss ds]] k' (E1 & (E2 & E3 & E4 & E5 & E6 & E7) & _). cbn [fst snd uc_eip uc_cs uc_eflags uc_esp uc_ss uc_ds] in *.
    rewrite E1, E2, E3, E4, E5, E6, E7. by vm_compute.
Defined.

(** A file with the header of a 64-bit program. *)
Definition wide_file : list Z := <[4%nat := 2]> hello_file.

Lemma wide_bytes : Forall is_u8 wide_file.
Proof. apply byte_list. by vm_compute. Qed.

(** The same program with the header of a 64-bit file is refused; the other one becomes
    the task 2 of [user_kernel], which is not that of init. *)
Lemma init_task_outcome_witness :
  let init file := init_create_task0 meminfo0 state0 zero_node 0xC0105000 0xC0106000 0xC0107000 0xC0800F00 ctx0
    user_space.1 0x400000 (user_machine file) in
  init wide_file = Err (EPanic "failed to parse ELF: %d %u\n") ∧ init hello_file = Err (EPanic "invalid PID for init task: %u").
Proof.
  assert (Hst : header_status (program_header wide_file) ≠ 0) by by vm_compute.
  split.
  - pose proof (init_task_outcome meminfo0 state0 (proj1 meminfo0_base) (proj2 meminfo0_base) zero_node zero_node_null
      0xC0105000 0xC0106000 0xC0107000 0xC0800F00 0x300000 user_parent user_page tcb_kept [] 0x400000 wide_file 52
      (user_machine wide_file) user_space.1 free5 allocs5 file_page 0 (user_free 0xC0801000 0x3F7FF) 0xC0801000
      (user_free 0xC080B000 0x3F7F5) 0xC080B000 (user_free 0xC080C000 0x3F7F4) 0 0
      (user_can_create wide_file wide_bytes ltac:(by vm_compute)) ltac:(apply Nat.leb_le; by vm_compute)
      (λ E, match Hst E with end)) as W.
    cbv zeta in W. rewrite decide_True in W by exact Hst. exact W.
  - pose proof (init_task_outcome meminfo0 state0 (proj1 meminfo0_base) (proj2 meminfo0_base) zero_node zero_node_null
      0xC0105000 0xC0106000 0xC0107000 0xC0800F00 0x300000 user_parent user_page tcb_kept [] 0x400000 hello_file 52
      (user_machine hello_file) user_space.1 free5 allocs5 file_page 0 (user_free 0xC0801000 0x3F7FF) 0xC0801000
      (user_free 0xC080B000 0x3F7F5) 0xC080B000 (user_free 0xC080C000 0x3F7F4) 0 0
      (user_can_create hello_file hello_bytes ltac:(by vm_compute)) ltac:(apply Nat.leb_le; by vm_compute)
      (λ _, hello_program)) as W.
    cbv zeta in W. rewrite decide_False in W by (intros Hn; apply Hn; by vm_compute).
    rewrite decide_True in W by (intros E; discriminate E). exact W.
Defined.
