(* ===== verification/Startup.v ===== *)
(** * The tasks that kernel_main starts, one after the other

    Each step of the end of kernel_main, from init_sched on, finds the kernel up and leaves it
    up: the thread that boots becomes the first task, the two user tasks are made, three
    kernel tasks are made and added to the ring, and then the user tasks are.  What the later
    steps leave of the earlier ones is stated once, by [onward]. *)

From S2P Require Import Prelude Allocator Kmalloc PageArith Vmm VmmRules VmmRanges VmmFree VmmTree VmmSpace.
From S2P Require Import Spaces VmmProps VmmClone Mem CString Pmm Paging Printk PortIo Ps2 Sched Elf Kernel Syscall PageFault.
From S2P Require Import Task System Mmu Loader Init UserTask.

Section Steps.
Context {H : Type} `{Allocator H} {FL : Limit} (mi : kernel_meminfo) (fault_state : interrupt_state).
Context (Hhh : higher_half_base mi mod 4096 = 0) (Hhr : is_u32 (higher_half_base mi)).
Context (junk : Z → vmm_allocation_tree) (Hjunk : null_links junk).
Context (halt_addr remove_addr init_goto_user_mode_addr header_addr hf : Z) (t : task_control_block) (E : Z → Prop).
Implicit Types (k : kernel H) (μ : machine H) (F : Z → option Z) (bl : list (Z * Z)).

Notation kctx := (task_paging_ctx t).
Notation up := (kernel_up mi header_addr hf t E).

(** ** What the later steps leave alone *)

(** Tasks stay; memory that is neither in the page tables nor in the free ranges [bl] stays;
    frames in use stay in use, and what is in them stays, but for that of the local variable
    [header]. *)
Record onward bl μ μ' : Prop := {
  on_tasks : ∀ p T, ss_tasks (k_sched (mc_kernel μ)) !! p = Some T → ss_tasks (k_sched (mc_kernel μ')) !! p = Some T;
  on_words : ∀ a, ¬ table_addr kctx a → ¬ covered bl a → word (k_words (mc_kernel μ')) a = word (k_words (mc_kernel μ)) a;
  on_used : ∀ g, taken (k_bitmap (mc_kernel μ)) g = true → taken (k_bitmap (mc_kernel μ')) g = true;
  on_memory : ∀ a, a mod PAGE_SIZE = 0 → taken (k_bitmap (mc_kernel μ)) (a / PAGE_SIZE) = true → a ≠ hf →
    ∀ x, a <= x < a + PAGE_SIZE → mc_phys μ' !! x = mc_phys μ !! x
}.

Lemma onward_refl bl μ : onward bl μ μ.
Proof. by split. Qed.

Lemma onward_trans bl1 bl2 μ1 μ2 μ3 :
  onward bl1 μ1 μ2 → onward bl2 μ2 μ3 → (∀ x, covered bl2 x → covered bl1 x) → onward bl1 μ1 μ3.
Proof.
  intros [T1 W1 U1 M1] [T2 W2 U2 M2] Hbl. split; [auto| |auto|].
  - intros a Ha Hc. rewrite W2, W1; auto.
  - intros a Hal Hu Hne x Hx. rewrite (M2 a), (M1 a); auto.
Qed.

(** A file in a frame stays, when the frame is not that of [header]. *)
Lemma file_onward bl epa file μ μ' :
  onward bl μ μ' → file_ready hf epa file μ → Z.of_nat (length file) <= PAGE_SIZE → file_ready hf epa file μ'.
Proof.
  intros Hon [(Hf & Hal & Hnz & Hne) Hb Hu] Hlen. split; [done| |by apply Hon].
  intros i b Hi. destruct (Hb i b Hi) as [Hx ?]. split; [|done]. rewrite <- Hx. apply lookup_lt_Some in Hi.
  by apply (on_memory _ _ _ Hon epa); [..|lia].
Qed.

(** The task [T] at [p] will start its program: the first frame is on its kernel stack, it
    has a directory and an address space of its own, and the segment is in the frame [q]. *)
Record user_program μ (file : list Z) (o : nat) (stk dir parent p : Z) (T : task_control_block) (id f q : Z) : Prop := {
  up_entry : ready halt_addr remove_addr (mc_kernel μ) p T (stk + KERNEL_STACK_SIZE - 16) init_goto_user_mode_addr
    (e_entry (program_header file));
  up_ids : pid T = id ∧ task_parent T = parent;
  up_directory : task_paging_ctx T = PagingContext dir (page_tables kctx) ∧ virtual_addr_space T = f * PAGE_SIZE;
  up_frame : 0 <= q ∧ taken (k_bitmap (mc_kernel μ)) q = true ∧ q * PAGE_SIZE ≠ hf;
  up_bytes : bytes_at (mc_phys μ) (q * PAGE_SIZE + seg_vaddr file o mod PAGE_SIZE) (seg_bytes file o)
}.

(** A kernel stack is outside the page tables and the free ranges. *)
Definition stack_apart bl (stk : Z) : Prop :=
  ∀ a, stk <= a < stk + KERNEL_STACK_SIZE → ¬ table_addr kctx a ∧ ¬ covered bl a.

Lemma stack_apart_less bl bl' stk : stack_apart bl stk → (∀ x, covered bl' x → covered bl x) → stack_apart bl' stk.
Proof. intros Hs Hbl a Ha. destruct (Hs a Ha). split; [done|]. by intros ?%Hbl. Qed.

Lemma stack_apart_anon bl stk bl' :
  anon mi KERNEL_STACK_PAGE_COUNT bl stk bl' → tables_taken kctx bl → stack_apart bl' stk.
Proof.
  intros (_ & _ & _ & _ & _ & Hwas & Hcov) Htab a Ha. split.
  - intros Hin%Htab. by apply Hin, Hwas.
  - intros Hc%Hcov. by apply Hc.
Qed.

Lemma ready_onward bl μ μ' p T stk fn ret :
  onward bl μ μ' → stack_apart bl stk → ready halt_addr remove_addr (mc_kernel μ) p T (stk + KERNEL_STACK_SIZE - 16) fn ret →
  ready halt_addr remove_addr (mc_kernel μ') p T (stk + KERNEL_STACK_SIZE - 16) fn ret.
Proof.
  intros Hon Hs (Hp & HT & Hk & He & Hfr). split_and!; [done|by apply Hon|done|done|]. intros i v Hi.
  rewrite <- (Hfr i v Hi). apply lookup_lt_Some in Hi.
  assert (length (first_frame halt_addr remove_addr (pid T) fn ret) <= 9)%nat
    by (unfold first_frame; destruct (ret =? 0); simpl; lia).
  apply Hon; apply Hs; unfold KERNEL_STACK_SIZE, KERNEL_STACK_PAGE_COUNT; rewrite PAGE_SIZE_val; lia.
Qed.

(** A segment that fits in a page lies in its frame. *)
Lemma segment_length file o :
  program_ok file o → seg_vaddr file o mod PAGE_SIZE + Z.of_nat (length (seg_bytes file o)) <= PAGE_SIZE.
Proof.
  intros [Hb _ _ _ _ _ Ho _ Hseg]. unfold seg_bytes. rewrite length_app, length_replicate, (length_seg_data file o Ho Hseg Hb).
  destruct (seg_ranges file o Ho Hb) as (_ & _ & Hf & Hm), Hseg as [_ Hfit _ _ _]. unfold is_u32 in *. lia.
Qed.

Lemma program_onward bl μ μ' file o stk dir parent p T id f q :
  onward bl μ μ' → stack_apart bl stk → program_ok file o →
  user_program μ file o stk dir parent p T id f q → user_program μ' file o stk dir parent p T id f q.
Proof.
  intros Hon Hs Hprog [Hen Hid Hdir (Hq & Hu & Hne) Hb]. split; [by eapply ready_onward|done|done| |].
  - split_and!; [done|by apply Hon|done].
  - intros i b Hi. destruct (Hb i b Hi) as [Hx ?]. split; [|done]. rewrite <- Hx. apply lookup_lt_Some in Hi.
    pose proof (segment_length file o Hprog). pose proof (Z.mod_pos_bound (seg_vaddr file o) PAGE_SIZE ltac:(done)).
    apply (on_memory _ _ _ Hon (q * PAGE_SIZE)); [by apply Z.mod_mul|by rewrite Z.div_mul|done|lia].
Qed.

(** ** The ring and the tasks *)

(** The ring has the nodes [l], which are blocks of [kept], and the tasks [ts]; the first
    task runs, on its interrupt stack, and is next; the scheduler is on. *)
Record ring_up (kept : gmap Z Z) k (l ts : list Z) : Prop := {
  ru_ring : ring (ss_lists (k_sched k)) l ts;
  ru_ends : head l = Some (tasks_head (k_sched k)) ∧ last l = Some (tasks_tail (k_sched k));
  ru_nodes : ∀ p, is_Some (ss_lists (k_sched k) !! p) → kept !! p = Some sizeof_task_list;
  ru_tasks : ∀ p, p ∈ ts → is_Some (ss_tasks (k_sched k) !! p);
  ru_first : head ts = Some (tl_task (CURRENT_TASK (k_sched k))) ∧ tasks_sched_head (k_sched k) = tasks_head (k_sched k) ∧
    SCHED_INIT (k_sched k) = 1 ∧ tss_esp0 (ss_cpu (k_sched k)) = esp0 t
}.

Lemma ring_up_task kept kept' k k' l ts p T h :
  ring_up kept k l ts → kept ⊆ kept' → k_sched k' = with_task p T (with_heap h (k_sched k)) → ring_up kept' k' l ts.
Proof.
  intros [Hr He Hn Ht Hf] Hk Hs. split; rewrite Hs; simpl; try done.
  - intros q Hq. eapply lookup_weaken; [by apply Hn|done].
  - intros q [x Hq]%Ht. rewrite lookup_insert. case_decide; eauto.
Qed.

(** Every task is on the kernel's address space, whose context is [vctx], or on one of [O];
    the allocations of [O] have flags and frames of pages. *)
Definition allocs_ok (A : list vmm_allocation) : Prop := ∀ a, a ∈ A → flags_ok (flags a) ∧ is_u32 (physical_addr a).

Record tasks_up (vctx : vmm_context) (O : list space) k : Prop := {
  tu_spaces : ∀ p T, ss_tasks (k_sched k) !! p = Some T → paging_ok (task_paging_ctx T) ∧
    (allocations (task_vmm_context T) = allocations vctx ∨
     ∃ sp, sp ∈ O ∧ allocations (task_vmm_context T) = allocations (sc_ctx sp));
  tu_allocs : ∀ sp, sp ∈ O → allocs_ok (sc_allocs sp)
}.

Lemma tasks_up_task vctx O k k' p T h S :
  tasks_up vctx O k → k_sched k' = with_task p T (with_heap h (k_sched k)) → paging_ok (task_paging_ctx T) →
  (∀ sp, sp ∈ S → allocs_ok (sc_allocs sp)) →
  allocations (task_vmm_context T) = allocations vctx ∨ (∃ sp, sp ∈ S ∧ allocations (task_vmm_context T) = allocations (sc_ctx sp)) →
  tasks_up vctx (S ++ O) k'.
Proof.
  intros [Ht HO] Hs Hp HS HT. split.
  - intros q U. rewrite Hs. simpl. rewrite lookup_insert. case_decide as Eq.
    + intros [= <-]. split; [done|]. destruct HT as [?|(sp & ? & ?)]; [by left|right]. exists sp. split; [apply elem_of_app; by left|done].
    + intros HU. destruct (Ht q U HU) as [? Hsp]. split; [done|]. destruct Hsp as [?|(sp & ? & ?)]; [by left|right].
      exists sp. split; [apply elem_of_app; by right|done].
  - intros sp [?|?]%elem_of_app; auto.
Qed.


(** ** A kernel task *)

Lemma kernel_task_up kept O μ vctx bl A F stk bl' task_fn (n j : nat) :
  up kept O μ vctx bl A F (10 + n) (3 + j) → anon mi KERNEL_STACK_PAGE_COUNT bl stk bl' → bl' ≠ tl bl →
  tables_taken kctx bl → (∀ m, stack_page stk m → F m = None ∧ ¬ E m) →
  wp (on_kernel (task_create mi halt_addr remove_addr kctx vctx task_fn 0 false))
     (λ p μ', ∃ T pa,
        kernel_task_made mi kctx halt_addr remove_addr kept (mc_kernel μ) vctx bl A O stk bl' task_fn 0 j n p (mc_kernel μ') T pa ∧
        up (<[p := sizeof_task_control_block]> kept) O μ' vctx bl'
          (Allocation stk pa KERNEL_STACK_PAGE_COUNT kernel_page_flags :: A) F n j ∧ onward bl μ μ') μ.
Proof.
  intros Hup Hanon Hne Htab HS. pose proof Hup as [Hcpu Hsp Hroot Htasks Hwok Hroom Hpages Hp0 Hmem Hhd Hfr].
  apply wp_zoom. eapply wp_mono.
  { apply (task_create_kernel_ok mi kctx (ft_paging _ _ _ (oc_fault _ _ _ _ _ _ Hcpu)) Hhh Hhr halt_addr remove_addr kept vctx bl A O stk bl'
      task_fn 0 j n); done. }
  cbn beta. intros p k' (T & pa & Hm). exists T, pa. cbn [mc_kernel]. split; [done|].
  pose proof Hm as [Hnew _ _ _ _ Hpa _ Hs Hsp' Hcur Hrm [Hkept Hpg] _ Hent Hw Hwok'].
  assert (Hold : ∀ q, is_Some (ss_tasks (k_sched (mc_kernel μ)) !! q) → p ≠ q).
  { intros q Hq%Htasks ->. rewrite Hnew in Hq. by destruct Hq. }
  rewrite (Hcur Hne) in Hsp'. split.
  - split; cbn [mc_kernel mc_phys]; try done.
    + apply spaces_unreserved, spaces_head in Hsp'. eapply on_cpu_changed; [exact Hcpu| |by rewrite Hs|exact Hroot|exact Hsp'| | |].
      * pose proof (ft_running _ _ _ (oc_fault _ _ _ _ _ _ Hcpu)) as Hrun. unfold running in *. rewrite Hs. cbn.
        rewrite lookup_insert_ne by (apply Hold; eauto). exact Hrun.
      * intros a [->|Ha]%elem_of_cons; [right|by left]. by split_and!.
      * eapply view_kept; [apply Hcpu|exact Hent|exact HS].
      * eapply backed_kept; [|exact Hent|intros m Hm'; by apply HS].
        intros m g Hg. destruct (oc_backed _ _ _ _ _ _ Hcpu m g Hg) as [?|(a & Ha & ?)]; [by left|right].
        exists a. split; [by right|done].
    + intros q Hq. rewrite Hs in Hq. cbn in Hq. rewrite lookup_insert in Hq. rewrite lookup_insert. case_decide; [by eexists|by apply Htasks].
    + by apply Hwok'.
    + by apply Hkept.
    + intros q Hq Hf. apply Hmem; [done|]. apply not_true_iff_false. intros Hu%Hkept. exact (eq_true_false_abs _ Hu Hf).
    + destruct Hfr as (? & ? & ?). split_and!; [done|done|by apply Hkept].
  - split; cbn [mc_kernel mc_phys]; try done. intros q U HU. rewrite Hs. cbn.
    rewrite lookup_insert_ne; [done|]. apply Hold. eauto.
Qed.

(** ** Adding a task to the ring *)

Lemma sched_add_up kept O μ vctx bl A F p prio l ts (n j : nat) :
  up kept O μ vctx bl A F n (1 + j) → ring_up kept (mc_kernel μ) l ts → is_Some (ss_tasks (k_sched (mc_kernel μ)) !! p) →
  wp (on_kernel (on_sched (sched_add p prio)))
     (λ _ μ', ∃ nd, up (<[nd := sizeof_task_list]> kept) O μ' vctx bl A F n j ∧
        ring_up (<[nd := sizeof_task_list]> kept) (mc_kernel μ') (l ++ [nd]) (ts ++ [p]) ∧ onward bl μ μ' ∧
        ss_tasks (k_sched (mc_kernel μ')) = ss_tasks (k_sched (mc_kernel μ)) ∧
        k_last_pid (mc_kernel μ') = k_last_pid (mc_kernel μ)) μ.
Proof.
  intros Hup Hring Hp. pose proof Hup as [Hcpu Hsp Hroot Htasks Hwok Hroom Hpages Hp0 Hmem Hhd Hfr].
  pose proof Hring as [Hr [He1 He2] Hn Ht (Hf1 & Hf2 & Hf3 & Hf4)].
  apply wp_zoom, wp_zoom. eapply wp_mono.
  { apply (sched_add_links (λ nd h, kept !! nd = None ∧ room h j ∧ @spaces H (reserving (<[nd := sizeof_task_list]> kept))
      (VmmStore h (k_blocks (mc_kernel μ)) (k_nodes (mc_kernel μ))) (Space vctx bl A :: O)) _ l ts p prio Hr He1 He2).
    eapply wp_mono; [apply (spaces_reserve kept sizeof_task_list j _ _ _ Hsp Hroom); by vm_compute|].
    cbn beta. intros nd h (Hnz & Hnew & Hrm & Hsp'). split_and!; [done| |done..].
    apply eq_None_not_Some. intros Hs%Hn. simpl in Hs. congruence. }
  cbn beta. intros _ s' (nd & h & lists & (Hnew & Hrm & Hsp') & Hnl & -> & Hr' & Hl'). exists nd. split_and!; [| |by split|done|done].
  - split; cbn [mc_kernel mc_phys]; try done.
    + eapply on_cpu_changed; [exact Hcpu|apply Hcpu|done|exact Hroot| |by left|apply Hcpu|apply Hcpu].
      exact (spaces_head _ _ _ _ _ (spaces_unreserved _ _ _ Hsp')).
    + intros q Hq. rewrite lookup_insert. case_decide; [by eexists|by apply Htasks].
  - split; cbn [mc_kernel mc_phys k_sched set_sched ss_lists tasks_head tasks_tail ss_tasks CURRENT_TASK with_tail with_lists with_heap]; try done.
    + split; [by destruct l|apply last_snoc].
    + intros q [->|Hq]%Hl'; [apply lookup_insert_eq|]. rewrite lookup_insert_ne; [by apply Hn|]. intros ->. apply Hn in Hq. congruence.
    + intros q [Hq| ->%list_elem_of_singleton]%elem_of_app; auto.
    + split_and!; [by destruct ts|done..].
Qed.


(** ** A user task *)

(** The allocations without pages are at addresses of [V]. *)
Definition stubs_in (A : list vmm_allocation) (V : list Z) : Prop := ∀ a, a ∈ A → page_count a = 0 → virtual_addr a ∈ V.

(** The pages that a user task gets in the kernel's address space, and the free ranges after
    each: the page of its file, its kernel stack and its page directory. *)
Record place : Type := Place {
  pl_file : Z; pl_free1 : list (Z * Z); pl_stack : Z; pl_free2 : list (Z * Z); pl_dir : Z; pl_free3 : list (Z * Z)
}.

(** These are the pages that the allocations from the free ranges [bl] find; the segment and
    the user stack find theirs free.  Allocations without pages are at [V]. *)
Record place_ok (epa : Z) (file : list Z) (o : nat) bl F (V : list Z) (pl : place) : Prop := {
  pk_file : anon mi 1 bl (pl_file pl) (pl_free1 pl) ∧ pl_free1 pl ≠ tl bl ∧ E (pl_file pl / PAGE_SIZE) ∧
    F (pl_file pl / PAGE_SIZE) = None;
  pk_stack : anon mi KERNEL_STACK_PAGE_COUNT (pl_free1 pl) (pl_stack pl) (pl_free2 pl) ∧ pl_free2 pl ≠ tl (pl_free1 pl) ∧
    (∀ m, stack_page (pl_stack pl) m → F m = None ∧ ¬ E m);
  pk_dir : anon mi 1 (pl_free2 pl) (pl_dir pl) (pl_free3 pl) ∧ pl_free3 pl ≠ tl (pl_free2 pl);
  pk_seg : within (pl_free3 pl) (seg_page file o) (seg_page file o + 1 * PAGE_SIZE) ∧
    E (seg_vaddr file o / PAGE_SIZE) ∧ F (seg_vaddr file o / PAGE_SIZE) = None;
  pk_return : seg_page file o + 1 * PAGE_SIZE < higher_half_base mi ∧ head_below (seg_page file o) (pl_free3 pl) ∧
    seg_page file o ∉ V;
  pk_region : ∀ m, is_Some (add_page (pl_file pl / PAGE_SIZE) epa F m) →
    PAGE_DIRECTORY_INDEX (m * PAGE_SIZE) ≠ PAGE_DIRECTORY_INDEX (seg_vaddr file o);
  pk_user_stack : within (pl_free3 pl) user_stack_bottom USER_STACK_TOP ∧
    (seg_page file o + 1 * PAGE_SIZE <= user_stack_bottom ∨ USER_STACK_TOP <= seg_page file o)
}.

Lemma place_layout epa file o bl A F V pl :
  place_ok epa file o bl F V pl → tables_taken kctx bl → stubs_in A V →
  layout mi t E epa file o bl A F (pl_file pl) (pl_free1 pl) (pl_stack pl) (pl_free2 pl) (pl_dir pl) (pl_free3 pl).
Proof.
  intros [Hf (Hstk & Hne & HS) Hd Hseg (Hu & Hb & HnV) Hreg Hus] Htab HA.
  split; [done|done|done|done|done| |done].
  split; [done|done|done| |].
  - intros b [->|Hin]%elem_of_cons Hz; [done|]. intros Heq. apply HnV. rewrite <- Heq. by apply HA.
  - intros m f Hm Hd'. by destruct (Hreg m (mk_is_Some _ _ Hm)).
Qed.

(** What is free afterwards was free before. *)
Definition free_after (file : list Z) (o : nat) (pl : place) : list (Z * Z) := kernel_free mi file o (pl_free3 pl).
Definition page_after (epa : Z) (pl : place) F : Z → option Z := add_page (pl_file pl / PAGE_SIZE) epa F.
Definition stubs_after (file : list Z) (o : nat) (V : list Z) : list Z := u32 (seg_page file o + PAGE_SIZE) :: V.

Lemma place_covered epa file o bl F V pl x :
  place_ok epa file o bl F V pl → same_free (seg_page file o) 1 (pl_free3 pl) (free_after file o pl) →
  covered (free_after file o pl) x → covered bl x ∧ ¬ pl_stack pl <= x < pl_stack pl + KERNEL_STACK_SIZE.
Proof.
  intros [[(_ & _ & _ & _ & _ & _ & H1) _] [(_ & _ & _ & _ & _ & _ & H2) _] [(_ & _ & _ & _ & _ & _ & H3) _] _ _ _ _] [Hs _] Hx.
  apply Hs, H3, proj1, H2 in Hx as [Hx Hn]. split; [by apply H1 in Hx as [? _]|done].
Qed.

(** What a call for a user task leaves. *)
Record user_task_up (kept : gmap Z Z) O μ vctx epa file o bl (A : list vmm_allocation) F V pl (n j : nat) (parent p : Z)
    l ts μ' : Prop := {
  uu_up : ∃ T f q sp A',
    up (<[p := sizeof_task_control_block]> kept) (sp :: O) μ' vctx (free_after file o pl) A' (page_after epa pl F) n j ∧
    tasks_up vctx (sp :: O) (mc_kernel μ') ∧ stubs_in A' (stubs_after file o V) ∧ length A' = (4 + length A)%nat ∧
    user_program μ' file o (pl_stack pl) (pl_dir pl) parent p T (k_last_pid (mc_kernel μ)) f q;
  uu_ring : ring_up (<[p := sizeof_task_control_block]> kept) (mc_kernel μ') l ts;
  uu_new : kept !! p = None;
  uu_last : k_last_pid (mc_kernel μ') = u32 (k_last_pid (mc_kernel μ) + 1);
  uu_onward : onward bl μ μ';
  uu_less : ∀ x, covered (free_after file o pl) x → covered bl x;
  uu_apart : stack_apart (free_after file o pl) (pl_stack pl)
}.

Lemma stack_allocs_ok fs i A :
  allocs_ok A → (∀ f, f ∈ fs → 0 <= f < 2 ^ 20) → allocs_ok (stack_allocs i fs A).
Proof.
  revert i A. induction fs as [|f fs IH]; intros i A HA Hfs; [done|]. apply IH; [|set_solver].
  intros a [->|Ha]%elem_of_cons; [|by apply HA]. split; [by vm_compute|]. pose proof (Hfs f ltac:(by left)). simpl.
  rewrite PAGE_SIZE_val. unfold is_u32. lia.
Qed.


Lemma user_task_allocs file o A q fs :
  allocs_ok (kernel_allocs file o A q) → 0 <= q < 2 ^ 20 → (∀ f, f ∈ fs → 0 <= f < 2 ^ 20) → allocs_ok (task_allocs file o A q fs).
Proof.
  intros HA Hq Hfs. apply stack_allocs_ok; [|done]. intros a [->|Ha]%elem_of_cons; [|by apply HA; right].
  split; [apply seg_flags_ok|]. simpl. rewrite PAGE_SIZE_val. unfold is_u32. lia.
Qed.

Lemma made_onward kept O epa file o μ vctx bl A F elf stk dir bl3 n j n' j' parent p T f q fs μ' :
  up kept O μ vctx bl A F n' j' →
  user_task_ready mi halt_addr remove_addr init_goto_user_mode_addr header_addr hf t E kept O epa file o μ vctx bl A F
    elf stk dir bl3 n j parent p T f q fs μ' →
  onward bl μ μ' ∧ 0 <= q < 2 ^ 20 ∧ (∀ g, g ∈ fs → 0 <= g < 2 ^ 20) ∧ taken (k_bitmap (mc_kernel μ')) q = true ∧
  q * PAGE_SIZE ≠ hf.
Proof.
  intros Hup [[Hnew _] Hs _ _ _ (_ & _ & Hfr) Hused _ _ _ Hmem Hw].
  destruct (ku_header _ _ _ _ _ _ _ _ _ _ _ _ _ _ Hup) as (_ & Hin & _ & _).
  destruct (ku_frame _ _ _ _ _ _ _ _ _ _ _ _ _ _ Hup) as (_ & Hal & Hhu).
  destruct (Hfr q) as (Hq & Hqf & Hqu); [right; by left|]. split; [|split_and!; [lia|lia| |done|]].
  - split; [|done|done|].
    + intros x U HU. rewrite Hs. cbn. by rewrite lookup_insert_ne by congruence.
    + intros a Ha Hu Hne x Hx. apply Hmem.
      * unfold header_at. pose proof (Z.mod_pos_bound header_addr PAGE_SIZE ltac:(done)).
        intros Hh. apply Hne. rewrite PAGE_SIZE_val in *. Z.div_mod_to_equations. lia.
      * intros Hqx. assert (q = a / PAGE_SIZE) as -> by (rewrite PAGE_SIZE_val in *; Z.div_mod_to_equations; lia). congruence.
  - intros g Hg. apply Hfr. by do 2 right.
  - intros Eq. rewrite <- Eq, Z.div_mul in Hhu by done. congruence.
Qed.

Lemma made_up kept O epa file o μ vctx bl A F V pl (n j : nat) parent p T f q fs μ' l ts :
  up kept O μ vctx bl A F (22 + n) (blocks_needed (pl_free3 pl) A + j) → place_ok epa file o bl F V pl →
  tables_taken kctx bl → stubs_in A V → ring_up kept (mc_kernel μ) l ts → tasks_up vctx O (mc_kernel μ) →
  user_task_ready mi halt_addr remove_addr init_goto_user_mode_addr header_addr hf t E kept O epa file o μ vctx bl A F
    (pl_file pl) (pl_stack pl) (pl_dir pl) (pl_free3 pl) n j parent p T f q fs μ' →
  user_task_up kept O μ vctx epa file o bl A F V pl n j parent p l ts μ'.
Proof.
  intros Hup Hpl Htab HV Hring Htasks Hr. destruct (made_onward _ _ _ _ _ _ _ _ _ _ _ _ _ _ _ _ _ _ _ _ _ _ _ _ _ Hup Hr) as (Hon & Hq & Hfs & Hqu & Hqh).
  pose proof Hr as [[_ Hnew] Hs (Hid & Hpar & Hlast) Hen [Hdir Hcr3] _ _ (pa & bl' & Hup') Hsf Hb _ _]. cbv zeta in Hup'.
  pose proof (λ x, place_covered _ _ _ _ _ _ _ x Hpl Hsf) as Hcov.
  split; [|by eapply ring_up_task; [exact Hring|by apply insert_subseteq|exact Hs]|done|done|done|by intros x [? _]%Hcov|].
  - exists T, f, q. do 2 eexists. split_and!; [exact Hup'| | |done|].
    + eapply (tasks_up_task _ _ _ _ _ _ _ [_]); [exact Htasks|exact Hs| | |right; eexists; split; [by left|done]].
      * rewrite Hdir. pose proof (pk_dir _ _ _ _ _ _ _ Hpl) as [Hd _]. eapply clone_paging_ok; [|exact Hd|].
        { exact (ft_paging _ _ _ (oc_fault _ _ _ _ _ _ (ku_cpu _ _ _ _ _ _ _ _ _ _ _ _ _ _ Hup))). }
        eapply tables_taken_took; [eapply tables_taken_took; [exact Htab|]|]; apply Hpl.
      * intros sp ->%list_elem_of_singleton. apply user_task_allocs; [|done|done].
        exact (ft_allocs _ _ _ (oc_fault _ _ _ _ _ _ (ku_cpu _ _ _ _ _ _ _ _ _ _ _ _ _ _ Hup'))).
    + intros a [->|[->|[->|[->|Ha]%elem_of_cons]%elem_of_cons]%elem_of_cons]%elem_of_cons Hz; [by left|done..|right].
      by apply HV.
    + split; [done|done|done|split_and!; [lia|done|done]|done].
  - intros a Ha. split.
    + intros Hin%Htab. apply Hin. pose proof (pk_file _ _ _ _ _ _ _ Hpl) as [(_ & _ & _ & _ & _ & _ & H1) _].
      pose proof (pk_stack _ _ _ _ _ _ _ Hpl) as [(_ & _ & _ & _ & _ & Hwas & _) _]. by apply (H1 a), Hwas.
    + intros [_ Hn]%Hcov. done.
Qed.

Lemma user_task_up_ok kept O epa file o μ vctx bl A F V pl (n j : nat) parent l ts :
  up kept O μ vctx bl A F (22 + n) (blocks_needed (pl_free3 pl) A + j) → file_ready hf epa file μ → program_ok file o →
  place_ok epa file o bl F V pl → tables_taken kctx bl → stubs_in A V → ring_up kept (mc_kernel μ) l ts →
  tasks_up vctx O (mc_kernel μ) →
  wp (init_create_user_task mi fault_state junk halt_addr remove_addr init_goto_user_mode_addr header_addr kctx vctx epa parent)
     (λ p μ', user_task_up kept O μ vctx epa file o bl A F V pl n j parent p l ts μ') μ.
Proof.
  intros Hup Hfile Hprog Hpl Htab HV Hring Htasks. eapply wp_mono.
  { eapply (created_ok mi fault_state Hhh Hhr junk Hjunk); [|exact Hprog]. split; [exact Hup|exact Hfile|by eapply place_layout]. }
  cbn beta. intros p μ' (T & f & q & fs & Hr). by eapply made_up.
Qed.

Lemma task0_up_ok kept O epa file o μ vctx bl A F V pl (n j : nat) l ts :
  up kept O μ vctx bl A F (22 + n) (blocks_needed (pl_free3 pl) A + j) → file_ready hf epa file μ → program_ok file o →
  place_ok epa file o bl F V pl → tables_taken kctx bl → stubs_in A V → ring_up kept (mc_kernel μ) l ts →
  tasks_up vctx O (mc_kernel μ) → k_last_pid (mc_kernel μ) = INIT_PID →
  wp (init_create_task0 mi fault_state junk halt_addr remove_addr init_goto_user_mode_addr header_addr kctx vctx epa)
     (λ p μ', user_task_up kept O μ vctx epa file o bl A F V pl n j 0 p l ts μ') μ.
Proof.
  intros Hup Hfile Hprog Hpl Htab HV Hring Htasks Hpid. eapply wp_mono.
  { eapply (task0_ok mi fault_state Hhh Hhr junk Hjunk); [|exact Hprog|exact Hpid].
    split; [exact Hup|exact Hfile|by eapply place_layout]. }
  cbn beta. intros p μ' (T & f & q & fs & Hr & _). by eapply made_up.
Qed.

(** ** The kernel tasks of the test loop *)

Lemma wp_on_kernel_bind {A B} (m : M (kernel H) A) (f : A → M (kernel H) B) Q μ :
  wp (on_kernel m) (λ a μ', wp (on_kernel (f a)) Q μ') μ → wp (on_kernel (m ≫= f)) Q μ.
Proof. unfold wp, on_kernel, zoom, mbind, M_bind. by destruct (m (mc_kernel μ)) as [[a k]|e]. Qed.

(** The kernel stacks of more kernel tasks, with the free ranges after each. *)
Fixpoint stacks_ok bl F (ps : list (Z * list (Z * Z))) : Prop :=
  match ps with
  | [] => True
  | (stk, bl') :: ps =>
      anon mi KERNEL_STACK_PAGE_COUNT bl stk bl' ∧ bl' ≠ tl bl ∧
      (∀ m, stack_page stk m → F m = None ∧ ¬ E m) ∧ stacks_ok bl' F ps
  end.
Definition free_end bl (ps : list (Z * list (Z * Z))) : list (Z * Z) := default bl (last ps.*2).

(** A kernel task that will start in [task_fn]. *)
Definition kernel_program k (task_fn stk p : Z) (T : task_control_block) (id : Z) : Prop :=
  ready halt_addr remove_addr k p T (stk + KERNEL_STACK_SIZE - 16) task_fn 0 ∧ pid T = id ∧ task_paging_ctx T = kctx ∧
  virtual_addr_space T = vmm_virtual_to_physical mi (page_directory kctx).

Record test_tasks_up O μ vctx bl F V ps (n j : nat) (task_fn : Z) l ts μ' : Prop := {
  tt_up : ∃ kept' A' nodes tasks,
    up kept' O μ' vctx (free_end bl ps) A' F n j ∧ ring_up kept' (mc_kernel μ') (l ++ nodes) (ts ++ tasks) ∧ stubs_in A' V ∧
    length tasks = length ps ∧
    ∀ i p stk bl', tasks !! i = Some p → ps !! i = Some (stk, bl') →
      stack_apart (free_end bl ps) stk ∧
      ∃ T, kernel_program (mc_kernel μ') task_fn stk p T (k_last_pid (mc_kernel μ) + Z.of_nat i);
  tt_tasks : tasks_up vctx O (mc_kernel μ');
  tt_onward : onward bl μ μ';
  tt_less : ∀ x, covered (free_end bl ps) x → covered bl x;
  tt_last : k_last_pid (mc_kernel μ') = k_last_pid (mc_kernel μ) + Z.of_nat (length ps)
}.

Lemma free_end_cons bl stk bl' ps : free_end bl ((stk, bl') :: ps) = free_end bl' ps.
Proof.
  unfold free_end. cbn [fmap list_fmap snd]. destruct (ps.*2) as [|b bs]; [done|].
  change (last (bl' :: b :: bs)) with (last (b :: bs)). by destruct (last (b :: bs)) eqn:El; [|apply last_None in El].
Qed.

Lemma free_end_less bl F ps x : stacks_ok bl F ps → covered (free_end bl ps) x → covered bl x.
Proof.
  revert bl. induction ps as [|[stk bl'] ps IH]; intros bl; [done|]. intros ((_ & _ & _ & _ & _ & _ & Hcov) & _ & _ & Hps) Hx.
  apply (Hcov x), IH; [done|]. by rewrite <- (free_end_cons bl stk).
Qed.

Lemma test_tasks_ok ps task_fn i kept O μ vctx bl A F V (n j : nat) l ts :
  up kept O μ vctx bl A F (10 * length ps + n) (4 * length ps + j) → ring_up kept (mc_kernel μ) l ts →
  tasks_up vctx O (mc_kernel μ) → stubs_in A V → tables_taken kctx bl → stacks_ok bl F ps →
  0 <= k_last_pid (mc_kernel μ) ∧ k_last_pid (mc_kernel μ) + Z.of_nat (length ps) < 2 ^ 32 →
  wp (on_kernel (for_range (length ps) i (λ _,
        task ← task_create mi halt_addr remove_addr kctx vctx task_fn 0 false; on_sched (sched_add task TASK_PRIORITY_LOW))))
     (λ _ μ', test_tasks_up O μ vctx bl F V ps n j task_fn l ts μ') μ.
Proof.
  revert i kept μ bl A l ts. induction ps as [|[stk bl1] ps IH]; intros i kept μ bl A l ts Hup Hring Htasks HV Htab Hps Hpid.
  - apply wp_zoom, wp_ret. split; [|done|by split|done|cbn [mc_kernel length]; lia].
    exists kept, A, [], []. rewrite !app_nil_r. split_and!; [destruct μ; exact Hup|exact Hring|done|done|]. intros []; by intros.
  - destruct Hps as (Hanon & Hne & HS & Hps). cbn [length for_range] in *. apply wp_on_kernel_bind, wp_on_kernel_bind.
    eapply wp_mono.
    { apply (kernel_task_up kept O μ vctx bl A F stk bl1 task_fn (10 * length ps + n) (1 + (4 * length ps + j)));
        [|done|done|done|done].
      by replace (10 + (10 * length ps + n))%nat with (10 * S (length ps) + n)%nat by lia;
        replace (3 + (1 + (4 * length ps + j)))%nat with (4 * S (length ps) + j)%nat by lia. }
    cbn beta. intros p μ1 (T & pa & Hm & Hup1 & Hon1). pose proof Hm as [Hnew Hready [Eid El] Hcr3 Hpc _ _ Hs _ Hcur _ _ _ _ _ _].
    rewrite u32_small in El by (unfold is_u32; lia).
    assert (Hring1 : ring_up (<[p := sizeof_task_control_block]> kept) (mc_kernel μ1) l ts)
      by (eapply ring_up_task; [exact Hring|by apply insert_subseteq|exact Hs]).
    eapply wp_mono; [eapply (sched_add_up _ O μ1 vctx bl1 _ F p TASK_PRIORITY_LOW l ts); [exact Hup1|exact Hring1|]|].
    { destruct Hready as (_ & HT & _). eauto. }
    cbn beta. intros _ μ2 (nd & Hup2 & Hring2 & Hon2 & Et2 & El2). rewrite El in El2.
    pose proof Hanon as (_ & _ & _ & _ & _ & _ & Hcov). assert (Hless : ∀ x, covered bl1 x → covered bl x) by by intros x [? _]%Hcov.
    assert (Htasks2 : tasks_up vctx O (mc_kernel μ2)).
    { assert (Htasks1 : tasks_up vctx ([] ++ O) (mc_kernel μ1)).
      { eapply tasks_up_task; [exact Htasks|exact Hs| |by intros sp ?%elem_of_nil|left; by rewrite (Hcur Hne)].
        rewrite Hpc. exact (ft_paging _ _ _ (oc_fault _ _ _ _ _ _ (ku_cpu _ _ _ _ _ _ _ _ _ _ _ _ _ _ Hup))). }
      destruct Htasks1 as [Ht1 HO1]. split; [|done]. rewrite Et2. exact Ht1. }
    eapply wp_mono.
    { eapply (IH (i + 1)); [exact Hup2|exact Hring2|exact Htasks2| | |exact Hps|lia].
      - intros a [->|Ha]%elem_of_cons; [done|by apply HV].
      - intros a Ha Hc. by apply (Htab a Ha), Hless. }
    cbn beta. intros _ μ' [(kept' & A' & nodes & tasks & Hup' & Hring' & HV' & Hlen & Hall) Htasks' Hon' Hless' Hlast'].
    assert (Hon : onward bl1 μ1 μ') by (eapply onward_trans; [exact Hon2|exact Hon'|done]).
    split; [|exact Htasks'|by eapply onward_trans|intros x Hx; apply (free_end_less _ F ((stk, bl1) :: ps)); [done|exact Hx]|cbn [length]; lia].
    exists kept', A', (nd :: nodes), (p :: tasks). rewrite <- !app_assoc in Hring'. cbn [app] in Hring'.
    rewrite free_end_cons.  split_and!; [exact Hup'|exact Hring'|done|simpl; lia|].
    intros [|m] q s b Hq Hb.
    + injection Hq as <-. injection Hb as <- <-. split.
      { eapply stack_apart_less; [by eapply stack_apart_anon|exact Hless']. }
      exists T. split_and!; [|lia|done|done].
      eapply ready_onward; [exact Hon| |exact Hready]. by eapply stack_apart_anon.
    + simpl in Hq, Hb. destruct (Hall m q s b Hq Hb) as (Hsa & U & Hk). split; [exact Hsa|]. exists U. rewrite El2 in Hk.
      by replace (k_last_pid (mc_kernel μ) + Z.of_nat (S m)) with (k_last_pid (mc_kernel μ) + 1 + Z.of_nat m) by lia.
Qed.

(** ** The running system *)

Lemma spaces_store_ok kept v sp S :
  @spaces H (reserving kept) v (sp :: S) →
  ∃ L, L ##ₘ kept ∧ owns (vs_heap v) (L ∪ kept) ∧ (∀ p, is_Some (vs_blocks v !! p) → L !! p = Some sizeof_free_blocks) ∧
    ∀ p, is_Some (vs_nodes v !! p) → L !! p = Some sizeof_allocation_tree.
Proof.
  intros (R & HR & _). inversion HR as [|? r ? ? [[(L & [Hd Ho] & Hb & Hn) _ _ _ _ _ _] _] _]; subst. by exists L.
Qed.

Lemma spaces_in v sp S : spaces v S → sp ∈ S → ctx_rep v (sc_ctx sp) (sc_free sp) (sc_allocs sp).
Proof.
  intros Hs (S1 & S2 & ->)%list_elem_of_split. destruct sp as [ctx bl A]. apply (spaces_head _ _ _ _ (S1 ++ S2)).
  eapply spaces_perm; [|exact Hs]. symmetry. apply Permutation_middle.
Qed.

(** The kernel, its ring and its tasks are the running system, when process ids are distinct. *)
Lemma up_system kept O μ vctx bl A F (n j : nat) l ts :
  up kept O μ vctx bl A F n j → ring_up kept (mc_kernel μ) l ts → tasks_up vctx O (mc_kernel μ) →
  (∀ a b q, pid_at (k_sched (mc_kernel μ)) ts a = Some q → pid_at (k_sched (mc_kernel μ)) ts b = Some q → a = b) →
  pid_at (k_sched (mc_kernel μ)) ts 0 = Some 0 → system_ok (mc_kernel μ) l ts 0.
Proof.
  intros [Hcpu Hsp Hroot _ _ _ _ _ _ _ _] [Hr [He1 He2] Hn Ht (Hf1 & Hf2 & Hf3 & Hf4)] [Htu Hto] Hpids Hfirst.
  destruct (spaces_store_ok _ _ _ _ Hsp) as (L & Hd & Ho & Hb & Hnd). pose proof (spaces_unreserved _ _ _ Hsp) as Hsp'.
  pose proof (ft_running _ _ _ (oc_fault _ _ _ _ _ _ Hcpu)) as Hrun. rewrite !head_lookup in *.
  assert (Hlists : ∀ p, is_Some (ss_lists (k_sched (mc_kernel μ)) !! p) → (L ∪ kept) !! p = Some sizeof_task_list ∧ L !! p = None).
  { intros p Hp%Hn. pose proof (map_disjoint_Some_r _ _ _ _ Hd Hp) as HL. split; [|done]. by rewrite lookup_union_r. }
  split; try done.
  - split_and!; [exact Hr| |by rewrite head_lookup|exact He2|exact Ht|unfold running in Hrun; eauto].
    exists (L ∪ kept). split; [exact Ho|]. intros p Hp. by apply Hlists.
  - by rewrite Hf2.
  - by rewrite Hf3.
  - exists t. split_and!; [exact Hrun|apply Hcpu|done].
  - right. split; [done|]. right. exact Hf1.
  - intros p T HT. destruct (Htu p T HT) as [Hpg [Ev|(sp & Hin & Ev)]].
    + exists A. split; [done| |exact (ft_allocs _ _ _ (oc_fault _ _ _ _ _ _ Hcpu))]. exists vctx, bl. split; [done|].
      exact (spaces_head _ _ _ _ _ Hsp').
    + exists (sc_allocs sp). split; [done| |by apply Hto]. exists (sc_ctx sp), (sc_free sp). split; [done|].
      eapply spaces_in; [exact Hsp'|by right].
  - exists (L ∪ kept). split_and!; [exact Ho| | |].
    + intros p Hp. destruct (Hlists p Hp) as [? HL]. split; [done|]. apply eq_None_not_Some. intros Hs%Hb. congruence.
    + intros p Hp. by apply lookup_union_Some_l, Hb.
    + intros p Hp. by apply lookup_union_Some_l, Hnd.
Qed.

(** The log does not matter. *)
Lemma up_io kept O μ vctx bl A F (n j : nat) io :
  up kept O μ vctx bl A F n j → up kept O (mk_machine (set_io io (mc_kernel μ)) (mc_phys μ)) vctx bl A F n j.
Proof.
  intros [Hcpu Hsp Hroot Htasks Hwok Hroom Hpages Hp0 Hmem Hhd Hfr]. split; try done. by eapply on_cpu_same.
Qed.

End Steps.

(** ** The scheduler *)

Section Start.
Context {H : Type} `{Allocator H} {FL : Limit} (mi : kernel_meminfo).
Context (Hhh : higher_half_base mi mod 4096 = 0) (Hhr : is_u32 (higher_half_base mi)).
Context (halt_addr remove_addr header_addr hf : Z) (E : Z → Prop) (kctx : paging_context).
Implicit Types (k : kernel H) (μ : machine H) (F : Z → option Z) (bl : list (Z * Z)).

(** The thread that boots, with the contexts that it becomes a task with. *)
Definition boot_thread (vctx : vmm_context) : task_control_block :=
  mk_task 0 0 (vmm_virtual_to_physical mi (page_directory kctx)) 0 vctx kctx 0.

(** What init_sched finds: the memory managers are up, the kernel has the address space
    [vctx] and sees the pages [F], and there are no tasks yet. *)
Record ready_to_start μ (vctx : vmm_context) bl A F (V : list Z) (n j : nat) : Prop := {
  rs_space : ctx_rep (vmm_of (mc_kernel μ)) vctx bl A;
  rs_allocs : allocs_ok A ∧ stubs_in A V;
  rs_paging : paging_ok kctx ∧ tables_taken kctx bl ∧ dir_apart mi kctx (vmm_virtual_to_physical mi (page_directory kctx));
  rs_view : view_ok mi (boot_thread vctx) E (k_words (mc_kernel μ)) F ∧
    view_backed (boot_thread vctx) (k_words (mc_kernel μ)) A F;
  rs_sched : ss_tasks (k_sched (mc_kernel μ)) = ∅ ∧ ss_lists (k_sched (mc_kernel μ)) = ∅ ∧ k_last_pid (mc_kernel μ) = 0 ∧
    is_u32 (cpu_esp (ss_cpu (k_sched (mc_kernel μ))));
  rs_words : words_ok (k_words (mc_kernel μ));
  rs_room : room (ss_heap (k_sched (mc_kernel μ))) j;
  rs_pages : has_pages (k_bitmap (mc_kernel μ)) n;
  rs_memory : free_is_memory μ;
  rs_header : is_u32 header_addr ∧ header_addr mod PAGE_SIZE + 52 <= PAGE_SIZE ∧ F (header_addr / PAGE_SIZE) = Some hf ∧
    mapped (mc_phys μ) (header_at header_addr hf) 52;
  rs_frame : frame_ok hf ∧ hf mod PAGE_SIZE = 0 ∧ taken (k_bitmap (mc_kernel μ)) (hf / PAGE_SIZE) = true
}.

(** The view depends on the task only by its page tables. *)
Lemma view_ok_same (t1 t2 : task_control_block) w F :
  task_paging_ctx t1 = task_paging_ctx t2 → view_ok mi t1 E w F → view_ok mi t2 E w F.
Proof. unfold view_ok, page_state, page_free. by intros ->. Qed.

Lemma view_backed_same (t1 t2 : task_control_block) w A F :
  task_paging_ctx t1 = task_paging_ctx t2 → view_backed t1 w A F → view_backed t2 w A F.
Proof. unfold view_backed, page_present. by intros ->. Qed.

(** The booting thread is the task [t], at [p]: the first one, running, and alone. *)
Record scheduler_up μ (vctx : vmm_context) bl (A : list vmm_allocation) bl' F V (n j : nat) (p : Z) (t : task_control_block) μ' : Prop := {
  su_up : ∃ kept A' nd, kernel_up mi header_addr hf t E kept [] μ' vctx bl' A' F n j ∧ stubs_in A' V ∧ length A' = S (length A) ∧
    ring_up t kept (mc_kernel μ') [nd] [p];
  su_tasks : tasks_up vctx [] (mc_kernel μ');
  su_paging : task_paging_ctx t = kctx;
  su_task : ss_tasks (k_sched (mc_kernel μ')) !! p = Some t ∧ pid t = 0 ∧
    virtual_addr_space t = vmm_virtual_to_physical mi (page_directory kctx);
  su_last : k_last_pid (mc_kernel μ') = 1;
  su_onward : onward hf t bl μ μ'
}.

Lemma init_sched_up μ vctx bl A F V stk bl' (n j : nat) :
  ready_to_start μ vctx bl A F V (10 + n) (4 + j) → anon mi KERNEL_STACK_PAGE_COUNT bl stk bl' → bl' ≠ tl bl →
  (∀ m, stack_page stk m → F m = None ∧ ¬ E m) →
  wp (on_kernel (init_sched mi halt_addr remove_addr kctx vctx)) (λ _ μ', ∃ p t, scheduler_up μ vctx bl A bl' F V n j p t μ') μ.
Proof.
  intros [Hrep [HA HV] (Hpg & Htab & Hdir) [Hv Hb] (Ht & Hl & Hlast & Hesp) Hwok Hroom Hpages Hmem Hhd Hfr] Hanon Hne HS.
  apply wp_zoom. eapply wp_mono.
  { apply (init_sched_ok mi kctx Hpg Hhh Hhr halt_addr remove_addr ∅ vctx bl A [] stk bl' j n); try done;
      by apply one_address_space. }
  cbn beta. intros _ k' (p & T & pa & nd & k1 & Hm & [[Hnz Hnd] Hsp Hrm Hk']).
  pose proof Hm as [_ _ [Hpid Hl1] Hcr3 Hpc Hpa _ Hs _ Hcur _ [Hkept Hpg1] Hp0 Hent Hw Hwok1]. rewrite (Hcur Hne) in Hsp.
  set (t' := mk_task (pid T) _ _ _ _ _ _) in Hk'. exists p, t'.
  assert (Ec : task_paging_ctx t' = kctx) by exact Hpc.
  assert (Hsched : k_sched k' = SchedStore (ss_heap (k_sched k')) {[ p := t' ]} {[ nd := mk_task_list p TASK_PRIORITY_LOW nd ]}
    nd nd nd (mk_task_list p TASK_PRIORITY_LOW nd) 1 (mk_cpu_state (cpu_esp (ss_cpu (k_sched k1))) (virtual_addr_space T) (esp0 T))).
  { rewrite Hk', Hs. cbn. rewrite Ht, Hl. by rewrite insert_insert_eq. }
  assert (Hrest : k_words k' = k_words k1 ∧ k_bitmap k' = k_bitmap k1 ∧ k_last_pid k' = k_last_pid k1) by (rewrite Hk'; done).
  clear Hk'. destruct Hrest as (Ew & Eb & El). rewrite <- Ew in Hent, Hw, Hwok1. rewrite <- Eb in Hkept, Hpg1, Hp0. rewrite <- El, Hlast in Hl1.
  pose proof Hsp as Hsp1. apply spaces_unreserved, spaces_head in Hsp1. split; cbn [mc_kernel mc_phys].
  - do 3 eexists. split; [|split_and!].
    + split; cbn [mc_kernel mc_phys]; [|exact Hsp|by cbn; rewrite (Hcur Hne)| |by apply Hwok1|exact Hrm|exact Hpg1|exact Hp0| |exact Hhd|].
      * split.
        -- split; [by unfold running; rewrite Hsched; apply lookup_singleton_eq|by rewrite Ec| |].
           ++ exists vctx, bl'. split; [by cbn; rewrite (Hcur Hne)|exact Hsp1].
           ++ intros a [->|Ha]%elem_of_cons; [by split|by apply HA].
        -- by rewrite Hsched.
        -- cbn. by rewrite Hpc, Hcr3.
        -- eapply (view_ok_same (boot_thread vctx)); [by rewrite Ec|]. eapply view_kept; [exact Hv|exact Hent|exact HS].
        -- eapply (view_backed_same (boot_thread vctx)); [by rewrite Ec|].
           eapply backed_kept; [|exact Hent|intros m Hm'; by apply HS].
           intros m g Hg. destruct (Hb m g Hg) as [?|(a & Ha & ?)]; [by left|right]. exists a. split; [by right|done].
      * intros q [x Hq]. rewrite Hsched in Hq. cbn [ss_tasks] in Hq. apply lookup_singleton_Some in Hq as [<- _].
        rewrite lookup_insert_ne; [rewrite lookup_insert_eq; by eexists|]. intros ->. by rewrite lookup_insert_eq in Hnd.
      * intros q Hq Hf. apply Hmem; [done|]. apply not_true_iff_false. intros Hu%Hkept. exact (eq_true_false_abs _ Hu Hf).
      * destruct Hfr as (? & ? & ?). split_and!; [done|done|by apply Hkept].
    + intros a [->|Ha]%elem_of_cons; [done|by apply HV].
    + done.
    + split; rewrite Hsched; simpl; [by apply (ring_single _ _ _ TASK_PRIORITY_LOW), lookup_singleton_eq|done| | |done].
      * intros q [x Hq]. apply lookup_singleton_Some in Hq as [<- _]. apply lookup_insert_eq.
      * intros q ->%list_elem_of_singleton. rewrite lookup_singleton_eq. eauto.
  - split; [|by intros sp ?%elem_of_nil]. intros q U. rewrite Hsched. cbn [ss_tasks]. intros [<- <-]%lookup_singleton_Some.
    split; [by rewrite Ec|left]. cbn. by rewrite (Hcur Hne).
  - done.
  - split_and!; [rewrite Hsched; apply lookup_singleton_eq|by cbn; rewrite Hpid|done].
  - by rewrite Hl1.
  - split; cbn [mc_kernel mc_phys]; [|by rewrite Ec|done|done]. intros q U. by rewrite Ht, lookup_empty.
Qed.

End Start.
