(* ===== verification/KMain.v ===== *)
(** * The kernel's entry: kernel.c

    kernel_main calls the initialisations of the parts in order, creates the tasks and
    falls into its idle loop.  The boot information is memory of its own here, as for
    [Tty] and [Pmm]; addresses of functions and of the static page tables, the device
    behind the ports and the EFLAGS register are parameters. *)

From S2P Require Import Prelude Allocator Kmalloc PageArith Vmm VmmRules VmmRanges VmmFree VmmTree VmmSpace VmmProps.
From S2P Require Import Mem CString Multiboot Pmm Paging Tty Printk PortIo.
From S2P Require Import MemoryMap Ps2 Sched Elf Kernel Syscall PageFault Task Mmu Loader Init VmmClone Handlers.

(** flags.c: what the EFLAGS register says. *)
Definition interrupts_enabled (cpu_flags : Z) : bool := negb (Z.land cpu_flags FLAGS_INT_ENABLE_FLAG =? 0).

Definition MULTIBOOT2_BOOTLOADER_MAGIC : Z := 0x36d76289.

(** The machine, the boot information and the console. *)
Record boot : Type := mk_boot { bt_machine : machine kheap; bt_info : mem; bt_tty : tty }.

(** kernel_main returns, or it goes on in its idle loop. *)
Inductive outcome : Type := Returned | Idle.

Section Operations.
Context (device : trace → Z → Z) (patience : nat) (cpu_flags : Z).
Context (fault_state : interrupt_state) (junk : Z → vmm_allocation_tree).
Context (sched_halt_or_crash sched_remove_addr init_goto_user_mode header_addr test_task : Z).
Context (INIT_ACTIVE_PAGE_DIRECTORY INIT_KERNEL_PAGE_TABLES param : Z).
Notation BM := (M boot).

Definition on_machine {A} : M (machine kheap) A → BM A :=
  zoom bt_machine (λ μ b, mk_boot μ (bt_info b) (bt_tty b)).
Definition on_boot_kernel {A} (c : M (kernel kheap) A) : BM A := on_machine (on_kernel c).
Definition on_console {A} : M console A → BM A :=
  zoom (λ b, mk_console (bt_info b) (bt_tty b)) (λ c b, mk_boot (bt_machine b) (ram c) (term c)).
Definition on_boot_info {A} : M mem A → BM A :=
  zoom bt_info (λ m b, mk_boot (bt_machine b) m (bt_tty b)).

Definition set_kernel (k : kernel kheap) (b : boot) : boot :=
  mk_boot (mk_machine k (mc_phys (bt_machine b))) (bt_info b) (bt_tty b).
Definition boot_kernel (b : boot) : kernel kheap := mc_kernel (bt_machine b).

(** pmm_init works on the boot information and the bitmap, the printing functions on the
    boot information and the log. *)
Definition on_frames {A} : M boot_state A → BM A :=
  zoom (λ b, (bt_info b, k_bitmap (boot_kernel b)))
       (λ s b, mk_boot (mk_machine (set_bitmap s.2 (boot_kernel b)) (mc_phys (bt_machine b))) s.1 (bt_tty b)).
Definition on_info_trace {A} : M info_log A → BM A :=
  zoom (λ b, (bt_info b, k_io (boot_kernel b)))
       (λ s b, mk_boot (mk_machine (set_io s.2 (boot_kernel b)) (mc_phys (bt_machine b))) s.1 (bt_tty b)).

Definition kdebug (fmt : string) (args : list log_arg) : BM unit :=
  on_boot_kernel (klog PRINTK_DEBUG fmt args).

(** paging_set_page_directory *)
Definition set_cr3 (cr3 : Z) : M (kernel kheap) unit :=
  on_sched (modify (λ s, SchedStore (ss_heap s) (ss_tasks s) (ss_lists s) (tasks_head s) (tasks_tail s)
    (tasks_sched_head s) (CURRENT_TASK s) (SCHED_INIT s)
    (mk_cpu_state (cpu_esp (ss_cpu s)) cr3 (tss_esp0 (ss_cpu s))))).

(** The loop that creates the three kernel tasks. *)
Definition add_test_tasks (meminfo : kernel_meminfo) (paging_ctx : paging_context) (vmm_ctx : vmm_context) :
    M (kernel kheap) unit :=
  for_range 3 0 (λ _,
    task ← task_create meminfo sched_halt_or_crash sched_remove_addr paging_ctx vmm_ctx test_task 0 false;
    on_sched (sched_add task TASK_PRIORITY_LOW)).

(** From the scheduler on: the tasks. *)
Definition start_tasks (meminfo : kernel_meminfo) (paging_ctx : paging_context) (vmm_ctx : vmm_context)
    (init_mod_addr user_mod_addr : Z) : BM outcome :=
  _ ← on_boot_kernel (init_sched meminfo sched_halt_or_crash sched_remove_addr paging_ctx vmm_ctx);
  _ ← kdebug "scheduler init: OK\n" [];
  init_task ← on_machine (init_create_task0 meminfo fault_state junk sched_halt_or_crash sched_remove_addr
                            init_goto_user_mode header_addr paging_ctx vmm_ctx init_mod_addr);
  child ← on_machine (init_create_user_task meminfo fault_state junk sched_halt_or_crash sched_remove_addr
                        init_goto_user_mode header_addr paging_ctx vmm_ctx user_mod_addr init_task);
  _ ← on_boot_kernel (add_test_tasks meminfo paging_ctx vmm_ctx);
  _ ← on_boot_kernel (on_sched (sched_add init_task TASK_PRIORITY_LOW));
  _ ← on_boot_kernel (on_sched (sched_add child TASK_PRIORITY_LOW));
  mret Idle.

(** The memory managers: the page tables and the kernel's address space. *)
Definition start_memory (meminfo : kernel_meminfo) (addr : Z) : BM (paging_context * vmm_context) :=
  _ ← kdebug "Initializing memory manager\n" [];
  _ ← on_frames (pmm_init meminfo addr);
  _ ← kdebug "PMM: OK\n" [];
  r ← on_boot_kernel (on_words (init_paging meminfo INIT_ACTIVE_PAGE_DIRECTORY INIT_KERNEL_PAGE_TABLES param));
  _ ← on_boot_kernel (set_cr3 r.2);
  _ ← kdebug "paging: OK\n" [];
  _ ← on_boot_kernel (on_vmm (on_heap kmalloc_init));
  _ ← kdebug "kmalloc: OK\n" [];
  fb ← on_boot_info (multiboot_framebuffer_info addr);
  fb_addr ← on_boot_info (framebuffer_addr fb);
  v ← on_boot_kernel (on_vmm (vmm_init meminfo KERNEL_HEAP_VIRT_START KERNEL_HEAP_PHYS_START KERNEL_HEAP_SIZE fb_addr));
  _ ← kdebug "VMM: OK\n" [];
  mret (r.1, v.2).

(** The messages about the machine. *)
Definition print_machine (meminfo : kernel_meminfo) (addr : Z) : BM unit :=
  _ ← on_info_trace (multiboot_print_info addr);
  _ ← kdebug "Interrupts enabled: %s\n" [AStr (if interrupts_enabled cpu_flags then "yes" else "no")];
  _ ← kdebug "kernel virtual start %#x\n" [ANum (virtual_start meminfo)];
  _ ← kdebug "kernel virtual end %#x\n" [ANum (virtual_end meminfo)];
  _ ← kdebug "kernel physical start %#x\n" [ANum (physical_start meminfo)];
  kdebug "kernel stack top %#x\n" [ANum (stack_top meminfo)].

(** kernel_main, as one run without interrupts: from init_sched on the code has them on. *)
Definition kernel_main (meminfo : kernel_meminfo) (magic addr : Z) : BM outcome :=
  _ ← on_console (tty_init addr (higher_half_base meminfo));
  _ ← on_boot_kernel (on_ps2 (ps2_init_devices device patience));
  if negb (magic =? MULTIBOOT2_BOOTLOADER_MAGIC) then
    _ ← kdebug "Invalid multiboot2 magic number: %d\n" [ANum magic];
    mret Returned
  else
  _ ← print_machine meminfo addr;
  ctx ← start_memory meminfo addr;
  m1 ← on_boot_info (multiboot_get_next_module (u32 (addr + 8)));
  if m1.1 =? 0 then _ ← kdebug "init not found\n" []; mret Returned else
  m2 ← on_boot_info (multiboot_get_next_module m1.2);
  if m2.1 =? 0 then _ ← kdebug "hello_userspace not found\n" []; mret Returned else
  init_mod_addr ← on_boot_info (mod_start m1.1);
  _ ← kdebug "init_mod is at %#x\n" [ANum init_mod_addr];
  user_mod_addr ← on_boot_info (mod_start m2.1);
  _ ← kdebug "user_mod is at %#x\n" [ANum user_mod_addr];
  start_tasks meminfo ctx.1 ctx.2 init_mod_addr user_mod_addr.

(** __uninit_kernel, which runs when kernel_main has returned. *)
Definition uninit_kernel : BM unit := kdebug "Fatal error: kernel returned.\n" [].

End Operations.

(** ** The exerciser of the heap

    kmalloc_some_ints, which nothing calls: a thousand times two blocks are allocated,
    written, printed and released.  Nothing else writes to a block between the store to
    it and the load from it. *)

Section SomeInts.
Context {H : Type} `{Allocator H}.
Notation KM := (M (kernel H)).

Definition kmalloc_on (n : Z) : KM Z := on_vmm (on_heap (malloc n)).
Definition kfree_on (p : Z) : KM unit := on_vmm (on_heap (free p)).
(** A store through a pointer from kmalloc, which may be NULL. *)
Definition store_at (p v : Z) : KM Z := if p =? 0 then throw (EFault 0) else mret v.

Definition kmalloc_some_ints : KM unit :=
  for_range 1000 0 (λ i,
    x ← kmalloc_on 4;
    vx ← store_at x 4;
    _ ← klog PRINTK_DEBUG "i=%d kmalloc'd x @ %#x. x is %d\n" [ANum i; ANum x; ANum vx];
    y ← kmalloc_on 8;
    vy ← store_at y 4;
    _ ← klog PRINTK_DEBUG "kmalloc'd x @ %#x. y is %lld\n" [ANum y; ANum vy];
    _ ← kfree_on x;
    kfree_on y).

Implicit Types k : kernel H.

Lemma wp_kmalloc_on n L j Q k :
  owns (ss_heap (k_sched k)) L → room (ss_heap (k_sched k)) (S j) → 0 <= n <= small →
  (∀ p k', p ≠ 0 → L !! p = None → owns (ss_heap (k_sched k')) (<[p := n]> L) →
     room (ss_heap (k_sched k')) j → Q p k') → wp (kmalloc_on n) Q k.
Proof.
  intros Ho Hroom Hn HQ. apply wp_zoom, wp_zoom. unfold small in Hn.
  eapply wp_mono; [exact (wp_and _ _ _ _ (room_malloc _ _ _ Hroom Hn) (malloc_spec _ _ n Ho ltac:(lia)))|].
  cbn beta. intros p h [[Hp Hr] [[-> _]|(_ & Hf & Ho' & _)]]; [done|]. by apply HQ.
Qed.

Lemma wp_kfree_on p n L j Q k :
  owns (ss_heap (k_sched k)) L → L !! p = Some n → room (ss_heap (k_sched k)) j →
  (∀ k', owns (ss_heap (k_sched k')) (delete p L) → room (ss_heap (k_sched k')) j → Q tt k') →
  wp (kfree_on p) Q k.
Proof.
  intros Ho Hp Hroom HQ. apply wp_zoom, wp_zoom.
  eapply wp_mono; [exact (wp_and _ _ _ _ (free_spec _ _ _ _ Ho Hp) (room_free _ _ _ _ _ Ho Hp Hroom))|].
  cbn beta. intros [] h [Ho' Hr]. by apply HQ.
Qed.

(** The exerciser of the heap returns when the heap has room for its blocks, and releases all of them. *)
Theorem kmalloc_some_ints_clean L j k :
  owns (ss_heap (k_sched k)) L → room (ss_heap (k_sched k)) (2000 + j) →
  wp kmalloc_some_ints (λ _ k', owns (ss_heap (k_sched k')) L ∧ room (ss_heap (k_sched k')) j) k.
Proof.
  intros Ho Hroom.
  apply (wp_for_range _ _ _ (λ i k', owns (ss_heap (k_sched k')) L ∧
    room (ss_heap (k_sched k')) (2 * (1000 - Z.to_nat i) + j))).
  - split; [exact Ho|]. exact Hroom.
  - intros i k1 Hi [Ho1 Hr1].
    replace (2 * (1000 - Z.to_nat i) + j)%nat with (S (S (2 * (1000 - Z.to_nat (i + 1)) + j))) in Hr1 by lia.
    apply wp_bind. eapply wp_kmalloc_on; [exact Ho1|exact Hr1|by vm_compute|]. intros x k2 Hx Hfx Ho2 Hr2.
    apply wp_bind. unfold store_at at 1. rewrite (proj2 (Z.eqb_neq x 0)) by done. apply wp_ret, wp_bind, wp_klog.
    apply wp_bind. eapply wp_kmalloc_on; [exact Ho2|exact Hr2|by vm_compute|]. intros y k3 Hy Hfy Ho3 Hr3.
    apply wp_bind. unfold store_at. rewrite (proj2 (Z.eqb_neq y 0)) by done. apply wp_ret, wp_bind, wp_klog.
    assert (Hxy : y ≠ x) by (intros ->; by rewrite lookup_insert_eq in Hfy). rewrite lookup_insert_ne in Hfy by done.
    apply wp_bind. eapply wp_kfree_on; [exact Ho3|by rewrite lookup_insert_ne, lookup_insert_eq|exact Hr3|].
    intros k4 Ho4 Hr4. eapply wp_kfree_on; [exact Ho4|by rewrite lookup_delete_ne, lookup_insert_eq|exact Hr4|].
    intros k5 Ho5 Hr5. split; [|exact Hr5].
    replace (delete y (delete x (<[y := 8]> (<[x := 4]> L)))) with L in Ho5; [exact Ho5|].
    apply fin_maps.map_eq. intros z. rewrite !lookup_delete, !lookup_insert. repeat case_decide; congruence.
  - intros k' [Ho' Hr']. split; [exact Ho'|]. eapply room_le; [|exact Hr']. lia.
Qed.

End SomeInts.

(** ** The memory managers at boot *)

Section Boot.
Context (device : trace → Z → Z) (patience : nat) (cpu_flags : Z).
Context (fault_state : interrupt_state) (junk : Z → vmm_allocation_tree).
Context (halt_addr remove_addr user_mode_addr header_addr test_task : Z).
Context (mi : kernel_meminfo) (pd pt param : Z).
Implicit Types (b : boot) (m : mem).

(** The boot information at [addr]: its tags [l], the memory map [es] at [tag], and the
    frame buffer at [fb], of [h] rows of [w] cells from the address [a] on. *)
Record info_ok m (addr : Z) (l : list (Z * Z)) (tag esz : Z) (es : list mmap_entry) (fb a w h : Z) : Prop := {
  io_tags : tags_at m (u32 (addr + 8)) l;
  io_mmap : first_tag addr l MULTIBOOT_TAG_TYPE_MMAP = Some tag;
  io_map : map_at m tag esz es;
  io_entries : Forall MemoryMap.entry_ok es;
  io_fb : first_tag addr l MULTIBOOT_TAG_TYPE_FRAMEBUFFER = Some fb;
  io_addr : framebuffer_addr fb m = Ok (a, m);
  io_width : framebuffer_width fb m = Ok (w, m);
  io_height : framebuffer_height fb m = Ok (h, m);
  io_fb_end : u32 (u64 (a + u32 (u32 (w * h) * 2) - 1)) <= 2 ^ 32 - PAGE_SIZE
}.

(** The sections of the kernel and the frame buffer at [a], as vmm_init maps them. *)
Definition sections (a : Z) : list addr_space_entry :=
  vmm_init_addr_space mi KERNEL_HEAP_VIRT_START KERNEL_HEAP_PHYS_START KERNEL_HEAP_SIZE a.

(** The layout of the kernel: the static page tables, and the sections. *)
Record layout_ok (a : Z) : Prop := {
  lo_paging : paging_ok (PagingContext pd pt);
  lo_tables : pd ≠ 0 ∧ pt ≠ 0;
  lo_base : higher_half_base mi mod 4096 = 0 ∧ 0 < higher_half_base mi < 2 ^ 32;
  lo_virtual : higher_half_base mi <= virtual_end mi <= KERNEL_HEAP_VIRT_START;
  lo_physical : 0 <= physical_start mi ∧ physical_end mi <= 2 ^ 32 - PAGE_SIZE;
  lo_sections : Forall (VmmSpace.entry_ok mi) (sections a);
  lo_apart : ForallOrdPairs entries_apart (sections a)
}.

(** Nothing has been allocated yet. *)
Definition cold (k : kernel kheap) : Prop := k_blocks k = ∅ ∧ k_nodes k = ∅ ∧ bitmap_ok (k_bitmap k).

(** The frames in use after boot, but for those that were before. *)
Definition boot_frame (es : list mmap_entry) (a w h j : Z) : bool :=
  marks (physical_start mi) (physical_end mi) j || heap_marks j || map_marks es j || fb_marks a w h j.

(** What the memory managers leave alone: the tasks, the ring, the next process id, the
    stack pointer, and the bytes of physical memory that are in no other store. *)
Record bystanders : Type := mk_bystanders {
  by_tasks : gmap Z task_control_block; by_lists : gmap Z task_list; by_last_pid : Z; by_esp : Z; by_phys : mem
}.

(** The parts of the state that the memory managers work on, and the rest. *)
Record parts : Type := mk_parts {
  pa_info : mem; pa_bitmap : bitmap; pa_words : words; pa_vmm : vmm_store kheap; pa_cr3 : Z; pa_rest : bystanders
}.
Definition parts_of b : parts :=
  let k := boot_kernel b in let s := k_sched k in
  mk_parts (bt_info b) (k_bitmap k) (k_words k) (vmm_of k) (cpu_cr3 (ss_cpu s))
    (mk_bystanders (ss_tasks s) (ss_lists s) (k_last_pid k) (cpu_esp (ss_cpu s)) (mc_phys (bt_machine b))).

(** The memory managers are up: [p] is the state before, [p'] that behind. *)
Record memory_up (es : list mmap_entry) (a w h : Z) (p : parts) (r : paging_context * vmm_context) (p' : parts) : Prop := {
  mu_info : pa_info p' = pa_info p;
  mu_frames : ∀ j, page_used (pa_bitmap p') j = boot_frame es a w h j || page_used (pa_bitmap p) j;
  mu_bitmap : bitmap_ok (pa_bitmap p');
  mu_context : r.1 = PagingContext pd pt;
  mu_cr3 : pa_cr3 p' = vmm_virtual_to_physical mi pd;
  mu_translation : ∀ va, is_u32 va → PAGE_DIRECTORY_INDEX va ≠ 1023 →
     snd <$> walk (phys_word mi (pa_words p')) (pa_cr3 p') va = kernel_translation mi va;
  mu_pages : ∀ va, is_u32 va → PAGE_DIRECTORY_INDEX va ≠ 1023 → kernel_page_at mi (PagingContext pd pt) (pa_words p') va;
  mu_words : words_ok (pa_words p) → words_ok (pa_words p');
  mu_space : ∃ bl, ctx_rep (pa_vmm p') r.2 bl (reverse (entry_alloc <$> sections a)) ∧
     (∀ x, covered bl x ↔ 0 <= x < 2 ^ 32 ∧ ∀ e, e ∈ sections a → ¬ contains (entry_alloc e) x) ∧
     new_context_ranges mi (sections a) = Some bl;
  mu_room : ∀ k : nat, Z.of_nat (15 + k) * (small + sizeof_header) < KERNEL_HEAP_SIZE - sizeof_header →
     room (vs_heap (pa_vmm p')) k;
  mu_rest : pa_rest p' = pa_rest p
}.

(** Each step, by the parts it changes. *)
Lemma wp_debug fmt args Q b p :
  parts_of b = p → (∀ b', parts_of b' = p → Q tt b') → wp (kdebug fmt args) Q b.
Proof. intros <- HQ. apply wp_zoom, wp_zoom, wp_klog, HQ. done. Qed.

Lemma wp_on_boot_info {A} (c : M mem A) v Q b p :
  parts_of b = p → c (pa_info p) = Ok (v, pa_info p) → Q v b → wp (on_boot_info c) Q b.
Proof. intros <- E HQ. unfold wp, on_boot_info, zoom. cbn in E. rewrite E. by destruct b. Qed.

Lemma wp_pmm addr l tag esz es fb a w h Q b m bm wd v c e :
  info_ok m addr l tag esz es fb a w h → layout_ok a → bitmap_ok bm →
  parts_of b = mk_parts m bm wd v c e →
  (∀ b' bm', parts_of b' = mk_parts m bm' wd v c e →
     (∀ j, page_used bm' j = boot_frame es a w h j || page_used bm j) → bitmap_ok bm' → Q tt b') →
  wp (on_frames (pmm_init mi addr)) Q b.
Proof.
  intros [Htags Hmm Hmap Hes Hfb Ha Hw Hh Hend] Hlay Hbm [= <- <- <- <- <- <-] HQ. apply wp_zoom. eapply wp_mono.
  { apply (pmm_init_reserves mi (bt_info b) addr l Htags tag esz es fb a w h); try done; apply (lo_physical _ Hlay). }
  cbn beta. intros [] [m' bm'] (Em & Hok & Hu). cbn [fst snd] in *. subst m'. by apply (HQ _ bm').
Qed.

Lemma wp_paging a Q b m bm wd v c e :
  layout_ok a → parts_of b = mk_parts m bm wd v c e →
  (∀ b' wd', parts_of b' = mk_parts m bm wd' v c e →
     (∀ va, is_u32 va → PAGE_DIRECTORY_INDEX va ≠ 1023 → kernel_page_at mi (PagingContext pd pt) wd' va) →
     (words_ok wd → words_ok wd') →
     Q (PagingContext pd pt, vmm_virtual_to_physical mi pd) b') →
  wp (on_boot_kernel (on_words (init_paging mi pd pt param))) Q b.
Proof.
  intros [Hpg [Hpd Hpt] [Hal Hhh] Hv _ _ _] [= <- <- <- <- <- <-] HQ. apply wp_zoom, wp_zoom, wp_zoom. eapply wp_mono.
  { apply (wp_typed (λ w, words_ok (k_words (boot_kernel b)) → words_ok w) _ (λ _, True)); [|done|].
    - intros w1 r w2 Hw E. split; [|done]. intros Hb. by destruct (type_init_paging mi pd pt param w1 r w2 (Hw Hb) E).
    - apply (init_paging_pages mi pd pt param); try done. unfold is_u32. lia. }
  cbn beta. intros r wd' [[-> Hp] [Hw _]]. by apply (HQ _ wd').
Qed.

Lemma wp_set_cr3 cr3 Q b m bm wd v c e :
  parts_of b = mk_parts m bm wd v c e → (∀ b', parts_of b' = mk_parts m bm wd v cr3 e → Q tt b') →
  wp (on_boot_kernel (set_cr3 cr3)) Q b.
Proof. intros [= <- <- <- <- <- <-] HQ. apply wp_zoom, wp_zoom, wp_zoom, wp_modify, HQ. done. Qed.

(** The heap after kmalloc_init. *)
Definition whole_heap (h : kheap) : Prop :=
  ∀ k : nat, Z.of_nat k * (small + sizeof_header) < KERNEL_HEAP_SIZE - sizeof_header → room h k.

Lemma heap_up (h : kheap) : wp kmalloc_init (λ _ h', heap_rep h' ∅ ∧ whole_heap h') h.
Proof.
  eapply wp_mono; [apply kmalloc_init_ok|]. cbn beta. intros _ h' [Hinv Hrep]. split; [done|]. intros k Hk.
  do 4 eexists. split_and!; [exact Hinv|by left|by left|exact Hk].
Qed.

Lemma wp_heap Q b m bm wd v c e :
  parts_of b = mk_parts m bm wd v c e → vs_blocks v = ∅ → vs_nodes v = ∅ →
  (∀ b' v', parts_of b' = mk_parts m bm wd v' c e → store_ok v' → whole_heap (vs_heap v') → Q tt b') →
  wp (on_boot_kernel (on_vmm (on_heap kmalloc_init))) Q b.
Proof.
  intros [= <- <- <- <- <- <-] Hbl Hnd HQ. apply wp_zoom, wp_zoom, wp_zoom, wp_zoom. eapply wp_mono; [apply heap_up|].
  cbn beta. intros [] h' [Hrep Hroom]. eapply HQ; [done| |done].
  assert (Hno : ∀ {A} (g : gmap Z A) p, g = ∅ → ¬ is_Some (g !! p)) by (intros A g p ->; rewrite lookup_empty; by intros []).
  exists ∅. split_and!; [exact Hrep|intros p Hp; destruct (Hno _ _ p Hbl Hp)|intros p Hp; destruct (Hno _ _ p Hnd Hp)].
Qed.

Lemma wp_vmm_init a Q b m bm wd v c e :
  layout_ok a → parts_of b = mk_parts m bm wd v c e → store_ok v → room (vs_heap v) 15 →
  (∀ b' v' ctx bl, parts_of b' = mk_parts m bm wd v' c e → ctx_rep v' ctx bl (reverse (entry_alloc <$> sections a)) →
     (∀ x, covered bl x ↔ 0 <= x < 2 ^ 32 ∧ ∀ e, e ∈ sections a → ¬ contains (entry_alloc e) x) →
     new_context_ranges mi (sections a) = Some bl → room_steps 15 (vs_heap v) (vs_heap v') →
     Q (sections a, ctx) b') →
  wp (on_boot_kernel (on_vmm (vmm_init mi KERNEL_HEAP_VIRT_START KERNEL_HEAP_PHYS_START KERNEL_HEAP_SIZE a))) Q b.
Proof.
  intros [_ _ [Hal Hhh] _ _ Hsec Hap] [= <- <- <- <- <- <-] Hok Hroom HQ. apply wp_zoom, wp_zoom, wp_zoom, wp_bind.
  eapply wp_mono; [apply (vmm_new_context_ok mi (sections a)); try done; by apply paging_is_aligned_spec|].
  cbn beta. intros ctx v' (bl & Hctx & Hcov & Hbl & Hrm). apply wp_ret. by eapply (HQ _ v' ctx bl); [destruct v'|..].
Qed.

Lemma start_memory_ok addr l tag esz es fb a w h b :
  info_ok (bt_info b) addr l tag esz es fb a w h → layout_ok a → cold (boot_kernel b) →
  wp (start_memory pd pt param mi addr) (λ r b', memory_up es a w h (parts_of b) r (parts_of b')) b.
Proof.
  intros Hi Hlay (Hbl & Hnd & Hbm). pose proof (io_tags _ _ _ _ _ _ _ _ _ _ Hi) as Htags. unfold start_memory.
  destruct (parts_of b) as [m bm wd v c e] eqn:E0. pose proof E0 as [= Em Ebm _ Ev _]. rewrite Em, Ebm in *.
  apply wp_bind. eapply wp_debug; [exact E0|]. intros b1 E1.
  apply wp_bind. eapply wp_pmm; [exact Hi|done|done|exact E1|]. intros b2 bm' E2 Hframes Hbm'.
  apply wp_bind. eapply wp_debug; [exact E2|]. intros b3 E3.
  apply wp_bind. eapply wp_paging; [done|exact E3|]. intros b4 wd' E4 Hpages Hwords. cbn [snd].
  apply wp_bind. eapply wp_set_cr3; [exact E4|]. intros b5 E5.
  apply wp_bind. eapply wp_debug; [exact E5|]. intros b6 E6.
  apply wp_bind. eapply wp_heap; [exact E6|by rewrite <- Ev|by rewrite <- Ev|]. intros b7 v7 E7 Hok Hroom.
  apply wp_bind. eapply wp_debug; [exact E7|]. intros b8 E8.
  apply wp_bind. eapply wp_on_boot_info; [exact E8|exact (framebuffer_info_first m addr l Htags)|].
  fold (first_tag addr l MULTIBOOT_TAG_TYPE_FRAMEBUFFER). rewrite (io_fb _ _ _ _ _ _ _ _ _ _ Hi). cbn [default id].
  apply wp_bind. eapply wp_on_boot_info; [exact E8|exact (io_addr _ _ _ _ _ _ _ _ _ _ Hi)|].
  apply wp_bind. eapply wp_vmm_init; [done|exact E8|done|by apply Hroom|]. intros b9 v9 ctx bl E9 Hctx Hcov Hbl9 Hrm9.
  apply wp_bind. eapply wp_debug; [exact E9|]. intros b10 E10. apply wp_ret. rewrite E10.
  split; cbn [fst snd pa_info pa_bitmap pa_words pa_vmm pa_cr3 pa_rest]; try done.
  - intros va Hva Hd. destruct (lo_base _ Hlay) as [Hal Hhh].
    apply (kernel_page_translate mi (PagingContext pd pt) wd' va); [apply Hlay|done|unfold is_u32; lia|done|by apply Hpages].
  - by exists bl.
  - intros k Hk. by apply Hrm9, Hroom.
Qed.

(** C3: the initialisations of kernel_main up to vmm_init work together: after them
    exactly the frames of the kernel, the heap, the unavailable entries of the memory map
    and the frame buffer are in use besides those that were; CR3 holds the new page
    directory, and the processor translates the kernel image and the heap, and, outside
    the last 4 MB, nothing else; the kernel's address space has the sections of the
    kernel, the heap and the frame buffer, and the rest of the 4 GB is free, in the ranges
    that mapping the sections in order leaves; the heap has room for as many blocks as fit;
    and the tasks, the stack pointer and the other bytes of memory are as they were. *)
Theorem boot_memory_ready addr l tag esz es fb a w h b :
  info_ok (bt_info b) addr l tag esz es fb a w h → layout_ok a → cold (boot_kernel b) →
  wp (start_memory pd pt param mi addr) (λ r b', memory_up es a w h (parts_of b) r (parts_of b')) b.
Proof. apply start_memory_ok. Qed.

Lemma frame_in_image va hh ve s e :
  s mod 4096 = 0 → hh mod 4096 = 0 → va / 4096 * 4096 < ve → ve - hh <= e →
  s + ((va - hh) / 4096 - s / 4096) * 4096 < e.
Proof.
  intros Hs Hhh Hve He. apply Z.div_exact in Hs; [|done]. apply Z.div_exact in Hhh; [|done].
  rewrite Hhh. replace (va - 4096 * (hh / 4096)) with (va + - (hh / 4096) * 4096) by lia.
  rewrite Z.div_add by done. lia.
Qed.

(** C13: after boot the page allocator does not hand out memory of the kernel: a frame
    that the kernel's page tables map is the next one to be allocated only when it lies
    below the kernel image, in the first megabyte. *)
Theorem boot_frames_apart addr l tag esz es fb a w h b :
  info_ok (bt_info b) addr l tag esz es fb a w h → layout_ok a → cold (boot_kernel b) →
  physical_start mi mod PAGE_SIZE = 0 → virtual_end mi - higher_half_base mi <= physical_end mi →
  wp (start_memory pd pt param mi addr)
     (λ _ b', ∀ p va pa, lowest_free (k_bitmap (boot_kernel b')) p → is_u32 va →
        kernel_translation mi va = Some pa → pa / PAGE_SIZE = p → pa < physical_start mi) b.
Proof.
  intros Hi Hlay Hcold Hal Hend. eapply wp_mono; [exact (start_memory_ok _ _ _ _ _ _ _ _ _ _ Hi Hlay Hcold)|]. cbn beta.
  intros r b' Hup p va pa (_ & _ & Hfree & _) Hva Ht Hp. pose proof (mu_frames _ _ _ _ _ _ _ Hup) as Hu.
  change (k_bitmap (boot_kernel b')) with (pa_bitmap (parts_of b')) in Hfree. rewrite Hu in Hfree.
  apply orb_false_iff in Hfree as [Hfree _]. unfold boot_frame in Hfree.
  apply orb_false_iff in Hfree as [[[Hk Hheap]%orb_false_iff _]%orb_false_iff _].
  apply bool_decide_eq_false in Hk. apply bool_decide_eq_false in Hheap.
  unfold kernel_translation in Ht. rewrite PAGE_SIZE_val in *. subst p.
  destruct (decide _) as [[Hlo Hhi]|_].
  - injection Ht as <-. destruct (Z.lt_ge_cases (va - higher_half_base mi) (physical_start mi)) as [|Hge]; [done|].
    destruct Hk. pose proof (lo_base _ Hlay) as [Hbase _]. split; [by apply Z.div_le_mono|].
    apply (frame_in_image va (higher_half_base mi) (virtual_end mi)); done.
  - destruct (decide _) as [[Hlo Hhi]|_]; [|done]. injection Ht as <-. destruct Hheap.
    unfold KERNEL_HEAP_PHYS_START, KERNEL_HEAP_SIZE, KERNEL_HEAP_VIRT_START in *.
    change (u32 (0x00800000 + 0x03000000 - 1)) with 0x37fffff. clear -Hlo Hhi. split; Z.div_mod_to_equations; lia.
Qed.

(** *** The returns of kernel_main *)

(** The last message. *)
Definition last_message b (fmt : string) (args : list log_arg) : Prop :=
  last (k_io (boot_kernel b)) = Some (ELog PRINTK_DEBUG fmt args).

Lemma wp_debug_last fmt args Q b p :
  parts_of b = p → (∀ b', parts_of b' = p → last_message b' fmt args → Q tt b') → wp (kdebug fmt args) Q b.
Proof. intros <- HQ. apply wp_zoom, wp_zoom, wp_klog, HQ; [done|]. apply last_snoc. Qed.

(** The console and the devices: the frame buffer has [h] rows of [w] cells. *)
Definition console_ok (h w : Z) b : Prop :=
  0 < h ∧ 0 < w ∧ h * w < 2 ^ 32 ∧ Z.of_nat (length (cells (bt_tty b))) = h * w.

Lemma wp_tty addr l tag esz es fb a w h Q b p :
  info_ok (bt_info b) addr l tag esz es fb a w h → console_ok h w b → parts_of b = p →
  (∀ b', parts_of b' = p → bt_info b' = bt_info b → Q tt b') →
  wp (on_console (tty_init addr (higher_half_base mi))) Q b.
Proof.
  intros Hi (Hh & Hw & Hlt & Hlen) <- HQ. apply wp_zoom. eapply wp_mono.
  { apply (tty_init_ok (mk_console (bt_info b) (bt_tty b)) addr (higher_half_base mi) fb h w a); cbn [ram]; try done.
    - rewrite (framebuffer_info_first _ addr l (io_tags _ _ _ _ _ _ _ _ _ _ Hi)).
      fold (first_tag addr l MULTIBOOT_TAG_TYPE_FRAMEBUFFER). by rewrite (io_fb _ _ _ _ _ _ _ _ _ _ Hi).
    - apply Hi.
    - apply Hi.
    - apply Hi. }
  cbn beta. intros [] c' (Er & _). cbn [ram] in Er. apply HQ; [|exact Er]. unfold parts_of. cbn [bt_info]. by rewrite Er.
Qed.

Lemma wp_ps2 Q b p :
  ready_controller device patience → parts_of b = p → (∀ b', parts_of b' = p → bt_info b' = bt_info b → Q tt b') →
  wp (on_boot_kernel (on_ps2 (ps2_init_devices device (S patience)))) Q b.
Proof.
  intros Hdev <- HQ. apply wp_zoom, wp_zoom, wp_zoom. eapply wp_mono; [by apply ps2_init_ok|].
  cbn beta. intros [] s' _. by apply HQ.
Qed.

Lemma wp_print_machine addr l Q b p :
  tags_at (bt_info b) (u32 (addr + 8)) l →
  (∀ q ty, (q, ty) ∈ tag_list (u32 (addr + 8)) l → readable (bt_info b) q ty) → parts_of b = p →
  (∀ b', parts_of b' = p → Q tt b') → wp (print_machine cpu_flags mi addr) Q b.
Proof.
  intros Htags Hread E HQ. unfold print_machine. apply wp_bind.
  apply (wp_mono _ (λ _ b', parts_of b' = p)).
  - apply wp_zoom, wp_bind, wp_get. cbn [fst]. eapply wp_mono.
    { apply (print_info_loop_ok _ _ _ l); [done|done|]. apply (tags_at_fuel _ _ _ Htags), u32_range. }
    cbn beta. intros _ [m' tr] [Em _]. cbn [fst] in Em. subst m'. exact E.
  - cbn beta. intros _ b0 E0. apply wp_bind. eapply wp_debug; [exact E0|]. intros b1 E1.
    apply wp_bind. eapply wp_debug; [exact E1|]. intros b2 E2. apply wp_bind. eapply wp_debug; [exact E2|]. intros b3 E3.
    apply wp_bind. eapply wp_debug; [exact E3|]. intros b4 E4. eapply wp_debug; [exact E4|]. exact HQ.
Qed.

Lemma cold_parts b b' : cold (boot_kernel b) → parts_of b' = parts_of b → cold (boot_kernel b').
Proof.
  intros (Hbl & Hnd & Hbm) E. split_and!.
  - by rewrite <- Hbl; exact (f_equal (λ p, vs_blocks (pa_vmm p)) E).
  - by rewrite <- Hnd; exact (f_equal (λ p, vs_nodes (pa_vmm p)) E).
  - rewrite (f_equal pa_bitmap E : k_bitmap (boot_kernel b') = _). exact Hbm.
Qed.

(** kernel_main up to the modules, with the right magic number. *)
Lemma memory_started addr l tag esz es fb a w h b (rest : paging_context * vmm_context → M boot outcome) Q :
  info_ok (bt_info b) addr l tag esz es fb a w h → layout_ok a → cold (boot_kernel b) →
  console_ok h w b → ready_controller device patience →
  (∀ q ty, (q, ty) ∈ tag_list (u32 (addr + 8)) l → readable (bt_info b) q ty) →
  (∀ ctx b', memory_up es a w h (parts_of b) ctx (parts_of b') → bt_info b' = bt_info b → wp (rest ctx) Q b') →
  wp (_ ← on_console (tty_init addr (higher_half_base mi));
      _ ← on_boot_kernel (on_ps2 (ps2_init_devices device (S patience)));
      _ ← print_machine cpu_flags mi addr;
      ctx ← start_memory pd pt param mi addr;
      rest ctx) Q b.
Proof.
  intros Hi Hlay Hcold Hcon Hdev Hread HQ. pose proof (io_tags _ _ _ _ _ _ _ _ _ _ Hi) as Htags.
  apply wp_bind. eapply wp_tty; [done..|]. intros b1 E1 I1. apply wp_bind. eapply wp_ps2; [done..|].
  intros b2 E2 I2. rewrite I1 in I2. apply wp_bind.
  eapply wp_print_machine; [by rewrite I2|by rewrite I2|exact E2|]. intros b3 E3.
  assert (I3 : bt_info b3 = bt_info b) by exact (f_equal pa_info E3). apply wp_bind. eapply wp_mono.
  { refine (start_memory_ok addr l tag esz es fb a w h b3 _ Hlay (cold_parts _ _ Hcold E3)). by rewrite I3. }
  cbn beta. intros ctx b4 Hup. rewrite E3 in Hup. apply HQ; [exact Hup|]. exact (mu_info _ _ _ _ _ _ _ Hup).
Qed.

(** The calls of multiboot_get_next_module when there are fewer than two modules. *)
Lemma no_second_module {m : mem} p l (P : Prop) :
  tags_at m p l → 0 < p → (length (modules p l) < 2)%nat →
  (∀ q, modules p l = [] → multiboot_get_next_module p m = Ok ((0, q), m) → P) →
  (∀ t q q', modules p l ≠ [] → multiboot_get_next_module p m = Ok ((t, q), m) →
     multiboot_get_next_module q m = Ok ((0, q'), m) → t ≠ 0 → P) → P.
Proof.
  intros Hl Hp Hlen H0 H1.
  destruct (next_module_loop_ok (walk_fuel m) m p l Hl ltac:(eapply tags_at_fuel; [done|lia]))
    as (q & l' & Hq & _ & Hpq & [(E & Hrun & ->)|(t & E & Hrun & _)]); [by apply (H0 q)|].
  rewrite E in Hlen. destruct (modules q l') eqn:E'; [|simpl in Hlen; lia].
  destruct (next_module_loop_ok (walk_fuel m) m q l' Hq ltac:(eapply tags_at_fuel; [done|lia]))
    as (q2 & l2 & _ & _ & _ & [(_ & Hrun2 & _)|(t2 & E2 & _)]); [|by rewrite E' in E2].
  apply (H1 t q q2); [by rewrite E|done|done|]. destruct (tags_at_pos _ _ _ Hl ltac:(lia) t) as [?| ->]; [rewrite E; by left|lia|lia].
Qed.

(** The calls of multiboot_get_next_module when there are two modules. *)
Lemma two_modules {m : mem} p l t1 t2 r :
  tags_at m p l → 0 < p → modules p l = t1 :: t2 :: r →
  ∃ q1 q2, multiboot_get_next_module p m = Ok ((t1, q1), m) ∧ multiboot_get_next_module q1 m = Ok ((t2, q2), m) ∧
    t1 ≠ 0 ∧ t2 ≠ 0.
Proof.
  intros Hl Hp Hm.
  destruct (next_module_loop_ok (walk_fuel m) m p l Hl ltac:(eapply tags_at_fuel; [done|lia]))
    as (q1 & l1 & Hq1 & _ & Hpq & [(E & _)|(t & E & Hrun1 & _)]); [by rewrite E in Hm|].
  rewrite Hm in E. injection E as <- E.
  destruct (next_module_loop_ok (walk_fuel m) m q1 l1 Hq1 ltac:(eapply tags_at_fuel; [done|lia]))
    as (q2 & l2 & _ & _ & _ & [(E2 & _)|(t & E2 & Hrun2 & _)]); [by rewrite E2 in E|].
  rewrite <- E in E2. injection E2 as <- E2. exists q1, q2. split_and!; [done|done| |].
  - destruct (tags_at_pos _ _ _ Hl ltac:(lia) t1) as [?| ->]; [rewrite Hm; by left|lia|lia].
  - destruct (tags_at_pos _ _ _ Hq1 ltac:(lia) t2) as [?| ->]; [rewrite <- E; by left|lia|lia].
Qed.

(** With two modules kernel_main goes on: what start_tasks does from there, kernel_main does. *)
Lemma kernel_main_goes_on addr l tag esz es fb a w h b t1 t2 r s1 s2 Q :
  info_ok (bt_info b) addr l tag esz es fb a w h → layout_ok a → cold (boot_kernel b) →
  console_ok h w b → ready_controller device patience →
  (∀ q ty, (q, ty) ∈ tag_list (u32 (addr + 8)) l → readable (bt_info b) q ty) →
  0 < u32 (addr + 8) → modules (u32 (addr + 8)) l = t1 :: t2 :: r →
  mod_start t1 (bt_info b) = Ok (s1, bt_info b) → mod_start t2 (bt_info b) = Ok (s2, bt_info b) →
  (∀ ctx b', memory_up es a w h (parts_of b) ctx (parts_of b') →
     wp (start_tasks fault_state junk halt_addr remove_addr user_mode_addr header_addr test_task mi ctx.1 ctx.2 s1 s2) Q b') →
  wp (kernel_main device (S patience) cpu_flags fault_state junk halt_addr remove_addr user_mode_addr
        header_addr test_task pd pt param mi MULTIBOOT2_BOOTLOADER_MAGIC addr) Q b.
Proof.
  intros Hi Hlay Hcold Hcon Hdev Hread Hpos Hm Hs1 Hs2 HQ. pose proof (io_tags _ _ _ _ _ _ _ _ _ _ Hi) as Htags.
  eapply memory_started; [done..|]. intros ctx b4 Hup I4.
  rewrite <- I4 in Htags, Hs1, Hs2. destruct (two_modules _ l t1 t2 r Htags Hpos Hm) as (q1 & q2 & Hrun1 & Hrun2 & Ht1 & Ht2).
  apply wp_bind. eapply wp_on_boot_info; [done|exact Hrun1|]. cbn [fst snd]. rewrite (proj2 (Z.eqb_neq t1 0)) by done.
  apply wp_bind. eapply wp_on_boot_info; [done|exact Hrun2|]. cbn [fst snd]. rewrite (proj2 (Z.eqb_neq t2 0)) by done.
  apply wp_bind. eapply wp_on_boot_info; [done|exact Hs1|]. apply wp_bind. eapply wp_debug; [reflexivity|]. intros b5 E5.
  assert (I5 : bt_info b5 = bt_info b4) by exact (f_equal pa_info E5). rewrite <- I5 in Hs2.
  apply wp_bind. eapply wp_on_boot_info; [reflexivity|exact Hs2|]. apply wp_bind. eapply wp_debug; [reflexivity|]. intros b6 E6.
  apply HQ. by rewrite E6, E5.
Qed.

(** C25: kernel_main returns, and the machine halts, in three cases: when the magic number
    is not that of multiboot2, and then no memory manager was started; and, with the memory
    managers up, when there is no module or only one.  With two modules it goes on: what the
    creation of the tasks does in every state with the memory managers up and the boot
    information as it was, with the two start addresses of the modules, kernel_main does. *)
Theorem kernel_main_branches magic addr l tag esz es fb a w h b :
  info_ok (bt_info b) addr l tag esz es fb a w h → layout_ok a → cold (boot_kernel b) →
  console_ok h w b → ready_controller device patience →
  (∀ q ty, (q, ty) ∈ tag_list (u32 (addr + 8)) l → readable (bt_info b) q ty) →
  let main := kernel_main device (S patience) cpu_flags fault_state junk halt_addr remove_addr user_mode_addr
                header_addr test_task pd pt param mi magic addr in
  (magic ≠ MULTIBOOT2_BOOTLOADER_MAGIC →
   wp main (λ r b', r = Returned ∧ parts_of b' = parts_of b ∧
              last_message b' "Invalid multiboot2 magic number: %d\n" [ANum magic]) b) ∧
  (magic = MULTIBOOT2_BOOTLOADER_MAGIC → 0 < u32 (addr + 8) →
   ((length (modules (u32 (addr + 8)) l) < 2)%nat →
    wp main (λ r b', r = Returned ∧ (∃ ctx, memory_up es a w h (parts_of b) ctx (parts_of b')) ∧
               last_message b' (if decide (modules (u32 (addr + 8)) l = []) then "init not found\n"
                                else "hello_userspace not found\n") []) b) ∧
   ∀ t1 t2 r s1 s2 Q, modules (u32 (addr + 8)) l = t1 :: t2 :: r →
     mod_start t1 (bt_info b) = Ok (s1, bt_info b) → mod_start t2 (bt_info b) = Ok (s2, bt_info b) →
     (∀ ctx b', memory_up es a w h (parts_of b) ctx (parts_of b') →
        wp (start_tasks fault_state junk halt_addr remove_addr user_mode_addr header_addr test_task mi ctx.1 ctx.2 s1 s2) Q b') →
     wp main Q b).
Proof.
  intros Hi Hlay Hcold Hcon Hdev Hread main. pose proof (io_tags _ _ _ _ _ _ _ _ _ _ Hi) as Htags.
  split.
  - intros Hm. apply wp_bind. eapply wp_tty; [done..|]. intros b1 E1 I1. apply wp_bind. eapply wp_ps2; [done..|].
    intros b2 E2 _. rewrite (proj2 (Z.eqb_neq _ _) Hm). cbn [negb]. apply wp_bind.
    eapply wp_debug_last; [exact E2|]. intros b3 E3 L3. by apply wp_ret.
  - intros -> Hpos. split.
    + intros Hlen. eapply memory_started; [done..|]. intros ctx b4 Hup I4.
      rewrite <- I4 in Htags. apply (no_second_module _ l _ Htags Hpos Hlen).
      * intros q Hnil Hrun. rewrite (decide_True _ _ Hnil). apply wp_bind.
        eapply wp_on_boot_info; [done|exact Hrun|]. cbn [fst]. apply wp_bind. eapply wp_debug_last; [done|].
        intros b5 E5 L5. apply wp_ret. split_and!; [done|exists ctx; by rewrite E5|done].
      * intros t q q' Hne Hrun1 Hrun2 Ht. rewrite (decide_False _ _ Hne). apply wp_bind.
        eapply wp_on_boot_info; [done|exact Hrun1|]. cbn [fst snd]. rewrite (proj2 (Z.eqb_neq t 0)) by done. apply wp_bind.
        eapply wp_on_boot_info; [done|exact Hrun2|]. cbn [fst]. apply wp_bind. eapply wp_debug_last; [done|].
        intros b5 E5 L5. apply wp_ret. split_and!; [done|exists ctx; by rewrite E5|done].
    + intros t1 t2 r s1 s2 Q Hm Hs1 Hs2 HQ. by eapply kernel_main_goes_on.
Qed.

End Boot.

(** ** Witnesses *)

(** A cold machine, with the boot information [map_mem] and a screen of 80 by 25. *)
Definition cold_kernel : kernel kheap :=
  mk_kernel (SchedStore (KHeap 0 ∅) ∅ ∅ 0 0 0 (mk_task_list 0 TASK_PRIORITY_LOW 0) 0 (mk_cpu_state 0 0 0))
    ∅ ∅ ∅ ∅ ps2_0 0.
Definition cold_boot : boot :=
  mk_boot (mk_machine cold_kernel ∅) map_mem (mk_tty 0 0 0 0 0 0 (replicate 2000 0)).

Lemma map_fb :
  framebuffer_addr 0x10060 map_mem = Ok (0xB8000, map_mem) ∧ tag_size 0x10060 map_mem = Ok (32, map_mem) ∧
  framebuffer_width 0x10060 map_mem = Ok (80, map_mem) ∧ framebuffer_height 0x10060 map_mem = Ok (25, map_mem).
Proof. split_and!; [eapply load64_value; by vm_compute|apply load32_value; by vm_compute..]. Qed.

Lemma map_info_ok : info_ok map_mem 0x10000 map_tags 0x10008 24 entries0 0x10060 0xB8000 80 25.
Proof.
  destruct map_fb as (Ha & _ & Hw & Hh).
  split; [exact map_tags_ok|by vm_compute|exact map0_at|exact entries0_ok|by vm_compute|done..|by vm_compute].
Qed.

Lemma layout0_ok : layout_ok meminfo0 0xC0110000 0xC0200000 0xB8000.
Proof.
  split; [exact ctx0_ok|done|by split; vm_compute|by split; vm_compute|by split; vm_compute|apply boot_space_ok..].
Qed.

Lemma cold_boot_ok : cold (boot_kernel cold_boot).
Proof. split_and!; [done|done|exact empty_ok]. Qed.

Lemma boot_memory_ready_witness :
  wp (start_memory 0xC0110000 0xC0200000 0 meminfo0 0x10000)
     (λ r b', r.1 = ctx0 ∧ page_used (k_bitmap (boot_kernel b')) 0x9F = true) cold_boot.
Proof.
  eapply wp_mono.
  - exact (boot_memory_ready meminfo0 0xC0110000 0xC0200000 0 0x10000 map_tags 0x10008 24 entries0 0x10060 0xB8000 80 25
      cold_boot map_info_ok layout0_ok cold_boot_ok).
  - cbn beta. intros r b' [_ Hu _ Er _ _ _ _ _ _ _]. split; [exact Er|].
    exact (eq_trans (Hu 0x9F) (eq_refl : boot_frame meminfo0 entries0 0xB8000 80 25 0x9F || page_used ∅ 0x9F = true)).
Defined.

Lemma boot_frames_apart_witness :
  wp (start_memory 0xC0110000 0xC0200000 0 meminfo0 0x10000)
     (λ _ b', ∀ p, lowest_free (k_bitmap (boot_kernel b')) p → p ≠ 0x105) cold_boot.
Proof.
  eapply wp_mono.
  - apply (boot_frames_apart meminfo0 0xC0110000 0xC0200000 0 0x10000 map_tags 0x10008 24 entries0 0x10060 0xB8000 80 25
      cold_boot map_info_ok layout0_ok cold_boot_ok); by vm_compute.
  - cbn beta. intros _ b' Hap p Hp ->. by specialize (Hap 0x105 0xC0105000 0x105000 Hp ltac:(by vm_compute) eq_refl eq_refl).
Defined.

Lemma map_readable q ty : (q, ty) ∈ tag_list (u32 (0x10000 + 8)) map_tags → readable map_mem q ty.
Proof.
  assert (E : tag_list (u32 (0x10000 + 8)) map_tags = [(0x10008, 6); (0x10060, 8)]) by by vm_compute.
  rewrite E. intros [[= -> ->]|[= -> ->]%list_elem_of_singleton]%elem_of_cons; split; intros Hty; try by vm_compute in Hty.
  - exists 24, entries0. exact map0_at.
  - exists 0xB8000, 32, 80, 25. exact map_fb.
Qed.

Lemma cold_console : console_ok 25 80 cold_boot.
Proof. split_and!; [done|done|done|]. by cbn [bt_tty cold_boot cells]; rewrite length_replicate. Qed.

(** There is no module in [map_mem]. *)
Lemma no_modules : (length (modules (u32 (0x10000 + 8)) map_tags) < 2)%nat.
Proof. by apply Nat.ltb_lt. Qed.

Lemma kernel_main_branches_witness :
  wp (kernel_main idle 1 0x202 state0 zero_node 0xC0105000 0xC0106000 0xC0107000 0xC0113000 0xC0108000
        0xC0110000 0xC0200000 0 meminfo0 MULTIBOOT2_BOOTLOADER_MAGIC 0x10000)
     (λ r b', r = Returned ∧ last_message b' "init not found\n" []) cold_boot.
Proof.
  eapply wp_mono.
  - exact (proj1 (proj2 (kernel_main_branches idle 0 0x202 state0 zero_node 0xC0105000 0xC0106000 0xC0107000 0xC0113000 0xC0108000
      meminfo0 0xC0110000 0xC0200000 0 MULTIBOOT2_BOOTLOADER_MAGIC 0x10000 map_tags 0x10008 24 entries0 0x10060 0xB8000 80 25
      cold_boot map_info_ok layout0_ok cold_boot_ok cold_console (idle_ready 0)
      map_readable) eq_refl eq_refl) no_modules).
  - cbn beta. intros r b' (Hr & _ & Hl). split; [done|exact Hl].
Defined.

(** A kernel with an empty heap. *)
Definition heap_kernel : kernel kheap :=
  mk_kernel (SchedStore heap0 ∅ ∅ 0 0 0 (mk_task_list 0 TASK_PRIORITY_LOW 0) 0 (mk_cpu_state 0 0 0)) ∅ ∅ ∅ ∅ ps2_0 0.

Lemma kmalloc_some_ints_clean_witness :
  wp kmalloc_some_ints (λ _ k', owns (ss_heap (k_sched k')) ∅) heap_kernel.
Proof.
  eapply wp_mono.
  - exact (kmalloc_some_ints_clean ∅ 0 heap_kernel (heap_reachable_rep _ _ (reach_init _ _ heap0_init)) (heap0_room 2000 eq_refl)).
  - cbn beta. by intros _ k' [Ho _].
Defined.
