(* ===== verification/Running.v ===== *)
(** * From kernel_main to the running system

    The end of kernel_main, from init_sched on, as a whole: from the state that the memory
    managers leave to the system of [System], with its six tasks in the ring. *)

From S2P Require Import Prelude Allocator Kmalloc PageArith Vmm VmmRules VmmRanges VmmFree VmmTree VmmSpace.
From S2P Require Import Spaces VmmProps VmmClone Mem CString Pmm Paging Tty Printk PortIo Ps2 Sched Elf Kernel Syscall PageFault.
From S2P Require Import Task System Mmu Loader Init UserTask Startup KMain.

Section Running.
Context {FL : Limit} (fault_state : interrupt_state) (junk : Z → vmm_allocation_tree) (Hjunk : null_links junk).
Context (halt_addr remove_addr init_goto_user_mode_addr header_addr test_task hf : Z) (E : Z → Prop).
Context (mi : kernel_meminfo) (Hhh : higher_half_base mi mod 4096 = 0) (Hhr : is_u32 (higher_half_base mi)).
Context (kctx : paging_context) (vctx : vmm_context).
Implicit Types (b : boot) (μ : machine kheap) (F : Z → option Z) (bl : list (Z * Z)).

(** The files of init and of hello_userspace, in the frames [epa1] and [epa2], with their
    program headers at [o1] and [o2]. *)
Context (epa1 : Z) (file1 : list Z) (o1 : nat) (epa2 : Z) (file2 : list Z) (o2 : nat).

(** Where everything goes: the stack of the booting thread, what the user tasks get, and the
    stacks of the three kernel tasks. *)
Record places_ok bl F (V : list Z) (boot_stack : Z * list (Z * Z)) (pl1 pl2 : place) (ps : list (Z * list (Z * Z))) : Prop := {
  ps_boot : anon mi KERNEL_STACK_PAGE_COUNT bl boot_stack.1 boot_stack.2 ∧ boot_stack.2 ≠ tl bl ∧
    ∀ m, stack_page boot_stack.1 m → F m = None ∧ ¬ E m;
  ps_init : place_ok mi E epa1 file1 o1 boot_stack.2 F V pl1;
  ps_child : place_ok mi E epa2 file2 o2 (free_after mi file1 o1 pl1) (page_after epa1 pl1 F) (stubs_after file1 o1 V) pl2;
  ps_tests : length ps = 3%nat ∧
    stacks_ok mi E (free_after mi file2 o2 pl2) (page_after epa2 pl2 (page_after epa1 pl1 F)) ps
}.

(** The blocks of the heap and the pages that the calls need. *)
Definition startup_blocks (A : list vmm_allocation) (pl1 pl2 : place) : nat :=
  4 + (33 + length (pl_free3 pl1) + (5 + length A)) + (33 + length (pl_free3 pl2) + (9 + length A)) + 14.
Definition startup_pages : nat := 10 + 22 + 22 + 30.

(** The ring is that of the system: the booting thread runs, the three kernel tasks, the task
    of init and its child follow, with their process ids, ready to start: the first switch to
    either of the last two goes to user mode at the entry point of its program. *)
Record tasks_started (pl1 pl2 : place) (ps : list (Z * list (Z * Z))) μ (p0 : Z) (tests : list Z) (p1 p2 : Z) : Prop := {
  ts_system : ∃ l, system_ok (mc_kernel μ) l (p0 :: tests ++ [p1; p2]) 0;
  ts_pids : ∀ a, pid_at (k_sched (mc_kernel μ)) (p0 :: tests ++ [p1; p2]) a = [0; 3; 4; 5; 1; 2] !! a;
  ts_running : tl_task (CURRENT_TASK (k_sched (mc_kernel μ))) = p0;
  ts_programs : ∃ t T1 f1 q1 T2 f2 q2, running (mc_kernel μ) = Some t ∧ task_paging_ctx t = kctx ∧
    user_program halt_addr remove_addr init_goto_user_mode_addr hf t μ file1 o1 (pl_stack pl1) (pl_dir pl1) 0 p1 T1 1 f1 q1 ∧
    user_program halt_addr remove_addr init_goto_user_mode_addr hf t μ file2 o2 (pl_stack pl2) (pl_dir pl2) p1 p2 T2 2 f2 q2 ∧
    (∀ eflags,
       enters_program remove_addr init_goto_user_mode_addr file1 p1 T1 (pl_stack pl1) (f1 * PAGE_SIZE) eflags (mc_kernel μ) ∧
       enters_program remove_addr init_goto_user_mode_addr file2 p2 T2 (pl_stack pl2) (f2 * PAGE_SIZE) eflags (mc_kernel μ)) ∧
    length tests = 3%nat ∧
    ∀ i p stk bl', tests !! i = Some p → ps !! i = Some (stk, bl') →
      ∃ T, kernel_program mi halt_addr remove_addr t (mc_kernel μ) test_task stk p T (3 + Z.of_nat i)
}.

Notation up t := (kernel_up mi header_addr hf t E).
Notation user t := (user_program halt_addr remove_addr init_goto_user_mode_addr hf t).
Notation test t k := (kernel_program mi halt_addr remove_addr t k test_task).

Definition stack_in (stk : Z) : Prop := 0 <= stk ∧ stk + KERNEL_STACK_SIZE < 2 ^ 32.

Lemma program_enters t μ p0 file o stk dir parent p T id f q eflags :
  user t μ file o stk dir parent p T id f q → running (mc_kernel μ) = Some t → pid t = 0 → id ≠ 0 →
  tl_task (CURRENT_TASK (k_sched (mc_kernel μ))) = p0 → stack_in stk →
  enters_program remove_addr init_goto_user_mode_addr file p T stk (f * PAGE_SIZE) eflags (mc_kernel μ).
Proof.
  intros [Hen [Hid _] [_ <-] _ _] Hrun Hpid Hne Hcur [Hs0 Hs1]. eapply (ready_enters halt_addr); [exact Hen|eauto| |done|done].
  intros E0. unfold running in Hrun. rewrite <- E0 in Hrun. destruct Hen as (_ & HT & _). congruence.
Qed.

(** The parts, when all is done. *)
Lemma started t kept O μ bl A F (n j : nat) l p0 tests p1 p2 pl1 pl2 ps T1 f1 q1 T2 f2 q2 :
  up t kept O μ vctx bl A F n j → ring_up t kept (mc_kernel μ) l (p0 :: tests ++ [p1; p2]) → tasks_up vctx O (mc_kernel μ) →
  task_paging_ctx t = kctx → ss_tasks (k_sched (mc_kernel μ)) !! p0 = Some t → pid t = 0 →
  user t μ file1 o1 (pl_stack pl1) (pl_dir pl1) 0 p1 T1 1 f1 q1 →
  user t μ file2 o2 (pl_stack pl2) (pl_dir pl2) p1 p2 T2 2 f2 q2 → length tests = 3%nat → length ps = 3%nat →
  stack_in (pl_stack pl1) → stack_in (pl_stack pl2) →
  (∀ i p stk bl', tests !! i = Some p → ps !! i = Some (stk, bl') → ∃ T, test t (mc_kernel μ) stk p T (3 + Z.of_nat i)) →
  tasks_started pl1 pl2 ps μ p0 tests p1 p2.
Proof.
  intros Hup Hring Htu Hpc H0t Hpid0 Hu1 Hu2 Hlt Hlp Hs1 Hs2 Htests.
  pose proof (ft_running _ _ _ (oc_fault _ _ _ _ _ _ (ku_cpu _ _ _ _ _ _ _ _ _ _ _ _ _ _ Hup))) as Hrun.
  assert (Hat : ∀ a, pid_at (k_sched (mc_kernel μ)) (p0 :: tests ++ [p1; p2]) a = [0; 3; 4; 5; 1; 2] !! a).
  { destruct tests as [|x [|y [|z [|]]]]; try done. destruct ps as [|[s0 b0] [|[s1 b1] [|[s2 b2] [|]]]]; try done.
    destruct (Htests 0%nat x s0 b0 eq_refl eq_refl) as (X & (_ & HX & _) & EX & _).
    destruct (Htests 1%nat y s1 b1 eq_refl eq_refl) as (Y & (_ & HY & _) & EY & _).
    destruct (Htests 2%nat z s2 b2 eq_refl eq_refl) as (W & (_ & HW & _) & EW & _).
    destruct Hu1 as [(_ & HT1 & _) [E1 _] _ _ _], Hu2 as [(_ & HT2 & _) [E2 _] _ _ _].
    intros [|[|[|[|[|[|a]]]]]]; unfold pid_at; simpl; [..|by rewrite lookup_nil];
      rewrite ?H0t, ?HX, ?HY, ?HW, ?HT1, ?HT2; simpl; f_equal; lia. }
  split.
  - exists l. eapply up_system; [exact Hup|exact Hring|exact Htu| |by rewrite Hat]. intros a b q. rewrite !Hat.
    apply (NoDup_lookup [0; 3; 4; 5; 1; 2]). by apply (bool_decide_unpack _).
  - done.
  - pose proof (ru_first _ _ _ _ _ Hring) as (Hf & _). simpl in Hf. congruence.
  - exists t, T1, f1, q1, T2, f2, q2. split_and!; try done. intros eflags. split; by eapply program_enters.
Qed.

Lemma taken_less t bl bl' : tables_taken (task_paging_ctx t) bl → (∀ x, covered bl' x → covered bl x) → tables_taken (task_paging_ctx t) bl'.
Proof. intros Ht Hl a Ha Hc. by apply (Ht a Ha), Hl. Qed.

Lemma place_stack epa file o bl F V pl : place_ok mi E epa file o bl F V pl → stack_in (pl_stack pl).
Proof. by intros [_ [(? & _ & ? & _) _] _ _ _ _ _]. Qed.

(** Both user tasks, and the kernel up afterwards. *)
Record users_up t μ bl F V pl1 pl2 (n j : nat) (p0 p1 p2 : Z) μ' : Prop := {
  us_up : ∃ kept O A' l, up t kept O μ' vctx bl A' F n j ∧ stubs_in A' V ∧ ring_up t kept (mc_kernel μ') l [p0] ∧
    tasks_up vctx O (mc_kernel μ');
  us_boot : ss_tasks (k_sched (mc_kernel μ')) !! p0 = Some t;
  us_users : ∃ T1 f1 q1 T2 f2 q2, user t μ' file1 o1 (pl_stack pl1) (pl_dir pl1) 0 p1 T1 1 f1 q1 ∧
    user t μ' file2 o2 (pl_stack pl2) (pl_dir pl2) p1 p2 T2 2 f2 q2;
  us_last : k_last_pid (mc_kernel μ') = 3;
  us_apart : stack_apart t bl (pl_stack pl1) ∧ stack_apart t bl (pl_stack pl2);
  us_taken : tables_taken (task_paging_ctx t) bl;
  us_stacks : stack_in (pl_stack pl1) ∧ stack_in (pl_stack pl2)
}.

Lemma users_ok t kept A l p0 bl F V pl1 pl2 (n j : nat) μ :
  let F1 := page_after epa1 pl1 F in
  up t kept [] μ vctx bl A F (22 + (22 + n))
    (blocks_needed (pl_free3 pl1) A + (33 + length (pl_free3 pl2) + (8 + length A) + j)) →
  stubs_in A V → ring_up t kept (mc_kernel μ) l [p0] → tasks_up vctx [] (mc_kernel μ) →
  ss_tasks (k_sched (mc_kernel μ)) !! p0 = Some t → k_last_pid (mc_kernel μ) = 1 →
  tables_taken (task_paging_ctx t) bl → file_ready hf epa1 file1 μ → file_ready hf epa2 file2 μ →
  program_ok file1 o1 → program_ok file2 o2 → place_ok mi E epa1 file1 o1 bl F V pl1 →
  place_ok mi E epa2 file2 o2 (free_after mi file1 o1 pl1) F1 (stubs_after file1 o1 V) pl2 →
  wp (init_create_task0 mi fault_state junk halt_addr remove_addr init_goto_user_mode_addr header_addr (task_paging_ctx t) vctx epa1)
     (λ p1 μ1, wp (init_create_user_task mi fault_state junk halt_addr remove_addr init_goto_user_mode_addr header_addr
                     (task_paging_ctx t) vctx epa2 p1)
        (λ p2 μ2, users_up t μ (free_after mi file2 o2 pl2) (page_after epa2 pl2 F1)
           (stubs_after file2 o2 (stubs_after file1 o1 V)) pl1 pl2 n j p0 p1 p2 μ2) μ1) μ.
Proof.
  intros F1 Hup HV Hring Htu H0t Hlast Htab Hf1 Hf2 Hp1 Hp2 Hi Hc. eapply wp_mono.
  { by eapply (task0_up_ok mi fault_state Hhh Hhr junk Hjunk). }
  cbn beta. intros p1 μ1 [(T1 & f1 & q1 & sp1 & A1 & Hup1 & Htu1 & HV1 & HA1 & Hu1) Hring1 _ Hl1 Hon1 Hless1 Hap1].
  rewrite Hlast in Hu1, Hl1. pose proof (taken_less _ _ _ Htab Hless1) as Htab1. eapply wp_mono.
  { eapply (user_task_up_ok mi fault_state Hhh Hhr junk Hjunk _ _ _ _ _ _ _ _ _ epa2 file2 o2 μ1 vctx _ A1 _ _ pl2 n j p1);
      [|eapply file_onward; [exact Hon1|exact Hf2|apply Hp2]|exact Hp2|exact Hc|exact Htab1|exact HV1|exact Hring1|exact Htu1].
    unfold blocks_needed. rewrite HA1. exact Hup1. }
  cbn beta. intros p2 μ2 [(T2 & f2 & q2 & sp2 & A2 & Hup2 & Htu2 & HV2 & HA2 & Hu2) Hring2 _ Hl2 Hon2 Hless2 Hap2].
  rewrite Hl1 in Hu2, Hl2. change (u32 (1 + 1)) with 2 in *. split.
  - do 2 eexists. by exists A2, l.
  - by apply Hon2, Hon1.
  - exists T1, f1, q1, T2, f2, q2. split; [|exact Hu2]. by eapply program_onward; [exact Hon2|exact Hap1|exact Hp1|exact Hu1].
  - exact Hl2.
  - split; [|done]. by eapply stack_apart_less; [exact Hap1|].
  - by eapply taken_less.
  - by split; eapply place_stack.
Qed.

(** The kernel tasks, and the ends of the ring. *)
Lemma ring_filled t μ bl F V pl1 pl2 ps (n j : nat) p0 p1 p2 μ0 :
  users_up t μ0 bl F V pl1 pl2 (30 + n) (14 + j) p0 p1 p2 μ → task_paging_ctx t = kctx → pid t = 0 →
  program_ok file1 o1 → program_ok file2 o2 → length ps = 3%nat → stacks_ok mi E bl F ps →
  wp (on_kernel (add_test_tasks halt_addr remove_addr test_task mi kctx vctx))
     (λ _ μ1, wp (on_kernel (on_sched (sched_add p1 TASK_PRIORITY_LOW)))
        (λ _ μ2, wp (on_kernel (on_sched (sched_add p2 TASK_PRIORITY_LOW)))
           (λ _ μ', ∃ tests, tasks_started pl1 pl2 ps μ' p0 tests p1 p2) μ2) μ1) μ.
Proof.
  intros [(kept & O & A & l & Hup & HV & Hring & Htu) H0t (T1 & f1 & q1 & T2 & f2 & q2 & Hu1 & Hu2) Hlast [Hap1 Hap2] Htab [Hs1 Hs2]]
    Hpc Hpid Hp1 Hp2 Hlen Hps. unfold add_test_tasks. rewrite <- Hlen. rewrite <- Hpc in *. eapply wp_mono.
  { eapply (test_tasks_ok mi Hhh Hhr halt_addr remove_addr header_addr hf t E ps test_task 0 kept O μ vctx bl A F V n (2 + j) l [p0]);
      [rewrite Hlen; exact Hup|done..|rewrite Hlast, Hlen; lia]. }
  cbn beta. intros _ μ1 [(kept1 & A1 & nodes & tests & Hup1 & Hring1 & HV1 & Htl & Htests) Htu1 Hon1 Hless1 _].
  rewrite Hlast in Htests. pose proof (program_onward _ _ _ _ _ _ _ _ _ _ _ _ _ _ _ _ _ _ Hon1 Hap1 Hp1 Hu1) as Hu1'.
  pose proof (program_onward _ _ _ _ _ _ _ _ _ _ _ _ _ _ _ _ _ _ Hon1 Hap2 Hp2 Hu2) as Hu2'.
  eapply wp_mono; [eapply (sched_add_up _ _ _ _ _ _ O μ1 vctx (free_end bl ps) A1 F p1); [exact Hup1|exact Hring1|]|].
  { destruct Hu1' as [(_ & HT & _) _ _ _ _]. eauto. }
  cbn beta. intros _ μ2 (nd1 & Hup2 & Hring2 & Hon2 & Et2 & _).
  eapply wp_mono; [eapply (sched_add_up _ _ _ _ _ _ O μ2 vctx (free_end bl ps) A1 F p2); [exact Hup2|exact Hring2|]|].
  { rewrite Et2. destruct Hu2' as [(_ & HT & _) _ _ _ _]. eauto. }
  cbn beta. intros _ μ3 (nd2 & Hup3 & Hring3 & Hon3 & Et3 & _). exists tests.
  assert (Hon : onward hf t (free_end bl ps) μ1 μ3) by by eapply onward_trans.
  eapply (started t); [exact Hup3| | |done| |done| | |by rewrite Htl|done|done|done|].
  - rewrite <- !app_assoc in Hring3. exact Hring3.
  - destruct Htu1 as [Hs Ho]. split; [|done]. by rewrite Et3, Et2.
  - by apply Hon, Hon1.
  - eapply program_onward; [exact Hon|by eapply stack_apart_less|exact Hp1|exact Hu1'].
  - eapply program_onward; [exact Hon|by eapply stack_apart_less|exact Hp2|exact Hu2'].
  - intros i p stk bl' Hi Hb. destruct (Htests i p stk bl' Hi Hb) as (Hsa & T & Hr & Hk). exists T.
    split; [by eapply ready_onward|exact Hk].
Qed.

(** From a state that is ready to start, start_tasks comes to its idle loop with the system
    running. *)
Lemma start_tasks_ok bl A F V boot_stack pl1 pl2 ps (n j : nat) b :
  ready_to_start mi header_addr hf E kctx (bt_machine b) vctx bl A F V (startup_pages + n) (startup_blocks A pl1 pl2 + j) →
  places_ok bl F V boot_stack pl1 pl2 ps → file_ready hf epa1 file1 (bt_machine b) → file_ready hf epa2 file2 (bt_machine b) →
  program_ok file1 o1 → program_ok file2 o2 →
  wp (start_tasks fault_state junk halt_addr remove_addr init_goto_user_mode_addr header_addr test_task mi kctx vctx epa1 epa2)
     (λ r b', r = Idle ∧ ∃ p0 tests p1 p2, tasks_started pl1 pl2 ps (bt_machine b') p0 tests p1 p2) b.
Proof.
  intros Hr [(Hbs & Hbne & HbS) Hi Hc [Hlen Hps]] Hf1 Hf2 Hp1 Hp2. pose proof (rs_paging _ _ _ _ _ _ _ _ _ _ _ _ _ Hr) as (_ & Htab & _).
  apply wp_bind, wp_zoom. eapply wp_mono.
  { apply (init_sched_up mi Hhh Hhr halt_addr remove_addr header_addr hf E kctx (bt_machine b) vctx bl A F V boot_stack.1 boot_stack.2
      (22 + (22 + (30 + n))) (33 + length (pl_free3 pl1) + (5 + length A) + (33 + length (pl_free3 pl2) + (9 + length A)) + 14 + j)); done. }
  cbn beta. intros _ μ1 (p0 & t & [(kept & A1 & nd & Hup & HV & HA & Hring) Htu Hpc (H0t & Hpid & _) Hlast Hon]).
  apply wp_bind, wp_zoom, wp_zoom, wp_klog. cbn [bt_machine mc_kernel]. set (io := k_io (mc_kernel μ1) ++ _).
  pose proof (up_io _ _ _ _ _ _ _ _ _ _ _ _ _ _ io Hup) as Hup'. rewrite <- Hpc in *.
  apply wp_bind, wp_zoom. cbn [bt_machine]. eapply wp_mono.
  { eapply (users_ok t kept A1 [nd] p0 boot_stack.2 F V pl1 pl2 (30 + n) (14 + j)); try done.
    - unfold blocks_needed. rewrite HA. eapply (eq_ind _ (λ m, up t kept [] _ vctx _ _ _ _ m)); [exact Hup'|lia].
    - by destruct Hring.
    - by destruct Htu.
    - eapply taken_less; [exact Htab|]. destruct Hbs as (_ & _ & _ & _ & _ & _ & Hcov). by intros x [? _]%Hcov.
    - by destruct (file_onward hf t bl epa1 file1 _ _ Hon Hf1 (po_length _ _ Hp1)).
    - by destruct (file_onward hf t bl epa2 file2 _ _ Hon Hf2 (po_length _ _ Hp2)). }
  cbn beta. intros p1 μ2 W2. apply wp_bind, wp_zoom. eapply wp_mono; [exact W2|].
  cbn beta. intros p2 μ3 Hu. apply wp_bind, wp_zoom. rewrite Hpc. eapply wp_mono; [by eapply ring_filled|].
  cbn beta. intros _ μ4 W4. apply wp_bind, wp_zoom. eapply wp_mono; [exact W4|].
  cbn beta. intros _ μ5 W5. apply wp_bind, wp_zoom. eapply wp_mono; [exact W5|].
  cbn beta. intros _ μ6 [tests Hs]. apply wp_ret. split; [done|]. by exists p0, tests, p1, p2.
Qed.

End Running.
