(* ===== verification/Boot.v ===== *)
(** * From the boot loader to the running system: kernel_main as a whole

    The parts meet: a cold machine that a boot loader has prepared, with the kernel laid out
    by the linker and two programs as modules, goes through kernel_main to the idle loop and
    is then the system of [System]. *)

From S2P Require Import Prelude Allocator Kmalloc PageArith Vmm VmmRules VmmRanges VmmFree VmmTree VmmSpace.
From S2P Require Import Spaces VmmProps VmmClone Mem CString Multiboot Pmm Paging Tty Printk PortIo MemoryMap Ps2 Sched Elf.
From S2P Require Import Kernel Syscall PageFault Task System Mmu Loader Init UserTask Startup KMain Running.

Section Boot.
Context {FL : Limit} (device : trace → Z → Z) (patience : nat) (cpu_flags : Z).
Context (fault_state : interrupt_state) (junk : Z → vmm_allocation_tree) (Hjunk : null_links junk).
Context (halt_addr remove_addr user_mode_addr header_addr test_task : Z).
Context (mi : kernel_meminfo) (pd pt param : Z) (E : Z → Prop).
Implicit Types (b : boot) (F : Z → option Z) (bl : list (Z * Z)).

Notation kctx := (PagingContext pd pt).

(** The frame of the local variable [header] of init.c, on the stack of the boot thread, and
    the kernel's view of its own memory: this page. *)
Definition header_frame : Z := header_addr / PAGE_SIZE * PAGE_SIZE - higher_half_base mi.
Definition header_page (n : Z) : option Z := if decide (n = header_addr / PAGE_SIZE) then Some header_frame else None.

(** The layout of the kernel: what the linker chooses.  The free ranges are [bl]; the page
    tables and the boot stack lie in the image of the kernel; and the pages [E], which the
    kernel maps and unmaps later, do not. *)
Record kernel_layout (a : Z) bl : Prop := {
  kl_layout : layout_ok mi pd pt a;
  kl_ranges : new_context_ranges mi (sections mi a) = Some bl;
  kl_physical : Forall (λ e, is_u32 (ase_physical_start e)) (sections mi a);
  kl_tables : higher_half_base mi <= pd ∧ higher_half_base mi <= pt ∧
    ∀ x, table_addr kctx x → ∃ e, e ∈ sections mi a ∧ contains (entry_alloc e) x;
  kl_header : is_u32 header_addr ∧ header_addr mod PAGE_SIZE + 52 <= PAGE_SIZE ∧ PAGE_DIRECTORY_INDEX header_addr ≠ 1023 ∧
    higher_half_base mi <= header_addr ∧ header_addr / PAGE_SIZE * PAGE_SIZE < virtual_end mi;
  kl_image : physical_start mi mod PAGE_SIZE = 0 ∧ physical_start mi <= header_frame < physical_end mi;
  kl_pages : ∀ x, is_u32 x → E (x / PAGE_SIZE) → kernel_translation mi x = None ∧ PAGE_DIRECTORY_INDEX x ≠ 1023
}.

(** The machine when kernel_main starts: no tasks, [n] frames that the memory managers will
    not reserve, and memory behind all of these that are below the limit. *)
Record cold_start b es (a w h : Z) (n : nat) : Prop := {
  cs_cold : cold (boot_kernel b);
  cs_sched : ss_tasks (k_sched (boot_kernel b)) = ∅ ∧ ss_lists (k_sched (boot_kernel b)) = ∅ ∧
    k_last_pid (boot_kernel b) = 0 ∧ is_u32 (cpu_esp (ss_cpu (k_sched (boot_kernel b))));
  cs_words : words_ok (k_words (boot_kernel b));
  cs_bitmap : ∀ k, page_used (k_bitmap (boot_kernel b)) k = false;
  cs_frames : ∃ l, NoDup l ∧ (n <= length l)%nat ∧
    ∀ k, k ∈ l → 0 <= k < 2 ^ 20 ∧ k < frame_limit ∧ boot_frame mi es a w h k = false;
  cs_memory : ∀ k, 0 <= k < 2 ^ 20 → k < frame_limit → boot_frame mi es a w h k = false →
    mapped (mc_phys (bt_machine b)) (k * PAGE_SIZE) PAGE_SIZE;
  cs_header : mapped (mc_phys (bt_machine b)) (header_at header_addr header_frame) 52
}.

(** A module of the boot loader: its frame is not among those of the kernel or its heap, and
    the allocator does not come to it, because it is reserved or beyond the limit. *)
Record module_ok b es (epa : Z) (file : list Z) : Prop := {
  mo_frame : frame_ok epa ∧ epa mod PAGE_SIZE = 0 ∧ epa ≠ 0;
  mo_bytes : bytes_at (mc_phys (bt_machine b)) epa file;
  mo_apart : marks (physical_start mi) (physical_end mi) (epa / PAGE_SIZE) = false ∧ heap_marks (epa / PAGE_SIZE) = false;
  mo_kept : map_marks es (epa / PAGE_SIZE) = true ∨ frame_limit <= epa / PAGE_SIZE
}.

(** *** What the layout gives *)

Lemma layout_base a bl : kernel_layout a bl → higher_half_base mi mod 4096 = 0 ∧ is_u32 (higher_half_base mi).
Proof. intros Hk. destruct (lo_base _ _ _ _ (kl_layout _ _ Hk)). split; [done|]. unfold is_u32. lia. Qed.

Lemma header_frame_aligned a bl : kernel_layout a bl → header_frame mod PAGE_SIZE = 0 ∧ frame_ok header_frame.
Proof.
  intros Hk. pose proof (layout_base _ _ Hk) as [Hal Hhr]. destruct (kl_header _ _ Hk) as (Hh & _ & _ & Hlo & _).
  unfold header_frame, frame_ok, is_u32 in *. rewrite PAGE_SIZE_val in *. split; [|split]; Z.div_mod_to_equations; lia.
Qed.

(** The page of [header] is in the image. *)
Lemma header_translation a bl x :
  kernel_layout a bl → is_u32 x → x / PAGE_SIZE = header_addr / PAGE_SIZE →
  kernel_translation mi x = Some (x - higher_half_base mi) ∧ PAGE_DIRECTORY_INDEX x ≠ 1023.
Proof.
  intros Hk Hx Hpage. destruct (kl_header _ _ Hk) as (Hh & _ & Hd & Hlo & Hhi). split.
  - unfold kernel_translation. rewrite decide_True; [done|]. rewrite Hpage. split; [by apply Z.div_le_mono|exact Hhi].
  - rewrite PAGE_DIRECTORY_INDEX_div in *. rewrite PAGE_SIZE_val in *. change (2 ^ 22) with (4096 * 1024) in *.
    rewrite <- Z.div_div in * by lia. by rewrite Hpage.
Qed.

Lemma header_page_some n f : header_page n = Some f → n = header_addr / PAGE_SIZE ∧ f = header_frame.
Proof. unfold header_page. case_decide; [|done]. by intros [= <-]. Qed.

Lemma kernel_dir_apart a bl : kernel_layout a bl → dir_apart mi kctx (vmm_virtual_to_physical mi pd).
Proof.
  intros Hk va Hva. pose proof (layout_base _ _ Hk) as [Hal Hhr]. destruct (kl_tables _ _ Hk) as (Hpd & Hpt & _).
  destruct (lo_paging _ _ _ _ (kl_layout _ _ Hk)) as [_ _ Hr1 Hr2 Hap]. destruct (indices mi Hhr va Hva) as (Hd & _).
  unfold table_phys, vmm_virtual_to_physical, is_u32 in *. simpl in *. rewrite !u32_small by (unfold is_u32; lia). lia.
Qed.

Lemma sections_allocs a bl : kernel_layout a bl → allocs_ok (reverse (entry_alloc <$> sections mi a)) ∧
  stubs_in (reverse (entry_alloc <$> sections mi a)) [].
Proof.
  intros Hk. split; intros x Hx; rewrite elem_of_reverse in Hx.
  - apply list_elem_of_fmap in Hx as (e & -> & He). pose proof (kl_physical _ _ Hk) as Hp. rewrite Forall_forall in Hp.
    split; [|by apply Hp]. simpl. assert (Hf : Forall (λ e, flags_ok (ase_flags e)) (sections mi a)) by (repeat constructor; by vm_compute).
    rewrite Forall_forall in Hf. by apply Hf.
  - apply list_elem_of_fmap in Hx as (e & -> & He). pose proof (lo_sections _ _ _ _ (kl_layout _ _ Hk)) as Hs.
    rewrite Forall_forall in Hs. destruct (Hs e He) as (_ & _ & Hpos & _). simpl. lia.
Qed.

(** *** From the memory managers to the first task *)

Context (a w h : Z) (es : list mmap_entry) (bl : list (Z * Z)).
Context (Hk : kernel_layout a bl).

Lemma header_marked : marks (physical_start mi) (physical_end mi) (header_frame / PAGE_SIZE) = true.
Proof.
  pose proof (header_frame_aligned _ _ Hk) as [Hal _]. destruct (kl_image _ _ Hk) as [Hps [Hlo Hhi]].
  apply bool_decide_eq_true. split; [by apply Z.div_le_mono|]. rewrite PAGE_SIZE_val in *. Z.div_mod_to_equations. lia.
Qed.

(** The pages of the kernel's view: that of [header], which is present. *)
Lemma header_view wd (vctx : vmm_context) A :
  (∀ va, is_u32 va → PAGE_DIRECTORY_INDEX va ≠ 1023 → kernel_page_at mi kctx wd va) →
  view_ok mi (boot_thread mi kctx vctx) E wd header_page ∧ view_backed (boot_thread mi kctx vctx) wd A header_page.
Proof.
  intros Hp. pose proof (layout_base _ _ Hk) as [Hal Hhr]. pose proof (lo_paging _ _ _ _ (kl_layout _ _ Hk)) as Hctx.
  assert (Hhead : ∀ x, is_u32 x → x / PAGE_SIZE = header_addr / PAGE_SIZE →
    region_ok mi kctx wd x ∧ present (word wd (pde_addr kctx x)) = true ∧ present (word wd (pte_addr kctx x)) = true ∧
    frame (word wd (pte_addr kctx x)) = header_frame).
  { intros x Hx Hpage. destruct (header_translation _ _ x Hk Hx Hpage) as [Ht Hd]. specialize (Hp x Hx Hd).
    unfold kernel_page_at in Hp. rewrite Ht in Hp. destruct (kernel_translation_range mi x _ Hx Hal Hhr Ht) as [Hpa _].
    destruct (page_at_entries mi kctx Hctx Hal Hhr wd x _ Hx Hpa Hp) as (? & ? & ? & ->). split_and!; [done..|].
    unfold header_frame. rewrite <- Hpage, PAGE_SIZE_val. Z.div_mod_to_equations. lia. }
  split; [split|].
  - intros x f Hx Hf. apply header_page_some in Hf as [Hpage ->]. destruct (Hhead x Hx Hpage) as (Hr & _ & _ & Hf). by split.
  - intros x Hx HE _. destruct (kl_pages _ _ Hk x Hx HE) as [Ht Hd]. specialize (Hp x Hx Hd). unfold kernel_page_at in Hp.
    rewrite Ht in Hp. by apply (no_page_entries mi kctx).
  - intros n f Hf. apply header_page_some in Hf as [-> ->]. left. intros x Hx Hpage. by destruct (Hhead x Hx Hpage) as (_ & ? & ? & _).
Qed.

(** With the memory managers up the machine is ready for the tasks. *)
Lemma memory_ready b b' (vctx : vmm_context) (n j : nat) :
  cold_start b es a w h n → memory_up mi pd pt es a w h (parts_of b) (kctx, vctx) (parts_of b') →
  Z.of_nat (15 + j) * (small + sizeof_header) < KERNEL_HEAP_SIZE - sizeof_header →
  ready_to_start mi header_addr header_frame E kctx (bt_machine b') vctx bl (reverse (entry_alloc <$> sections mi a)) header_page [] n j.
Proof.
  intros [_ Hs Hw Hbm (l & Hnd & Hlen & Hl) Hmem Hhm] Hup Hj. pose proof (kl_header _ _ Hk) as (Hh & Hfit & _).
  destruct Hup as [_ Hfr Hbok _ _ _ Hpages Hwords (bl' & Hctx & Hcov & Hbl) Hroom [= Et El Elp Eesp Eph]].
  cbn [fst snd parts_of pa_bitmap pa_words pa_vmm pa_rest] in *. rewrite (kl_ranges _ _ Hk) in Hbl. injection Hbl as <-.
  assert (Htaken : ∀ k, taken (k_bitmap (boot_kernel b')) k = boot_frame mi es a w h k || (frame_limit <=? k)).
  { intros k. unfold taken. by rewrite Hfr, Hbm, orb_false_r. }
  unfold boot_kernel in *. split; try done.
  - by eapply sections_allocs.
  - split_and!; [apply Hk| |by eapply kernel_dir_apart]. intros x Hx Hc%Hcov. destruct (kl_tables _ _ Hk) as (_ & _ & Ht).
    destruct (Ht x Hx) as (e & He & Hce). by destruct Hc as [_ Hno]; apply (Hno e).
  - by apply header_view.
  - by rewrite Et, El, Elp, Eesp.
  - by apply Hwords.
  - by apply Hroom.
  - split; [done|]. exists l. split_and!; [done|done|]. intros k Hkl. destruct (Hl k Hkl) as (? & ? & Hf). split; [done|].
    rewrite Htaken, Hf. apply Z.leb_gt. lia.
  - intros k Hkr Hf. rewrite Htaken in Hf. apply orb_false_iff in Hf as [Hf Hlim%Z.leb_gt]. rewrite Eph. by apply Hmem.
  - split_and!; [done|done|by unfold header_page; rewrite decide_True|by rewrite Eph].
  - destruct (header_frame_aligned _ _ Hk). split_and!; [done|done|]. rewrite Htaken. unfold boot_frame. by rewrite header_marked.
Qed.

Lemma module_ready b b' r epa file :
  module_ok b es epa file → memory_up mi pd pt es a w h (parts_of b) r (parts_of b') →
  file_ready header_frame epa file (bt_machine b').
Proof.
  intros [(Hf & Hal & Hnz) Hb [Hm _] Hkept] [_ Hfr _ _ _ _ _ _ _ _ [= _ _ _ _ Eph]].
  cbn [parts_of pa_bitmap] in Hfr. unfold boot_kernel in *. split; [|by rewrite Eph|].
  - split_and!; [done|done|done|]. intros Ee. rewrite Ee, header_marked in Hm. done.
  - unfold taken. rewrite Hfr. unfold boot_frame. destruct Hkept as [Hm'|Hlim].
    + rewrite Hm'. by rewrite !orb_true_r.
    + rewrite (proj2 (Z.leb_le _ _) Hlim). apply orb_true_r.
Qed.

(** *** The whole of kernel_main *)

(** What the boot loader leaves at [addr]: the tags [l], with the memory map and the frame
    buffer, and two modules, which start at [epa1] and [epa2]; the console is a screen, and
    the keyboard controller answers. *)
Record loaded b (addr : Z) (l : list (Z * Z)) (tag esz fb epa1 epa2 : Z) : Prop := {
  ld_info : info_ok (bt_info b) addr l tag esz es fb a w h;
  ld_console : console_ok h w b;
  ld_device : ready_controller device patience;
  ld_tags : 0 < u32 (addr + 8) ∧ ∀ q ty, (q, ty) ∈ tag_list (u32 (addr + 8)) l → readable (bt_info b) q ty;
  ld_modules : ∃ t1 t2 r, modules (u32 (addr + 8)) l = t1 :: t2 :: r ∧
    mod_start t1 (bt_info b) = Ok (epa1, bt_info b) ∧ mod_start t2 (bt_info b) = Ok (epa2, bt_info b)
}.

(** The blocks that the task creation needs fit into the heap. *)
Definition heap_suffices (pl1 pl2 : place) : Prop :=
  Z.of_nat (15 + startup_blocks (reverse (entry_alloc <$> sections mi a)) pl1 pl2) * (small + sizeof_header) <
  KERNEL_HEAP_SIZE - sizeof_header.

(** C1: kernel_main, as a whole.  From a cold machine with the kernel laid out as the linker
    does, two modules whose programs can be loaded, enough frames and heap, zeros in the
    memory of the heap ([null_links]), and a keyboard controller that takes its commands
    ([ready_controller]), kernel_main, when no interrupt comes before its end (task_switch.S
    turns interrupts on within init_sched), comes to its idle loop with the system running: the booting thread is the first task and
    runs on; the ring has the three kernel tasks, the task of init and its child after it; the
    process ids are those of the order in which the tasks were made; every kernel task is ready
    to start in its function; the first switch to either user task enters its program in user
    mode; and the state satisfies the invariant of all later runs. *)
Theorem kernel_main_runs b addr l tag esz fb epa1 file1 o1 epa2 file2 o2 boot_stack pl1 pl2 ps :
  loaded b addr l tag esz fb epa1 epa2 → cold_start b es a w h startup_pages →
  module_ok b es epa1 file1 → module_ok b es epa2 file2 → program_ok file1 o1 → program_ok file2 o2 →
  places_ok E mi epa1 file1 o1 epa2 file2 o2 bl header_page [] boot_stack pl1 pl2 ps → heap_suffices pl1 pl2 →
  wp (kernel_main device (S patience) cpu_flags fault_state junk halt_addr remove_addr user_mode_addr header_addr test_task
        pd pt param mi MULTIBOOT2_BOOTLOADER_MAGIC addr)
     (λ r b', r = Idle ∧ ∃ p0 tests p1 p2,
        tasks_started halt_addr remove_addr user_mode_addr test_task header_frame mi kctx file1 o1 file2 o2 pl1 pl2 ps
          (bt_machine b') p0 tests p1 p2) b.
Proof.
  intros [Hi Hcon Hdev [Hpos Hread] (t1 & t2 & r & Hm & Hs1 & Hs2)] Hcold Hm1 Hm2 Hp1 Hp2 Hpl Hheap.
  destruct (layout_base _ _ Hk) as [Hal Hhr].
  eapply kernel_main_goes_on; [exact Hi|apply Hk|apply Hcold|exact Hcon|exact Hdev|exact Hread|exact Hpos|exact Hm|exact Hs1|exact Hs2|].
  intros [ctx vctx] b' Hup. pose proof (mu_context _ _ _ _ _ _ _ _ _ _ Hup) as Ec. cbn [fst snd] in *. subst ctx.
  eapply (start_tasks_ok fault_state junk Hjunk halt_addr remove_addr user_mode_addr header_addr test_task header_frame E mi Hal Hhr
    kctx vctx epa1 file1 o1 epa2 file2 o2 bl _ header_page [] boot_stack pl1 pl2 ps 0 0); [|exact Hpl|..|exact Hp1|exact Hp2].
  - apply (memory_ready b); [by rewrite Nat.add_0_r|exact Hup|by rewrite Nat.add_0_r].
  - by apply (module_ready b b' (kctx, vctx)).
  - by apply (module_ready b b' (kctx, vctx)).
Qed.

End Boot.

(** ** Witness *)

(** The allocator does not come to the area of the BIOS, at the frame 0x9F. *)
#[local] Instance low_memory : Limit := 0x9F.

(** The boot information of [map_mem] with two modules, at 0x3900000 and 0x3A00000. *)
Definition module_info : list Z :=
  le32 184 ++ le32 0 ++
  le32 MULTIBOOT_TAG_TYPE_MMAP ++ le32 88 ++ le32 24 ++ le32 0 ++
    concat ((λ e, le64 (me_addr e) ++ le64 (me_len e) ++ le32 (me_type e) ++ le32 0) <$> entries0) ++
  le32 MULTIBOOT_TAG_TYPE_FRAMEBUFFER ++ le32 32 ++ le32 0xB8000 ++ le32 0 ++ le32 160 ++ le32 80 ++
    le32 25 ++ le32 0 ++
  le32 MULTIBOOT_TAG_TYPE_MODULE ++ le32 24 ++ le32 0x3900000 ++ le32 0x3901000 ++ le32 0 ++ le32 0 ++
  le32 MULTIBOOT_TAG_TYPE_MODULE ++ le32 24 ++ le32 0x3A00000 ++ le32 0x3A01000 ++ le32 0 ++ le32 0 ++
  le32 MULTIBOOT_TAG_TYPE_END ++ le32 8.
Definition module_mem : mem := boot_mem_from 0x10000 module_info.
Definition module_tags : list (Z * Z) := [(6, 88); (8, 32); (3, 24); (3, 24)].

(** 1.2 MB of memory, and hello_userspace in both modules. *)
Definition boot_phys : mem := mem_of 0x3900000 hello_file ∪ (mem_of 0x3A00000 hello_file ∪ blank 0x120000).
Definition boot_start : boot :=
  mk_boot (mk_machine (mk_kernel (SchedStore (KHeap 0 ∅) ∅ ∅ 0 0 0 (mk_task_list 0 TASK_PRIORITY_LOW 0) 0 (mk_cpu_state 0xC0113FF0 0 0))
                         ∅ ∅ ∅ ∅ ps2_0 0) boot_phys)
    module_mem (mk_tty 0 0 0 0 0 0 (replicate 2000 0)).
Definition boot_header : Z := 0xC0113F00.

(** The pages that the kernel maps and unmaps: of the segments, and of the two files. *)
Definition boot_page (n : Z) : Prop := n = 0x8048 ∨ n = 0xC0800 ∨ n = 0xC080C.

(** The free ranges: at first, before and after the first segment has gone through the page
    0x8048000. *)
Definition free_behind (v n : Z) : list (Z * Z) := [(0xC0001000, 260); (v, n); (0xE3000000, 0x1D000)].
Definition boot_free : list (Z * Z) := (0, 0xC0000) :: free_behind 0xC0800000 0x1F800.
Definition boot_free0 (v n : Z) : list (Z * Z) := (0xA000, 0xBFFF6) :: free_behind v n.
Definition boot_free1 (v n : Z) : list (Z * Z) :=
  (0xA000, 0x803E) :: (0x8048000, 1) :: (0x8049000, 0xB7FB7) :: free_behind v n.

Definition init_place : place :=
  Place 0xC0800000 (boot_free0 0xC0801000 0x1F7FF) 0xC0801000 (boot_free0 0xC080B000 0x1F7F5)
    0xC080B000 (boot_free0 0xC080C000 0x1F7F4).
Definition child_place : place :=
  Place 0xC080C000 (boot_free1 0xC080D000 0x1F7F3) 0xC080D000 (boot_free1 0xC0817000 0x1F7E9)
    0xC0817000 (boot_free1 0xC0818000 0x1F7E8).
Definition test_stacks : list (Z * list (Z * Z)) :=
  [(0xC0818000, boot_free1 0xC0822000 0x1F7DE); (0xC0822000, boot_free1 0xC082C000 0x1F7D4);
   (0xC082C000, boot_free1 0xC0836000 0x1F7CA)].

Lemma module_tags_ok : tags_at module_mem (u32 (0x10000 + 8)) module_tags.
Proof.
  cbn [tags_at module_tags]. unfold tag_type, tag_size.
  split_and!; first [done | apply load32_value; vm_compute; reflexivity | vm_compute; congruence].
Qed.

Lemma module_map_at : map_at module_mem 0x10008 24 entries0.
Proof.
  split; [apply load32_value; by vm_compute..|done|split; by vm_compute|].
  cbn [entries_at entries0]. unfold mmap_addr, mmap_len, mmap_type. split_and!; first [done|read_tag].
Qed.

Lemma module_fb :
  framebuffer_addr 0x10060 module_mem = Ok (0xB8000, module_mem) ∧ tag_size 0x10060 module_mem = Ok (32, module_mem) ∧
  framebuffer_width 0x10060 module_mem = Ok (80, module_mem) ∧ framebuffer_height 0x10060 module_mem = Ok (25, module_mem).
Proof. split_and!; [eapply load64_value; by vm_compute|apply load32_value; by vm_compute..]. Qed.

Lemma module_info_ok : info_ok module_mem 0x10000 module_tags 0x10008 24 entries0 0x10060 0xB8000 80 25.
Proof.
  destruct module_fb as (Ha & _ & Hw & Hh).
  split; [exact module_tags_ok|by vm_compute|exact module_map_at|exact entries0_ok|by vm_compute|exact Ha|exact Hw|exact Hh|by vm_compute].
Qed.

Lemma module_readable q ty : (q, ty) ∈ tag_list (u32 (0x10000 + 8)) module_tags → readable module_mem q ty.
Proof.
  assert (Et : tag_list (u32 (0x10000 + 8)) module_tags = [(0x10008, 6); (0x10060, 8); (0x10080, 3); (0x10098, 3)]) by by vm_compute.
  rewrite Et. intros [[= -> ->]|[[= -> ->]|[[= -> ->]|[= -> ->]%list_elem_of_singleton]%elem_of_cons]%elem_of_cons]%elem_of_cons;
    split; intros Hty; try by vm_compute in Hty.
  - exists 24, entries0. exact module_map_at.
  - exists 0xB8000, 32, 80, 25. exact module_fb.
Qed.

Lemma module_starts :
  mod_start 0x10080 module_mem = Ok (0x3900000, module_mem) ∧ mod_start 0x10098 module_mem = Ok (0x3A00000, module_mem).
Proof. split; apply load32_value; by vm_compute. Qed.

Lemma boot_loaded : loaded idle 0 0xB8000 80 25 entries0 boot_start 0x10000 module_tags 0x10008 24 0x10060 0x3900000 0x3A00000.
Proof.
  split; cbn [bt_info boot_start].
  - exact module_info_ok.
  - split_and!; [done|done|done|]. by cbn [bt_tty boot_start cells]; rewrite length_replicate.
  - exact (idle_ready 0).
  - split; [by vm_compute|exact module_readable].
  - exists 0x10080, 0x10098, []. split; [by vm_compute|exact module_starts].
Qed.

Lemma boot_layout : kernel_layout boot_header meminfo0 0xC0110000 0xC0200000 boot_page 0xB8000 boot_free.
Proof.
  split.
  - exact layout0_ok.
  - by vm_compute.
  - repeat (apply Forall_cons_2; [by vm_compute|]). by apply Forall_nil_2.
  - split; [by vm_compute|]. split; [by vm_compute|]. intros x Hx.
    exists (AddrSpaceEntry 0xC0110000 0xC0110000 1776 3). split; [by do 3 right; left|].
    unfold contains, alloc_end. simpl. rewrite PAGE_SIZE_val. unfold table_addr in Hx. simpl in Hx. lia.
  - split_and!; by vm_compute.
  - split_and!; by vm_compute.
  - intros x Hx HE. assert (Hb : 0xC0800000 <= x < 0xC0900000 ∨ x < 0x8049000).
    { unfold boot_page in HE. rewrite PAGE_SIZE_val in HE. unfold is_u32 in Hx. Z.div_mod_to_equations. lia. }
    unfold is_u32 in Hx. split.
    + unfold kernel_translation. change (higher_half_base meminfo0) with 0xC0000000. change (virtual_end meminfo0) with 0xC0800000.
      unfold KERNEL_HEAP_VIRT_START, KERNEL_HEAP_SIZE. rewrite PAGE_SIZE_val.
      rewrite !decide_False; [done|lia|Z.div_mod_to_equations; lia].
    + rewrite PAGE_DIRECTORY_INDEX_div. change (2 ^ 22) with 4194304. Z.div_mod_to_equations. lia.
Qed.

Lemma boot_mapped p n : 0 <= p → p + n <= 0x120000 → mapped boot_phys p n.
Proof. intros Hp Hn. apply file_mapped, file_mapped, blank_mapped; [exact hello_bytes|exact hello_bytes|done|done]. Qed.

Lemma boot_cold : cold_start boot_header meminfo0 boot_start entries0 0xB8000 80 25 startup_pages.
Proof.
  split; unfold boot_kernel; cbn [bt_machine boot_start mc_kernel mc_phys k_sched ss_tasks ss_lists k_last_pid ss_cpu cpu_esp k_words k_bitmap].
  - split_and!; [done|done|exact empty_ok].
  - split_and!; [done|done|done|by vm_compute].
  - intros x. unfold word. rewrite lookup_empty. by vm_compute.
  - intros k. unfold page_used, bitmap_byte. rewrite lookup_empty. apply Z.bits_0.
  - exists (seqZ 0 84). split_and!; [apply NoDup_seqZ|by apply Nat.leb_le|].
    assert (Hall : forallb (λ k, negb (boot_frame meminfo0 entries0 0xB8000 80 25 k)) (seqZ 0 84) = true) by by vm_compute.
    rewrite forallb_forall in Hall. intros k Hk. split_and!; [apply elem_of_seqZ in Hk; lia..| |].
    + apply elem_of_seqZ in Hk. change (k < 0x9F). lia.
    + by apply negb_true_iff, Hall, list_elem_of_In.
  - intros k Hk Hlim _. change (k < 0x9F) in Hlim. apply boot_mapped; rewrite PAGE_SIZE_val; lia.
  - apply boot_mapped; by vm_compute.
Qed.

Lemma boot_modules :
  module_ok meminfo0 boot_start entries0 0x3900000 hello_file ∧ module_ok meminfo0 boot_start entries0 0x3A00000 hello_file.
Proof.
  split; (split; [split; [split; by vm_compute|by split]| |split; by vm_compute|right; by vm_compute]).
  - apply file_bytes, hello_bytes.
  - apply file_bytes_under; [by vm_compute|exact hello_bytes].
Qed.

(** An anonymous request takes the first pages of the range behind the image. *)
Lemma boot_anon0 v c n :
  pick meminfo0 0 n false (v, c) = true → forallb (λ b, negb (pick meminfo0 0 n false b)) [(0xA000, 0xBFFF6); (0xC0001000, 260)] = true →
  0 < n < c → ranges_from 0 (boot_free0 v c) → anon meminfo0 n (boot_free0 v c) v (boot_free0 (v + n * PAGE_SIZE) (c - n)).
Proof.
  intros Hp Hl. apply (anon_at meminfo0 n [_; _] v c [_]); [|done]. rewrite forallb_forall in Hl. apply Forall_forall.
  intros b Hb%list_elem_of_In%Hl. by apply negb_true_iff in Hb.
Qed.

Lemma boot_anon1 v c n :
  pick meminfo0 0 n false (v, c) = true →
  forallb (λ b, negb (pick meminfo0 0 n false b)) [(0xA000, 0x803E); (0x8048000, 1); (0x8049000, 0xB7FB7); (0xC0001000, 260)] = true →
  0 < n < c → ranges_from 0 (boot_free1 v c) → anon meminfo0 n (boot_free1 v c) v (boot_free1 (v + n * PAGE_SIZE) (c - n)).
Proof.
  intros Hp Hl. apply (anon_at meminfo0 n [_; _; _; _] v c [_]); [|done]. rewrite forallb_forall in Hl. apply Forall_forall.
  intros b Hb%list_elem_of_In%Hl. by apply negb_true_iff in Hb.
Qed.

Notation boot_view := (header_page boot_header meminfo0).
Notation pages_seen := [0xC0113; 0x8048; 0xC0800; 0xC080C].

(** The pages of a kernel stack are none of those that matter. *)
Lemma boot_stack_page (F : Z → option Z) stk :
  (∀ m, is_Some (F m) → m = 0xC0113 ∨ boot_page m) →
  forallb (λ m, negb (bool_decide (stk / PAGE_SIZE < m < stk / PAGE_SIZE + 10))) pages_seen = true →
  ∀ m, stack_page stk m → F m = None ∧ ¬ boot_page m.
Proof.
  intros HF Hl m Hm. rewrite forallb_forall in Hl.
  assert (Hno : ∀ x, m = x → x ∈ pages_seen → False).
  { intros x -> Hx%list_elem_of_In%Hl. apply negb_true_iff, bool_decide_eq_false in Hx. by apply Hx. }
  assert (Hp : ¬ boot_page m) by (intros [Em|[Em|Em]]; apply (Hno _ Em); set_solver).
  split; [|done]. apply eq_None_not_Some. intros [Em|?]%HF; [|done]. apply (Hno _ Em). set_solver.
Qed.

Lemma boot_region (F : Z → option Z) :
  (∀ m, is_Some (F m) → m = 0xC0113 ∨ m = 0xC0800 ∨ m = 0xC080C) →
  ∀ m, is_Some (F m) → PAGE_DIRECTORY_INDEX (m * PAGE_SIZE) ≠ PAGE_DIRECTORY_INDEX 0x8048054.
Proof. intros HF m [->|[->| ->]]%HF; by vm_compute. Qed.

Lemma boot_view_some m : is_Some (boot_view m) → m = 0xC0113.
Proof. intros [f [-> _]%header_page_some]. by vm_compute. Qed.

Lemma add_page_some n f F m : is_Some (add_page n f F m) → m = n ∨ is_Some (F m).
Proof. unfold add_page. case_decide; auto. Qed.

Lemma init_view m : is_Some (page_after 0x3900000 init_place boot_view m) → m = 0xC0113 ∨ m = 0xC0800 ∨ m = 0xC080C.
Proof. intros [->|Hm%boot_view_some]%add_page_some; [right; by left|by left]. Qed.

Lemma child_view m : is_Some (page_after 0x3A00000 child_place (page_after 0x3900000 init_place boot_view) m) →
  m = 0xC0113 ∨ m = 0xC0800 ∨ m = 0xC080C.
Proof. intros [->|Hm%init_view]%add_page_some; [by do 2 right|done]. Qed.

Lemma init_place_ok :
  place_ok meminfo0 boot_page 0x3900000 hello_file 52 (boot_free0 0xC0800000 0x1F800) boot_view [] init_place.
Proof.
  assert (Ev : seg_vaddr hello_file 52 = 0x8048054) by by vm_compute.
  assert (Ep : seg_page hello_file 52 = 0x8048000) by by vm_compute.
  split; rewrite ?Ev, ?Ep; cbn [pl_file pl_free1 pl_stack pl_free2 pl_dir pl_free3 init_place]; clear Ev Ep.
  - split_and!; [apply (boot_anon0 0xC0800000 0x1F800 1); by vm_compute|by vm_compute|right; by left|by vm_compute].
  - split_and!; [apply (boot_anon0 0xC0801000 0x1F7FF 10); by vm_compute|by vm_compute|].
    apply boot_stack_page; [|by vm_compute]. intros m Hm%boot_view_some. by left.
  - split; [apply (boot_anon0 0xC080B000 0x1F7F5 1); by vm_compute|by vm_compute].
  - split_and!; [exists (0xA000, 0xBFFF6); split; [left|by vm_compute]|by left|by vm_compute].
  - split_and!; [by vm_compute|by vm_compute|by intros Hv%elem_of_nil].
  - apply boot_region. exact init_view.
  - split; [exists (0xA000, 0xBFFF6); split; [left|by vm_compute]|left; by vm_compute].
Qed.

Notation stubs1 := (stubs_after hello_file 52 []).

Lemma child_place_ok :
  place_ok meminfo0 boot_page 0x3A00000 hello_file 52 (boot_free1 0xC080C000 0x1F7F4) (page_after 0x3900000 init_place boot_view)
    stubs1 child_place.
Proof.
  assert (Ev : seg_vaddr hello_file 52 = 0x8048054) by by vm_compute.
  assert (Ep : seg_page hello_file 52 = 0x8048000) by by vm_compute.
  split; rewrite ?Ev, ?Ep; cbn [pl_file pl_free1 pl_stack pl_free2 pl_dir pl_free3 child_place]; clear Ev Ep.
  - split_and!; [apply (boot_anon1 0xC080C000 0x1F7F4 1); by vm_compute|by vm_compute|right; by right|by vm_compute].
  - split_and!; [apply (boot_anon1 0xC080D000 0x1F7F3 10); by vm_compute|by vm_compute|].
    apply boot_stack_page; [|by vm_compute]. intros m [?|[?|?]]%init_view; [by left|right; right; by left|right; by do 2 right].
  - split; [apply (boot_anon1 0xC0817000 0x1F7E9 1); by vm_compute|by vm_compute].
  - split_and!; [exists (0x8048000, 1); split; [right; left|by vm_compute]|by left|by vm_compute].
  - split_and!; [by vm_compute|by vm_compute|]. intros Hv%list_elem_of_singleton. by vm_compute in Hv.
  - apply boot_region. exact child_view.
  - split; [exists (0x8049000, 0xB7FB7); split; [right; right; left|by vm_compute]|left; by vm_compute].
Qed.

Lemma test_stacks_ok :
  stacks_ok meminfo0 boot_page (boot_free1 0xC0818000 0x1F7E8) (page_after 0x3A00000 child_place (page_after 0x3900000 init_place boot_view))
    test_stacks.
Proof.
  assert (HF : ∀ m, is_Some (page_after 0x3A00000 child_place (page_after 0x3900000 init_place boot_view) m) → m = 0xC0113 ∨ boot_page m).
  { intros m [?|[?|?]]%child_view; [by left|right; right; by left|right; by do 2 right]. }
  split_and!; [apply (boot_anon1 0xC0818000 0x1F7E8 10); by vm_compute|by vm_compute|by apply boot_stack_page|].
  split_and!; [apply (boot_anon1 0xC0822000 0x1F7DE 10); by vm_compute|by vm_compute|by apply boot_stack_page|].
  split_and!; [apply (boot_anon1 0xC082C000 0x1F7D4 10); by vm_compute|by vm_compute|by apply boot_stack_page|done].
Qed.

Lemma boot_places :
  places_ok boot_page meminfo0 0x3900000 hello_file 52 0x3A00000 hello_file 52 boot_free boot_view []
    (0, boot_free0 0xC0800000 0x1F800) init_place child_place test_stacks.
Proof.
  assert (E1 : free_after meminfo0 hello_file 52 init_place = boot_free1 0xC080C000 0x1F7F4) by by vm_compute.
  assert (E2 : free_after meminfo0 hello_file 52 child_place = boot_free1 0xC0818000 0x1F7E8) by by vm_compute.
  split; rewrite ?E1, ?E2; clear E1 E2; [|exact init_place_ok|exact child_place_ok|split; [done|exact test_stacks_ok]].
  split_and!; [apply (anon_at meminfo0 10 [] 0 0xC0000 (free_behind 0xC0800000 0x1F800)); [by apply Forall_nil|by vm_compute..]|by vm_compute|].
  apply boot_stack_page; [|by vm_compute]. intros m Hm%boot_view_some. by left.
Qed.

Lemma kernel_main_runs_witness :
  wp (kernel_main idle 1 0x202 state0 zero_node 0xC0105000 0xC0106000 0xC0107000 boot_header 0xC0108000
        0xC0110000 0xC0200000 0 meminfo0 MULTIBOOT2_BOOTLOADER_MAGIC 0x10000)
     (λ r b', r = Idle ∧ ∃ l ts, system_ok (boot_kernel b') l ts 0 ∧
        ∀ i, pid_at (k_sched (boot_kernel b')) ts i = [0; 3; 4; 5; 1; 2] !! i) boot_start.
Proof.
  eapply wp_mono.
  - exact (kernel_main_runs idle 0 0x202 state0 zero_node zero_node_null 0xC0105000 0xC0106000 0xC0107000 boot_header 0xC0108000
      meminfo0 0xC0110000 0xC0200000 0 boot_page 0xB8000 80 25 entries0 boot_free boot_layout
      boot_start 0x10000 module_tags 0x10008 24 0x10060 0x3900000 hello_file 52 0x3A00000 hello_file 52
      (0, boot_free0 0xC0800000 0x1F800) init_place child_place test_stacks boot_loaded boot_cold (proj1 boot_modules) (proj2 boot_modules)
      hello_program hello_program boot_places eq_refl).
  - cbn beta. intros r b' [Hr (p0 & tests & p1 & p2 & [[l Hs] Hp _ _])]. split; [exact Hr|]. by exists l, (p0 :: tests ++ [p1; p2]).
Defined.

(** ** Departures *)

(** pmm_init does not reserve the modules: the frame of the first one is free when the tasks
    are created, and only the order in which frames are handed out keeps the program in it. *)
Theorem modules_not_reserved :
  wp (start_memory 0xC0110000 0xC0200000 0 meminfo0 0x10000)
     (λ _ b', page_used (k_bitmap (boot_kernel b')) 0x3900 = false) boot_start.
Proof.
  eapply wp_mono.
  - exact (start_memory_ok meminfo0 0xC0110000 0xC0200000 0 0x10000 module_tags 0x10008 24 entries0 0x10060 0xB8000 80 25
      boot_start module_info_ok layout0_ok (cs_cold _ _ _ _ _ _ _ _ boot_cold)).
  - cbn beta. intros r b' Hup.
    exact (eq_trans (mu_frames _ _ _ _ _ _ _ _ _ _ Hup 0x3900)
      (eq_refl : boot_frame meminfo0 entries0 0xB8000 80 25 0x3900 || page_used ∅ 0x3900 = false)).
Qed.

(** The first frame that is handed out is the frame 0, whose address stands for "no frame
    yet" in an allocation. *)
Theorem first_frame_is_zero :
  wp (start_memory 0xC0110000 0xC0200000 0 meminfo0 0x10000)
     (λ _ b', lowest_free (k_bitmap (boot_kernel b')) 0) boot_start.
Proof.
  eapply wp_mono.
  - exact (start_memory_ok meminfo0 0xC0110000 0xC0200000 0 0x10000 module_tags 0x10008 24 entries0 0x10060 0xB8000 80 25
      boot_start module_info_ok layout0_ok (cs_cold _ _ _ _ _ _ _ _ boot_cold)).
  - cbn beta. intros r b' Hup. split_and!; [exact (mu_bitmap _ _ _ _ _ _ _ _ _ _ Hup)|done|done| |intros j Hj; lia].
    exact (eq_trans (mu_frames _ _ _ _ _ _ _ _ _ _ Hup 0)
      (eq_refl : boot_frame meminfo0 entries0 0xB8000 80 25 0 || page_used ∅ 0 = false)).
Qed.
